(* ===== verification/_CoqProject ===== *)
-Q . S2P
Prelude.v
Protocol.v
Crc.v
Interleave.v
RelyGuarantee.v
Events.v
EventsConcurrent.v
DataStorage.v
DeviceInfo.v
Platform.v
Params.v
Isdu.v
IsduServices.v
IsduContract.v
IsduTheorems.v
Phy.v
Dll.v
DllProcess.v
DllSteps.v
DllFrames.v
DllLoop.v
DllRefine.v
DllStep.v
DllSettings.v
DllRate.v
Line.v
Core.v
CoreInit.v
DllReady.v
DllTheorems.v
IsduLine.v
CoreTheorems.v
ProcessDataRace.v
OutputRace.v
Words.v
Persist.v
Boot.v
Inactivity.v
Demo.v
ZephyrApp.v
BareMetal.v
