(* ===== verification/Prelude.v ===== *)
(** * iolinki: a verification library of the IO-Link device stack

    iolinki is a C implementation of an IO-Link device: a data link layer that
    exchanges short frames (M-sequences) with a master over a PHY, an ISDU
    engine that carries acyclic requests in the on-request bytes of those
    frames, the services the requests reach (identification, parameters, events,
    Data Storage), and a facade of two globals through which an application
    starts and drives the stack.  This library models the C sources under
    src/src and the headers under src/include/iolinki, function by function
    under their C names, and proves what they do.

    ** How the code is modelled

    - A [uintN_t] is a [Z]; each store goes through [u8], [u16], [u32] or [u64],
      so wrap-around is part of every definition.  Bit operations are those of
      [Z].  Arrays are lists of their length, enumerations inductive types,
      structures records with updates ([r <| f := v |>]).
    - A C function is a computation of the monad [M S A] (this file) over the
      state [S] it can reach.  Its outcome is [Done (result, state)] or a
      [Fault]: an index outside a buffer, a NULL pointer followed, a loop out of
      fuel.  An access of the source is a checked access of the model ([rd],
      [wr], [slice], [blit], [strlen]), so a theorem that ends in [Done] also
      says that the code stays in bounds.
    - A component works on its own state; [zoom] with a lens runs it on its part
      of a larger one, the way the C code passes a pointer into a structure.
    - [wp m Q s] is "from [s], [m] runs without fault and ends in [Q]"; it
      includes termination.  Proofs are symbolic executions with its rules
      ([wp_step], [wp_branch], [wp_if]; [dll_step] for the data link layer).

    ** The parts, from the bottom

    - [Prelude]: words, buffers, the monad, lenses, record updates, [wp], and
      the tactics.
    - [Protocol]: protocol.h, config.h, the constants of events.h.
    - [Crc] (crc.c): the loop, its value as a fold, the division over GF(2).
    - [Interleave] (platform.h): threads as programs whose steps are single
      accesses to a shared state, critical sections that keep every other thread
      out, and the lemma that whole sections are then single steps;
      no run of such threads is infinite.
      [RelyGuarantee]: a logic for one thread among others on top of it.
    - [Events] (events.c, platform.c): the ring of four events and the FIFO it
      refines.  [EventsConcurrent]: the same operations as programs of accesses,
      called by any number of threads.
    - [DataStorage] (data_storage.c): the checksum and the transfer states.
    - [DeviceInfo] (device_info.c): the three globals, with the aliasing of the
      Application Tag: [default_info.application_tag] points into the tag buffer.
    - [Platform] (platform.h, time_utils.h, platform.c, platform_stubs.c, platform/linux,
      platform/baremetal, platform/zephyr): the class [Platform W] is the
      interface to memory and clocks over the platform's state [W]; the laws a
      client may use are the classes [NvmReadBounded] and [NvmPersistent]; the
      shipped implementations are in the modules [Stubs], [Weak], [LinuxNvm],
      [LinuxTime], [BareMetalTime] and [ZephyrTime].
    - [Params] (params.c): the shadow of the tags, its byte image in memory,
      get, set, factory reset and start-up.  State: [params_env], which holds
      the shadow, the device information and the hardware.
    - [Isdu] (isdu.c, transport): collecting a request, sending a response.
      [IsduServices] (isdu.c, services): what a request does, through the back
      links of the context, over [isdu_world]; and the contract: the answer and
      the effect of every request as pure functions.  [IsduContract] runs every
      handler against the contract; [IsduTheorems] has the results.
    - [Phy] (phy.h, phy_generic.c, phy_virtual.c): a PHY is a record of optional
      functions; [PhyKeeps], [PhyLaws] and [PhyQueue] are the laws the data link
      layer's theorems assume of it; the two drivers shipped.
    - [Dll] (dll.c but for [iolink_dll_process], dll.h, dll_internal.h) and
      [DllProcess] (dll.c, [iolink_dll_process]): the context
      [iolink_dll_ctx_t] with its events, Data Storage and ISDU engine inside,
      and the operations on [dll_sys], the context with the parameters and the
      hardware.  [DllSteps] executes each operation symbolically; [DllFrames]
      and [DllLoop] give the frame state machine ([frame_step], [byte_step],
      [bytes_step]) and [DllRefine] shows that the receive loop refines it;
      [DllStep] composes one call ([process_step]).  [DllSettings] and [DllRate]
      have two invariants: the configuration is never changed, and a device at
      COM1 stays there.  [DllReady] has the frames of a master.
    - [Line]: a hardware with a queue of received bytes and a list of sent
      frames that satisfies all the laws; the witnesses run on it.
    - [Core] (iolink_core.c, iolink.h, application.h): the globals and functions
      of the facade, over [core].  [CoreInit] executes [iolink_init].
    - [ProcessDataRace], [OutputRace] (iolink_core.c, dll.c): the process data
      between the thread of [iolink_process] and that of the application, in
      both directions.
    - [DllTheorems], [IsduLine], [CoreTheorems], [Boot], [Inactivity]: the
      theorems that compose the parts.  [Words]: the ranges of the words.
      [Persist]: the services, the parameters, the memory and [iolink_init]
      across a power cycle.
    - [Demo] (examples/host_demo, examples/simple_device): two programs that use
      the stack; it also shows that the virtual driver keeps the laws of a PHY,
      for any system whose POSIX calls behave as documented ([PosixLaws]).
      [ZephyrApp] (examples/zephyr_app): the same driver, configured from the
      environment.  [BareMetal] (examples/bare_metal_app): the super-loop over
      the tick counter of platform/baremetal.

    ** What the theorems show

    - The whole stack: no call faults, in any order, whatever the hardware does
      ([CoreTheorems.stack_never_faults]); start-up on every branch; from
      power-on to OPERATE ([Boot]); process data, and an ISDU request, end to
      end over frames; what happens to bytes during the power-on delay; what a
      second without a byte does.  The words of the context stay in the range of
      their C types ([Words.stack_holds_words]).
    - The data link layer: refinement of [process_step], with termination; the
      start-up sequence, cyclic exchange, three bad frames; every frame sent
      carries a right check.
    - The ISDU engine: refinement of the contract; requests and responses
      round-trip; protocol errors.
    - The components: FIFO refinement of the event queue, polynomial and error
      detection of the CRC, Fletcher-16, the Data Storage lock and results,
      write/read of the tags, access locks.  A tag written over the wire and
      read over the wire after a power cycle ([Persist]).
    - Threads: whatever the interleaving of the accesses of its callers, the event
      queue behaves as one FIFO that serves their calls one after the other
      ([EventsConcurrent.events_serialise]); the process data do not: a response
      can carry, and the application can be handed, a front of one cycle's data
      and the rest of another's, at every place and at no more than one
      ([ProcessDataRace.response_tears], [OutputRace.output_tears]).  Each
      program of accesses is shown to be, run alone, the sequential definition
      of its function ([call_alone], [update_alone], [respond_alone],
      [read_alone], [store_alone]).
    - The host demonstration: for any command line whose process data fit, its
      loop turns for ever without a fault, and it echoes the process data of the
      master, each byte plus one.  The bare-metal application ends, whatever is
      received and whatever its tick counter holds.
    - Consequences of missing checks or odd choices of the code, as theorems
      about what it does: a device that fell back to COM1 cannot reach OPERATE
      again before [iolink_init]; process data longer than their buffer overrun
      it; writes that are never answered; Data Storage commands that do nothing
      when no context is linked; the Linux memory that keeps its first image; an
      Application Tag that the memory holds and the start-up does not restore.

    ** Bounds and fuel

    Loops over a buffer are structural ([for_up], [for_acc]).  The loops whose
    end depends on the hardware take fuel: the receive loop and the power-on
    drain of [iolink_dll_process], and the wake-up scan of the virtual driver.
    Running out of fuel is a fault, and any fuel above the number of bytes the
    PHY has pending gives a result, the same one ([DllTheorems.dll_process_refines],
    [Phy.PhyVirtual.virtual_wakeup_consumes]): the loops end when
    [recv_byte] reports no byte, and each pass takes one.  The length of the
    list of pending bytes is unbounded.  The super-loop of the bare-metal
    application takes one unit a turn; 102 are enough from any count.

    ** Hypotheses

    On the PHY: a byte received is one the line held, the other functions leave
    the line alone, a frame the PHY accepts is added to those sent, one that it
    refuses is not.  They are shown for the
    generic and the virtual driver.  On the platform: clocks
    and memory do not touch the line, and a memory read fills at most the buffer
    it is given.  The values of the clocks, the bytes received, the voltage, the
    short-circuit flag and the results of the memory are arbitrary.  On the
    application: process data that fit the buffers ([config_ok]), buffers as
    long as the lengths given.

    ** Not modelled

    - The FreeRTOS example, which does not compile against iolink.h (it calls
      [iolink_init] with one argument).  The tests, the Python virtual master
      (tools) and the Zephyr glue.
    - Concurrency other than above.  Accesses are sequentially consistent and of
      the size the programs of accesses name (a [memcpy] of process data goes
      byte after byte); inside a critical section nobody else runs, as platform.h
      asks of an override, so with the empty defaults of platform.c the theorems
      on threads say nothing.  The thread of [iolink_process] is cut down to the
      parts that touch what the application may touch, and the two calls that
      set timing limits, single stores, and the copy of the events into an answer
      (isdu.c, which takes the same section) are not among the calls of the
      threads.
      Everything else is sequential: calls follow one another, and the interrupt
      that advances the bare-metal tick is a change of the platform's state
      between calls.
    - The text [printf] writes in the virtual driver, and the calls of the C
      library and of POSIX themselves (parameters, or state of the platform).
    - Configurations other than the defaults of config.h. *)
From stdpp Require Export base decidable option list numbers sets.
From Stdlib Require Export ZArith Lia.

(** [lia] handles division and remainder by constants. *)
Ltac Zify.zify_post_hook ::= Z.to_euclidean_division_equations.

(** ** Machine words *)
#[local] Open Scope Z_scope.

(** A value of a C unsigned type is a [Z] kept in range by the wrap-around of
    that type; every assignment to a [uintN_t] goes through [uN]. *)
Definition u8 (z : Z) : Z := z mod 256.
Definition u16 (z : Z) : Z := z mod 65536.
Definition u32 (z : Z) : Z := z mod 4294967296.
Definition u64 (z : Z) : Z := z mod 18446744073709551616.

Abbreviation is_u8 z := (0 <= z < 256).
Abbreviation is_u16 z := (0 <= z < 65536).
Abbreviation is_u32 z := (0 <= z < 4294967296).
Abbreviation is_u64 z := (0 <= z < 18446744073709551616).

Definition bytes_ok (l : list Z) : Prop := Forall (fun b => is_u8 b) l.

(** Bounds of the bitwise operations on [n]-bit words. *)
Lemma bits_bound a n : 0 <= n -> 0 <= a -> (a < 2 ^ n <-> Z.shiftr a n = 0).
Proof.
  intros Hn Ha. rewrite Z.shiftr_div_pow2 by done.
  pose proof (Z.pow_pos_nonneg 2 n). split; intros H1.
  - apply Z.div_small. lia.
  - apply Z.div_small_iff in H1; lia.
Qed.
Lemma lxor_bound a b n : 0 <= n -> 0 <= a < 2 ^ n -> 0 <= b < 2 ^ n -> 0 <= Z.lxor a b < 2 ^ n.
Proof.
  intros Hn [Ha Ha'] [Hb Hb'].
  assert (0 <= Z.lxor a b) by (apply Z.lxor_nonneg; lia). split; [done|].
  apply bits_bound; [done..|]. rewrite Z.shiftr_lxor.
  apply bits_bound in Ha' as ->; [|done..]. by apply bits_bound in Hb' as ->.
Qed.
Lemma lor_bound a b n : 0 <= n -> 0 <= a < 2 ^ n -> 0 <= b < 2 ^ n -> 0 <= Z.lor a b < 2 ^ n.
Proof.
  intros Hn [Ha Ha'] [Hb Hb'].
  assert (0 <= Z.lor a b) by (apply Z.lor_nonneg; lia). split; [done|].
  apply bits_bound; [done..|]. rewrite Z.shiftr_lor.
  apply bits_bound in Ha' as ->; [|done..]. by apply bits_bound in Hb' as ->.
Qed.
Lemma lor_shiftl a b n : 0 <= n -> 0 <= b < 2 ^ n -> Z.lor (Z.shiftl a n) b = a * 2 ^ n + b.
Proof.
  intros Hn Hb. rewrite <- Z.shiftl_mul_pow2 by done. symmetry.
  apply Z.add_nocarry_lor, Z.bits_inj'. intros k Hk. rewrite Z.land_spec, Z.bits_0.
  destruct (decide (k < n)).
  - by rewrite Z.shiftl_spec_low.
  - rewrite <- (Z.mod_small b (2 ^ n)), Z.mod_pow2_bits_high by lia. apply andb_false_r.
Qed.
Lemma lor_shiftl_8 a b : is_u8 b -> Z.lor (Z.shiftl a 8) b = 256 * a + b.
Proof. intros Hb. rewrite lor_shiftl by done. lia. Qed.
Lemma shiftr_8 a : Z.shiftr a 8 = a / 256.
Proof. by rewrite Z.shiftr_div_pow2. Qed.
Lemma land_ff a : Z.land a 0xff = a mod 256.
Proof. change 0xff with (Z.ones 8). by rewrite Z.land_ones. Qed.
Lemma u8_lxor a b : is_u8 a -> is_u8 b -> is_u8 (Z.lxor a b).
Proof. apply (lxor_bound a b 8). done. Qed.
Lemma u8_lor a b : is_u8 a -> is_u8 b -> is_u8 (Z.lor a b).
Proof. apply (lor_bound a b 8). done. Qed.
Lemma u8_small a : is_u8 a -> u8 a = a.
Proof. apply Z.mod_small. Qed.
Lemma u16_small a : is_u16 a -> u16 a = a.
Proof. apply Z.mod_small. Qed.
Lemma u32_small a : is_u32 a -> u32 a = a.
Proof. apply Z.mod_small. Qed.
Lemma u8_range a : is_u8 (u8 a).
Proof. by apply Z.mod_pos_bound. Qed.
Lemma u16_range a : is_u16 (u16 a).
Proof. by apply Z.mod_pos_bound. Qed.
Lemma u32_range a : is_u32 (u32 a).
Proof. by apply Z.mod_pos_bound. Qed.

(** A decidable statement on bytes holds when it holds of the 256 values. *)
Lemma u8_exhaust (P : Z -> Prop) `{!forall z, Decision (P z)} :
  forallb (fun z => bool_decide (P z)) (seqZ 0 256) = true -> forall z, is_u8 z -> P z.
Proof.
  intros HP z Hz. rewrite forallb_forall in HP. eapply bool_decide_eq_true_1, HP.
  apply list_elem_of_In, elem_of_seqZ. lia.
Qed.

(** Length of a buffer as the C [size_t] value. *)
Definition zlen {A} (l : list A) : Z := Z.of_nat (length l).

Lemma zlen_cons {A} (x : A) l : zlen (x :: l) = 1 + zlen l.
Proof. unfold zlen. cbn [length]. lia. Qed.
Lemma zlen_app {A} (l l' : list A) : zlen (l ++ l') = zlen l + zlen l'.
Proof. unfold zlen. rewrite length_app. lia. Qed.
Lemma zlen_nonneg {A} (l : list A) : 0 <= zlen l.
Proof. unfold zlen. lia. Qed.
Lemma zlen_insert {A} (l : list A) i x : zlen (<[i := x]> l) = zlen l.
Proof. unfold zlen. by rewrite length_insert. Qed.
Lemma zlen_replicate {A} n (x : A) : zlen (replicate n x) = Z.of_nat n.
Proof. unfold zlen. by rewrite length_replicate. Qed.
Lemma zlen_to_nat {A} (l : list A) : Z.to_nat (zlen l) = length l.
Proof. unfold zlen. lia. Qed.
Lemma zlen_take {A} (l : list A) n : 0 <= n <= zlen l -> zlen (take (Z.to_nat n) l) = n.
Proof. unfold zlen. rewrite length_take. lia. Qed.
Lemma zlen_drop {A} (l : list A) n : 0 <= n <= zlen l -> zlen (drop (Z.to_nat n) l) = zlen l - n.
Proof. unfold zlen. rewrite length_drop. lia. Qed.
Lemma zlen_blit {A} (dst src : list A) off :
  0 <= off -> off + zlen src <= zlen dst ->
  zlen (take (Z.to_nat off) dst ++ src ++ drop (Z.to_nat off + length src) dst) = zlen dst.
Proof. unfold zlen. rewrite !length_app, length_take, length_drop. lia. Qed.

(** A property of the elements of a list passes to its sublists, so that a
    sublist can be rewritten into the list in a goal. *)
#[export] Instance Forall_sublist_proper {A} (P : A -> Prop) :
  Proper (sublist ==> flip impl) (Forall P).
Proof. intros l1 l2 Hl H. induction Hl; try (inversion H; subst); auto. Qed.

(** Sequences of bytes; the hint database [bytes] closes these goals. *)
Lemma bytes_ok_nil : bytes_ok [].
Proof. constructor. Qed.
Lemma bytes_ok_cons x l : is_u8 x -> bytes_ok l -> bytes_ok (x :: l).
Proof. by constructor. Qed.
Lemma bytes_ok_app l l' : bytes_ok l -> bytes_ok l' -> bytes_ok (l ++ l').
Proof. intros. by apply Forall_app. Qed.
Lemma bytes_ok_take n l : bytes_ok l -> bytes_ok (take n l).
Proof. apply Forall_take. Qed.
Lemma bytes_ok_drop n l : bytes_ok l -> bytes_ok (drop n l).
Proof. apply Forall_drop. Qed.
Lemma bytes_ok_insert (l : list Z) i x : bytes_ok l -> is_u8 x -> bytes_ok (<[i := x]> l).
Proof. intros. by apply Forall_insert. Qed.
Lemma bytes_ok_replicate n : bytes_ok (replicate n 0).
Proof. by apply Forall_replicate. Qed.
Lemma bytes_ok_lookup l i x : bytes_ok l -> l !! i = Some x -> is_u8 x.
Proof. intros H. exact (proj1 (Forall_lookup _ l) H i x). Qed.

Create HintDb bytes.
#[export] Hint Resolve bytes_ok_nil bytes_ok_cons bytes_ok_app bytes_ok_take bytes_ok_drop
  bytes_ok_insert bytes_ok_replicate u8_range u16_range u32_range : bytes.
#[export] Hint Extern 2 (_ <= _ < _) => first [done | lia] : bytes.

(** A prefix of a buffer replaced and the byte after it set: what [memcpy]
    followed by the store of a terminator leaves. *)
Lemma insert_after_prefix {A} (src buf : list A) x :
  (length src < length buf)%nat ->
  <[length src := x]> (src ++ drop (length src) buf) = src ++ x :: drop (S (length src)) buf.
Proof.
  intros Hl. rewrite insert_app_r_alt by lia. f_equal.
  destruct (lookup_lt_is_Some_2 buf (length src) Hl) as [y Hy].
  rewrite (drop_S buf y) by done. by rewrite Nat.sub_diag.
Qed.
Lemma zlen_prefix {A} (src buf : list A) x :
  zlen src < zlen buf -> zlen (src ++ x :: drop (S (length src)) buf) = zlen buf.
Proof. unfold zlen. rewrite length_app. cbn. rewrite length_drop. lia. Qed.

(** ** Outcomes and the state monad

    A C function that may touch memory out of bounds, dereference NULL or loop
    is a computation [M S A] over the state [S] it reaches through its pointers
    and globals.  The faults are C's undefined behaviours the code could run
    into, and [OutOfFuel] for a loop cut short. *)
Inductive fault := OutOfBounds | NullDeref | OutOfFuel.

Inductive outcome (A : Type) : Type :=
| Done (a : A)
| Fault (e : fault).
Arguments Done {A} a.
Arguments Fault {A} e.

Definition M (S A : Type) : Type := S -> outcome (A * S).

#[export] Instance M_ret {S} : MRet (M S) := fun A a s => Done (a, s).
#[export] Instance M_bind {S} : MBind (M S) := fun A B f m s =>
  match m s with
  | Done (a, s') => f a s'
  | Fault e => Fault e
  end.

Section primitives.
Context {S : Type}.

Definition gets {A} (f : S -> A) : M S A := fun s => Done (f s, s).
Definition modify (f : S -> S) : M S unit := fun s => Done (tt, f s).
Definition raise {A} (e : fault) : M S A := fun _ => Fault e.

(** [if (P) { m }] *)
Definition when (P : Prop) `{!Decision P} (m : M S unit) : M S unit :=
  if decide P then m else mret tt.

(** [buf[i]] read, out of bounds a fault. *)
Definition rd {A} (buf : list A) (i : Z) : M S A :=
  if decide (0 <= i) then
    match buf !! Z.to_nat i with
    | Some x => mret x
    | None => raise OutOfBounds
    end
  else raise OutOfBounds.

(** [buf[i] = x]: the buffer after the store. *)
Definition wr {A} (buf : list A) (i : Z) (x : A) : M S (list A) :=
  if decide (0 <= i < zlen buf) then mret (<[Z.to_nat i := x]> buf)
  else raise OutOfBounds.

(** The [n] elements from [off] on: the source side of a [memcpy]. *)
Definition slice {A} (buf : list A) (off n : Z) : M S (list A) :=
  if decide (0 <= off /\ 0 <= n /\ off + n <= zlen buf) then
    mret (take (Z.to_nat n) (drop (Z.to_nat off) buf))
  else raise OutOfBounds.

(** The destination side of a [memcpy]: [src] stored from [off] on. *)
Definition blit {A} (dst : list A) (off : Z) (src : list A) : M S (list A) :=
  if decide (0 <= off /\ off + zlen src <= zlen dst) then
    mret (take (Z.to_nat off) dst ++ src ++ drop (Z.to_nat off + length src) dst)
  else raise OutOfBounds.

(** [memcpy(dst, buf, n); dst[n] = x;] on a buffer [dst]. *)
Definition copy_terminate {A} (dst buf : list A) (n : Z) (x : A) : M S (list A) :=
  src ← slice buf 0 n;
  d ← blit dst 0 src;
  wr d n x.

(** [for (i = i0; i < i0 + n; i++) body(i)] *)
Fixpoint for_up (n : nat) (i : Z) (body : Z -> M S unit) : M S unit :=
  match n with
  | O => mret tt
  | Datatypes.S n' => body i ;; for_up n' (i + 1) body
  end.

(** The same loop carrying a local variable [a] updated by the body. *)
Fixpoint for_acc {A} (n : nat) (i : Z) (a : A) (body : Z -> A -> M S A) : M S A :=
  match n with
  | O => mret a
  | Datatypes.S n' => a' ← body i a; for_acc n' (i + 1) a' body
  end.
End primitives.

(** [strlen] on an array of chars: the index of the first NUL, [None] when the
    array holds none (C would read past its end). *)
Fixpoint c_strlen (s : list Z) : option Z :=
  match s with
  | [] => None
  | c :: s' => if decide (c = 0) then Some 0 else Z.succ <$> c_strlen s'
  end.

Definition strlen {S} (s : list Z) : M S Z :=
  match c_strlen s with
  | Some n => mret n
  | None => raise OutOfBounds
  end.

(** ** Lenses: running a component on its part of a larger state *)
Record lens (S T : Type) := Lens { view : S -> T; put : T -> S -> S }.
Arguments Lens {S T} view put.
Arguments view {S T} l s.
Arguments put {S T} l t s.

Definition zoom {S T A} (l : lens S T) (m : M T A) : M S A := fun s =>
  match m (view l s) with
  | Done (a, t) => Done (a, put l t s)
  | Fault e => Fault e
  end.

(** ** Record update

    [Eta R] lists the fields of [R]; the update of a field is derived from it by
    abstracting that projection. *)
Class Eta (R : Type) := eta : R -> R.
Class Update {R T : Type} (proj : R -> T) := update : (T -> T) -> R -> R.
#[global] Arguments update {R T} proj {Update} g r.

Ltac derive_update :=
  lazymatch goal with
  | |- @Update ?R ?T ?p =>
    let e := constr:(@eta R _) in
    let e := eval hnf in e in
    let e := eval pattern p in e in
    lazymatch e with
    | ?F _ =>
      let u := constr:(fun (g : T -> T) (r : R) => F (fun r' => g (p r')) r) in
      let u := eval cbv beta in u in
      exact u
    end
  end.

Declare Scope rec_scope.
Delimit Scope rec_scope with rec.
Notation "r <| f := v |>" := (update f (fun _ => v) r)
  (at level 1, left associativity, f at level 200, v at level 200,
   format "r  <| f  :=  v |>") : rec_scope.
Open Scope rec_scope.

(** [ctx->f = v] *)
Definition assign {R T} (f : R -> T) `{!Update f} (v : T) : M R unit :=
  modify (fun r => r<| f := v |>).

(** Projections of updated records, one rewriting step per projection: the
    equation is proved for a variable record, so that no conversion compares
    two large records. *)
Ltac rec_equation p R T q i g :=
  match goal with
  | _ => let _ := match goal with _ => constr_eq p q end in
         constr:(fun r : R => @eq_refl T (g (p r)) : p (@update R T q i g r) = g (p r))
  | _ => let U := type of p in
         let U := lazymatch U with _ -> ?U => U end in
         constr:(fun r : R => @eq_refl U (p r) : p (@update R T q i g r) = p r)
  end.
Ltac rec_simpl_in_goal :=
  repeat match goal with
  | |- context [ ?p (@update ?R ?T ?q ?i ?g ?r) ] =>
    let e := rec_equation p R T q i g in
    pattern (p (@update R T q i g r));
    lazymatch goal with |- ?F _ => refine (eq_ind_r F _ (e r)) end; cbv beta
  end.
Ltac rec_simpl_in H :=
  repeat match type of H with
  | context [ ?p (@update ?R ?T ?q ?i ?g ?r) ] =>
    let e := rec_equation p R T q i g in
    pattern (p (@update R T q i g r)) in H;
    lazymatch type of H with
    | ?F _ =>
      let H' := fresh in
      pose proof (eq_ind _ F H _ (e r)) as H'; cbv beta in H'; clear H; rename H' into H
    end
  end.
Ltac rec_simpl_everywhere :=
  rec_simpl_in_goal; repeat match goal with H : _ |- _ => progress rec_simpl_in H end.
Tactic Notation "rec_simpl" "in" "*" := rec_simpl_everywhere.
Tactic Notation "rec_simpl" := rec_simpl_in_goal.
Tactic Notation "rec_simpl" "in" hyp(H) := rec_simpl_in H.

(** ** Weakest preconditions

    [wp m Q s]: run from [s], [m] hits no fault and its result and final state
    satisfy [Q].  It is total: a computation that faults or runs out of fuel
    satisfies no [Q]. *)
Definition wp {S A} (m : M S A) (Q : A -> S -> Prop) (s : S) : Prop :=
  match m s with
  | Done (a, s') => Q a s'
  | Fault _ => False
  end.
#[global] Arguments wp : simpl never.

(** [preserves I m]: from a state in [I], [m] runs without fault and ends in [I]. *)
Definition preserves {S A} (I : S -> Prop) (m : M S A) : Prop :=
  forall s, I s -> wp m (fun _ s' => I s') s.

Section wp_rules.
Context {S : Type}.
Implicit Types s : S.

Lemma wp_done {A} (m : M S A) Q s :
  wp m Q s <-> exists a s', m s = Done (a, s') /\ Q a s'.
Proof.
  unfold wp. destruct (m s) as [[a s']|e]; split; try done.
  - eauto.
  - by intros (? & ? & [= -> ->] & ?).
  - by intros (? & ? & ? & ?).
Qed.

Lemma wp_elim {A} (m : M S A) Q s a s' : wp m Q s -> m s = Done (a, s') -> Q a s'.
Proof. unfold wp. intros H E. by rewrite E in H. Qed.

Lemma wp_intro {A} (m : M S A) (Q : A -> S -> Prop) s a s' :
  m s = Done (a, s') -> Q a s' -> wp m Q s.
Proof. unfold wp. by intros ->. Qed.

Lemma wp_mono {A} (m : M S A) (Q Q' : A -> S -> Prop) s :
  wp m Q s -> (forall a s', Q a s' -> Q' a s') -> wp m Q' s.
Proof. unfold wp. destruct (m s) as [[??]|]; auto. Qed.

Lemma wp_and {A} (m : M S A) (Q Q' : A -> S -> Prop) s :
  wp m Q s -> wp m Q' s -> wp m (fun a s' => Q a s' /\ Q' a s') s.
Proof. unfold wp. destruct (m s) as [[??]|]; auto. Qed.

Lemma wp_exact {A} (m : M S A) s a s' :
  wp m (fun a' s1 => a' = a /\ s1 = s') s -> m s = Done (a, s').
Proof. unfold wp. destruct (m s) as [[??]|]; naive_solver. Qed.

Lemma wp_ret {A} (a : A) (Q : A -> S -> Prop) s : Q a s -> wp (mret a) Q s.
Proof. done. Qed.

Lemma wp_bind {A B} (m : M S A) (f : A -> M S B) Q s :
  wp m (fun a s' => wp (f a) Q s') s -> wp (m ≫= f) Q s.
Proof. unfold wp, mbind, M_bind. by destruct (m s) as [[??]|]. Qed.

Lemma wp_bind_inv {A B} (m : M S A) (f : A -> M S B) Q s :
  wp (m ≫= f) Q s -> wp m (fun a s' => wp (f a) Q s') s.
Proof. unfold wp, mbind, M_bind. by destruct (m s) as [[??]|]. Qed.

Lemma wp_gets {A} (f : S -> A) (Q : A -> S -> Prop) s : Q (f s) s -> wp (gets f) Q s.
Proof. done. Qed.

Lemma wp_modify (f : S -> S) (Q : unit -> S -> Prop) s : Q tt (f s) -> wp (modify f) Q s.
Proof. done. Qed.

Lemma wp_assign {T} (f : S -> T) `{!Update f} v (Q : unit -> S -> Prop) s :
  Q tt (s<| f := v |>) -> wp (assign f v) Q s.
Proof. done. Qed.

Lemma wp_when (P : Prop) `{!Decision P} m (Q : unit -> S -> Prop) s :
  (P -> wp m Q s) -> (~ P -> Q tt s) -> wp (when P m) Q s.
Proof. unfold when. case_decide; intros H1 H2; [by apply H1 | by apply wp_ret, H2]. Qed.

Lemma wp_rd {A} (buf : list A) i (Q : A -> S -> Prop) s :
  0 <= i < zlen buf ->
  (forall x, buf !! Z.to_nat i = Some x -> Q x s) -> wp (rd buf i) Q s.
Proof.
  intros Hi HQ. unfold rd. rewrite decide_True by lia.
  destruct (lookup_lt_is_Some_2 buf (Z.to_nat i)) as [x Hx]; [unfold zlen in *; lia|].
  rewrite Hx. apply wp_ret. by apply HQ.
Qed.

Lemma wp_wr {A} (buf : list A) i x (Q : list A -> S -> Prop) s :
  0 <= i < zlen buf -> Q (<[Z.to_nat i := x]> buf) s -> wp (wr buf i x) Q s.
Proof. intros Hi HQ. unfold wr. rewrite decide_True by done. by apply wp_ret. Qed.

Lemma wp_slice {A} (buf : list A) off n (Q : list A -> S -> Prop) s :
  0 <= off -> 0 <= n -> off + n <= zlen buf ->
  Q (take (Z.to_nat n) (drop (Z.to_nat off) buf)) s -> wp (slice buf off n) Q s.
Proof. intros ????. unfold slice. rewrite decide_True by done. by apply wp_ret. Qed.

Lemma wp_blit {A} (dst : list A) off src (Q : list A -> S -> Prop) s :
  0 <= off -> off + zlen src <= zlen dst ->
  Q (take (Z.to_nat off) dst ++ src ++ drop (Z.to_nat off + length src) dst) s ->
  wp (blit dst off src) Q s.
Proof. intros ???. unfold blit. rewrite decide_True by done. by apply wp_ret. Qed.

Lemma wp_copy_terminate {A} (dst buf : list A) n x (Q : list A -> S -> Prop) s :
  0 <= n <= zlen buf -> n < zlen dst ->
  Q (take (Z.to_nat n) buf ++ x :: drop (Datatypes.S (Z.to_nat n)) dst) s ->
  wp (copy_terminate dst buf n x) Q s.
Proof.
  intros Hn Hd HQ. unfold copy_terminate. apply wp_bind, wp_slice; [lia..|]. rewrite drop_0.
  set (src := take (Z.to_nat n) buf) in *.
  assert (length src = Z.to_nat n) as Hl
    by (unfold src, zlen in *; rewrite length_take; lia).
  assert (zlen src = n) as Hz by (unfold zlen; lia).
  apply wp_bind, wp_blit; [lia..|].
  apply wp_wr; [rewrite zlen_blit; lia|].
  change (Z.to_nat 0) with 0%nat. rewrite take_0. cbn [app Nat.add]. rewrite <- Hl in *. rewrite insert_after_prefix by (unfold zlen in *; lia). done.
Qed.

(** The loop rule: an invariant indexed by the loop counter. *)
Lemma wp_for_up (I : Z -> S -> Prop) n i body (Q : unit -> S -> Prop) s :
  I i s ->
  (forall j s', i <= j < i + Z.of_nat n -> I j s' -> wp (body j) (fun _ => I (j + 1)) s') ->
  (forall s', I (i + Z.of_nat n) s' -> Q tt s') ->
  wp (for_up n i body) Q s.
Proof.
  revert i s. induction n as [|n IH]; intros i s HI Hbody HQ; simpl.
  - apply wp_ret, HQ. by replace (i + Z.of_nat 0) with i by lia.
  - apply wp_bind. eapply wp_mono; [apply Hbody; [lia | done]|].
    intros [] s' HI'. apply IH; [done | |].
    + intros j s'' Hj. apply Hbody. lia.
    + intros s''. replace (i + 1 + Z.of_nat n) with (i + Z.of_nat (Datatypes.S n)) by lia.
      apply HQ.
Qed.

Lemma wp_for_acc {A} (I : Z -> A -> S -> Prop) n i a body (Q : A -> S -> Prop) s :
  I i a s ->
  (forall j a' s', i <= j < i + Z.of_nat n -> I j a' s' ->
     wp (body j a') (fun a'' => I (j + 1) a'') s') ->
  (forall a' s', I (i + Z.of_nat n) a' s' -> Q a' s') ->
  wp (for_acc n i a body) Q s.
Proof.
  revert i a s. induction n as [|n IH]; intros i a s HI Hbody HQ; simpl.
  - apply wp_ret, HQ. by replace (i + Z.of_nat 0) with i by lia.
  - apply wp_bind. eapply wp_mono; [apply Hbody; [lia | done]|].
    intros a' s' HI'. apply IH; [done | |].
    + intros j a'' s'' Hj. apply Hbody. lia.
    + intros a'' s''. replace (i + 1 + Z.of_nat n) with (i + Z.of_nat (Datatypes.S n)) by lia.
      apply HQ.
Qed.

Lemma wp_strlen str (Q : Z -> S -> Prop) s :
  (exists n, c_strlen str = Some n) ->
  (forall n, c_strlen str = Some n -> Q n s) -> wp (strlen str) Q s.
Proof. intros [n Hn] HQ. unfold strlen. rewrite Hn. by apply wp_ret, HQ. Qed.
End wp_rules.

Lemma wp_zoom {S T A} (l : lens S T) (m : M T A) Q s :
  wp m (fun a t => Q a (put l t s)) (view l s) -> wp (zoom l m) Q s.
Proof. unfold wp, zoom. by destruct (m (view l s)) as [[??]|]. Qed.

Lemma wp_zoom_inv {S T A} (l : lens S T) (m : M T A) Q s :
  wp (zoom l m) Q s -> wp m (fun a t => Q a (put l t s)) (view l s).
Proof. unfold wp, zoom. by destruct (m (view l s)) as [[??]|]. Qed.

(** One step of symbolic execution; [wp_steps] runs straight-line code and
    stops at branches, [wp_go] also splits them. *)
Ltac wp_step :=
  lazymatch goal with
  | |- wp (mret _) _ _ => apply wp_ret
  | |- wp (_ ≫= _) _ _ => apply wp_bind
  | |- wp (gets _) _ _ => apply wp_gets; cbv beta; rec_simpl
  | |- wp (modify _) _ _ => apply wp_modify
  | |- wp (assign _ _) _ _ => apply wp_assign
  | |- wp (zoom _ _) _ _ => apply wp_zoom
  end; cbv beta.
Ltac wp_steps := repeat wp_step.
Ltac wp_branch :=
  lazymatch goal with
  | |- wp (when _ _) _ _ => apply wp_when; intros ?
  | |- wp (if @decide ?P ?d then _ else _) _ _ => let H := fresh in destruct (@decide P d) as [H|H]
  | |- wp (match ?x with _ => _ end) _ _ => destruct x eqn:?
  end.
Ltac wp_go := repeat (wp_step || wp_branch).

(** A read-only loop over a buffer is a fold over the bytes it reads. *)
Lemma for_acc_rd {S A B} (buf : list A) (f : B -> A -> B) n i b (s : S) :
  0 <= i -> i + Z.of_nat n <= zlen buf ->
  for_acc n i b (fun j acc => x ← rd buf j; mret (f acc x)) s =
  Done (fold_left f (take n (drop (Z.to_nat i) buf)) b, s).
Proof.
  revert i b. induction n as [|n IH]; intros i b Hi Hn; [done|].
  apply wp_exact. cbn [for_acc]. wp_steps.
  apply wp_rd; [unfold zlen in *; lia|]. intros x Hx. wp_steps.
  eapply wp_intro; [apply IH; lia|]. split; [|done].
  replace (Z.to_nat (i + 1)) with (Datatypes.S (Z.to_nat i)) by lia.
  by rewrite (drop_S buf x (Z.to_nat i) Hx).
Qed.

(** Resolving a [decide P] of the goal, also one under a binder. *)
Tactic Notation "decide_yes" constr(P) "by" tactic3(tac) :=
  let H := fresh in
  destruct (decide P) as [_|H]; [|solve [exfalso; apply H; clear H; tac]].
Tactic Notation "decide_no" constr(P) "by" tactic3(tac) :=
  let H := fresh in
  destruct (decide P) as [H|_]; [solve [exfalso; revert H; tac]|].

(** Taking the side of a branch the context decides. *)
Ltac wp_if :=
  lazymatch goal with
  | |- wp (if @decide ?P ?i then _ else _) _ _ =>
    first [ rewrite (@decide_True _ P i) by first [done | lia | tauto | intuition (congruence || lia)]
          | rewrite (@decide_False _ P i) by first [done | lia | tauto | intuition (congruence || lia)] ]
  | |- wp (@when _ ?P ?i _) _ _ =>
    unfold when;
    first [ rewrite (@decide_True _ P i) by first [done | lia | tauto | intuition (congruence || lia)]
          | rewrite (@decide_False _ P i) by first [done | lia | tauto | intuition (congruence || lia)] ]
  end; cbv beta.
Ltac wp_auto := repeat (wp_step || wp_if).

(** A closed decidable statement, by evaluation. *)
Ltac by_decide :=
  match goal with
  | |- ?P =>
    let d := constr:(_ : Decision P) in
    exact (@bool_decide_eq_true_1 P d ltac:(vm_compute; reflexivity))
  end.
