(* ===== verification/Protocol.v ===== *)
(** * Constants and enumerations of the stack

    The macros of [protocol.h], [config.h] (at their default values) and
    [events.h] that the C sources use, under their C names, and the
    enumerations of the headers as inductive types.  [X_val] is the integer C
    assigns to an enumerator, given where the code converts an enumeration to
    an integer. *)
From S2P Require Export Prelude.
#[local] Open Scope Z_scope.

(** ** Build configuration (config.h) *)
Definition IOLINK_ISDU_BUFFER_SIZE : Z := 256.
Definition IOLINK_EVENT_QUEUE_SIZE : Z := 4.
Definition IOLINK_PD_IN_MAX_SIZE : Z := 32.
Definition IOLINK_PD_OUT_MAX_SIZE : Z := 32.
Definition IOLINK_TIMING_ENFORCE_DEFAULT : Z := 0.
Definition IOLINK_T_DWU_US : Z := 80.
Definition IOLINK_T_REN_COM1_US : Z := 5000.
Definition IOLINK_T_REN_COM2_US : Z := 1200.
Definition IOLINK_T_REN_COM3_US : Z := 230.

(** ** Protocol constants (protocol.h) *)
Definition IOLINK_M_SEQ_HEADER_LEN : Z := 2.
Definition IOLINK_MC_TRANSITION_COMMAND : Z := 0x0f.
Definition IOLINK_ISDU_CTRL_START : Z := 0x80.
Definition IOLINK_ISDU_CTRL_LAST : Z := 0x40.
Definition IOLINK_ISDU_CTRL_SEQ_MASK : Z := 0x3f.
Definition IOLINK_IDX_SYSTEM_COMMAND : Z := 0x0002.
Definition IOLINK_IDX_VENDOR_ID : Z := 0x000a.
Definition IOLINK_IDX_DEVICE_ID : Z := 0x000b.
Definition IOLINK_IDX_DEVICE_ACCESS_LOCKS : Z := 0x000c.
Definition IOLINK_IDX_PROFILE_CHARACTERISTIC : Z := 0x000d.
Definition IOLINK_IDX_VENDOR_NAME : Z := 0x0010.
Definition IOLINK_IDX_VENDOR_TEXT : Z := 0x0011.
Definition IOLINK_IDX_PRODUCT_NAME : Z := 0x0012.
Definition IOLINK_IDX_PRODUCT_ID : Z := 0x0013.
Definition IOLINK_IDX_PRODUCT_TEXT : Z := 0x0014.
Definition IOLINK_IDX_SERIAL_NUMBER : Z := 0x0015.
Definition IOLINK_IDX_HARDWARE_REVISION : Z := 0x0016.
Definition IOLINK_IDX_FIRMWARE_REVISION : Z := 0x0017.
Definition IOLINK_IDX_APPLICATION_TAG : Z := 0x0018.
Definition IOLINK_IDX_FUNCTION_TAG : Z := 0x0019.
Definition IOLINK_IDX_LOCATION_TAG : Z := 0x001a.
Definition IOLINK_IDX_DEVICE_STATUS : Z := 0x001b.
Definition IOLINK_IDX_DETAILED_DEVICE_STATUS : Z := 0x001c.
Definition IOLINK_IDX_PDIN_DESCRIPTOR : Z := 0x001d.
Definition IOLINK_IDX_REVISION_ID : Z := 0x001e.
Definition IOLINK_IDX_MIN_CYCLE_TIME : Z := 0x0024.
Definition IOLINK_IDX_ERROR_STATS : Z := 0x0025.
Definition IOLINK_CMD_PARAM_DOWNLOAD_START : Z := 0x05.
Definition IOLINK_CMD_PARAM_DOWNLOAD_END : Z := 0x06.
Definition IOLINK_CMD_PARAM_UPLOAD_START : Z := 0x07.
Definition IOLINK_CMD_PARAM_UPLOAD_END : Z := 0x08.
Definition IOLINK_CMD_DEVICE_RESET : Z := 0x80.
Definition IOLINK_CMD_APPLICATION_RESET : Z := 0x81.
Definition IOLINK_CMD_RESTORE_FACTORY_SETTINGS : Z := 0x82.
Definition IOLINK_CMD_RESTORE_APP_DEFAULTS : Z := 0x83.
Definition IOLINK_CMD_SET_COMM_MODE : Z := 0x84.
Definition IOLINK_CMD_PARAM_UPLOAD : Z := 0x95.
Definition IOLINK_CMD_PARAM_DOWNLOAD : Z := 0x96.
Definition IOLINK_CMD_PARAM_BREAK : Z := 0x97.
Definition IOLINK_LOCK_DS : Z := 0x02.
Definition IOLINK_ISDU_ERROR_NONE : Z := 0x00.
Definition IOLINK_ISDU_ERROR_SERVICE_NOT_AVAIL : Z := 0x11.
Definition IOLINK_ISDU_ERROR_SUBINDEX_NOT_AVAIL : Z := 0x12.
Definition IOLINK_ISDU_ERROR_BUSY : Z := 0x30.
Definition IOLINK_ISDU_ERROR_WRITE_PROTECTED : Z := 0x33.
Definition IOLINK_ISDU_ERROR_SEGMENTATION : Z := 0x81.
Definition IOLINK_EVENT_CODE_COMM_ERR_FRAMING : Z := 0x1801.
Definition IOLINK_OD_STATUS_EVENT : Z := 0x80.
Definition IOLINK_OD_STATUS_PD_TOGGLE : Z := 0x40.
Definition IOLINK_OD_STATUS_PD_VALID : Z := 0x20.

(** ** Event codes (events.h) *)
Definition IOLINK_EVENT_COMM_TIMING : Z := 0x1804.
Definition IOLINK_EVENT_PHY_VOLTAGE_FAULT : Z := 0x1805.
Definition IOLINK_EVENT_PHY_SHORT_CIRCUIT : Z := 0x1806.

(** ** Enumerations *)

(** phy.h:24-29 iolink_phy_mode_t *)
Inductive iolink_phy_mode_t :=
| IOLINK_PHY_MODE_INACTIVE
| IOLINK_PHY_MODE_SIO
| IOLINK_PHY_MODE_SDCI.

(** phy.h:34-39 iolink_baudrate_t *)
Inductive iolink_baudrate_t :=
| IOLINK_BAUDRATE_COM1
| IOLINK_BAUDRATE_COM2
| IOLINK_BAUDRATE_COM3.

(** dll.h:25-33 iolink_dll_state_t *)
Inductive iolink_dll_state_t :=
| IOLINK_DLL_STATE_STARTUP
| IOLINK_DLL_STATE_AWAITING_COMM
| IOLINK_DLL_STATE_PREOPERATE
| IOLINK_DLL_STATE_ESTAB_COM
| IOLINK_DLL_STATE_OPERATE
| IOLINK_DLL_STATE_FALLBACK.

(** An event severity.  C lets any integer into the [enum], and the code's
    [default] branches handle one outside of the enumerators.
    events.h:24-29 iolink_event_type_t *)
Inductive iolink_event_type_t :=
| IOLINK_EVENT_TYPE_NOTIFICATION
| IOLINK_EVENT_TYPE_WARNING
| IOLINK_EVENT_TYPE_ERROR
| IOLINK_EVENT_TYPE_INVALID (v : Z).

(** data_storage.h:30-38 iolink_ds_state_t *)
Inductive iolink_ds_state_t :=
| IOLINK_DS_STATE_IDLE
| IOLINK_DS_STATE_UPLOAD_REQ
| IOLINK_DS_STATE_UPLOADING
| IOLINK_DS_STATE_DOWNLOAD_REQ
| IOLINK_DS_STATE_DOWNLOADING
| IOLINK_DS_STATE_LOCKED.

(** isdu.h:47-60 isdu_state_t *)
Inductive isdu_state_t :=
| ISDU_STATE_IDLE
| ISDU_STATE_HEADER_INITIAL
| ISDU_STATE_HEADER_EXT_LEN
| ISDU_STATE_HEADER_INDEX_HIGH
| ISDU_STATE_HEADER_INDEX_LOW
| ISDU_STATE_HEADER_SUBINDEX
| ISDU_STATE_DATA_COLLECT
| ISDU_STATE_SEGMENT_COLLECT
| ISDU_STATE_SERVICE_EXECUTE
| ISDU_STATE_RESPONSE_READY
| ISDU_STATE_BUSY.

(** isdu.h:25-29 iolink_isdu_service_type_t, stored in a [uint8_t] field *)
Definition IOLINK_ISDU_SERVICE_TYPE_READ : Z := 0.
(** isdu.h:25-29 iolink_isdu_service_type_t *)
Definition IOLINK_ISDU_SERVICE_TYPE_WRITE : Z := 1.

(** [IOLINK_M_SEQ_TYPE_INVALID] stands for the values of the C type without an
    enumerator, which a cast can make.
    iolink.h:29-38 iolink_m_seq_type_t, cast to [uint8_t] when stored *)
Inductive iolink_m_seq_type_t :=
| IOLINK_M_SEQ_TYPE_0
| IOLINK_M_SEQ_TYPE_1_1
| IOLINK_M_SEQ_TYPE_1_2
| IOLINK_M_SEQ_TYPE_1_V
| IOLINK_M_SEQ_TYPE_2_1
| IOLINK_M_SEQ_TYPE_2_2
| IOLINK_M_SEQ_TYPE_2_V
| IOLINK_M_SEQ_TYPE_INVALID (z : Z).

(** iolink.h:29-38 iolink_m_seq_type_t *)
Definition m_seq_type_val (t : iolink_m_seq_type_t) : Z :=
  match t with
  | IOLINK_M_SEQ_TYPE_0 => 0
  | IOLINK_M_SEQ_TYPE_1_1 => 1
  | IOLINK_M_SEQ_TYPE_1_2 => 2
  | IOLINK_M_SEQ_TYPE_1_V => 3
  | IOLINK_M_SEQ_TYPE_2_1 => 4
  | IOLINK_M_SEQ_TYPE_2_2 => 5
  | IOLINK_M_SEQ_TYPE_2_V => 6
  | IOLINK_M_SEQ_TYPE_INVALID z => z
  end.

(** A cast to the enumeration. *)
Definition m_seq_type_of (z : Z) : iolink_m_seq_type_t :=
  if decide (z = 0) then IOLINK_M_SEQ_TYPE_0
  else if decide (z = 1) then IOLINK_M_SEQ_TYPE_1_1
  else if decide (z = 2) then IOLINK_M_SEQ_TYPE_1_2
  else if decide (z = 3) then IOLINK_M_SEQ_TYPE_1_V
  else if decide (z = 4) then IOLINK_M_SEQ_TYPE_2_1
  else if decide (z = 5) then IOLINK_M_SEQ_TYPE_2_2
  else if decide (z = 6) then IOLINK_M_SEQ_TYPE_2_V
  else IOLINK_M_SEQ_TYPE_INVALID z.

Lemma m_seq_type_val_of z : m_seq_type_val (m_seq_type_of z) = z.
Proof. unfold m_seq_type_of. by repeat case_decide. Qed.

#[export] Instance iolink_phy_mode_t_eq_dec : EqDecision iolink_phy_mode_t.
Proof. solve_decision. Defined.
#[export] Instance iolink_baudrate_t_eq_dec : EqDecision iolink_baudrate_t.
Proof. solve_decision. Defined.
#[export] Instance iolink_dll_state_t_eq_dec : EqDecision iolink_dll_state_t.
Proof. solve_decision. Defined.
#[export] Instance iolink_event_type_t_eq_dec : EqDecision iolink_event_type_t.
Proof. solve_decision. Defined.
#[export] Instance iolink_ds_state_t_eq_dec : EqDecision iolink_ds_state_t.
Proof. solve_decision. Defined.
#[export] Instance isdu_state_t_eq_dec : EqDecision isdu_state_t.
Proof. solve_decision. Defined.
#[export] Instance iolink_m_seq_type_t_eq_dec : EqDecision iolink_m_seq_type_t.
Proof. solve_decision. Defined.

(** Replace the protocol constants by their values, for [lia]. *)
Ltac unfold_consts :=
  cbv delta [IOLINK_ISDU_BUFFER_SIZE IOLINK_EVENT_QUEUE_SIZE IOLINK_PD_IN_MAX_SIZE
    IOLINK_PD_OUT_MAX_SIZE IOLINK_TIMING_ENFORCE_DEFAULT IOLINK_T_DWU_US
    IOLINK_T_REN_COM1_US IOLINK_T_REN_COM2_US IOLINK_T_REN_COM3_US
    IOLINK_M_SEQ_HEADER_LEN IOLINK_MC_TRANSITION_COMMAND IOLINK_ISDU_CTRL_START
    IOLINK_ISDU_CTRL_LAST IOLINK_ISDU_CTRL_SEQ_MASK IOLINK_IDX_SYSTEM_COMMAND
    IOLINK_IDX_VENDOR_ID IOLINK_IDX_DEVICE_ID IOLINK_IDX_DEVICE_ACCESS_LOCKS
    IOLINK_IDX_PROFILE_CHARACTERISTIC IOLINK_IDX_VENDOR_NAME IOLINK_IDX_VENDOR_TEXT
    IOLINK_IDX_PRODUCT_NAME IOLINK_IDX_PRODUCT_ID IOLINK_IDX_PRODUCT_TEXT
    IOLINK_IDX_SERIAL_NUMBER IOLINK_IDX_HARDWARE_REVISION
    IOLINK_IDX_FIRMWARE_REVISION IOLINK_IDX_APPLICATION_TAG IOLINK_IDX_FUNCTION_TAG
    IOLINK_IDX_LOCATION_TAG IOLINK_IDX_DEVICE_STATUS
    IOLINK_IDX_DETAILED_DEVICE_STATUS IOLINK_IDX_PDIN_DESCRIPTOR
    IOLINK_IDX_REVISION_ID IOLINK_IDX_MIN_CYCLE_TIME IOLINK_IDX_ERROR_STATS
    IOLINK_CMD_PARAM_DOWNLOAD_START IOLINK_CMD_PARAM_DOWNLOAD_END
    IOLINK_CMD_PARAM_UPLOAD_START IOLINK_CMD_PARAM_UPLOAD_END
    IOLINK_CMD_DEVICE_RESET IOLINK_CMD_APPLICATION_RESET
    IOLINK_CMD_RESTORE_FACTORY_SETTINGS IOLINK_CMD_RESTORE_APP_DEFAULTS
    IOLINK_CMD_SET_COMM_MODE IOLINK_CMD_PARAM_UPLOAD IOLINK_CMD_PARAM_DOWNLOAD
    IOLINK_CMD_PARAM_BREAK IOLINK_LOCK_DS IOLINK_ISDU_ERROR_NONE
    IOLINK_ISDU_ERROR_SERVICE_NOT_AVAIL IOLINK_ISDU_ERROR_SUBINDEX_NOT_AVAIL
    IOLINK_ISDU_ERROR_BUSY IOLINK_ISDU_ERROR_WRITE_PROTECTED
    IOLINK_ISDU_ERROR_SEGMENTATION IOLINK_EVENT_CODE_COMM_ERR_FRAMING
    IOLINK_OD_STATUS_EVENT IOLINK_OD_STATUS_PD_TOGGLE IOLINK_OD_STATUS_PD_VALID
    IOLINK_EVENT_COMM_TIMING IOLINK_EVENT_PHY_VOLTAGE_FAULT
    IOLINK_EVENT_PHY_SHORT_CIRCUIT IOLINK_ISDU_SERVICE_TYPE_READ
    IOLINK_ISDU_SERVICE_TYPE_WRITE] in *.
