(* ===== verification/Crc.v ===== *)
(** * CRC6 of the M-sequences (crc.c)

    [iolink_crc6] and [iolink_checksum_ck] as written, their value as a fold
    over the bytes, and the polynomial they compute over GF(2). *)
From S2P Require Export Protocol.
#[local] Open Scope Z_scope.

(** ** The code *)

(** utils.h:16-19 iolink_buf_is_valid : a buffer argument is [None] for NULL. *)
Definition iolink_buf_is_valid (data : option (list Z)) (len : Z) : bool :=
  negb (bool_decide (data = None) && (0 <? len)).

(** crc.c:28-35 iolink_crc6 : one turn of the inner loop. *)
Definition crc6_bit (crc : Z) : Z :=
  if decide (Z.land crc 0x80 <> 0)
  then u8 (Z.lxor (Z.shiftl crc 1) (Z.shiftl 0x1d 2))
  else u8 (Z.shiftl crc 1).

(** crc.c:27-36 iolink_crc6 : one turn of the outer loop, on the byte read. *)
Definition crc6_byte (crc byte : Z) : Z :=
  Nat.iter 8 crc6_bit (u8 (Z.lxor crc byte)).

(** crc.c:18-39 iolink_crc6 *)
Definition iolink_crc6 {S} (data : option (list Z)) (len : Z) : M S Z :=
  if iolink_buf_is_valid data len then
    let buf := default [] data in
    crc ← for_acc (Z.to_nat len) 0 0x15 (fun i crc => b ← rd buf i; mret (crc6_byte crc b));
    mret (u8 (Z.land (Z.shiftr crc 2) 0x3f))
  else mret 0.

(** crc.c:41-48 iolink_checksum_ck *)
Definition iolink_checksum_ck {S} (mc ckt : Z) : M S Z :=
  let buf := [mc; ckt] in
  iolink_crc6 (Some buf) 2.

(** ** The value computed *)

(** The register after the bytes of [l], from [crc]. *)
Definition crc6_reg (crc : Z) (l : list Z) : Z := fold_left crc6_byte l crc.

Definition crc6 (l : list Z) : Z := u8 (Z.land (Z.shiftr (crc6_reg 0x15 l) 2) 0x3f).

(** Checks over every value of a byte, by evaluation. *)
Definition all_bytes : list Z := seqZ 0 256.

Lemma all_bytes_spec (P : Z -> bool) :
  forallb P all_bytes = true -> forall b, is_u8 b -> P b = true.
Proof.
  intros H b Hb. rewrite forallb_forall in H. apply H.
  rewrite <- list_elem_of_In. apply elem_of_seqZ. lia.
Qed.

Definition crc6_shift8 (r : Z) : Z := Nat.iter 8 crc6_bit r.
#[global] Arguments crc6_shift8 : simpl never.
#[global] Arguments crc6_byte : simpl never.

(** Polynomials over GF(2) as [Z]: [clmul q p] is their product, and
    [pmod bits] the remainder of the polynomial with coefficients [bits], most
    significant first, modulo x^6+x^4+x^3+x^2+1. *)
Definition crc6_poly : Z := 0x5d.

Fixpoint clmul_pos (q : positive) (p : Z) : Z :=
  match q with
  | xH => p
  | xO q' => Z.shiftl (clmul_pos q' p) 1
  | xI q' => Z.lxor (Z.shiftl (clmul_pos q' p) 1) p
  end.
Definition clmul (q p : Z) : Z :=
  match q with Zpos q' => clmul_pos q' p | _ => 0 end.

Definition pmod_step (r : Z) (b : bool) : Z :=
  let r' := Z.lor (Z.shiftl r 1) (Z.b2z b) in
  if decide (64 <= r') then Z.lxor r' crc6_poly else r'.
Definition pmod (bits : list bool) : Z := fold_left pmod_step bits 0.

Definition poly_of (bits : list bool) : Z :=
  fold_left (fun a b => Z.lor (Z.shiftl a 1) (Z.b2z b)) bits 0.

(** The bits of a byte, most significant first. *)
Definition byte_bits (b : Z) : list bool := (fun i => Z.testbit b i) <$> [7;6;5;4;3;2;1;0].
Definition bits_of (l : list Z) : list bool := l ≫= byte_bits.

Lemma crc6_bit_lxor_check :
  forallb (fun a => forallb (fun b =>
    crc6_bit (Z.lxor a b) =? Z.lxor (crc6_bit a) (crc6_bit b)) all_bytes) all_bytes = true.
Proof. vm_compute. reflexivity. Qed.

Lemma crc6_bit_range a : is_u8 (crc6_bit a).
Proof. unfold crc6_bit. case_decide; apply u8_range. Qed.

Lemma crc6_bit_lxor a b :
  is_u8 a -> is_u8 b -> crc6_bit (Z.lxor a b) = Z.lxor (crc6_bit a) (crc6_bit b).
Proof.
  intros Ha Hb. pose proof (all_bytes_spec _ crc6_bit_lxor_check a Ha) as H.
  pose proof (all_bytes_spec _ H b Hb) as H'. by apply Z.eqb_eq.
Qed.

Lemma crc6_iter_range n a : is_u8 a -> is_u8 (Nat.iter n crc6_bit a).
Proof. intros Ha. destruct n; [done|]. apply crc6_bit_range. Qed.

Lemma crc6_shift8_range a : is_u8 a -> is_u8 (crc6_shift8 a).
Proof. apply crc6_iter_range. Qed.

Lemma crc6_shift8_lxor a b :
  is_u8 a -> is_u8 b -> crc6_shift8 (Z.lxor a b) = Z.lxor (crc6_shift8 a) (crc6_shift8 b).
Proof.
  intros Ha Hb. unfold crc6_shift8. generalize 8%nat as n.
  induction n as [|n IH]; [done|]. simpl. rewrite IH.
  apply crc6_bit_lxor; by apply crc6_iter_range.
Qed.

Lemma crc6_byte_shift8 r b : is_u8 r -> is_u8 b -> crc6_byte r b = crc6_shift8 (Z.lxor r b).
Proof.
  intros Hr Hb. unfold crc6_byte, crc6_shift8.
  rewrite u8_small; [reflexivity | by apply u8_lxor].
Qed.

Lemma crc6_byte_range r b : is_u8 (crc6_byte r b).
Proof. apply crc6_iter_range, u8_range. Qed.

Lemma crc6_reg_range l r : is_u8 r -> is_u8 (crc6_reg r l).
Proof.
  revert r. induction l as [|b l IH]; intros r Hr; [done|]. apply IH, crc6_byte_range.
Qed.

(** The eight-fold iteration must not be unfolded on open terms. *)
#[global] Opaque crc6_shift8.
#[global] Opaque crc6_byte.

Lemma crc6_reg_app r l l' : crc6_reg r (l ++ l') = crc6_reg (crc6_reg r l) l'.
Proof. apply fold_left_app. Qed.

Lemma crc6_reg_cons r b l : crc6_reg r (b :: l) = crc6_reg (crc6_byte r b) l.
Proof. reflexivity. Qed.

(** A difference in the register propagates on its own. *)
Lemma crc6_reg_lxor l r d :
  bytes_ok l -> is_u8 r -> is_u8 d ->
  crc6_reg (Z.lxor r d) l = Z.lxor (crc6_reg r l) (Nat.iter (length l) crc6_shift8 d).
Proof.
  intros Hl. revert r d. induction Hl as [|b l Hb Hl IH]; intros r d Hr Hd; [done|].
  rewrite !crc6_reg_cons, !crc6_byte_shift8 by (try apply u8_lxor; done).
  replace (Z.lxor (Z.lxor r d) b) with (Z.lxor (Z.lxor r b) d)
    by (rewrite !Z.lxor_assoc; f_equal; apply Z.lxor_comm).
  rewrite crc6_shift8_lxor by (try apply u8_lxor; done).
  rewrite IH by (apply crc6_shift8_range; try apply u8_lxor; done).
  f_equal. cbn [length]. by rewrite Nat.iter_succ_r.
Qed.

(** Differences within one byte that the CRC does not see: the multiples of
    the generator that fit a byte. *)
Definition crc6_blind : list Z := [0; 0x5d; 0xba; 0xe7].

Lemma crc6_shift8_check :
  forallb (fun d =>
    bool_decide (crc6_shift8 d = 0 <-> d ∈ crc6_blind) &&
    (crc6_shift8 d mod 4 =? 0) &&
    Bool.eqb (crc6_shift8 (4 * (d mod 64)) =? 0) (d mod 64 =? 0)) all_bytes = true.
Proof. vm_compute. reflexivity. Qed.

Lemma crc6_shift8_spec d :
  is_u8 d -> (crc6_shift8 d = 0 <-> d ∈ crc6_blind) /\ crc6_shift8 d mod 4 = 0.
Proof.
  intros Hd. pose proof (all_bytes_spec _ crc6_shift8_check d Hd) as H. cbv beta in H.
  apply andb_prop in H as [H _]. apply andb_prop in H as [H1 H2].
  by apply bool_decide_eq_true in H1; apply Z.eqb_eq in H2.
Qed.

(** On the registers reached between bytes the shift loses nothing. *)
Lemma crc6_shift8_nonzero d :
  is_u8 d -> d mod 4 = 0 -> (crc6_shift8 d = 0 <-> d = 0).
Proof.
  intros Hd Hm. pose proof (all_bytes_spec _ crc6_shift8_check (d / 4)) as H.
  cbv beta in H. rewrite (Z.mod_small (d / 4) 64) in H by lia.
  replace (4 * (d / 4)) with d in H by lia.
  specialize (H ltac:(lia)).
  apply andb_prop in H as [_ H]. apply eqb_prop in H.
  rewrite <- !Z.eqb_eq, H, !Z.eqb_eq. lia.
Qed.

Lemma crc6_iter_zero n d :
  is_u8 d -> Nat.iter (S n) crc6_shift8 d = 0 <-> d ∈ crc6_blind.
Proof.
  intros Hd. induction n as [|n IH]; [by apply crc6_shift8_spec|].
  rewrite <- IH. cbn [Nat.iter nat_rect]. fold (Nat.iter n crc6_shift8 d).
  assert (is_u8 (crc6_shift8 (Nat.iter n crc6_shift8 d)) /\
          crc6_shift8 (Nat.iter n crc6_shift8 d) mod 4 = 0) as [H1 H2].
  { assert (is_u8 (Nat.iter n crc6_shift8 d)).
    { clear -Hd. induction n; [done|]. by apply crc6_shift8_range. }
    split; [by apply crc6_shift8_range | by apply crc6_shift8_spec]. }
  by rewrite crc6_shift8_nonzero.
Qed.

Lemma crc6_reg_mod4 l r : l <> [] -> is_u8 r -> bytes_ok l -> crc6_reg r l mod 4 = 0.
Proof.
  intros Hne Hr Hl. destruct (exists_last Hne) as (l' & b & ->).
  apply Forall_app in Hl as [Hl' [Hb _]%Forall_cons_1].
  pose proof (crc6_reg_range l' r Hr) as Hr'.
  rewrite crc6_reg_app, crc6_reg_cons, crc6_byte_shift8 by done.
  by apply crc6_shift8_spec, u8_lxor.
Qed.

Lemma crc6_of_reg l : l <> [] -> bytes_ok l -> crc6_reg 0x15 l = 4 * crc6 l.
Proof.
  intros Hne Hl. pose proof (crc6_reg_mod4 l 0x15 Hne ltac:(done) Hl).
  pose proof (crc6_reg_range l 0x15 ltac:(done)). unfold crc6.
  change 0x3f with (Z.ones 6). rewrite Z.land_ones, Z.shiftr_div_pow2 by done.
  unfold u8. change (2 ^ 6) with 64. change (2 ^ 2) with 4. lia.
Qed.

Lemma crc6_range l : 0 <= crc6 l < 64.
Proof.
  unfold crc6. change 0x3f with (Z.ones 6). rewrite Z.land_ones by done.
  unfold u8. change (2 ^ 6) with 64. lia.
Qed.

(** The C function returns that value on every prefix of a buffer... *)
Lemma iolink_crc6_eq {S} (buf : list Z) len (s : S) :
  0 <= len <= zlen buf ->
  iolink_crc6 (Some buf) len s = Done (crc6 (take (Z.to_nat len) buf), s).
Proof.
  intros Hlen. apply wp_exact. unfold iolink_crc6, iolink_buf_is_valid.
  rewrite bool_decide_eq_false_2 by done. cbn [negb andb]. wp_steps.
  change (default [] (Some buf)) with buf.
  eapply wp_intro; [apply for_acc_rd; lia|]. by wp_steps.
Qed.

Lemma iolink_checksum_ck_eq {S} mc ckt (s : S) :
  iolink_checksum_ck mc ckt s = Done (crc6 [mc; ckt], s).
Proof. unfold iolink_checksum_ck. by rewrite iolink_crc6_eq. Qed.

(** The register between bytes holds four times the remainder of what was read,
    shifted by the six bits of the CRC. *)
Definition pmod_zeros (p : Z) : Z := fold_left pmod_step (replicate 6 false) p.

Lemma crc6_poly_check :
  forallb (fun p => forallb (fun b =>
    crc6_shift8 (Z.lxor (4 * pmod_zeros (p mod 64)) b) =?
    4 * pmod_zeros (fold_left pmod_step (byte_bits b) (p mod 64))) all_bytes)
    (seqZ 0 64) = true.
Proof. vm_compute. reflexivity. Qed.

Lemma pmod_step_check :
  forallb (fun p => (0 <=? pmod_step p true) && (pmod_step p true <? 64) &&
                    (0 <=? pmod_step p false) && (pmod_step p false <? 64)) (seqZ 0 64) = true.
Proof. vm_compute. reflexivity. Qed.

Lemma pmod_step_range p b : 0 <= p < 64 -> 0 <= pmod_step p b < 64.
Proof.
  intros Hp. pose proof pmod_step_check as H. rewrite forallb_forall in H.
  specialize (H p). rewrite <- list_elem_of_In, elem_of_seqZ in H.
  specialize (H ltac:(lia)). destruct b; lia.
Qed.

Lemma pmod_fold_range bits p : 0 <= p < 64 -> 0 <= fold_left pmod_step bits p < 64.
Proof.
  revert p. induction bits as [|b bits IH]; intros p Hp; [done|]. apply IH.
  by apply pmod_step_range.
Qed.

Lemma crc6_shift8_pmod p b :
  0 <= p < 64 -> is_u8 b ->
  crc6_shift8 (Z.lxor (4 * pmod_zeros p) b) =
  4 * pmod_zeros (fold_left pmod_step (byte_bits b) p).
Proof.
  intros Hp Hb. pose proof crc6_poly_check as H. rewrite forallb_forall in H.
  specialize (H p). rewrite <- list_elem_of_In, elem_of_seqZ, Z.mod_small in H by lia.
  pose proof (all_bytes_spec _ (H ltac:(lia)) b Hb) as H'. by apply Z.eqb_eq.
Qed.

Lemma crc6_reg_pmod l p :
  0 <= p < 64 -> bytes_ok l ->
  crc6_reg (4 * pmod_zeros p) l = 4 * pmod_zeros (fold_left pmod_step (bits_of l) p).
Proof.
  intros Hp Hl. revert p Hp. induction Hl as [|b l Hb Hl IH]; intros p Hp; [done|].
  rewrite crc6_reg_cons, crc6_byte_shift8; [|pose proof (pmod_fold_range (replicate 6 false) p Hp);
    unfold pmod_zeros; lia | done].
  rewrite crc6_shift8_pmod, IH by (try apply pmod_fold_range; done).
  change (bits_of (b :: l)) with (byte_bits b ++ bits_of l).
  rewrite fold_left_app. reflexivity.
Qed.

Lemma pmod_app_zeros bits : pmod (bits ++ replicate 6 false) = pmod_zeros (pmod bits).
Proof. apply fold_left_app. Qed.
#[global] Opaque pmod_zeros.

Lemma crc6_pmod b l :
  is_u8 b -> bytes_ok l ->
  crc6 (b :: l) = pmod (bits_of (Z.lxor b 0x15 :: l) ++ replicate 6 false).
Proof.
  intros Hb Hl. assert (bytes_ok (b :: l)) as Hbl by by constructor.
  assert (bytes_ok (Z.lxor b 0x15 :: l)) as Hbl' by (constructor; [by apply u8_lxor | done]).
  pose proof (crc6_of_reg (b :: l) ltac:(done) Hbl) as H1.
  pose proof (crc6_reg_pmod (Z.lxor b 0x15 :: l) 0 ltac:(done) Hbl') as H2.
  rewrite pmod_app_zeros. set (z := pmod_zeros _).
  cut (4 * crc6 (b :: l) = 4 * z); [lia|].
  transitivity (crc6_reg (4 * pmod_zeros 0) (Z.lxor b 0x15 :: l)); [|exact H2].
  rewrite <- H1, !crc6_reg_cons.
  change (4 * pmod_zeros 0) with 0.
  rewrite !crc6_byte_shift8 by (try apply u8_lxor; done).
  by rewrite Z.lxor_0_l, Z.lxor_comm.
Qed.

(** [pmod] is the remainder of the division by the generator. *)
Lemma clmul_double q : 0 <= q -> clmul (Z.lor (Z.shiftl q 1) 0) crc6_poly = Z.shiftl (clmul q crc6_poly) 1.
Proof. intros Hq. rewrite Z.lor_0_r. by destruct q. Qed.
Lemma clmul_double_1 q :
  0 <= q -> clmul (Z.lor (Z.shiftl q 1) 1) crc6_poly =
            Z.lxor (Z.shiftl (clmul q crc6_poly) 1) crc6_poly.
Proof. intros Hq. by destruct q. Qed.

Lemma shiftl_lor_b a b : Z.lor (Z.shiftl a 1) (Z.b2z b) = Z.lxor (Z.shiftl a 1) (Z.b2z b).
Proof.
  symmetry. apply Z.lxor_lor. apply Z.bits_inj'. intros n Hn.
  rewrite Z.land_spec, Z.bits_0. destruct (decide (n = 0)) as [->|].
  - by rewrite Z.shiftl_spec_low.
  - destruct b; cbn [Z.b2z]; [|by rewrite Z.bits_0, andb_false_r].
    change 1 with (2 ^ 0). rewrite Z.pow2_bits_false by done. apply andb_false_r.
Qed.

Lemma poly_of_division bits :
  exists q, 0 <= q /\ poly_of bits = Z.lxor (clmul q crc6_poly) (pmod bits).
Proof.
  induction bits as [|b bits IH] using rev_ind; [by exists 0|].
  destruct IH as (q & Hq & IH). unfold poly_of, pmod in *. rewrite !fold_left_app.
  cbn [fold_left]. rewrite IH. set (p := fold_left pmod_step bits 0).
  unfold pmod_step. rewrite !shiftl_lor_b, Z.shiftl_lxor, Z.lxor_assoc. case_decide.
  - exists (Z.lor (Z.shiftl q 1) 1). split; [apply Z.lor_nonneg; rewrite Z.shiftl_nonneg; lia|].
    rewrite clmul_double_1, !Z.lxor_assoc by done. f_equal.
    by rewrite (Z.lxor_comm crc6_poly), !Z.lxor_assoc, Z.lxor_nilpotent, Z.lxor_0_r.
  - exists (Z.lor (Z.shiftl q 1) 0). split; [apply Z.lor_nonneg; rewrite Z.shiftl_nonneg; lia|].
    by rewrite clmul_double.
Qed.

(** ** Properties *)

(** C27. For a non-empty message, [iolink_crc6] returns the remainder of the
    division, in GF(2)[x], of the message (its first byte xored with the seed
    0x15) followed by six zero bits, by the generator x^6+x^4+x^3+x^2+1: there is
    a quotient, and the value has degree below six. *)
Theorem iolink_crc6_polynomial {S} (s : S) b l :
  is_u8 b -> bytes_ok l ->
  exists crc q,
    iolink_crc6 (Some (b :: l)) (zlen (b :: l)) s = Done (crc, s) /\
    0 <= crc < 64 /\
    poly_of (bits_of (Z.lxor b 0x15 :: l) ++ replicate 6 false) =
    Z.lxor (clmul q crc6_poly) crc.
Proof.
  intros Hb Hl.
  destruct (poly_of_division (bits_of (Z.lxor b 0x15 :: l) ++ replicate 6 false)) as (q & _ & Hq).
  exists (crc6 (b :: l)), q. split; [|split; [apply crc6_range | by rewrite crc6_pmod]].
  rewrite iolink_crc6_eq by (unfold zlen; lia). unfold zlen. rewrite Nat2Z.id, firstn_all.
  reflexivity.
Qed.

(** C28. Two messages equal but for one byte get the same CRC exactly when the
    xor of the two bytes is zero or a multiple of the generator (0x5D, 0xBA or
    0xE7), wherever the byte is; in particular every error of one bit, and every
    burst of at most six bits within a byte, changes the CRC. *)
Theorem iolink_crc6_byte_error {S} (s : S) l1 b b' l2 :
  bytes_ok l1 -> is_u8 b -> is_u8 b' -> bytes_ok l2 ->
  let m := l1 ++ b :: l2 in
  let m' := l1 ++ b' :: l2 in
  iolink_crc6 (Some m) (zlen m) s = iolink_crc6 (Some m') (zlen m') s <->
  Z.lxor b b' ∈ crc6_blind.
Proof.
  intros Hl1 Hb Hb' Hl2 m m'.
  rewrite !iolink_crc6_eq by (unfold zlen; lia). unfold zlen. rewrite !Nat2Z.id, !firstn_all.
  transitivity (crc6 m = crc6 m'); [split; [by intros [=] | by intros ->]|].
  rewrite <- (crc6_iter_zero (length l2)) by by apply u8_lxor.
  assert (bytes_ok m /\ bytes_ok m') as [Hm Hm'] by (split; apply Forall_app; by split; [|constructor]).
  pose proof (crc6_of_reg m ltac:(by destruct l1) Hm) as H1.
  pose proof (crc6_of_reg m' ltac:(by destruct l1) Hm') as H2.
  pose proof (crc6_reg_range l1 0x15 ltac:(done)) as Hr.
  enough (crc6_reg 0x15 m = Z.lxor (crc6_reg 0x15 m')
            (Nat.iter (Datatypes.S (length l2)) crc6_shift8 (Z.lxor b b'))) as H3.
  { split; intros H.
    - rewrite H1, H2, H in H3. apply (f_equal (Z.lxor (4 * crc6 m'))) in H3.
      by rewrite <- Z.lxor_assoc, Z.lxor_nilpotent, Z.lxor_0_l in H3.
    - rewrite H, Z.lxor_0_r in H3. lia. }
  unfold m, m'. rewrite !crc6_reg_app, !crc6_reg_cons, !crc6_byte_shift8 by done.
  rewrite Nat.iter_succ_r, <- crc6_reg_lxor;
    [| done | apply crc6_shift8_range; by apply u8_lxor ..].
  rewrite <- crc6_shift8_lxor by by apply u8_lxor. f_equal. f_equal.
  rewrite Z.lxor_assoc. f_equal. rewrite (Z.lxor_comm b b'), <- Z.lxor_assoc.
  by rewrite Z.lxor_nilpotent, Z.lxor_0_l.
Qed.

(** ** Witnesses *)

Lemma iolink_crc6_polynomial_witness :
  exists crc q, iolink_crc6 (Some [1; 2; 3]) 3 tt = Done (crc, tt) /\
    poly_of (bits_of (Z.lxor 1 0x15 :: [2; 3]) ++ replicate 6 false) = Z.lxor (clmul q crc6_poly) crc.
Proof.
  destruct (iolink_crc6_polynomial tt 1 [2; 3] ltac:(done) ltac:(repeat (constructor; try done)))
    as (crc & q & H1 & _ & H2).
  exists crc, q. split; [exact H1 | exact H2].
Defined.

Lemma iolink_crc6_byte_error_witness :
  iolink_crc6 (Some [1; 2; 3]) 3 tt = iolink_crc6 (Some [1; 2 + 0x5d - 4; 3]) 3 tt <->
  Z.lxor 2 (2 + 0x5d - 4) ∈ crc6_blind.
Proof.
  exact (iolink_crc6_byte_error tt [1] 2 (2 + 0x5d - 4) [3] ltac:(repeat (constructor; try done))
           ltac:(done) ltac:(done) ltac:(repeat (constructor; try done))).
Defined.
