(* ===== verification/Interleave.v ===== *)
(** * Threads and critical sections

    The stack leaves it to the platform to override [iolink_critical_enter] and
    [iolink_critical_exit] so that no other thread or interrupt runs in between
    (platform.h).  A thread is a program whose steps are single accesses to the
    shared state; any thread may take the next step unless another one is in a
    critical section.  The main lemma is that critical sections are then atomic:
    whatever is reached outside of them is reached by running whole sections one
    after the other. *)
From S2P Require Export Prelude.
From stdpp Require Export relations.
#[local] Open Scope Z_scope.

(** ** Programs *)

(** A program of a thread over the shared state [S], with result [R]: [Act m k]
    makes the access [m] in one step. *)
Inductive prog (S R : Type) : Type :=
| Ret (r : R)
| Act {X : Type} (m : M S X) (k : X -> prog S R)
| Enter (k : prog S R)
| Exit (k : prog S R).
Arguments Ret {S R} r.
Arguments Act {S R X} m k.
Arguments Enter {S R} k.
Arguments Exit {S R} k.

#[export] Instance prog_ret {S} : MRet (prog S) := fun A a => Ret a.
#[export] Instance prog_bind {S} : MBind (prog S) := fun A B f =>
  fix go p := match p with
  | Ret r => f r
  | Act m k => Act m (fun x => go (k x))
  | Enter k => Enter (go k)
  | Exit k => Exit (go k)
  end.

(** One access to the shared state. *)
Definition acc {S A} (m : M S A) : prog S A := Act m Ret.

(** A body between the two hooks, as an override of them has it: interrupts or
    the scheduler are off in between. platform.h:25-38 iolink_critical_enter *)
Definition locked {S A} (body : prog S A) : prog S A :=
  Enter (x ← body; Exit (Ret x)).

(** The program run by a thread that nobody interrupts. *)
Fixpoint alone {S R} (p : prog S R) : M S R :=
  match p with
  | Ret r => mret r
  | Act m k => x ← m; alone (k x)
  | Enter k | Exit k => alone k
  end.

(** ** Interleaving *)

Section threads.
Context {S R : Type}.
Implicit Types (p k : prog S R) (ts : list (prog S R)) (s : S).

Definition is_act p : Prop := match p with Act _ _ => True | _ => False end.
Definition is_ret p : Prop := match p with Ret _ => True | _ => False end.
#[export] Instance is_ret_dec p : Decision (is_ret p).
Proof. destruct p; [left|right..]; cbn; tauto. Defined.

(** The next access of a program. *)
Definition next p : M S (prog S R) :=
  match p with Act m k => x ← m; mret (k x) | _ => mret p end.

(** The shared state, the thread that is in a critical section, the threads. *)
Record config := mk_config_of { c_shared : S; c_holder : option nat; c_threads : list (prog S R) }.

(** Nobody runs beside the thread that is in a critical section. *)
Definition may_run (i : nat) (h : option nat) : Prop := h = None \/ h = Some i.
#[export] Instance may_run_dec i h : Decision (may_run i h).
Proof. unfold may_run. apply _. Defined.

Inductive cstep : config -> config -> Prop :=
| cstep_act i p p' s s' h ts :
    ts !! i = Some p -> is_act p -> may_run i h -> next p s = Done (p', s') ->
    cstep (mk_config_of s h ts) (mk_config_of s' h (<[i := p']> ts))
| cstep_enter i k s ts :
    ts !! i = Some (Enter k) -> cstep (mk_config_of s None ts) (mk_config_of s (Some i) (<[i := k]> ts))
| cstep_exit i k s ts :
    ts !! i = Some (Exit k) -> cstep (mk_config_of s (Some i) ts) (mk_config_of s None (<[i := k]> ts)).

(** The step of thread [i], when it can take one, and the steps of a schedule. *)
Definition take_step (i : nat) (c : config) : option config :=
  let '(mk_config_of s h ts) := c in
  p ← ts !! i;
  match p with
  | Ret _ => None
  | Act _ _ =>
    guard (may_run i h);;
    match next p s with Done (p', s') => Some (mk_config_of s' h (<[i := p']> ts)) | Fault _ => None end
  | Enter k => guard (h = None);; Some (mk_config_of s (Some i) (<[i := k]> ts))
  | Exit k => guard (h = Some i);; Some (mk_config_of s None (<[i := k]> ts))
  end.

Fixpoint take_steps (sched : list nat) (c : config) : option config :=
  match sched with [] => Some c | i :: sched => c' ← take_step i c; take_steps sched c' end.

(** The next step of some thread that may run is a fault. *)
Definition can_fault (c : config) : Prop :=
  exists i p e, c_threads c !! i = Some p /\ is_act p /\ may_run i (c_holder c) /\ next p (c_shared c) = Fault e.

Definition finished (c : config) : Prop := Forall is_ret (c_threads c).

(** ** Sections as single steps *)

(** The rest of a critical section; a program that does not leave it has none. *)
Fixpoint section_end p : M S (prog S R) :=
  match p with
  | Act m k => x ← m; section_end (k x)
  | Exit k => mret k
  | Ret _ | Enter _ => raise OutOfFuel
  end.

(** What a thread does between two moments at which another may run. *)
Definition block p : M S (prog S R) :=
  match p with
  | Act _ _ => next p
  | Enter k => section_end k
  | Ret _ | Exit _ => raise OutOfFuel
  end.

Inductive bstep : S * list (prog S R) -> S * list (prog S R) -> Prop :=
| bstep_block i p p' s s' ts :
    ts !! i = Some p -> block p s = Done (p', s') -> bstep (s, ts) (s', <[i := p']> ts).

(** A configuration as the sections see it: in the middle of a section its
    state is still the one at the entry. *)
Definition seen_as (c : config) (b : S * list (prog S R)) : Prop :=
  match c_holder c with
  | None => b = (c_shared c, c_threads c)
  | Some i => exists k p, snd b !! i = Some (Enter k) /\ c_threads c = <[i := p]> (snd b) /\
                section_end k (fst b) = section_end p (c_shared c)
  end.

Lemma take_step_ok i c c' : take_step i c = Some c' -> cstep c c'.
Proof.
  destruct c as [s h ts]. cbn. intros (p & Hi & H)%bind_Some. destruct p as [r|X m k|k|k]; [done|..].
  - case_guard as Hrun; [|done]. cbn [mbind option_bind] in H. destruct (next (Act m k) s) as [[p' s']|] eqn:Hn; [|done].
    injection H as <-. by apply cstep_act with (Act m k).
  - case_guard; [|done]. subst h. injection H as <-. by apply cstep_enter.
  - case_guard; [|done]. subst h. injection H as <-. by apply cstep_exit.
Qed.

Lemma take_steps_ok sched c c' : take_steps sched c = Some c' -> rtc cstep c c'.
Proof.
  revert c. induction sched as [|i sched IH]; intros c; cbn; [by intros [= ->]|].
  intros (c1 & H1%take_step_ok & H2%IH)%bind_Some. by eapply rtc_l.
Qed.

Lemma section_end_act p : is_act p -> forall s, section_end p s = (next p ≫= section_end) s.
Proof.
  destruct p as [|X m k| |]; [done| |done..]. intros _ s. cbn. unfold mbind, M_bind.
  by destruct (m s) as [[x s']|].
Qed.

(** One step of a thread is one of the sections, or none. *)
Lemma cstep_bstep c c' b : cstep c c' -> seen_as c b -> exists b', rtc bstep b b' /\ seen_as c' b'.
Proof.
  intros [i p p' s s' h ts Hi Hact Hrun Hnext|i k s ts Hi|i k s ts Hi]; unfold seen_as; cbn [c_holder c_shared c_threads].
  - destruct Hrun as [-> | ->].
    + intros ->. exists (s', <[i := p']> ts). split; [|done]. apply rtc_once, bstep_block with p; [done | by destruct p].
    + intros (k & q & Hk & -> & Heq). exists b. split; [done|]. exists k, p'.
      assert (i < length (snd b))%nat as Hlt by by eapply lookup_lt_Some.
      rewrite list_lookup_insert_eq in Hi by done. injection Hi as ->.
      split; [done|]. split; [by rewrite list_insert_insert_eq|].
      rewrite Heq, section_end_act by done. unfold mbind, M_bind. by rewrite Hnext.
  - intros ->. exists (s, ts). split; [done|]. exists k, k. done.
  - intros (k0 & q & Hk & -> & Heq). exists (s, <[i := k]> (snd b)).
    assert (i < length (snd b))%nat as Hlt by by eapply lookup_lt_Some.
    rewrite list_lookup_insert_eq in Hi by done. injection Hi as ->.
    split; [|by rewrite list_insert_insert_eq].
    apply rtc_once. destruct b as [s0 ts0]. by apply bstep_block with (Enter k0).
Qed.

(** Critical sections are atomic. *)
Lemma sections_atomic s ts c :
  rtc cstep (mk_config_of s None ts) c -> exists b, rtc bstep (s, ts) b /\ seen_as c b.
Proof.
  revert c. apply rtc_ind_r; [by exists (s, ts)|]. intros c c' _ Hstep (b & Hb & Hseen).
  destruct (cstep_bstep c c' b Hstep Hseen) as (b' & Hb' & Hseen'). exists b'. split; [by etransitivity | done].
Qed.

(** ** Termination *)

(** No run from [c] goes on for ever. *)
Definition terminates (c : config) : Prop := Acc (fun c2 c1 => cstep c1 c2) c.

(** What is left of a program after one of its steps. *)
Definition rest_of (q p : prog S R) : Prop :=
  match p with
  | Ret _ => False
  | Act _ k => exists x, q = k x
  | Enter k | Exit k => q = k
  end.

Lemma rest_of_wf p : Acc rest_of p.
Proof.
  induction p as [r|X m k IH|k IH|k IH]; constructor; intros q Hq; cbn in Hq; [done| |by subst..].
  destruct Hq as [x ->]. apply IH.
Qed.

(** One of the programs of a list takes a step. *)
Inductive one_rest : list (prog S R) -> list (prog S R) -> Prop :=
| one_here p' p ts : rest_of p' p -> one_rest (p' :: ts) (p :: ts)
| one_there p ts' ts : one_rest ts' ts -> one_rest (p :: ts') (p :: ts).

Lemma one_rest_wf ts : Acc one_rest ts.
Proof.
  induction ts as [|p ts IH]; [by constructor; intros ts' H; inversion H|].
  revert p. induction IH as [ts Hts IH]. intros p. induction (rest_of_wf p) as [p Hp IHp].
  constructor. intros ts' H. inversion H; subst; [by apply IHp | by apply IH].
Qed.

Lemma one_rest_insert i p p' ts : ts !! i = Some p -> rest_of p' p -> one_rest (<[i := p']> ts) ts.
Proof.
  revert i. induction ts as [|q ts IH]; intros [|i] Hi Hr; try done.
  - injection Hi as ->. by constructor.
  - constructor. by apply IH.
Qed.

Lemma cstep_one_rest c c' : cstep c c' -> one_rest (c_threads c') (c_threads c).
Proof.
  intros [i p p' s s' h ts Hi Hact _ Hn|i k s ts Hi|i k s ts Hi]; cbn; (eapply one_rest_insert; [exact Hi|]); [|done..].
  destruct p as [|X m k| |]; try done. cbn in Hn. unfold mbind, M_bind in Hn. destruct (m s) as [[x s1]|]; [|done].
  injection Hn as <- _. by exists x.
Qed.

(** Every program ends, so every run of threads does. *)
Lemma runs_end c : terminates c.
Proof.
  unfold terminates. remember (c_threads c) as ts eqn:Hts. revert c Hts. induction (one_rest_wf ts) as [ts _ IH].
  intros c ->. constructor. intros c' Hstep%cstep_one_rest. by eapply IH.
Qed.

(** ** Faults and deadlocks *)

(** Every thread can take its next section, or has ended. *)
Definition block_runs p s : Prop := is_ret p \/ exists r, block p s = Done r.

Lemma section_end_runs p s r :
  section_end p s = Done r -> is_act p /\ (exists r', next p s = Done r') \/ exists k, p = Exit k.
Proof.
  destruct p as [|X m k|k|k]; [done| |done|by right; exists k]. cbn. unfold mbind, M_bind.
  intros H. left. split; [done|]. destruct (m s) as [[x s']|]; [by eexists | done].
Qed.

Lemma seen_as_safe c b :
  seen_as c b -> Forall (fun p => block_runs p (fst b)) (snd b) ->
  ~ can_fault c /\ (finished c \/ exists c', cstep c c').
Proof.
  intros Hseen Hall. rewrite Forall_lookup in Hall. destruct c as [s [i|] ts]; unfold seen_as in Hseen; cbn in Hseen.
  - destruct Hseen as (k & p & Hk & -> & Heq). destruct (Hall i _ Hk) as [[]|[r Hr]]. cbn in Hr. rewrite Heq in Hr.
    assert (<[i := p]> (snd b) !! i = Some p) as Hi by (apply list_lookup_insert_eq; by eapply lookup_lt_Some).
    apply section_end_runs in Hr as [[Hact [[p' s'] Hnext]] | [k' ->]].
    + split; [|right; eexists; eapply cstep_act; [exact Hi | done | by right | exact Hnext]].
      intros (j & q & e & Hj & _ & [?|[= ->]] & Hf); [done|]. cbn in *. rewrite Hi in Hj. injection Hj as <-. congruence.
    + split; [|right; eexists; by apply cstep_exit].
      intros (j & q & e & Hj & Hq & [?|[= ->]] & Hf); [done|]. cbn in *. rewrite Hi in Hj. by injection Hj as <-.
  - subst b. cbn in Hall. split.
    + intros (j & q & e & Hj & Hq & _ & Hf). cbn in *. specialize (Hall j q Hj). destruct q; try done.
      destruct Hall as [[]|[r Hr]]. cbn in *. congruence.
    + destruct (decide (Forall is_ret ts)) as [|Hn]; [by left|right].
      apply not_Forall_Exists, Exists_exists in Hn as (p & Hp & Hret); [|apply _].
      apply list_elem_of_lookup in Hp as [i Hi].
      specialize (Hall i p Hi). cbn in Hret. destruct p as [r|X m k|k|k]; cbn in Hret;
        [by exfalso; apply Hret| |eexists; by apply cstep_enter | by destruct Hall as [|[]]].
      destruct Hall as [[]|[[p' s'] Hnext]]. eexists. eapply cstep_act; [exact Hi | done | by left | exact Hnext].
Qed.
End threads.
Arguments config : clear implicits.
Arguments mk_config_of {S R} _ _ _.

(** ** Programs run alone, and sections *)

Section bodies.
Context {S : Type}.

Lemma alone_bind {A B} (p : prog S A) (f : A -> prog S B) s :
  alone (p ≫= f) s = (alone p ≫= fun x => alone (f x)) s.
Proof.
  revert s. induction p as [r|X m k IH|k IH|k IH]; intros s; cbn; [done| |apply IH..].
  unfold mbind, M_bind. destruct (m s) as [[x s']|]; [apply IH | done].
Qed.

Lemma alone_locked {A} (body : prog S A) s : alone (locked body) s = alone body s.
Proof.
  cbn. rewrite alone_bind. unfold mbind, M_bind. by destruct (alone body s) as [[x s']|].
Qed.

(** A program without hooks. *)
Inductive plain {A} : prog S A -> Prop :=
| plain_ret r : plain (Ret r)
| plain_act X (m : M S X) k : (forall x, plain (k x)) -> plain (Act m k).

Lemma plain_acc {A} (m : M S A) : plain (acc m).
Proof. constructor. intros. constructor. Qed.

Lemma plain_bind {A B} (p : prog S A) (f : A -> prog S B) :
  plain p -> (forall x, plain (f x)) -> plain (p ≫= f).
Proof. intros Hp Hf. induction Hp; cbn; [done|]. by constructor. Qed.

(** A section runs its body and leaves the rest of the program. *)
Lemma block_locked {A B} (body : prog S A) (f : A -> prog S B) s :
  plain body -> block (locked body ≫= f) s = (alone body ≫= fun x => mret (f x)) s.
Proof.
  intros Hp. cbn. revert s. induction Hp as [r|X m k _ IH]; intros s; cbn; [done|].
  unfold mbind, M_bind in *. destruct (m s) as [[x s']|]; [apply IH | done].
Qed.

Lemma section_end_locked {A B C} (body : prog S A) (f : A -> prog S B) (g : B -> prog S C) s :
  plain body ->
  section_end (((x ← body; Exit (Ret x)) ≫= f) ≫= g) s = (alone body ≫= fun x => mret (f x ≫= g)) s.
Proof.
  intros Hp. revert s. induction Hp as [r|X m k _ IH]; intros s; cbn; [done|].
  unfold mbind, M_bind in *. destruct (m s) as [[x s']|]; [apply IH | done].
Qed.
End bodies.

Create HintDb plain.
#[export] Hint Resolve plain_acc plain_bind : plain.
#[export] Hint Constructors plain : plain.
