(* ===== verification/RelyGuarantee.v ===== *)
(** * Rely and guarantee

    Reasoning about one thread at a time, over the interleavings of
    [Interleave]: [under rely guar post p s] says that from [s] the program [p]
    runs without fault whatever changes allowed by [rely] the other threads make
    between its blocks (its single accesses outside of critical sections, and its
    whole sections), that each of its own blocks changes the state as [guar]
    allows, and that [post] holds when it has ended.  Threads whose guarantees
    are within the others' relies can then be run together. *)
From S2P Require Export Interleave.
#[local] Open Scope Z_scope.

Section rely.
Context {S R : Type}.

Inductive under (rely guar : relation S) (post : R -> S -> Prop) : prog S R -> S -> Prop :=
| under_ret r s : (forall s', rely s s' -> post r s') -> under rely guar post (Ret r) s
| under_block p s :
    (forall s', rely s s' -> exists x, block p s' = Done x) ->
    (forall s' p' s'', rely s s' -> block p s' = Done (p', s'') -> guar s' s'') ->
    (forall s' p' s'', rely s s' -> block p s' = Done (p', s'') -> under rely guar post p' s'') ->
    under rely guar post p s.

Lemma under_rely rely guar post p s s1 :
  Transitive rely -> under rely guar post p s -> rely s s1 -> under rely guar post p s1.
Proof.
  intros Htr Hp Hs. destruct Hp as [r s Hpost|p s Hrun Hguar Hnext].
  - apply under_ret. intros s' Hs'. apply Hpost. by etransitivity.
  - apply under_block; intros s' *; intros Hs'.
    + apply Hrun. by etransitivity.
    + apply Hguar. by etransitivity.
    + apply Hnext. by etransitivity.
Qed.

Lemma under_runs rely guar post p s : Reflexive rely -> under rely guar post p s -> block_runs p s.
Proof. intros Hr [r s' _|p' s' Hrun _ _]; [by left|right]. by apply Hrun. Qed.

(** ** Threads together *)

(** What thread [i] allows the others, what it does, and what it ends in. *)
Record contract := mk_contract {
  c_rely : relation S;
  c_guar : relation S;
  c_post : R -> S -> Prop
}.

Definition keeps (k : contract) : prog S R -> S -> Prop := under (c_rely k) (c_guar k) (c_post k).

Definition all_keep (ks : nat -> contract) (b : S * list (prog S R)) : Prop :=
  forall i p, snd b !! i = Some p -> keeps (ks i) p (fst b).

Section contracts.
Context (ks : nat -> contract) (Hpre : forall i, PreOrder (c_rely (ks i)))
  (Hfit : forall i j s s', i <> j -> c_guar (ks i) s s' -> c_rely (ks j) s s').

Lemma all_keep_step b b' : all_keep ks b -> bstep b b' -> all_keep ks b'.
Proof.
  intros Hall Hstep. destruct Hstep as [i p p' s s' ts Hi Hb]. pose proof (Hall i p Hi) as Hp. unfold keeps in Hp. cbn in Hp.
  assert (c_guar (ks i) s s' /\ keeps (ks i) p' s') as [Hg Hp'].
  { destruct Hp as [r s _|p s _ Hguar Hnext]; [done|]. split; [eapply Hguar | eapply Hnext]; try done; reflexivity. }
  intros j q Hq. cbn in *. apply list_lookup_insert_Some in Hq as [(<- & <- & _)|[Hne Hq]]; [done|].
  apply (under_rely _ _ _ q s); [apply Hpre | by apply Hall | by apply (Hfit i j)].
Qed.

Lemma contracts_sound s ts c :
  all_keep ks (s, ts) -> rtc cstep (mk_config_of s None ts) c ->
  ~ can_fault c /\ (finished c \/ exists c', cstep c c') /\
  (c_holder c = None -> forall i r, c_threads c !! i = Some (Ret r) -> c_post (ks i) r (c_shared c)).
Proof.
  intros Hall Hrun. apply sections_atomic in Hrun as (b & Hb & Hseen).
  assert (all_keep ks b) as Hk.
  { clear Hseen. induction Hb as [|b b1 b2 Hb _ IH]; [done|]. by eapply IH, all_keep_step. }
  destruct (seen_as_safe c b Hseen) as [Hsafe Hlive].
  { apply Forall_lookup. intros i p Hp. eapply under_runs; [apply Hpre | by apply Hk]. }
  split; [done|]. split; [done|]. intros Hh i r Hr. unfold seen_as in Hseen. rewrite Hh in Hseen. subst b.
  specialize (Hk i (Ret r) Hr). unfold keeps in Hk. cbn in Hk. inversion Hk as [r' s' Hpost|p s' Hx _ _]; subst.
  - apply Hpost. reflexivity.
  - destruct (Hx (c_shared c)) as [x Hbad]; [reflexivity | done].
Qed.
End contracts.
End rely.
Arguments contract : clear implicits.

(** ** Rules for one thread *)

Section rules.
Context {S : Type} (rely guar : relation S) `{!PreOrder rely}.

Lemma under_wp {A} (p : prog S A) post s :
  (forall s', rely s s' -> wp (block p) (fun p' s'' => guar s' s'' /\ under rely guar post p' s'') s') ->
  under rely guar post p s.
Proof.
  intros H. apply under_block; intros s' *; intros Hs; specialize (H s' Hs).
  - apply wp_done in H as (p' & s'' & Hb & _). by eexists.
  - intros Hb. by destruct (wp_elim _ _ _ _ _ H Hb).
  - intros Hb. by destruct (wp_elim _ _ _ _ _ H Hb).
Qed.

(** An access. *)
Lemma under_act {A B} (m : M S A) (k : A -> prog S B) post s :
  (forall s', rely s s' -> wp m (fun x s'' => guar s' s'' /\ under rely guar post (k x) s'') s') ->
  under rely guar post (acc m ≫= k) s.
Proof. intros H. apply under_wp. intros s' Hs. cbn. wp_step. by apply H. Qed.

(** A program and the rest of its thread. *)
Lemma section_end_bind {A B} (f : A -> prog S B) k s p' s' :
  section_end k s = Done (p', s') -> section_end (k ≫= f) s = Done (p' ≫= f, s').
Proof.
  revert s. induction k as [r|X m k IH|k IH|k IH]; intros s; cbn; [done| |done|by intros [= <- <-]].
  unfold mbind, M_bind in *. destruct (m s) as [[x s1]|]; [apply IH | done].
Qed.

Lemma block_bind {A B} (f : A -> prog S B) p s p' s' :
  block p s = Done (p', s') -> block (p ≫= f) s = Done (p' ≫= f, s').
Proof.
  destruct p as [r|X m k|k|k]; cbn; [done| |apply section_end_bind|done].
  unfold mbind, M_bind. destruct (m s) as [[x s1]|]; [by intros [= <- <-] | done].
Qed.

Lemma under_bind {A B} (p : prog S A) (f : A -> prog S B) post s :
  under rely guar (fun x s' => under rely guar post (f x) s') p s -> under rely guar post (p ≫= f) s.
Proof.
  induction 1 as [r s Hpost|p s Hrun Hguar _ IH]; [by apply Hpost|].
  apply under_wp. intros s' Hs. destruct (Hrun s' Hs) as [[p' s''] Hb].
  eapply wp_intro; [by apply block_bind|]. split; [by eapply Hguar | by eapply IH].
Qed.

Lemma under_mono {A} (p : prog S A) (post post' : A -> S -> Prop) s :
  under rely guar post p s -> (forall x s', post x s' -> post' x s') -> under rely guar post' p s.
Proof.
  intros Hp H. induction Hp as [r s Hpost|p s Hrun Hguar _ IH]; [apply under_ret; auto|].
  by apply under_block.
Qed.

(** Run alone, the program ends and its postcondition holds. *)
Lemma under_alone {A} (p : prog S A) post s : plain p -> under rely guar post p s -> wp (alone p) post s.
Proof.
  intros Hp. revert s. induction Hp as [r|X m k _ IH]; intros s Hu; inversion Hu as [r' s' Hpost|p s' Hrun Hguar Hnext]; subst.
  - cbn. apply wp_ret, Hpost. reflexivity.
  - by destruct (Hrun s) as [x Hbad].
  - destruct (Hrun s) as [[p' s'] Hb]; [reflexivity|]. pose proof (Hnext s p' s' ltac:(reflexivity) Hb) as Hk.
    cbn in Hb. unfold mbind, M_bind in Hb. destruct (m s) as [[x s1]|] eqn:Hm; [|done].
    injection Hb as <- <-. cbn. wp_step. eapply wp_intro; [exact Hm|]. by apply IH.
Qed.

(** A critical section. *)
Lemma under_locked {A B} (body : prog S A) (k : A -> prog S B) post s :
  plain body ->
  (forall s', rely s s' -> wp (alone body) (fun x s'' => guar s' s'' /\ under rely guar post (k x) s'') s') ->
  under rely guar post (locked body ≫= k) s.
Proof.
  intros Hp H. apply under_wp. intros s' Hs. unfold wp at 1. rewrite block_locked by done.
  change (wp (alone body ≫= fun x => mret (k x)) (fun p' s'' => guar s' s'' /\ under rely guar post p' s'') s').
  wp_step. eapply wp_mono; [by apply H|]. intros x s'' Hx. by wp_step.
Qed.
End rules.

(** ** A thread that nobody interrupts for a while *)

(** An access made outside of critical sections. *)
Definition tstep {S R} (x y : prog S R * S) : Prop := is_act (fst x) /\ next (fst x) (snd x) = Done y.

Lemma tstep_act {S R X} (m : M S X) (k : X -> prog S R) s s' x p' s2 :
  m s = Done (x, s') -> rtc tstep (k x, s') (p', s2) -> rtc tstep (Act m k, s) (p', s2).
Proof.
  intros Hm Hrun. eapply rtc_l; [|exact Hrun]. split; [done|]. cbn. unfold mbind, M_bind. by rewrite Hm.
Qed.

Lemma tstep_bind {S A B} (f : A -> prog S B) p s p' s' :
  rtc tstep (p, s) (p', s') -> rtc tstep (p ≫= f, s) (p' ≫= f, s').
Proof.
  intros Hrun. remember (p, s) as x eqn:Hx. remember (p', s') as y eqn:Hy. revert p s Hx.
  induction Hrun as [x|x y z Hxy _ IH]; intros p s ->; [by injection Hy as -> ->|].
  destruct y as [q s1], Hxy as [Hact Hn]. cbn in Hact, Hn. destruct p as [r|X m k|k|k]; try done.
  cbn in Hn. unfold mbind, M_bind in Hn. destruct (m s) as [[x s2]|] eqn:Hm; [|done].
  injection Hn as <- <-. cbn. by apply (tstep_act m _ s s2 x), IH.
Qed.

Section runs.
Context {S R : Type}.
Implicit Types (p : prog S R) (s : S) (ts : list (prog S R)).

Lemma run_local i p p' s s' ts :
  ts !! i = Some p -> rtc tstep (p, s) (p', s') ->
  rtc cstep (mk_config_of s None ts) (mk_config_of s' None (<[i := p']> ts)).
Proof.
  intros Hi Hrun. remember (p, s) as x eqn:Hx. remember (p', s') as y eqn:Hy. revert p s ts Hi Hx.
  induction Hrun as [x|x y z Hxy _ IH]; intros p s ts Hi ->.
  - injection Hy as -> ->. by rewrite list_insert_id.
  - destruct y as [q s1]. destruct Hxy as [Hact Hn]. cbn in Hact, Hn. eapply rtc_l.
    { eapply cstep_act; [exact Hi | done | by left | exact Hn]. }
    rewrite <- (list_insert_insert_eq ts i p' q). apply (IH Hy q); [|done].
    apply list_lookup_insert_eq. by eapply lookup_lt_Some.
Qed.

Lemma run_section {A} i (body : prog S A) (k : A -> prog S R) s s' x ts :
  plain body -> ts !! i = Some ((x ← body; Exit (Ret x)) ≫= k) -> alone body s = Done (x, s') ->
  rtc cstep (mk_config_of s (Some i) ts) (mk_config_of s' None (<[i := k x]> ts)).
Proof.
  intros Hp. revert s ts. induction Hp as [r|X m k' _ IH]; intros s ts Hi Ha.
  - injection Ha as -> ->. apply rtc_once. by apply cstep_exit.
  - cbn in Ha. unfold mbind, M_bind in Ha. destruct (m s) as [[y s1]|] eqn:Hm; [|done].
    eapply rtc_l.
    { eapply cstep_act; [exact Hi | done | by right|]. cbn. unfold mbind, M_bind. by rewrite Hm. }
    match goal with |- rtc _ (mk_config_of _ _ (<[i := ?q]> _)) _ => rewrite <- (list_insert_insert_eq ts i (k x) q) end. apply (IH y s1); [|done].
    apply list_lookup_insert_eq. by eapply lookup_lt_Some.
Qed.

(** A critical section, from its entry to its exit. *)
Lemma run_locked {A} i (body : prog S A) (k : A -> prog S R) s s' x ts :
  plain body -> ts !! i = Some (locked body ≫= k) -> alone body s = Done (x, s') ->
  rtc cstep (mk_config_of s None ts) (mk_config_of s' None (<[i := k x]> ts)).
Proof.
  intros Hp Hi Ha. eapply rtc_l; [apply cstep_enter; exact Hi|].
  match goal with |- rtc _ (mk_config_of _ _ (<[i := ?q]> _)) _ => rewrite <- (list_insert_insert_eq ts i (k x) q) end. apply (run_section i body k s); [done| |done].
  apply list_lookup_insert_eq. by eapply lookup_lt_Some.
Qed.
End runs.
