(* ===== verification/Events.v ===== *)
(** * The diagnostic event queue (events.c)

    A circular buffer of [IOLINK_EVENT_QUEUE_SIZE] events.  The operations are
    computations on the queue context; the abstract specification is a bounded
    FIFO list that drops its oldest element when full, and every operation
    refines it. *)
From S2P Require Export Protocol.
#[local] Open Scope Z_scope.

(** ** Data *)

(** events.h:60-64 iolink_event_t *)
Record iolink_event_t := mk_event {
  ev_code : Z;
  ev_type : iolink_event_type_t
}.

(** events.h:71-77 iolink_events_ctx_t *)
Record iolink_events_ctx_t := mk_events_ctx {
  evq_queue : list iolink_event_t;
  evq_head : Z;
  evq_tail : Z;
  evq_count : Z
}.

#[export] Instance eta_events : Eta iolink_events_ctx_t := fun r =>
  mk_events_ctx (evq_queue r) (evq_head r) (evq_tail r) (evq_count r).
#[export] Instance update_evq_queue : Update evq_queue := ltac:(derive_update).
#[export] Instance update_evq_head : Update evq_head := ltac:(derive_update).
#[export] Instance update_evq_tail : Update evq_tail := ltac:(derive_update).
#[export] Instance update_evq_count : Update evq_count := ltac:(derive_update).

(** The all-zero event a [memset] leaves. *)
Definition event_zero : iolink_event_t := mk_event 0 IOLINK_EVENT_TYPE_NOTIFICATION.
#[export] Instance event_inhabited : Inhabited iolink_event_t := populate event_zero.

(** The critical-section hooks, in their default (weak) definition, are empty.
    platform.c:19-27 iolink_critical_enter *)
Definition iolink_critical_enter {S} : M S unit := mret tt.
(** platform.c:24-27 iolink_critical_exit *)
Definition iolink_critical_exit {S} : M S unit := mret tt.

(** ** Operations *)

(** events.c:18-23 iolink_events_init : a [memset] to zero, utils.h [iolink_ctx_zero] *)
Definition iolink_events_init : iolink_events_ctx_t :=
  mk_events_ctx (replicate (Z.to_nat IOLINK_EVENT_QUEUE_SIZE) event_zero) 0 0 0.

(** events.c:25-45 iolink_event_trigger *)
Definition iolink_event_trigger (code : Z) (type : iolink_event_type_t)
  : M iolink_events_ctx_t unit :=
  iolink_critical_enter ;;
  count ← gets evq_count;
  when (IOLINK_EVENT_QUEUE_SIZE <= count)
    (modify (fun c => c<| evq_head := u8 ((evq_head c + 1) mod IOLINK_EVENT_QUEUE_SIZE) |>) ;;
     modify (fun c => c<| evq_count := u8 (evq_count c - 1) |>)) ;;
  queue ← gets evq_queue; tail ← gets evq_tail;
  queue' ← wr queue tail (mk_event code type);
  modify (fun c => c<| evq_queue := queue' |>) ;;
  modify (fun c => c<| evq_tail := u8 ((evq_tail c + 1) mod IOLINK_EVENT_QUEUE_SIZE) |>) ;;
  modify (fun c => c<| evq_count := u8 (evq_count c + 1) |>) ;;
  iolink_critical_exit.

(** events.c:47-51 iolink_events_pending *)
Definition iolink_events_pending (ctx : iolink_events_ctx_t) : bool := 0 <? evq_count ctx.

(** events.c:53-71 iolink_events_pop : [None] for a [false] result. *)
Definition iolink_events_pop : M iolink_events_ctx_t (option iolink_event_t) :=
  iolink_critical_enter ;;
  count ← gets evq_count;
  ret ← (if decide (0 < count) then
    queue ← gets evq_queue; head ← gets evq_head;
    event ← rd queue head;
    modify (fun c => c<| evq_head := u8 ((evq_head c + 1) mod IOLINK_EVENT_QUEUE_SIZE) |>) ;;
    modify (fun c => c<| evq_count := u8 (evq_count c - 1) |>) ;;
    mret (Some event)
  else mret None);
  iolink_critical_exit ;;
  mret ret.

(** events.c:73-90 iolink_events_peek *)
Definition iolink_events_peek : M iolink_events_ctx_t (option iolink_event_t) :=
  iolink_critical_enter ;;
  count ← gets evq_count;
  ret ← (if decide (0 < count) then
    queue ← gets evq_queue; head ← gets evq_head;
    event ← rd queue head;
    mret (Some event)
  else mret None);
  iolink_critical_exit ;;
  mret ret.

(** events.c:104-118 iolink_events_get_highest_severity : the inner switch. *)
Definition event_severity (type : iolink_event_type_t) : Z :=
  match type with
  | IOLINK_EVENT_TYPE_NOTIFICATION => 1
  | IOLINK_EVENT_TYPE_WARNING => 2
  | IOLINK_EVENT_TYPE_ERROR => 3
  | IOLINK_EVENT_TYPE_INVALID _ => 0
  end.

(** events.c:92-126 iolink_events_get_highest_severity *)
Definition iolink_events_get_highest_severity : M iolink_events_ctx_t Z :=
  count ← gets evq_count;
  if decide (count = 0) then mret 0 else
  iolink_critical_enter ;;
  highest ← for_acc (Z.to_nat count) 0 0 (fun i highest_msp =>
    head ← gets evq_head; queue ← gets evq_queue;
    let idx := u8 ((head + i) mod IOLINK_EVENT_QUEUE_SIZE) in
    ev ← rd queue idx;
    let severity := event_severity (ev_type ev) in
    mret (if decide (highest_msp < severity) then severity else highest_msp));
  iolink_critical_exit ;;
  mret highest.

(** events.c:128-147 iolink_events_get_all : the events copied to [out_events]. *)
Definition iolink_events_get_all (max_count : Z) : M iolink_events_ctx_t (list iolink_event_t) :=
  if decide (max_count = 0) then mret [] else
  iolink_critical_enter ;;
  count ← gets evq_count;
  let to_copy := if decide (count < max_count) then count else max_count in
  copied ← for_acc (Z.to_nat to_copy) 0 [] (fun i out =>
    head ← gets evq_head; queue ← gets evq_queue;
    let idx := u8 ((head + i) mod IOLINK_EVENT_QUEUE_SIZE) in
    ev ← rd queue idx;
    mret (out ++ [ev]));
  iolink_critical_exit ;;
  mret copied.

(** ** The abstract queue *)

(** The event [i] places after the oldest. *)
Definition evq_nth (ctx : iolink_events_ctx_t) (i : Z) : iolink_event_t :=
  evq_queue ctx !!! Z.to_nat ((evq_head ctx + i) mod IOLINK_EVENT_QUEUE_SIZE).

(** The pending events, oldest first. *)
Definition evq_abs (ctx : iolink_events_ctx_t) : list iolink_event_t :=
  evq_nth ctx <$> seqZ 0 (evq_count ctx).

(** The ring is well formed: full-size buffer, indices in range, and the tail
    [count] places after the head. *)
Definition evq_wf (ctx : iolink_events_ctx_t) : Prop :=
  zlen (evq_queue ctx) = IOLINK_EVENT_QUEUE_SIZE /\
  0 <= evq_head ctx < IOLINK_EVENT_QUEUE_SIZE /\
  0 <= evq_count ctx <= IOLINK_EVENT_QUEUE_SIZE /\
  evq_tail ctx = (evq_head ctx + evq_count ctx) mod IOLINK_EVENT_QUEUE_SIZE.

(** Appending to a bounded FIFO that forgets its oldest element when full. *)
Definition fifo_push (q : list iolink_event_t) (e : iolink_event_t) : list iolink_event_t :=
  (if decide (IOLINK_EVENT_QUEUE_SIZE <= zlen q) then tail q else q) ++ [e].

(** A call of the queue's interface with its arguments, and what it returns. *)
Inductive evq_call :=
| CallTrigger (code : Z) (type : iolink_event_type_t)
| CallPending
| CallPop
| CallPeek
| CallHighestSeverity
| CallGetAll (max_count : Z).

Inductive evq_result :=
| ResUnit
| ResBool (b : bool)
| ResEvent (e : option iolink_event_t)
| ResSeverity (z : Z)
| ResEvents (l : list iolink_event_t).

Definition evq_exec (c : evq_call) : M iolink_events_ctx_t evq_result :=
  match c with
  | CallTrigger code type => iolink_event_trigger code type ;; mret ResUnit
  | CallPending => b ← gets iolink_events_pending; mret (ResBool b)
  | CallPop => e ← iolink_events_pop; mret (ResEvent e)
  | CallPeek => e ← iolink_events_peek; mret (ResEvent e)
  | CallHighestSeverity => z ← iolink_events_get_highest_severity; mret (ResSeverity z)
  | CallGetAll n => l ← iolink_events_get_all (u8 n); mret (ResEvents l)
  end.

Fixpoint evq_run (cs : list evq_call) : M iolink_events_ctx_t (list evq_result) :=
  match cs with
  | [] => mret []
  | c :: cs' => r ← evq_exec c; rs ← evq_run cs'; mret (r :: rs)
  end.

(** The same calls on the abstract FIFO. *)
Definition max_severity (q : list iolink_event_t) : Z :=
  foldr Z.max 0 ((fun e => event_severity (ev_type e)) <$> q).

Definition fifo_exec (c : evq_call) (q : list iolink_event_t) : evq_result * list iolink_event_t :=
  match c with
  | CallTrigger code type => (ResUnit, fifo_push q (mk_event code type))
  | CallPending => (ResBool (bool_decide (q <> [])), q)
  | CallPop => (ResEvent (head q), tail q)
  | CallPeek => (ResEvent (head q), q)
  | CallHighestSeverity => (ResSeverity (max_severity q), q)
  | CallGetAll n => (ResEvents (take (Z.to_nat (u8 n)) q), q)
  end.

Fixpoint fifo_run (cs : list evq_call) (q : list iolink_event_t)
  : list evq_result * list iolink_event_t :=
  match cs with
  | [] => ([], q)
  | c :: cs' =>
    let '(r, q') := fifo_exec c q in
    let '(rs, q'') := fifo_run cs' q' in (r :: rs, q'')
  end.

(** ** Lemmas *)

Lemma evq_init_wf : evq_wf iolink_events_init.
Proof. by vm_compute. Qed.

Lemma evq_abs_length ctx : evq_wf ctx -> zlen (evq_abs ctx) = evq_count ctx.
Proof. intros (_ & _ & ? & _). unfold evq_abs, zlen. rewrite length_fmap, length_seqZ. lia. Qed.

(** With a queue of four slots a well-formed ring is one of twenty shapes. *)
Lemma evq_wf_shape ctx :
  evq_wf ctx ->
  exists e0 e1 e2 e3 h n,
    h ∈ [0;1;2;3] /\ n ∈ [0;1;2;3;4] /\
    ctx = mk_events_ctx [e0; e1; e2; e3] h ((h + n) mod 4) n.
Proof.
  destruct ctx as [q h t n]. intros (Hq & Hh & Hn & Ht). cbn in *.
  unfold zlen, IOLINK_EVENT_QUEUE_SIZE in *.
  destruct q as [|e0 [|e1 [|e2 [|e3 [|]]]]]; cbn in Hq; try lia.
  exists e0, e1, e2, e3, h, n. split; [|split; [|by rewrite Ht]].
  - assert (h = 0 \/ h = 1 \/ h = 2 \/ h = 3) by lia. set_solver.
  - assert (n = 0 \/ n = 1 \/ n = 2 \/ n = 3 \/ n = 4) by lia. set_solver.
Qed.

(** Case analysis on the shapes of a well-formed ring. *)
Ltac evq_cases H :=
  apply evq_wf_shape in H as (?e & ?e & ?e & ?e & ?h & ?n & ?Hh & ?Hn & ->);
  repeat match goal with
  | H : _ ∈ [] |- _ => by apply elem_of_nil in H
  | H : _ ∈ _ :: _ |- _ => apply elem_of_cons in H as [->|H]
  end.

Lemma iolink_event_trigger_spec ctx code type :
  evq_wf ctx ->
  wp (iolink_event_trigger code type)
     (fun _ ctx' => evq_wf ctx' /\ evq_abs ctx' = fifo_push (evq_abs ctx) (mk_event code type)) ctx.
Proof. intros H. evq_cases H; vm_compute; by repeat split. Qed.

Lemma iolink_events_pop_spec ctx :
  evq_wf ctx ->
  wp iolink_events_pop
     (fun r ctx' => evq_wf ctx' /\ r = head (evq_abs ctx) /\ evq_abs ctx' = tail (evq_abs ctx)) ctx.
Proof. intros H. evq_cases H; vm_compute; by repeat split. Qed.

Lemma iolink_events_peek_spec ctx :
  evq_wf ctx ->
  wp iolink_events_peek (fun r ctx' => ctx' = ctx /\ r = head (evq_abs ctx)) ctx.
Proof. intros H. evq_cases H; vm_compute; by repeat split. Qed.

Lemma iolink_events_get_all_spec ctx max_count :
  evq_wf ctx -> 0 <= max_count ->
  wp (iolink_events_get_all max_count)
     (fun r ctx' => ctx' = ctx /\ r = take (Z.to_nat max_count) (evq_abs ctx)) ctx.
Proof.
  intros Hwf Hm.
  assert (max_count = 0 \/ max_count = 1 \/ max_count = 2 \/ max_count = 3 \/ 4 <= max_count)
    as [->|[->|[->|[->|Hm']]]] by lia; [evq_cases Hwf; by vm_compute..|].
  rewrite take_ge by (pose proof (evq_abs_length ctx Hwf); destruct Hwf as (?&?&?&?);
    unfold zlen, IOLINK_EVENT_QUEUE_SIZE in *; lia).
  unfold iolink_events_get_all, iolink_critical_enter. rewrite decide_False by lia.
  wp_steps. cbv zeta.
  replace (if decide (evq_count ctx < max_count) then evq_count ctx else max_count)
    with (evq_count ctx)
    by (destruct Hwf as (? & ? & ? & ?); unfold IOLINK_EVENT_QUEUE_SIZE in *; case_decide; lia).
  evq_cases Hwf; by vm_compute.
Qed.

Lemma event_severity_range t : 0 <= event_severity t <= 3.
Proof. destruct t; cbn; lia. Qed.

Lemma max_severity_range q : 0 <= max_severity q <= 3.
Proof.
  induction q as [|e q IH]; [done|]. unfold max_severity in *. cbn.
  pose proof (event_severity_range (ev_type e)). lia.
Qed.

Lemma max_severity_snoc q e :
  max_severity (q ++ [e]) = Z.max (max_severity q) (event_severity (ev_type e)).
Proof.
  induction q as [|e' q IH]; [|unfold max_severity in *; cbn; lia].
  unfold max_severity. cbn. pose proof (event_severity_range (ev_type e)). lia.
Qed.

(** Reading the slot of the [i]-th pending event. *)
Lemma wp_rd_slot {S} ctx i (Q : iolink_event_t -> S -> Prop) s :
  evq_wf ctx -> 0 <= i < evq_count ctx ->
  Q (evq_nth ctx i) s ->
  wp (rd (evq_queue ctx) (u8 ((evq_head ctx + i) mod IOLINK_EVENT_QUEUE_SIZE))) Q s.
Proof.
  intros (Hq & Hh & Hc & _) Hi HQ. unfold IOLINK_EVENT_QUEUE_SIZE in *.
  rewrite u8_small by lia. apply wp_rd; [lia|].
  intros x Hx. unfold evq_nth, IOLINK_EVENT_QUEUE_SIZE in HQ.
  by rewrite (list_lookup_total_correct _ _ _ Hx) in HQ.
Qed.

Lemma evq_abs_take_S ctx i :
  0 <= i < evq_count ctx ->
  take (Z.to_nat (i + 1)) (evq_abs ctx) = take (Z.to_nat i) (evq_abs ctx) ++ [evq_nth ctx i].
Proof.
  intros Hi. replace (Z.to_nat (i + 1)) with (S (Z.to_nat i)) by lia.
  apply take_S_r. unfold evq_abs. rewrite list_lookup_fmap, lookup_seqZ_lt by lia.
  cbn. do 2 f_equal. lia.
Qed.

Lemma iolink_events_get_highest_severity_spec ctx :
  evq_wf ctx ->
  wp iolink_events_get_highest_severity
     (fun r ctx' => ctx' = ctx /\ r = max_severity (evq_abs ctx)) ctx.
Proof.
  intros Hwf. unfold iolink_events_get_highest_severity, iolink_critical_enter. wp_steps.
  case_decide as Hc.
  { apply wp_ret. unfold evq_abs. by rewrite Hc. }
  wp_steps.
  apply (wp_for_acc (fun i acc s => s = ctx /\
    acc = max_severity (take (Z.to_nat i) (evq_abs ctx)))); [done | |].
  - intros j acc s Hj [-> ->]. wp_steps. apply wp_rd_slot; [done | lia|]. wp_steps.
    split; [done|]. rewrite evq_abs_take_S, max_severity_snoc by lia. case_decide; lia.
  - intros acc s [-> ->]. unfold iolink_critical_exit. wp_steps. split; [done|].
    rewrite take_ge; [done|]. pose proof (evq_abs_length ctx Hwf). unfold zlen in *. lia.
Qed.

Lemma iolink_events_pending_spec ctx :
  evq_wf ctx -> iolink_events_pending ctx = bool_decide (evq_abs ctx <> []).
Proof.
  intros Hwf. pose proof (evq_abs_length ctx Hwf) as Hl. unfold iolink_events_pending, zlen in *.
  destruct (evq_abs ctx) as [|e q] eqn:Hq; cbn in Hl.
  - rewrite bool_decide_eq_false_2 by naive_solver. lia.
  - rewrite bool_decide_eq_true_2 by done. lia.
Qed.

(** One call of the interface is one call of the FIFO. *)
Lemma evq_exec_spec c ctx :
  evq_wf ctx ->
  wp (evq_exec c) (fun r ctx' => evq_wf ctx' /\ fifo_exec c (evq_abs ctx) = (r, evq_abs ctx')) ctx.
Proof.
  intros Hwf. destruct c; cbn [evq_exec fifo_exec]; wp_steps.
  - eapply wp_mono; [by apply iolink_event_trigger_spec|].
    intros [] ctx' [? Hq]. wp_steps. by rewrite Hq.
  - by rewrite iolink_events_pending_spec.
  - eapply wp_mono; [by apply iolink_events_pop_spec|].
    intros r ctx' (? & -> & Hq). wp_steps. by rewrite Hq.
  - eapply wp_mono; [by apply iolink_events_peek_spec|].
    intros r ctx' (-> & ->). by wp_steps.
  - eapply wp_mono; [by apply iolink_events_get_highest_severity_spec|].
    intros r ctx' (-> & ->). by wp_steps.
  - eapply wp_mono; [apply iolink_events_get_all_spec; [done | apply u8_range]|].
    intros r ctx' (-> & ->). by wp_steps.
Qed.

Lemma evq_run_spec cs ctx :
  evq_wf ctx ->
  wp (evq_run cs) (fun rs ctx' => evq_wf ctx' /\ fifo_run cs (evq_abs ctx) = (rs, evq_abs ctx')) ctx.
Proof.
  revert ctx. induction cs as [|c cs IH]; intros ctx Hwf; cbn [evq_run fifo_run]; [by wp_steps|].
  wp_steps. eapply wp_mono; [by apply evq_exec_spec|]. intros r ctx' [Hwf' ->]. wp_steps.
  eapply wp_mono; [by apply IH|]. intros rs ctx'' [? ->]. by wp_steps.
Qed.

Lemma fifo_push_last q l :
  zlen q <= IOLINK_EVENT_QUEUE_SIZE ->
  fold_left fifo_push l q =
  drop (length (q ++ l) - Z.to_nat IOLINK_EVENT_QUEUE_SIZE) (q ++ l).
Proof.
  unfold zlen, IOLINK_EVENT_QUEUE_SIZE. revert q.
  induction l as [|e l IH]; intros q Hq; cbn [fold_left].
  - rewrite app_nil_r. replace (length q - _)%nat with 0%nat by lia. done.
  - assert (fifo_push q e = drop (length (q ++ [e]) - 4) (q ++ [e])) as Hp.
    { unfold fifo_push, IOLINK_EVENT_QUEUE_SIZE, zlen. rewrite length_app. cbn [length].
      case_decide.
      - replace (length q + 1 - 4)%nat with 1%nat by lia. by destruct q.
      - by replace (length q + 1 - 4)%nat with 0%nat by lia. }
    rewrite IH; rewrite Hp; [|rewrite length_drop, length_app in *; cbn; lia].
    rewrite !length_app, length_drop, !length_app. cbn [length].
    rewrite (cons_middle e q l), app_assoc.
    rewrite <- (drop_app_le (q ++ [e]) l) by (rewrite length_app; cbn; lia).
    rewrite drop_drop. f_equal. cbn. lia.
Qed.

(** ** Properties *)

(** C25. The event queue refines a FIFO of four places that drops its oldest
    element when full: for every sequence of calls (trigger, pending, pop, peek,
    highest severity, copy of the pending events) made after initialisation, no
    call leaves the bounds of the ring buffer, every call returns what the FIFO
    returns, and the ring ends well formed with the FIFO's content. *)
Theorem events_refine_fifo (cs : list evq_call) :
  exists rs ctx',
    evq_run cs iolink_events_init = Done (rs, ctx') /\
    evq_wf ctx' /\
    fifo_run cs [] = (rs, evq_abs ctx').
Proof.
  pose proof (evq_run_spec cs iolink_events_init evq_init_wf) as H.
  apply wp_done in H as (rs & ctx' & Hr & Hwf & Hf). by exists rs, ctx'.
Qed.

(** After any number of triggers on a fresh queue, the events pending are
    exactly the last four triggered, oldest first. *)
Theorem events_keep_last_four (l : list iolink_event_t) :
  exists rs ctx',
    evq_run ((fun e => CallTrigger (ev_code e) (ev_type e)) <$> l) iolink_events_init =
      Done (rs, ctx') /\
    evq_abs ctx' = drop (length l - 4) l.
Proof.
  set (cs := _ <$> l).
  pose proof (evq_run_spec cs iolink_events_init evq_init_wf) as H.
  apply wp_done in H as (rs & ctx' & Hr & Hwf & Hf). exists rs, ctx'. split; [done|].
  assert (snd (fifo_run cs (evq_abs iolink_events_init)) = evq_abs ctx') as <- by by rewrite Hf.
  change (evq_abs iolink_events_init) with (@nil iolink_event_t).
  etransitivity; [|apply (fifo_push_last [] l); done].
  clear. unfold cs. generalize (@nil iolink_event_t) as q.
  induction l as [|e l IH]; intros q; [done|]. cbn.
  destruct (fifo_run _ _) eqn:Hf. cbn. rewrite <- IH. destruct e. cbn in *. by rewrite Hf.
Qed.
