(* ===== verification/EventsConcurrent.v ===== *)
(** * The event queue between threads (events.c)

    The operations of the queue as programs of single accesses, with their
    critical sections.  Run alone they are the definitions of [Events]; run by
    any number of threads at once, they are still those of one FIFO. *)
From S2P Require Export Events Interleave.
#[local] Open Scope Z_scope.

Abbreviation ectx := iolink_events_ctx_t.

(** ** The operations, one access at a time *)

(** [ctx->f = (uint8_t) ((ctx->f + 1U) % IOLINK_EVENT_QUEUE_SIZE);]
    events.c:41-41 IOLINK_EVENT_QUEUE_SIZE *)
Definition advance (f : ectx -> Z) `{!Update f} : prog ectx unit :=
  x ← acc (gets f); acc (assign f (u8 ((x + 1) mod IOLINK_EVENT_QUEUE_SIZE))).

(** [ctx->count++] and [ctx->count--]. events.c:42-42 count *)
Definition count_add (n : Z) : prog ectx unit :=
  count ← acc (gets evq_count); acc (assign evq_count (u8 (count + n))).

(** The slot [i] of the ring, read. events.c:63-63 queue *)
Definition slot (i : Z) : M ectx iolink_event_t := fun c => rd (evq_queue c) i c.
(** A field of it, changed. events.c:39-39 queue *)
Definition set_slot (i : Z) (f : iolink_event_t -> iolink_event_t) : M ectx unit :=
  ev ← slot i; queue ← gets evq_queue; queue ← wr queue i (f ev); assign evq_queue queue.

(** events.c:33-42 iolink_event_trigger *)
Definition trigger_body (code : Z) (type : iolink_event_type_t) : prog ectx unit :=
  count ← acc (gets evq_count);
  (if decide (IOLINK_EVENT_QUEUE_SIZE <= count) then advance evq_head ;; count_add (-1) else mret tt) ;;
  tail ← acc (gets evq_tail);
  acc (set_slot tail (fun ev => mk_event code (ev_type ev))) ;;
  tail ← acc (gets evq_tail);
  acc (set_slot tail (fun ev => mk_event (ev_code ev) type)) ;;
  advance evq_tail ;;
  count_add 1.

(** events.c:25-45 iolink_event_trigger *)
Definition trigger_prog (code : Z) (type : iolink_event_type_t) : prog ectx unit :=
  locked (trigger_body code type).

(** events.c:47-51 iolink_events_pending *)
Definition pending_prog : prog ectx bool :=
  count ← acc (gets evq_count); mret (bool_decide (0 < count)).

(** events.c:62-67 iolink_events_pop *)
Definition pop_body : prog ectx (option iolink_event_t) :=
  count ← acc (gets evq_count);
  if decide (0 < count) then
    head ← acc (gets evq_head);
    event ← acc (slot head);
    advance evq_head ;;
    count_add (-1) ;;
    mret (Some event)
  else mret None.

(** events.c:53-71 iolink_events_pop *)
Definition pop_prog : prog ectx (option iolink_event_t) := locked pop_body.

(** events.c:82-86 iolink_events_peek *)
Definition peek_body : prog ectx (option iolink_event_t) :=
  count ← acc (gets evq_count);
  if decide (0 < count) then
    head ← acc (gets evq_head);
    event ← acc (slot head);
    mret (Some event)
  else mret None.

(** events.c:73-90 iolink_events_peek *)
Definition peek_prog : prog ectx (option iolink_event_t) := locked peek_body.

(** [for (uint8_t i = 0U; i < ctx->count; i++)]: the count is read again at every
    turn; [fuel] turns are allowed. events.c:100-123 iolink_events_get_highest_severity *)
Fixpoint severity_loop (fuel : nat) (i highest_msp : Z) : prog ectx Z :=
  match fuel with
  | O => acc (raise OutOfFuel)
  | Datatypes.S fuel =>
    count ← acc (gets evq_count);
    if decide (i < count) then
      head ← acc (gets evq_head);
      ev ← acc (slot (u8 ((head + i) mod IOLINK_EVENT_QUEUE_SIZE)));
      let severity := event_severity (ev_type ev) in
      severity_loop fuel (i + 1) (if decide (highest_msp < severity) then severity else highest_msp)
    else mret highest_msp
  end.

(** One turn more than the slots of the ring.
    events.c:98-125 iolink_events_get_highest_severity *)
Definition severity_body : prog ectx Z :=
  severity_loop (Datatypes.S (Z.to_nat IOLINK_EVENT_QUEUE_SIZE)) 0 0.

(** The count is read once before the section.
    events.c:92-126 iolink_events_get_highest_severity *)
Definition severity_prog : prog ectx Z :=
  count ← acc (gets evq_count);
  if decide (count = 0) then mret 0 else locked severity_body.

(** events.c:140-144 iolink_events_get_all *)
Fixpoint copy_loop (n : nat) (i : Z) (out : list iolink_event_t) : prog ectx (list iolink_event_t) :=
  match n with
  | O => mret out
  | Datatypes.S n =>
    head ← acc (gets evq_head);
    ev ← acc (slot (u8 ((head + i) mod IOLINK_EVENT_QUEUE_SIZE)));
    copy_loop n (i + 1) (out ++ [ev])
  end.

(** events.c:137-144 iolink_events_get_all *)
Definition get_all_body (max_count : Z) : prog ectx (list iolink_event_t) :=
  count ← acc (gets evq_count);
  copy_loop (Z.to_nat (if decide (count < max_count) then count else max_count)) 0 [].

(** A call for no event returns at once, in a step that touches nothing.
    events.c:128-147 iolink_events_get_all *)
Definition get_all_prog (max_count : Z) : prog ectx (list iolink_event_t) :=
  if decide (max_count = 0) then acc (mret []) else locked (get_all_body max_count).

Definition call_prog (c : evq_call) : prog ectx evq_result :=
  match c with
  | CallTrigger code type => trigger_prog code type ;; mret ResUnit
  | CallPending => b ← pending_prog; mret (ResBool b)
  | CallPop => e ← pop_prog; mret (ResEvent e)
  | CallPeek => e ← peek_prog; mret (ResEvent e)
  | CallHighestSeverity => z ← severity_prog; mret (ResSeverity z)
  | CallGetAll n => l ← get_all_prog (u8 n); mret (ResEvents l)
  end.

(** ** Run alone, they are the definitions of [Events] *)

Lemma get_all_alone ctx n : evq_wf ctx -> 0 <= n -> alone (get_all_prog n) ctx = iolink_events_get_all n ctx.
Proof.
  intros Hwf Hn.
  assert (n = 0 \/ n = 1 \/ n = 2 \/ n = 3 \/ 4 <= n) as [->|[->|[->|[->|Hn']]]] by lia;
    [evq_cases Hwf; vm_compute; reflexivity..|].
  unfold get_all_prog, iolink_events_get_all. rewrite !decide_False by lia. cbn.
  unfold mbind, M_bind, gets, iolink_critical_enter. cbn [mret M_ret].
  replace (if decide (evq_count ctx < n) then evq_count ctx else n) with (evq_count ctx)
    by (destruct Hwf as (? & ? & ? & ?); unfold IOLINK_EVENT_QUEUE_SIZE in *; case_decide; lia).
  evq_cases Hwf; vm_compute; reflexivity.
Qed.

Lemma call_alone c ctx : evq_wf ctx -> alone (call_prog c) ctx = evq_exec c ctx.
Proof.
  intros Hwf. destruct c as [code type| | | | |n].
  6: { cbn [call_prog evq_exec]. rewrite alone_bind. unfold mbind, M_bind.
       by rewrite get_all_alone by (done || apply u8_range). }
  all: evq_cases Hwf; vm_compute; reflexivity.
Qed.

(** ** The critical sections *)

Lemma plain_severity_loop fuel i h : plain (severity_loop fuel i h).
Proof.
  revert i h. induction fuel as [|fuel IH]; intros i h; cbn [severity_loop]; [auto with plain|].
  apply plain_bind; [auto with plain|]. intros count. destruct (decide (i < count)); [|by constructor].
  repeat (apply plain_bind; [auto with plain|]; intros). apply IH.
Qed.

Lemma plain_copy_loop n i out : plain (copy_loop n i out).
Proof.
  revert i out. induction n as [|n IH]; intros i out; cbn [copy_loop]; [by constructor|].
  repeat (apply plain_bind; [auto with plain|]; intros). apply IH.
Qed.

Lemma plain_trigger code type : plain (trigger_body code type).
Proof.
  unfold trigger_body, advance, count_add.
  repeat first [apply plain_bind; [|intros] | case_decide | apply plain_acc | apply plain_ret].
Qed.

Lemma plain_pop : plain pop_body.
Proof.
  unfold pop_body, advance, count_add.
  repeat first [apply plain_bind; [|intros] | case_decide | apply plain_acc | apply plain_ret].
Qed.

Lemma plain_peek : plain peek_body.
Proof. unfold peek_body. repeat first [apply plain_bind; [|intros] | case_decide | apply plain_acc | apply plain_ret]. Qed.

Lemma plain_get_all n : plain (get_all_body n).
Proof. apply plain_bind; [auto with plain|]. intros. apply plain_copy_loop. Qed.

(** With the count changed to 0 meanwhile the section reports no severity. *)
Lemma severity_alone ctx : evq_wf ctx -> alone severity_body ctx = iolink_events_get_highest_severity ctx.
Proof. intros Hwf. evq_cases Hwf; vm_compute; reflexivity. Qed.

(** ** Threads of calls *)

(** A thread that makes the calls [todo] one after the other. *)
Fixpoint client (made : list (evq_call * evq_result)) (todo : list evq_call)
  : prog ectx (list (evq_call * evq_result)) :=
  match todo with
  | [] => Ret made
  | c :: cs => r ← call_prog c; client (made ++ [(c, r)]) cs
  end.

(** A thread outside of a section that has made the calls [made] and will make
    [todo]: at a call, or in [iolink_events_get_highest_severity] after the
    unprotected read of the count. *)
Inductive at_rest : prog ectx (list (evq_call * evq_result)) -> list (evq_call * evq_result) -> list evq_call -> Prop :=
| rest_client made todo : at_rest (client made todo) made todo
| rest_severity made cs :
    at_rest ((locked severity_body ≫= fun z => mret (ResSeverity z)) ≫= fun r => client (made ++ [(CallHighestSeverity, r)]) cs)
            made (CallHighestSeverity :: cs).

Lemma at_rest_ret p rs made todo : at_rest p made todo -> p = Ret rs -> rs = made /\ todo = [].
Proof.
  intros [m [|c cs]|m cs] Hp; [by injection Hp as ->| |done].
  destruct c; try done. cbn in Hp. unfold get_all_prog in Hp. by destruct (decide (u8 max_count = 0)).
Qed.

(** The next block of a thread that is at rest is one call of the FIFO, or the
    unprotected read of a count that is not 0. *)
Definition rest_moves s made todo (p' : prog ectx (list (evq_call * evq_result))) s' : Prop :=
  at_rest p' made todo /\ s' = s \/
  exists c cs r, todo = c :: cs /\ at_rest p' (made ++ [(c, r)]) cs /\ evq_wf s' /\
    fifo_exec c (evq_abs s) = (r, evq_abs s').

Lemma rest_call s c cs made (p : M ectx (prog ectx (list (evq_call * evq_result)))) :
  evq_wf s ->
  p s = (evq_exec c ≫= fun r => mret (client (made ++ [(c, r)]) cs)) s ->
  exists p' s', p s = Done (p', s') /\ rest_moves s made (c :: cs) p' s'.
Proof.
  intros Hwf ->. pose proof (evq_exec_spec c s Hwf) as H. apply wp_done in H as (r & s' & Hr & Hwf' & Hf).
  exists (client (made ++ [(c, r)]) cs), s'. unfold mbind, M_bind. rewrite Hr. split; [done|].
  right. exists c, cs, r. by split; [|split; [constructor|]].
Qed.

(** A critical section and the rest of its call. *)
Lemma locked_block {A} (body : prog ectx A) (f : A -> evq_result) c cs made s :
  plain body -> evq_wf s ->
  alone (locked body ≫= fun x => mret (f x)) s = evq_exec c s ->
  exists p' s',
    block ((locked body ≫= fun x => mret (f x)) ≫= fun r => client (made ++ [(c, r)]) cs) s = Done (p', s') /\
    rest_moves s made (c :: cs) p' s'.
Proof.
  intros Hp Hwf Halone. apply rest_call; [done|]. rewrite alone_bind in Halone. revert Halone.
  unfold locked at 2. cbn [block mbind prog_bind].
  etransitivity; [by apply (section_end_locked body (fun x => mret (f x)))|]. revert Halone.
  unfold mbind, M_bind. rewrite alone_locked. destruct (alone body s) as [[x s']|]; cbn; by intros <-.
Qed.

Lemma rest_block p made todo s :
  at_rest p made todo -> evq_wf s ->
  p = Ret made /\ todo = [] \/
  exists p' s', block p s = Done (p', s') /\ rest_moves s made todo p' s'.
Proof.
  intros [m [|c cs]|m cs] Hwf; [by left|right..].
  - pose proof (call_alone c s Hwf) as Halone. destruct c as [code type| | | | |n].
    + apply (locked_block (trigger_body code type) (fun _ => ResUnit)); [apply plain_trigger | done..].
    + apply rest_call; [done|]. unfold mbind at 1, M_bind. by rewrite <- Halone.
    + apply (locked_block pop_body ResEvent); [apply plain_pop | done..].
    + apply (locked_block peek_body ResEvent); [apply plain_peek | done..].
    + exists (((if decide (evq_count s = 0) then mret 0 else locked severity_body) ≫= fun z => mret (ResSeverity z)) ≫=
              fun r => client (m ++ [(CallHighestSeverity, r)]) cs), s. split; [reflexivity|].
      case_decide as Hc; [|left; split; [constructor | done]].
      right. exists CallHighestSeverity, cs, (ResSeverity 0). split; [done|]. split; [constructor|]. split; [done|].
      cbn [fifo_exec]. unfold evq_abs. by rewrite Hc.
    + cbn [client call_prog]. unfold get_all_prog. cbn [call_prog] in Halone. unfold get_all_prog in Halone. case_decide as Hn.
      * apply rest_call; [done|]. etransitivity; [|unfold mbind, M_bind; by rewrite <- Halone]. reflexivity.
      * apply (locked_block (get_all_body (u8 n)) ResEvents); [apply plain_get_all | done..].
  - apply (locked_block severity_body ResSeverity); [apply plain_severity_loop | done|].
    rewrite alone_bind. unfold mbind at 1, M_bind. by rewrite alone_locked, severity_alone.
Qed.

(** ** The history of the calls *)

(** The calls made, in the order of their sections, each with the thread that
    made it. *)
Abbreviation history := (list (nat * (evq_call * evq_result))).

Definition calls_of (hist : history) : list evq_call := (fun h => fst (snd h)) <$> hist.
Definition results_of (hist : history) : list evq_result := (fun h => snd (snd h)) <$> hist.
Definition of_thread (i : nat) (hist : history) : list (evq_call * evq_result) :=
  snd <$> filter (fun h => fst h = i) hist.

Lemma fifo_run_snoc cs c q rs q' r q'' :
  fifo_run cs q = (rs, q') -> fifo_exec c q' = (r, q'') -> fifo_run (cs ++ [c]) q = (rs ++ [r], q'').
Proof.
  revert q rs. induction cs as [|c0 cs IH]; intros q rs; cbn; [by intros [= <- <-] ->|].
  destruct (fifo_exec c0 q) as [r0 q0]. destruct (fifo_run cs q0) as [rs0 q1] eqn:Hrun.
  intros [= <- <-] Hc. by rewrite (IH q0 rs0).
Qed.

Lemma of_thread_snoc i j x hist :
  of_thread i (hist ++ [(j, x)]) = of_thread i hist ++ (if decide (j = i) then [x] else []).
Proof. unfold of_thread. rewrite filter_app, fmap_app, filter_cons. cbn. by case_decide. Qed.

(** What holds between the sections of threads that make the calls [calls] on
    the ring [ctx]. *)
Definition serial (ctx : ectx) (calls : list (list evq_call))
    (b : ectx * list (prog ectx (list (evq_call * evq_result)))) (hist : history) : Prop :=
  evq_wf (fst b) /\
  fifo_run (calls_of hist) (evq_abs ctx) = (results_of hist, evq_abs (fst b)) /\
  length (snd b) = length calls /\
  forall i p cs, snd b !! i = Some p -> calls !! i = Some cs ->
    exists todo, at_rest p (of_thread i hist) todo /\ cs = fmap fst (of_thread i hist) ++ todo.

Lemma serial_init ctx calls : evq_wf ctx -> serial ctx calls (ctx, client [] <$> calls) [].
Proof.
  intros Hwf. split; [done|]. split; [done|]. split; [apply length_fmap|].
  intros i p cs Hp Hcs. exists cs. cbn in *. rewrite list_lookup_fmap, Hcs in Hp. injection Hp as <-.
  split; [constructor | done].
Qed.

Lemma serial_lookup ctx calls b hist i p :
  serial ctx calls b hist -> snd b !! i = Some p ->
  exists cs todo, calls !! i = Some cs /\ at_rest p (of_thread i hist) todo /\ cs = fmap fst (of_thread i hist) ++ todo.
Proof.
  intros (_ & _ & Hlen & Hall) Hp.
  destruct (lookup_lt_is_Some_2 calls i) as [cs Hcs]; [rewrite <- Hlen; by eapply lookup_lt_Some|].
  destruct (Hall i p cs Hp Hcs) as (todo & ? & ?). by exists cs, todo.
Qed.

Lemma serial_step ctx calls b b' hist :
  serial ctx calls b hist -> bstep b b' -> exists hist', serial ctx calls b' hist'.
Proof.
  intros Hs Hstep. destruct Hstep as [i p p' s s' ts Hi Hb].
  destruct (serial_lookup _ _ _ _ i p Hs Hi) as (cs & todo & Hcs & Hrest & Heq).
  destruct Hs as (Hwf & Hrun & Hlen & Hall). cbn in Hwf, Hrun, Hlen, Hall.
  destruct (rest_block p _ _ s Hrest Hwf) as [[-> _]|(p1 & s1 & Hb1 & Hmove)]; [done|].
  rewrite Hb in Hb1. injection Hb1 as <- <-.
  destruct Hmove as [[Hrest' ->]|(c & cs' & r & -> & Hrest' & Hwf' & Hf)].
  - exists hist. split; [done|]. split; [done|]. split; [by etransitivity; [apply length_insert|]|].
    intros j q cs0 Hq Hcs0. cbn in Hq. apply list_lookup_insert_Some in Hq as [(<- & <- & _)|[Hne Hq]]; [|by apply Hall].
    rewrite Hcs in Hcs0. injection Hcs0 as <-. by exists todo.
  - exists (hist ++ [(i, (c, r))]). split; [done|]. split.
    { unfold calls_of, results_of. rewrite !fmap_app. by apply (fifo_run_snoc _ _ _ _ (evq_abs s)). }
    split; [by etransitivity; [apply length_insert|]|].
    intros j q cs0 Hq Hcs0. cbn in Hq. rewrite of_thread_snoc.
    apply list_lookup_insert_Some in Hq as [(<- & <- & _)|[Hne Hq]].
    + rewrite Hcs in Hcs0. injection Hcs0 as <-. exists cs'. rewrite decide_True by done. split; [done|].
      rewrite Heq, fmap_app, <- app_assoc. done.
    + rewrite decide_False by done. rewrite app_nil_r. by apply Hall.
Qed.

Lemma serial_steps ctx calls b b' :
  rtc bstep b b' -> (exists hist, serial ctx calls b hist) -> exists hist, serial ctx calls b' hist.
Proof. induction 1 as [|b b1 b2 Hb _ IH]; [done|]. intros [hist Hs]. apply IH. by apply (serial_step _ _ b b1 hist). Qed.

Lemma serial_runs ctx calls b hist : serial ctx calls b hist -> Forall (fun p => block_runs p (fst b)) (snd b).
Proof.
  intros Hs. apply Forall_lookup. intros i p Hp.
  destruct (serial_lookup _ _ _ _ i p Hs Hp) as (cs & todo & _ & Hrest & _).
  destruct (rest_block p _ _ (fst b) Hrest) as [[-> _]|(p' & s' & Hb & _)]; [apply Hs | by left | right; by eexists].
Qed.

(** ** Properties *)

(** C8. Any number of threads that call the event queue at the same time see one
    FIFO: however their single accesses to the ring interleave outside of one
    another's critical sections, no access leaves the ring, some thread can
    always go on until all have ended, no run goes on for ever, and whenever no
    critical section is open there is one order of the calls made so far in which every thread's calls
    keep their order, every call returned what the FIFO of four places returns,
    and the ring holds what the FIFO holds; a thread that has ended made exactly
    its calls. *)
Theorem events_serialise (ctx : ectx) (calls : list (list evq_call)) c :
  evq_wf ctx ->
  rtc cstep (mk_config_of ctx None (client [] <$> calls)) c ->
  ~ can_fault c /\ (finished c \/ exists c', cstep c c') /\ terminates c /\
  (c_holder c = None ->
   exists hist : history,
     fifo_run (calls_of hist) (evq_abs ctx) = (results_of hist, evq_abs (c_shared c)) /\
     evq_wf (c_shared c) /\
     forall i cs p, calls !! i = Some cs -> c_threads c !! i = Some p ->
       fmap fst (of_thread i hist) `prefix_of` cs /\
       (forall made, p = Ret made -> made = of_thread i hist /\ fmap fst made = cs)).
Proof.
  intros Hwf Hrun. apply sections_atomic in Hrun as (b & Hb & Hseen).
  apply (serial_steps ctx calls) in Hb as [hist Hs]; [|exists []; by apply serial_init].
  destruct (seen_as_safe c b Hseen (serial_runs _ _ _ _ Hs)) as [Hsafe Hlive].
  split; [done|]. split; [done|]. split; [apply runs_end|]. intros Hh. exists hist.
  unfold seen_as in Hseen. rewrite Hh in Hseen. subst b.
  pose proof Hs as (? & ? & _ & Hall). split; [done|]. split; [done|].
  intros i cs p Hcs Hp. destruct (Hall i p cs Hp Hcs) as (todo & Hrest & ->).
  split; [by apply prefix_app_r|]. intros made Hm.
  destruct (at_rest_ret p made _ _ Hrest Hm) as [-> ->]. by rewrite app_nil_r.
Qed.

(** One thread triggers an event and asks for the highest severity; the other pops
    the event after the first has read the count and before its section: the
    severity reported is that of the emptied queue. *)
Definition two_threads : list (list evq_call) :=
  [[CallTrigger 4096 IOLINK_EVENT_TYPE_ERROR; CallHighestSeverity]; [CallPop; CallPending]].

Definition two_threads_end : config ectx (list (evq_call * evq_result)) :=
  mk_config_of
    (mk_events_ctx [mk_event 4096 IOLINK_EVENT_TYPE_ERROR; event_zero; event_zero; event_zero] 1 1 0) None
    [Ret [(CallTrigger 4096 IOLINK_EVENT_TYPE_ERROR, ResUnit); (CallHighestSeverity, ResSeverity 0)];
     Ret [(CallPop, ResEvent (Some (mk_event 4096 IOLINK_EVENT_TYPE_ERROR))); (CallPending, ResBool false)]].

Lemma events_serialise_witness :
  rtc cstep (mk_config_of iolink_events_init None (client [] <$> two_threads)) two_threads_end /\
  exists hist, fifo_run (calls_of hist) [] = (results_of hist, []) /\
    fmap fst (of_thread 0 hist) = [CallTrigger 4096 IOLINK_EVENT_TYPE_ERROR; CallHighestSeverity].
Proof.
  assert (rtc cstep (mk_config_of iolink_events_init None (client [] <$> two_threads)) two_threads_end) as Hrun.
  { apply (take_steps_ok (replicate 12 0 ++ replicate 9 1 ++ [0; 0; 0; 1])%nat). vm_compute. reflexivity. }
  split; [exact Hrun|].
  destruct (events_serialise iolink_events_init two_threads two_threads_end evq_init_wf Hrun) as (_ & _ & _ & H).
  destruct (H eq_refl) as (hist & Hf & _ & Hall). exists hist. split; [exact Hf|].
  destruct (Hall 0%nat _ _ eq_refl eq_refl) as [_ Hret]. destruct (Hret _ eq_refl) as [<- Heq]. exact Heq.
Defined.
