(* ===== verification/DataStorage.v ===== *)
(** * Data Storage (data_storage.c)

    The synchronisation state machine and its checksum.  The storage hooks of
    the context are bound but never called by the stack. *)
From S2P Require Export Protocol Crc.
#[local] Open Scope Z_scope.

(** ** Data *)

(** [ds_storage] stands for the pointer to the storage hooks ([None] for NULL,
    otherwise which implementation is bound).
    data_storage.h:80-86 iolink_ds_ctx_t *)
Record iolink_ds_ctx_t := mk_ds_ctx {
  ds_state : iolink_ds_state_t;
  ds_storage : option nat;
  ds_current_checksum : Z;
  ds_master_checksum : Z
}.

#[export] Instance eta_ds : Eta iolink_ds_ctx_t := fun r =>
  mk_ds_ctx (ds_state r) (ds_storage r) (ds_current_checksum r) (ds_master_checksum r).
#[export] Instance update_ds_state : Update ds_state := ltac:(derive_update).
#[export] Instance update_ds_storage : Update ds_storage := ltac:(derive_update).
#[export] Instance update_ds_current : Update ds_current_checksum := ltac:(derive_update).
#[export] Instance update_ds_master : Update ds_master_checksum := ltac:(derive_update).

(** ** Operations *)

(** data_storage.c:12-19 iolink_ds_init *)
Definition iolink_ds_init (storage : option nat) : iolink_ds_ctx_t :=
  mk_ds_ctx IOLINK_DS_STATE_IDLE storage 0 0.

(** data_storage.c:29-32 iolink_ds_calc_checksum : the loop body, on [(sum1, sum2)]. *)
Definition fletcher_step (s : Z * Z) (b : Z) : Z * Z :=
  let '(sum1, sum2) := s in
  let sum1 := u16 ((sum1 + u16 b) mod 255) in
  let sum2 := u16 ((sum2 + sum1) mod 255) in
  (sum1, sum2).

(** data_storage.c:21-34 iolink_ds_calc_checksum *)
Definition iolink_ds_calc_checksum {S} (data : option (list Z)) (len : Z) : M S Z :=
  if iolink_buf_is_valid data len then
    let buf := default [] data in
    sums ← for_acc (Z.to_nat len) 0 (0, 0) (fun i sums =>
      b ← rd buf i;
      mret (fletcher_step sums b));
    let '(sum1, sum2) := sums in
    mret (u16 (Z.lor (Z.shiftl sum2 8) sum1))
  else mret 0.

(** data_storage.c:36-56 iolink_ds_check *)
Definition iolink_ds_check (master_checksum : Z) : M iolink_ds_ctx_t unit :=
  modify (fun c => c<| ds_master_checksum := master_checksum |>) ;;
  state ← gets ds_state;
  if decide (state <> IOLINK_DS_STATE_IDLE) then mret tt
  else if decide (master_checksum = 0) then
    modify (fun c => c<| ds_state := IOLINK_DS_STATE_UPLOAD_REQ |>)
  else
    current ← gets ds_current_checksum;
    when (master_checksum <> current)
      (modify (fun c => c<| ds_state := IOLINK_DS_STATE_DOWNLOAD_REQ |>)).

(** data_storage.c:58-91 iolink_ds_process *)
Definition iolink_ds_process : M iolink_ds_ctx_t unit :=
  state ← gets ds_state;
  match state with
  | IOLINK_DS_STATE_UPLOAD_REQ =>
    modify (fun c => c<| ds_state := IOLINK_DS_STATE_UPLOADING |>)
  | IOLINK_DS_STATE_UPLOADING =>
    modify (fun c => c<| ds_state := IOLINK_DS_STATE_IDLE |>)
  | IOLINK_DS_STATE_DOWNLOAD_REQ =>
    modify (fun c => c<| ds_state := IOLINK_DS_STATE_DOWNLOADING |>)
  | IOLINK_DS_STATE_DOWNLOADING =>
    modify (fun c => c<| ds_current_checksum := ds_master_checksum c |>) ;;
    modify (fun c => c<| ds_state := IOLINK_DS_STATE_IDLE |>)
  | _ => modify (fun c => c<| ds_state := IOLINK_DS_STATE_IDLE |>)
  end.

(** data_storage.c:93-105 iolink_ds_start_upload *)
Definition iolink_ds_start_upload : M iolink_ds_ctx_t Z :=
  state ← gets ds_state;
  if decide (state <> IOLINK_DS_STATE_IDLE) then mret (-1) else
  modify (fun c => c<| ds_state := IOLINK_DS_STATE_UPLOAD_REQ |>) ;;
  mret 0.

(** data_storage.c:107-119 iolink_ds_start_download *)
Definition iolink_ds_start_download : M iolink_ds_ctx_t Z :=
  state ← gets ds_state;
  if decide (state <> IOLINK_DS_STATE_IDLE) then mret (-1) else
  modify (fun c => c<| ds_state := IOLINK_DS_STATE_DOWNLOAD_REQ |>) ;;
  mret 0.

(** data_storage.c:121-130 iolink_ds_abort *)
Definition iolink_ds_abort : M iolink_ds_ctx_t Z :=
  modify (fun c => c<| ds_state := IOLINK_DS_STATE_IDLE |>) ;;
  mret 0.

(** data_storage.c:132-182 iolink_ds_handle_command *)
Definition iolink_ds_handle_command (cmd access_locks : Z) : M iolink_ds_ctx_t Z :=
  if decide ((cmd = IOLINK_CMD_PARAM_DOWNLOAD_START \/ cmd = IOLINK_CMD_PARAM_DOWNLOAD_END) /\
             Z.land access_locks IOLINK_LOCK_DS <> 0)
  then mret (-2) else
  state ← gets ds_state;
  if decide (cmd = IOLINK_CMD_PARAM_UPLOAD_START) then
    if decide (state <> IOLINK_DS_STATE_IDLE) then mret (-1) else
    modify (fun c => c<| ds_state := IOLINK_DS_STATE_UPLOAD_REQ |>) ;; mret 0
  else if decide (cmd = IOLINK_CMD_PARAM_UPLOAD_END) then
    when (state = IOLINK_DS_STATE_UPLOADING)
      (modify (fun c => c<| ds_state := IOLINK_DS_STATE_IDLE |>)) ;; mret 0
  else if decide (cmd = IOLINK_CMD_PARAM_DOWNLOAD_START) then
    if decide (state <> IOLINK_DS_STATE_IDLE) then mret (-1) else
    modify (fun c => c<| ds_state := IOLINK_DS_STATE_DOWNLOAD_REQ |>) ;; mret 0
  else if decide (cmd = IOLINK_CMD_PARAM_DOWNLOAD_END) then
    when (state = IOLINK_DS_STATE_DOWNLOADING)
      (modify (fun c => c<| ds_current_checksum := ds_master_checksum c |>) ;;
       modify (fun c => c<| ds_state := IOLINK_DS_STATE_IDLE |>)) ;; mret 0
  else if decide (cmd = IOLINK_CMD_PARAM_BREAK) then iolink_ds_abort
  else mret (-3).

(** The interface of the component as one type of calls. *)
Inductive ds_call :=
| DsCheck (master_checksum : Z)
| DsProcess
| DsStartUpload
| DsStartDownload
| DsAbort
| DsCommand (cmd access_locks : Z).

Definition ds_exec (c : ds_call) : M iolink_ds_ctx_t Z :=
  match c with
  | DsCheck m => iolink_ds_check m ;; mret 0
  | DsProcess => iolink_ds_process ;; mret 0
  | DsStartUpload => iolink_ds_start_upload
  | DsStartDownload => iolink_ds_start_download
  | DsAbort => iolink_ds_abort
  | DsCommand cmd locks => iolink_ds_handle_command cmd locks
  end.

Fixpoint ds_run (cs : list ds_call) : M iolink_ds_ctx_t (list Z) :=
  match cs with
  | [] => mret []
  | c :: cs' => r ← ds_exec c; rs ← ds_run cs'; mret (r :: rs)
  end.

(** ** The checksum *)

(** The closed form of the two running Fletcher sums: the sum of the bytes, and the sum of the bytes weighted
    by their distance from the end. *)
Definition byte_sum (l : list Z) : Z := foldr Z.add 0 l.
Fixpoint weighted_sum (l : list Z) : Z :=
  match l with
  | [] => 0
  | b :: l' => zlen l * b + weighted_sum l'
  end.

Definition ds_checksum (l : list Z) : Z :=
  256 * (weighted_sum l mod 255) + byte_sum l mod 255.

(** ** Lemmas *)

Lemma fletcher_fold l s1 s2 :
  bytes_ok l ->
  fold_left fletcher_step l (s1 mod 255, s2 mod 255) =
  ((s1 + byte_sum l) mod 255, (s2 + zlen l * s1 + weighted_sum l) mod 255).
Proof.
  intros Hl. revert s1 s2. induction Hl as [|b l Hb Hl IH]; intros s1 s2.
  - cbn. f_equal; f_equal; unfold zlen; cbn; lia.
  - cbn [fold_left byte_sum foldr weighted_sum]. rewrite !zlen_cons.
    assert (fletcher_step (s1 mod 255, s2 mod 255) b =
            ((s1 + b) mod 255, (s2 + (s1 + b)) mod 255)) as ->.
    { unfold fletcher_step. rewrite (u16_small b) by lia.
      rewrite !(u16_small (_ mod 255)) by lia. f_equal; lia. }
    rewrite IH. fold (byte_sum l). f_equal; f_equal; lia.
Qed.

Lemma iolink_ds_calc_checksum_eq {S} buf len (s : S) :
  0 <= len <= zlen buf -> bytes_ok buf ->
  iolink_ds_calc_checksum (Some buf) len s = Done (ds_checksum (take (Z.to_nat len) buf), s).
Proof.
  intros Hlen Hb. apply wp_exact. unfold iolink_ds_calc_checksum, iolink_buf_is_valid.
  rewrite bool_decide_eq_false_2 by done. cbn [negb andb]. wp_steps.
  change (default [] (Some buf)) with buf.
  pose proof (for_acc_rd buf fletcher_step (Z.to_nat len) 0 (0, 0) s ltac:(lia) ltac:(lia)) as H.
  pose proof (fletcher_fold (take (Z.to_nat len) buf) 0 0 (Forall_take _ _ _ Hb)) as Hf.
  change (0 mod 255, 0 mod 255) with (0, 0) in Hf. change (drop (Z.to_nat 0) buf) with buf in H.
  rewrite Hf in H. eapply wp_intro; [exact H|]. wp_steps. split; [|done].
  rewrite Z.mul_0_r, !Z.add_0_l. unfold ds_checksum.
  pose proof (Z.mod_pos_bound (weighted_sum (take (Z.to_nat len) buf)) 255 eq_refl).
  pose proof (Z.mod_pos_bound (byte_sum (take (Z.to_nat len) buf)) 255 eq_refl).
  rewrite lor_shiftl_8 by lia. apply u16_small. lia.
Qed.

Lemma byte_sum_app l l' : byte_sum (l ++ l') = byte_sum l + byte_sum l'.
Proof. induction l as [|b l IH]; cbn; [done|]. unfold byte_sum in *. lia. Qed.

Lemma weighted_sum_app l l' :
  weighted_sum (l ++ l') = weighted_sum l + zlen l' * byte_sum l + weighted_sum l'.
Proof.
  induction l as [|b l IH]; cbn [weighted_sum app byte_sum foldr]; [lia|].
  fold (byte_sum l). rewrite IH, !zlen_cons, zlen_app. lia.
Qed.

(** ** Properties *)

(** C37. [iolink_ds_calc_checksum] computes Fletcher-16: the low byte is the sum
    of the bytes modulo 255, the high byte the sum of the bytes weighted by
    their distance from the end modulo 255, so the result is a 16-bit value
    equal to the two running sums of the loop. *)
Theorem ds_checksum_fletcher {S} (l : list Z) (s : S) :
  bytes_ok l ->
  iolink_ds_calc_checksum (Some l) (zlen l) s =
    Done (256 * (weighted_sum l mod 255) + byte_sum l mod 255, s).
Proof.
  intros Hl. rewrite iolink_ds_calc_checksum_eq by (pose proof (zlen_nonneg l); done || lia).
  by rewrite zlen_to_nat, firstn_all.
Qed.

(** The checksum detects a changed byte and a swap of two neighbours: two
    parameter blocks that differ in one byte have the same checksum exactly when
    the two bytes agree modulo 255 (so only 0x00 and 0xFF are confused), and two
    blocks that differ in the order of two neighbouring bytes likewise. *)
Theorem ds_checksum_detects {S} (l1 l2 : list Z) b b' (s : S) :
  bytes_ok l1 -> bytes_ok l2 -> is_u8 b -> is_u8 b' ->
  let ck l := iolink_ds_calc_checksum (Some l) (zlen l) s in
  (ck (l1 ++ b :: l2) = ck (l1 ++ b' :: l2) <-> b mod 255 = b' mod 255) /\
  (ck (l1 ++ b :: b' :: l2) = ck (l1 ++ b' :: b :: l2) <-> b mod 255 = b' mod 255).
Proof.
  intros Hl1 Hl2 Hb Hb' ck. unfold ck.
  assert (forall l, bytes_ok l -> iolink_ds_calc_checksum (Some l) (zlen l) s = Done (ds_checksum l, s))
    as Hck.
  { intros l Hl. rewrite iolink_ds_calc_checksum_eq by (pose proof (zlen_nonneg l); done || lia).
    by rewrite zlen_to_nat, firstn_all. }
  rewrite !Hck by (apply Forall_app; split; [done|]; repeat constructor; done || lia).
  assert (forall x y : Z, Done (x, s) = Done (y, s) <-> x = y) as Hinj by (intros; split; congruence).
  rewrite !Hinj. unfold ds_checksum.
  rewrite !weighted_sum_app, !byte_sum_app. cbn [weighted_sum byte_sum foldr]. fold (byte_sum l2).
  rewrite !zlen_cons. set (n := zlen l2). set (w := weighted_sum l2). set (t := byte_sum l2).
  set (w1 := weighted_sum l1). set (t1 := byte_sum l1).
  split; (split; [lia|]); intros Hm; assert (exists k, b = b' + k * 255) as [k ->]
    by (exists ((b - b') / 255); lia).
  - f_equal; [f_equal; etransitivity; [|apply (Z_mod_plus_full _ ((1 + n) * k))]
             |etransitivity; [|apply (Z_mod_plus_full _ k)]]; f_equal; ring.
  - f_equal; [f_equal; etransitivity; [|apply (Z_mod_plus_full _ k)]|]; f_equal; ring.
Qed.

Lemma ds_handle_command_total cmd locks ctx :
  exists r ctx', iolink_ds_handle_command cmd locks ctx = Done (r, ctx').
Proof.
  unfold iolink_ds_handle_command, iolink_ds_abort, when, mbind, M_bind, mret, M_ret, gets, modify.
  repeat case_decide; eauto.
Qed.

(** Case analysis on a command: the branch taken, its result and state. *)
Ltac ds_branches :=
  unfold iolink_ds_handle_command, iolink_ds_abort, when, mbind, M_bind, mret, M_ret, gets, modify;
  repeat case_decide; intros [= <- <-]; rec_simpl.

(** C31. The result code of [iolink_ds_handle_command] and its effect.  The
    command always returns; a refused command leaves the context untouched; it
    is refused with -2 exactly when it is a download command and the Data
    Storage lock bit is set, with -1 exactly when it starts a transfer while one
    is active, with -3 exactly when it is none of the five commands; and the
    stored checksum changes only when Download End completes a download, to
    the master's checksum. *)
Theorem ds_command_results cmd locks ctx :
  let denied := (cmd = IOLINK_CMD_PARAM_DOWNLOAD_START \/ cmd = IOLINK_CMD_PARAM_DOWNLOAD_END) /\
                Z.land locks IOLINK_LOCK_DS <> 0 in
  exists r ctx',
    iolink_ds_handle_command cmd locks ctx = Done (r, ctx') /\
    (r <> 0 -> ctx' = ctx) /\
    (r = -2 <-> denied) /\
    (r = -1 <-> ~ denied /\ ds_state ctx <> IOLINK_DS_STATE_IDLE /\
                (cmd = IOLINK_CMD_PARAM_UPLOAD_START \/ cmd = IOLINK_CMD_PARAM_DOWNLOAD_START)) /\
    (r = -3 <-> cmd ∉ [IOLINK_CMD_PARAM_DOWNLOAD_START; IOLINK_CMD_PARAM_DOWNLOAD_END;
                       IOLINK_CMD_PARAM_UPLOAD_START; IOLINK_CMD_PARAM_UPLOAD_END;
                       IOLINK_CMD_PARAM_BREAK]) /\
    ds_current_checksum ctx' =
      (if decide (r = 0 /\ cmd = IOLINK_CMD_PARAM_DOWNLOAD_END /\
                  ds_state ctx = IOLINK_DS_STATE_DOWNLOADING)
       then ds_master_checksum ctx else ds_current_checksum ctx).
Proof.
  intros denied. destruct (ds_handle_command_total cmd locks ctx) as (r & ctx' & H).
  exists r, ctx'. split; [done|]. revert H.
  rewrite !not_elem_of_cons, elem_of_nil. unfold denied.
  ds_branches; subst; repeat case_decide; unfold_consts; intuition (first [lia | congruence]).
Qed.

(** What the Data Storage lock protects: no download under way. *)
Definition ds_quiet (checksum : Z) (ctx : iolink_ds_ctx_t) : Prop :=
  ds_current_checksum ctx = checksum /\
  ds_state ctx <> IOLINK_DS_STATE_DOWNLOAD_REQ /\ ds_state ctx <> IOLINK_DS_STATE_DOWNLOADING.

Definition ds_locked_call (c : ds_call) : Prop :=
  match c with
  | DsCommand _ locks => Z.land locks IOLINK_LOCK_DS <> 0
  | DsProcess => True
  | _ => False
  end.

Lemma ds_locked_call_quiet checksum c :
  ds_locked_call c -> preserves (ds_quiet checksum) (ds_exec c).
Proof.
  intros Hc ctx (Hk & H1 & H2). destruct c; try done; cbn [ds_exec].
  - unfold iolink_ds_process. wp_go; rec_simpl; done.
  - destruct (ds_handle_command_total cmd access_locks ctx) as (r & ctx' & H).
    eapply wp_intro; [exact H|]. revert H. cbn in Hc.
    ds_branches; unfold ds_quiet; rec_simpl; subst; intuition (first [congruence | tauto]).
Qed.



(** C30. Liveness of the synchronisation: a consistency check against a master
    checksum [m], made while idle, followed by two processing steps always ends
    idle, and the device then holds [m] unless the master had no data
    ([m] = 0), in which case its own checksum stays; and whatever the state, two
    processing steps end any transfer. *)
Theorem ds_check_synchronises ctx m :
  (ds_state ctx = IOLINK_DS_STATE_IDLE ->
   exists rs ctx',
     ds_run [DsCheck m; DsProcess; DsProcess] ctx = Done (rs, ctx') /\
     ds_state ctx' = IOLINK_DS_STATE_IDLE /\
     ds_current_checksum ctx' = (if decide (m = 0) then ds_current_checksum ctx else m)) /\
  (exists rs ctx', ds_run [DsProcess; DsProcess] ctx = Done (rs, ctx') /\
     ds_state ctx' = IOLINK_DS_STATE_IDLE).
Proof.
  split.
  - intros Hi. apply wp_done. cbn [ds_run ds_exec]. unfold iolink_ds_check, iolink_ds_process.
    wp_go; rec_simpl in *; repeat split; try case_decide; first [congruence | lia].
  - apply wp_done. cbn [ds_run ds_exec]. unfold iolink_ds_process.
    wp_go; rec_simpl in *; congruence.
Qed.

Lemma ds_check_synchronises_witness :
  exists rs ctx',
     ds_run [DsCheck 43981; DsProcess; DsProcess] (iolink_ds_init None) = Done (rs, ctx') /\
     ds_state ctx' = IOLINK_DS_STATE_IDLE /\
     ds_current_checksum ctx' = 43981.
Proof. apply (proj1 (ds_check_synchronises (iolink_ds_init None) 43981)). reflexivity. Defined.

Lemma ds_checksum_fletcher_witness :
  iolink_ds_calc_checksum (Some [1; 2]) 2 tt = Done (0x0403, tt).
Proof. exact (ds_checksum_fletcher [1; 2] tt ltac:(repeat (constructor; try done))). Defined.

Lemma ds_checksum_detects_witness :
  iolink_ds_calc_checksum (Some [7; 0; 9]) 3 tt = iolink_ds_calc_checksum (Some [7; 255; 9]) 3 tt.
Proof.
  exact (proj2 (proj1 (ds_checksum_detects [7] [9] 0 255 tt ltac:(repeat (constructor; try done))
           ltac:(repeat (constructor; try done)) ltac:(done) ltac:(done))) eq_refl).
Defined.
