(* ===== verification/DeviceInfo.v ===== *)
(** * Device identification (device_info.c)

    The module keeps three globals: the pointer to the information in use, the
    modifiable default information, and the buffer of the Application Tag, which
    the default information may point to.  Strings are arrays of chars that end
    in a NUL; the aliasing of the tag buffer is kept. *)
From stdpp Require Import strings.
From S2P Require Export Protocol.
#[local] Open Scope Z_scope.

(** ** Data *)

(** A [const char*]: NULL, an array of its own (with its terminator), or
    [g_app_tag_buffer]. *)
Inductive char_ptr :=
| CharNull
| CharArray (s : list Z)
| AppTagBuffer.

(** The bytes of a string literal, with its NUL. *)
Definition c_str (s : string) : list Z :=
  ((fun c => Z.of_N (Ascii.N_of_ascii c)) <$> String.list_ascii_of_string s) ++ [0].

(** device_info.h:25-52 iolink_device_info_t *)
Record iolink_device_info_t := mk_device_info {
  di_vendor_name : char_ptr;
  di_vendor_text : char_ptr;
  di_product_name : char_ptr;
  di_product_id : char_ptr;
  di_product_text : char_ptr;
  di_serial_number : char_ptr;
  di_hardware_revision : char_ptr;
  di_firmware_revision : char_ptr;
  di_application_tag : char_ptr;
  di_vendor_id : Z;
  di_device_id : Z;
  di_function_id : Z;
  di_profile_characteristic : Z;
  di_min_cycle_time : Z;
  di_revision_id : Z;
  di_device_status : Z;
  di_detailed_device_status : Z;
  di_access_locks : Z
}.

#[export] Instance eta_device_info : Eta iolink_device_info_t := fun r =>
  mk_device_info (di_vendor_name r) (di_vendor_text r) (di_product_name r) (di_product_id r)
    (di_product_text r) (di_serial_number r) (di_hardware_revision r) (di_firmware_revision r)
    (di_application_tag r) (di_vendor_id r) (di_device_id r) (di_function_id r)
    (di_profile_characteristic r) (di_min_cycle_time r) (di_revision_id r) (di_device_status r)
    (di_detailed_device_status r) (di_access_locks r).
#[export] Instance update_di_application_tag : Update di_application_tag := ltac:(derive_update).
#[export] Instance update_di_access_locks : Update di_access_locks := ltac:(derive_update).

(** What [g_device_info] points to: nothing yet, [g_default_info], or constant
    information of the application. device_info.c:12-12 g_device_info *)
Inductive info_ptr :=
| InfoNull
| InfoDefault
| InfoUser (info : iolink_device_info_t).

#[export] Instance char_ptr_eq_dec : EqDecision char_ptr.
Proof. solve_decision. Defined.
#[export] Instance iolink_device_info_t_eq_dec : EqDecision iolink_device_info_t.
Proof. solve_decision. Defined.
#[export] Instance info_ptr_eq_dec : EqDecision info_ptr.
Proof. solve_decision. Defined.

(** The globals of the module.
    device_info.c:12-39 g_device_info *)
Record info_globals := mk_info_globals {
  g_device_info : info_ptr;
  g_default_info : iolink_device_info_t;
  g_app_tag_buffer : list Z
}.

#[export] Instance eta_info_globals : Eta info_globals := fun r =>
  mk_info_globals (g_device_info r) (g_default_info r) (g_app_tag_buffer r).
#[export] Instance update_g_device_info : Update g_device_info := ltac:(derive_update).
#[export] Instance update_g_default_info : Update g_default_info := ltac:(derive_update).
#[export] Instance update_g_app_tag_buffer : Update g_app_tag_buffer := ltac:(derive_update).

(** [sizeof(g_app_tag_buffer)]. device_info.c:39-39 g_app_tag_buffer *)
Definition app_tag_size : Z := 33.

(** device_info.c:15-37 g_default_info *)
Definition default_info : iolink_device_info_t :=
  mk_device_info
    (CharArray (c_str "iolinki"))
    (CharArray (c_str "Open-Source IO-Link Stack"))
    (CharArray (c_str "Generic IO-Link Device"))
    (CharArray (c_str "IOLINK-DEV-001"))
    (CharArray (c_str "Reference Implementation"))
    (CharArray (c_str "0000000001"))
    (CharArray (c_str "1.0"))
    (CharArray (c_str "0.1.0"))
    (CharArray (c_str "DefaultTag"))
    0xffff 1 0 0 10 1 0 0 0.

(** The globals at program start.
    device_info.c:12-39 g_app_tag_buffer *)
Definition info_globals_start : info_globals :=
  mk_info_globals InfoNull default_info
    (c_str "DefaultTag" ++ replicate (33 - length (c_str "DefaultTag")) 0).

(** ** Access through the pointers *)

(** The information a pointer designates. *)
Definition info_target (g : info_globals) (p : info_ptr) : option iolink_device_info_t :=
  match p with
  | InfoNull => None
  | InfoDefault => Some (g_default_info g)
  | InfoUser info => Some info
  end.

(** The array a [const char*] designates. *)
Definition char_target (g : info_globals) (p : char_ptr) : option (list Z) :=
  match p with
  | CharNull => None
  | CharArray s => Some s
  | AppTagBuffer => Some (g_app_tag_buffer g)
  end.

(** ** Operations *)

(** device_info.c:41-56 iolink_device_info_init *)
Definition iolink_device_info_init (info : option iolink_device_info_t) : M info_globals unit :=
  match info with
  | Some i => modify (fun g => g<| g_device_info := InfoUser i |>)
  | None =>
    modify (fun g => g<| g_device_info := InfoDefault |>) ;;
    modify (fun g => g<| g_default_info := (g_default_info g)<| di_application_tag := AppTagBuffer |> |>)
  end.

(** device_info.c:58-75 iolink_device_info_set_application_tag *)
Definition iolink_device_info_set_application_tag (tag : option (list Z)) (len : Z)
  : M info_globals Z :=
  match tag with
  | None => mret (-1)
  | Some tag =>
    if decide (app_tag_size <= len) then mret (-1) else
    p ← gets g_device_info;
    match p with
    | InfoDefault =>
      buf ← gets g_app_tag_buffer;
      buf ← copy_terminate buf tag len 0;
      modify (fun g => g<| g_app_tag_buffer := buf |>) ;;
      modify (fun g => g<| g_default_info := (g_default_info g)<| di_application_tag := AppTagBuffer |> |>) ;;
      mret 0
    | _ => mret (-1)
    end
  end.

(** device_info.c:77-83 iolink_device_info_get *)
Definition iolink_device_info_get : M info_globals info_ptr :=
  p ← gets g_device_info;
  when (p = InfoNull)
    (modify (fun g => g<| g_device_info := InfoDefault |>)) ;;
  gets g_device_info.

(** device_info.c:85-92 iolink_device_info_get_access_locks *)
Definition iolink_device_info_get_access_locks : M info_globals Z :=
  p ← iolink_device_info_get;
  info ← gets (fun g => info_target g p);
  match info with
  | None => mret 0
  | Some i => mret (di_access_locks i)
  end.

(** device_info.c:94-100 iolink_device_info_set_access_locks *)
Definition iolink_device_info_set_access_locks (locks : Z) : M info_globals unit :=
  p ← gets g_device_info;
  match p with
  | InfoDefault =>
    modify (fun g => g<| g_default_info := (g_default_info g)<| di_access_locks := locks |> |>)
  | _ => mret tt
  end.

(** ** Invariant *)

(** A terminated string: [strlen] stays inside the array. *)
Definition terminated (s : list Z) : Prop := is_Some (c_strlen s).

Definition c_string_wf (s : list Z) : Prop := terminated s /\ bytes_ok s.

Definition char_ptr_wf (p : char_ptr) : Prop :=
  match p with CharArray s => c_string_wf s | _ => True end.

Definition info_wf (i : iolink_device_info_t) : Prop :=
  is_u8 (di_min_cycle_time i) /\ is_u16 (di_access_locks i) /\
  Forall char_ptr_wf
    [di_vendor_name i; di_vendor_text i; di_product_name i; di_product_id i; di_product_text i;
     di_serial_number i; di_hardware_revision i; di_firmware_revision i; di_application_tag i].

Definition info_ptr_wf (p : info_ptr) : Prop :=
  match p with InfoUser i => info_wf i | _ => True end.

Definition info_globals_wf (g : info_globals) : Prop :=
  info_ptr_wf (g_device_info g) /\ info_wf (g_default_info g) /\
  zlen (g_app_tag_buffer g) = app_tag_size /\ c_string_wf (g_app_tag_buffer g).

(** The string a C function sees in an array: what precedes the first NUL. *)
Fixpoint c_string (s : list Z) : list Z :=
  match s with
  | [] => []
  | c :: s' => if decide (c = 0) then [] else c :: c_string s'
  end.

(** ** Lemmas *)

Lemma c_strlen_c_string s : terminated s -> c_strlen s = Some (zlen (c_string s)).
Proof.
  intros [n Hn]. revert n Hn. induction s as [|c s IH]; intros n; cbn; [done|].
  case_decide; [done|]. destruct (c_strlen s) as [m|] eqn:Hm; [|done]. intros _.
  rewrite (IH m) by done. cbn. rewrite zlen_cons. f_equal. lia.
Qed.

Lemma c_string_length s : terminated s -> zlen (c_string s) < zlen s.
Proof.
  intros [n Hn]. revert n Hn. induction s as [|c s IH]; intros n; cbn; [done|].
  rewrite zlen_cons. case_decide; [intros _; pose proof (zlen_nonneg s); unfold zlen in *; cbn; lia|].
  destruct (c_strlen s) as [m|] eqn:Hm; [|done]. intros _. rewrite zlen_cons.
  specialize (IH m eq_refl). lia.
Qed.

Lemma c_string_prefix s : terminated s -> take (length (c_string s)) s = c_string s.
Proof.
  intros [n Hn]. revert n Hn. induction s as [|c s IH]; intros n; cbn; [done|].
  case_decide; [done|]. destruct (c_strlen s) as [m|] eqn:Hm; [|done]. intros _.
  cbn. f_equal. by apply (IH m).
Qed.

Lemma c_string_app_zero l s : c_string (l ++ 0 :: s) = c_string l.
Proof. induction l as [|c l IH]; cbn; [done|]. case_decide; [done|]. by rewrite IH. Qed.

Lemma terminated_app_zero l s : terminated (l ++ 0 :: s).
Proof.
  unfold terminated. induction l as [|c l [n Hn]]; cbn; [by eexists|]. case_decide; [by eexists|].
  exists (Z.succ n). by rewrite Hn.
Qed.

Lemma c_string_nonzero l : 0 ∉ l -> c_string l = l.
Proof.
  induction l as [|c l IH]; cbn; [done|]. intros [? ?]%not_elem_of_cons.
  rewrite decide_False by done. by rewrite IH.
Qed.

Lemma c_string_no_zero s : 0 ∉ c_string s.
Proof.
  induction s as [|c s IH]; cbn; [apply not_elem_of_nil|]. case_decide; [apply not_elem_of_nil|].
  by apply not_elem_of_cons.
Qed.

Lemma c_string_take s n : c_string (take n (c_string s)) = take n (c_string s).
Proof.
  apply c_string_nonzero. intros H%elem_of_take. destruct H as (i & Hi & _).
  by apply list_elem_of_lookup_2, c_string_no_zero in Hi.
Qed.

(** [strlen] then [memcpy] of a terminated string yields the string. *)
Lemma wp_strlen_terminated {S} str (Q : Z -> S -> Prop) s :
  terminated str -> Q (zlen (c_string str)) s -> wp (strlen str) Q s.
Proof.
  intros Ht HQ. apply wp_strlen; [exact Ht|]. intros n Hn.
  rewrite c_strlen_c_string in Hn by done. by injection Hn as <-.
Qed.

Lemma info_globals_start_wf : info_globals_wf info_globals_start.
Proof. vm_compute. repeat (constructor || split || done); eauto. Qed.

(** The Application Tag as read through [iolink_device_info_get]. *)
Definition app_tag_string (g : info_globals) : option (list Z) :=
  i ← info_target g (if decide (g_device_info g = InfoNull) then InfoDefault else g_device_info g);
  c_string <$> char_target g (di_application_tag i).

Lemma app_tag_string_default g :
  g_device_info g = InfoDefault ->
  app_tag_string g = c_string <$> char_target g (di_application_tag (g_default_info g)).
Proof. intros H. unfold app_tag_string. by rewrite H. Qed.

Definition info_with_tag (g : info_globals) (tag : list Z) : info_globals :=
  g<| g_app_tag_buffer := tag ++ 0 :: drop (S (length tag)) (g_app_tag_buffer g) |>
   <| g_default_info := (g_default_info g)<| di_application_tag := AppTagBuffer |> |>.

Lemma info_wf_app_tag i : info_wf i -> char_ptr_wf (di_application_tag i).
Proof. unfold info_wf. rewrite !Forall_cons. naive_solver. Qed.

(** What a pointer of well-formed information designates is a string. *)
Lemma char_target_wf g p t :
  info_globals_wf g -> char_ptr_wf p -> char_target g p = Some t -> c_string_wf t.
Proof. intros (_ & _ & _ & Ht) Hp. by destruct p; intros [= <-]. Qed.

Lemma info_target_wf g p i :
  info_globals_wf g -> info_ptr_wf p -> info_target g p = Some i -> info_wf i.
Proof. intros (_ & Hd & _) Hp. by destruct p; intros [= <-]. Qed.

Lemma info_wf_app_tag_buffer i : info_wf i -> info_wf (i<| di_application_tag := AppTagBuffer |>).
Proof. unfold info_wf. rewrite !Forall_cons. rec_simpl. naive_solver. Qed.

Lemma info_with_tag_wf g tag :
  info_globals_wf g -> zlen tag < app_tag_size -> bytes_ok tag ->
  info_globals_wf (info_with_tag g tag).
Proof.
  intros (H1 & H2 & H3 & H4 & H5) Ht Hb. unfold info_with_tag, info_globals_wf. rec_simpl.
  split; [done|]. split; [by apply info_wf_app_tag_buffer|].
  split; [by rewrite zlen_prefix by lia|]. split; [apply terminated_app_zero|].
  apply Forall_app. split; [done|]. constructor; [done|]. by apply Forall_drop.
Qed.

Lemma iolink_device_info_set_application_tag_spec g tag len :
  info_globals_wf g -> 0 <= len <= zlen tag ->
  wp (iolink_device_info_set_application_tag (Some tag) len)
     (fun r g' =>
        if decide (len < app_tag_size /\ g_device_info g = InfoDefault)
        then r = 0 /\ g' = info_with_tag g (take (Z.to_nat len) tag)
        else r = -1 /\ g' = g) g.
Proof.
  intros (H1 & H2 & H3 & H4) Hlen. unfold iolink_device_info_set_application_tag.
  destruct (decide (app_tag_size <= len)) as [Hs|Hs]; [wp_steps; by rewrite decide_False by lia|].
  wp_steps. destruct (g_device_info g) eqn:Hp;
    [wp_steps; by rewrite decide_False by naive_solver| |wp_steps; by rewrite decide_False by naive_solver].
  wp_steps. apply wp_copy_terminate; [lia..|]. wp_steps.
  rewrite decide_True by (split; [lia | done]). split; [done|].
  unfold info_with_tag. repeat f_equal. by rewrite length_take, Nat.min_l by (unfold zlen in *; lia).
Qed.

(** ** Properties *)

(** Writing the Application Tag.  For any source array of at least [len]
    bytes the call stays in bounds; it succeeds exactly when the tag is shorter
    than the 33-byte buffer and the default information is in use, and then the
    tag read back is the written bytes up to their first NUL; otherwise it
    returns -1 and changes nothing.  The globals stay well formed: every string
    is terminated. *)
Theorem set_application_tag_correct g tag len :
  info_globals_wf g -> bytes_ok tag -> 0 <= len <= zlen tag ->
  exists r g',
    iolink_device_info_set_application_tag (Some tag) len g = Done (r, g') /\
    info_globals_wf g' /\
    (r = 0 <-> len < app_tag_size /\ g_device_info g = InfoDefault) /\
    (r = 0 -> app_tag_string g' = Some (c_string (take (Z.to_nat len) tag))) /\
    (r <> 0 -> r = -1 /\ g' = g).
Proof.
  intros Hwf Hb Hlen.
  pose proof (iolink_device_info_set_application_tag_spec g tag len Hwf Hlen) as H.
  apply wp_done in H as (r & g' & Hr & H). exists r, g'. split; [done|]. case_decide as Hc.
  - destruct H as [-> ->]. destruct Hc as [Hc Hd]. split.
    { apply info_with_tag_wf; [done| |by apply Forall_take]. by rewrite zlen_take by lia. }
    repeat split; try done. intros _. rewrite app_tag_string_default by done.
    unfold info_with_tag. rec_simpl. cbn [char_target]. rec_simpl. cbn.
    by rewrite c_string_app_zero.
  - destruct H as [-> ->]. split; [done|].
    split; [split; [done | intros H; by destruct Hc]|]. by split.
Qed.

Lemma set_application_tag_correct_witness :
  exists r g',
    iolink_device_info_set_application_tag (Some (c_str "Pump7")) 5
      (info_globals_start<| g_device_info := InfoDefault |>) = Done (r, g') /\
    info_globals_wf g' /\
    (r = 0 <-> 5 < app_tag_size /\ InfoDefault = InfoDefault) /\
    (r = 0 -> app_tag_string g' = Some (c_string (take 5 (c_str "Pump7")))) /\
    (r <> 0 -> r = -1 /\ g' = info_globals_start<| g_device_info := InfoDefault |>).
Proof.
  refine (set_application_tag_correct (info_globals_start<| g_device_info := InfoDefault |>)
            (c_str "Pump7") 5 _ _ _).
  - vm_compute. repeat (constructor || split || done); eauto.
  - vm_compute. repeat (constructor || split || done).
  - vm_compute. split; discriminate.
Defined.

(** The access locks.  A lock word written while the default information is
    in use is the word read back, and nothing else changes; information of the
    application is constant (a write is ignored and its own locks are read); and
    before the module is initialised a write is ignored, although the first read
    selects the default information. *)
Theorem access_locks_roundtrip g locks :
  let set := iolink_device_info_set_access_locks locks in
  let get := iolink_device_info_get_access_locks in
  match g_device_info g with
  | InfoDefault =>
    (set ;; get) g =
      Done (locks, g<| g_default_info := (g_default_info g)<| di_access_locks := locks |> |>)
  | InfoUser i => (set ;; get) g = Done (di_access_locks i, g)
  | InfoNull =>
    (set ;; get) g =
      Done (di_access_locks (g_default_info g), g<| g_device_info := InfoDefault |>)
  end.
Proof.
  destruct g as [[| |i] d b]; reflexivity.
Qed.
