(* ===== verification/Platform.v ===== *)
(** * Platform hooks (platform.h, time_utils.h) and the implementations shipped

    The stack reaches the platform through five functions: two for non-volatile
    memory, two clocks, and the critical sections (in [Events]).  [Platform W]
    is that interface over the platform's own state [W]; the stack's
    definitions are stated against it.  The implementations under
    src/platform and the weak stubs are instances; what they take from the C
    library or the kernel (the file's content, [clock_gettime], [k_uptime_get])
    is part of their state. *)
From S2P Require Export Protocol.
#[local] Open Scope Z_scope.

(** [nvm_read offset len w] returns the result code and the bytes stored at the
    front of the caller's buffer (possibly fewer than [len] on failure).
    platform.h:47-56 iolink_nvm_read *)
Class Platform (W : Type) := {
  iolink_nvm_read : Z -> Z -> W -> Z * list Z * W;
  iolink_nvm_write : Z -> list Z -> W -> Z * W;
  iolink_time_get_ms : W -> Z * W;
  iolink_time_get_us : W -> Z * W
}.

(** What a caller may rely on: a read never stores more than the buffer holds,
    fills it when it reports success, and stores bytes. *)
Class NvmReadBounded (W : Type) `{!Platform W} := {
  nvm_read_bounded off len w :
    0 <= len ->
    let '(ret, data, _) := iolink_nvm_read off len w in
    zlen data <= len /\ (ret = 0 -> zlen data = len) /\ bytes_ok data
}.

(** Persistence: a successful write at an offset is what the next read of that
    range returns. *)
Class NvmPersistent (W : Type) `{!Platform W} := {
  nvm_read_write off data w w' :
    iolink_nvm_write off data w = (0, w') ->
    exists w'', iolink_nvm_read off (zlen data) w' = (0, data, w'')
}.

(** time_utils.h:19-22 iolink_us_from_ms *)
Definition iolink_us_from_ms (ms : Z) : Z := u64 (ms * 1000).

(** ** Stubs (platform_stubs.c) *)
Module Stubs.
(** [g_iolink_nvm_stub_read_ret] and [..._write_ret].
    platform_stubs.c:13-14 g_iolink_nvm_stub_read_ret *)
Record t := mk { stub_read_ret : Z; stub_write_ret : Z }.
(** platform_stubs.c:13-14 g_iolink_nvm_stub_write_ret *)
Definition start : t := mk (-1) (-1).
(** platform_stubs.c:19-25 iolink_nvm_read *)
Definition nvm_read (off len : Z) (w : t) : Z * list Z * t := (stub_read_ret w, [], w).
(** platform_stubs.c:27-33 iolink_nvm_write *)
Definition nvm_write (off : Z) (data : list Z) (w : t) : Z * t := (stub_write_ret w, w).
End Stubs.

(** ** The weak defaults (platform.c)

    What the linker takes when the application gives no memory: both hooks
    report that they are not implemented and leave the buffer alone. *)
Module Weak.
(** platform.c:29-36 iolink_nvm_read *)
Definition nvm_read {W} (off len : Z) (w : W) : Z * list Z * W := (-1, [], w).
(** platform.c:38-45 iolink_nvm_write *)
Definition nvm_write {W} (off : Z) (data : list Z) (w : W) : Z * W := (-1, w).
End Weak.

(** ** The Linux file-backed NVM (platform/linux/nvm_mock.c)

    The state is the content of [iolink_nvm.bin], [None] when there is no such
    file.  [fopen] in mode "rb" fails on a missing file; in mode "a+b" it
    creates one, and every write then goes to the end of the file whatever
    [fseek] did (C11 7.21.5.3). *)
Module LinuxNvm.
Definition file := option (list Z).

(** platform/linux/nvm_mock.c:16-35 iolink_nvm_read *)
Definition nvm_read (off len : Z) (f : file) : Z * list Z * file :=
  match f with
  | None => (-1, [], f)
  | Some content =>
    let data := take (Z.to_nat len) (drop (Z.to_nat off) content) in
    (if decide (zlen data = len) then 0 else -1, data, f)
  end.

(** platform/linux/nvm_mock.c:37-57 iolink_nvm_write *)
Definition nvm_write (off : Z) (data : list Z) (f : file) : Z * file :=
  (0, Some (default [] f ++ data)).
End LinuxNvm.

(** ** Clocks *)

(** Linux: the result of [clock_gettime], its return code, seconds and
    nanoseconds. *)
Module LinuxTime.
Record timespec := mk { gettime_ret : Z; tv_sec : Z; tv_nsec : Z }.
(** platform/linux/time_utils.c:12-19 iolink_time_get_ms *)
Definition time_get_ms (ts : timespec) : Z :=
  if decide (gettime_ret ts <> 0) then 0
  else u32 (u64 (u64 (tv_sec ts) * 1000 + u64 (tv_nsec ts) / 1000000)).
(** platform/linux/time_utils.c:21-28 iolink_time_get_us *)
Definition time_get_us (ts : timespec) : Z :=
  if decide (gettime_ret ts <> 0) then 0
  else u64 (u64 (tv_sec ts) * 1000000 + u64 (tv_nsec ts) / 1000).
End LinuxTime.

(** Bare metal: the tick counter of the SysTick handler. *)
Module BareMetalTime.
(** platform/baremetal/time_utils.c:22-25 iolink_time_get_ms *)
Definition time_get_ms (g_iolink_ticks_ms : Z) : Z := g_iolink_ticks_ms.
(** platform/baremetal/time_utils.c:27-31 iolink_time_get_us *)
Definition time_get_us (g_iolink_ticks_ms : Z) : Z := iolink_us_from_ms g_iolink_ticks_ms.
End BareMetalTime.

(** Zephyr: the value of [k_uptime_get], converted to [uint32_t] at the call of
    [iolink_us_from_ms]. *)
Module ZephyrTime.
(** platform/zephyr/time_utils.c:12-15 iolink_time_get_ms *)
Definition time_get_ms (k_uptime : Z) : Z := u32 k_uptime.
(** platform/zephyr/time_utils.c:17-21 iolink_time_get_us *)
Definition time_get_us (k_uptime : Z) : Z := iolink_us_from_ms (u32 k_uptime).
End ZephyrTime.

(** ** A RAM platform

    A non-volatile memory that keeps its last image and a clock that advances
    one millisecond per reading: an instance that satisfies every law above, on
    which the witnesses of the development run. *)
Record ram := mk_ram { ram_nvm : list Z; ram_ticks : Z }.

#[export] Instance ram_platform : Platform ram := {|
  iolink_nvm_read off len w :=
    let data := take (Z.to_nat len) (drop (Z.to_nat off) (ram_nvm w)) in
    (if decide (zlen data = len) then 0 else -1, u8 <$> data, w);
  iolink_nvm_write off data w :=
    if decide (0 <= off /\ bytes_ok data) then
      (0, mk_ram (take (Z.to_nat off) (ram_nvm w ++ replicate (Z.to_nat off) 0) ++ data ++
                  drop (Z.to_nat off + length data) (ram_nvm w)) (ram_ticks w))
    else (-1, w);
  iolink_time_get_ms w := (u32 (ram_ticks w), mk_ram (ram_nvm w) (ram_ticks w + 1));
  iolink_time_get_us w := (u64 (ram_ticks w * 1000), mk_ram (ram_nvm w) (ram_ticks w + 1))
|}.

#[export] Instance ram_read_bounded : NvmReadBounded ram.
Proof.
  constructor. intros off len w Hlen. cbn.
  set (data := take _ _). assert (zlen data <= len) as Hl.
  { unfold data, zlen. rewrite length_take. lia. }
  assert (zlen (u8 <$> data) = zlen data) as -> by (unfold zlen; by rewrite length_fmap).
  split; [done|]. split; [by case_decide|].
  apply Forall_fmap, Forall_true. intros b. apply u8_range.
Qed.

Lemma u8_id l : bytes_ok l -> u8 <$> l = l.
Proof.
  induction 1 as [|b l Hb Hl IH]; [done|]. cbn. rewrite IH. by rewrite u8_small.
Qed.

#[export] Instance ram_persistent : NvmPersistent ram.
Proof.
  constructor. intros off data w w'. cbn. case_decide as Hd; [|done]. intros [= <-]. cbn.
  destruct Hd as [Hoff Hd].
  set (front := take (Z.to_nat off) _).
  assert (length front = Z.to_nat off) as Hf.
  { unfold front. rewrite length_take, length_app, length_replicate. lia. }
  rewrite drop_app_length' by done. rewrite zlen_to_nat, take_app_length.
  rewrite decide_True by done. rewrite u8_id by done. eauto.
Qed.

(** A sequence of writes to the Linux file, each an offset and its bytes. *)
Definition linux_nvm_writes (ws : list (Z * list Z)) (f : LinuxNvm.file) : LinuxNvm.file :=
  fold_left (fun f w => snd (LinuxNvm.nvm_write (fst w) (snd w) f)) ws f.

Lemma linux_nvm_writes_app ws content :
  exists rest, linux_nvm_writes ws (Some content) = Some (content ++ rest).
Proof.
  revert content. induction ws as [|w ws IH]; intros content.
  - exists []. cbn. by rewrite app_nil_r.
  - change (linux_nvm_writes (w :: ws) (Some content))
      with (linux_nvm_writes ws (Some (content ++ snd w))).
    destruct (IH (content ++ snd w)) as [rest Hr]. rewrite Hr, <- app_assoc. eauto.
Qed.

(** ** Properties *)


(** The two clocks of each platform agree: the millisecond reading is the
    microsecond reading divided by 1000, modulo 2^32 (on Linux for clock values
    whose microseconds fit 64 bits; [clock_gettime] keeps nanoseconds below
    10^9).  On bare metal and Zephyr the microsecond clock is built from the
    32-bit milliseconds, so it wraps with them, after 2^32 milliseconds, and not
    at 2^64 microseconds. *)
Theorem clocks_agree (ts : LinuxTime.timespec) (ticks uptime : Z) :
  (LinuxTime.gettime_ret ts = 0 -> 0 <= LinuxTime.tv_sec ts < 10000000000000 ->
   0 <= LinuxTime.tv_nsec ts < 1000000000 ->
   LinuxTime.time_get_ms ts = u32 (LinuxTime.time_get_us ts / 1000)) /\
  (is_u32 ticks ->
   BareMetalTime.time_get_ms ticks = BareMetalTime.time_get_us ticks / 1000) /\
  ZephyrTime.time_get_ms uptime = ZephyrTime.time_get_us uptime / 1000 /\
  ZephyrTime.time_get_us (uptime + 4294967296) = ZephyrTime.time_get_us uptime.
Proof.
  unfold LinuxTime.time_get_ms, LinuxTime.time_get_us, BareMetalTime.time_get_ms,
    BareMetalTime.time_get_us, ZephyrTime.time_get_ms, ZephyrTime.time_get_us,
    iolink_us_from_ms, u32, u64.
  split; [|split; [|split]].
  - intros H1 H2 H3. rewrite !decide_False by lia. f_equal. lia.
  - lia.
  - lia.
  - do 2 f_equal. lia.
Qed.

Lemma clocks_agree_witness :
  LinuxTime.time_get_ms (LinuxTime.mk 0 5 7000000) = u32 (LinuxTime.time_get_us (LinuxTime.mk 0 5 7000000) / 1000) /\
  BareMetalTime.time_get_ms 9 = BareMetalTime.time_get_us 9 / 1000.
Proof.
  destruct (clocks_agree (LinuxTime.mk 0 5 7000000) 9 0) as (H1 & H2 & _).
  split; [exact (H1 eq_refl ltac:(cbn; lia) ltac:(cbn; lia)) | exact (H2 ltac:(lia))].
Defined.
