(* ===== verification/Params.v ===== *)
(** * The parameter manager (params.c)

    The shadow of the persistent parameters, its byte image in non-volatile
    memory, and the reads and writes of the three tags.  The module calls the
    device information (for the Application Tag) and the platform's memory. *)
From stdpp Require Import strings.
From S2P Require Export DeviceInfo Platform Crc.
#[local] Open Scope Z_scope.

(** ** Data *)

(** params.c:15-15 PARAMS_NVM_MAGIC *)
Definition PARAMS_NVM_MAGIC : Z := 0x494f4c31.

(** The structure and the byte the compiler adds to reach the alignment of
    [magic] (104 bytes in all).
    params.c:17-24 iolink_params_nvm_t *)
Record iolink_params_nvm_t := mk_params_nvm {
  nvm_magic : Z;
  nvm_application_tag : list Z;
  nvm_function_tag : list Z;
  nvm_location_tag : list Z;
  nvm_padding : list Z
}.

#[export] Instance eta_params_nvm : Eta iolink_params_nvm_t := fun r =>
  mk_params_nvm (nvm_magic r) (nvm_application_tag r) (nvm_function_tag r)
    (nvm_location_tag r) (nvm_padding r).
#[export] Instance update_nvm_magic : Update nvm_magic := ltac:(derive_update).
#[export] Instance update_nvm_application_tag : Update nvm_application_tag := ltac:(derive_update).
#[export] Instance update_nvm_function_tag : Update nvm_function_tag := ltac:(derive_update).
#[export] Instance update_nvm_location_tag : Update nvm_location_tag := ltac:(derive_update).

(** A 32-bit word in memory, least significant byte first (the byte order of
    the targets; the same program encodes and decodes). *)
Definition le32_bytes (z : Z) : list Z :=
  [z mod 256; z / 256 mod 256; z / 65536 mod 256; z / 16777216 mod 256].
Definition le32_val (l : list Z) : Z :=
  match l with
  | [a; b; c; d] => a + 256 * (b + 256 * (c + 256 * d))
  | _ => 0
  end.

(** [sizeof(iolink_params_nvm_t)]: 4 + 3 * 33, padded to a multiple of 4.
    params.c:17-24 iolink_params_nvm_t *)
Definition nvm_size : Z := 104.
(** The bytes of the structure. params.c:17-24 iolink_params_nvm_t *)
Definition nvm_encode (s : iolink_params_nvm_t) : list Z :=
  le32_bytes (nvm_magic s) ++ nvm_application_tag s ++ nvm_function_tag s ++
  nvm_location_tag s ++ nvm_padding s.
(** The structure in these bytes. params.c:17-24 iolink_params_nvm_t *)
Definition nvm_decode (l : list Z) : iolink_params_nvm_t :=
  mk_params_nvm (le32_val (take 4 l)) (take 33 (drop 4 l)) (take 33 (drop 37 l))
    (take 33 (drop 70 l)) (drop 103 l).

(** [g_nvm_shadow] at program start: static storage is zero.
    params.c:26-26 g_nvm_shadow *)
Definition g_nvm_shadow_start : iolink_params_nvm_t :=
  mk_params_nvm 0 (replicate 33 0) (replicate 33 0) (replicate 33 0) [0].

Section params.
Context {W : Type} `{!Platform W}.

(** What the module reaches: the device information, its own shadow, the
    platform. params.c:26-26 g_nvm_shadow *)
Record params_env := mk_params_env {
  pe_info : info_globals;
  pe_shadow : iolink_params_nvm_t;
  pe_hw : W
}.

#[export] Instance eta_params_env : Eta params_env := fun r =>
  mk_params_env (pe_info r) (pe_shadow r) (pe_hw r).
#[export] Instance update_pe_info : Update pe_info := ltac:(derive_update).
#[export] Instance update_pe_shadow : Update pe_shadow := ltac:(derive_update).
#[export] Instance update_pe_hw : Update pe_hw := ltac:(derive_update).

Definition pe_info_lens : lens params_env info_globals :=
  Lens pe_info (fun i s => s<| pe_info := i |>).

(** [iolink_nvm_write(0U, &g_nvm_shadow, sizeof(g_nvm_shadow))].
    params.c:149-149 iolink_nvm_write *)
Definition nvm_store_shadow : M params_env Z := fun s =>
  let '(ret, w) := iolink_nvm_write 0 (nvm_encode (pe_shadow s)) (pe_hw s) in
  Done (ret, s<| pe_hw := w |>).

(** [iolink_nvm_read(0U, &g_nvm_shadow, sizeof(g_nvm_shadow))]: the bytes read
    replace the front of the structure. params.c:31-31 iolink_nvm_read *)
Definition nvm_load_shadow : M params_env Z := fun s =>
  let '(ret, data, w) := iolink_nvm_read 0 nvm_size (pe_hw s) in
  let image := data ++ drop (length data) (nvm_encode (pe_shadow s)) in
  Done (ret, s<| pe_shadow := nvm_decode image |><| pe_hw := w |>).

Definition set_shadow_app (t : list Z) : M params_env unit :=
  modify (fun s => s<| pe_shadow := (pe_shadow s)<| nvm_application_tag := t |> |>).
Definition set_shadow_fun (t : list Z) : M params_env unit :=
  modify (fun s => s<| pe_shadow := (pe_shadow s)<| nvm_function_tag := t |> |>).
Definition set_shadow_loc (t : list Z) : M params_env unit :=
  modify (fun s => s<| pe_shadow := (pe_shadow s)<| nvm_location_tag := t |> |>).
Definition set_shadow_magic (z : Z) : M params_env unit :=
  modify (fun s => s<| pe_shadow := (pe_shadow s)<| nvm_magic := z |> |>).

(** The tags of the shadow, read. *)
Definition shadow_app := gets (fun s : params_env => nvm_application_tag (pe_shadow s)).
Definition shadow_fun := gets (fun s : params_env => nvm_function_tag (pe_shadow s)).
Definition shadow_loc := gets (fun s : params_env => nvm_location_tag (pe_shadow s)).

(** [info->application_tag], [None] when [info] or the tag is NULL.
    params.c:64-65 iolink_device_info_get *)
Definition info_application_tag : M params_env (option (list Z)) :=
  p ← zoom pe_info_lens iolink_device_info_get;
  gets (fun s => i ← info_target (pe_info s) p; char_target (pe_info s) (di_application_tag i)).

(** params.c:28-56 iolink_params_init *)
Definition iolink_params_init : M params_env unit :=
  ret ← nvm_load_shadow;
  magic ← gets (fun s => nvm_magic (pe_shadow s));
  if decide (ret = 0 /\ magic = PARAMS_NVM_MAGIC) then
    tag ← shadow_app;
    len ← strlen tag;
    zoom pe_info_lens (iolink_device_info_set_application_tag (Some tag) (u8 len)) ;;
    mret tt
  else
    set_shadow_magic PARAMS_NVM_MAGIC ;;
    info ← info_application_tag;
    dst ← shadow_app;
    tag ← (match info with
           | Some tag =>
             len ← strlen tag;
             let copy_len := if decide (32 < len) then 32 else len in
             copy_terminate dst tag copy_len 0
           | None => wr dst 0 0
           end);
    set_shadow_app tag ;;
    tag ← shadow_fun; tag ← wr tag 0 0; set_shadow_fun tag ;;
    tag ← shadow_loc; tag ← wr tag 0 0; set_shadow_loc tag.

(** [len = strlen(tag); if (len > max_len) len = max_len;
     memcpy(buffer, tag, len); return len;].
    params.c:75-80 g_nvm_shadow *)
Definition copy_tag (tag buffer : list Z) (max_len : Z) : M params_env (Z * list Z) :=
  len ← strlen tag;
  let len := if decide (max_len < len) then max_len else len in
  src ← slice tag 0 len;
  buffer ← blit buffer 0 src;
  mret (len, buffer).

(** The result code and the buffer afterwards; [None] is a NULL buffer.
    params.c:58-91 iolink_params_get *)
Definition iolink_params_get (index subindex : Z) (buffer : option (list Z)) (max_len : Z)
  : M params_env (Z * list Z) :=
  match buffer with
  | None => mret (-1, [])
  | Some buffer =>
    info ← (if decide (index = 0x0018 /\ subindex = 0) then info_application_tag else mret None);
    match info with
    | Some tag => copy_tag tag buffer max_len
    | None =>
      if decide (index = 0x0019 /\ subindex = 0) then
        tag ← shadow_fun; copy_tag tag buffer max_len
      else if decide (index = 0x001a /\ subindex = 0) then
        tag ← shadow_loc; copy_tag tag buffer max_len
      else mret (-1, buffer)
    end
  end.

(** [copy_len = (len > 32) ? 32 : len; if (copy_len > 0) memcpy(tag, data, copy_len);
     tag[copy_len] = '\0';].
    params.c:113-117 g_nvm_shadow *)
Definition store_tag (dst : list Z) (data : option (list Z)) (len : Z) : M params_env (list Z) :=
  let copy_len := if decide (32 < len) then 32 else len in
  copy_terminate dst (default [] data) copy_len 0.

(** params.c:93-135 iolink_params_set *)
Definition iolink_params_set (index subindex : Z) (data : option (list Z)) (len : Z)
  (persist : bool) : M params_env Z :=
  if decide (iolink_buf_is_valid data len = false) then mret (-1) else
  app ← (if decide (index = 0x0018 /\ subindex = 0) then
           zoom pe_info_lens (iolink_device_info_set_application_tag data (u8 len))
         else mret (-1));
  if decide (app = 0) then
    when (persist = true)
      (tag ← shadow_app; tag ← store_tag tag data len; set_shadow_app tag ;;
       nvm_store_shadow ;; mret tt) ;;
    mret 0
  else if decide (index = 0x0019 /\ subindex = 0) then
    tag ← shadow_fun; tag ← store_tag tag data len; set_shadow_fun tag ;;
    when (persist = true) (nvm_store_shadow ;; mret tt) ;;
    mret 0
  else if decide (index = 0x001a /\ subindex = 0) then
    tag ← shadow_loc; tag ← store_tag tag data len; set_shadow_loc tag ;;
    when (persist = true) (nvm_store_shadow ;; mret tt) ;;
    mret 0
  else mret (-1).

(** params.c:137-150 iolink_params_factory_reset *)
Definition iolink_params_factory_reset : M params_env unit :=
  set_shadow_magic PARAMS_NVM_MAGIC ;;
  tag ← shadow_app; tag ← wr tag 0 0; set_shadow_app tag ;;
  tag ← shadow_fun; tag ← wr tag 0 0; set_shadow_fun tag ;;
  tag ← shadow_loc; tag ← wr tag 0 0; set_shadow_loc tag ;;
  zoom pe_info_lens (iolink_device_info_set_application_tag (Some [0]) 0) ;;
  nvm_store_shadow ;;
  mret tt.
End params.
#[global] Arguments params_env W : clear implicits.

(** ** Invariant and abstract view *)

Definition tag_wf (t : list Z) : Prop := zlen t = 33 /\ terminated t /\ bytes_ok t.

Definition shadow_wf (s : iolink_params_nvm_t) : Prop :=
  is_u32 (nvm_magic s) /\ tag_wf (nvm_application_tag s) /\ tag_wf (nvm_function_tag s) /\
  tag_wf (nvm_location_tag s) /\ zlen (nvm_padding s) = 1 /\ bytes_ok (nvm_padding s).

Definition params_wf {W} (s : params_env W) : Prop :=
  info_globals_wf (pe_info s) /\ shadow_wf (pe_shadow s).

(** The parameters as a map from their index to the string they hold. *)
Definition params_tag {W} (index : Z) (s : params_env W) : option (list Z) :=
  if decide (index = 0x0018) then app_tag_string (pe_info s)
  else if decide (index = 0x0019) then Some (c_string (nvm_function_tag (pe_shadow s)))
  else if decide (index = 0x001a) then Some (c_string (nvm_location_tag (pe_shadow s)))
  else None.

(** When a write is accepted: the function and location tags always (longer data
    is cut at 32 bytes), the application tag when it fits and the default
    information is in use. *)
Definition params_accepts {W} (index subindex len : Z) (s : params_env W) : Prop :=
  subindex = 0 /\
  (index = 0x0019 \/ index = 0x001a \/
   index = 0x0018 /\ len < app_tag_size /\ g_device_info (pe_info s) = InfoDefault).

(** The tag a buffer of 33 bytes holds after a store of [len] bytes of [data]. *)
Definition stored_tag (dst data : list Z) (len : Z) : list Z :=
  take (Z.to_nat (Z.min len 32)) data ++ 0 :: drop (S (Z.to_nat (Z.min len 32))) dst.

#[global] Arguments stored_tag : simpl never.

(** ** Lemmas *)

Lemma le32_roundtrip z : is_u32 z -> le32_val (le32_bytes z) = z.
Proof. intros Hz. unfold le32_val, le32_bytes. lia. Qed.

Lemma le32_val_range l : bytes_ok l -> is_u32 (le32_val l).
Proof.
  intros Hl. destruct l as [|a [|b [|c [|d [|e l]]]]]; try (cbn; lia).
  unfold bytes_ok in Hl. rewrite !Forall_cons in Hl. cbn. lia.
Qed.

(** The field of [n] bytes at offset [k] of a byte image. *)
Lemma field_at (pre l post : list Z) k n :
  length pre = k -> length l = n -> take n (drop k (pre ++ l ++ post)) = l.
Proof. intros <- <-. by rewrite drop_app_length, take_app_length. Qed.

Lemma nvm_decode_app m app fn loc pad :
  length m = 4%nat -> length app = 33%nat -> length fn = 33%nat -> length loc = 33%nat ->
  nvm_decode (m ++ app ++ fn ++ loc ++ pad) = mk_params_nvm (le32_val m) app fn loc pad.
Proof.
  intros Hm Ha Hf Hl. unfold nvm_decode. f_equal.
  - by rewrite take_app_length'.
  - by rewrite (field_at m app).
  - rewrite (app_assoc m app). by rewrite (field_at (m ++ app) fn) by (rewrite ?length_app; lia).
  - rewrite (app_assoc m app), (app_assoc (m ++ app) fn).
    by rewrite (field_at ((m ++ app) ++ fn) loc) by (rewrite ?length_app; lia).
  - rewrite (app_assoc m app), (app_assoc (m ++ app) fn), (app_assoc ((m ++ app) ++ fn) loc).
    by rewrite drop_app_length' by (rewrite !length_app; lia).
Qed.

Lemma nvm_decode_encode s : shadow_wf s -> nvm_decode (nvm_encode s) = s.
Proof.
  intros (Hm & (Ha & _) & (Hf & _) & (Hl & _) & _). unfold zlen in *. unfold nvm_encode.
  rewrite nvm_decode_app by (done || lia). rewrite le32_roundtrip by done. by destruct s.
Qed.

Lemma nvm_encode_length s : shadow_wf s -> zlen (nvm_encode s) = nvm_size.
Proof.
  intros (_ & (Ha & _) & (Hf & _) & (Hl & _) & Hp & _). unfold nvm_encode.
  rewrite !zlen_app, Ha, Hf, Hl, Hp. done.
Qed.

Lemma stored_tag_wf dst data len :
  tag_wf dst -> bytes_ok data -> 0 <= len <= zlen data -> tag_wf (stored_tag dst data len).
Proof.
  intros (Hz & Ht & Hb) Hd Hlen. unfold stored_tag, tag_wf. split; [|split].
  - set (n := Z.to_nat (Z.min len 32)).
    assert (length (take n data) = n) as Hn
      by (unfold n, zlen in *; rewrite length_take; lia).
    rewrite <- Hn at 2. rewrite zlen_prefix; [done|]. unfold zlen in *. lia.
  - apply terminated_app_zero.
  - apply Forall_app. split; [by apply Forall_take|]. constructor; [done|]. by apply Forall_drop.
Qed.

Lemma stored_tag_string dst data len :
  c_string (stored_tag dst data len) = c_string (take (Z.to_nat (Z.min len 32)) data).
Proof. apply c_string_app_zero. Qed.

Section specs.
Context {W : Type} `{!Platform W}.
Implicit Types s : params_env W.

Lemma wp_store_tag dst data len (Q : list Z -> params_env W -> Prop) s :
  zlen dst = 33 -> 0 <= len <= zlen data ->
  Q (stored_tag dst data len) s -> wp (store_tag dst (Some data) len) Q s.
Proof.
  intros Hd Hlen HQ. unfold store_tag. change (default [] (Some data)) with data.
  replace (if decide (32 < len) then 32 else len) with (Z.min len 32) by (case_decide; lia).
  apply wp_copy_terminate; [lia..|]. exact HQ.
Qed.

Lemma wp_copy_tag tag buffer max_len (Q : Z * list Z -> params_env W -> Prop) s :
  terminated tag -> 0 <= max_len <= zlen buffer ->
  (let n := Z.min (zlen (c_string tag)) max_len in
   Q (n, take (Z.to_nat n) (c_string tag) ++ drop (Z.to_nat n) buffer) s) ->
  wp (copy_tag tag buffer max_len) Q s.
Proof.
  intros Ht Hm HQ. unfold copy_tag. apply wp_bind, wp_strlen_terminated; [done|]. cbv zeta.
  set (n := Z.min _ _) in HQ.
  replace (if decide (max_len < zlen (c_string tag)) then max_len else zlen (c_string tag))
    with n by (unfold n; case_decide; lia).
  pose proof (c_string_length tag Ht). pose proof (zlen_nonneg (c_string tag)).
  apply wp_bind, wp_slice; [lia..|]. change (Z.to_nat 0) with 0%nat. rewrite drop_0.
  assert (take (Z.to_nat n) tag = take (Z.to_nat n) (c_string tag)) as ->.
  { rewrite <- (c_string_prefix tag Ht). rewrite take_take. f_equal.
    unfold n, zlen in *. lia. }
  assert (zlen (take (Z.to_nat n) (c_string tag)) = n) as Hn by (apply zlen_take; lia).
  apply wp_bind, wp_blit; [lia..|]. wp_steps. change (Z.to_nat 0) with 0%nat.
  rewrite take_0. cbn [app Nat.add].
  replace (length (take (Z.to_nat n) (c_string tag))) with (Z.to_nat n) by (unfold zlen in *; lia).
  done.
Qed.

(** The device information once [iolink_device_info_get] was called. *)
Definition info_selected (g : info_globals) : info_globals :=
  if decide (g_device_info g = InfoNull) then g<| g_device_info := InfoDefault |> else g.

Lemma info_selected_wf g : info_globals_wf g -> info_globals_wf (info_selected g).
Proof.
  intros (H1 & H2 & H3 & H4). unfold info_selected. case_decide; [|done].
  unfold info_globals_wf. rec_simpl. by split_and!.
Qed.

Lemma info_selected_tag g : app_tag_string (info_selected g) = app_tag_string g.
Proof. unfold info_selected. case_decide as H; [|done]. destruct g as [p d b]. cbn in H. by subst. Qed.

Lemma iolink_device_info_get_eq g :
  iolink_device_info_get g = Done (g_device_info (info_selected g), info_selected g).
Proof. destruct g as [[| |i] d b]; reflexivity. Qed.

(** The array behind the Application Tag. *)
Definition app_tag_array (g : info_globals) : option (list Z) :=
  i ← info_target (info_selected g) (g_device_info (info_selected g));
  char_target (info_selected g) (di_application_tag i).

Lemma app_tag_array_string g : app_tag_string g = c_string <$> app_tag_array g.
Proof. destruct g as [[| |i] d b]; try reflexivity; cbn; by destruct (di_application_tag _). Qed.

Lemma app_tag_array_wf g t : info_globals_wf g -> app_tag_array g = Some t -> c_string_wf t.
Proof.
  intros Hwf%info_selected_wf. unfold app_tag_array.
  destruct (info_target _ _) as [i|] eqn:Hi; [|done]. cbn.
  apply char_target_wf; [done|]. eapply info_wf_app_tag, info_target_wf; [done| |done].
  apply Hwf.
Qed.

Lemma wp_info_application_tag (Q : option (list Z) -> params_env W -> Prop) s :
  Q (app_tag_array (pe_info s)) (s<| pe_info := info_selected (pe_info s) |>) ->
  wp info_application_tag Q s.
Proof.
  intros HQ. unfold info_application_tag. wp_steps.
  eapply wp_intro; [apply iolink_device_info_get_eq|]. wp_steps. exact HQ.
Qed.

Lemma params_tag_selected index s :
  params_tag index (s<| pe_info := info_selected (pe_info s) |>) = params_tag index s.
Proof. unfold params_tag. rec_simpl. by rewrite info_selected_tag. Qed.

Lemma params_tag_app s : params_tag 0x0018 s = c_string <$> app_tag_array (pe_info s).
Proof. apply app_tag_array_string. Qed.
Lemma params_tag_fun s : params_tag 0x0019 s = Some (c_string (nvm_function_tag (pe_shadow s))).
Proof. reflexivity. Qed.
Lemma params_tag_loc s : params_tag 0x001a s = Some (c_string (nvm_location_tag (pe_shadow s))).
Proof. reflexivity. Qed.
Lemma params_tag_other index s :
  index <> 0x0018 -> index <> 0x0019 -> index <> 0x001a -> params_tag index s = None.
Proof. intros. unfold params_tag. by rewrite !decide_False by done. Qed.

(** Reading a parameter: its string, cut at [max_len], in the front of the
    buffer. *)
Lemma iolink_params_get_spec index subindex buffer max_len s :
  params_wf s -> 0 <= max_len <= zlen buffer ->
  wp (iolink_params_get index subindex (Some buffer) max_len)
     (fun r s' =>
        params_wf s' /\ (forall i, params_tag i s' = params_tag i s) /\
        (s' = s \/ s' = s<| pe_info := info_selected (pe_info s) |>) /\
        match (if decide (subindex = 0) then params_tag index s else None) with
        | Some str =>
          let n := Z.min (zlen str) max_len in
          r = (n, take (Z.to_nat n) str ++ drop (Z.to_nat n) buffer)
        | None => r = (-1, buffer)
        end) s.
Proof.
  intros [Hi Hs] Hm. pose proof Hs as (_ & _ & (_ & Hf & _) & (_ & Hl & _) & _).
  pose proof (info_selected_wf _ Hi) as Hi'.
  unfold iolink_params_get. apply wp_bind.
  destruct (decide (index = 0x0018 /\ subindex = 0)) as [[-> ->]|Hne].
  - destruct (decide (0 = 0)) as [_|]; [|done]. rewrite params_tag_app. apply wp_info_application_tag.
    destruct (app_tag_array (pe_info s)) as [t|] eqn:Ht; cbn.
    + apply wp_copy_tag; [exact (proj1 (app_tag_array_wf _ _ Hi Ht)) | done |]. split; [by split|].
      split; [intros; apply params_tag_selected|]. split; [by right | done].
    + wp_steps. split; [by split|]. split; [intros; apply params_tag_selected|]. split; [by right | done].
  - wp_steps.
    destruct (decide (subindex = 0)) as [->|Hsub].
    + unfold shadow_fun, shadow_loc.
      destruct (decide (index = 0x0019)) as [->|]; [wp_steps; apply wp_copy_tag; [done..|]; split; [by split|]; split; [done|]; split; [by left | done]|].
      rewrite decide_False by naive_solver.
      destruct (decide (index = 0x001a)) as [->|]; [wp_steps; apply wp_copy_tag; [done..|]; split; [by split|]; split; [done|]; split; [by left | done]|].
      rewrite decide_False by naive_solver. rewrite params_tag_other by naive_solver. wp_steps. split; [by split|]; split; [done|]; split; [by left | done].
    + rewrite !decide_False by naive_solver. wp_steps. split; [by split|]; split; [done|]; split; [by left | done].
Qed.

(** The environment once the device information was selected. *)
Definition selected_env (s : params_env W) : params_env W :=
  s<| pe_info := info_selected (pe_info s) |>.

(** The state after an accepted write. *)
Definition shadow_written (index : Z) (data : list Z) (len : Z) (sh : iolink_params_nvm_t)
  : iolink_params_nvm_t :=
  if decide (index = 0x0018) then
    sh<| nvm_application_tag := stored_tag (nvm_application_tag sh) data len |>
  else if decide (index = 0x0019) then
    sh<| nvm_function_tag := stored_tag (nvm_function_tag sh) data len |>
  else sh<| nvm_location_tag := stored_tag (nvm_location_tag sh) data len |>.

Definition params_written (index : Z) (data : list Z) (len : Z) (persist : bool)
  (s : params_env W) : params_env W :=
  let s1 :=
    if decide (index = 0x0018) then
      s<| pe_info := info_with_tag (pe_info s) (take (Z.to_nat len) data) |>
    else s in
  let s2 :=
    if decide (index = 0x0018 /\ persist = false) then s1
    else s1<| pe_shadow := shadow_written index data len (pe_shadow s) |> in
  if persist
  then s2<| pe_hw := snd (iolink_nvm_write 0 (nvm_encode (pe_shadow s2)) (pe_hw s)) |>
  else s2.

Lemma params_written_take index data len persist s :
  params_written index (take (Z.to_nat len) data) len persist s = params_written index data len persist s.
Proof.
  assert (forall dst, stored_tag dst (take (Z.to_nat len) data) len = stored_tag dst data len) as Hst.
  { intros dst. unfold stored_tag. rewrite take_take. do 2 f_equal. lia. }
  unfold params_written, shadow_written. rewrite take_take, Nat.min_id. by rewrite !Hst.
Qed.

Lemma wp_nvm_store_shadow (Q : Z -> params_env W -> Prop) s :
  (let rw := iolink_nvm_write 0 (nvm_encode (pe_shadow s)) (pe_hw s) in
   Q (fst rw) (s<| pe_hw := snd rw |>)) ->
  wp nvm_store_shadow Q s.
Proof. unfold wp, nvm_store_shadow. by destruct (iolink_nvm_write _ _ _). Qed.

(** One step through the straight-line code on the shadow's tags. *)
Ltac tag_step :=
  unfold shadow_app, shadow_fun, shadow_loc, set_shadow_app, set_shadow_fun, set_shadow_loc,
    set_shadow_magic;
  first [ wp_step | wp_if | apply wp_store_tag; [done | lia |] | apply wp_wr; [rec_simpl; lia|] ].

#[local] Instance params_accepts_dec index subindex len s :
  Decision (params_accepts index subindex len s).
Proof. unfold params_accepts. apply _. Defined.

Lemma iolink_params_set_spec index subindex data len persist s :
  params_wf s -> 0 <= len <= zlen data -> len < 256 ->
  wp (iolink_params_set index subindex (Some data) len persist)
     (fun r s' =>
        if decide (params_accepts index subindex len s)
        then r = 0 /\ s' = params_written index data len persist s
        else r = -1 /\ s' = s) s.
Proof.
  intros [Hi (_ & (Ha & _) & (Hf & _) & (Hl & _) & _)] Hlen H256. unfold iolink_params_set.
  rewrite decide_False by (unfold iolink_buf_is_valid; by rewrite bool_decide_eq_false_2).
  rewrite u8_small by lia. apply wp_bind.
  destruct (decide (index = 0x0018 /\ subindex = 0)) as [[-> ->]|Hne].
  - apply wp_zoom. eapply wp_mono;
      [apply iolink_device_info_set_application_tag_spec; [exact Hi | done]|].
    intros r g'. destruct (decide (len < app_tag_size /\ _)) as [Hc|Hc]; intros [-> ->].
    + decide_yes (params_accepts 0x0018 0 len s) by (unfold params_accepts; naive_solver).
      destruct persist; repeat tag_step; [|done]. by apply wp_nvm_store_shadow; repeat tag_step.
    + decide_no (params_accepts 0x0018 0 len s) by (unfold params_accepts; naive_solver lia).
      repeat tag_step. split; [done|]. by destruct s.
  - wp_steps. destruct (decide (index = 0x0019 /\ subindex = 0)) as [[-> ->]|Hne1].
    { decide_yes (params_accepts 0x0019 0 len s) by (unfold params_accepts; naive_solver).
      destruct persist; repeat tag_step; [|done]. by apply wp_nvm_store_shadow; repeat tag_step. }
    destruct (decide (index = 0x001a /\ subindex = 0)) as [[-> ->]|Hne2].
    { decide_yes (params_accepts 0x001a 0 len s) by (unfold params_accepts; naive_solver).
      destruct persist; repeat tag_step; [|done]. by apply wp_nvm_store_shadow; repeat tag_step. }
    decide_no (params_accepts index subindex len s) by (unfold params_accepts; naive_solver).
    by repeat tag_step.
Qed.

Lemma app_tag_string_with_tag g tag :
  g_device_info g = InfoDefault -> app_tag_string (info_with_tag g tag) = Some (c_string tag).
Proof.
  intros Hg. rewrite app_tag_string_default by done. unfold info_with_tag. rec_simpl. cbn.
  by rewrite c_string_app_zero.
Qed.

Lemma shadow_written_wf index data len sh :
  shadow_wf sh -> bytes_ok data -> 0 <= len <= zlen data -> shadow_wf (shadow_written index data len sh).
Proof.
  intros (Hm & Ha & Hf & Hl & Hp & Hp') Hd Hlen. unfold shadow_written, shadow_wf.
  repeat case_decide; rec_simpl; split_and!; (tauto || lia || by apply stored_tag_wf).
Qed.

Lemma params_written_wf index subindex data len persist s :
  params_wf s -> bytes_ok data -> 0 <= len <= zlen data -> params_accepts index subindex len s ->
  params_wf (params_written index data len persist s).
Proof.
  intros [Hi Hs] Hd Hlen (_ & Hc). unfold params_written.
  pose proof (shadow_written_wf index data len _ Hs Hd Hlen) as Hw.
  assert (index = 0x0018 -> info_globals_wf (info_with_tag (pe_info s) (take (Z.to_nat len) data)))
    as Hi'.
  { intros ->. apply info_with_tag_wf; [done| |by apply Forall_take]. rewrite zlen_take by lia. naive_solver lia. }
  cbv zeta. destruct persist; repeat case_decide; split; rec_simpl; auto.
Qed.

Lemma params_written_tag index subindex data len persist s i :
  params_accepts index subindex len s -> 0 <= len <= zlen data ->
  params_tag i (params_written index data len persist s) =
  if decide (i = index) then Some (c_string (take (Z.to_nat (Z.min len 32)) data))
  else params_tag i s.
Proof.
  intros (_ & Hc) Hlen. unfold params_written. cbv zeta.
  destruct Hc as [->|[->|(-> & Hl & Hg)]]; unfold params_tag, shadow_written;
    destruct persist; repeat case_decide; subst; try done; try (exfalso; tauto); rec_simpl;
    rewrite ?stored_tag_string, ?app_tag_string_with_tag by done; try done;
    unfold app_tag_size in *; by rewrite Z.min_l by lia.
Qed.

(** *** Factory reset and start-up *)

Lemma tag_wf_emptied t : zlen t = 33 -> bytes_ok t -> tag_wf (<[0%nat := 0]> t).
Proof.
  intros Hz Hb. split; [|split].
  - by rewrite zlen_insert.
  - destruct t; [done|]. exists 0. done.
  - by apply Forall_insert.
Qed.

Lemma c_string_emptied t : zlen t = 33 -> c_string (<[0%nat := 0]> t) = [].
Proof. by destruct t. Qed.

(** A shadow whose fields have their sizes; the strings may be unterminated,
    as in an image just loaded. *)
Definition shadow_shape (sh : iolink_params_nvm_t) : Prop :=
  is_u32 (nvm_magic sh) /\
  (zlen (nvm_application_tag sh) = 33 /\ bytes_ok (nvm_application_tag sh)) /\
  (zlen (nvm_function_tag sh) = 33 /\ bytes_ok (nvm_function_tag sh)) /\
  (zlen (nvm_location_tag sh) = 33 /\ bytes_ok (nvm_location_tag sh)) /\
  zlen (nvm_padding sh) = 1 /\ bytes_ok (nvm_padding sh).

Lemma shadow_wf_shape sh : shadow_wf sh -> shadow_shape sh.
Proof. unfold shadow_wf, shadow_shape, tag_wf. tauto. Qed.

Lemma nvm_decode_shape l : zlen l = nvm_size -> bytes_ok l -> shadow_shape (nvm_decode l).
Proof.
  intros Hl Hb. unfold nvm_size, zlen in Hl.
  assert (forall n k, bytes_ok (take n (drop k l))) as Hbs by (intros; by apply Forall_take, Forall_drop).
  assert (forall k, (k <= 71)%nat -> zlen (take 33 (drop k l)) = 33) as Hz
    by (intros; unfold zlen; rewrite length_take, length_drop; lia).
  pose proof (le32_val_range (take 4 l) ltac:(by apply Forall_take)) as [Hm Hm'].
  unfold shadow_shape, nvm_decode. cbn [nvm_magic nvm_application_tag nvm_function_tag
    nvm_location_tag nvm_padding]. split_and!; try done; try (by apply Hbs); try (apply Hz; lia).
  - unfold zlen. rewrite length_drop. lia.
  - by apply Forall_drop.
Qed.

(** The shadow after a load: the image read over the front of the old one. *)
Definition loaded_shadow (data : list Z) (sh : iolink_params_nvm_t) : iolink_params_nvm_t :=
  nvm_decode (data ++ drop (length data) (nvm_encode sh)).

Lemma loaded_shadow_full data sh : zlen data = nvm_size -> shadow_wf sh -> loaded_shadow data sh = nvm_decode data.
Proof.
  intros Hd Hsh. unfold loaded_shadow.
  pose proof (nvm_encode_length sh Hsh). rewrite drop_ge by (unfold zlen in *; lia).
  by rewrite app_nil_r.
Qed.

Lemma le32_bytes_ok z : bytes_ok (le32_bytes z).
Proof. repeat constructor; apply Z.mod_pos_bound; lia. Qed.

Lemma nvm_encode_ok sh : shadow_wf sh -> bytes_ok (nvm_encode sh).
Proof.
  intros (_ & (_ & _ & Ha) & (_ & _ & Hf) & (_ & _ & Hl) & _ & Hp). unfold nvm_encode, bytes_ok.
  rewrite !Forall_app. repeat split; try done. apply le32_bytes_ok.
Qed.

Lemma loaded_shadow_shape data sh :
  shadow_wf sh -> zlen data <= nvm_size -> bytes_ok data -> shadow_shape (loaded_shadow data sh).
Proof.
  intros Hsh Hd Hb. pose proof (nvm_encode_length sh Hsh). apply nvm_decode_shape.
  - rewrite zlen_app. unfold zlen in *. rewrite length_drop. lia.
  - apply Forall_app. split; [done|]. by apply Forall_drop, nvm_encode_ok.
Qed.

Lemma iolink_params_factory_reset_spec s :
  params_wf s ->
  wp iolink_params_factory_reset
     (fun _ s' =>
        params_wf s' /\ nvm_magic (pe_shadow s') = PARAMS_NVM_MAGIC /\
        c_string (nvm_application_tag (pe_shadow s')) = [] /\
        params_tag 0x0019 s' = Some [] /\ params_tag 0x001a s' = Some [] /\
        params_tag 0x0018 s' =
          (if decide (g_device_info (pe_info s) = InfoDefault) then Some [] else params_tag 0x0018 s) /\
        pe_hw s' = snd (iolink_nvm_write 0 (nvm_encode (pe_shadow s')) (pe_hw s))) s.
Proof.
  intros [Hi (Hm & Ha & Hf & Hl & Hp & Hp')]. unfold iolink_params_factory_reset.
  pose proof Ha as [Ha1 _]. pose proof Hf as [Hf1 _]. pose proof Hl as [Hl1 _].
  repeat tag_step. lazymatch goal with |- wp _ (fun _ t => wp _ _ (put _ t ?x)) _ => set (s1 := x) end.
  change (Z.to_nat 0) with 0%nat in s1.
  assert (shadow_wf (pe_shadow s1)) as Hs1.
  { unfold s1, shadow_wf. rec_simpl. split_and!; try done; apply tag_wf_emptied; first [apply Ha | apply Hf | apply Hl]. }
  assert (params_tag 0x0019 s1 = Some [] /\ params_tag 0x001a s1 = Some []) as [Ht1 Ht2].
  { rewrite params_tag_fun, params_tag_loc. unfold s1. rec_simpl.
    by rewrite (c_string_emptied _ Hf1), (c_string_emptied _ Hl1). }
  assert (c_string (nvm_application_tag (pe_shadow s1)) = []) as Ht3.
  { unfold s1. rec_simpl. by apply c_string_emptied. }
  assert (pe_info s1 = pe_info s /\ pe_hw s1 = pe_hw s) as [Hinfo Hhw] by done.
  assert (nvm_magic (pe_shadow s1) = PARAMS_NVM_MAGIC) as Hmag by done.
  eapply wp_mono.
  { exact (iolink_device_info_set_application_tag_spec (pe_info s) [0] 0 Hi ltac:(done)). }
  clearbody s1.
  intros r g' Hr. cbv beta in Hr.
  assert (info_globals_wf g' /\ app_tag_string g' =
    (if decide (g_device_info (pe_info s) = InfoDefault) then Some [] else params_tag 0x0018 s))
    as [Hg' Htag].
  { destruct (decide (g_device_info (pe_info s) = InfoDefault)) as [E|E].
    - rewrite decide_True in Hr by done. destruct Hr as [_ ->]. split.
      + apply info_with_tag_wf; [done..|]. constructor.
      + by rewrite app_tag_string_with_tag.
    - rewrite decide_False in Hr by tauto. by destruct Hr as [_ ->]. }
  wp_steps. apply wp_nvm_store_shadow. wp_steps. cbn [put pe_info_lens].
  rewrite params_tag_fun, params_tag_loc in *. split_and!; try done; rec_simpl; try done.
  by rewrite Hhw.
Qed.

(** The state [iolink_params_init] leaves when the image is valid: the shadow is
    the image, and the Application Tag is restored when the default
    information is in use. *)
Definition params_restored (sh : iolink_params_nvm_t) (w : W) (s : params_env W) : params_env W :=
  s<| pe_shadow := sh |><| pe_hw := w |>
   <| pe_info :=
        if decide (g_device_info (pe_info s) = InfoDefault)
        then info_with_tag (pe_info s) (c_string (nvm_application_tag sh))
        else pe_info s |>.

Lemma wp_nvm_load_shadow (Q : Z -> params_env W -> Prop) s ret data w :
  iolink_nvm_read 0 nvm_size (pe_hw s) = (ret, data, w) ->
  Q ret (s<| pe_shadow := loaded_shadow data (pe_shadow s) |><| pe_hw := w |>) ->
  wp nvm_load_shadow Q s.
Proof. unfold wp, nvm_load_shadow. by intros ->. Qed.

Lemma iolink_params_init_valid s data w :
  params_wf s -> iolink_nvm_read 0 nvm_size (pe_hw s) = (0, data, w) ->
  let sh := loaded_shadow data (pe_shadow s) in
  nvm_magic sh = PARAMS_NVM_MAGIC -> terminated (nvm_application_tag sh) ->
  zlen (nvm_application_tag sh) = 33 ->
  iolink_params_init s = Done (tt, params_restored sh w s).
Proof.
  intros [Hi Hs] Hread sh Hmag Ht Hz. apply wp_exact. unfold iolink_params_init.
  apply wp_bind. eapply wp_nvm_load_shadow; [exact Hread|]. fold sh. wp_step. wp_step.
  rewrite decide_True by done. unfold shadow_app. wp_step. wp_step.
  apply wp_bind, wp_strlen_terminated; [done|].
  pose proof (c_string_length _ Ht). pose proof (zlen_nonneg (c_string (nvm_application_tag sh))).
  rewrite u8_small by lia. wp_step. wp_step.
  eapply wp_mono.
  { exact (iolink_device_info_set_application_tag_spec (pe_info s)
      (nvm_application_tag sh) (zlen (c_string (nvm_application_tag sh))) Hi ltac:(lia)). }
  intros r g' Hr. cbv beta in Hr. wp_steps. split; [done|]. unfold params_restored.
  rewrite zlen_to_nat, c_string_prefix in Hr by done.
  destruct (decide (g_device_info (pe_info s) = InfoDefault)) as [E|E].
  - rewrite decide_True in Hr by (split; [unfold app_tag_size; lia | done]). by destruct Hr as [_ ->].
  - rewrite decide_False in Hr by tauto. by destruct Hr as [_ ->].
Qed.

Lemma iolink_params_init_default s ret data w :
  params_wf s -> iolink_nvm_read 0 nvm_size (pe_hw s) = (ret, data, w) ->
  zlen data <= nvm_size -> bytes_ok data ->
  ret <> 0 \/ nvm_magic (loaded_shadow data (pe_shadow s)) <> PARAMS_NVM_MAGIC ->
  wp iolink_params_init
     (fun _ s' =>
        nvm_magic (pe_shadow s') = PARAMS_NVM_MAGIC /\
        params_tag 0x0018 s' = params_tag 0x0018 s /\
        params_tag 0x0019 s' = Some [] /\ params_tag 0x001a s' = Some [] /\
        c_string (nvm_application_tag (pe_shadow s')) =
          default [] (take 32 <$> params_tag 0x0018 s) /\
        pe_hw s' = w /\ params_wf s') s.
Proof.
  intros [Hi Hs] Hread Hd Hb Hbad. unfold iolink_params_init.
  pose proof (loaded_shadow_shape data (pe_shadow s) Hs Hd Hb)
    as (Hm & (Ha & Hab) & (Hf & Hfb) & (Hl & Hlb) & Hp & Hpb).
  apply wp_bind. eapply wp_nvm_load_shadow; [exact Hread|].
  set (sh := loaded_shadow data (pe_shadow s)) in *. wp_step. wp_step.
  rewrite decide_False by naive_solver.
  unfold set_shadow_magic. wp_steps. apply wp_info_application_tag. rewrite params_tag_app.
  rec_simpl. unfold shadow_app, shadow_fun, shadow_loc, set_shadow_app, set_shadow_fun, set_shadow_loc.
  wp_step. wp_step. wp_step.
  set (Q := fun tag (_ : params_env W) => tag_wf tag /\
    c_string tag = default [] (take 32 <$> (c_string <$> app_tag_array (pe_info s)))).
  eapply (wp_mono _ (fun tag s1 => Q tag s1 /\ s1 = _)).
  - destruct (app_tag_array (pe_info s)) as [t|] eqn:Ht.
    + pose proof (app_tag_array_wf _ _ Hi Ht) as [Htt Htb].
      apply wp_bind, wp_strlen_terminated; [done|].
      pose proof (c_string_length _ Htt). pose proof (zlen_nonneg (c_string t)).
      cbv zeta. set (n := if decide _ then _ else _).
      assert (n = Z.min (zlen (c_string t)) 32) as Hn by (unfold n; case_decide; lia).
      apply wp_copy_terminate; [lia..|]. split; [|reflexivity].
      assert (take (Z.to_nat n) t = take 32 (c_string t)) as ->.
      { rewrite <- (c_string_prefix t Htt), take_take. f_equal. unfold zlen in *. lia. }
      assert (length (take 32 (c_string t)) = Z.to_nat n) as Hl'
        by (unfold zlen in *; rewrite length_take; lia).
      split; [split; [|split]|].
      * rewrite <- Hl'. rewrite zlen_prefix; [done|]. unfold zlen in *. lia.
      * apply terminated_app_zero.
      * apply Forall_app. split; [|constructor; [done | by apply Forall_drop]].
        rewrite <- (c_string_prefix t Htt), take_take. by apply Forall_take.
      * rewrite c_string_app_zero, c_string_take. done.
    + apply wp_wr; [lia|]. split; [|reflexivity]. split; [by apply tag_wf_emptied|].
      cbn. apply c_string_emptied. done.
  - intros tag s1 [[Hz Hstr] ->]. wp_steps. apply wp_wr; [lia|]. wp_steps. apply wp_wr; [lia|]. wp_steps.
    rewrite params_tag_fun, params_tag_loc, params_tag_app. rec_simpl.
    change (Z.to_nat 0) with 0%nat. rewrite !c_string_emptied by done.
    split_and!; try done.
    + by rewrite <- !app_tag_array_string, info_selected_tag.
    + split; [by apply info_selected_wf|]. unfold shadow_wf. rec_simpl.
      split_and!; try done; by apply tag_wf_emptied.
Qed.

(** The shadow comes back from the image it was stored as. *)
Lemma params_init_image s sh w :
  params_wf s -> shadow_wf sh -> nvm_magic sh = PARAMS_NVM_MAGIC ->
  iolink_nvm_read 0 nvm_size (pe_hw s) = (0, nvm_encode sh, w) ->
  iolink_params_init s = Done (tt, params_restored sh w s).
Proof.
  intros Hs Hsh Hmag Hr. pose proof Hsh as (_ & (Hz & Ht & _) & _).
  pose proof (iolink_params_init_valid s _ _ Hs Hr) as H. cbv zeta in H.
  rewrite loaded_shadow_full, nvm_decode_encode in H by (apply Hs || by apply nvm_encode_length || done).
  by apply H.
Qed.

Lemma params_restored_wf sh w s :
  params_wf s -> shadow_shape sh -> terminated (nvm_application_tag sh) ->
  terminated (nvm_function_tag sh) -> terminated (nvm_location_tag sh) ->
  params_wf (params_restored sh w s).
Proof.
  intros [Hi Hs] (Hm & (Ha & Hab) & (Hf & Hfb) & (Hlo & Hlb) & Hp & Hpb) Ht Htf Htl.
  split; [|unfold params_restored, shadow_wf, tag_wf; rec_simpl; split_and!; tauto].
  unfold params_restored. rec_simpl. case_decide; [|done].
  apply info_with_tag_wf; [done| |].
  - pose proof (c_string_length _ Ht). unfold app_tag_size. lia.
  - rewrite <- c_string_prefix by done. by apply Forall_take.
Qed.

(** The memory holds no image, or one whose tags are terminated. *)
Definition nvm_image_ok (w : W) : Prop :=
  let '(ret, data, _) := iolink_nvm_read 0 nvm_size w in
  let sh := nvm_decode data in
  ret = 0 -> nvm_magic sh = PARAMS_NVM_MAGIC ->
  terminated (nvm_application_tag sh) /\ terminated (nvm_function_tag sh) /\
  terminated (nvm_location_tag sh).

Lemma wp_params_init `{!NvmReadBounded W} (Q : unit -> params_env W -> Prop) s :
  params_wf s -> nvm_image_ok (pe_hw s) -> (forall s', params_wf s' -> Q tt s') ->
  wp iolink_params_init Q s.
Proof.
  unfold nvm_image_ok. intros Hwf Hok HQ.
  pose proof (nvm_read_bounded 0 nvm_size (pe_hw s) ltac:(done)) as Hr.
  destruct (iolink_nvm_read 0 nvm_size (pe_hw s)) as [[ret data] w] eqn:Hread.
  destruct Hr as (Hd & Hfull & Hb). cbv zeta in Hok.
  destruct (decide (ret = 0 /\ nvm_magic (nvm_decode data) = PARAMS_NVM_MAGIC)) as [[-> Hmag]|Hbad].
  - destruct (Hok eq_refl Hmag) as (Ht & Htf & Htl). specialize (Hfull eq_refl).
    pose proof (loaded_shadow_full data (pe_shadow s) Hfull (proj2 Hwf)) as Hl.
    pose proof (nvm_decode_shape data Hfull Hb) as Hsh.
    pose proof (iolink_params_init_valid s data w Hwf Hread) as H.
    cbv zeta in H. rewrite Hl in H. destruct Hsh as (Hm & (Ha & Hab) & Hsh).
    eapply wp_intro; [by apply H|]. apply HQ, params_restored_wf; (done || by split_and!).
  - eapply wp_mono; [eapply iolink_params_init_default; try done|].
    + destruct (decide (ret = 0)) as [->|]; [right|by left].
      rewrite loaded_shadow_full by (apply Hwf || by apply Hfull). tauto.
    + intros [] s' (_ & _ & _ & _ & _ & _ & H). by apply HQ.
Qed.
End specs.

(** ** Properties *)

(** A restart of the device: RAM is lost, the memory stays, the application
    selects the default device information before [iolink_params_init]. *)
Definition rebooted {W} (s : params_env W) : params_env W :=
  mk_params_env (info_globals_start<| g_device_info := InfoDefault |>) g_nvm_shadow_start (pe_hw s).

Lemma g_nvm_shadow_start_wf : shadow_wf g_nvm_shadow_start.
Proof. vm_compute. repeat (constructor || split || done); eauto. Qed.

Lemma rebooted_wf {W} (s : params_env W) : params_wf (rebooted s).
Proof.
  split; [|apply g_nvm_shadow_start_wf]. vm_compute. repeat (constructor || split || done); eauto.
Qed.

Section properties.
Context {W : Type} `{!Platform W}.
Implicit Types s : params_env W.

(** C26. Write then read of the three tags.  From any well-formed state a write
    of at most 255 bytes stays in bounds and keeps the state well formed.  It
    returns 0 exactly when [params_accepts] holds and otherwise returns -1 and
    changes nothing.  A read of any index into any buffer afterwards returns
    the length copied and leaves the string in the front of the buffer: the
    written bytes, cut at 32 and at their first NUL, for the written index,
    and the former value for every other index. *)
Theorem params_write_read s index subindex data len persist :
  params_wf s -> bytes_ok data -> 0 <= len <= zlen data -> len < 256 ->
  exists r s1,
    iolink_params_set index subindex (Some data) len persist s = Done (r, s1) /\
    params_wf s1 /\
    (r = 0 <-> params_accepts index subindex len s) /\
    (r <> 0 -> r = -1 /\ s1 = s) /\
    forall index' buffer, exists s2,
      let str := if decide (r = 0 /\ index' = index)
                 then Some (c_string (take (Z.to_nat (Z.min len 32)) data))
                 else params_tag index' s in
      let n := Z.min (zlen (default [] str)) (zlen buffer) in
      iolink_params_get index' 0 (Some buffer) (zlen buffer) s1 =
        Done (match str with
              | Some str => (n, take (Z.to_nat n) str ++ drop (Z.to_nat n) buffer)
              | None => (-1, buffer)
              end, s2).
Proof.
  intros Hwf Hb Hlen H256.
  pose proof (iolink_params_set_spec index subindex data len persist s Hwf Hlen H256) as H.
  apply wp_done in H as (r & s1 & Hrun & H). exists r, s1. split; [done|].
  assert (params_wf s1 /\ (r = 0 <-> params_accepts index subindex len s) /\
          (r <> 0 -> r = -1 /\ s1 = s) /\
          forall i, params_tag i s1 =
            if decide (r = 0 /\ i = index)
            then Some (c_string (take (Z.to_nat (Z.min len 32)) data))
            else params_tag i s) as (Hwf1 & Hr & Hr' & Htag).
  { destruct (decide (params_accepts index subindex len s)) as [Hc|Hc]; destruct H as [-> ->].
    - split; [by eapply params_written_wf|]. split; [done|]. split; [done|]. intros i.
      erewrite params_written_tag by done. repeat case_decide; tauto.
    - split; [done|]. split; [split; [done | tauto]|]. split; [done|]. intros i.
      by rewrite decide_False by lia. }
  split; [done|]. split; [done|]. split; [done|]. intros i buffer.
  pose proof (zlen_nonneg buffer).
  pose proof (iolink_params_get_spec i 0 buffer (zlen buffer) s1 Hwf1 ltac:(lia)) as Hget.
  apply wp_done in Hget as (res & s2 & Hget & _ & _ & _ & Hres). exists s2. cbv zeta.
  rewrite Hget, Htag in *. destruct (decide (0 = 0)) as [_|]; [|done].
  by destruct (if decide _ then _ else _); rewrite Hres.
Qed.

(** An image stored with success is the image found after a restart. *)
Lemma reboot_restores `{!NvmPersistent W} sh w s :
  shadow_wf sh -> nvm_magic sh = PARAMS_NVM_MAGIC ->
  iolink_nvm_write 0 (nvm_encode sh) w = (0, pe_hw s) ->
  exists s', iolink_params_init (rebooted s) = Done (tt, s') /\
    pe_shadow s' = sh /\
    params_tag 0x0018 s' = Some (c_string (nvm_application_tag sh)) /\
    params_tag 0x0019 s' = Some (c_string (nvm_function_tag sh)) /\
    params_tag 0x001a s' = Some (c_string (nvm_location_tag sh)).
Proof.
  intros Hsh Hmag Hw. apply nvm_read_write in Hw as [w'' Hr].
  rewrite nvm_encode_length in Hr by done.
  exists (params_restored sh w'' (rebooted s)). split; [|split; [|split]].
  - apply params_init_image; [apply rebooted_wf | done..].
  - done.
  - unfold params_restored, params_tag. rec_simpl. destruct (decide (0x0018 = 0x0018)) as [_|]; [|done].
    change (g_device_info (pe_info (rebooted s))) with InfoDefault. rewrite decide_True by done.
    rewrite app_tag_string_with_tag by done. by rewrite (c_string_nonzero (c_string _)) by apply c_string_no_zero.
  - by split.
Qed.

Lemma params_written_shadow index data len s :
  pe_shadow (params_written index data len true s) = shadow_written index data len (pe_shadow s) /\
  pe_hw (params_written index data len true s) =
    snd (iolink_nvm_write 0 (nvm_encode (shadow_written index data len (pe_shadow s))) (pe_hw s)).
Proof. unfold params_written. cbv zeta. by repeat case_decide; try (exfalso; naive_solver). Qed.

(** A persistent write survives a restart.  When the memory accepts the
    image, [iolink_params_init] after the restart runs without fault and the
    written tag reads as the written bytes (cut at 32 and at the first NUL);
    the function and location tags that were not written keep their value, and
    the Application Tag, when not the one written, is the one of the image. *)
Theorem params_persist `{!NvmPersistent W} s index subindex data len s1 :
  params_wf s -> nvm_magic (pe_shadow s) = PARAMS_NVM_MAGIC ->
  bytes_ok data -> 0 <= len <= zlen data -> len < 256 ->
  iolink_params_set index subindex (Some data) len true s = Done (0, s1) ->
  fst (iolink_nvm_write 0 (nvm_encode (pe_shadow s1)) (pe_hw s)) = 0 ->
  exists s2,
    iolink_params_init (rebooted s1) = Done (tt, s2) /\
    params_tag index s2 = Some (c_string (take (Z.to_nat (Z.min len 32)) data)) /\
    (index <> 0x0018 ->
     params_tag 0x0018 s2 = Some (c_string (nvm_application_tag (pe_shadow s)))) /\
    (index <> 0x0019 -> params_tag 0x0019 s2 = params_tag 0x0019 s) /\
    (index <> 0x001a -> params_tag 0x001a s2 = params_tag 0x001a s).
Proof.
  intros Hwf Hmag Hb Hlen H256 Hset Hok.
  pose proof (wp_elim _ _ _ _ _
    (iolink_params_set_spec index subindex data len true s Hwf Hlen H256) Hset) as H.
  cbv beta in H. destruct (decide (params_accepts index subindex len s)) as [Hc|]; [|by destruct H].
  destruct H as [_ ->]. destruct (params_written_shadow index data len s) as [Hsh Hhw].
  rewrite Hsh in Hok. destruct Hwf as [Hi Hs].
  destruct (reboot_restores (shadow_written index data len (pe_shadow s)) (pe_hw s)
              (params_written index data len true s)) as (s2 & Hinit & _ & Ht1 & Ht2 & Ht3).
  - by apply shadow_written_wf.
  - unfold shadow_written. by repeat case_decide.
  - rewrite Hhw. destruct (iolink_nvm_write _ _ _). cbn in *. by subst.
  - exists s2. split; [done|]. rewrite (params_tag_fun s), (params_tag_loc s).
    destruct Hc as (_ & [->|[->|(-> & _ & _)]]).
    + change (shadow_written 0x0019 data len (pe_shadow s))
        with ((pe_shadow s)<| nvm_function_tag := stored_tag (nvm_function_tag (pe_shadow s)) data len |>) in *.
      rec_simpl in *. rewrite stored_tag_string in *. naive_solver.
    + change (shadow_written 0x001a data len (pe_shadow s))
        with ((pe_shadow s)<| nvm_location_tag := stored_tag (nvm_location_tag (pe_shadow s)) data len |>) in *.
      rec_simpl in *. rewrite stored_tag_string in *. naive_solver.
    + change (shadow_written 0x0018 data len (pe_shadow s))
        with ((pe_shadow s)<| nvm_application_tag := stored_tag (nvm_application_tag (pe_shadow s)) data len |>) in *.
      rec_simpl in *. rewrite stored_tag_string in *. naive_solver.
Qed.

(** C35. Start-up of the parameters, for whatever the memory returns.  With an
    image of the right magic the shadow is the image, and its Application Tag
    becomes the tag read when the default device information was selected
    before (otherwise the tag in use stays); an image whose Application Tag
    has no terminator makes [strlen] read out of bounds; without a valid image
    the tags are the defaults.  In the two regular cases the state is well
    formed whatever bytes were read, when the other tags of the image are
    terminated. *)
Theorem params_init_cases `{!NvmReadBounded W} s :
  params_wf s ->
  let '(ret, data, w) := iolink_nvm_read 0 nvm_size (pe_hw s) in
  let sh := nvm_decode data in
  if decide (ret = 0 /\ nvm_magic sh = PARAMS_NVM_MAGIC) then
    (terminated (nvm_application_tag sh) ->
     iolink_params_init s = Done (tt, params_restored sh w s) /\
     (terminated (nvm_function_tag sh) -> terminated (nvm_location_tag sh) ->
      params_wf (params_restored sh w s))) /\
    (~ terminated (nvm_application_tag sh) -> iolink_params_init s = Fault OutOfBounds)
  else
    exists s',
      iolink_params_init s = Done (tt, s') /\ params_wf s' /\
      params_tag 0x0018 s' = params_tag 0x0018 s /\
      params_tag 0x0019 s' = Some [] /\ params_tag 0x001a s' = Some [].
Proof.
  intros Hwf. pose proof Hwf as [Hi Hs].
  pose proof (nvm_read_bounded 0 nvm_size (pe_hw s) ltac:(done)) as Hr.
  destruct (iolink_nvm_read 0 nvm_size (pe_hw s)) as [[ret data] w] eqn:Hread.
  destruct Hr as (Hd & Hfull & Hb). cbv zeta.
  destruct (decide (ret = 0 /\ nvm_magic (nvm_decode data) = PARAMS_NVM_MAGIC)) as [[-> Hmag]|Hbad].
  - specialize (Hfull eq_refl).
    pose proof (loaded_shadow_full data (pe_shadow s) Hfull Hs) as Hl.
    pose proof (nvm_decode_shape data Hfull Hb) as (Hm & (Ha & Hab) & (Hf & Hfb) & (Hlo & Hlb) & Hp & Hpb).
    split.
    + intros Ht. split.
      * pose proof (iolink_params_init_valid s data w Hwf Hread) as H.
        cbv zeta in H. rewrite Hl in H. by apply H.
      * intros. apply params_restored_wf; (done || by split_and!).
    + intros Hn. unfold iolink_params_init, mbind, M_bind, nvm_load_shadow. rewrite Hread.
      fold (loaded_shadow data (pe_shadow s)). rewrite Hl. cbn [gets pe_shadow].
      unfold gets. rec_simpl. rewrite decide_True by done. unfold shadow_app, gets. rec_simpl.
      unfold strlen. destruct (c_strlen _) eqn:E; [|done]. exfalso. apply Hn. by eexists.
  - assert (ret <> 0 \/ nvm_magic (loaded_shadow data (pe_shadow s)) <> PARAMS_NVM_MAGIC) as Hb'.
    { destruct (decide (ret = 0)) as [->|]; [right|by left].
      rewrite loaded_shadow_full by (done || by apply Hfull). naive_solver. }
    pose proof (iolink_params_init_default s ret data w Hwf Hread Hd Hb Hb') as H.
    apply wp_done in H as ([] & s' & Hrun & H). exists s'. naive_solver.
Qed.

End properties.

(** ** Witnesses: a device with a RAM memory *)

Definition params_demo : params_env ram :=
  (rebooted (mk_params_env info_globals_start g_nvm_shadow_start (mk_ram [] 0)))
  <| pe_shadow := g_nvm_shadow_start<| nvm_magic := PARAMS_NVM_MAGIC |> |>.

Lemma params_demo_wf : params_wf params_demo.
Proof. vm_compute. repeat (constructor || split || done); eauto. Qed.

Lemma pump7_ok : bytes_ok (c_str "Pump7").
Proof. vm_compute. repeat (constructor || split || done). Qed.

Lemma params_write_read_witness :
  exists r s1 s2,
    iolink_params_set 0x0018 0 (Some (c_str "Pump7")) 5 true params_demo = Done (r, s1) /\
    iolink_params_get 0x0018 0 (Some (replicate 8 0)) 8 s1 =
      Done ((5, [80; 117; 109; 112; 55; 0; 0; 0]), s2).
Proof.
  destruct (params_write_read params_demo 0x0018 0 (c_str "Pump7") 5 true
              params_demo_wf pump7_ok ltac:(vm_compute; split; discriminate) ltac:(done))
    as (r & s1 & Hrun & _ & Hr & _ & Hget).
  destruct (Hget 0x0018 (replicate 8 0)) as [s2 H2]. exists r, s1, s2. split; [exact Hrun|].
  rewrite decide_True in H2; [exact H2|]. split; [|done]. apply Hr. split; [done|].
  right; right. vm_compute. done.
Defined.

Lemma params_persist_witness :
  exists s1 s2,
    iolink_params_set 0x0018 0 (Some (c_str "Pump7")) 5 true params_demo = Done (0, s1) /\
    iolink_params_init (rebooted s1) = Done (tt, s2) /\
    params_tag 0x0018 s2 = Some [80; 117; 109; 112; 55].
Proof.
  exists (params_written 0x0018 (c_str "Pump7") 5 true params_demo).
  destruct (params_persist params_demo 0x0018 0 (c_str "Pump7") 5
              (params_written 0x0018 (c_str "Pump7") 5 true params_demo)
              params_demo_wf ltac:(done) pump7_ok ltac:(vm_compute; split; discriminate) ltac:(done)
              ltac:(vm_compute; reflexivity) ltac:(vm_compute; reflexivity))
    as (s2 & H1 & H2 & _).
  exists s2. split; [vm_compute; reflexivity|]. split; [exact H1 | exact H2].
Defined.

Lemma params_init_cases_witness :
  exists s', iolink_params_init params_demo = Done (tt, s') /\ params_wf s' /\
    params_tag 0x0018 s' = params_tag 0x0018 params_demo /\
    params_tag 0x0019 s' = Some [] /\ params_tag 0x001a s' = Some [].
Proof. exact (params_init_cases params_demo params_demo_wf). Defined.

