(* ===== verification/Isdu.v ===== *)
(** * The ISDU transport (isdu.c, first and last part)

    The reassembly of a request from the on-request data bytes and the
    segmentation of the response, one control byte before every data byte.  The
    services a complete request is dispatched to are in [IsduServices]. *)
From S2P Require Export Protocol.
#[local] Open Scope Z_scope.

(** ** Data *)

(** isdu.h:36-42 iolink_isdu_header_t *)
Record iolink_isdu_header_t := mk_isdu_header {
  hdr_type : Z;
  hdr_length : Z;
  hdr_index : Z;
  hdr_subindex : Z
}.

#[export] Instance eta_isdu_header : Eta iolink_isdu_header_t := fun r =>
  mk_isdu_header (hdr_type r) (hdr_length r) (hdr_index r) (hdr_subindex r).
#[export] Instance update_hdr_type : Update hdr_type := ltac:(derive_update).
#[export] Instance update_hdr_length : Update hdr_length := ltac:(derive_update).
#[export] Instance update_hdr_index : Update hdr_index := ltac:(derive_update).
#[export] Instance update_hdr_subindex : Update hdr_subindex := ltac:(derive_update).

(** The three back links are kept as "not NULL": what they point to is the
    state of the component concerned, in [IsduServices].
    isdu.h:67-92 iolink_isdu_ctx_t *)
Record iolink_isdu_ctx_t := mk_isdu_ctx {
  isdu_state : isdu_state_t;
  isdu_buffer : list Z;
  isdu_buffer_idx : Z;
  isdu_header : iolink_isdu_header_t;
  isdu_response_buf : list Z;
  isdu_response_idx : Z;
  isdu_response_len : Z;
  isdu_next_state : isdu_state_t;
  isdu_segment_seq : Z;
  isdu_is_segmented : bool;
  isdu_is_response_control_sent : bool;
  isdu_error_code : Z;
  isdu_event_ctx : bool;
  isdu_ds_ctx : bool;
  isdu_dll_ctx : bool;
  isdu_reset_pending : bool;
  isdu_app_reset_pending : bool
}.

#[export] Instance eta_isdu_ctx : Eta iolink_isdu_ctx_t := fun r =>
  mk_isdu_ctx (isdu_state r) (isdu_buffer r) (isdu_buffer_idx r) (isdu_header r)
    (isdu_response_buf r) (isdu_response_idx r) (isdu_response_len r) (isdu_next_state r)
    (isdu_segment_seq r) (isdu_is_segmented r) (isdu_is_response_control_sent r)
    (isdu_error_code r) (isdu_event_ctx r) (isdu_ds_ctx r) (isdu_dll_ctx r)
    (isdu_reset_pending r) (isdu_app_reset_pending r).
#[export] Instance update_isdu_state : Update isdu_state := ltac:(derive_update).
#[export] Instance update_isdu_buffer : Update isdu_buffer := ltac:(derive_update).
#[export] Instance update_isdu_buffer_idx : Update isdu_buffer_idx := ltac:(derive_update).
#[export] Instance update_isdu_header : Update isdu_header := ltac:(derive_update).
#[export] Instance update_isdu_response_buf : Update isdu_response_buf := ltac:(derive_update).
#[export] Instance update_isdu_response_idx : Update isdu_response_idx := ltac:(derive_update).
#[export] Instance update_isdu_response_len : Update isdu_response_len := ltac:(derive_update).
#[export] Instance update_isdu_next_state : Update isdu_next_state := ltac:(derive_update).
#[export] Instance update_isdu_segment_seq : Update isdu_segment_seq := ltac:(derive_update).
#[export] Instance update_isdu_is_segmented : Update isdu_is_segmented := ltac:(derive_update).
#[export] Instance update_isdu_is_response_control_sent : Update isdu_is_response_control_sent :=
  ltac:(derive_update).
#[export] Instance update_isdu_error_code : Update isdu_error_code := ltac:(derive_update).
#[export] Instance update_isdu_event_ctx : Update isdu_event_ctx := ltac:(derive_update).
#[export] Instance update_isdu_ds_ctx : Update isdu_ds_ctx := ltac:(derive_update).
#[export] Instance update_isdu_dll_ctx : Update isdu_dll_ctx := ltac:(derive_update).
#[export] Instance update_isdu_reset_pending : Update isdu_reset_pending := ltac:(derive_update).
#[export] Instance update_isdu_app_reset_pending : Update isdu_app_reset_pending :=
  ltac:(derive_update).

(** ** Operations *)

(** [ctx->response_buf[i] = v] *)
Definition resp (i v : Z) : M iolink_isdu_ctx_t unit :=
  b ← gets isdu_response_buf; b ← wr b i v; assign isdu_response_buf b.

(** [ctx->header.f = v] *)
Definition hdr_assign {T} (f : iolink_isdu_header_t -> T) `{!Update f} (v : T)
  : M iolink_isdu_ctx_t unit :=
  modify (fun c => c<| isdu_header := (isdu_header c)<| f := v |> |>).

(** The context after [memset]; both state fields are then set to the value the
    zero bytes already encode.
    isdu.c:37-44 iolink_isdu_init *)
Definition isdu_cleared : iolink_isdu_ctx_t :=
  mk_isdu_ctx ISDU_STATE_IDLE (replicate 256 0) 0 (mk_isdu_header 0 0 0 0)
    (replicate 256 0) 0 0 ISDU_STATE_IDLE 0 false false 0 false false false false false.

(** isdu.c:37-44 iolink_isdu_init *)
Definition iolink_isdu_init : M iolink_isdu_ctx_t unit :=
  modify (fun _ => isdu_cleared) ;;
  assign isdu_state ISDU_STATE_IDLE ;;
  assign isdu_next_state ISDU_STATE_IDLE.

(** isdu.c:46-65 isdu_handle_idle *)
Definition isdu_handle_idle (byte : Z) : M iolink_isdu_ctx_t Z :=
  let start := Z.land byte IOLINK_ISDU_CTRL_START <> 0 in
  let last := bool_decide (Z.land byte IOLINK_ISDU_CTRL_LAST <> 0) in
  let seq := u8 (Z.land byte IOLINK_ISDU_CTRL_SEQ_MASK) in
  if decide (~ start) then mret (-1) else
  assign isdu_is_segmented (negb last) ;;
  assign isdu_segment_seq seq ;;
  assign isdu_error_code IOLINK_ISDU_ERROR_NONE ;;
  assign isdu_is_response_control_sent false ;;
  assign isdu_buffer_idx 0 ;;
  assign isdu_response_len 0 ;;
  assign isdu_response_idx 0 ;;
  assign isdu_state ISDU_STATE_HEADER_INITIAL ;;
  mret 0.

(** isdu.c:130-223 iolink_isdu_collect_byte : the switch on the state. *)
Definition isdu_collect_data (is_control_phase : bool) (byte : Z) : M iolink_isdu_ctx_t Z :=
  state ← gets isdu_state;
  match state with
  | ISDU_STATE_HEADER_INITIAL =>
    let service := u8 (Z.land (Z.shiftr byte 4) 0x0f) in
    let length := u8 (Z.land byte 0x0f) in
    if decide (service <> 0x08 /\ service <> 0x09) then
      resp 0 0x80 ;;
      resp 1 IOLINK_ISDU_ERROR_SERVICE_NOT_AVAIL ;;
      assign isdu_response_len 2 ;;
      assign isdu_response_idx 0 ;;
      assign isdu_state ISDU_STATE_RESPONSE_READY ;;
      mret (-1)
    else
      (if decide (service = 0x08) then
         hdr_assign hdr_type IOLINK_ISDU_SERVICE_TYPE_READ ;;
         hdr_assign hdr_length 0 ;;
         assign isdu_next_state ISDU_STATE_HEADER_INDEX_HIGH
       else
         hdr_assign hdr_type IOLINK_ISDU_SERVICE_TYPE_WRITE ;;
         if decide (length = 15) then
           assign isdu_next_state ISDU_STATE_HEADER_EXT_LEN
         else
           hdr_assign hdr_length length ;;
           assign isdu_next_state ISDU_STATE_HEADER_INDEX_HIGH) ;;
      assign isdu_buffer_idx 0 ;;
      assign isdu_state ISDU_STATE_SEGMENT_COLLECT ;;
      mret 0
  | ISDU_STATE_HEADER_EXT_LEN =>
    hdr_assign hdr_length byte ;;
    assign isdu_next_state ISDU_STATE_HEADER_INDEX_HIGH ;;
    assign isdu_state ISDU_STATE_SEGMENT_COLLECT ;;
    mret 0
  | ISDU_STATE_HEADER_INDEX_HIGH =>
    hdr_assign hdr_index (u16 (Z.shiftl byte 8)) ;;
    assign isdu_next_state ISDU_STATE_HEADER_INDEX_LOW ;;
    assign isdu_state ISDU_STATE_SEGMENT_COLLECT ;;
    mret 0
  | ISDU_STATE_HEADER_INDEX_LOW =>
    h ← gets isdu_header;
    hdr_assign hdr_index (Z.lor (hdr_index h) byte) ;;
    assign isdu_next_state ISDU_STATE_HEADER_SUBINDEX ;;
    assign isdu_state ISDU_STATE_SEGMENT_COLLECT ;;
    mret 0
  | ISDU_STATE_HEADER_SUBINDEX =>
    hdr_assign hdr_subindex byte ;;
    h ← gets isdu_header;
    if decide (hdr_type h = IOLINK_ISDU_SERVICE_TYPE_WRITE) then
      assign isdu_next_state ISDU_STATE_DATA_COLLECT ;;
      assign isdu_state ISDU_STATE_SEGMENT_COLLECT ;;
      mret 0
    else
      assign isdu_state ISDU_STATE_SERVICE_EXECUTE ;;
      mret 1
  | ISDU_STATE_DATA_COLLECT =>
    buf ← gets isdu_buffer;
    idx ← gets isdu_buffer_idx;
    buf ← wr buf idx byte;
    assign isdu_buffer buf ;;
    assign isdu_buffer_idx (idx + 1) ;;
    h ← gets isdu_header;
    if decide (hdr_length h <= idx + 1) then
      assign isdu_state ISDU_STATE_SERVICE_EXECUTE ;;
      mret 1
    else
      assign isdu_next_state ISDU_STATE_DATA_COLLECT ;;
      assign isdu_state ISDU_STATE_SEGMENT_COLLECT ;;
      mret 0
  | ISDU_STATE_SERVICE_EXECUTE | ISDU_STATE_BUSY => mret 0
  | ISDU_STATE_RESPONSE_READY =>
    if decide (is_control_phase = true /\ Z.land byte IOLINK_ISDU_CTRL_START <> 0) then
      assign isdu_state ISDU_STATE_IDLE ;;
      isdu_handle_idle byte
    else mret 0
  | ISDU_STATE_IDLE | ISDU_STATE_SEGMENT_COLLECT =>
    assign isdu_state ISDU_STATE_IDLE ;;
    mret 0
  end.

(** isdu.c:67-224 iolink_isdu_collect_byte *)
Definition iolink_isdu_collect_byte (byte : Z) : M iolink_isdu_ctx_t Z :=
  state ← gets isdu_state;
  let is_control_phase :=
    bool_decide (state = ISDU_STATE_IDLE \/ state = ISDU_STATE_SEGMENT_COLLECT \/
                 state = ISDU_STATE_RESPONSE_READY) in
  if is_control_phase then
    let start := Z.land byte 0x80 <> 0 in
    let seq := u8 (Z.land byte 0x3f) in
    if decide (start /\ state <> ISDU_STATE_IDLE /\ state <> ISDU_STATE_RESPONSE_READY) then
      resp 0 0x80 ;;
      resp 1 IOLINK_ISDU_ERROR_BUSY ;;
      assign isdu_response_len 2 ;;
      assign isdu_response_idx 0 ;;
      assign isdu_is_response_control_sent false ;;
      assign isdu_state ISDU_STATE_RESPONSE_READY ;;
      mret 1
    else
      when (start /\ state = ISDU_STATE_RESPONSE_READY)
        (assign isdu_response_idx 0 ;;
         assign isdu_response_len 0 ;;
         assign isdu_state ISDU_STATE_IDLE) ;;
      state ← gets isdu_state;
      if decide (state = ISDU_STATE_IDLE) then isdu_handle_idle byte
      else if decide (state = ISDU_STATE_SEGMENT_COLLECT) then
        let last_seg := bool_decide (Z.land byte 0x40 <> 0) in
        expected ← gets isdu_segment_seq;
        if decide (seq <> u8 (Z.land (expected + 1) 0x3f)) then
          resp 0 0x80 ;;
          resp 1 IOLINK_ISDU_ERROR_SEGMENTATION ;;
          assign isdu_response_len 2 ;;
          assign isdu_response_idx 0 ;;
          assign isdu_state ISDU_STATE_RESPONSE_READY ;;
          assign isdu_segment_seq 0 ;;
          assign isdu_is_response_control_sent false ;;
          mret (-1)
        else
          assign isdu_segment_seq seq ;;
          assign isdu_is_segmented (negb last_seg) ;;
          next ← gets isdu_next_state;
          assign isdu_state next ;;
          mret 0
      else isdu_collect_data is_control_phase byte
  else isdu_collect_data is_control_phase byte.

(** isdu.c:782-793 iolink_isdu_get_response_byte : the control byte. *)
Definition isdu_response_control (response_idx response_len segment_seq : Z) : Z :=
  let ctrl := 0 in
  let ctrl := if decide (response_idx = 0) then Z.lor ctrl IOLINK_ISDU_CTRL_START else ctrl in
  let ctrl :=
    if decide (response_len <= u8 (response_idx + 1)) then Z.lor ctrl IOLINK_ISDU_CTRL_LAST else ctrl in
  Z.lor ctrl (u8 (Z.land segment_seq IOLINK_ISDU_CTRL_SEQ_MASK)).

(** [Some byte] is the result 1 with [*byte] stored, [None] the result 0.
    isdu.c:772-817 iolink_isdu_get_response_byte *)
Definition iolink_isdu_get_response_byte : M iolink_isdu_ctx_t (option Z) :=
  state ← gets isdu_state;
  if decide (state <> ISDU_STATE_RESPONSE_READY) then mret None else
  idx ← gets isdu_response_idx;
  len ← gets isdu_response_len;
  seq ← gets isdu_segment_seq;
  sent ← gets isdu_is_response_control_sent;
  if decide (sent = false) then
    let ctrl := isdu_response_control idx len seq in
    assign isdu_is_response_control_sent true ;;
    mret (Some ctrl)
  else if decide (idx < len) then
    buf ← gets isdu_response_buf;
    byte ← rd buf idx;
    assign isdu_response_idx (idx + 1) ;;
    (if decide (len <= idx + 1) then
       assign isdu_state ISDU_STATE_IDLE
     else
       assign isdu_is_response_control_sent false ;;
       assign isdu_segment_seq (u8 (Z.land (seq + 1) 0x3f))) ;;
    mret (Some byte)
  else
    assign isdu_state ISDU_STATE_IDLE ;;
    mret None.

(** ** Invariant *)

Definition isdu_header_wf (h : iolink_isdu_header_t) : Prop :=
  (hdr_type h = IOLINK_ISDU_SERVICE_TYPE_READ \/ hdr_type h = IOLINK_ISDU_SERVICE_TYPE_WRITE) /\
  is_u8 (hdr_length h) /\ is_u16 (hdr_index h) /\ is_u8 (hdr_subindex h).

(** The state the next data byte is taken in. *)
Definition isdu_phase (c : iolink_isdu_ctx_t) : isdu_state_t :=
  if decide (isdu_state c = ISDU_STATE_SEGMENT_COLLECT) then isdu_next_state c else isdu_state c.

(** While a request is collected the buffer index stays below the announced
    length (one byte is always taken). *)
Definition isdu_collecting (c : iolink_isdu_ctx_t) : Prop :=
  match isdu_phase c with
  | ISDU_STATE_DATA_COLLECT => isdu_buffer_idx c < Z.max 1 (hdr_length (isdu_header c))
  | ISDU_STATE_HEADER_INITIAL | ISDU_STATE_HEADER_EXT_LEN | ISDU_STATE_HEADER_INDEX_HIGH
  | ISDU_STATE_HEADER_INDEX_LOW | ISDU_STATE_HEADER_SUBINDEX => isdu_buffer_idx c = 0
  | _ => isdu_state c <> ISDU_STATE_SEGMENT_COLLECT
  end.

Definition isdu_wf (c : iolink_isdu_ctx_t) : Prop :=
  (zlen (isdu_buffer c) = 256 /\ bytes_ok (isdu_buffer c)) /\
  (zlen (isdu_response_buf c) = 256 /\ bytes_ok (isdu_response_buf c)) /\
  0 <= isdu_buffer_idx c <= 255 /\ 0 <= isdu_response_idx c /\ is_u8 (isdu_response_len c) /\
  0 <= isdu_segment_seq c < 64 /\ isdu_header_wf (isdu_header c) /\ isdu_collecting c.

(** ** Lemmas *)

Lemma land_seq z : 0 <= z -> u8 (Z.land z 0x3f) = z mod 64.
Proof.
  intros Hz. change 0x3f with (Z.ones 6). rewrite Z.land_ones by done. apply u8_small.
  change (2 ^ 6) with 64. lia.
Qed.

Lemma land_mask_range z n : 0 <= n -> 0 <= Z.land z (Z.ones n) < 2 ^ n.
Proof. intros. rewrite Z.land_ones by done. apply Z.mod_pos_bound. by apply Z.pow_pos_nonneg. Qed.

Lemma u16_index b : is_u8 b -> u16 (Z.shiftl b 8) = 256 * b.
Proof. intros Hb. rewrite Z.shiftl_mul_pow2 by done.
  change (2 ^ 8) with 256. rewrite u16_small; lia.
Qed.

Lemma wp_resp i v (Q : unit -> iolink_isdu_ctx_t -> Prop) c :
  0 <= i < zlen (isdu_response_buf c) ->
  Q tt (c<| isdu_response_buf := <[Z.to_nat i := v]> (isdu_response_buf c) |>) -> wp (resp i v) Q c.
Proof. intros Hi HQ. unfold resp. wp_steps. apply wp_wr; [done|]. by wp_steps. Qed.

Lemma wp_hdr_assign {T} (f : iolink_isdu_header_t -> T) `{!Update f} v
  (Q : unit -> iolink_isdu_ctx_t -> Prop) c :
  Q tt (c<| isdu_header := (isdu_header c)<| f := v |> |>) -> wp (hdr_assign f v) Q c.
Proof. done. Qed.

(** Symbolic execution of the transport. *)
Ltac isdu_step :=
  first
    [ wp_step
    | apply wp_hdr_assign; rec_simpl
    | apply wp_resp; [rec_simpl; rewrite ?zlen_insert; lia|]; rec_simpl
    | apply wp_wr; [rec_simpl; lia|]
    | wp_if ].

Lemma isdu_cleared_wf : isdu_wf isdu_cleared.
Proof.
  unfold isdu_wf, isdu_header_wf. split_and!; try done; try (exact (bytes_ok_replicate 256)).
  by left.
Qed.

Lemma iolink_isdu_init_eq c : iolink_isdu_init c = Done (tt, isdu_cleared).
Proof. reflexivity. Qed.

Lemma isdu_handle_idle_wf byte c :
  isdu_wf c -> is_u8 byte -> isdu_state c = ISDU_STATE_IDLE ->
  wp (isdu_handle_idle byte) (fun _ => isdu_wf) c.
Proof.
  intros (Hb & Hr & Hi & Hri & Hrl & Hs & Hh & Hc) Hbyte Hst. unfold isdu_handle_idle.
  case_decide; [wp_steps; by unfold isdu_wf|]. wp_steps.
  unfold isdu_wf, isdu_collecting, isdu_phase. rec_simpl. rewrite decide_False by done.
  rewrite land_seq by lia. split_and!; try done; try lia; apply Hb || apply Hr.
Qed.

(** The invariant of an updated context. *)
Ltac isdu_wf_solve :=
  unfold isdu_wf, isdu_header_wf, isdu_collecting, isdu_phase; rec_simpl; unfold_consts;
  repeat case_decide; rewrite ?zlen_insert;
  split_and!; try done; try lia; try tauto; try (unfold u8, u16; lia);
  repeat first [apply u8_range | apply u16_range | apply bytes_ok_insert; [tauto || idtac | lia || idtac]];
  try tauto.

Lemma isdu_collect_data_wf ctl byte c :
  isdu_wf c -> is_u8 byte ->
  isdu_state c <> ISDU_STATE_SEGMENT_COLLECT ->
  wp (isdu_collect_data ctl byte) (fun _ => isdu_wf) c.
Proof.
  intros Hwf Hbyte Hst. pose proof Hwf as (Hb & Hr & Hi & Hri & Hrl & Hs & Hh & Hc).
  unfold isdu_collect_data. wp_step. wp_step.
  unfold isdu_collecting, isdu_phase in Hc. rewrite decide_False in Hc by done.
  pose proof Hh as (Ht & Hl & Hx & Hsub).
  destruct (isdu_state c) eqn:Est; [| | | | | | | done | | |].
  - (* RESPONSE_READY is below; this is IDLE *)
    repeat isdu_step. isdu_wf_solve.
  - wp_branch; [repeat isdu_step; isdu_wf_solve|].
    wp_step. wp_branch.
    + repeat isdu_step. isdu_wf_solve.
    + wp_step. isdu_step. wp_branch; repeat isdu_step; isdu_wf_solve.
  - repeat isdu_step. isdu_wf_solve.
  - repeat isdu_step. isdu_wf_solve.
  - assert (is_u16 (Z.lor (hdr_index (isdu_header c)) byte)) by (apply (lor_bound _ _ 16); lia).
    repeat isdu_step. isdu_wf_solve.
  - repeat isdu_step. wp_branch; repeat isdu_step; isdu_wf_solve.
  - repeat isdu_step. wp_branch; repeat isdu_step; isdu_wf_solve.
  - by wp_steps.
  - wp_branch; [|by wp_steps].
    wp_steps. apply isdu_handle_idle_wf; [isdu_wf_solve | done | done].
  - by wp_steps.
Qed.

(** Case analysis on a branch the goal is about to take. *)
Ltac isdu_go := repeat (isdu_step || wp_branch).

Lemma iolink_isdu_collect_byte_wf byte c :
  isdu_wf c -> is_u8 byte -> wp (iolink_isdu_collect_byte byte) (fun _ => isdu_wf) c.
Proof.
  intros Hwf Hbyte. pose proof Hwf as (Hb & Hr & Hi & Hri & Hrl & Hs & Hh & Hc).
  pose proof Hh as (Ht & Hl & Hx & Hsub).
  unfold iolink_isdu_collect_byte. wp_step. wp_step.
  case_bool_decide as Hctl; [|apply isdu_collect_data_wf; [done..|tauto]].
  wp_branch; [repeat isdu_step; isdu_wf_solve|]. wp_step. wp_branch.
  - wp_steps. rewrite decide_True by done. apply isdu_handle_idle_wf; [isdu_wf_solve | done | done].
  - wp_steps. wp_branch; [by apply isdu_handle_idle_wf|].
    wp_branch; [|by apply isdu_collect_data_wf].
    wp_steps. wp_branch; [repeat isdu_step; isdu_wf_solve|].
    repeat isdu_step. rewrite land_seq by lia.
    unfold isdu_wf, isdu_collecting, isdu_phase in *. rec_simpl. rewrite decide_True in Hc by done.
    split_and!; try tauto; try lia. destruct (isdu_next_state c); try done; case_decide; done || tauto.
Qed.

Lemma isdu_response_control_range idx len seq : is_u8 (isdu_response_control idx len seq).
Proof.
  unfold isdu_response_control. apply u8_lor; [|apply u8_range].
  case_decide; case_decide; done.
Qed.

Lemma iolink_isdu_get_response_byte_wf c :
  isdu_wf c ->
  wp iolink_isdu_get_response_byte
     (fun r c' => isdu_wf c' /\ match r with Some b => is_u8 b | None => True end) c.
Proof.
  intros Hwf. pose proof Hwf as (Hb & Hr & Hi & Hri & Hrl & Hs & Hh & Hc).
  pose proof Hh as (Ht & Hl & Hx & Hsub). unfold isdu_collecting, isdu_phase in Hc.
  unfold iolink_isdu_get_response_byte. wp_step. wp_step.
  wp_branch; [wp_steps; by split|].
  assert (isdu_state c = ISDU_STATE_RESPONSE_READY) as Hst by (by apply dec_stable).
  wp_steps. wp_branch.
  - wp_steps. split; [isdu_wf_solve; congruence | apply isdu_response_control_range].
  - wp_branch; [|wp_steps; split; [isdu_wf_solve; congruence|done]].
    wp_steps. apply wp_rd; [lia|]. intros b Hlook. wp_steps.
    assert (is_u8 b).
    { destruct Hr as [_ Hrb]. unfold bytes_ok in Hrb. rewrite Forall_lookup in Hrb. by apply (Hrb _ _ Hlook). }
    wp_branch; repeat isdu_step; (split; [|done]); [isdu_wf_solve; congruence|].
    rewrite land_seq by lia. isdu_wf_solve; congruence.
Qed.

(** ** Requests and their segments *)

(** What a master asks for. *)
Inductive isdu_request :=
| ReadRequest (index subindex : Z)
| WriteRequest (index subindex : Z) (data : list Z).

#[export] Instance isdu_request_eq_dec : EqDecision isdu_request.
Proof. solve_decision. Defined.

(** The bytes of a request: service and length, extended length, index high and
    low, subindex, data. *)
Definition request_bytes (r : isdu_request) : list Z :=
  match r with
  | ReadRequest i s => [0x80; i / 256; i mod 256; s]
  | WriteRequest i s d =>
    (if decide (zlen d < 15) then [0x90 + zlen d] else [0x9f; zlen d]) ++
    [i / 256; i mod 256; s] ++ d
  end.

(** A control byte: start bit, last bit, sequence number. *)
Definition control_byte (start last : bool) (seq : Z) : Z :=
  (if start then 0x80 else 0) + (if last then 0x40 else 0) + seq.

(** The bytes on the wire: before each byte its control byte, numbered modulo 64
    from [seq]. *)
Fixpoint segments (start : bool) (seq : Z) (bytes : list Z) : list Z :=
  match bytes with
  | [] => []
  | b :: rest =>
    control_byte start (bool_decide (rest = [])) seq :: b :: segments false ((seq + 1) mod 64) rest
  end.

(** Feeding bytes to the engine, with the result of each call. *)
Fixpoint collect_all (bytes : list Z) : M iolink_isdu_ctx_t (list Z) :=
  match bytes with
  | [] => mret []
  | b :: bytes' => r ← iolink_isdu_collect_byte b; rs ← collect_all bytes'; mret (r :: rs)
  end.

(** Requests the engine can carry: 16-bit index, 8-bit subindex, one to 255
    bytes of data. *)
Definition request_ok (r : isdu_request) : Prop :=
  match r with
  | ReadRequest i s => is_u16 i /\ is_u8 s
  | WriteRequest i s d => is_u16 i /\ is_u8 s /\ bytes_ok d /\ 1 <= zlen d <= 255
  end.

(** The request a context holds when it is complete. *)
Definition isdu_received (c : iolink_isdu_ctx_t) : isdu_request :=
  let h := isdu_header c in
  if decide (hdr_type h = IOLINK_ISDU_SERVICE_TYPE_READ)
  then ReadRequest (hdr_index h) (hdr_subindex h)
  else WriteRequest (hdr_index h) (hdr_subindex h)
         (take (Z.to_nat (isdu_buffer_idx c)) (isdu_buffer c)).

(** What the transport never touches. *)
Definition isdu_links (c : iolink_isdu_ctx_t) :=
  (isdu_event_ctx c, isdu_ds_ctx c, isdu_dll_ctx c, isdu_reset_pending c, isdu_app_reset_pending c).

Definition isdu_at (st nx : isdu_state_t) (seq : Z) (h : iolink_isdu_header_t) (d : list Z)
  (c0 c : iolink_isdu_ctx_t) : Prop :=
  isdu_state c = st /\ isdu_next_state c = nx /\ isdu_segment_seq c = seq /\
  isdu_header c = h /\ isdu_buffer_idx c = zlen d /\ take (length d) (isdu_buffer c) = d /\
  zlen (isdu_buffer c) = 256 /\ isdu_links c = isdu_links c0.

Lemma land_80 z : is_u8 z -> Z.land z 0x80 = 0x80 * (z / 128).
Proof. apply (u8_exhaust (fun z => Z.land z 0x80 = 0x80 * (z / 128))). by vm_compute. Qed.

Lemma control_start start last seq :
  0 <= seq < 64 -> Z.land (control_byte start last seq) 0x80 = if start then 0x80 else 0.
Proof.
  intros Hs. unfold control_byte. rewrite land_80; destruct start, last; lia.
Qed.
Lemma control_seq start last seq :
  0 <= seq < 64 -> u8 (Z.land (control_byte start last seq) 0x3f) = seq.
Proof. intros Hs. unfold control_byte. rewrite land_seq; destruct start, last; lia. Qed.

(** A control byte that continues the request. *)
Lemma collect_control nx seq h d c0 c last :
  isdu_at ISDU_STATE_SEGMENT_COLLECT nx seq h d c0 c -> 0 <= seq < 64 ->
  wp (iolink_isdu_collect_byte (control_byte false last ((seq + 1) mod 64)))
     (fun r c' => r = 0 /\ isdu_at nx nx ((seq + 1) mod 64) h d c0 c') c.
Proof.
  intros (Hst & Hnx & Hseq & Hh & Hi & Hd & Hz & Hl) Hs. unfold iolink_isdu_collect_byte.
  wp_steps. rewrite Hst. rewrite bool_decide_eq_true_2 by tauto. rewrite control_start by lia.
  repeat isdu_step. rewrite control_seq by lia. rewrite Hseq, land_seq by lia. repeat isdu_step.
  split; [done|]. unfold isdu_at, isdu_links. rec_simpl. tauto.
Qed.

(** The first control byte of a request, in the two states it is awaited in. *)
Lemma collect_start seq last c :
  isdu_state c = ISDU_STATE_IDLE \/ isdu_state c = ISDU_STATE_RESPONSE_READY ->
  0 <= seq < 64 -> zlen (isdu_buffer c) = 256 ->
  wp (iolink_isdu_collect_byte (control_byte true last seq))
     (fun r c' => r = 0 /\
        isdu_at ISDU_STATE_HEADER_INITIAL (isdu_next_state c) seq (isdu_header c) [] c c') c.
Proof.
  intros Hst Hs Hz. unfold iolink_isdu_collect_byte. wp_steps.
  rewrite bool_decide_eq_true_2 by tauto. rewrite control_start by lia. unfold isdu_handle_idle.
  rewrite control_seq by lia. rewrite control_start by lia.
  destruct Hst as [Hst|Hst]; rewrite Hst; repeat isdu_step; rewrite ?Hst; repeat isdu_step;
    (split; [done|]); unfold isdu_at, isdu_links; rec_simpl; by rewrite ?Hst.
Qed.

(** A data byte, in each of the phases that take one. *)
Ltac collect_data_phase :=
  intros (Hst & Hnx & Hseq & <- & Hi & Hd & Hz & Hl); intros;
  unfold iolink_isdu_collect_byte; wp_steps; rewrite Hst;
  rewrite bool_decide_eq_false_2 by (intros [|[|]]; done);
  unfold isdu_collect_data; wp_steps; rewrite Hst; repeat isdu_step;
  unfold isdu_at, isdu_links; rec_simpl;
  unfold_consts; split_and!; try done.

Lemma byte_nibbles b :
  is_u8 b -> u8 (Z.land (Z.shiftr b 4) 0x0f) = b / 16 /\ u8 (Z.land b 0x0f) = b mod 16.
Proof.
  apply (u8_exhaust (fun b => u8 (Z.land (Z.shiftr b 4) 0x0f) = b / 16 /\ u8 (Z.land b 0x0f) = b mod 16)).
  vm_compute. done.
Qed.

Section phases.
Context (nx : isdu_state_t) (seq : Z) (h : iolink_isdu_header_t) (d : list Z).
Context (c0 c : iolink_isdu_ctx_t).
Abbreviation at_segment nx h d := (isdu_at ISDU_STATE_SEGMENT_COLLECT nx seq h d c0).

Lemma collect_initial_read :
  isdu_at ISDU_STATE_HEADER_INITIAL nx seq h [] c0 c ->
  wp (iolink_isdu_collect_byte 0x80)
     (fun r c' => r = 0 /\ at_segment ISDU_STATE_HEADER_INDEX_HIGH
        (h<| hdr_type := IOLINK_ISDU_SERVICE_TYPE_READ |><| hdr_length := 0 |>) [] c') c.
Proof. collect_data_phase. Qed.

Lemma collect_initial_write len :
  isdu_at ISDU_STATE_HEADER_INITIAL nx seq h [] c0 c -> 0 <= len < 15 ->
  wp (iolink_isdu_collect_byte (0x90 + len))
     (fun r c' => r = 0 /\ at_segment ISDU_STATE_HEADER_INDEX_HIGH
        (h<| hdr_type := IOLINK_ISDU_SERVICE_TYPE_WRITE |><| hdr_length := len |>) [] c') c.
Proof.
  intros H Hlen. assert (u8 (Z.land (Z.shiftr (0x90 + len) 4) 0x0f) = 9 /\
                         u8 (Z.land (0x90 + len) 0x0f) = len) as [H9 Hl15].
  { destruct (byte_nibbles (0x90 + len)) as [-> ->]; lia. }
  revert H. collect_data_phase. by rewrite Hl15.
Qed.

Lemma collect_initial_ext :
  isdu_at ISDU_STATE_HEADER_INITIAL nx seq h [] c0 c ->
  wp (iolink_isdu_collect_byte 0x9f)
     (fun r c' => r = 0 /\ at_segment ISDU_STATE_HEADER_EXT_LEN
        (h<| hdr_type := IOLINK_ISDU_SERVICE_TYPE_WRITE |>) [] c') c.
Proof. collect_data_phase. Qed.

Lemma collect_ext_len b :
  isdu_at ISDU_STATE_HEADER_EXT_LEN nx seq h d c0 c ->
  wp (iolink_isdu_collect_byte b)
     (fun r c' => r = 0 /\ at_segment ISDU_STATE_HEADER_INDEX_HIGH (h<| hdr_length := b |>) d c') c.
Proof. collect_data_phase. Qed.

Lemma collect_index_high b :
  isdu_at ISDU_STATE_HEADER_INDEX_HIGH nx seq h d c0 c -> is_u8 b ->
  wp (iolink_isdu_collect_byte b)
     (fun r c' => r = 0 /\ at_segment ISDU_STATE_HEADER_INDEX_LOW (h<| hdr_index := 256 * b |>) d c') c.
Proof. collect_data_phase. by rewrite u16_index. Qed.

Lemma collect_index_low b :
  isdu_at ISDU_STATE_HEADER_INDEX_LOW nx seq h d c0 c -> is_u8 b -> 256 * (hdr_index h / 256) = hdr_index h ->
  wp (iolink_isdu_collect_byte b)
     (fun r c' => r = 0 /\
        at_segment ISDU_STATE_HEADER_SUBINDEX (h<| hdr_index := hdr_index h + b |>) d c') c.
Proof.
  collect_data_phase. 
  assert (Z.lor (hdr_index (isdu_header c)) b = hdr_index (isdu_header c) + b) as ->; [|done].
  assert (hdr_index (isdu_header c) = Z.shiftl (hdr_index (isdu_header c) / 256) 8) as ->.
  { rewrite Z.shiftl_mul_pow2 by done. change (2 ^ 8) with 256. lia. }
  rewrite lor_shiftl_8 by done. rewrite Z.shiftl_mul_pow2 by done. change (2 ^ 8) with 256. lia.
Qed.

Lemma collect_subindex b :
  isdu_at ISDU_STATE_HEADER_SUBINDEX nx seq h d c0 c ->
  wp (iolink_isdu_collect_byte b)
     (fun r c' =>
        if decide (hdr_type h = IOLINK_ISDU_SERVICE_TYPE_WRITE)
        then r = 0 /\ at_segment ISDU_STATE_DATA_COLLECT (h<| hdr_subindex := b |>) d c'
        else r = 1 /\ isdu_at ISDU_STATE_SERVICE_EXECUTE nx seq (h<| hdr_subindex := b |>) d c0 c') c.
Proof.
  destruct (decide (hdr_type h = IOLINK_ISDU_SERVICE_TYPE_WRITE)); collect_data_phase.
Qed.

Lemma collect_data_byte b :
  isdu_at ISDU_STATE_DATA_COLLECT nx seq h d c0 c -> zlen d < 256 ->
  wp (iolink_isdu_collect_byte b)
     (fun r c' =>
        if decide (hdr_length h <= zlen d + 1)
        then r = 1 /\ isdu_at ISDU_STATE_SERVICE_EXECUTE nx seq h (d ++ [b]) c0 c'
        else r = 0 /\ at_segment ISDU_STATE_DATA_COLLECT h (d ++ [b]) c') c.
Proof.
  pose proof (zlen_nonneg d).
  assert (forall buf : list Z, zlen d < zlen buf -> take (length d) buf = d ->
            take (length (d ++ [b])) (<[Z.to_nat (zlen d):=b]> buf) = d ++ [b]) as Htake.
  { intros buf Hlt Hd. rewrite zlen_to_nat, length_app. cbn. rewrite Nat.add_1_r.
    rewrite (take_S_r _ _ b) by (apply list_lookup_insert_eq; unfold zlen in *; lia).
    rewrite take_insert_ge by lia. by rewrite Hd. }
  destruct (decide (hdr_length h <= zlen d + 1)); collect_data_phase;
    rewrite ?zlen_insert, ?zlen_app; rewrite ?Hi; try done; apply Htake; done || lia.
Qed.
End phases.

(** A continued byte with its control byte, then the rest. *)
Lemma wp_segment nx seq h d c0 c b rest (Q : list Z -> iolink_isdu_ctx_t -> Prop) :
  isdu_at ISDU_STATE_SEGMENT_COLLECT nx seq h d c0 c -> 0 <= seq < 64 ->
  (forall c', isdu_at nx nx ((seq + 1) mod 64) h d c0 c' ->
     wp (iolink_isdu_collect_byte b) (fun r c'' =>
       wp (collect_all (segments false (((seq + 1) mod 64 + 1) mod 64) rest))
          (fun rs => Q (0 :: r :: rs)) c'') c') ->
  wp (collect_all (segments false ((seq + 1) mod 64) (b :: rest))) Q c.
Proof.
  intros Hat Hs HQ. cbn [segments collect_all]. wp_steps.
  eapply wp_mono; [by eapply collect_control|]. intros r c' [-> Hat']. wp_steps.
  eapply wp_mono; [by apply HQ|]. intros r c'' H. wp_steps.
  eapply wp_mono; [exact H|]. intros rs c3 HQ3. by wp_steps.
Qed.

(** The first byte with its control byte, then the rest. *)
Lemma wp_first_segment seq c b rest (Q : list Z -> iolink_isdu_ctx_t -> Prop) :
  isdu_state c = ISDU_STATE_IDLE \/ isdu_state c = ISDU_STATE_RESPONSE_READY ->
  0 <= seq < 64 -> zlen (isdu_buffer c) = 256 ->
  (forall c', isdu_at ISDU_STATE_HEADER_INITIAL (isdu_next_state c) seq (isdu_header c) [] c c' ->
     wp (iolink_isdu_collect_byte b) (fun r c'' =>
       wp (collect_all (segments false ((seq + 1) mod 64) rest)) (fun rs => Q (0 :: r :: rs)) c'') c') ->
  wp (collect_all (segments true seq (b :: rest))) Q c.
Proof.
  intros Hst Hs Hz HQ. cbn [segments collect_all]. wp_steps.
  eapply wp_mono; [by eapply collect_start|]. intros r c' [-> Hat']. wp_steps.
  eapply wp_mono; [by apply HQ|]. intros r c'' H. wp_steps.
  eapply wp_mono; [exact H|]. intros rs c3 HQ3. by wp_steps.
Qed.

(** The result codes of a request: 0 until the last byte. *)
Definition collect_results (n : nat) : list Z := replicate (2 * n - 1) 0 ++ [1].

#[global] Arguments collect_results : simpl never.

Lemma collect_results_S n : (0 < n)%nat -> 0 :: 0 :: collect_results n = collect_results (S n).
Proof.
  intros Hn. unfold collect_results. replace (2 * S n - 1)%nat with (S (S (2 * n - 1))) by lia. done.
Qed.

Lemma collect_segments_data rest d seq nx h c0 c :
  rest <> [] -> nx = ISDU_STATE_DATA_COLLECT ->
  isdu_at ISDU_STATE_SEGMENT_COLLECT nx seq h d c0 c -> 0 <= seq < 64 ->
  hdr_length h = zlen d + zlen rest -> hdr_length h <= 255 ->
  wp (collect_all (segments false ((seq + 1) mod 64) rest))
     (fun rs c' => rs = collect_results (length rest) /\
        exists nx' seq', isdu_at ISDU_STATE_SERVICE_EXECUTE nx' seq' h (d ++ rest) c0 c') c.
Proof.
  intros Hne ->. revert d seq c. induction rest as [|b rest IH]; [done|].
  intros d seq c Hat Hs Hlen H255. pose proof (zlen_nonneg rest). pose proof (zlen_nonneg d).
  rewrite zlen_cons in Hlen.
  eapply wp_segment; [exact Hat | done|]. intros c' Hat'.
  eapply wp_mono; [eapply collect_data_byte; [exact Hat' | lia]|]. intros r c'' Hr; cbv beta in Hr.
  destruct rest as [|b' rest].
  - rewrite decide_True in Hr by (unfold zlen in *; cbn in *; lia). destruct Hr as [-> Hat''].
    wp_steps. split; [done|]. eauto.
  - rewrite decide_False in Hr by (rewrite zlen_cons in *; pose proof (zlen_nonneg rest); lia).
    destruct Hr as [-> Hat''].
    eapply wp_mono; [apply (IH ltac:(done) (d ++ [b]) _ _ Hat''); [lia | | done]|].
    { rewrite zlen_app. unfold zlen in *. cbn in *. lia. }
    intros rs c3 [-> H3]. rewrite <- (app_assoc d [b]) in H3. split; [|exact H3].
    rewrite collect_results_S by (cbn; lia). done.
Qed.

(** The header after its index and subindex. *)
Definition header_with (h : iolink_isdu_header_t) (i s : Z) : iolink_isdu_header_t :=
  h<| hdr_index := i |><| hdr_subindex := s |>.

Lemma collect_segments_header h i s seq c0 c rest (Q : list Z -> iolink_isdu_ctx_t -> Prop) :
  isdu_at ISDU_STATE_SEGMENT_COLLECT ISDU_STATE_HEADER_INDEX_HIGH seq h [] c0 c ->
  0 <= seq < 64 -> is_u16 i -> is_u8 s ->
  (forall c' seq',
     0 <= seq' < 64 ->
     (if decide (hdr_type h = IOLINK_ISDU_SERVICE_TYPE_WRITE)
      then isdu_at ISDU_STATE_SEGMENT_COLLECT ISDU_STATE_DATA_COLLECT seq' (header_with h i s) [] c0 c'
      else exists nx, isdu_at ISDU_STATE_SERVICE_EXECUTE nx seq' (header_with h i s) [] c0 c') ->
     wp (collect_all (segments false ((seq' + 1) mod 64) rest)) (fun rs => Q ([0; 0; 0; 0; 0;
        if decide (hdr_type h = IOLINK_ISDU_SERVICE_TYPE_WRITE) then 0 else 1] ++ rs)) c') ->
  wp (collect_all (segments false ((seq + 1) mod 64) ([i / 256; i mod 256; s] ++ rest))) Q c.
Proof.
  intros Hat Hs Hi Hsub HQ. cbn [app].
  eapply wp_segment; [exact Hat | done|]. intros c1 Hat1.
  eapply wp_mono; [eapply collect_index_high; [exact Hat1 | lia]|]. intros r c2 [-> Hat2].
  eapply wp_segment; [exact Hat2 | lia|]. intros c3 Hat3.
  eapply wp_mono; [eapply collect_index_low; [exact Hat3 | lia | rec_simpl; lia]|].
  intros r c4 [-> Hat4].
  eapply wp_segment; [exact Hat4 | lia|]. intros c5 Hat5.
  eapply wp_mono; [eapply collect_subindex; exact Hat5|]. rec_simpl.
  intros r c6 Hr; cbv beta in Hr. rec_simpl in Hr.
  assert (forall hh : iolink_isdu_header_t,
    hh<| hdr_index := 256 * (i / 256) + i mod 256 |><| hdr_subindex := s |>
    = header_with hh i s) as Hh.
  { intros hh. unfold header_with. replace (256 * (i / 256) + i mod 256) with i by lia. by destruct hh. }
  rewrite Hh in Hr.
  case_decide.
  - destruct Hr as [-> Hat6]. apply (HQ c6); [lia | exact Hat6].
  - destruct Hr as [-> Hat6]. apply (HQ c6); [lia | eauto].
Qed.

(** The context holds a request, ready to execute. *)
Definition isdu_holds (r : isdu_request) (n : nat) (c : iolink_isdu_ctx_t) (rs : list Z)
  (c' : iolink_isdu_ctx_t) : Prop :=
  rs = collect_results n /\ isdu_state c' = ISDU_STATE_SERVICE_EXECUTE /\
  isdu_received c' = r /\ isdu_links c' = isdu_links c.

Lemma collect_read_request c seq i s :
  isdu_state c = ISDU_STATE_IDLE \/ isdu_state c = ISDU_STATE_RESPONSE_READY ->
  zlen (isdu_buffer c) = 256 -> 0 <= seq < 64 -> is_u16 i -> is_u8 s ->
  wp (collect_all (segments true seq (request_bytes (ReadRequest i s))))
     (isdu_holds (ReadRequest i s) 4 c) c.
Proof.
  intros Hst Hz Hs Hi Hsub. apply wp_first_segment; [done..|]. intros c1 H1.
  eapply wp_mono; [by eapply collect_initial_read|]. intros r c2 [-> H2].
  apply (collect_segments_header _ i s _ _ _ [] _ H2); [done..|].
  rec_simpl. intros c3 seq' Hs' [nx H3]. cbn [segments collect_all]. wp_steps. unfold isdu_holds, isdu_received.
  destruct H3 as (-> & _ & _ & Hh & _ & _ & _ & Hl). rewrite Hh. by split_and!.
Qed.

(** The part of a write request after its length. *)
Lemma collect_write_tail c c2 seq h i s d (Q : list Z -> iolink_isdu_ctx_t -> Prop) :
  isdu_at ISDU_STATE_SEGMENT_COLLECT ISDU_STATE_HEADER_INDEX_HIGH seq h [] c c2 ->
  0 <= seq < 64 -> is_u16 i -> is_u8 s -> 1 <= zlen d <= 255 ->
  hdr_type h = IOLINK_ISDU_SERVICE_TYPE_WRITE -> hdr_length h = zlen d ->
  (forall c', isdu_state c' = ISDU_STATE_SERVICE_EXECUTE -> isdu_received c' = WriteRequest i s d ->
     isdu_links c' = isdu_links c -> Q (collect_results (3 + length d)) c') ->
  wp (collect_all (segments false ((seq + 1) mod 64) ([i / 256; i mod 256; s] ++ d))) Q c2.
Proof.
  intros H2 Hs Hi Hsub Hlen Ht Hl HQ.
  assert (d <> []) as Hne by (intros ->; unfold zlen in Hlen; cbn in Hlen; lia).
  apply (collect_segments_header _ i s _ _ _ d _ H2); [done..|]. rewrite Ht.
  intros c3 seq' Hs' H3. rewrite decide_True in H3 by done.
  eapply wp_mono.
  { eapply (collect_segments_data d []); [done | reflexivity | exact H3 | done | | ];
      unfold header_with; rec_simpl; rewrite Hl; try change (zlen (@nil Z)) with 0; lia. }
  intros rs c4 (-> & nx' & seq'' & H4). rewrite decide_True by done. cbn [app].
  assert (0 < length d)%nat by (destruct d; cbn; [done | lia]).
  rewrite !collect_results_S by lia. destruct H4 as (Hst & _ & _ & Hh & Hidx & Htk & _ & Hlk).
  apply HQ; [done| |done]. unfold isdu_received. rewrite Hh. cbn [app] in *.
  unfold header_with. rec_simpl. rewrite Ht. rewrite decide_False by done.
  by rewrite Hidx, zlen_to_nat, Htk.
Qed.

Lemma collect_write_request c seq i s d :
  isdu_state c = ISDU_STATE_IDLE \/ isdu_state c = ISDU_STATE_RESPONSE_READY ->
  zlen (isdu_buffer c) = 256 -> 0 <= seq < 64 -> is_u16 i -> is_u8 s -> 1 <= zlen d <= 255 ->
  wp (collect_all (segments true seq (request_bytes (WriteRequest i s d))))
     (isdu_holds (WriteRequest i s d) (length (request_bytes (WriteRequest i s d))) c) c.
Proof.
  intros Hst Hz Hs Hi Hsub Hlen. unfold isdu_holds. cbn [request_bytes].
  destruct (decide (zlen d < 15)) as [Hd|Hd]; (apply wp_first_segment; [done..|]); intros c1 H1.
  - eapply wp_mono; [eapply collect_initial_write; [exact H1 | lia]|]. intros r c2 [-> H2].
    eapply collect_write_tail; [exact H2 | done..|].
    intros c' ???. split_and!; try done. cbn. by rewrite collect_results_S by lia.
  - eapply wp_mono; [by eapply collect_initial_ext|]. intros r c2 [-> H2].
    eapply wp_segment; [exact H2 | done|]. intros c3 H3.
    eapply wp_mono; [eapply collect_ext_len; exact H3|]. intros r c4 [-> H4].
    eapply collect_write_tail; [exact H4 | lia | done..|].
    intros c' ???. split_and!; try done. cbn. by rewrite !collect_results_S by lia.
Qed.

(** ** Responses and their segments *)

(** Fetching response bytes until the engine has none, at most [n]. *)
Fixpoint drain (n : nat) : M iolink_isdu_ctx_t (list Z) :=
  match n with
  | O => mret []
  | S n' =>
    r ← iolink_isdu_get_response_byte;
    match r with
    | Some b => bs ← drain n'; mret (b :: bs)
    | None => mret []
    end
  end.

(** What the master rebuilds from the bytes it read: it checks the start bit on
    the first control byte only, the last bit on the last only, and the sequence
    numbers. *)
Fixpoint unsegment (start : bool) (seq : Z) (wire : list Z) : option (list Z) :=
  match wire with
  | [] => Some []
  | ctl :: b :: rest =>
    if decide (ctl = control_byte start (bool_decide (rest = [])) seq)
    then cons b <$> unsegment false ((seq + 1) mod 64) rest
    else None
  | [_] => None
  end.

Lemma unsegment_segments start seq bytes : unsegment start seq (segments start seq bytes) = Some bytes.
Proof.
  revert start seq. induction bytes as [|b bytes IH]; intros start seq; [done|].
  cbn [segments unsegment].
  rewrite decide_True by (f_equal; apply bool_decide_ext; by destruct bytes). by rewrite IH.
Qed.

Lemma segments_length start seq bytes : length (segments start seq bytes) = (2 * length bytes)%nat.
Proof.
  revert start seq. induction bytes as [|b l IH]; intros; [done|]. cbn [segments length]. rewrite IH. lia.
Qed.

Lemma isdu_response_control_eq idx len seq :
  0 <= idx < 255 -> 0 <= seq < 64 ->
  isdu_response_control idx len seq = control_byte (bool_decide (idx = 0)) (bool_decide (len <= idx + 1)) seq.
Proof.
  intros Hi Hs. unfold isdu_response_control, control_byte. rewrite u8_small by lia.
  change IOLINK_ISDU_CTRL_SEQ_MASK with 0x3f. rewrite land_seq, Z.mod_small by lia.
  assert (forall z, is_u8 z -> z < 64 -> Z.lor 0xc0 z = 0xc0 + z /\ Z.lor 0x80 z = 0x80 + z /\
                    Z.lor 0x40 z = 0x40 + z) as H.
  { apply (u8_exhaust (fun z => z < 64 -> Z.lor 0xc0 z = 0xc0 + z /\ Z.lor 0x80 z = 0x80 + z /\
                    Z.lor 0x40 z = 0x40 + z)). vm_compute. done. }
  destruct (H seq ltac:(lia) ltac:(lia)) as (H1 & H2 & H3).
  repeat case_decide; rewrite ?bool_decide_eq_true_2, ?bool_decide_eq_false_2 by done; done.
Qed.

(** The engine part way through its response. *)
Definition responding (idx seq : Z) (c : iolink_isdu_ctx_t) : Prop :=
  isdu_state c = ISDU_STATE_RESPONSE_READY /\ isdu_is_response_control_sent c = false /\
  isdu_response_idx c = idx /\ isdu_segment_seq c = seq.

Lemma get_control idx seq c :
  responding idx seq c ->
  wp iolink_isdu_get_response_byte
     (fun r c' => r = Some (isdu_response_control idx (isdu_response_len c) seq) /\
        c' = c<| isdu_is_response_control_sent := true |>) c.
Proof.
  intros (Hst & Hsent & <- & <-). unfold iolink_isdu_get_response_byte. repeat wp_step.
  rewrite Hst. wp_if. repeat wp_step. rewrite Hsent. wp_if. by repeat wp_step.
Qed.

Lemma get_data idx seq c b :
  responding idx seq c -> 0 <= seq < 64 -> 0 <= idx < isdu_response_len c ->
  isdu_response_buf c !! Z.to_nat idx = Some b ->
  wp iolink_isdu_get_response_byte
     (fun r c' => r = Some b /\
        isdu_response_buf c' = isdu_response_buf c /\ isdu_response_len c' = isdu_response_len c /\
        isdu_links c' = isdu_links c /\
        if decide (isdu_response_len c <= idx + 1) then isdu_state c' = ISDU_STATE_IDLE
        else responding (idx + 1) ((seq + 1) mod 64) c')
     (c<| isdu_is_response_control_sent := true |>).
Proof.
  intros (Hst & _ & <- & <-) Hs Hidx Hb. unfold iolink_isdu_get_response_byte. repeat wp_step.
  rec_simpl. rewrite Hst. wp_if. repeat wp_step. wp_if. wp_if. repeat wp_step. unfold rd.
  rec_simpl. rewrite decide_True, Hb by lia. repeat wp_step.
  destruct (decide (isdu_response_len c <= isdu_response_idx c + 1)); repeat wp_step;
    unfold responding, isdu_links; rec_simpl; rewrite ?land_seq by lia; by split_and!.
Qed.

Lemma drain_data bytes idx seq c :
  bytes <> [] -> responding idx seq c -> 0 <= seq < 64 -> 0 <= idx ->
  isdu_response_len c = idx + zlen bytes -> isdu_response_len c <= 255 ->
  take (length bytes) (drop (Z.to_nat idx) (isdu_response_buf c)) = bytes ->
  wp (drain (2 * length bytes))
     (fun out c' => out = segments (bool_decide (idx = 0)) seq bytes /\
        isdu_state c' = ISDU_STATE_IDLE /\ isdu_links c' = isdu_links c) c.
Proof.
  intros Hne. revert idx seq c. induction bytes as [|b bytes IH]; [done|].
  intros idx seq c Hresp Hs Hi Hlen H255 Htk. rewrite zlen_cons in Hlen. pose proof (zlen_nonneg bytes).
  replace (2 * length (b :: bytes))%nat with (S (S (2 * length bytes))) by (cbn; lia).
  assert (isdu_response_buf c !! Z.to_nat idx = Some b) as Hb.
  { apply (f_equal (lookup 0%nat)) in Htk. cbn [length] in Htk.
    rewrite lookup_take_lt, lookup_drop, Nat.add_0_r in Htk by lia. done. }
  cbn [drain segments]. wp_steps. eapply wp_mono; [by eapply get_control|]. intros r c1 [-> ->]. wp_steps.
  rewrite isdu_response_control_eq by lia.
  eapply wp_mono; [by eapply get_data; [done..|lia|]|].
  intros r c2 (-> & Hbuf & Hl & Hlinks & H2). cbv beta in H2. wp_steps.
  destruct bytes as [|b' bytes].
  - cbn [length]. change (2 * 0)%nat with 0%nat. cbn [drain segments].
    change (zlen (@nil Z)) with 0 in *. rewrite decide_True in H2 by lia. wp_steps.
    by rewrite (bool_decide_eq_true_2 (_ <= _)) by lia.
  - rewrite decide_False in H2 by (rewrite zlen_cons in *; pose proof (zlen_nonneg bytes); lia).
    eapply wp_mono.
    { apply (IH ltac:(done) _ _ _ H2); [lia..| rewrite Hl; lia | lia |].
      rewrite Hbuf. replace (Z.to_nat (idx + 1)) with (S (Z.to_nat idx)) by lia.
      rewrite (drop_S _ b) in Htk by done. cbn [length take] in *. by injection Htk. }
    intros out c3 (-> & Hst & Hlinks3). wp_steps. split_and!; [|done|congruence].
    rewrite (bool_decide_eq_false_2 (_ <= _))
      by (rewrite zlen_cons in *; pose proof (zlen_nonneg bytes); lia).
    rewrite (bool_decide_eq_false_2 (b' :: bytes = [])) by done.
    by rewrite (bool_decide_eq_false_2 (idx + 1 = 0)) by lia.
Qed.

(** A whole request collected. *)
Lemma isdu_collected c r seq :
  isdu_wf c -> isdu_state c = ISDU_STATE_IDLE \/ isdu_state c = ISDU_STATE_RESPONSE_READY ->
  request_ok r -> 0 <= seq < 64 ->
  exists c',
    collect_all (segments true seq (request_bytes r)) c =
      Done (collect_results (length (request_bytes r)), c') /\
    isdu_state c' = ISDU_STATE_SERVICE_EXECUTE /\ isdu_received c' = r /\
    isdu_links c' = isdu_links c.
Proof.
  intros Hwf Hst Hok Hs. pose proof Hwf as ((Hz & _) & _).
  enough (wp (collect_all (segments true seq (request_bytes r)))
            (isdu_holds r (length (request_bytes r)) c) c) as H.
  { apply wp_done in H as (rs & c' & Hrun & -> & H). eauto. }
  destruct r as [i s|i s d].
  - destruct Hok; by apply (collect_read_request c seq i s).
  - destruct Hok as (Hi & Hsub & Hd & Hlen). by apply collect_write_request.
Qed.

(** C23. Requests round-trip.  From an idle engine, or one whose response is
    pending, the segments of any request (16-bit index, 8-bit subindex, one to
    255 bytes of data, any first sequence number) are all accepted: every call
    returns 0 but the last, which returns 1, and the engine then holds exactly
    the request sent, ready to execute, with its links and reset flags
    untouched. *)
Theorem isdu_request_roundtrip c r seq :
  isdu_wf c -> isdu_state c = ISDU_STATE_IDLE \/ isdu_state c = ISDU_STATE_RESPONSE_READY ->
  request_ok r -> 0 <= seq < 64 ->
  exists c',
    collect_all (segments true seq (request_bytes r)) c =
      Done (collect_results (length (request_bytes r)), c') /\
    isdu_state c' = ISDU_STATE_SERVICE_EXECUTE /\ isdu_received c' = r /\
    isdu_links c' = isdu_links c.
Proof. apply isdu_collected. Qed.

(** C24. Responses round-trip.  A response of one to 255 bytes is fetched with
    twice as many calls: each byte is preceded by its control byte (start bit on
    the first, last bit on the last, numbered from 0 modulo 64), the engine is
    idle afterwards, and a master that checks the control bytes rebuilds the
    response. *)
Theorem isdu_response_roundtrip c :
  isdu_wf c -> isdu_state c = ISDU_STATE_RESPONSE_READY ->
  isdu_is_response_control_sent c = false -> isdu_response_idx c = 0 -> isdu_segment_seq c = 0 ->
  1 <= isdu_response_len c ->
  let bytes := take (Z.to_nat (isdu_response_len c)) (isdu_response_buf c) in
  exists wire c',
    drain (2 * Z.to_nat (isdu_response_len c)) c = Done (wire, c') /\
    unsegment true 0 wire = Some bytes /\
    length wire = (2 * Z.to_nat (isdu_response_len c))%nat /\
    isdu_state c' = ISDU_STATE_IDLE /\ isdu_links c' = isdu_links c.
Proof.
  intros Hwf Hst Hsent Hidx Hseq Hlen bytes.
  pose proof Hwf as (_ & (Hz & _) & _ & _ & Hl & _).
  assert (length bytes = Z.to_nat (isdu_response_len c)) as Hb
    by (unfold bytes, zlen in *; rewrite length_take; lia).
  pose proof (drain_data bytes 0 0 c) as H.
  assert (bytes <> []) as Hne by (intros E; rewrite E in Hb; cbn in Hb; lia).
  specialize (H Hne ltac:(done) ltac:(lia) ltac:(lia) ltac:(unfold zlen; lia) ltac:(lia)).
  rewrite Hb in H. specialize (H ltac:(done)).
  apply wp_done in H as (wire & c' & Hrun & -> & Hst' & Hlinks). do 2 eexists.
  split; [exact Hrun|]. split; [apply unsegment_segments|]. split; [|done].
  by rewrite segments_length, Hb.
Qed.

(** A pending two-byte response is fetched whole. *)
Lemma drain_error seq c code :
  responding 0 seq c -> 0 <= seq < 64 -> isdu_response_len c = 2 ->
  take 2 (isdu_response_buf c) = [0x80; code] ->
  exists wire c', drain 4 c = Done (wire, c') /\ unsegment true seq wire = Some [0x80; code] /\
    isdu_state c' = ISDU_STATE_IDLE.
Proof.
  intros Hr Hs Hl Hb.
  pose proof (drain_data [0x80; code] 0 seq c ltac:(done) Hr Hs ltac:(done) Hl ltac:(lia) Hb) as H.
  apply wp_done in H as (wire & c' & Hrun & -> & Hst & _). do 2 eexists.
  split; [exact Hrun|]. split; [apply unsegment_segments | done].
Qed.

(** An error response set up in the buffer. *)
Lemma error_prefix (buf : list Z) code :
  2 <= zlen buf -> take 2 (<[1%nat := code]> (<[0%nat := 0x80]> buf)) = [0x80; code].
Proof.
  intros H. destruct buf as [|x [|y buf]]; [by unfold zlen in H; cbn in H; lia..|]. by cbn; rewrite take_0.
Qed.

(** C32. Protocol errors of the transport.  In the middle of a request a control
    byte with the start bit makes the engine answer 0x80 0x30 (busy), and one
    whose sequence number is not the next makes it answer 0x80 0x81
    (segmentation); a first byte that is neither a read nor a write service is
    answered 0x80 0x11; in each case the master fetches that answer, numbered
    from the number shown, and the engine is idle again.  Without a start bit an
    idle engine refuses the byte and does not change. *)
Theorem isdu_protocol_errors c b :
  isdu_wf c -> is_u8 b ->
  let answers r seq code :=
    exists c' wire c'',
      iolink_isdu_collect_byte b c = Done (r, c') /\ drain 4 c' = Done (wire, c'') /\
      unsegment true seq wire = Some [0x80; code] /\ isdu_state c'' = ISDU_STATE_IDLE in
  (isdu_state c = ISDU_STATE_SEGMENT_COLLECT -> 128 <= b ->
     answers 1 (isdu_segment_seq c) IOLINK_ISDU_ERROR_BUSY) /\
  (isdu_state c = ISDU_STATE_SEGMENT_COLLECT -> b < 128 ->
     b mod 64 <> (isdu_segment_seq c + 1) mod 64 -> answers (-1) 0 IOLINK_ISDU_ERROR_SEGMENTATION) /\
  (isdu_state c = ISDU_STATE_HEADER_INITIAL -> isdu_is_response_control_sent c = false ->
     b / 16 <> 8 -> b / 16 <> 9 ->
     answers (-1) (isdu_segment_seq c) IOLINK_ISDU_ERROR_SERVICE_NOT_AVAIL) /\
  (isdu_state c = ISDU_STATE_IDLE -> b < 128 -> iolink_isdu_collect_byte b c = Done (-1, c)).
Proof.
  intros Hwf Hb answers. pose proof Hwf as (_ & (Hz & _) & _ & _ & _ & Hs & _ & _).
  pose proof (land_80 b Hb) as Hstart.
  assert (forall r seq code,
    wp (iolink_isdu_collect_byte b) (fun r' c' => r' = r /\ responding 0 seq c' /\
      isdu_response_len c' = 2 /\
      isdu_response_buf c' = <[1%nat := code]> (<[0%nat := 0x80]> (isdu_response_buf c))) c ->
    0 <= seq < 64 -> answers r seq code) as Hans.
  { intros r seq code H Hseq. apply wp_done in H as (r' & c' & Hrun & -> & Hresp & Hl & Hbuf).
    destruct (drain_error seq c' code) as (wire & c'' & ? & ? & ?); [done..| |].
    { rewrite Hbuf. apply error_prefix. lia. }
    by exists c', wire, c''. }
  split_and!; intros Hst; intros.
  - apply Hans; [|done]. unfold iolink_isdu_collect_byte. wp_steps. rewrite Hst.
    rewrite bool_decide_eq_true_2 by tauto. rewrite Hstart. repeat isdu_step.
    unfold responding. rec_simpl. by split_and!.
  - apply Hans; [|done]. unfold iolink_isdu_collect_byte. wp_steps. rewrite Hst.
    rewrite bool_decide_eq_true_2 by tauto. rewrite Hstart, land_seq by lia. repeat isdu_step.
    rewrite ?Hst. repeat isdu_step. rewrite land_seq by lia. repeat isdu_step.
    unfold responding. rec_simpl. by split_and!.
  - apply Hans; [|done]. unfold iolink_isdu_collect_byte. wp_steps. rewrite Hst.
    rewrite bool_decide_eq_false_2 by (intros [|[|]]; done). unfold isdu_collect_data. wp_steps.
    rewrite Hst. destruct (byte_nibbles b Hb) as [-> _]. repeat isdu_step.
    unfold responding. rec_simpl. by split_and!.
  - apply wp_exact. unfold iolink_isdu_collect_byte. wp_steps. rewrite Hst.
    rewrite bool_decide_eq_true_2 by tauto. rewrite Hstart. repeat isdu_step.
    rewrite ?Hst. repeat isdu_step. unfold isdu_handle_idle.
    change IOLINK_ISDU_CTRL_START with 0x80. rewrite Hstart. by repeat isdu_step.
Qed.

(** A write of length zero is not complete after its subindex: the engine
    waits for a data byte, and executes the request with that byte as its data. *)
Theorem isdu_zero_length_write c seq i s b :
  isdu_wf c -> isdu_state c = ISDU_STATE_IDLE -> 0 <= seq < 64 -> is_u16 i -> is_u8 s ->
  (exists c', collect_all (segments true seq [0x90; i / 256; i mod 256; s]) c =
     Done (replicate 8 0, c') /\ isdu_state c' = ISDU_STATE_SEGMENT_COLLECT) /\
  (exists c', collect_all (segments true seq [0x90; i / 256; i mod 256; s; b]) c =
     Done (collect_results 5, c') /\ isdu_state c' = ISDU_STATE_SERVICE_EXECUTE /\
     isdu_received c' = WriteRequest i s [b]).
Proof.
  intros Hwf Hst Hs Hi Hsub. pose proof Hwf as ((Hz & _) & _).
  assert (forall rest (Q : list Z -> iolink_isdu_ctx_t -> Prop),
    (forall c3 seq', 0 <= seq' < 64 ->
       isdu_at ISDU_STATE_SEGMENT_COLLECT ISDU_STATE_DATA_COLLECT seq'
         (header_with ((isdu_header c)<| hdr_type := IOLINK_ISDU_SERVICE_TYPE_WRITE |><| hdr_length := 0 |>) i s)
         [] c c3 ->
       wp (collect_all (segments false ((seq' + 1) mod 64) rest)) (fun rs => Q (replicate 8 0 ++ rs)) c3) ->
    wp (collect_all (segments true seq ([0x90; i / 256; i mod 256; s] ++ rest))) Q c) as Hrun.
  { intros rest Q HQ. apply wp_first_segment; [by left | done..|]. intros c1 H1.
    eapply wp_mono; [eapply (collect_initial_write _ _ _ _ _ 0); [exact H1 | lia]|]. intros r c2 [-> H2].
    apply (collect_segments_header _ i s _ _ _ rest _ H2); [done..|]. rec_simpl. exact HQ. }
  split.
  - enough (wp (collect_all (segments true seq [0x90; i / 256; i mod 256; s]))
      (fun rs c' => rs = replicate 8 0 /\ isdu_state c' = ISDU_STATE_SEGMENT_COLLECT) c) as H.
    { apply wp_done in H as (rs & c' & Hr & -> & H). eauto. }
    apply (Hrun []). intros c3 seq' Hs' (H3 & _). cbn [segments collect_all]. by wp_steps.
  - enough (wp (collect_all (segments true seq [0x90; i / 256; i mod 256; s; b]))
      (fun rs c' => rs = collect_results 5 /\ isdu_state c' = ISDU_STATE_SERVICE_EXECUTE /\
         isdu_received c' = WriteRequest i s [b]) c) as H.
    { apply wp_done in H as (rs & c' & Hr & -> & H). eauto. }
    apply (Hrun [b]). intros c3 seq' Hs' H3. eapply wp_segment; [exact H3 | done|]. intros c4 H4.
    eapply wp_mono; [eapply collect_data_byte; [exact H4 | done]|]. intros r c5 H5. cbv beta in H5.
    rewrite decide_True in H5 by done. destruct H5 as [-> (H5 & _ & _ & Hh & Hi' & Hd & _)].
    cbn [segments collect_all]. wp_steps. split_and!; [done | done|]. unfold isdu_received.
    rewrite Hh, Hi'. unfold header_with. rec_simpl. rewrite decide_False by done.
    cbn in Hd. change (Z.to_nat (zlen ([] ++ [b]))) with 1%nat. by rewrite Hd.
Qed.

(** ** Witnesses *)

Lemma isdu_request_roundtrip_witness :
  let r := WriteRequest 0x0018 0 [80; 117; 109; 112] in
  exists c', collect_all (segments true 0 (request_bytes r)) isdu_cleared =
      Done (collect_results (length (request_bytes r)), c') /\
    isdu_state c' = ISDU_STATE_SERVICE_EXECUTE /\ isdu_received c' = r /\
    isdu_links c' = isdu_links isdu_cleared.
Proof.
  exact (isdu_request_roundtrip isdu_cleared (WriteRequest 0x0018 0 [80; 117; 109; 112]) 0
           isdu_cleared_wf (or_introl eq_refl)
           ltac:(vm_compute; repeat (constructor || split || done)) ltac:(done)).
Defined.

(** A context with the response 7, 9 pending. *)
Definition isdu_demo_response : iolink_isdu_ctx_t :=
  isdu_cleared<| isdu_state := ISDU_STATE_RESPONSE_READY |><| isdu_response_len := 2 |>
    <| isdu_response_buf := 7 :: 9 :: replicate 254 0 |>.

Lemma isdu_demo_response_wf : isdu_wf isdu_demo_response.
Proof.
  unfold isdu_wf, isdu_header_wf. split_and!; try done; try (exact (bytes_ok_replicate 256)); [|by left].
  constructor; [done|]. constructor; [done|]. exact (bytes_ok_replicate 254).
Qed.

Lemma isdu_response_roundtrip_witness :
  exists wire c', drain 4 isdu_demo_response = Done (wire, c') /\ unsegment true 0 wire = Some [7; 9].
Proof.
  destruct (isdu_response_roundtrip isdu_demo_response isdu_demo_response_wf eq_refl eq_refl eq_refl
              eq_refl ltac:(done)) as (wire & c' & H1 & H2 & _).
  exists wire, c'. split; [exact H1 | exact H2].
Defined.

Lemma isdu_protocol_errors_witness :
  exists c' wire c'',
    iolink_isdu_collect_byte 0xa0
      (isdu_cleared<| isdu_state := ISDU_STATE_HEADER_INITIAL |>) = Done (-1, c') /\
    drain 4 c' = Done (wire, c'') /\
    unsegment true 0 wire = Some [0x80; IOLINK_ISDU_ERROR_SERVICE_NOT_AVAIL] /\
    isdu_state c'' = ISDU_STATE_IDLE.
Proof.
  refine (proj1 (proj2 (proj2 (isdu_protocol_errors
            (isdu_cleared<| isdu_state := ISDU_STATE_HEADER_INITIAL |>) 0xa0 _ _))) _ _ _ _); try done.
  unfold isdu_wf, isdu_header_wf. split_and!; try done; try (exact (bytes_ok_replicate 256)). by left.
Defined.

Lemma isdu_zero_length_write_witness :
  exists c', collect_all (segments true 0 [0x90; 0; 0x18; 0]) isdu_cleared = Done (replicate 8 0, c') /\
    isdu_state c' = ISDU_STATE_SEGMENT_COLLECT.
Proof.
  exact (proj1 (isdu_zero_length_write isdu_cleared 0 0x18 0 0 isdu_cleared_wf eq_refl
           ltac:(done) ltac:(done) ltac:(done))).
Defined.
