(* ===== verification/IsduServices.v ===== *)
(** * The ISDU services (isdu.c, middle part)

    What a complete request does: the identification strings, the tags, the
    device status, the system commands, the access locks and the error
    statistics.  The services reach every other component through the back links
    of the ISDU context; [isdu_world] is the state behind them. *)
From S2P Require Export Events DataStorage DeviceInfo Params Isdu.
#[local] Open Scope Z_scope.

(** ** Data *)

(** dll.h:121-134 iolink_dll_stats_t *)
Record iolink_dll_stats_t := mk_dll_stats {
  st_crc_errors : Z;
  st_timeout_errors : Z;
  st_framing_errors : Z;
  st_timing_errors : Z;
  st_t_ren_violations : Z;
  st_t_cycle_violations : Z;
  st_t_byte_violations : Z;
  st_t_pd_violations : Z;
  st_total_retries : Z;
  st_voltage_faults : Z;
  st_short_circuits : Z
}.

Section services.
Context {W : Type} `{!Platform W}.

(** The ISDU context and what it is linked to: the events behind [event_ctx],
    the Data Storage behind [ds_ctx], the counters behind [dll_ctx] (as
    [iolink_dll_get_stats] copies them), the parameter manager and the device
    information. *)
Record isdu_world := mk_isdu_world {
  iw_isdu : iolink_isdu_ctx_t;
  iw_events : iolink_events_ctx_t;
  iw_ds : iolink_ds_ctx_t;
  iw_stats : iolink_dll_stats_t;
  iw_env : params_env W
}.

#[export] Instance eta_isdu_world : Eta isdu_world := fun r =>
  mk_isdu_world (iw_isdu r) (iw_events r) (iw_ds r) (iw_stats r) (iw_env r).
#[export] Instance update_iw_isdu : Update iw_isdu := ltac:(derive_update).
#[export] Instance update_iw_events : Update iw_events := ltac:(derive_update).
#[export] Instance update_iw_ds : Update iw_ds := ltac:(derive_update).
#[export] Instance update_iw_env : Update iw_env := ltac:(derive_update).

Definition iw_isdu_lens : lens isdu_world iolink_isdu_ctx_t := Lens iw_isdu (fun c s => s<| iw_isdu := c |>).
Definition on_isdu {A} : M iolink_isdu_ctx_t A -> M isdu_world A := zoom iw_isdu_lens.
Definition iw_events_lens : lens isdu_world iolink_events_ctx_t := Lens iw_events (fun c s => s<| iw_events := c |>).
Definition on_events {A} : M iolink_events_ctx_t A -> M isdu_world A := zoom iw_events_lens.
Definition iw_ds_lens : lens isdu_world iolink_ds_ctx_t := Lens iw_ds (fun c s => s<| iw_ds := c |>).
Definition on_ds {A} : M iolink_ds_ctx_t A -> M isdu_world A := zoom iw_ds_lens.
Definition iw_env_lens : lens isdu_world (params_env W) := Lens iw_env (fun c s => s<| iw_env := c |>).
Definition on_params {A} : M (params_env W) A -> M isdu_world A := zoom iw_env_lens.
Definition on_info {A} (m : M info_globals A) : M isdu_world A := on_params (zoom pe_info_lens m).

(** *** Writing a response *)

(** [response_buf[i] = v0; response_buf[i + 1] = v1; ...] *)
Fixpoint resp_from (i : Z) (bytes : list Z) : M iolink_isdu_ctx_t unit :=
  match bytes with
  | [] => mret tt
  | v :: bytes' => resp i v ;; resp_from (i + 1) bytes'
  end.

(** [response_len = n; response_idx = 0; state = ISDU_STATE_RESPONSE_READY;] *)
Definition ready (n : Z) : M iolink_isdu_ctx_t unit :=
  assign isdu_response_len n ;;
  assign isdu_response_idx 0 ;;
  assign isdu_state ISDU_STATE_RESPONSE_READY.

(** The same with [segment_seq = 0;]. *)
Definition ready_seq0 (n : Z) : M iolink_isdu_ctx_t unit :=
  ready n ;; assign isdu_segment_seq 0.

(** [response_buf[0] = 0x80; response_buf[1] = code; response_len = 2;] *)
Definition isdu_error (code : Z) : M iolink_isdu_ctx_t unit :=
  resp_from 0 [0x80; code] ;; assign isdu_response_len 2.

(** The bytes of a big-endian number. *)
Definition be16 (z : Z) : list Z := [u8 (Z.shiftr z 8); u8 (Z.land z 0xff)].
Definition be32 (z : Z) : list Z :=
  [u8 (Z.shiftr z 24); u8 (Z.shiftr z 16); u8 (Z.shiftr z 8); u8 (Z.land z 0xff)].

(** isdu.c:406-420 handle_mandatory_indices : the switch on the event type. *)
Definition event_qualifier (type : iolink_event_type_t) : Z :=
  match type with
  | IOLINK_EVENT_TYPE_NOTIFICATION => 0x40
  | IOLINK_EVENT_TYPE_WARNING => 0x80
  | IOLINK_EVENT_TYPE_ERROR => 0xc0
  | IOLINK_EVENT_TYPE_INVALID _ => 0
  end.

(** isdu.c:624-638 handle_detailed_device_status : the qualifier of one entry. *)
Definition status_qualifier (type : iolink_event_type_t) : Z :=
  let qualifier := 0x80 in
  let qualifier :=
    match type with
    | IOLINK_EVENT_TYPE_NOTIFICATION => Z.lor qualifier (Z.shiftl 0x01 3)
    | IOLINK_EVENT_TYPE_WARNING => Z.lor qualifier (Z.shiftl 0x02 3)
    | IOLINK_EVENT_TYPE_ERROR => Z.lor qualifier (Z.shiftl 0x03 3)
    | IOLINK_EVENT_TYPE_INVALID _ => qualifier
    end in
  Z.lor qualifier 0x02.

(** [event_ctx] as an argument of the event functions, which do nothing but
    return [dflt] on NULL. *)
Definition if_event_ctx {A} (dflt : A) (m : M iolink_events_ctx_t A) : M isdu_world A :=
  linked ← on_isdu (gets isdu_event_ctx);
  if decide (linked = true) then on_events m else mret dflt.

(** One tag: the write branch stores [buffer] with persistence, the read branch
    copies the tag to [response_buf]; [false] when neither answered (the
    [break] of the switch).
    isdu.c:296-364 handle_mandatory_indices *)
Definition handle_tag (index : Z) (done : Z -> M iolink_isdu_ctx_t unit) : M isdu_world bool :=
  h ← on_isdu (gets isdu_header);
  if decide (hdr_type h = IOLINK_ISDU_SERVICE_TYPE_WRITE) then
    buf ← on_isdu (gets isdu_buffer);
    idx ← on_isdu (gets isdu_buffer_idx);
    r ← on_params (iolink_params_set index 0 (Some buf) idx true);
    if decide (r = 0) then on_isdu (done 0) ;; mret true else mret false
  else
    rbuf ← on_isdu (gets isdu_response_buf);
    res ← on_params (iolink_params_get index 0 (Some rbuf) IOLINK_ISDU_BUFFER_SIZE);
    on_isdu (assign isdu_response_buf (snd res)) ;;
    if decide (0 <= fst res) then on_isdu (done (u8 (fst res))) ;; mret true else mret false.

(** isdu.c:456-465 handle_mandatory_indices : the string of the index. *)
Definition respond_string (str_data : option (list Z)) : M iolink_isdu_ctx_t unit :=
  match str_data with
  | None => mret tt
  | Some str =>
    len_sz ← strlen str;
    let len_sz := if decide (256 < len_sz) then 256 else len_sz in
    src ← slice str 0 len_sz;
    buf ← gets isdu_response_buf;
    buf ← blit buf 0 src;
    assign isdu_response_buf buf ;;
    ready (u8 len_sz)
  end.

(** A [switch] on an index as a list of cases and the default. *)
Fixpoint switch {A} (index : Z) (cases : list (Z * A)) (default : A) : A :=
  match cases with
  | [] => default
  | (i, m) :: cases' => if decide (index = i) then m else switch index cases' default
  end.

(** isdu.c:226-466 handle_mandatory_indices *)
Definition handle_mandatory_indices : M isdu_world unit :=
  p ← on_info iolink_device_info_get;
  g ← gets (fun s => pe_info (iw_env s));
  match info_target g p with
  | None => on_isdu (isdu_error 0x11 ;; ready_seq0 2)
  | Some info =>
    h ← on_isdu (gets isdu_header);
    let str (f : iolink_device_info_t -> char_ptr) :=
      on_isdu (respond_string (char_target g (f info))) in
    let tag (index : Z) (done : Z -> M iolink_isdu_ctx_t unit) :=
      handle_tag index done ;; on_isdu (respond_string None) in
    switch (hdr_index h)
      [ (IOLINK_IDX_VENDOR_ID,
         on_isdu (resp_from 0 (be16 (di_vendor_id info)) ;; ready_seq0 2));
        (IOLINK_IDX_DEVICE_ID,
         on_isdu (resp_from 0 (be32 (di_device_id info)) ;; ready_seq0 4));
        (IOLINK_IDX_PROFILE_CHARACTERISTIC,
         on_isdu (resp_from 0 (be16 (di_profile_characteristic info)) ;; ready_seq0 2));
        (IOLINK_IDX_VENDOR_NAME, str di_vendor_name);
        (IOLINK_IDX_VENDOR_TEXT, str di_vendor_text);
        (IOLINK_IDX_PRODUCT_NAME, str di_product_name);
        (IOLINK_IDX_PRODUCT_ID, str di_product_id);
        (IOLINK_IDX_PRODUCT_TEXT, str di_product_text);
        (IOLINK_IDX_SERIAL_NUMBER, str di_serial_number);
        (IOLINK_IDX_HARDWARE_REVISION, str di_hardware_revision);
        (IOLINK_IDX_FIRMWARE_REVISION, str di_firmware_revision);
        (IOLINK_IDX_APPLICATION_TAG, tag IOLINK_IDX_APPLICATION_TAG ready_seq0);
        (IOLINK_IDX_FUNCTION_TAG, tag IOLINK_IDX_FUNCTION_TAG ready_seq0);
        (IOLINK_IDX_LOCATION_TAG, tag IOLINK_IDX_LOCATION_TAG ready);
        (IOLINK_IDX_PDIN_DESCRIPTOR,
         if decide (hdr_type h = IOLINK_ISDU_SERVICE_TYPE_WRITE) then
           on_isdu (isdu_error IOLINK_ISDU_ERROR_WRITE_PROTECTED ;; ready 2)
         else on_isdu (resp_from 0 [2] ;; ready 1));
        (IOLINK_IDX_DEVICE_STATUS,
         sev ← if_event_ctx 0 iolink_events_get_highest_severity;
         on_isdu (resp_from 0 [sev] ;; ready 1));
        (IOLINK_IDX_DETAILED_DEVICE_STATUS,
         events ← if_event_ctx [] (iolink_events_get_all 8);
         let count := zlen events in
         on_isdu
           (if decide (count = 0) then assign isdu_response_len 0
            else
              for_up (length events) 0 (fun i =>
                ev ← rd events i;
                resp_from (i * 3) (event_qualifier (ev_type ev) :: be16 (ev_code ev))) ;;
              assign isdu_response_len (u8 (count * 3))) ;;
         on_isdu (assign isdu_response_idx 0 ;; assign isdu_state ISDU_STATE_RESPONSE_READY));
        (IOLINK_IDX_REVISION_ID, on_isdu (resp_from 0 (be16 (di_revision_id info)) ;; ready 2));
        (IOLINK_IDX_MIN_CYCLE_TIME, on_isdu (resp_from 0 [di_min_cycle_time info] ;; ready 1)) ]
      (on_isdu (isdu_error IOLINK_ISDU_ERROR_SERVICE_NOT_AVAIL ;; ready 2))
  end.

(** isdu.c:468-573 handle_system_command *)
Definition handle_system_command (cmd : Z) : M isdu_world unit :=
  let success := on_isdu (ready 0) in
  let refuse code := on_isdu (isdu_error code ;; ready 2) in
  let if_ds_ctx (m : M isdu_world unit) :=
    linked ← on_isdu (gets isdu_ds_ctx); if decide (linked = true) then m else success in
  let ds_command :=
    if_ds_ctx
      (locks ← on_info iolink_device_info_get_access_locks;
       ret ← on_ds (iolink_ds_handle_command cmd locks);
       if decide (ret = 0) then success
       else if decide (ret = -1) then refuse IOLINK_ISDU_ERROR_BUSY
       else if decide (ret = -2) then refuse IOLINK_ISDU_ERROR_WRITE_PROTECTED
       else refuse IOLINK_ISDU_ERROR_SERVICE_NOT_AVAIL) in
  switch cmd
    [ (IOLINK_CMD_DEVICE_RESET, on_isdu (assign isdu_reset_pending true) ;; success);
      (IOLINK_CMD_APPLICATION_RESET, on_isdu (assign isdu_app_reset_pending true) ;; success);
      (IOLINK_CMD_RESTORE_FACTORY_SETTINGS, on_params iolink_params_factory_reset ;; success);
      (IOLINK_CMD_RESTORE_APP_DEFAULTS, on_params iolink_params_factory_reset ;; success);
      (IOLINK_CMD_SET_COMM_MODE, success);
      (IOLINK_CMD_PARAM_DOWNLOAD_START, ds_command);
      (IOLINK_CMD_PARAM_DOWNLOAD_END, ds_command);
      (IOLINK_CMD_PARAM_UPLOAD_START, ds_command);
      (IOLINK_CMD_PARAM_UPLOAD_END, ds_command);
      (IOLINK_CMD_PARAM_UPLOAD,
       if_ds_ctx (ret ← on_ds iolink_ds_start_upload;
                  if decide (ret <> 0) then refuse IOLINK_ISDU_ERROR_BUSY else success));
      (IOLINK_CMD_PARAM_DOWNLOAD,
       if_ds_ctx (ret ← on_ds iolink_ds_start_download;
                  if decide (ret <> 0) then refuse IOLINK_ISDU_ERROR_BUSY else success));
      (IOLINK_CMD_PARAM_BREAK, if_ds_ctx (on_ds iolink_ds_abort ;; success)) ]
    (refuse IOLINK_ISDU_ERROR_SERVICE_NOT_AVAIL).

(** isdu.c:575-593 handle_access_locks *)
Definition handle_access_locks : M isdu_world unit :=
  h ← on_isdu (gets isdu_header);
  (if decide (hdr_type h = IOLINK_ISDU_SERVICE_TYPE_READ) then
     locks ← on_info iolink_device_info_get_access_locks;
     on_isdu (resp_from 0 (be16 locks) ;; assign isdu_response_len 2)
   else
     idx ← on_isdu (gets isdu_buffer_idx);
     when (2 <= idx)
       (buf ← on_isdu (gets isdu_buffer);
        b0 ← rd buf 0;
        b1 ← rd buf 1;
        on_info (iolink_device_info_set_access_locks (u16 (Z.lor (Z.shiftl (u16 b0) 8) b1)))) ;;
     on_isdu (assign isdu_response_len 0)) ;;
  on_isdu (assign isdu_response_idx 0 ;; assign isdu_state ISDU_STATE_RESPONSE_READY).

(** isdu.c:595-648 handle_detailed_device_status *)
Definition handle_detailed_device_status : M isdu_world unit :=
  h ← on_isdu (gets isdu_header);
  if decide (hdr_type h <> IOLINK_ISDU_SERVICE_TYPE_READ) then
    on_isdu (isdu_error IOLINK_ISDU_ERROR_WRITE_PROTECTED)
  else
  linked ← on_isdu (gets isdu_event_ctx);
  if decide (linked = false) then on_isdu (assign isdu_response_len 0) else
  iolink_critical_enter ;;
  event_ctx ← gets iw_events;
  let count := evq_count event_ctx in
  let count := if decide (8 < count) then 8 else count in
  for_up (Z.to_nat count) 0 (fun i =>
    let idx := u8 ((evq_head event_ctx + i) mod IOLINK_EVENT_QUEUE_SIZE) in
    ev ← rd (evq_queue event_ctx) idx;
    on_isdu (resp_from (i * 3) (status_qualifier (ev_type ev) :: be16 (ev_code ev)))) ;;
  on_isdu (ready (u8 (count * 3))) ;;
  iolink_critical_exit.

(** isdu.c:650-656 isdu_write_u32_be : the buffer and the index afterwards. *)
Definition isdu_write_u32_be (idx value : Z) : M iolink_isdu_ctx_t Z :=
  resp idx (u8 (Z.land (Z.shiftr value 24) 0xff)) ;;
  resp (idx + 1) (u8 (Z.land (Z.shiftr value 16) 0xff)) ;;
  resp (idx + 2) (u8 (Z.land (Z.shiftr value 8) 0xff)) ;;
  resp (idx + 3) (u8 (Z.land value 0xff)) ;;
  mret (idx + 4).

(** isdu.c:658-692 handle_error_stats *)
Definition handle_error_stats : M isdu_world unit :=
  h ← on_isdu (gets isdu_header);
  if decide (hdr_type h <> IOLINK_ISDU_SERVICE_TYPE_READ) then
    on_isdu (isdu_error IOLINK_ISDU_ERROR_WRITE_PROTECTED)
  else if decide (hdr_subindex h <> 0) then
    on_isdu (isdu_error IOLINK_ISDU_ERROR_SUBINDEX_NOT_AVAIL)
  else
  linked ← on_isdu (gets isdu_dll_ctx);
  if decide (linked = false) then on_isdu (isdu_error IOLINK_ISDU_ERROR_SERVICE_NOT_AVAIL) else
  stats ← gets iw_stats;
  on_isdu
    (idx ← isdu_write_u32_be 0 (st_crc_errors stats);
     idx ← isdu_write_u32_be idx (st_timeout_errors stats);
     idx ← isdu_write_u32_be idx (st_framing_errors stats);
     idx ← isdu_write_u32_be idx (st_timing_errors stats);
     ready (u8 idx)).

(** isdu.c:694-745 handle_standard_commands *)
Definition handle_standard_commands : M isdu_world unit :=
  h ← on_isdu (gets isdu_header);
  if decide (hdr_index h = IOLINK_IDX_SYSTEM_COMMAND) then
    if decide (hdr_type h = IOLINK_ISDU_SERVICE_TYPE_WRITE) then
      idx ← on_isdu (gets isdu_buffer_idx);
      if decide (0 < idx) then
        buf ← on_isdu (gets isdu_buffer);
        cmd ← rd buf 0;
        handle_system_command cmd
      else on_isdu (isdu_error IOLINK_ISDU_ERROR_SERVICE_NOT_AVAIL ;; ready 2)
    else
      ev ← if_event_ctx None iolink_events_pop;
      on_isdu
        (match ev with
         | Some e => resp_from 0 (be16 (ev_code e)) ;; assign isdu_response_len 2
         | None => resp_from 0 [0; 0] ;; assign isdu_response_len 2
         end ;;
         assign isdu_response_idx 0 ;; assign isdu_state ISDU_STATE_RESPONSE_READY)
  else if decide (hdr_index h = IOLINK_IDX_DEVICE_ACCESS_LOCKS) then handle_access_locks
  else if decide (hdr_index h = IOLINK_IDX_DETAILED_DEVICE_STATUS) then handle_detailed_device_status
  else if decide (hdr_index h = IOLINK_IDX_ERROR_STATS) then
    handle_error_stats ;;
    on_isdu (assign isdu_response_idx 0 ;; assign isdu_state ISDU_STATE_RESPONSE_READY)
  else handle_mandatory_indices.

(** isdu.c:747-770 iolink_isdu_process *)
Definition iolink_isdu_process : M isdu_world unit :=
  state ← on_isdu (gets isdu_state);
  if decide (state = ISDU_STATE_BUSY) then mret tt else
  when (state = ISDU_STATE_SERVICE_EXECUTE)
    (handle_standard_commands ;;
     state ← on_isdu (gets isdu_state);
     if decide (state <> ISDU_STATE_RESPONSE_READY) then
       on_isdu (assign isdu_state ISDU_STATE_IDLE)
     else
       on_isdu (assign isdu_segment_seq 0 ;; assign isdu_is_response_control_sent false)).
End services.
#[global] Arguments isdu_world W : clear implicits.

(** ** Invariant *)

Definition iw_wf {W} (s : isdu_world W) : Prop :=
  isdu_wf (iw_isdu s) /\ evq_wf (iw_events s) /\ params_wf (iw_env s).

(** ** The contract of the services: the response to a request *)

Section contract.
Context {W : Type}.
Implicit Types s : isdu_world W.

(** The first [n] characters a one-byte response length can announce. *)
Definition string_response (str : list Z) : list Z :=
  take (Z.to_nat (u8 (Z.min (zlen str) 256))) str.

(** The device information in use. *)
Definition world_info s : option iolink_device_info_t :=
  let g := info_selected (pe_info (iw_env s)) in info_target g (g_device_info g).

Definition world_string (p : char_ptr) s : option (list Z) :=
  string_response ∘ c_string <$> char_target (info_selected (pe_info (iw_env s))) p.

Definition status_entry (e : iolink_event_t) : list Z :=
  status_qualifier (ev_type e) :: be16 (ev_code e).

(** Identification data, whatever the service. *)
Definition identification_response (index : Z) (i : iolink_device_info_t) s : option (list Z) :=
  switch index
    [ (IOLINK_IDX_VENDOR_ID, Some (be16 (di_vendor_id i)));
      (IOLINK_IDX_DEVICE_ID, Some (be32 (di_device_id i)));
      (IOLINK_IDX_PROFILE_CHARACTERISTIC, Some (be16 (di_profile_characteristic i)));
      (IOLINK_IDX_VENDOR_NAME, world_string (di_vendor_name i) s);
      (IOLINK_IDX_VENDOR_TEXT, world_string (di_vendor_text i) s);
      (IOLINK_IDX_PRODUCT_NAME, world_string (di_product_name i) s);
      (IOLINK_IDX_PRODUCT_ID, world_string (di_product_id i) s);
      (IOLINK_IDX_PRODUCT_TEXT, world_string (di_product_text i) s);
      (IOLINK_IDX_SERIAL_NUMBER, world_string (di_serial_number i) s);
      (IOLINK_IDX_HARDWARE_REVISION, world_string (di_hardware_revision i) s);
      (IOLINK_IDX_FIRMWARE_REVISION, world_string (di_firmware_revision i) s);
      (IOLINK_IDX_DEVICE_STATUS,
       Some [if isdu_event_ctx (iw_isdu s) then max_severity (evq_abs (iw_events s)) else 0]);
      (IOLINK_IDX_REVISION_ID, Some (be16 (di_revision_id i)));
      (IOLINK_IDX_MIN_CYCLE_TIME, Some [di_min_cycle_time i]) ]
    (Some [0x80; IOLINK_ISDU_ERROR_SERVICE_NOT_AVAIL]).

(** Read requests. *)
Definition read_response (index subindex : Z) s : option (list Z) :=
  switch index
    [ (IOLINK_IDX_SYSTEM_COMMAND,
       Some (match (if isdu_event_ctx (iw_isdu s) then head (evq_abs (iw_events s)) else None) with
             | Some e => be16 (ev_code e)
             | None => [0; 0]
             end));
      (IOLINK_IDX_DEVICE_ACCESS_LOCKS, be16 ∘ di_access_locks <$> world_info s);
      (IOLINK_IDX_DETAILED_DEVICE_STATUS,
       if isdu_event_ctx (iw_isdu s)
       then Some (evq_abs (iw_events s) ≫= status_entry) else None);
      (IOLINK_IDX_ERROR_STATS,
       Some (if decide (subindex <> 0) then [0x80; IOLINK_ISDU_ERROR_SUBINDEX_NOT_AVAIL]
             else if isdu_dll_ctx (iw_isdu s) then
               be32 (st_crc_errors (iw_stats s)) ++ be32 (st_timeout_errors (iw_stats s)) ++
               be32 (st_framing_errors (iw_stats s)) ++ be32 (st_timing_errors (iw_stats s))
             else [0x80; IOLINK_ISDU_ERROR_SERVICE_NOT_AVAIL]));
      (IOLINK_IDX_APPLICATION_TAG, string_response <$> params_tag index (iw_env s));
      (IOLINK_IDX_FUNCTION_TAG, string_response <$> params_tag index (iw_env s));
      (IOLINK_IDX_LOCATION_TAG, string_response <$> params_tag index (iw_env s));
      (IOLINK_IDX_PDIN_DESCRIPTOR, Some [2]) ]
    (i ← world_info s; identification_response index i s).

(** System commands. *)
Definition ds_command_response (cmd : Z) s : list Z :=
  let locks := default 0 (di_access_locks <$> world_info s) in
  match iolink_ds_handle_command cmd locks (iw_ds s) with
  | Done (r, _) =>
    if decide (r = 0) then []
    else if decide (r = -1) then [0x80; IOLINK_ISDU_ERROR_BUSY]
    else if decide (r = -2) then [0x80; IOLINK_ISDU_ERROR_WRITE_PROTECTED]
    else [0x80; IOLINK_ISDU_ERROR_SERVICE_NOT_AVAIL]
  | Fault _ => []
  end.

Definition command_response (cmd : Z) s : list Z :=
  if decide (cmd ∈ [IOLINK_CMD_PARAM_DOWNLOAD_START; IOLINK_CMD_PARAM_DOWNLOAD_END;
                    IOLINK_CMD_PARAM_UPLOAD_START; IOLINK_CMD_PARAM_UPLOAD_END])
  then if isdu_ds_ctx (iw_isdu s) then ds_command_response cmd s else []
  else if decide (cmd = IOLINK_CMD_PARAM_UPLOAD \/ cmd = IOLINK_CMD_PARAM_DOWNLOAD)
  then if decide (isdu_ds_ctx (iw_isdu s) = true /\ ds_state (iw_ds s) <> IOLINK_DS_STATE_IDLE)
       then [0x80; IOLINK_ISDU_ERROR_BUSY] else []
  else if decide (cmd ∈ [IOLINK_CMD_DEVICE_RESET; IOLINK_CMD_APPLICATION_RESET;
                         IOLINK_CMD_RESTORE_FACTORY_SETTINGS; IOLINK_CMD_RESTORE_APP_DEFAULTS;
                         IOLINK_CMD_SET_COMM_MODE; IOLINK_CMD_PARAM_BREAK])
  then []
  else [0x80; IOLINK_ISDU_ERROR_SERVICE_NOT_AVAIL].

(** Write requests; [None] is a request the engine drops without an answer. *)
Definition write_response (index : Z) (data : list Z) s : option (list Z) :=
  switch index
    [ (IOLINK_IDX_SYSTEM_COMMAND,
       Some (match data with
             | cmd :: _ => command_response cmd s
             | [] => [0x80; IOLINK_ISDU_ERROR_SERVICE_NOT_AVAIL]
             end));
      (IOLINK_IDX_DEVICE_ACCESS_LOCKS, Some []);
      (IOLINK_IDX_DETAILED_DEVICE_STATUS, None);
      (IOLINK_IDX_ERROR_STATS, Some [0x80; IOLINK_ISDU_ERROR_WRITE_PROTECTED]);
      (IOLINK_IDX_APPLICATION_TAG,
       if decide (params_accepts index 0 (zlen data) (selected_env (iw_env s))) then Some [] else None);
      (IOLINK_IDX_FUNCTION_TAG, Some []);
      (IOLINK_IDX_LOCATION_TAG, Some []);
      (IOLINK_IDX_PDIN_DESCRIPTOR, Some [0x80; IOLINK_ISDU_ERROR_WRITE_PROTECTED]) ]
    (i ← world_info s; identification_response index i s).

Definition service_response (r : isdu_request) s : option (list Z) :=
  match r with
  | ReadRequest index subindex => read_response index subindex s
  | WriteRequest index _ data => write_response index data s
  end.
End contract.

(** ** Lemmas on responses *)

(** A context that has [bytes] to send. *)
Definition isdu_pending (bytes : list Z) (c : iolink_isdu_ctx_t) : Prop :=
  isdu_state c = ISDU_STATE_RESPONSE_READY /\ isdu_response_idx c = 0 /\
  isdu_response_len c = zlen bytes /\ take (length bytes) (isdu_response_buf c) = bytes.

Definition isdu_replied (bytes : list Z) (c c' : iolink_isdu_ctx_t) : Prop :=
  isdu_wf c' /\ isdu_links c' = isdu_links c /\ isdu_pending bytes c'.

Lemma overwrite_insert (buf : list Z) i v bytes :
  (i + S (length bytes) <= length buf)%nat ->
  take (S i) (<[i:=v]> buf) ++ bytes ++ drop (S i + length bytes) (<[i:=v]> buf) =
  take i buf ++ (v :: bytes) ++ drop (i + length (v :: bytes)) buf.
Proof.
  intros H. rewrite (take_S_r _ _ v) by (apply list_lookup_insert_eq; lia).
  rewrite take_insert_ge by lia. rewrite drop_insert_lt by lia. rewrite <- app_assoc. cbn [app length].
  do 4 f_equal. lia.
Qed.

Lemma wp_resp_from i bytes (Q : unit -> iolink_isdu_ctx_t -> Prop) c :
  0 <= i -> i + zlen bytes <= zlen (isdu_response_buf c) ->
  Q tt (c<| isdu_response_buf :=
              take (Z.to_nat i) (isdu_response_buf c) ++ bytes ++
              drop (Z.to_nat i + length bytes) (isdu_response_buf c) |>) ->
  wp (resp_from i bytes) Q c.
Proof.
  revert i c. induction bytes as [|v bytes IH]; intros i c Hi Hlen HQ; cbn [resp_from].
  - wp_steps. cbn [app length] in HQ. rewrite Nat.add_0_r, take_drop in HQ. by destruct c.
  - rewrite zlen_cons in Hlen. pose proof (zlen_nonneg bytes).
    wp_steps. apply wp_resp; [lia|].
    apply IH; rec_simpl; [lia | rewrite zlen_insert; lia|].
    replace (Z.to_nat (i + 1)) with (S (Z.to_nat i)) by lia.
    rewrite overwrite_insert by (unfold zlen in *; lia). exact HQ.
Qed.

Lemma bytes_ok_overwrite (buf bytes : list Z) i :
  bytes_ok buf -> bytes_ok bytes ->
  bytes_ok (take i buf ++ bytes ++ drop (i + length bytes) buf).
Proof.
  intros. apply Forall_app. split; [by apply Forall_take|]. apply Forall_app. split; [done|].
  by apply Forall_drop.
Qed.

(** An updated context that has its response ready is well formed. *)
Lemma isdu_replied_intro c c' bytes :
  isdu_wf c -> isdu_links c' = isdu_links c ->
  isdu_buffer c' = isdu_buffer c -> isdu_buffer_idx c' = isdu_buffer_idx c ->
  isdu_header c' = isdu_header c -> 0 <= isdu_segment_seq c' < 64 ->
  zlen (isdu_response_buf c') = 256 -> bytes_ok (isdu_response_buf c') ->
  zlen bytes <= 255 -> isdu_pending bytes c' -> isdu_replied bytes c c'.
Proof.
  intros (Hb & Hr & Hi & Hri & Hrl & Hs & Hh & Hc) Hl Hbuf Hidx Hhdr Hseq Hz Hok H255 Hp.
  pose proof Hp as (Hst & Hri' & Hlen & Htk). pose proof (zlen_nonneg bytes).
  split; [|done]. unfold isdu_wf, isdu_collecting, isdu_phase.
  rewrite Hbuf, Hidx, Hhdr, Hst, Hri', Hlen. rewrite decide_False by done.
  split_and!; try done; try lia; apply Hb || apply Hi.
Qed.

(** Storing [bytes] at the front of the buffer and making them ready, with or
    without the reset of the sequence number. *)
Lemma replied_front c bytes seq :
  isdu_wf c -> bytes_ok bytes -> zlen bytes <= 255 -> 0 <= seq < 64 ->
  isdu_replied bytes c
    (c<| isdu_response_buf := bytes ++ drop (length bytes) (isdu_response_buf c) |>
      <| isdu_response_len := zlen bytes |><| isdu_response_idx := 0 |>
      <| isdu_state := ISDU_STATE_RESPONSE_READY |><| isdu_segment_seq := seq |>).
Proof.
  intros Hwf Hok H255 Hseq. pose proof Hwf as (_ & (Hz & Hb) & _).
  apply isdu_replied_intro; try done; rec_simpl.
  - pose proof (zlen_blit (isdu_response_buf c) bytes 0 ltac:(lia) ltac:(lia)) as H. change (Z.to_nat 0) with 0%nat in H.
    rewrite take_0 in H. cbn [app Nat.add] in H. lia.
  - by apply (bytes_ok_overwrite _ _ 0).
  - unfold isdu_pending. rec_simpl. by rewrite take_app_length.
Qed.

Lemma wp_respond bytes n c (Q : unit -> iolink_isdu_ctx_t -> Prop) :
  isdu_wf c -> bytes_ok bytes -> zlen bytes <= 255 -> n = zlen bytes ->
  (forall c', isdu_replied bytes c c' -> Q tt c') ->
  wp (resp_from 0 bytes ;; ready n) Q c.
Proof.
  intros Hwf Hok H255 -> HQ. pose proof Hwf as (_ & (Hz & _) & _ & _ & _ & Hs & _).
  wp_steps. apply wp_resp_from; [lia..|]. unfold ready. wp_steps. apply HQ.
  change (Z.to_nat 0) with 0%nat. rewrite take_0. cbn [app Nat.add].
  pose proof (replied_front c bytes (isdu_segment_seq c) Hwf Hok H255 Hs) as H.
  by destruct c.
Qed.

Lemma wp_respond_seq0 bytes n c (Q : unit -> iolink_isdu_ctx_t -> Prop) :
  isdu_wf c -> bytes_ok bytes -> zlen bytes <= 255 -> n = zlen bytes ->
  (forall c', isdu_replied bytes c c' -> Q tt c') ->
  wp (resp_from 0 bytes ;; ready_seq0 n) Q c.
Proof.
  intros Hwf Hok H255 -> HQ. pose proof Hwf as (_ & (Hz & _) & _).
  wp_steps. apply wp_resp_from; [lia..|]. unfold ready_seq0, ready. wp_steps. apply HQ.
  change (Z.to_nat 0) with 0%nat. rewrite take_0. cbn [app Nat.add].
  by apply replied_front.
Qed.

Lemma be16_ok z : bytes_ok (be16 z).
Proof. repeat constructor; apply u8_range. Qed.
Lemma be32_ok z : bytes_ok (be32 z).
Proof. repeat constructor; apply u8_range. Qed.

(** ** The contract, continued: what a request changes *)

Section effects.
Context {W : Type} `{!Platform W}.
Implicit Types s : isdu_world W.

(** The state a computation that cannot fail leaves. *)
Definition exec {S A} (m : M S A) (x : S) : S :=
  match m x with Done (_, x') => x' | Fault _ => x end.

Definition ds_commands : list Z :=
  [IOLINK_CMD_PARAM_DOWNLOAD_START; IOLINK_CMD_PARAM_DOWNLOAD_END;
   IOLINK_CMD_PARAM_UPLOAD_START; IOLINK_CMD_PARAM_UPLOAD_END].

(** The parameters and the device information after a system command. *)
Definition command_env (cmd : Z) s : params_env W :=
  if decide (cmd = IOLINK_CMD_RESTORE_FACTORY_SETTINGS \/ cmd = IOLINK_CMD_RESTORE_APP_DEFAULTS)
  then exec iolink_params_factory_reset (iw_env s)
  else if decide (cmd ∈ ds_commands /\ isdu_ds_ctx (iw_isdu s) = true) then selected_env (iw_env s)
  else iw_env s.

Definition service_env (r : isdu_request) s : params_env W :=
  match r with
  | ReadRequest index _ =>
    if decide (index ∈ [IOLINK_IDX_SYSTEM_COMMAND; IOLINK_IDX_DETAILED_DEVICE_STATUS;
                        IOLINK_IDX_ERROR_STATS])
    then iw_env s else selected_env (iw_env s)
  | WriteRequest index _ data =>
    let write :=
      if decide (params_accepts index 0 (zlen data) (selected_env (iw_env s)))
      then params_written index data (zlen data) true (selected_env (iw_env s))
      else selected_env (iw_env s) in
    switch index
      [ (IOLINK_IDX_SYSTEM_COMMAND,
         match data with cmd :: _ => command_env cmd s | [] => iw_env s end);
        (IOLINK_IDX_DEVICE_ACCESS_LOCKS,
         match data with
         | b0 :: b1 :: _ =>
           (iw_env s)<| pe_info :=
             exec (iolink_device_info_set_access_locks (256 * b0 + b1)) (pe_info (iw_env s)) |>
         | _ => iw_env s
         end);
        (IOLINK_IDX_DETAILED_DEVICE_STATUS, iw_env s);
        (IOLINK_IDX_ERROR_STATS, iw_env s);
        (IOLINK_IDX_APPLICATION_TAG, write);
        (IOLINK_IDX_FUNCTION_TAG, write);
        (IOLINK_IDX_LOCATION_TAG, write) ]
      (selected_env (iw_env s))
  end.

(** The Data Storage state after a system command. *)
Definition command_ds (cmd : Z) s : iolink_ds_ctx_t :=
  if decide (isdu_ds_ctx (iw_isdu s) = false) then iw_ds s
  else if decide (cmd ∈ ds_commands) then
    exec (iolink_ds_handle_command cmd (default 0 (di_access_locks <$> world_info s))) (iw_ds s)
  else if decide (cmd = IOLINK_CMD_PARAM_UPLOAD) then exec iolink_ds_start_upload (iw_ds s)
  else if decide (cmd = IOLINK_CMD_PARAM_DOWNLOAD) then exec iolink_ds_start_download (iw_ds s)
  else if decide (cmd = IOLINK_CMD_PARAM_BREAK) then exec iolink_ds_abort (iw_ds s)
  else iw_ds s.

(** The command a request carries. *)
Definition request_command (r : isdu_request) : option Z :=
  match r with
  | WriteRequest index _ (cmd :: _) => if decide (index = IOLINK_IDX_SYSTEM_COMMAND) then Some cmd else None
  | _ => None
  end.

Definition service_ds (r : isdu_request) s : iolink_ds_ctx_t :=
  match request_command r with Some cmd => command_ds cmd s | None => iw_ds s end.

Definition service_events (r : isdu_request) s : list iolink_event_t :=
  let q := evq_abs (iw_events s) in
  match r with
  | ReadRequest index _ =>
    if decide (index = IOLINK_IDX_SYSTEM_COMMAND /\ isdu_event_ctx (iw_isdu s) = true) then tail q else q
  | _ => q
  end.

(** The links and the two reset flags. *)
Definition service_links (r : isdu_request) (c : iolink_isdu_ctx_t) :=
  (isdu_event_ctx c, isdu_ds_ctx c, isdu_dll_ctx c,
   if decide (request_command r = Some IOLINK_CMD_DEVICE_RESET) then true else isdu_reset_pending c,
   if decide (request_command r = Some IOLINK_CMD_APPLICATION_RESET) then true
   else isdu_app_reset_pending c).

(** The outcome of a service: a well-formed state with the response pending
    (or none), and exactly the changes announced. *)
Definition serviced resp links q d v s s' : Prop :=
  isdu_wf (iw_isdu s') /\ evq_wf (iw_events s') /\ isdu_links (iw_isdu s') = links /\
  evq_abs (iw_events s') = q /\ iw_ds s' = d /\ iw_env s' = v /\ iw_stats s' = iw_stats s /\
  match resp with
  | Some bytes => isdu_pending bytes (iw_isdu s')
  | None => isdu_state (iw_isdu s') <> ISDU_STATE_RESPONSE_READY
  end.

Lemma wp_on_isdu {A} (m : M iolink_isdu_ctx_t A) Q s :
  wp m (fun a c => Q a (s<| iw_isdu := c |>)) (iw_isdu s) -> wp (on_isdu m) Q s.
Proof. intros H. exact (wp_zoom iw_isdu_lens m Q s H). Qed.
Lemma wp_on_events {A} (m : M iolink_events_ctx_t A) Q s :
  wp m (fun a c => Q a (s<| iw_events := c |>)) (iw_events s) -> wp (on_events m) Q s.
Proof. intros H. exact (wp_zoom iw_events_lens m Q s H). Qed.
Lemma wp_on_ds {A} (m : M iolink_ds_ctx_t A) Q s :
  wp m (fun a c => Q a (s<| iw_ds := c |>)) (iw_ds s) -> wp (on_ds m) Q s.
Proof. intros H. exact (wp_zoom iw_ds_lens m Q s H). Qed.
Lemma wp_on_params {A} (m : M (params_env W) A) Q s :
  wp m (fun a c => Q a (s<| iw_env := c |>)) (iw_env s) -> wp (on_params m) Q s.
Proof. intros H. exact (wp_zoom iw_env_lens m Q s H). Qed.
Lemma wp_on_info {A} (m : M info_globals A) (Q : A -> isdu_world W -> Prop) s :
  wp m (fun a g => Q a (s<| iw_env := (iw_env s)<| pe_info := g |> |>)) (pe_info (iw_env s)) ->
  wp (on_info m) Q s.
Proof. intros H. apply wp_on_params. exact (wp_zoom pe_info_lens m _ _ H). Qed.

(** Reading a field of the ISDU context. *)
Lemma wp_isdu_gets {A} (f : iolink_isdu_ctx_t -> A) (Q : A -> isdu_world W -> Prop) s :
  Q (f (iw_isdu s)) s -> wp (on_isdu (gets f)) Q s.
Proof. intros HQ. apply wp_on_isdu. wp_steps. by destruct s. Qed.

(** A response written by the code on the context alone. *)
Lemma wp_on_isdu_reply (m : M iolink_isdu_ctx_t unit) bytes links s s0 q d v :
  (forall Q : unit -> iolink_isdu_ctx_t -> Prop,
     (forall c', isdu_replied bytes (iw_isdu s) c' -> Q tt c') -> wp m Q (iw_isdu s)) ->
  evq_wf (iw_events s) -> isdu_links (iw_isdu s) = links ->
  evq_abs (iw_events s) = q -> iw_ds s = d -> iw_env s = v ->
  iw_stats s = iw_stats s0 ->
  wp (on_isdu m) (fun _ => serviced (Some bytes) links q d v s0) s.
Proof.
  intros Hm He <- <- <- <- Hst. apply wp_on_isdu, Hm. intros c' (Hwf & Hl & Hp).
  unfold serviced. rec_simpl. by split_and!.
Qed.
End effects.

(** Steps of the service handlers. *)
Ltac sv_step :=
  first
    [ lazymatch goal with |- wp (on_isdu (gets _)) _ _ => apply wp_isdu_gets end
    | wp_step
    | wp_if ].
