(* ===== verification/IsduContract.v ===== *)
(** * The ISDU services implement their contract

    Each handler of [IsduServices] is run symbolically against the response and
    the effect its contract announces; the theorems at the end are the
    refinement, the safety of the services, and a tag written and read back
    through the wire. *)
From S2P Require Export IsduServices.
#[local] Open Scope Z_scope.

Section handlers.
Context {W : Type} `{!Platform W}.
Implicit Types s : isdu_world W.

Lemma switch_hit {A} i m cases (d : A) : switch i ((i, m) :: cases) d = m.
Proof. cbn. by rewrite decide_True. Qed.
Lemma switch_miss {A} index i m cases (d : A) :
  index <> i -> switch index ((i, m) :: cases) d = switch index cases d.
Proof. intros. cbn. by rewrite decide_False. Qed.

(** A response stored first and made ready at the end of the handler. *)
Lemma wp_respond_late bytes n c (Q : unit -> iolink_isdu_ctx_t -> Prop) :
  isdu_wf c -> bytes_ok bytes -> zlen bytes <= 255 -> n = zlen bytes ->
  (forall c', isdu_replied bytes c c' -> Q tt c') ->
  wp ((resp_from 0 bytes ;; assign isdu_response_len n) ;;
      assign isdu_response_idx 0 ;; assign isdu_state ISDU_STATE_RESPONSE_READY) Q c.
Proof.
  intros Hwf Hok H255 Hn HQ. apply wp_bind, wp_bind.
  exact (wp_bind_inv _ _ _ _ (wp_respond bytes n c Q Hwf Hok H255 Hn HQ)).
Qed.

Lemma wp_isdu_error code c (Q : unit -> iolink_isdu_ctx_t -> Prop) :
  isdu_wf c -> is_u8 code ->
  (forall c', isdu_replied [0x80; code] c c' -> Q tt c') ->
  wp (isdu_error code ;; ready 2) Q c.
Proof.
  intros Hwf Hc HQ. pose proof Hwf as (_ & (Hz & _) & _ & _ & _ & Hs & _).
  unfold isdu_error, ready. wp_steps. apply wp_resp_from; [done | rewrite Hz; done|]. wp_steps. apply HQ.
  pose proof (replied_front c [0x80; code] (isdu_segment_seq c) Hwf ltac:(auto with bytes) ltac:(done) Hs).
  by destruct c.
Qed.

(** Two computations on the context in sequence. *)
Lemma wp_on_isdu_seq {A} (m : M iolink_isdu_ctx_t unit) (k : M iolink_isdu_ctx_t A) Q s :
  wp (on_isdu (m ;; k)) Q s -> wp (on_isdu m ;; on_isdu k) Q s.
Proof.
  destruct s as [c e d st v]. unfold wp, on_isdu, zoom, iw_isdu_lens, mbind, M_bind. cbn [view iw_isdu].
  destruct (m c) as [[[] c1]|]; [|done]. cbn [put]. rec_simpl.
  by destruct (k c1) as [[? c2]|].
Qed.

Lemma be32_land v :
  [u8 (Z.land (Z.shiftr v 24) 0xff); u8 (Z.land (Z.shiftr v 16) 0xff);
   u8 (Z.land (Z.shiftr v 8) 0xff); u8 (Z.land v 0xff)] = be32 v.
Proof. unfold be32. rewrite !land_ff. unfold u8. rewrite !Z.mod_mod by done. done. Qed.

(** A number written with [isdu_write_u32_be] is its four bytes stored. *)
Lemma wp_write_u32 {A} idx v rest (k : Z -> M iolink_isdu_ctx_t A) R Q c :
  (forall c', wp (resp_from (idx + 4) rest) R c' -> wp (k (idx + 4)) Q c') ->
  wp (resp_from idx (be32 v ++ rest)) R c ->
  wp (i ← isdu_write_u32_be idx v; k i) Q c.
Proof.
  intros Hk H. unfold isdu_write_u32_be. rewrite <- be32_land in H. cbn [resp_from app] in H.
  rewrite <- !Z.add_assoc in H. apply wp_bind.
  do 4 (apply wp_bind; eapply wp_mono; [exact (wp_bind_inv _ _ _ _ H)|]; clear H; intros [] ? H).
  apply wp_ret, Hk. exact H.
Qed.

(** The four counters in the response. *)
Lemma wp_stats a b c d x (Q : unit -> iolink_isdu_ctx_t -> Prop) :
  isdu_wf x ->
  (forall x', isdu_replied (be32 a ++ be32 b ++ be32 c ++ be32 d) x x' -> Q tt x') ->
  wp (idx ← isdu_write_u32_be 0 a; idx ← isdu_write_u32_be idx b;
      idx ← isdu_write_u32_be idx c; idx ← isdu_write_u32_be idx d; ready (u8 idx)) Q x.
Proof.
  intros Hwf HQ.
  pose proof (wp_respond (be32 a ++ be32 b ++ be32 c ++ be32 d) 16 x Q Hwf) as H.
  specialize (H ltac:(auto using be32_ok with bytes) ltac:(done) ltac:(done) HQ).
  apply wp_bind_inv in H. rewrite <- (app_nil_r (be32 d)) in H. revert H.
  do 4 (apply wp_write_u32; intros ?). cbn [resp_from]. by intros ?%wp_ret.
Qed.

Lemma handle_error_stats_spec s s0 :
  iw_wf s -> iw_stats s = iw_stats s0 ->
  wp (handle_error_stats ;;
      on_isdu (assign isdu_response_idx 0 ;; assign isdu_state ISDU_STATE_RESPONSE_READY))
     (fun _ => serviced
        (Some (if decide (hdr_type (isdu_header (iw_isdu s)) <> IOLINK_ISDU_SERVICE_TYPE_READ)
               then [0x80; IOLINK_ISDU_ERROR_WRITE_PROTECTED]
               else if decide (hdr_subindex (isdu_header (iw_isdu s)) <> 0)
               then [0x80; IOLINK_ISDU_ERROR_SUBINDEX_NOT_AVAIL]
               else if isdu_dll_ctx (iw_isdu s) then
                 be32 (st_crc_errors (iw_stats s)) ++ be32 (st_timeout_errors (iw_stats s)) ++
                 be32 (st_framing_errors (iw_stats s)) ++ be32 (st_timing_errors (iw_stats s))
               else [0x80; IOLINK_ISDU_ERROR_SERVICE_NOT_AVAIL]))
        (isdu_links (iw_isdu s)) (evq_abs (iw_events s)) (iw_ds s) (iw_env s) s0) s.
Proof.
  intros (Hwf & He & _) Hst. unfold handle_error_stats.
  assert (forall code, is_u8 code ->
    wp (on_isdu (isdu_error code) ;;
        on_isdu (assign isdu_response_idx 0 ;; assign isdu_state ISDU_STATE_RESPONSE_READY))
     (fun _ => serviced (Some [0x80; code])
        (isdu_links (iw_isdu s)) (evq_abs (iw_events s)) (iw_ds s) (iw_env s) s0) s) as Herr.
  { intros code Hcode.
    assert (forall s1 Q, wp (on_isdu (isdu_error code ;; assign isdu_response_idx 0 ;;
        assign isdu_state ISDU_STATE_RESPONSE_READY)) Q s1 ->
      wp (on_isdu (isdu_error code) ;; on_isdu (assign isdu_response_idx 0 ;;
        assign isdu_state ISDU_STATE_RESPONSE_READY)) Q s1) as H.
    { intros. by apply wp_on_isdu_seq. }
    apply H. eapply wp_on_isdu_reply; try done. intros. apply wp_respond_late; auto with bytes. done. }
  repeat sv_step. case_decide as Hty; [refine (wp_bind_inv _ _ _ _ (Herr _ _)); done|].
  case_decide as Hsub; [refine (wp_bind_inv _ _ _ _ (Herr _ _)); done|].
  repeat sv_step. destruct (isdu_dll_ctx (iw_isdu s));
    [|rewrite decide_True by done; refine (wp_bind_inv _ _ _ _ (Herr _ _)); done].
  rewrite decide_False by done. repeat sv_step.
  apply (wp_bind_inv (on_isdu _)), wp_on_isdu_seq.
  eapply wp_on_isdu_reply; try done. intros Q HQ. apply wp_bind, wp_stats; [done|]. intros c' Hc'.
  wp_steps. apply HQ. destruct Hc' as (Hwf' & Hl & Hst' & Hidx & Hlen & Htk).
  assert (c'<| isdu_response_idx := 0 |><| isdu_state := ISDU_STATE_RESPONSE_READY |> = c') as ->
    by (destruct c'; cbn in *; by subst).
  done.
Qed.

Lemma status_entry_ok e : bytes_ok (status_entry e).
Proof.
  unfold status_entry. apply bytes_ok_cons; [|apply be16_ok]. by destruct (ev_type e).
Qed.

Lemma entries_cons (entry : iolink_event_t -> list Z) e q : (e :: q) ≫= entry = entry e ++ (q ≫= entry).
Proof. done. Qed.

Lemma entries_length (entry : iolink_event_t -> list Z) q :
  (forall e, zlen (entry e) = 3) -> zlen (q ≫= entry) = 3 * zlen q.
Proof.
  intros H. induction q as [|e q IH]; [done|]. rewrite entries_cons, zlen_app, IH, zlen_cons, H. lia.
Qed.

Lemma status_entries_ok q : bytes_ok (q ≫= status_entry).
Proof.
  induction q as [|e q IH]; [constructor|]. rewrite entries_cons.
  apply bytes_ok_app; [apply status_entry_ok | exact IH].
Qed.

(** Appending at the end of what was already stored at the front. *)
Lemma overwrite_append (buf l l' : list Z) n :
  n = length l -> take n (l ++ drop n buf) ++ l' ++ drop (n + length l') (l ++ drop n buf) =
  (l ++ l') ++ drop (length (l ++ l')) buf.
Proof.
  intros ->. rewrite take_app_length, <- app_assoc, drop_app_ge, length_app by lia.
  rewrite drop_drop. do 3 f_equal. lia.
Qed.

(** The loop that stores one entry per event. *)
Lemma wp_status_loop (entry : iolink_event_t -> list Z) s (body : Z -> M (isdu_world W) unit)
  (Q : unit -> isdu_world W -> Prop) :
  let q := evq_abs (iw_events s) in
  let stored q := (q ≫= entry) ++ drop (length (q ≫= entry)) (isdu_response_buf (iw_isdu s)) in
  let put l := s<| iw_isdu := (iw_isdu s)<| isdu_response_buf := l |> |> in
  evq_wf (iw_events s) ->
  (forall e, zlen (entry e) = 3) -> zlen (isdu_response_buf (iw_isdu s)) = 256 ->
  (forall i, 0 <= i < evq_count (iw_events s) ->
     body i = (ev ← rd (evq_queue (iw_events s))
                      (u8 ((evq_head (iw_events s) + i) mod IOLINK_EVENT_QUEUE_SIZE));
               on_isdu (resp_from (i * 3) (entry ev)))) ->
  Q tt (put (stored q)) ->
  wp (for_up (Z.to_nat (evq_count (iw_events s))) 0 body) Q s.
Proof.
  intros q stored put He Hentry Hz Hbody HQ. pose proof (evq_abs_length _ He) as Hlen. fold q in Hlen.
  pose proof He as (_ & _ & Hcount & _). unfold IOLINK_EVENT_QUEUE_SIZE in Hcount.
  apply (wp_for_up (fun i s' => s' = put (stored (take (Z.to_nat i) q)))).
  - change (Z.to_nat 0) with 0%nat. rewrite take_0. unfold stored, put. cbn. by destruct s as [[] ? ? ? ?].
  - intros i s' Hi ->. rewrite Hbody by lia. apply wp_bind, wp_rd_slot; [done | lia|].
    apply wp_on_isdu. unfold put. rec_simpl.
    pose proof (entries_length entry (take (Z.to_nat i) q) Hentry) as Hl. rewrite zlen_take in Hl by lia.
    apply wp_resp_from; [lia|rec_simpl; unfold stored|].
    { rewrite zlen_app, Hl, Hentry. unfold zlen in *. rewrite length_drop. lia. }
    rec_simpl. unfold stored.
    assert (Z.to_nat (i * 3) = length (take (Z.to_nat i) q ≫= entry)) as -> by (unfold zlen in *; lia).
    rewrite overwrite_append by done.
    pose proof (evq_abs_take_S (iw_events s) i ltac:(lia)) as Htk. fold q in Htk.
    rewrite Htk, bind_app. cbn [mbind list_bind].
    rewrite app_nil_r. done.
  - intros s' ->. replace (0 + _) with (zlen q) by lia. rewrite zlen_to_nat, firstn_all. exact HQ.
Qed.

(** A context whose response buffer changed, its state not. *)
Lemma isdu_wf_response_buf c buf len :
  isdu_wf c -> zlen buf = 256 -> bytes_ok buf -> is_u8 len ->
  isdu_wf (c<| isdu_response_buf := buf |><| isdu_response_len := len |>).
Proof.
  intros (Hb & Hr & Hi & Hri & Hrl & Hs & Hh & Hc) Hz Hok Hl.
  unfold isdu_wf, isdu_collecting, isdu_phase in *. by rec_simpl; split_and!; try tauto.
Qed.

Lemma handle_detailed_device_status_spec s s0 :
  iw_wf s -> iw_stats s = iw_stats s0 -> isdu_state (iw_isdu s) = ISDU_STATE_SERVICE_EXECUTE ->
  wp handle_detailed_device_status
     (fun _ => serviced
        (if decide (hdr_type (isdu_header (iw_isdu s)) <> IOLINK_ISDU_SERVICE_TYPE_READ) then None
         else if isdu_event_ctx (iw_isdu s) then Some (evq_abs (iw_events s) ≫= status_entry) else None)
        (isdu_links (iw_isdu s)) (evq_abs (iw_events s)) (iw_ds s) (iw_env s) s0) s.
Proof.
  intros (Hwf & He & _) Hst Hex. unfold handle_detailed_device_status. repeat sv_step.
  pose proof Hwf as (_ & (Hz & Hb) & _ & _ & Hl & Hseq & _).
  pose proof (evq_abs_length _ He) as Hlen. pose proof He as (_ & _ & Hcount & _).
  unfold IOLINK_EVENT_QUEUE_SIZE in Hcount.
  case_decide as Hty.
  { apply wp_on_isdu. unfold isdu_error. wp_steps. apply wp_resp_from; [done | rewrite Hz; done|]. wp_steps.
    unfold serviced. rec_simpl. split_and!; try done; [|by rewrite Hex].
    apply isdu_wf_response_buf; [done| | |done].
    - etransitivity; [apply (zlen_blit _ _ 0); rewrite ?Hz; done | exact Hz].
    - apply bytes_ok_overwrite; auto with bytes. }
  repeat sv_step. destruct (isdu_event_ctx (iw_isdu s)) eqn:Hev.
  - rewrite decide_False by done. unfold iolink_critical_enter, iolink_critical_exit. repeat sv_step.
    rewrite (decide_False (P := 8 < evq_count (iw_events s))) by lia.
    pose proof (entries_length status_entry (evq_abs (iw_events s)) ltac:(done)) as Hel.
    eapply (wp_status_loop status_entry s); [done | done | done | done|].
    wp_steps. unfold ready. apply wp_on_isdu. wp_steps.
    unfold serviced. rec_simpl. rewrite u8_small by lia.
    assert (isdu_replied (evq_abs (iw_events s) ≫= status_entry) (iw_isdu s)
      ((iw_isdu s)<| isdu_response_buf := (evq_abs (iw_events s) ≫= status_entry) ++
           drop (length (evq_abs (iw_events s) ≫= status_entry)) (isdu_response_buf (iw_isdu s)) |>
         <| isdu_response_len := evq_count (iw_events s) * 3 |><| isdu_response_idx := 0 |>
         <| isdu_state := ISDU_STATE_RESPONSE_READY |>)) as (Hwf' & Hl' & Hp).
    { pose proof (replied_front (iw_isdu s) (evq_abs (iw_events s) ≫= status_entry)
        (isdu_segment_seq (iw_isdu s)) Hwf (status_entries_ok _) ltac:(lia) Hseq) as H.
      replace (zlen (evq_abs (iw_events s) ≫= status_entry)) with (evq_count (iw_events s) * 3) in H by lia.
      by destruct (iw_isdu s). }
    by split_and!.
  - rewrite decide_True by done. apply wp_on_isdu. wp_steps. unfold serviced. rec_simpl.
    split_and!; try done; [|by rewrite Hex].
    pose proof (isdu_wf_response_buf (iw_isdu s) _ 0 Hwf Hz Hb ltac:(done)) as H.
    by destruct (iw_isdu s).
Qed.

Lemma iolink_device_info_get_access_locks_eq g :
  exists i, info_target (info_selected g) (g_device_info (info_selected g)) = Some i /\
    iolink_device_info_get_access_locks g = Done (di_access_locks i, info_selected g).
Proof. destruct g as [[| |i] d b]; eexists; split; reflexivity. Qed.

(** Reading the access locks. *)
Lemma wp_get_locks (Q : Z -> isdu_world W -> Prop) s :
  (forall i, world_info s = Some i ->
     Q (di_access_locks i) (s<| iw_env := selected_env (iw_env s) |>)) ->
  wp (on_info iolink_device_info_get_access_locks) Q s.
Proof.
  intros HQ. apply wp_on_info.
  destruct (iolink_device_info_get_access_locks_eq (pe_info (iw_env s))) as (i & Hi & Hrun).
  eapply wp_intro; [exact Hrun|]. by apply HQ.
Qed.

Lemma set_access_locks_run locks g :
  iolink_device_info_set_access_locks locks g =
    Done (tt, exec (iolink_device_info_set_access_locks locks) g).
Proof. by destruct g as [[| |i] d b]. Qed.

(** The first two bytes of a buffer and of what was collected of it. *)
Lemma two_bytes (buf : list Z) n :
  zlen buf = 256 -> 0 <= n <= 255 ->
  exists b0 b1 rest, buf = b0 :: b1 :: rest /\
    (2 <= n -> exists rest', take (Z.to_nat n) buf = b0 :: b1 :: rest').
Proof.
  intros Hz Hn. destruct buf as [|b0 [|b1 rest]]; [done..|]. exists b0, b1, rest. split; [done|].
  intros H2. replace (Z.to_nat n) with (S (S (Z.to_nat (n - 2)))) by lia. by eexists.
Qed.

Lemma handle_access_locks_spec s s0 :
  iw_wf s -> iw_stats s = iw_stats s0 ->
  let c := iw_isdu s in
  let data := take (Z.to_nat (isdu_buffer_idx c)) (isdu_buffer c) in
  let read := hdr_type (isdu_header c) = IOLINK_ISDU_SERVICE_TYPE_READ in
  wp handle_access_locks
     (fun _ => serviced
        (if decide read then be16 ∘ di_access_locks <$> world_info s else Some [])
        (isdu_links c) (evq_abs (iw_events s)) (iw_ds s)
        (if decide read then selected_env (iw_env s)
         else match data with
              | b0 :: b1 :: _ =>
                (iw_env s)<| pe_info :=
                  exec (iolink_device_info_set_access_locks (256 * b0 + b1)) (pe_info (iw_env s)) |>
              | _ => iw_env s
              end) s0) s.
Proof.
  intros (Hwf & He & _) Hst c data read.
  pose proof Hwf as ((Hbz & Hbb) & (Hz & Hb) & Hi & _ & Hl & Hseq & _). fold c in Hwf, Hbz, Hbb, Hz, Hb, Hi, Hl, Hseq.
  unfold handle_access_locks. wp_step. apply wp_isdu_gets. wp_step. fold c. unfold read.
  destruct (decide (hdr_type (isdu_header c) = IOLINK_ISDU_SERVICE_TYPE_READ)) as [Hr|Hr].
  - wp_step. apply wp_get_locks. intros i Hinfo. rewrite Hinfo. cbn [fmap option_fmap option_map compose].
    apply (wp_bind_inv (on_isdu _)), wp_on_isdu_seq. eapply wp_on_isdu_reply; try done.
    intros Q HQ. apply wp_respond_late; auto using be16_ok; done.
  - wp_step. apply wp_isdu_gets.
    assert (forall v, wp (on_isdu (assign isdu_response_len 0) ;;
       on_isdu (assign isdu_response_idx 0 ;; assign isdu_state ISDU_STATE_RESPONSE_READY))
       (fun _ => serviced (Some []) (isdu_links c) (evq_abs (iw_events s)) (iw_ds s) v s0)
       (s<| iw_env := v |>)) as Hfin.
    { intros v. apply wp_on_isdu_seq. eapply wp_on_isdu_reply; try done. intros Q HQ.
      change (assign isdu_response_len 0) with (mret tt ;; assign isdu_response_len 0).
      apply (wp_respond_late [] 0 c Q); auto with bytes; done. }
    destruct (two_bytes (isdu_buffer c) (isdu_buffer_idx c)) as (b0 & b1 & rest & Hbuf & Htk);
      [done | done|]. fold data in Htk.
    pose proof (bytes_ok_lookup _ 0 b0 Hbb ltac:(by rewrite Hbuf)) as Hb0.
    pose proof (bytes_ok_lookup _ 1 b1 Hbb ltac:(by rewrite Hbuf)) as Hb1.
    wp_step. destruct (decide (2 <= isdu_buffer_idx c)) as [H2|H2].
    + destruct (Htk H2) as [rest' ->]. unfold when. rewrite decide_True by done. wp_step. apply wp_isdu_gets. fold c.
      wp_step. apply wp_rd; [lia|]. rewrite Hbuf. intros x0 [= <-].
      wp_step. apply wp_rd; [rewrite <- Hbuf; lia|]. intros x1 [= <-].
      apply wp_on_info. rewrite u16_small, lor_shiftl_8, u16_small by (rewrite ?u16_small, ?lor_shiftl_8; lia).
      eapply wp_intro; [apply set_access_locks_run|]. exact (wp_bind_inv _ _ _ _ (Hfin _)).
    + unfold when. rewrite decide_False by done. wp_step.
      pose proof (Hfin (iw_env s)) as H.
      assert (s<| iw_env := iw_env s |> = s) as Heq by (by destruct s). rewrite Heq in H.
      assert (zlen data < 2) as Hd by (unfold data, zlen; rewrite length_take; lia).
      destruct data as [|x [|y data']]; [exact (wp_bind_inv _ _ _ _ H)..|].
      unfold zlen in Hd. cbn in Hd. lia.
Qed.

(** The links after a system command. *)
Definition command_links (cmd : Z) (c : iolink_isdu_ctx_t) :=
  (isdu_event_ctx c, isdu_ds_ctx c, isdu_dll_ctx c,
   if decide (cmd = IOLINK_CMD_DEVICE_RESET) then true else isdu_reset_pending c,
   if decide (cmd = IOLINK_CMD_APPLICATION_RESET) then true else isdu_app_reset_pending c).

Section system_command.
Context (s s0 : isdu_world W) (Hs : iw_wf s) (Hst : iw_stats s = iw_stats s0).

Lemma command_success links d v s1 :
  isdu_wf (iw_isdu s1) -> isdu_links (iw_isdu s1) = links -> iw_events s1 = iw_events s ->
  iw_ds s1 = d -> iw_env s1 = v -> iw_stats s1 = iw_stats s ->
  wp (on_isdu (ready 0)) (fun _ => serviced (Some []) links (evq_abs (iw_events s)) d v s0) s1.
Proof.
  intros Hwf <- He <- <- Hst1. destruct Hs as (_ & Hev & _).
  eapply wp_on_isdu_reply; try (done || congruence). intros Q HQ.
  change (ready 0) with (mret tt ;; ready 0). apply (wp_respond [] 0); auto with bytes; done.
Qed.

Lemma command_refused code links d v s1 :
  is_u8 code ->
  isdu_wf (iw_isdu s1) -> isdu_links (iw_isdu s1) = links -> iw_events s1 = iw_events s ->
  iw_ds s1 = d -> iw_env s1 = v -> iw_stats s1 = iw_stats s ->
  wp (on_isdu (isdu_error code ;; ready 2))
     (fun _ => serviced (Some [0x80; code]) links (evq_abs (iw_events s)) d v s0) s1.
Proof.
  intros Hc Hwf <- He <- <- Hst1. destruct Hs as (_ & Hev & _).
  eapply wp_on_isdu_reply; try (done || congruence). intros Q HQ. by apply wp_isdu_error.
Qed.

(** The four commands the Data Storage state machine takes. *)
Lemma ds_command_spec cmd :
  isdu_ds_ctx (iw_isdu s) = true ->
  wp (locks ← on_info iolink_device_info_get_access_locks;
      ret ← on_ds (iolink_ds_handle_command cmd locks);
      if decide (ret = 0) then on_isdu (ready 0)
      else if decide (ret = -1) then on_isdu (isdu_error IOLINK_ISDU_ERROR_BUSY ;; ready 2)
      else if decide (ret = -2) then on_isdu (isdu_error IOLINK_ISDU_ERROR_WRITE_PROTECTED ;; ready 2)
      else on_isdu (isdu_error IOLINK_ISDU_ERROR_SERVICE_NOT_AVAIL ;; ready 2))
     (fun _ => serviced (Some (ds_command_response cmd s)) (isdu_links (iw_isdu s))
        (evq_abs (iw_events s))
        (exec (iolink_ds_handle_command cmd (default 0 (di_access_locks <$> world_info s))) (iw_ds s))
        (selected_env (iw_env s)) s0) s.
Proof.
  intros Hlink. wp_step. apply wp_get_locks. intros i Hi. wp_step. apply wp_on_ds.
  destruct (ds_handle_command_total cmd (di_access_locks i) (iw_ds s)) as (r & d & Hrun).
  unfold ds_command_response, exec. rewrite Hi. change (default 0 (di_access_locks <$> Some i)) with (di_access_locks i).
  rewrite Hrun.
  eapply wp_intro; [exact Hrun|]. destruct Hs as (Hwf & _).
  repeat case_decide; first [apply command_success | apply command_refused]; done.
Qed.
End system_command.

(** The commands that change neither the parameters nor the Data Storage. *)
Lemma command_plain s cmd :
  cmd ∈ [IOLINK_CMD_DEVICE_RESET; IOLINK_CMD_APPLICATION_RESET; IOLINK_CMD_SET_COMM_MODE] ->
  command_response cmd s = [] /\ command_ds cmd s = iw_ds s /\ command_env cmd s = iw_env s.
Proof.
  rewrite !elem_of_cons, elem_of_nil. unfold command_ds, command_env.
  intros [-> | [-> | [-> | []]]]; destruct (isdu_ds_ctx (iw_isdu s)); by split_and!.
Qed.

Lemma command_reset s cmd :
  cmd = IOLINK_CMD_RESTORE_FACTORY_SETTINGS \/ cmd = IOLINK_CMD_RESTORE_APP_DEFAULTS ->
  command_response cmd s = [] /\ command_ds cmd s = iw_ds s /\
  command_env cmd s = exec iolink_params_factory_reset (iw_env s).
Proof.
  unfold command_ds, command_env.
  intros [-> | ->]; destruct (isdu_ds_ctx (iw_isdu s)); by split_and!.
Qed.

Lemma command_unlinked s cmd :
  isdu_ds_ctx (iw_isdu s) = false ->
  cmd ∈ ds_commands ++ [IOLINK_CMD_PARAM_UPLOAD; IOLINK_CMD_PARAM_DOWNLOAD; IOLINK_CMD_PARAM_BREAK] ->
  command_response cmd s = [] /\ command_ds cmd s = iw_ds s /\ command_env cmd s = iw_env s.
Proof.
  intros Hl. unfold ds_commands. cbn [app]. rewrite !elem_of_cons, elem_of_nil.
  unfold command_response, command_ds, command_env. rewrite Hl.
  intros Hin. destruct_or!; subst; first [done | by split_and!].
Qed.

Lemma command_ds_linked s cmd :
  isdu_ds_ctx (iw_isdu s) = true -> cmd ∈ ds_commands ->
  command_response cmd s = ds_command_response cmd s /\
  command_ds cmd s =
    exec (iolink_ds_handle_command cmd (default 0 (di_access_locks <$> world_info s))) (iw_ds s) /\
  command_env cmd s = selected_env (iw_env s).
Proof.
  intros Hl. unfold ds_commands. rewrite !elem_of_cons, elem_of_nil.
  unfold command_response, command_ds, command_env. rewrite Hl.
  intros Hin. destruct_or!; subst; first [done | by split_and!].
Qed.

Lemma ds_start_run (c : iolink_ds_ctx_t) :
  let r := if decide (ds_state c <> IOLINK_DS_STATE_IDLE) then -1 else 0 in
  iolink_ds_start_upload c = Done (r, exec iolink_ds_start_upload c) /\
  iolink_ds_start_download c = Done (r, exec iolink_ds_start_download c).
Proof.
  unfold iolink_ds_start_upload, iolink_ds_start_download, exec, mbind, M_bind, gets, modify, mret, M_ret.
  by case_decide.
Qed.

(** The legacy commands, which call the state machine directly. *)
Lemma command_legacy s :
  isdu_ds_ctx (iw_isdu s) = true ->
  (forall cmd, cmd = IOLINK_CMD_PARAM_UPLOAD \/ cmd = IOLINK_CMD_PARAM_DOWNLOAD ->
     command_response cmd s =
       (if decide (ds_state (iw_ds s) <> IOLINK_DS_STATE_IDLE) then [0x80; IOLINK_ISDU_ERROR_BUSY] else []) /\
     command_env cmd s = iw_env s) /\
  command_ds IOLINK_CMD_PARAM_UPLOAD s = exec iolink_ds_start_upload (iw_ds s) /\
  command_ds IOLINK_CMD_PARAM_DOWNLOAD s = exec iolink_ds_start_download (iw_ds s) /\
  command_response IOLINK_CMD_PARAM_BREAK s = [] /\
  command_ds IOLINK_CMD_PARAM_BREAK s = exec iolink_ds_abort (iw_ds s) /\
  command_env IOLINK_CMD_PARAM_BREAK s = iw_env s.
Proof.
  intros Hl. unfold command_ds, command_env. rewrite Hl. split_and!; try done.
  intros cmd Hcmd. unfold command_response. rewrite Hl.
  assert (~ cmd ∈ [IOLINK_CMD_PARAM_DOWNLOAD_START; IOLINK_CMD_PARAM_DOWNLOAD_END;
                   IOLINK_CMD_PARAM_UPLOAD_START; IOLINK_CMD_PARAM_UPLOAD_END]) as Hn
    by (rewrite !elem_of_cons, elem_of_nil; unfold_consts; lia).
  rewrite (decide_False _ _ Hn), (decide_True _ _ Hcmd).
  split; [repeat case_decide; tauto|]. by destruct Hcmd as [-> | ->].
Qed.

(** The next case of a [switch]. *)
Ltac next_case index c :=
  let N := fresh "N" in destruct (decide (index = c)) as [->|N];
  [rewrite !switch_hit|rewrite !(switch_miss _ c) by exact N].

Section commands.
Context (s s0 : isdu_world W) (Hs : iw_wf s) (Hst : iw_stats s = iw_stats s0).

(** What the contract says of the command [k], away from the two resets. *)
Abbreviation command_done k :=
  (fun (_ : unit) => serviced (Some (command_response k s)) (isdu_links (iw_isdu s))
     (evq_abs (iw_events s)) (command_ds k s) (command_env k s) s0).

Lemma restore_spec k :
  k = IOLINK_CMD_RESTORE_FACTORY_SETTINGS \/ k = IOLINK_CMD_RESTORE_APP_DEFAULTS ->
  wp (on_params iolink_params_factory_reset ;; on_isdu (ready 0)) (command_done k) s.
Proof.
  intros Hk. pose proof Hs as (Hwf & _ & Hp). destruct (command_reset s k Hk) as (-> & -> & ->).
  wp_step. apply wp_on_params.
  pose proof (iolink_params_factory_reset_spec _ Hp) as H. apply wp_done in H as ([] & v & Hrun & _).
  unfold exec. rewrite Hrun. eapply wp_intro; [exact Hrun|]. by apply command_success.
Qed.

(** The commands of the Data Storage do nothing without a linked context. *)
Lemma if_linked_spec k m :
  k ∈ ds_commands ++ [IOLINK_CMD_PARAM_UPLOAD; IOLINK_CMD_PARAM_DOWNLOAD; IOLINK_CMD_PARAM_BREAK] ->
  (isdu_ds_ctx (iw_isdu s) = true -> wp m (command_done k) s) ->
  wp (linked ← on_isdu (gets isdu_ds_ctx); if decide (linked = true) then m else on_isdu (ready 0))
     (command_done k) s.
Proof.
  intros Hk Hm. pose proof Hs as (Hwf & _). wp_step. apply wp_isdu_gets. wp_branch; [by apply Hm|].
  destruct (isdu_ds_ctx (iw_isdu s)) eqn:Hlink; [done|].
  destruct (command_unlinked s k Hlink Hk) as (-> & -> & ->). by apply command_success.
Qed.

Lemma ds_spec k :
  k ∈ ds_commands -> isdu_ds_ctx (iw_isdu s) = true ->
  wp (locks ← on_info iolink_device_info_get_access_locks;
      ret ← on_ds (iolink_ds_handle_command k locks);
      if decide (ret = 0) then on_isdu (ready 0)
      else if decide (ret = -1) then on_isdu (isdu_error IOLINK_ISDU_ERROR_BUSY ;; ready 2)
      else if decide (ret = -2) then on_isdu (isdu_error IOLINK_ISDU_ERROR_WRITE_PROTECTED ;; ready 2)
      else on_isdu (isdu_error IOLINK_ISDU_ERROR_SERVICE_NOT_AVAIL ;; ready 2)) (command_done k) s.
Proof.
  intros Hk Hl. destruct (command_ds_linked s k Hl Hk) as (-> & -> & ->). by apply ds_command_spec.
Qed.

Lemma legacy_spec k m x :
  k = IOLINK_CMD_PARAM_UPLOAD \/ k = IOLINK_CMD_PARAM_DOWNLOAD ->
  isdu_ds_ctx (iw_isdu s) = true -> m (iw_ds s) = Done (x, command_ds k s) ->
  (x <> 0 <-> ds_state (iw_ds s) <> IOLINK_DS_STATE_IDLE) ->
  wp (ret ← on_ds m; if decide (ret <> 0) then on_isdu (isdu_error IOLINK_ISDU_ERROR_BUSY ;; ready 2)
                     else on_isdu (ready 0)) (command_done k) s.
Proof.
  intros Hk Hl Hrun Hx. pose proof Hs as (Hwf & _). destruct (command_legacy s Hl) as (H & _).
  destruct (H k Hk) as [-> ->]. wp_step. apply wp_on_ds. eapply wp_intro; [exact Hrun|].
  destruct (decide (x <> 0)), (decide (ds_state (iw_ds s) <> IOLINK_DS_STATE_IDLE)); try tauto;
    first [apply command_success | apply command_refused]; done.
Qed.

Lemma break_spec :
  isdu_ds_ctx (iw_isdu s) = true ->
  wp (on_ds iolink_ds_abort ;; on_isdu (ready 0)) (command_done IOLINK_CMD_PARAM_BREAK) s.
Proof.
  intros Hl. pose proof Hs as (Hwf & _). destruct (command_legacy s Hl) as (_ & _ & _ & -> & -> & ->).
  wp_step. apply wp_on_ds. eapply wp_intro; [reflexivity|]. by apply command_success.
Qed.
End commands.

Definition known_commands : list Z :=
  [IOLINK_CMD_DEVICE_RESET; IOLINK_CMD_APPLICATION_RESET; IOLINK_CMD_RESTORE_FACTORY_SETTINGS;
   IOLINK_CMD_RESTORE_APP_DEFAULTS; IOLINK_CMD_SET_COMM_MODE; IOLINK_CMD_PARAM_DOWNLOAD_START;
   IOLINK_CMD_PARAM_DOWNLOAD_END; IOLINK_CMD_PARAM_UPLOAD_START; IOLINK_CMD_PARAM_UPLOAD_END;
   IOLINK_CMD_PARAM_UPLOAD; IOLINK_CMD_PARAM_DOWNLOAD; IOLINK_CMD_PARAM_BREAK].

Lemma command_unknown s cmd :
  cmd ∉ known_commands ->
  command_response cmd s = [0x80; IOLINK_ISDU_ERROR_SERVICE_NOT_AVAIL] /\
  command_ds cmd s = iw_ds s /\ command_env cmd s = iw_env s.
Proof.
  unfold known_commands. rewrite !elem_of_cons, elem_of_nil. intros Hn.
  assert (cmd ∉ ds_commands) as Hn1 by (unfold ds_commands; rewrite !elem_of_cons, elem_of_nil; tauto).
  assert (cmd ∉ [IOLINK_CMD_DEVICE_RESET; IOLINK_CMD_APPLICATION_RESET;
                 IOLINK_CMD_RESTORE_FACTORY_SETTINGS; IOLINK_CMD_RESTORE_APP_DEFAULTS;
                 IOLINK_CMD_SET_COMM_MODE; IOLINK_CMD_PARAM_BREAK]) as Hn2
    by (rewrite !elem_of_cons, elem_of_nil; tauto).
  unfold command_response, command_ds, command_env, ds_commands in *.
  rewrite !(decide_False _ _ Hn1), (decide_False _ _ Hn2). clear Hn2.
  split_and!; repeat case_decide; done || tauto.
Qed.

(** The two reset flags are the only links a command changes. *)
Lemma command_links_kept cmd (c : iolink_isdu_ctx_t) :
  cmd <> IOLINK_CMD_DEVICE_RESET -> cmd <> IOLINK_CMD_APPLICATION_RESET ->
  command_links cmd c = isdu_links c.
Proof. intros N1 N2. unfold command_links, isdu_links. by rewrite !decide_False. Qed.

Lemma handle_system_command_spec s s0 cmd :
  iw_wf s -> iw_stats s = iw_stats s0 ->
  wp (handle_system_command cmd)
     (fun _ => serviced (Some (command_response cmd s)) (command_links cmd (iw_isdu s))
        (evq_abs (iw_events s)) (command_ds cmd s) (command_env cmd s) s0) s.
Proof.
  intros Hs Hst. pose proof Hs as (Hwf & _). unfold handle_system_command.
  next_case cmd IOLINK_CMD_DEVICE_RESET.
  { destruct (command_plain s IOLINK_CMD_DEVICE_RESET) as (-> & -> & ->); [by_decide|].
    wp_step. apply wp_on_isdu. wp_step. by apply command_success. }
  next_case cmd IOLINK_CMD_APPLICATION_RESET.
  { destruct (command_plain s IOLINK_CMD_APPLICATION_RESET) as (-> & -> & ->); [by_decide|].
    wp_step. apply wp_on_isdu. wp_step. by apply command_success. }
  rewrite command_links_kept by done.
  next_case cmd IOLINK_CMD_RESTORE_FACTORY_SETTINGS; [by apply restore_spec; auto|].
  next_case cmd IOLINK_CMD_RESTORE_APP_DEFAULTS; [by apply restore_spec; auto|].
  next_case cmd IOLINK_CMD_SET_COMM_MODE.
  { destruct (command_plain s IOLINK_CMD_SET_COMM_MODE) as (-> & -> & ->); [by_decide|]. by apply command_success. }
  next_case cmd IOLINK_CMD_PARAM_DOWNLOAD_START; [by apply if_linked_spec; [..|by_decide|intros; apply ds_spec; [..|by_decide|]]|].
  next_case cmd IOLINK_CMD_PARAM_DOWNLOAD_END; [by apply if_linked_spec; [..|by_decide|intros; apply ds_spec; [..|by_decide|]]|].
  next_case cmd IOLINK_CMD_PARAM_UPLOAD_START; [by apply if_linked_spec; [..|by_decide|intros; apply ds_spec; [..|by_decide|]]|].
  next_case cmd IOLINK_CMD_PARAM_UPLOAD_END; [by apply if_linked_spec; [..|by_decide|intros; apply ds_spec; [..|by_decide|]]|].
  next_case cmd IOLINK_CMD_PARAM_UPLOAD.
  { apply if_linked_spec; [done..|by_decide|]. intros Hl. destruct (command_legacy s Hl) as (_ & Hd & _).
    eapply legacy_spec; [done..|auto | done | rewrite Hd; apply ds_start_run | case_decide; split; done]. }
  next_case cmd IOLINK_CMD_PARAM_DOWNLOAD.
  { apply if_linked_spec; [done..|by_decide|]. intros Hl. destruct (command_legacy s Hl) as (_ & _ & Hd & _).
    eapply legacy_spec; [done..|auto | done | rewrite Hd; apply ds_start_run | case_decide; split; done]. }
  next_case cmd IOLINK_CMD_PARAM_BREAK; [by apply if_linked_spec; [..|by_decide|apply break_spec]|].
  destruct (command_unknown s cmd) as (-> & -> & ->); [|by apply command_refused].
  unfold known_commands. rewrite !elem_of_cons, elem_of_nil. tauto.
Qed.

(** *** Identification and tags *)

Definition request_index (r : isdu_request) : Z :=
  match r with ReadRequest i _ | WriteRequest i _ _ => i end.

Definition special_indices : list Z :=
  [IOLINK_IDX_SYSTEM_COMMAND; IOLINK_IDX_DEVICE_ACCESS_LOCKS; IOLINK_IDX_DETAILED_DEVICE_STATUS;
   IOLINK_IDX_ERROR_STATS; IOLINK_IDX_APPLICATION_TAG; IOLINK_IDX_FUNCTION_TAG;
   IOLINK_IDX_LOCATION_TAG; IOLINK_IDX_PDIN_DESCRIPTOR].

Lemma switch_default {A} index (cases : list (Z * A)) d :
  index ∉ cases.*1 -> switch index cases d = d.
Proof.
  induction cases as [|[i m] cases IH]; [done|]. cbn. intros [? ?]%not_elem_of_cons.
  by rewrite decide_False, IH by done.
Qed.

(** Outside of the special indices a request reads the identification. *)
Lemma service_identification r s i :
  world_info s = Some i -> request_index r ∉ special_indices ->
  service_response r s = identification_response (request_index r) i s /\
  service_env r s = selected_env (iw_env s).
Proof.
  intros Hi Hr. unfold special_indices in Hr. rewrite !not_elem_of_cons in Hr.
  destruct Hr as (N1 & N2 & N3 & N4 & N5 & N6 & N7 & N8 & _).
  destruct r as [index sub|index sub data];
    unfold service_response, service_env, read_response, write_response; cbn [request_index] in *.
  - rewrite !switch_miss by done. rewrite Hi. split; [done|]. rewrite decide_False; [done|].
    rewrite !elem_of_cons, elem_of_nil. tauto.
  - rewrite !switch_miss by done. by rewrite Hi.
Qed.

Lemma c_string_ok str : terminated str -> bytes_ok str -> bytes_ok (c_string str).
Proof. intros Ht Hok. rewrite <- (c_string_prefix str Ht). auto with bytes. Qed.

(** A string copied to the response buffer: what its one-byte length
    announces is pending. *)
Lemma replied_string c str seq :
  isdu_wf c -> bytes_ok str -> 0 <= seq < 64 ->
  let n := Z.min (zlen str) 256 in
  isdu_replied (string_response str) c
    (c<| isdu_response_buf := take (Z.to_nat n) str ++ drop (Z.to_nat n) (isdu_response_buf c) |>
      <| isdu_response_len := u8 n |><| isdu_response_idx := 0 |>
      <| isdu_state := ISDU_STATE_RESPONSE_READY |><| isdu_segment_seq := seq |>).
Proof.
  intros Hwf Hok Hseq n. pose proof Hwf as (_ & (Hz & Hb) & _). pose proof (zlen_nonneg str).
  set (src := take (Z.to_nat n) str).
  assert (zlen src = n) as Hn by (apply zlen_take; lia).
  assert (string_response str = take (Z.to_nat (u8 n)) src) as Hresp.
  { unfold string_response, src. fold n. rewrite take_take. f_equal. unfold u8. lia. }
  apply isdu_replied_intro; try done; rec_simpl; rewrite ?Hresp.
  - rewrite zlen_app, Hn. unfold zlen in *. rewrite length_drop. lia.
  - unfold src. auto with bytes.
  - rewrite zlen_take; unfold u8; lia.
  - assert (zlen (take (Z.to_nat (u8 n)) src) = u8 n) as Hlen by (apply zlen_take; unfold u8; lia).
    unfold isdu_pending. rec_simpl. rewrite Hlen. split_and!; try done.
    rewrite <- zlen_to_nat, Hlen. rewrite take_app_le; [done|]. unfold zlen, u8 in *. lia.
Qed.

Lemma selected_env_idemp (e : params_env W) : selected_env (selected_env e) = selected_env e.
Proof. by destruct e as [[[| |i] d b] sh hw]. Qed.

Lemma wp_on_isdu_none (Q : unit -> isdu_world W -> Prop) s : Q tt s -> wp (on_isdu (respond_string None)) Q s.
Proof. intros HQ. apply wp_on_isdu, wp_ret. by destruct s. Qed.

(** The tags are strings of bytes. *)
Lemma params_tag_ok index (e : params_env W) str :
  shadow_wf (pe_shadow e) -> info_globals_wf (pe_info e) -> params_tag index e = Some str -> bytes_ok str.
Proof.
  intros (_ & _ & (_ & Hf & Hfb) & (_ & Hl & Hlb) & _) Hi. unfold params_tag.
  repeat case_decide; [|by intros [= <-]; apply c_string_ok..|done].
  rewrite app_tag_array_string. destruct (app_tag_array (pe_info e)) as [t|] eqn:Ht; [|done].
  intros [= <-]. destruct (app_tag_array_wf _ _ Hi Ht). by apply c_string_ok.
Qed.

Section mandatory.
Context (s s0 : isdu_world W) (info : iolink_device_info_t).
Context (Hs : iw_wf s) (Hst : iw_stats s = iw_stats s0).
Context (Hex : isdu_state (iw_isdu s) = ISDU_STATE_SERVICE_EXECUTE).
Context (Hinfo : world_info s = Some info).
Abbreviation s1 := (s<| iw_env := selected_env (iw_env s) |>).
Abbreviation outcome_of resp v :=
  (fun (_ : unit) => serviced resp (isdu_links (iw_isdu s)) (evq_abs (iw_events s)) (iw_ds s) v s0).

Lemma mandatory_bytes bytes n (seq0 : bool) :
  bytes_ok bytes -> zlen bytes <= 255 -> n = zlen bytes ->
  wp (on_isdu (resp_from 0 bytes ;; (if seq0 then ready_seq0 n else ready n)))
     (outcome_of (Some bytes) (selected_env (iw_env s))) s1.
Proof.
  intros Hok Hl Hn. destruct Hs as (Hwf & He & _). eapply wp_on_isdu_reply; try done.
  intros Q. rec_simpl. intros HQ. destruct seq0; [by apply wp_respond_seq0 | by apply wp_respond].
Qed.

Lemma mandatory_unanswered :
  wp (mret tt) (outcome_of None (selected_env (iw_env s))) s1.
Proof.
  destruct Hs as (Hwf & He & _). apply wp_ret. unfold serviced. rec_simpl. split_and!; try done.
  by rewrite Hex.
Qed.

Lemma wp_respond_string str c (Q : unit -> iolink_isdu_ctx_t -> Prop) :
  isdu_wf c -> c_string_wf str ->
  (forall c', isdu_replied (string_response (c_string str)) c c' -> Q tt c') ->
  wp (respond_string (Some str)) Q c.
Proof.
  intros Hwf [Ht Hok] HQ. pose proof Hwf as (_ & (Hz & Hb) & _ & _ & _ & Hseq & _).
  unfold respond_string. apply wp_bind, wp_strlen_terminated; [done|]. cbv zeta.
  pose proof (c_string_length str Ht). pose proof (zlen_nonneg (c_string str)).
  pose proof (replied_string c (c_string str) (isdu_segment_seq c) Hwf (c_string_ok _ Ht Hok) Hseq) as Hrep.
  cbv zeta in Hrep. set (n := Z.min (zlen (c_string str)) 256) in *.
  replace (if decide (256 < zlen (c_string str)) then 256 else zlen (c_string str)) with n
    by (unfold n; case_decide; lia).
  apply wp_bind, wp_slice; [lia..|]. change (Z.to_nat 0) with 0%nat. rewrite drop_0.
  assert (take (Z.to_nat n) str = take (Z.to_nat n) (c_string str)) as ->.
  { rewrite <- (c_string_prefix str Ht), take_take. f_equal. unfold n, zlen in *. lia. }
  assert (zlen (take (Z.to_nat n) (c_string str)) = n) as Hn by (apply zlen_take; lia).
  wp_step. wp_step. wp_step. apply wp_blit; [lia..|]. unfold ready. wp_steps. apply HQ.
  change (Z.to_nat 0) with 0%nat. rewrite take_0. cbn [app Nat.add].
  replace (length (take (Z.to_nat n) (c_string str))) with (Z.to_nat n) by (unfold zlen in *; lia).
  by destruct c.
Qed.

Lemma mandatory_string f :
  char_ptr_wf (f info) ->
  wp (on_isdu (respond_string (char_target (info_selected (pe_info (iw_env s))) (f info))))
     (outcome_of (world_string (f info) s) (selected_env (iw_env s))) s1.
Proof.
  intros Hf. pose proof Hs as (Hwf & He & Hi & _). unfold world_string.
  destruct (char_target (info_selected (pe_info (iw_env s))) (f info)) as [str|] eqn:Hstr; cbn.
  - eapply wp_on_isdu_reply; try done. intros Q. rec_simpl. intros HQ. apply wp_respond_string; [done| |done].
    eapply char_target_wf; [by apply info_selected_wf | done | done].
  - apply wp_on_isdu, wp_ret.
    assert (s1<| iw_isdu := iw_isdu s1 |> = s1) as -> by (by destruct s).
    exact mandatory_unanswered.
Qed.

Lemma mandatory_identification index :
  info_wf info -> index ∉ special_indices ->
  let g := info_selected (pe_info (iw_env s)) in
  let str (f : iolink_device_info_t -> char_ptr) :=
    on_isdu (respond_string (char_target g (f info))) in
  wp (switch index
    [ (IOLINK_IDX_VENDOR_ID, on_isdu (resp_from 0 (be16 (di_vendor_id info)) ;; ready_seq0 2));
      (IOLINK_IDX_DEVICE_ID, on_isdu (resp_from 0 (be32 (di_device_id info)) ;; ready_seq0 4));
      (IOLINK_IDX_PROFILE_CHARACTERISTIC,
       on_isdu (resp_from 0 (be16 (di_profile_characteristic info)) ;; ready_seq0 2));
      (IOLINK_IDX_VENDOR_NAME, str di_vendor_name);
      (IOLINK_IDX_VENDOR_TEXT, str di_vendor_text);
      (IOLINK_IDX_PRODUCT_NAME, str di_product_name);
      (IOLINK_IDX_PRODUCT_ID, str di_product_id);
      (IOLINK_IDX_PRODUCT_TEXT, str di_product_text);
      (IOLINK_IDX_SERIAL_NUMBER, str di_serial_number);
      (IOLINK_IDX_HARDWARE_REVISION, str di_hardware_revision);
      (IOLINK_IDX_FIRMWARE_REVISION, str di_firmware_revision);
      (IOLINK_IDX_DEVICE_STATUS,
       sev ← if_event_ctx 0 iolink_events_get_highest_severity;
       on_isdu (resp_from 0 [sev] ;; ready 1));
      (IOLINK_IDX_REVISION_ID, on_isdu (resp_from 0 (be16 (di_revision_id info)) ;; ready 2));
      (IOLINK_IDX_MIN_CYCLE_TIME, on_isdu (resp_from 0 [di_min_cycle_time info] ;; ready 1)) ]
    (on_isdu (isdu_error IOLINK_ISDU_ERROR_SERVICE_NOT_AVAIL ;; ready 2)))
    (outcome_of (identification_response index info s) (selected_env (iw_env s))) s1.
Proof.
  intros (Hmin & _ & Hptr) _ g str. rewrite !Forall_cons in Hptr.
  destruct Hptr as (P1 & P2 & P3 & P4 & P5 & P6 & P7 & P8 & _).
  unfold identification_response.
  next_case index IOLINK_IDX_VENDOR_ID; [exact (mandatory_bytes _ _ true (be16_ok _) ltac:(done) ltac:(done))|].
  next_case index IOLINK_IDX_DEVICE_ID; [exact (mandatory_bytes _ _ true (be32_ok _) ltac:(done) ltac:(done))|].
  next_case index IOLINK_IDX_PROFILE_CHARACTERISTIC;
    [exact (mandatory_bytes _ _ true (be16_ok _) ltac:(done) ltac:(done))|].
  next_case index IOLINK_IDX_VENDOR_NAME; [by apply mandatory_string|].
  next_case index IOLINK_IDX_VENDOR_TEXT; [by apply mandatory_string|].
  next_case index IOLINK_IDX_PRODUCT_NAME; [by apply mandatory_string|].
  next_case index IOLINK_IDX_PRODUCT_ID; [by apply mandatory_string|].
  next_case index IOLINK_IDX_PRODUCT_TEXT; [by apply mandatory_string|].
  next_case index IOLINK_IDX_SERIAL_NUMBER; [by apply mandatory_string|].
  next_case index IOLINK_IDX_HARDWARE_REVISION; [by apply mandatory_string|].
  next_case index IOLINK_IDX_FIRMWARE_REVISION; [by apply mandatory_string|].
  next_case index IOLINK_IDX_DEVICE_STATUS.
  { pose proof (max_severity_range (evq_abs (iw_events s))) as Hsev.
    wp_step. unfold if_event_ctx. wp_step. apply wp_isdu_gets. rec_simpl.
    destruct (isdu_event_ctx (iw_isdu s)).
    - rewrite decide_True by done. apply wp_on_events. rec_simpl.
      eapply wp_mono; [apply iolink_events_get_highest_severity_spec; apply Hs|].
      intros sev e (-> & ->). assert (s1<| iw_events := iw_events s |> = s1) as -> by (by destruct s).
      apply (mandatory_bytes [_] 1 false); [auto with bytes | done | done].
    - rewrite decide_False by done. wp_step.
      apply (mandatory_bytes [0] 1 false); [auto with bytes | done | done]. }
  next_case index IOLINK_IDX_REVISION_ID; [exact (mandatory_bytes _ _ false (be16_ok _) ltac:(done) ltac:(done))|].
  next_case index IOLINK_IDX_MIN_CYCLE_TIME.
  { apply (mandatory_bytes [_] 1 false); [auto with bytes | done | done]. }
  destruct Hs as (Hwf & He & _). cbn [switch]. eapply wp_on_isdu_reply; try done.
  intros Q. rec_simpl. intros HQ. by apply wp_isdu_error.
Qed.

(** The three tags. *)
Definition tag_indices : list Z :=
  [IOLINK_IDX_APPLICATION_TAG; IOLINK_IDX_FUNCTION_TAG; IOLINK_IDX_LOCATION_TAG].

(** The contract of a write to a tag. *)
Lemma tag_write_service index sub data :
  index ∈ tag_indices ->
  service_response (WriteRequest index sub data) s =
    (if decide (params_accepts index 0 (zlen data) (selected_env (iw_env s))) then Some [] else None) /\
  service_env (WriteRequest index sub data) s =
    (if decide (params_accepts index 0 (zlen data) (selected_env (iw_env s)))
     then params_written index data (zlen data) true (selected_env (iw_env s))
     else selected_env (iw_env s)).
Proof.
  unfold tag_indices. rewrite !elem_of_cons, elem_of_nil. intros Hin.
  destruct_or!; subst; split; try reflexivity; unfold service_response, write_response;
    rewrite !switch_miss by done; rewrite switch_hit; by rewrite decide_True by
    (split; [done | unfold IOLINK_IDX_FUNCTION_TAG, IOLINK_IDX_LOCATION_TAG; lia]).
Qed.

Lemma tag_read_service index sub :
  index ∈ tag_indices ->
  service_response (ReadRequest index sub) s = (string_response <$> params_tag index (iw_env s)) /\
  service_env (ReadRequest index sub) s = selected_env (iw_env s).
Proof. unfold tag_indices. rewrite !elem_of_cons, elem_of_nil. intros Hin. by destruct_or!; subst. Qed.

Lemma selected_params_wf : params_wf (selected_env (iw_env s)).
Proof. destruct Hs as (_ & _ & [Hi Hsh]). split; [by apply info_selected_wf | done]. Qed.

Lemma mandatory_tag_write index (seq0 : bool) sub :
  index ∈ tag_indices -> hdr_type (isdu_header (iw_isdu s)) = IOLINK_ISDU_SERVICE_TYPE_WRITE ->
  let data := take (Z.to_nat (isdu_buffer_idx (iw_isdu s))) (isdu_buffer (iw_isdu s)) in
  wp (handle_tag index (fun n => if seq0 then ready_seq0 n else ready n) ;; on_isdu (respond_string None))
     (outcome_of (service_response (WriteRequest index sub data) s)
        (service_env (WriteRequest index sub data) s)) s1.
Proof.
  intros Hin Hw data. pose proof Hs as (Hwf & He & Hp).
  pose proof Hwf as ((Hbz & Hbb) & _ & Hbi & _).
  pose proof selected_params_wf as Hp1. destruct (tag_write_service index sub data Hin) as [-> ->].
  wp_step. unfold handle_tag. wp_step. apply wp_isdu_gets. rec_simpl.
  rewrite (decide_True (P := hdr_type _ = IOLINK_ISDU_SERVICE_TYPE_WRITE)) by done.
  wp_step. apply wp_isdu_gets. wp_step. apply wp_isdu_gets. rec_simpl. wp_step. apply wp_on_params.
  rec_simpl. eapply wp_mono; [apply iolink_params_set_spec; [done | lia | lia]|].
  assert (zlen data = isdu_buffer_idx (iw_isdu s)) as Hdl by (apply zlen_take; lia).
  rewrite <- Hdl. intros r v Hr. cbv beta in Hr.
  destruct (decide (params_accepts index 0 (zlen data) (selected_env (iw_env s)))) as [Hacc|Hacc];
    destruct Hr as [-> ->].
  - repeat sv_step.
    apply (wp_mono _ (outcome_of (Some [])
      (params_written index data (zlen data) true (selected_env (iw_env s))))).
    + eapply wp_on_isdu_reply; try done;
        [|rec_simpl; rewrite <- (params_written_take _ (isdu_buffer _)); by rewrite Hdl]. intros Q. rec_simpl. intros HQ.
      change (if seq0 then ready_seq0 0 else ready 0)
        with (if seq0 then (mret tt ;; ready_seq0 0) else (mret tt ;; ready 0)).
      destruct seq0; [apply (wp_respond_seq0 [] 0) | apply (wp_respond [] 0)]; first [done | exact bytes_ok_nil].
    + intros [] s' H. wp_step. by apply wp_on_isdu_none.
  - repeat sv_step. apply wp_on_isdu_none.
    assert (s1<| iw_env := selected_env (iw_env s) |> = s1) as -> by done. exact mandatory_unanswered.
Qed.

(** The string of a tag, put in the response buffer, is what will be sent. *)
Lemma tag_replied str (seq0 : bool) :
  bytes_ok str ->
  let n := Z.min (zlen str) IOLINK_ISDU_BUFFER_SIZE in
  wp (if seq0 then ready_seq0 (u8 n) else ready (u8 n))
     (fun _ c => outcome_of (Some (string_response str)) (selected_env (iw_env s)) tt (s1<| iw_isdu := c |>))
     ((iw_isdu s)<| isdu_response_buf := take (Z.to_nat n) str ++ drop (Z.to_nat n) (isdu_response_buf (iw_isdu s)) |>).
Proof.
  intros Hok n. pose proof Hs as (Hwf & _). pose proof Hwf as (_ & _ & _ & _ & _ & Hseq & _).
  pose proof (replied_string (iw_isdu s) str
    (if seq0 then 0 else isdu_segment_seq (iw_isdu s)) Hwf Hok ltac:(destruct seq0; lia)) as Hrep.
  cbv zeta in Hrep. change 256 with IOLINK_ISDU_BUFFER_SIZE in Hrep. fold n in Hrep.
  destruct Hs as (_ & He & _).
  match type of Hrep with isdu_replied _ _ ?c2 => assert (outcome_of (Some (string_response str))
    (selected_env (iw_env s)) tt (s1<| iw_isdu := c2 |>)) as Hout
    by (destruct Hrep as (? & ? & ?); unfold serviced; rec_simpl; by split_and!) end.
  destruct seq0; unfold ready_seq0, ready; wp_steps; [exact Hout|].
  by destruct s as [[] ? ? ? ?].
Qed.

Lemma mandatory_tag_read index (seq0 : bool) sub :
  index ∈ tag_indices -> hdr_type (isdu_header (iw_isdu s)) = IOLINK_ISDU_SERVICE_TYPE_READ ->
  wp (handle_tag index (fun n => if seq0 then ready_seq0 n else ready n) ;; on_isdu (respond_string None))
     (outcome_of (service_response (ReadRequest index sub) s) (service_env (ReadRequest index sub) s)) s1.
Proof.
  intros Hin Hr. pose proof Hs as (Hwf & He & Hp). pose proof Hwf as (_ & (Hz & _) & _).
  pose proof selected_params_wf as Hp1. destruct (tag_read_service index sub Hin) as [-> ->].
  wp_step. unfold handle_tag. wp_step. apply wp_isdu_gets. rec_simpl.
  rewrite (decide_False (P := hdr_type _ = IOLINK_ISDU_SERVICE_TYPE_WRITE)) by (rewrite Hr; done).
  wp_step. apply wp_isdu_gets. rec_simpl. wp_step. apply wp_on_params. rec_simpl.
  eapply wp_mono; [apply (iolink_params_get_spec index 0); [done | rewrite Hz; done]|].
  intros [n buf] v (_ & _ & Hv & Hres).
  assert (v = selected_env (iw_env s)) as ->.
  { destruct Hv as [-> | ->]; [done|]. apply selected_env_idemp. }
  destruct (decide (0 = 0)) as [_|]; [|done].
  assert (params_tag index (selected_env (iw_env s)) = params_tag index (iw_env s)) as Htag
    by apply params_tag_selected.
  rewrite Htag in Hres.
  assert (s1<| iw_env := selected_env (iw_env s) |> = s1) as -> by done.
  wp_step. apply wp_on_isdu. wp_step. rec_simpl.
  destruct (params_tag index (iw_env s)) as [str|] eqn:Hstr.
  - injection Hres as -> ->. cbn [fst snd fmap option_fmap option_map].
    pose proof (params_tag_ok index (iw_env s) str (proj2 Hp) (proj1 Hp) Hstr) as Hok.
    pose proof (zlen_nonneg str).
    rewrite decide_True by (change IOLINK_ISDU_BUFFER_SIZE with 256; lia).
    wp_step. apply wp_on_isdu. rec_simpl. eapply wp_mono; [by apply tag_replied|].
    intros [] c Hc. wp_steps. by apply wp_on_isdu_none.
  - injection Hres as -> ->. cbn [fst snd]. rewrite decide_False by lia. wp_step. apply wp_on_isdu_none.
    assert (s1<| iw_isdu := (iw_isdu s)<| isdu_response_buf := isdu_response_buf (iw_isdu s) |> |> = s1)
      as -> by (by destruct s as [[] ? ? ? ?]).
    exact mandatory_unanswered.
Qed.

Lemma mandatory_tag index (seq0 : bool) :
  index ∈ tag_indices -> hdr_index (isdu_header (iw_isdu s)) = index ->
  wp (handle_tag index (fun n => if seq0 then ready_seq0 n else ready n) ;; on_isdu (respond_string None))
     (outcome_of (service_response (isdu_received (iw_isdu s)) s)
        (service_env (isdu_received (iw_isdu s)) s)) s1.
Proof.
  intros Hin Hidx. pose proof Hs as ((_ & _ & _ & _ & _ & _ & (Hty & _) & _) & _).
  unfold isdu_received. rewrite Hidx. case_decide as Hr.
  - by apply mandatory_tag_read.
  - destruct Hty as [|Hw]; [done | by apply mandatory_tag_write].
Qed.
End mandatory.

Definition dispatched : list Z :=
  [IOLINK_IDX_SYSTEM_COMMAND; IOLINK_IDX_DEVICE_ACCESS_LOCKS; IOLINK_IDX_DETAILED_DEVICE_STATUS;
   IOLINK_IDX_ERROR_STATS].

Lemma world_info_wf s i : params_wf (iw_env s) -> world_info s = Some i -> info_wf i.
Proof.
  intros [Hi _] Hinfo. unfold world_info in Hinfo. pose proof (info_selected_wf _ Hi) as Hi'.
  eapply info_target_wf; [exact Hi'| |exact Hinfo]. apply Hi'.
Qed.

Lemma world_info_some s : exists i, world_info s = Some i.
Proof. unfold world_info. destruct (pe_info (iw_env s)) as [[| |i] d b]; by eexists. Qed.

Lemma handle_mandatory_indices_spec s s0 :
  iw_wf s -> iw_stats s = iw_stats s0 -> isdu_state (iw_isdu s) = ISDU_STATE_SERVICE_EXECUTE ->
  hdr_index (isdu_header (iw_isdu s)) ∉ dispatched ->
  let r := isdu_received (iw_isdu s) in
  wp handle_mandatory_indices
     (fun _ => serviced (service_response r s) (isdu_links (iw_isdu s)) (evq_abs (iw_events s)) (iw_ds s)
        (service_env r s) s0) s.
Proof.
  intros Hs Hst Hex Hdisp r. destruct (world_info_some s) as [info Hinfo].
  pose proof (world_info_wf s info ltac:(apply Hs) Hinfo) as Hiwf.
  unfold handle_mandatory_indices. wp_step. apply wp_on_info.
  eapply wp_intro; [apply iolink_device_info_get_eq|]. wp_step. wp_step. rec_simpl.
  change ((iw_env s)<| pe_info := info_selected (pe_info (iw_env s)) |>) with (selected_env (iw_env s)).
  unfold world_info in Hinfo. cbv zeta in Hinfo. rewrite Hinfo.
  wp_step. apply wp_isdu_gets. rec_simpl. cbv zeta.
  set (index := hdr_index (isdu_header (iw_isdu s))) in *.
  assert (request_index r = index) as Hidx
    by (unfold r, isdu_received, index; by case_decide).
  unfold dispatched in Hdisp. rewrite !not_elem_of_cons in Hdisp. destruct Hdisp as (N1 & N2 & N3 & N4 & _).
  destruct (decide (index = IOLINK_IDX_APPLICATION_TAG)) as [E1|N5].
  { rewrite E1. rewrite !switch_miss by done. rewrite switch_hit. rewrite <- E1.
    eapply (mandatory_tag s s0) with (seq0 := true); eauto; rewrite E1; by_decide. }
  destruct (decide (index = IOLINK_IDX_FUNCTION_TAG)) as [E1|N6].
  { rewrite E1. rewrite !switch_miss by done. rewrite switch_hit. rewrite <- E1.
    eapply (mandatory_tag s s0) with (seq0 := true); eauto; rewrite E1; by_decide. }
  destruct (decide (index = IOLINK_IDX_LOCATION_TAG)) as [E1|N7].
  { rewrite E1. rewrite !switch_miss by done. rewrite switch_hit. rewrite <- E1.
    eapply (mandatory_tag s s0) with (seq0 := false); eauto; rewrite E1; by_decide. }
  destruct (decide (index = IOLINK_IDX_PDIN_DESCRIPTOR)) as [E1|N8].
  { rewrite E1. rewrite !switch_miss by done. rewrite switch_hit.
    unfold r, isdu_received. fold index. rewrite E1.
    pose proof Hs as (Hwf & He & _). pose proof Hwf as (_ & _ & _ & _ & _ & _ & (Hty & _) & _).
    destruct (decide (hdr_type (isdu_header (iw_isdu s)) = IOLINK_ISDU_SERVICE_TYPE_WRITE)) as [Hw|Hw].
    - rewrite (decide_False (P := hdr_type _ = IOLINK_ISDU_SERVICE_TYPE_READ)) by (rewrite Hw; done).
      eapply wp_on_isdu_reply; try done. intros Q. rec_simpl. intros HQ. by apply wp_isdu_error.
    - destruct Hty as [Hr|]; [|done].
      rewrite (decide_True (P := hdr_type _ = IOLINK_ISDU_SERVICE_TYPE_READ)) by done.
      apply (mandatory_bytes s s0) with (bytes := [2]) (n := 1) (seq0 := false); auto with bytes; done. }
  destruct (service_identification r s info) as [-> ->].
  - exact Hinfo.
  - rewrite Hidx. unfold special_indices. rewrite !not_elem_of_cons. by split_and!; [..|apply not_elem_of_nil].
  - rewrite Hidx. pose proof (mandatory_identification s s0 info Hs Hst Hex Hinfo index Hiwf) as H.
    cbn [switch] in H |- *.
    rewrite (decide_False (P := index = IOLINK_IDX_APPLICATION_TAG)), (decide_False (P := index = IOLINK_IDX_FUNCTION_TAG)),
      (decide_False (P := index = IOLINK_IDX_LOCATION_TAG)), (decide_False (P := index = IOLINK_IDX_PDIN_DESCRIPTOR)),
      (decide_False (P := index = IOLINK_IDX_DETAILED_DEVICE_STATUS)) by done.
    apply H. unfold special_indices. rewrite !not_elem_of_cons. by split_and!; [..|apply not_elem_of_nil].
Qed.

(** Requests that are no system command leave the links alone. *)
Lemma service_links_other r c : request_command r = None -> service_links r c = isdu_links c.
Proof. unfold service_links, isdu_links. by intros ->. Qed.

Lemma service_links_command cmd sub rest c :
  service_links (WriteRequest IOLINK_IDX_SYSTEM_COMMAND sub (cmd :: rest)) c = command_links cmd c.
Proof.
  unfold service_links, command_links, request_command.
  rewrite (decide_True (P := IOLINK_IDX_SYSTEM_COMMAND = _)) by done.
  f_equal; [f_equal|]; repeat case_decide; simplify_eq; done.
Qed.

Lemma read_oldest_event_spec s :
  iw_wf s ->
  wp (ev ← if_event_ctx None iolink_events_pop;
      on_isdu
        (match ev with
         | Some e => resp_from 0 (be16 (ev_code e)) ;; assign isdu_response_len 2
         | None => resp_from 0 [0; 0] ;; assign isdu_response_len 2
         end ;;
         assign isdu_response_idx 0 ;; assign isdu_state ISDU_STATE_RESPONSE_READY))
     (fun _ => serviced
        (Some (match (if isdu_event_ctx (iw_isdu s) then head (evq_abs (iw_events s)) else None) with
               | Some e => be16 (ev_code e)
               | None => [0; 0]
               end))
        (isdu_links (iw_isdu s))
        (if isdu_event_ctx (iw_isdu s) then tail (evq_abs (iw_events s)) else evq_abs (iw_events s))
        (iw_ds s) (iw_env s) s) s.
Proof.
  intros (Hwf & He & _).
  assert (forall ev q s1, iw_isdu s1 = iw_isdu s -> evq_wf (iw_events s1) -> evq_abs (iw_events s1) = q ->
     iw_ds s1 = iw_ds s -> iw_env s1 = iw_env s -> iw_stats s1 = iw_stats s ->
     wp (on_isdu
        (match ev with
         | Some e => resp_from 0 (be16 (ev_code e)) ;; assign isdu_response_len 2
         | None => resp_from 0 [0; 0] ;; assign isdu_response_len 2
         end ;;
         assign isdu_response_idx 0 ;; assign isdu_state ISDU_STATE_RESPONSE_READY))
      (fun _ => serviced (Some (match ev with Some e => be16 (ev_code e) | None => [0; 0] end))
         (isdu_links (iw_isdu s)) q (iw_ds s) (iw_env s) s) s1) as Hreply.
  { intros ev q s1 Hi Hev Hq Hd Hv Hst. eapply wp_on_isdu_reply; try (done || congruence).
    intros Q HQ. rewrite Hi in HQ. rewrite Hi.
    destruct ev; apply wp_respond_late; auto using be16_ok with bytes; done. }
  wp_step. unfold if_event_ctx. wp_step. apply wp_isdu_gets.
  destruct (isdu_event_ctx (iw_isdu s)).
  - rewrite decide_True by done. apply wp_on_events.
    eapply wp_mono; [by apply iolink_events_pop_spec|]. intros ev e (Hev & -> & Habs).
    by apply Hreply.
  - rewrite decide_False by done. wp_step. by apply (Hreply None).
Qed.

(** A write of the index 2: the command is its first byte. *)
Lemma system_written_spec s sub :
  iw_wf s -> isdu_state (iw_isdu s) = ISDU_STATE_SERVICE_EXECUTE ->
  let r := WriteRequest IOLINK_IDX_SYSTEM_COMMAND sub
             (take (Z.to_nat (isdu_buffer_idx (iw_isdu s))) (isdu_buffer (iw_isdu s))) in
  wp (idx ← on_isdu (gets isdu_buffer_idx);
      if decide (0 < idx) then
        buf ← on_isdu (gets isdu_buffer); cmd ← rd buf 0; handle_system_command cmd
      else on_isdu (isdu_error IOLINK_ISDU_ERROR_SERVICE_NOT_AVAIL ;; ready 2))
     (fun _ => serviced (service_response r s) (service_links r (iw_isdu s)) (service_events r s)
        (service_ds r s) (service_env r s) s) s.
Proof.
  intros Hs Hex. cbv zeta. pose proof Hs as (Hwf & He & _). pose proof Hwf as ((Hbz & Hbb) & _ & Hbi & _).
  wp_step. apply wp_isdu_gets.
  destruct (isdu_buffer (iw_isdu s)) as [|cmd rest] eqn:Hbuf; [by unfold zlen in Hbz|].
  destruct (decide (0 < isdu_buffer_idx (iw_isdu s))) as [H0|H0].
  + replace (Z.to_nat (isdu_buffer_idx (iw_isdu s)))
      with (S (Z.to_nat (isdu_buffer_idx (iw_isdu s) - 1))) by lia. cbn [take].
    wp_step. apply wp_isdu_gets. rewrite Hbuf. wp_step. apply wp_rd; [lia|]. intros x [= <-].
    eapply wp_mono; [by apply (handle_system_command_spec s s)|]. intros [] s'.
    rewrite service_links_command. done.
  + replace (isdu_buffer_idx (iw_isdu s)) with 0 by lia.
    eapply wp_on_isdu_reply; try done. intros Q HQ. by apply wp_isdu_error.
Qed.

Lemma handle_standard_commands_spec s :
  iw_wf s -> isdu_state (iw_isdu s) = ISDU_STATE_SERVICE_EXECUTE ->
  let r := isdu_received (iw_isdu s) in
  wp handle_standard_commands
     (fun _ => serviced (service_response r s) (service_links r (iw_isdu s)) (service_events r s)
        (service_ds r s) (service_env r s) s) s.
Proof.
  intros Hs Hex r. unfold handle_standard_commands. wp_step. apply wp_isdu_gets.
  pose proof Hs as (Hwf & He & _). pose proof Hwf as ((Hbz & Hbb) & _ & Hbi & _ & _ & _ & (Hty & _) & _).
  set (index := hdr_index (isdu_header (iw_isdu s))).
  assert (request_index r = index) as Hidx by (unfold r, isdu_received, index; by case_decide).
  destruct (decide (index = IOLINK_IDX_SYSTEM_COMMAND)) as [E1|N1].
  { unfold r, isdu_received. fold index. rewrite E1.
    destruct Hty as [Hr|Hw].
    - rewrite Hr, (decide_False (P := _ = IOLINK_ISDU_SERVICE_TYPE_WRITE)), decide_True by done.
      eapply wp_mono; [by apply read_oldest_event_spec|]. intros [] s'.
      assert (forall sub, service_events (ReadRequest IOLINK_IDX_SYSTEM_COMMAND sub) s =
        if isdu_event_ctx (iw_isdu s) then tail (evq_abs (iw_events s)) else evq_abs (iw_events s)) as ->
        by (intros; unfold service_events; by destruct (isdu_event_ctx (iw_isdu s))).
      done.
    - rewrite Hw, (decide_True (P := IOLINK_ISDU_SERVICE_TYPE_WRITE = _)), decide_False by done.
      by apply system_written_spec. }
  assert (request_command r = None) as Hcmd.
  { unfold r, isdu_received. fold index. case_decide; [done|]. cbn.
    destruct (take _ _); [done|]. by rewrite decide_False. }
  rewrite service_links_other by done. unfold service_ds. rewrite Hcmd.
  assert (service_events r s = evq_abs (iw_events s)) as ->.
  { unfold service_events. destruct r; cbn in Hidx; subst; [|done].
    by rewrite decide_False by (by intros [? _]). }
  clear Hcmd.
  destruct (decide (index = IOLINK_IDX_DEVICE_ACCESS_LOCKS)) as [E2|N2].
  { eapply wp_mono; [by apply (handle_access_locks_spec s s)|]. cbv zeta. intros [] s'.
    unfold r, isdu_received. fold index. rewrite E2. by case_decide. }
  destruct (decide (index = IOLINK_IDX_DETAILED_DEVICE_STATUS)) as [E3|N3].
  { eapply wp_mono; [by apply (handle_detailed_device_status_spec s s)|]. cbv zeta. intros [] s'.
    unfold r, isdu_received. fold index. rewrite E3.
    destruct Hty as [Hr|Hw]; [by rewrite Hr | by rewrite Hw]. }
  destruct (decide (index = IOLINK_IDX_ERROR_STATS)) as [E4|N4].
  { eapply wp_mono; [by apply (handle_error_stats_spec s s)|]. cbv zeta. intros [] s'.
    unfold r, isdu_received. fold index. rewrite E4.
    destruct Hty as [Hr|Hw]; [by rewrite Hr | by rewrite Hw]. }
  apply (handle_mandatory_indices_spec s s); [done..|].
  unfold dispatched. rewrite !not_elem_of_cons. by split_and!; [..|apply not_elem_of_nil].
Qed.

(** The state after [iolink_isdu_process]: the contract, and the transport
    ready to send the response from its first control byte. *)
Lemma iolink_isdu_process_spec s :
  iw_wf s -> isdu_state (iw_isdu s) = ISDU_STATE_SERVICE_EXECUTE ->
  let r := isdu_received (iw_isdu s) in
  wp iolink_isdu_process
     (fun _ s' => serviced (service_response r s) (service_links r (iw_isdu s)) (service_events r s)
        (service_ds r s) (service_env r s) s s' /\
        match service_response r s with
        | Some _ => isdu_segment_seq (iw_isdu s') = 0 /\ isdu_is_response_control_sent (iw_isdu s') = false
        | None => isdu_state (iw_isdu s') = ISDU_STATE_IDLE
        end) s.
Proof.
  intros Hs Hex r. unfold iolink_isdu_process. wp_step. apply wp_isdu_gets. rewrite Hex.
  rewrite decide_False by done. unfold when. rewrite decide_True by done. wp_step.
  eapply wp_mono; [by apply handle_standard_commands_spec|]. fold r.
  intros [] s' (Hwf & He & Hl & Hq & Hd & Hv & Hst & Hresp). wp_step. apply wp_isdu_gets.
  pose proof Hwf as (W1 & W2 & W3 & W4 & W5 & W6 & W7 & W8).
  destruct (service_response r s) as [bytes|].
  - rewrite decide_False by (intros H; by apply H, Hresp). apply wp_on_isdu. wp_steps.
    unfold serviced. rec_simpl. destruct Hresp as (P1 & P2 & P3 & P4).
    unfold isdu_pending. rec_simpl. unfold isdu_wf, isdu_collecting, isdu_phase. rec_simpl.
    rewrite P1, decide_False by done. split_and!; first [done | tauto | lia].
  - rewrite decide_True by done. apply wp_on_isdu. wp_steps.
    unfold serviced. rec_simpl. unfold isdu_wf, isdu_collecting, isdu_phase. rec_simpl.
    rewrite decide_False by done. split_and!; first [done | tauto | lia].
Qed.
End handlers.
