(* ===== verification/IsduTheorems.v ===== *)
(** * Theorems on the ISDU services

    The refinement of [iolink_isdu_process] against the contract, a request
    and its answer over the wire, and the answers that are lost or that ignore
    the access locks. *)
From S2P Require Export IsduContract.
#[local] Open Scope Z_scope.

Section theorems.
Context {W : Type} `{!Platform W}.
Implicit Types s : isdu_world W.

(** ** The effects keep the invariant *)

Lemma set_access_locks_wf locks g :
  is_u16 locks -> info_globals_wf g ->
  info_globals_wf (exec (iolink_device_info_set_access_locks locks) g).
Proof.
  intros Hl. destruct g as [[| |i] d b]; unfold exec, iolink_device_info_set_access_locks; cbn; auto.
  unfold info_globals_wf, info_wf. cbn. tauto.
Qed.

Lemma exec_wp {S A} (m : M S A) (I : S -> Prop) x : wp m (fun _ => I) x -> I (exec m x).
Proof. unfold wp, exec. by destruct (m x) as [[]|]. Qed.

Lemma selected_env_wf (e : params_env W) : params_wf e -> params_wf (selected_env e).
Proof. intros [Hi Hs]. split; [by apply info_selected_wf | done]. Qed.

Lemma switch_prop {A} (P : A -> Prop) index cases d :
  Forall (fun c => P (snd c)) cases -> P d -> P (switch index cases d).
Proof.
  intros Hc Hd. induction Hc as [|[i m] cases Hm _ IH]; [done|]. cbn. by case_decide.
Qed.

Lemma command_env_wf cmd s : params_wf (iw_env s) -> params_wf (command_env cmd s).
Proof.
  intros Hp. unfold command_env. case_decide; [|case_decide; auto using selected_env_wf].
  apply exec_wp. eapply wp_mono; [by apply iolink_params_factory_reset_spec|]. by intros ?? [? _].
Qed.

Lemma service_env_wf i sub data s :
  params_wf (iw_env s) -> bytes_ok data ->
  params_wf (service_env (ReadRequest i sub) s) /\ params_wf (service_env (WriteRequest i sub data) s).
Proof.
  intros Hp Hd. pose proof (selected_env_wf _ Hp) as Hsel. pose proof (zlen_nonneg data).
  split; unfold service_env; [by case_decide|].
  assert (params_wf (if decide (params_accepts i 0 (zlen data) (selected_env (iw_env s)))
      then params_written i data (zlen data) true (selected_env (iw_env s))
      else selected_env (iw_env s))) as Hw.
  { case_decide; [|done]. eapply params_written_wf; [done | done | lia | done]. }
  apply (switch_prop params_wf); [|done]. repeat apply Forall_cons_2; try done.
  - destruct data as [|cmd rest]; [done|]. by apply command_env_wf.
  - destruct data as [|b0 [|b1 rest]]; [done..|]. apply Forall_cons in Hd as [H0 [H2 _]%Forall_cons].
    split; [|apply Hp]. cbn [snd]. rec_simpl. apply set_access_locks_wf; [lia | apply Hp].
Qed.

Lemma service_received_wf s :
  iw_wf s -> params_wf (service_env (isdu_received (iw_isdu s)) s).
Proof.
  intros (Hwf & _ & Hp). pose proof Hwf as ((_ & Hb) & _). unfold isdu_received. cbv zeta.
  case_decide; [apply (proj1 (service_env_wf _ _ [] s Hp bytes_ok_nil))|].
  apply (service_env_wf _ 0); auto with bytes.
Qed.

(** ** Refinement *)

(** One pass of the engine over a complete request. *)
Lemma wp_isdu_process (Q : unit -> isdu_world W -> Prop) s :
  iw_wf s -> isdu_state (iw_isdu s) = ISDU_STATE_SERVICE_EXECUTE ->
  let r := isdu_received (iw_isdu s) in
  (forall s', iw_wf s' ->
     serviced (service_response r s) (service_links r (iw_isdu s)) (service_events r s)
       (service_ds r s) (service_env r s) s s' ->
     match service_response r s with
     | Some _ => isdu_segment_seq (iw_isdu s') = 0 /\ isdu_is_response_control_sent (iw_isdu s') = false
     | None => isdu_state (iw_isdu s') = ISDU_STATE_IDLE
     end -> Q tt s') ->
  wp iolink_isdu_process Q s.
Proof.
  intros Hs Hex r HQ. eapply wp_mono; [by apply iolink_isdu_process_spec|].
  intros [] s' [H Hseq]. apply HQ; [|done..]. destruct H as (Hwf & He & _ & _ & _ & Hv & _).
  split_and!; [done..|]. rewrite Hv. by apply service_received_wf.
Qed.

(** C20. The service engine refines its contract.  [iolink_isdu_process] never
    faults.  With no complete request pending it changes nothing.  With one, the
    contract gives the answer, which is then pending in the response buffer,
    ready to be sent from its first control byte, or, for the requests the
    contract leaves unanswered, the engine falls back to idle; the event queue,
    the Data Storage, the parameters and the device information change exactly
    as the contract announces, the reset flags are set by their commands only,
    and every invariant is kept. *)
Theorem isdu_process_refines s :
  iw_wf s ->
  exists s', iolink_isdu_process s = Done (tt, s') /\ iw_wf s' /\
    if decide (isdu_state (iw_isdu s) = ISDU_STATE_SERVICE_EXECUTE) then
      let r := isdu_received (iw_isdu s) in
      evq_abs (iw_events s') = service_events r s /\ iw_ds s' = service_ds r s /\
      iw_env s' = service_env r s /\ iw_stats s' = iw_stats s /\
      isdu_links (iw_isdu s') = service_links r (iw_isdu s) /\
      match service_response r s with
      | Some bytes =>
        isdu_pending bytes (iw_isdu s') /\ isdu_segment_seq (iw_isdu s') = 0 /\
        isdu_is_response_control_sent (iw_isdu s') = false
      | None => isdu_state (iw_isdu s') = ISDU_STATE_IDLE
      end
    else s' = s.
Proof.
  intros Hs. destruct (decide (isdu_state (iw_isdu s) = ISDU_STATE_SERVICE_EXECUTE)) as [Hex|Hex].
  - cut (wp iolink_isdu_process (fun (_ : unit) s' => iw_wf s' /\
      serviced (service_response (isdu_received (iw_isdu s)) s)
        (service_links (isdu_received (iw_isdu s)) (iw_isdu s)) (service_events (isdu_received (iw_isdu s)) s)
        (service_ds (isdu_received (iw_isdu s)) s) (service_env (isdu_received (iw_isdu s)) s) s s' /\
      match service_response (isdu_received (iw_isdu s)) s with
      | Some _ => isdu_segment_seq (iw_isdu s') = 0 /\ isdu_is_response_control_sent (iw_isdu s') = false
      | None => isdu_state (iw_isdu s') = ISDU_STATE_IDLE
      end) s); [|by apply wp_isdu_process].
    intros ([] & s' & Hrun & Hwf' & (Hwf & He & Hl & Hq & Hd & Hv & Hst & Hresp) & Hseq)%wp_done.
    exists s'. cbv zeta in *. split_and!; try done. by destruct (service_response _ s).
  - exists s. split; [|done]. apply wp_exact. unfold iolink_isdu_process. wp_step. apply wp_isdu_gets.
    wp_branch; [by wp_steps|]. apply wp_when; [done|]. done.
Qed.

(** ** A request and its answer over the wire *)

(** What a master does: it sends the segments of a request, lets the device
    process it and fetches up to [n] bytes. *)
Definition isdu_exchange (r : isdu_request) (seq : Z) (n : nat) : M (isdu_world W) (list Z) :=
  on_isdu (collect_all (segments true seq (request_bytes r))) ;;
  iolink_isdu_process ;;
  on_isdu (drain n).

(** What the contract depends on: the links, not the transport. *)
Lemma service_depends r c s :
  isdu_links c = isdu_links (iw_isdu s) ->
  service_response r (s<| iw_isdu := c |>) = service_response r s /\
  service_events r (s<| iw_isdu := c |>) = service_events r s /\
  service_ds r (s<| iw_isdu := c |>) = service_ds r s /\
  service_env r (s<| iw_isdu := c |>) = service_env r s /\
  service_links r c = service_links r (iw_isdu s).
Proof.
  unfold isdu_links. intros [= H1 H2 H3 H4 H5]. unfold service_links. rewrite H1, H2, H3, H4, H5.
  split_and!; [| | | |done]; destruct s as [c0 e d st v]; cbn in H1, H2, H3.
  - destruct r as [i sub|i sub data];
      unfold service_response, read_response, write_response, identification_response, command_response,
        ds_command_response, world_string, world_info; cbn; by rewrite ?H1, ?H2, ?H3.
  - destruct r; unfold service_events; cbn; by rewrite ?H1.
  - unfold service_ds, command_ds, world_info; cbn; by rewrite H2.
  - destruct r as [|i sub [|]]; unfold service_env, command_env; cbn; by rewrite ?H2.
Qed.

(** An empty answer is one control byte, first and last. *)
Lemma drain_empty n c :
  isdu_state c = ISDU_STATE_RESPONSE_READY -> isdu_response_idx c = 0 -> isdu_response_len c = 0 ->
  isdu_segment_seq c = 0 -> isdu_is_response_control_sent c = false ->
  wp (drain (S (S n))) (fun out c' => out = [0xc0] /\ isdu_state c' = ISDU_STATE_IDLE /\
                                     isdu_links c' = isdu_links c) c.
Proof.
  intros Hst Hi Hl Hs Hc. destruct c. cbn in Hst, Hi, Hl, Hs, Hc. subst. done.
Qed.

(** Fetching from an engine that has nothing to send. *)
Lemma drain_idle n c :
  isdu_state c <> ISDU_STATE_RESPONSE_READY -> drain n c = Done ([], c).
Proof.
  intros Hst. destruct n as [|n]; [done|]. apply wp_exact. cbn [drain]. wp_step.
  unfold iolink_isdu_get_response_byte. repeat isdu_step. done.
Qed.

Lemma drain_wf n c : isdu_wf c -> wp (drain n) (fun _ => isdu_wf) c.
Proof.
  revert c. induction n as [|n IH]; intros c Hwf; cbn [drain]; [done|]. wp_step.
  eapply wp_mono; [by apply iolink_isdu_get_response_byte_wf|]. intros [b|] c' [Hc' _]; [|done].
  wp_step. eapply wp_mono; [by apply IH|]. done.
Qed.

(** The transport keeps its invariant over a whole request. *)
Lemma collect_all_wf bytes c :
  isdu_wf c -> bytes_ok bytes -> wp (collect_all bytes) (fun _ => isdu_wf) c.
Proof.
  intros Hwf Hb. revert c Hwf. induction Hb as [|b bytes Hb _ IH]; intros c Hwf; cbn [collect_all]; [done|].
  wp_step. eapply wp_mono; [by apply iolink_isdu_collect_byte_wf|]. intros r c' Hc'. wp_step.
  eapply wp_mono; [by apply IH|]. done.
Qed.

Lemma segments_ok start seq bytes : bytes_ok bytes -> 0 <= seq < 64 -> bytes_ok (segments start seq bytes).
Proof.
  intros Hb. revert start seq. induction Hb as [|b bytes Hb _ IH]; intros start seq Hs; cbn [segments];
    [constructor|].
  apply bytes_ok_cons; [unfold control_byte; destruct start, (bool_decide _); lia|].
  apply bytes_ok_cons; [done|]. apply IH. lia.
Qed.

Lemma request_bytes_ok r : request_ok r -> bytes_ok (request_bytes r).
Proof.
  destruct r as [i s|i s d]; cbn.
  - intros [Hi Hs]. repeat (apply bytes_ok_cons; [lia|]). constructor.
  - intros (Hi & Hs & Hd & Hl). apply bytes_ok_app.
    + case_decide; repeat (apply bytes_ok_cons; [lia|]); constructor.
    + repeat (apply bytes_ok_cons; [lia|]). done.
Qed.

(** The bytes the master reads for an answer. *)
Definition answer_wire (bytes : list Z) : list Z :=
  match bytes with [] => [0xc0] | _ => segments true 0 bytes end.

Lemma drain_answer bytes c :
  isdu_wf c -> isdu_pending bytes c -> isdu_segment_seq c = 0 -> isdu_is_response_control_sent c = false ->
  wp (drain (Nat.max 2 (2 * length bytes)))
    (fun out c' => out = answer_wire bytes /\ isdu_state c' = ISDU_STATE_IDLE /\ isdu_links c' = isdu_links c) c.
Proof.
  intros Hwf (Hst & Hi & Hl & Htk) Hseq Hc. pose proof Hwf as (_ & (Hz & _) & _ & _ & Hlr & _).
  destruct bytes as [|b bytes]; [by apply drain_empty|].
  replace (Nat.max 2 (2 * length (b :: bytes))) with (2 * length (b :: bytes))%nat by (cbn; lia).
  pose proof (zlen_nonneg (b :: bytes)).
  eapply wp_mono; [apply (drain_data (b :: bytes) 0 0 c); [done..|lia|lia|done]|].
  intros out c' (-> & ? & ?). done.
Qed.

(** The outcome of an exchange. *)
Definition exchanged (r : isdu_request) s (wire : list Z) s' : Prop :=
  wire = from_option answer_wire [] (service_response r s) /\
  iw_wf s' /\ isdu_state (iw_isdu s') = ISDU_STATE_IDLE /\
  evq_abs (iw_events s') = service_events r s /\ iw_ds s' = service_ds r s /\
  iw_env s' = service_env r s /\ isdu_links (iw_isdu s') = service_links r (iw_isdu s).

Definition isdu_receptive s : Prop :=
  isdu_state (iw_isdu s) = ISDU_STATE_IDLE \/ isdu_state (iw_isdu s) = ISDU_STATE_RESPONSE_READY.

Lemma wp_isdu_exchange r seq n s :
  iw_wf s -> isdu_receptive s -> request_ok r -> 0 <= seq < 64 ->
  n = Nat.max 2 (2 * length (default [] (service_response r s))) ->
  wp (isdu_exchange r seq n) (exchanged r s) s.
Proof.
  intros Hs Hst Hr Hseq ->. pose proof Hs as (Hwf & He & Hp).
  destruct (isdu_collected (iw_isdu s) r seq Hwf Hst Hr Hseq) as (c & Hrun & Hex & Hrec & Hl).
  pose proof (wp_elim _ _ _ _ _ (collect_all_wf _ _ Hwf (segments_ok true seq _ (request_bytes_ok r Hr) Hseq)) Hrun)
    as Hcwf. cbv beta in Hcwf.
  unfold isdu_exchange. wp_step. apply wp_on_isdu. eapply wp_intro; [exact Hrun|]. wp_step.
  apply wp_isdu_process; [by split_and!|done|]. rec_simpl. rewrite Hrec.
  destruct (service_depends r c s Hl) as (-> & -> & -> & -> & ->).
  intros s1 Hwf1 (_ & _ & Hl1 & Hq & Hd & Hv & Hst1 & Hresp) Hseq1. apply wp_on_isdu.
  pose proof Hwf1 as (Hwfc & He1 & Hp1). unfold exchanged.
  destruct (service_response r s) as [bytes|]; cbn [default from_option].
  - eapply wp_mono; [apply wp_and; [by apply drain_answer; tauto | by apply drain_wf]|].
    intros out c' ((-> & Hidle & Hl') & Hwf'). rec_simpl. split_and!; congruence || done.
  - cbn [length]. eapply wp_intro; [apply drain_idle; by rewrite Hseq1|]. rec_simpl. by split_and!.
Qed.

(** A request over the wire.  From a well-formed engine that is idle or has
    an old response pending, a master that sends any request (one to 255 bytes
    of data, any first sequence number), lets the device process it and fetches
    the answer gets the answer of the contract: the bytes it reads are the
    segments of that answer (one control byte 0xC0 when it is empty, nothing
    when the contract leaves the request unanswered).  The events, the Data
    Storage, the parameters and the device information change as the contract
    announces, and the engine is well formed and idle again. *)
Theorem isdu_request_served s r seq :
  iw_wf s -> isdu_receptive s -> request_ok r -> 0 <= seq < 64 ->
  let answer := service_response r s in
  exists wire s',
    isdu_exchange r seq (Nat.max 2 (2 * length (default [] answer))) s = Done (wire, s') /\
    wire = from_option answer_wire [] answer /\
    iw_wf s' /\ isdu_state (iw_isdu s') = ISDU_STATE_IDLE /\
    evq_abs (iw_events s') = service_events r s /\ iw_ds s' = service_ds r s /\
    iw_env s' = service_env r s /\ isdu_links (iw_isdu s') = service_links r (iw_isdu s).
Proof. intros. apply wp_done. by apply wp_isdu_exchange. Qed.

(** ** Tags over the wire *)

(** A string of at most 32 bytes is answered whole. *)
Lemma string_response_short str : zlen str <= 32 -> string_response str = str.
Proof.
  intros H. pose proof (zlen_nonneg str). unfold string_response.
  rewrite Z.min_l, u8_small, zlen_to_nat by lia. by rewrite firstn_all.
Qed.

Lemma c_string_zlen_le l n : 0 <= n -> zlen (c_string (take (Z.to_nat n) l)) <= n.
Proof.
  intros Hn. assert (forall l, (length (c_string l) <= length l)%nat) as H.
  { intros l'. induction l' as [|c l' IH]; cbn; [done|]. case_decide; cbn; lia. }
  specialize (H (take (Z.to_nat n) l)). rewrite length_take in H. unfold zlen. lia.
Qed.

(** The two tags every device has. *)
Definition plain_tag (index : Z) : Prop :=
  index = IOLINK_IDX_FUNCTION_TAG \/ index = IOLINK_IDX_LOCATION_TAG.

Lemma plain_tag_accepted index n (e : params_env W) : plain_tag index -> params_accepts index 0 n e.
Proof. by intros [-> | ->]; split; auto. Qed.

(** A write to a tag that the parameters accept, and what it leaves. *)
Lemma service_write_tag index sub data s :
  params_accepts index 0 (zlen data) (selected_env (iw_env s)) ->
  service_response (WriteRequest index sub data) s = Some [] /\
  service_env (WriteRequest index sub data) s =
    params_written index data (zlen data) true (selected_env (iw_env s)).
Proof.
  intros Hok. pose proof Hok as (_ & [->|[->|(-> & _)]]); unfold service_env, service_response, write_response;
    cbn [switch]; rewrite ?(decide_True (P := params_accepts _ _ _ _)) by done; done.
Qed.

Lemma write_tag_exchanged s index sub data seq :
  iw_wf s -> isdu_receptive s -> params_accepts index 0 (zlen data) (selected_env (iw_env s)) ->
  bytes_ok data -> 1 <= zlen data <= 255 -> is_u8 sub -> 0 <= seq < 64 ->
  exists s', isdu_exchange (WriteRequest index sub data) seq 2 s = Done ([0xc0], s') /\
    iw_wf s' /\ isdu_state (iw_isdu s') = ISDU_STATE_IDLE /\
    iw_env s' = params_written index data (zlen data) true (selected_env (iw_env s)).
Proof.
  intros Hs Hst Hok Hd Hl Hsub Hseq.
  assert (is_u16 index) by (destruct Hok as (_ & [-> | [-> | (-> & _)]]); done).
  destruct (service_write_tag index sub data s Hok) as [Hresp Henv].
  pose proof (wp_isdu_exchange (WriteRequest index sub data) seq 2 s Hs Hst) as H1.
  rewrite Hresp in H1. specialize (H1 ltac:(cbn; split_and!; first [done | lia]) Hseq eq_refl).
  apply wp_done in H1 as (w1 & s1 & Hrun1 & Hw1 & Hwf1 & Hidle1 & _ & _ & Hv1 & _).
  rewrite Hresp in Hw1. cbn in Hw1. subst w1. exists s1. split_and!; [done..|congruence].
Qed.

(** A read of a tag brings its string. *)
Lemma read_tag_exchanged s index sub str seq :
  iw_wf s -> isdu_receptive s -> params_tag index (iw_env s) = Some str -> zlen str <= 32 ->
  is_u8 sub -> 0 <= seq < 64 ->
  exists s', isdu_exchange (ReadRequest index sub) seq (Nat.max 2 (2 * length str)) s =
    Done (answer_wire str, s') /\ iw_wf s'.
Proof.
  intros Hs Hst Htag Hl Hsub Hseq.
  assert (service_response (ReadRequest index sub) s = Some str /\ is_u16 index) as [Hresp Hix].
  { assert (service_response (ReadRequest index sub) s = string_response <$> params_tag index (iw_env s) /\
            is_u16 index) as [-> ?]; [|rewrite Htag; cbn; by rewrite string_response_short].
    unfold params_tag in Htag. repeat case_decide; subst; done. }
  pose proof (wp_isdu_exchange (ReadRequest index sub) seq (Nat.max 2 (2 * length str)) s Hs Hst) as H.
  rewrite Hresp in H. specialize (H ltac:(done) Hseq eq_refl).
  apply wp_done in H as (w & s1 & Hrun & Hw & Hwf & _). rewrite Hresp in Hw. cbn in Hw. subst w. by exists s1.
Qed.

Lemma take_tag (data : list Z) : take (Z.to_nat (Z.min (zlen data) 32)) data = take 32 data.
Proof.
  unfold zlen. destruct (decide (length data <= 32)%nat).
  - rewrite !take_ge by lia. done.
  - f_equal. lia.
Qed.

(** The tag a write of [data] leaves, cut at 32 bytes. *)
Lemma params_written_tag_read index data (e : params_env W) :
  params_accepts index 0 (zlen data) e ->
  params_tag index (params_written index data (zlen data) true e) = Some (c_string (take 32 data)).
Proof.
  intros Hok. pose proof (zlen_nonneg data).
  rewrite (params_written_tag index 0) by (lia || done).
  by rewrite decide_True, take_tag by done.
Qed.

(** Function and location tags over the wire.  A master that writes up to
    255 bytes to the function or the location tag is answered with success, and
    a read of that tag afterwards brings the bytes back through the wire, cut at
    32 and at their first NUL, whatever the subindices and sequence numbers. *)
Theorem isdu_tag_over_the_wire s index data sub sub' seq seq' :
  iw_wf s -> isdu_receptive s -> plain_tag index ->
  bytes_ok data -> 1 <= zlen data <= 255 -> is_u8 sub -> is_u8 sub' -> 0 <= seq < 64 -> 0 <= seq' < 64 ->
  let str := c_string (take 32 data) in
  exists s1 s2,
    isdu_exchange (WriteRequest index sub data) seq 2 s = Done ([0xc0], s1) /\
    isdu_exchange (ReadRequest index sub') seq' (Nat.max 2 (2 * length str)) s1 =
      Done (answer_wire str, s2) /\ iw_wf s2.
Proof.
  intros Hs Hst Hix Hd Hl Hsub Hsub' Hseq Hseq' str.
  destruct (write_tag_exchanged s index sub data seq) as (s1 & Hrun1 & Hwf1 & Hidle1 & Henv);
    [try done; by apply plain_tag_accepted..|].
  destruct (read_tag_exchanged s1 index sub' str seq') as (s2 & Hrun2 & Hwf2); try done.
  - by left.
  - by rewrite Henv, params_written_tag_read by by apply plain_tag_accepted.
  - by apply (c_string_zlen_le data 32).
  - by exists s1, s2.
Qed.

(** ** Requests that get no answer, and the Data Storage commands *)

(** C33. Two writes are dropped without an answer: a write to the Detailed Device
    Status, and a write of more than 32 bytes to the application tag.  The master
    reads nothing at all from the device, which is idle; the data are not
    stored. *)
Theorem isdu_dropped_writes s index sub data seq n :
  iw_wf s -> isdu_receptive s -> is_u8 sub -> bytes_ok data -> 1 <= zlen data <= 255 -> 0 <= seq < 64 ->
  index = IOLINK_IDX_DETAILED_DEVICE_STATUS \/ index = IOLINK_IDX_APPLICATION_TAG /\ 33 <= zlen data ->
  exists s', isdu_exchange (WriteRequest index sub data) seq 2 s = Done ([], s') /\
    on_isdu (drain n) s' = Done ([], s') /\
    forall i, params_tag i (iw_env s') = params_tag i (iw_env s).
Proof.
  intros Hs Hst Hsub Hd Hl Hseq Hix.
  assert (service_response (WriteRequest index sub data) s = None /\
          forall i, params_tag i (service_env (WriteRequest index sub data) s) = params_tag i (iw_env s))
    as [Hresp Henv].
  { destruct Hix as [-> | [-> Hbig]]; [done|].
    assert (~ params_accepts IOLINK_IDX_APPLICATION_TAG 0 (zlen data) (selected_env (iw_env s))) as Hn.
    { intros (_ & [?|[?|(_ & ? & _)]]); [done..|]. unfold app_tag_size in *. lia. }
    unfold service_response, write_response, service_env. cbn [switch].
    rewrite !(decide_False _ _ Hn). split; [done|]. intros i. exact (params_tag_selected i (iw_env s)). }
  assert (is_u16 index) as Hi by (by destruct Hix as [-> | [-> _]]).
  pose proof (wp_isdu_exchange (WriteRequest index sub data) seq 2 s Hs Hst) as Hx.
  rewrite Hresp in Hx. specialize (Hx ltac:(cbn; split_and!; first [done | lia]) Hseq eq_refl).
  apply wp_done in Hx as (w & s1 & Hrun & Hw & Hwf & Hidle & _ & _ & Hv & _).
  rewrite Hresp in Hw. cbn in Hw. subst w. exists s1. split; [done|]. split; [|by rewrite Hv].
  apply wp_exact, wp_on_isdu. eapply wp_intro; [apply drain_idle; by rewrite Hidle|]. by destruct s1.
Qed.

(** C34. The Data Storage commands.  On a device whose context has no Data Storage
    linked, all seven commands are answered with success and do nothing.  On a
    device with one, under the Data Storage lock, Download Start is refused with
    0x33 and starts nothing, while the legacy download command is answered with
    success and starts the download. *)
Theorem isdu_ds_commands s cmd sub seq :
  iw_wf s -> isdu_receptive s -> is_u8 sub -> 0 <= seq < 64 ->
  let write := isdu_exchange (WriteRequest IOLINK_IDX_SYSTEM_COMMAND sub [cmd]) seq in
  (isdu_ds_ctx (iw_isdu s) = false ->
   cmd ∈ ds_commands ++ [IOLINK_CMD_PARAM_UPLOAD; IOLINK_CMD_PARAM_DOWNLOAD; IOLINK_CMD_PARAM_BREAK] ->
   exists s', write 2%nat s = Done ([0xc0], s') /\ iw_ds s' = iw_ds s /\ iw_env s' = iw_env s) /\
  (isdu_ds_ctx (iw_isdu s) = true -> ds_state (iw_ds s) = IOLINK_DS_STATE_IDLE ->
   Z.land (default 0 (di_access_locks <$> world_info s)) IOLINK_LOCK_DS <> 0 ->
   (cmd = IOLINK_CMD_PARAM_DOWNLOAD_START ->
    exists s', write 4%nat s = Done (answer_wire [0x80; IOLINK_ISDU_ERROR_WRITE_PROTECTED], s') /\
      iw_ds s' = iw_ds s) /\
   (cmd = IOLINK_CMD_PARAM_DOWNLOAD ->
    exists s', write 2%nat s = Done ([0xc0], s') /\
      ds_state (iw_ds s') = IOLINK_DS_STATE_DOWNLOAD_REQ)).
Proof.
  intros Hs Hst Hsub Hseq write.
  assert (forall n bytes, is_u8 cmd -> command_response cmd s = bytes -> n = Nat.max 2 (2 * length bytes) ->
    exists s', write n s = Done (answer_wire bytes, s') /\
      iw_ds s' = command_ds cmd s /\ iw_env s' = command_env cmd s) as Hw.
  { intros n bytes Hcmd Hresp Hn.
    assert (service_response (WriteRequest IOLINK_IDX_SYSTEM_COMMAND sub [cmd]) s = Some bytes) as Hr
      by (by rewrite <- Hresp).
    pose proof (wp_isdu_exchange (WriteRequest IOLINK_IDX_SYSTEM_COMMAND sub [cmd]) seq n s Hs Hst) as H.
    rewrite Hr in H. specialize (H ltac:(cbn; split_and!; first [done | lia | auto with bytes]) Hseq Hn).
    apply wp_done in H as (w & s1 & Hrun & Hwire & _ & _ & _ & Hd & Hv & _).
    rewrite Hr in Hwire. cbn in Hwire. subst w. by exists s1. }
  split.
  - intros Hl Hin. destruct (command_unlinked s cmd Hl Hin) as (Hresp & Hd & Hv).
    destruct (Hw 2%nat []) as (s' & Hrun & Hd' & Hv'); [|done..|].
    { unfold ds_commands in Hin. cbn [app] in Hin. rewrite !elem_of_cons, elem_of_nil in Hin.
      destruct_or!; subst; done. }
    exists s'. split_and!; first [exact Hrun | congruence].
  - intros Hl Hidle Hlock. destruct (command_legacy s Hl) as (Hleg & _ & Hdown & _).
    split; intros ->.
    + destruct (command_ds_linked s IOLINK_CMD_PARAM_DOWNLOAD_START Hl) as (Hresp & Hd & _); [by_decide|].
      assert (forall x, iolink_ds_handle_command IOLINK_CMD_PARAM_DOWNLOAD_START
        (default 0 (di_access_locks <$> world_info s)) x = Done (-2, x)) as Hrun.
      { intros x. unfold iolink_ds_handle_command. rewrite decide_True by auto. done. }
      unfold ds_command_response, exec in *. rewrite Hrun in Hresp, Hd.
      destruct (Hw 4%nat [0x80; IOLINK_ISDU_ERROR_WRITE_PROTECTED]) as (s' & Hrun' & Hd' & _); [done..|].
      exists s'. split; congruence.
    + destruct (Hleg IOLINK_CMD_PARAM_DOWNLOAD) as [Hresp _]; [auto|].
      rewrite decide_False in Hresp by (by intros []).
      destruct (Hw 2%nat []) as (s' & Hrun' & Hd' & _); [done..|]. exists s'. split; [done|].
      rewrite Hd', Hdown. unfold iolink_ds_start_download, exec, mbind, M_bind, gets. cbn.
      by rewrite decide_False by (by intros []).
Qed.
End theorems.

(** ** Witnesses: the demonstration device of [Params] *)

Definition world_demo : isdu_world ram :=
  mk_isdu_world (isdu_cleared<| isdu_ds_ctx := true |>) iolink_events_init (iolink_ds_init None)
    (mk_dll_stats 0 0 0 0 0 0 0 0 0 0 0) params_demo.

Lemma isdu_linked_wf b : isdu_wf (isdu_cleared<| isdu_ds_ctx := b |>).
Proof. exact isdu_cleared_wf. Qed.

Lemma world_demo_wf : iw_wf world_demo.
Proof. split; [apply isdu_linked_wf|]. split; [apply evq_init_wf | apply params_demo_wf]. Qed.

(** The same device with the vendor name requested. *)
Definition world_requested : isdu_world ram :=
  world_demo<| iw_isdu := (iw_isdu world_demo)<| isdu_state := ISDU_STATE_SERVICE_EXECUTE |>
    <| isdu_header := mk_isdu_header IOLINK_ISDU_SERVICE_TYPE_READ 0 IOLINK_IDX_VENDOR_NAME 0 |> |>.

Lemma world_requested_wf : iw_wf world_requested.
Proof.
  split; [|split; [apply evq_init_wf | apply params_demo_wf]].
  unfold isdu_wf, isdu_header_wf. split_and!; try done; try (exact (bytes_ok_replicate 256)). by left.
Qed.

Lemma isdu_process_refines_witness :
  exists s', iolink_isdu_process world_requested = Done (tt, s') /\ iw_wf s' /\
    evq_abs (iw_events s') = [].
Proof.
  destruct (isdu_process_refines world_requested world_requested_wf) as (s' & H1 & H2 & H3).
  exists s'. split; [exact H1|]. split; [exact H2|]. exact (proj1 H3).
Defined.

Lemma isdu_request_served_witness :
  exists s', isdu_exchange (ReadRequest IOLINK_IDX_MIN_CYCLE_TIME 0) 5 2 world_demo =
    Done (answer_wire [di_min_cycle_time default_info], s') /\ iw_wf s'.
Proof.
  destruct (isdu_request_served world_demo (ReadRequest IOLINK_IDX_MIN_CYCLE_TIME 0) 5 world_demo_wf
    (or_introl eq_refl) ltac:(done) ltac:(done)) as (w & s' & H1 & H2 & H3 & _).
  exists s'. split; [|exact H3]. rewrite H2 in H1. exact H1.
Defined.

Lemma isdu_tag_over_the_wire_witness :
  exists s1 s2,
    isdu_exchange (WriteRequest IOLINK_IDX_FUNCTION_TAG 0 [80; 117; 109]) 0 2 world_demo = Done ([0xc0], s1) /\
    isdu_exchange (ReadRequest IOLINK_IDX_FUNCTION_TAG 0) 0 6 s1 = Done ([0x80; 80; 1; 117; 0x42; 109], s2).
Proof.
  destruct (isdu_tag_over_the_wire world_demo IOLINK_IDX_FUNCTION_TAG [80; 117; 109] 0 0 0 0 world_demo_wf
    (or_introl eq_refl) (or_introl eq_refl) ltac:(repeat (constructor; try done)) ltac:(done) ltac:(done)
    ltac:(done) ltac:(done) ltac:(done)) as (s1 & s2 & H1 & H2 & _).
  exists s1, s2. split; [exact H1 | exact H2].
Defined.

Lemma isdu_dropped_writes_witness :
  exists s', isdu_exchange (WriteRequest IOLINK_IDX_DETAILED_DEVICE_STATUS 0 [1]) 0 2 world_demo = Done ([], s').
Proof.
  destruct (isdu_dropped_writes world_demo IOLINK_IDX_DETAILED_DEVICE_STATUS 0 [1] 0 0 world_demo_wf
    (or_introl eq_refl) ltac:(done) ltac:(repeat (constructor; try done)) ltac:(done) ltac:(done)
    (or_introl eq_refl)) as (s' & H & _).
  exists s'. exact H.
Defined.

(** The device with its Data Storage locked. *)
Definition world_locked : isdu_world ram :=
  world_demo<| iw_env := (iw_env world_demo)<| pe_info :=
    exec (iolink_device_info_set_access_locks IOLINK_LOCK_DS) (pe_info (iw_env world_demo)) |> |>.

Lemma world_locked_wf : iw_wf world_locked.
Proof.
  split; [apply isdu_linked_wf|]. split; [apply evq_init_wf|].
  split; [apply set_access_locks_wf; [done | apply params_demo_wf] | apply params_demo_wf].
Qed.

Lemma isdu_ds_commands_witness :
  exists s', isdu_exchange (WriteRequest IOLINK_IDX_SYSTEM_COMMAND 0 [IOLINK_CMD_PARAM_DOWNLOAD]) 0 2
    world_locked = Done ([0xc0], s') /\ ds_state (iw_ds s') = IOLINK_DS_STATE_DOWNLOAD_REQ.
Proof.
  exact (proj2 (proj2 (isdu_ds_commands world_locked IOLINK_CMD_PARAM_DOWNLOAD 0 0 world_locked_wf
    (or_introl eq_refl) ltac:(done) ltac:(done)) eq_refl eq_refl ltac:(vm_compute; done)) eq_refl).
Defined.
