(* ===== verification/Phy.v ===== *)
(** * The PHY interface and the drivers shipped (phy.h, phy_generic.c, phy_virtual.c)

    A PHY is a record of function pointers over the state [W] of the hardware,
    each possibly NULL.  The generic driver is the template of the repository;
    the virtual driver talks to a POSIX file, whose calls are parameters.
    [PhyLaws] states what the data link layer relies on. *)
From S2P Require Export Platform.
#[local] Open Scope Z_scope.

Section phy.
Context {W : Type}.

(** phy.h:47-107 iolink_phy_api_t *)
Record iolink_phy_api_t := mk_phy_api {
  phy_init : option (M W Z);
  phy_set_mode : option (iolink_phy_mode_t -> M W unit);
  phy_set_baudrate : option (iolink_baudrate_t -> M W unit);
  phy_send : option (list Z -> M W Z);
  phy_recv_byte : option (M W (Z * Z));
  phy_detect_wakeup : option (M W Z);
  phy_set_cq_line : option (Z -> M W unit);
  phy_get_voltage_mv : option (M W Z);
  phy_is_short_circuit : option (M W bool)
}.

(** The laws of a PHY whose input is finite: [rx] is the number of bytes it still
    delivers and [tx] the frames it has put on the line.  No function of it
    faults, a byte received is one byte less to receive, a (non-empty) frame
    accepted for sending is on the line and one refused is not, and nothing else brings bytes or sends.  [PhyKeeps]
    is about every function but [recv_byte]. *)
Definition quiet {A} (rx : W -> nat) (tx : W -> list (list Z)) (m : M W A) : Prop :=
  forall w, wp m (fun _ w' => (rx w' <= rx w)%nat /\ tx w' = tx w) w.

Record PhyKeeps (phy : iolink_phy_api_t) (rx : W -> nat) (tx : W -> list (list Z)) : Prop := {
  law_init m : phy_init phy = Some m -> quiet rx tx m;
  law_set_mode m mode : phy_set_mode phy = Some m -> quiet rx tx (m mode);
  law_set_baudrate m b : phy_set_baudrate phy = Some m -> quiet rx tx (m b);
  law_detect_wakeup m : phy_detect_wakeup phy = Some m -> quiet rx tx m;
  law_get_voltage_mv m : phy_get_voltage_mv phy = Some m -> quiet rx tx m;
  law_is_short_circuit m : phy_is_short_circuit phy = Some m -> quiet rx tx m;
  law_send m data : phy_send phy = Some m -> data <> [] -> forall w,
    wp (m data) (fun r w' => (rx w' <= rx w)%nat /\ tx w' = tx w ++ (if decide (0 <= r) then [data] else [])) w
}.

Record PhyLaws (phy : iolink_phy_api_t) (rx : W -> nat) (tx : W -> list (list Z)) : Prop := {
  laws_keep :> PhyKeeps phy rx tx;
  law_recv_byte m : phy_recv_byte phy = Some m -> forall w,
    wp m (fun r w' => (rx w' <= rx w)%nat /\ tx w' = tx w /\ (0 < fst r -> (rx w' < rx w)%nat)) w
}.

(** A PHY that delivers the bytes [pending] in order and reports when there is
    none. *)
Record PhyQueue (phy : iolink_phy_api_t) (pending : W -> list Z) (tx : W -> list (list Z)) : Prop := {
  queue_keep : PhyKeeps phy (fun w => length (pending w)) (fun w => pending w :: tx w);
  queue_recv_byte : exists m, phy_recv_byte phy = Some m /\ forall w,
    wp m (fun r w' => tx w' = tx w /\
      match pending w with
      | [] => fst r <= 0 /\ pending w' = []
      | b :: bs => 0 < fst r /\ snd r = b /\ pending w' = bs
      end) w
}.

Lemma queue_laws phy pending tx :
  PhyQueue phy pending tx -> PhyLaws phy (fun w => length (pending w)) tx.
Proof.
  intros [Hk (m & Hm & Hr)].
  assert (forall A (f : M W A), quiet (fun w => length (pending w)) (fun w => pending w :: tx w) f ->
    quiet (fun w => length (pending w)) tx f) as Hq.
  { intros A f H w. eapply wp_mono; [apply H|]. intros a w' [H1 [= _ H2]]. by split. }
  split; [split|]; intros m'.
  - intros. by eapply Hq, law_init.
  - intros. by eapply Hq, law_set_mode.
  - intros. by eapply Hq, law_set_baudrate.
  - intros. by eapply Hq, law_detect_wakeup.
  - intros. by eapply Hq, law_get_voltage_mv.
  - intros. by eapply Hq, law_is_short_circuit.
  - intros data Hs Hd w. eapply wp_mono; [by eapply law_send|]. intros r w' [H1 [= _ H2]]. by split.
  - intros Hs w. simplify_eq. eapply wp_mono; [apply Hr|]. intros r w' [Htx H]. cbn.
    destruct (pending w) as [|b bs]; destruct H as [? H]; [rewrite H; cbn; split_and!; (done || lia)|].
    destruct H as [_ ->]. cbn. split_and!; (done || lia).
Qed.

(** A PHY that accepts every frame. *)
Definition phy_reliable (phy : iolink_phy_api_t) : Prop :=
  exists send, phy_send phy = Some send /\ forall data w, wp (send data) (fun r _ => 0 <= r) w.
End phy.
#[global] Arguments iolink_phy_api_t W : clear implicits.

(** ** The generic driver (phy_generic.c), over any hardware *)
Module PhyGeneric.
Section generic.
Context {W : Type}.

(** phy_generic.c:11-15 generic_init *)
Definition generic_init : M W Z := mret (-1).
(** phy_generic.c:17-21 generic_set_mode *)
Definition generic_set_mode (mode : iolink_phy_mode_t) : M W unit := mret tt.
(** phy_generic.c:23-27 generic_set_baudrate *)
Definition generic_set_baudrate (baudrate : iolink_baudrate_t) : M W unit := mret tt.
(** phy_generic.c:29-35 generic_send *)
Definition generic_send (data : list Z) : M W Z := mret (-1).
(** The byte is left as the caller had it: it passes an uninitialised one.
    phy_generic.c:37-42 generic_recv_byte *)
Definition generic_recv_byte : M W (Z * Z) := mret (0, 0).
(** phy_generic.c:44-48 generic_detect_wakeup *)
Definition generic_detect_wakeup : M W Z := mret 0.
(** phy_generic.c:50-54 generic_set_cq_line *)
Definition generic_set_cq_line (state : Z) : M W unit := mret tt.
(** phy_generic.c:56-60 generic_get_voltage_mv *)
Definition generic_get_voltage_mv : M W Z := mret (-1).
(** phy_generic.c:62-66 generic_is_short_circuit *)
Definition generic_is_short_circuit : M W bool := mret false.

(** phy_generic.c:68-81 iolink_phy_generic_get *)
Definition iolink_phy_generic_get : iolink_phy_api_t W :=
  mk_phy_api (Some generic_init) (Some generic_set_mode) (Some generic_set_baudrate)
    (Some generic_send) (Some generic_recv_byte) (Some generic_detect_wakeup)
    (Some generic_set_cq_line) (Some generic_get_voltage_mv) (Some generic_is_short_circuit).

(** The template keeps the laws, whatever is on the line: it sends and receives
    nothing. *)
Lemma generic_laws rx tx : PhyLaws iolink_phy_generic_get rx tx.
Proof.
  split; [split|]; cbn; intros; simplify_eq; try intros ?; apply wp_ret; cbn; rewrite ?app_nil_r; split_and?; (done || lia).
Qed.
End generic.
End PhyGeneric.

(** ** The virtual driver (phy_virtual.c), over a POSIX system *)
Module PhyVirtual.

(** The calls the driver makes, on the state [OS] of the system; [read] is of
    one byte.  A negative result is an error. *)
Record posix (OS : Type) := mk_posix {
  os_open : list Z -> OS -> Z * OS;
  os_isatty : Z -> OS -> bool * OS;
  os_tcgetattr : Z -> OS -> Z * OS;
  os_tcsetattr : Z -> OS -> Z * OS;
  os_read : Z -> OS -> Z * Z * OS;
  os_write : Z -> list Z -> OS -> Z * OS
}.
#[global] Arguments os_open {OS}. #[global] Arguments os_isatty {OS}.
#[global] Arguments os_tcgetattr {OS}. #[global] Arguments os_tcsetattr {OS}.
#[global] Arguments os_read {OS}. #[global] Arguments os_write {OS}.

Section virtual.
Context {OS : Type} (p : posix OS).

(** The globals of the driver and the system below it.
    phy_virtual.c:17-18 g_fd *)
Record virtual := mk_virtual {
  g_fd : Z;
  g_port_path : option (list Z);
  g_os : OS
}.

#[export] Instance eta_virtual : Eta virtual := fun r => mk_virtual (g_fd r) (g_port_path r) (g_os r).
#[export] Instance update_g_fd : Update g_fd := ltac:(derive_update).
#[export] Instance update_g_port_path : Update g_port_path := ltac:(derive_update).
#[export] Instance update_g_os : Update g_os := ltac:(derive_update).

Definition sys {A} (call : OS -> A * OS) : M virtual A := fun v =>
  let '(a, os) := call (g_os v) in Done (a, v<| g_os := os |>).

(** phy_virtual.c:20-23 iolink_phy_virtual_set_port *)
Definition iolink_phy_virtual_set_port (port : option (list Z)) : M virtual unit :=
  assign g_port_path port.

(** The messages printed are left out.
    phy_virtual.c:25-62 virtual_init *)
Definition virtual_init : M virtual Z :=
  path ← gets g_port_path;
  match path with
  | None => mret (-1)
  | Some path =>
    fd ← sys (os_open p path);
    assign g_fd fd ;;
    if decide (fd < 0) then mret (-1) else
    tty ← sys (os_isatty p fd);
    if decide (tty = true) then
      got ← sys (os_tcgetattr p fd);
      if decide (got <> 0) then mret (-1) else
      set ← sys (os_tcsetattr p fd);
      if decide (set <> 0) then mret (-1) else mret 0
    else mret 0
  end.

(** phy_virtual.c:64-67 virtual_set_mode *)
Definition virtual_set_mode (mode : iolink_phy_mode_t) : M virtual unit := mret tt.
(** phy_virtual.c:69-72 virtual_set_baudrate *)
Definition virtual_set_baudrate (baudrate : iolink_baudrate_t) : M virtual unit := mret tt.

(** phy_virtual.c:74-83 virtual_send *)
Definition virtual_send (data : list Z) : M virtual Z :=
  fd ← gets g_fd;
  if decide (fd < 0) then mret (-1) else
  if decide (zlen data = 0) then mret 0 else
  sys (os_write p fd data).

(** phy_virtual.c:85-93 virtual_recv_byte *)
Definition virtual_recv_byte : M virtual (Z * Z) :=
  fd ← gets g_fd;
  if decide (fd < 0) then mret (0, 0) else
  r ← sys (os_read p fd);
  mret (if decide (0 < fst r) then 1 else 0, snd r).

(** The loop that looks for 0x55, at most [fuel] bytes long.
    phy_virtual.c:103-107 read *)
Fixpoint wakeup_scan (fuel : nat) (fd : Z) : M virtual Z :=
  match fuel with
  | O => raise OutOfFuel
  | S fuel' =>
    r ← sys (os_read p fd);
    if decide (0 < fst r) then
      if decide (u8 (snd r) = 0x55) then mret 1 else wakeup_scan fuel' fd
    else mret 0
  end.

(** phy_virtual.c:95-109 virtual_detect_wakeup *)
Definition virtual_detect_wakeup (fuel : nat) : M virtual Z :=
  fd ← gets g_fd;
  if decide (fd < 0) then mret 0 else wakeup_scan fuel fd.

(** The fuel of the wake-up scan depends on what the system still delivers.
    phy_virtual.c:111-121 iolink_phy_virtual_get *)
Definition iolink_phy_virtual_get (fuel : OS -> nat) : iolink_phy_api_t virtual :=
  mk_phy_api (Some virtual_init) (Some virtual_set_mode) (Some virtual_set_baudrate)
    (Some virtual_send) (Some virtual_recv_byte)
    (Some (fun v => virtual_detect_wakeup (fuel (g_os v)) v))
    None None None.

(** ** The virtual wake-up *)

(** The bytes a file descriptor delivers before its next empty read. *)
Inductive delivers (fd : Z) : list Z -> OS -> OS -> Prop :=
| delivers_none ret b os os' : os_read p fd os = (ret, b, os') -> ret <= 0 -> delivers fd [] os os'
| delivers_byte ret b bs os os1 os' :
    os_read p fd os = (ret, b, os1) -> 0 < ret -> delivers fd bs os1 os' ->
    delivers fd (u8 b :: bs) os os'.

Lemma wakeup_scan_spec fuel fd bs v os' :
  delivers fd bs (g_os v) os' -> (length bs < fuel)%nat ->
  wp (wakeup_scan fuel fd) (fun r v' =>
    g_fd v' = g_fd v /\
    (r = 1 <-> 0x55 ∈ bs) /\ (r = 0 <-> 0x55 ∉ bs) /\
    (0x55 ∉ bs -> g_os v' = os')) v.
Proof.
  intros H. remember (g_os v) as os eqn:Hos. revert fuel v Hos.
  induction H as [ret b os os' Hr Hret|ret b bs os os1 os' Hr Hret H IH]; intros [|fuel] v -> Hf; cbn in Hf;
    [lia| |lia|]; cbn [wakeup_scan]; wp_step; unfold wp at 1, sys; rewrite Hr.
  - cbn [fst snd]. rewrite decide_False by lia. apply wp_ret. rec_simpl. rewrite elem_of_nil.
    split_and!; [done|naive_solver..].
  - cbn [fst snd]. rewrite decide_True by done.
    case_decide as H55.
    + apply wp_ret. rec_simpl. rewrite H55.
      assert (0x55 ∈ 0x55 :: bs) by (left; done). split_and!; [done|naive_solver lia..].
    + eapply wp_mono; [apply IH; [done|lia]|]. intros r v'. rec_simpl.
      rewrite !not_elem_of_cons, elem_of_cons. intros (-> & ? & ? & ?). naive_solver.
Qed.
End virtual.

(** The virtual wake-up.  On an open port that delivers the bytes [bs] and
    then an empty read, [virtual_detect_wakeup] terminates (a fuel above the
    number of bytes is enough) and reports a wake-up exactly when one of them is
    0x55; without one, every byte delivered has been consumed: bytes that
    arrive while the driver looks for the pulse are lost to the stack. *)
Theorem virtual_wakeup_consumes {OS} (p : posix OS) fuel bs (v : virtual) os' :
  0 <= g_fd v -> delivers p (g_fd v) bs (g_os v) os' -> (length bs < fuel)%nat ->
  exists r v', virtual_detect_wakeup p fuel v = Done (r, v') /\
    (r = 1 <-> 0x55 ∈ bs) /\ (r = 0 <-> 0x55 ∉ bs) /\
    (r = 0 -> g_os v' = os').
Proof.
  intros Hfd Hd Hf. pose proof (wakeup_scan_spec p fuel (g_fd v) bs v os' Hd Hf) as H.
  assert (wp (virtual_detect_wakeup p fuel) (fun r v' =>
    (r = 1 <-> 0x55 ∈ bs) /\ (r = 0 <-> 0x55 ∉ bs) /\ (r = 0 -> g_os v' = os')) v) as Hwp.
  { unfold virtual_detect_wakeup. wp_step. wp_step. rewrite decide_False by lia.
    eapply wp_mono; [exact H|]. intros r v' (_ & H1 & H2 & H3). tauto. }
  apply wp_done in Hwp as (r & v' & ? & ?). by exists r, v'.
Qed.

(** A system with one file, read byte by byte. *)
Definition file_posix : posix (list Z) :=
  mk_posix _ (fun _ os => (3, os)) (fun _ os => (false, os)) (fun _ os => (0, os)) (fun _ os => (0, os))
    (fun _ os => match os with [] => (0, 0, []) | b :: os' => (1, b, os') end)
    (fun _ data os => (zlen data, os)).

Lemma virtual_wakeup_consumes_witness :
  exists v', virtual_detect_wakeup file_posix 5 (mk_virtual 3 None [1; 2; 0x3f]) = Done (0, v') /\ g_os v' = [].
Proof.
  assert (delivers file_posix 3 [1; 2; 0x3f] [1; 2; 0x3f] []) as Hd.
  { apply (delivers_byte _ 3 1 1 [2; 0x3f] _ [2; 0x3f]); [done..|].
    apply (delivers_byte _ 3 1 2 [0x3f] _ [0x3f]); [done..|].
    apply (delivers_byte _ 3 1 0x3f [] _ []); [done..|]. by apply (delivers_none _ 3 0 0 []). }
  destruct (virtual_wakeup_consumes file_posix 5 [1; 2; 0x3f] (mk_virtual 3 None [1; 2; 0x3f]) []
    ltac:(done) Hd ltac:(cbn; lia)) as (r & v' & H1 & _ & H2 & H3).
  assert (r = 0) as -> by (apply H2; by_decide).
  exists v'. split; [exact H1 | exact (H3 eq_refl)].
Defined.
End PhyVirtual.
