(* ===== verification/Dll.v ===== *)
(** * The data link layer (dll.c), state and operations

    The context of the data link layer, its helpers and its interface, but for
    [iolink_dll_process], which is in [DllProcess].  The state of a computation
    is the context together with what its calls reach: the parameters and the
    device information, and the hardware behind the PHY and the platform. *)
From S2P Require Export Crc IsduServices Phy.
#[local] Open Scope Z_scope.

Section dll.
Context {W : Type} `{!Platform W}.

(** ** Data *)

(** The fields of the C structure, in its order.
    dll.h:44-116 iolink_dll_ctx_t *)
Record iolink_dll_ctx_t := mk_dll_ctx {
  dll_state : iolink_dll_state_t;
  dll_phy : option (iolink_phy_api_t W);
  dll_last_activity_ms : Z;
  dll_wakeup_seen : bool;
  dll_m_seq_type : Z;
  dll_pd_in_len : Z;
  dll_pd_out_len : Z;
  dll_od_len : Z;
  dll_pd_valid : bool;
  dll_pd_in_toggle : bool;
  dll_min_cycle_time_us : Z;
  dll_enforce_timing : bool;
  dll_t_ren_limit_us : Z;
  dll_t_ren_override : bool;
  dll_t_pd_delay_us : Z;
  dll_pd_in_len_current : Z;
  dll_pd_out_len_current : Z;
  dll_pd_in_len_max : Z;
  dll_pd_out_len_max : Z;
  dll_phy_mode : iolink_phy_mode_t;
  dll_baudrate : iolink_baudrate_t;
  dll_frame_buf : list Z;
  dll_frame_index : Z;
  dll_req_len : Z;
  dll_last_frame_us : Z;
  dll_last_byte_us : Z;
  dll_last_cycle_start_us : Z;
  dll_t_byte_limit_us : Z;
  dll_wakeup_deadline_us : Z;
  dll_t_pd_deadline_us : Z;
  dll_pd_in : list Z;
  dll_pd_out : list Z;
  dll_crc_errors : Z;
  dll_timeout_errors : Z;
  dll_framing_errors : Z;
  dll_timing_errors : Z;
  dll_t_ren_violations : Z;
  dll_t_cycle_violations : Z;
  dll_t_byte_violations : Z;
  dll_t_pd_violations : Z;
  dll_retry_count : Z;
  dll_total_retries : Z;
  dll_max_retries : Z;
  dll_voltage_faults : Z;
  dll_short_circuits : Z;
  dll_fallback_count : Z;
  dll_sio_fallback_threshold : Z;
  dll_last_response_us : Z;
  dll_response_time_us : Z;
  dll_events : iolink_events_ctx_t;
  dll_isdu : iolink_isdu_ctx_t;
  dll_ds : iolink_ds_ctx_t
}.

#[export] Instance eta_dll_ctx : Eta iolink_dll_ctx_t := fun r =>
  mk_dll_ctx (dll_state r) (dll_phy r) (dll_last_activity_ms r) (dll_wakeup_seen r)
    (dll_m_seq_type r) (dll_pd_in_len r) (dll_pd_out_len r) (dll_od_len r) (dll_pd_valid r)
    (dll_pd_in_toggle r) (dll_min_cycle_time_us r) (dll_enforce_timing r)
    (dll_t_ren_limit_us r) (dll_t_ren_override r) (dll_t_pd_delay_us r)
    (dll_pd_in_len_current r) (dll_pd_out_len_current r) (dll_pd_in_len_max r)
    (dll_pd_out_len_max r) (dll_phy_mode r) (dll_baudrate r) (dll_frame_buf r)
    (dll_frame_index r) (dll_req_len r) (dll_last_frame_us r) (dll_last_byte_us r)
    (dll_last_cycle_start_us r) (dll_t_byte_limit_us r) (dll_wakeup_deadline_us r)
    (dll_t_pd_deadline_us r) (dll_pd_in r) (dll_pd_out r) (dll_crc_errors r)
    (dll_timeout_errors r) (dll_framing_errors r) (dll_timing_errors r)
    (dll_t_ren_violations r) (dll_t_cycle_violations r) (dll_t_byte_violations r)
    (dll_t_pd_violations r) (dll_retry_count r) (dll_total_retries r) (dll_max_retries r)
    (dll_voltage_faults r) (dll_short_circuits r) (dll_fallback_count r)
    (dll_sio_fallback_threshold r) (dll_last_response_us r) (dll_response_time_us r)
    (dll_events r) (dll_isdu r) (dll_ds r).
#[export] Instance update_dll_state : Update dll_state := ltac:(derive_update).
#[export] Instance update_dll_phy : Update dll_phy := ltac:(derive_update).
#[export] Instance update_dll_last_activity_ms : Update dll_last_activity_ms := ltac:(derive_update).
#[export] Instance update_dll_wakeup_seen : Update dll_wakeup_seen := ltac:(derive_update).
#[export] Instance update_dll_m_seq_type : Update dll_m_seq_type := ltac:(derive_update).
#[export] Instance update_dll_pd_in_len : Update dll_pd_in_len := ltac:(derive_update).
#[export] Instance update_dll_pd_out_len : Update dll_pd_out_len := ltac:(derive_update).
#[export] Instance update_dll_od_len : Update dll_od_len := ltac:(derive_update).
#[export] Instance update_dll_pd_valid : Update dll_pd_valid := ltac:(derive_update).
#[export] Instance update_dll_pd_in_toggle : Update dll_pd_in_toggle := ltac:(derive_update).
#[export] Instance update_dll_min_cycle_time_us : Update dll_min_cycle_time_us := ltac:(derive_update).
#[export] Instance update_dll_enforce_timing : Update dll_enforce_timing := ltac:(derive_update).
#[export] Instance update_dll_t_ren_limit_us : Update dll_t_ren_limit_us := ltac:(derive_update).
#[export] Instance update_dll_t_ren_override : Update dll_t_ren_override := ltac:(derive_update).
#[export] Instance update_dll_t_pd_delay_us : Update dll_t_pd_delay_us := ltac:(derive_update).
#[export] Instance update_dll_pd_in_len_current : Update dll_pd_in_len_current := ltac:(derive_update).
#[export] Instance update_dll_pd_out_len_current : Update dll_pd_out_len_current := ltac:(derive_update).
#[export] Instance update_dll_pd_in_len_max : Update dll_pd_in_len_max := ltac:(derive_update).
#[export] Instance update_dll_pd_out_len_max : Update dll_pd_out_len_max := ltac:(derive_update).
#[export] Instance update_dll_phy_mode : Update dll_phy_mode := ltac:(derive_update).
#[export] Instance update_dll_baudrate : Update dll_baudrate := ltac:(derive_update).
#[export] Instance update_dll_frame_buf : Update dll_frame_buf := ltac:(derive_update).
#[export] Instance update_dll_frame_index : Update dll_frame_index := ltac:(derive_update).
#[export] Instance update_dll_req_len : Update dll_req_len := ltac:(derive_update).
#[export] Instance update_dll_last_frame_us : Update dll_last_frame_us := ltac:(derive_update).
#[export] Instance update_dll_last_byte_us : Update dll_last_byte_us := ltac:(derive_update).
#[export] Instance update_dll_last_cycle_start_us : Update dll_last_cycle_start_us := ltac:(derive_update).
#[export] Instance update_dll_t_byte_limit_us : Update dll_t_byte_limit_us := ltac:(derive_update).
#[export] Instance update_dll_wakeup_deadline_us : Update dll_wakeup_deadline_us := ltac:(derive_update).
#[export] Instance update_dll_t_pd_deadline_us : Update dll_t_pd_deadline_us := ltac:(derive_update).
#[export] Instance update_dll_pd_in : Update dll_pd_in := ltac:(derive_update).
#[export] Instance update_dll_pd_out : Update dll_pd_out := ltac:(derive_update).
#[export] Instance update_dll_crc_errors : Update dll_crc_errors := ltac:(derive_update).
#[export] Instance update_dll_timeout_errors : Update dll_timeout_errors := ltac:(derive_update).
#[export] Instance update_dll_framing_errors : Update dll_framing_errors := ltac:(derive_update).
#[export] Instance update_dll_timing_errors : Update dll_timing_errors := ltac:(derive_update).
#[export] Instance update_dll_t_ren_violations : Update dll_t_ren_violations := ltac:(derive_update).
#[export] Instance update_dll_t_cycle_violations : Update dll_t_cycle_violations := ltac:(derive_update).
#[export] Instance update_dll_t_byte_violations : Update dll_t_byte_violations := ltac:(derive_update).
#[export] Instance update_dll_t_pd_violations : Update dll_t_pd_violations := ltac:(derive_update).
#[export] Instance update_dll_retry_count : Update dll_retry_count := ltac:(derive_update).
#[export] Instance update_dll_total_retries : Update dll_total_retries := ltac:(derive_update).
#[export] Instance update_dll_max_retries : Update dll_max_retries := ltac:(derive_update).
#[export] Instance update_dll_voltage_faults : Update dll_voltage_faults := ltac:(derive_update).
#[export] Instance update_dll_short_circuits : Update dll_short_circuits := ltac:(derive_update).
#[export] Instance update_dll_fallback_count : Update dll_fallback_count := ltac:(derive_update).
#[export] Instance update_dll_sio_fallback_threshold : Update dll_sio_fallback_threshold := ltac:(derive_update).
#[export] Instance update_dll_last_response_us : Update dll_last_response_us := ltac:(derive_update).
#[export] Instance update_dll_response_time_us : Update dll_response_time_us := ltac:(derive_update).
#[export] Instance update_dll_events : Update dll_events := ltac:(derive_update).
#[export] Instance update_dll_isdu : Update dll_isdu := ltac:(derive_update).
#[export] Instance update_dll_ds : Update dll_ds := ltac:(derive_update).

(** The context and what its calls reach. *)
Record dll_sys := mk_dll_sys {
  sys_dll : iolink_dll_ctx_t;
  sys_env : params_env W
}.

#[export] Instance eta_dll_sys : Eta dll_sys := fun r => mk_dll_sys (sys_dll r) (sys_env r).
#[export] Instance update_sys_dll : Update sys_dll := ltac:(derive_update).
#[export] Instance update_sys_env : Update sys_env := ltac:(derive_update).

(** ** Access *)

(** [ctx->f] and [ctx->f = v] *)
Definition dget {T} (f : iolink_dll_ctx_t -> T) : M dll_sys T := gets (fun s => f (sys_dll s)).
Definition dset {T} (f : iolink_dll_ctx_t -> T) `{!Update f} (v : T) : M dll_sys unit :=
  modify (fun s => s<| sys_dll := (sys_dll s)<| f := v |> |>).

(** [ctx->f++] on a [uint32_t] *)
Definition dincr (f : iolink_dll_ctx_t -> Z) `{!Update f} : M dll_sys unit :=
  modify (fun s => s<| sys_dll := (sys_dll s)<| f := u32 (f (sys_dll s) + 1) |> |>).

Definition sys_hw_lens : lens dll_sys W :=
  Lens (fun s => pe_hw (sys_env s)) (fun w s => s<| sys_env := (sys_env s)<| pe_hw := w |> |>).
Definition hw {A} : M W A -> M dll_sys A := zoom sys_hw_lens.

Definition dll_events_lens : lens dll_sys iolink_events_ctx_t :=
  Lens (fun s => dll_events (sys_dll s))
       (fun e s => s<| sys_dll := (sys_dll s)<| dll_events := e |> |>).
Definition on_dll_events {A} : M iolink_events_ctx_t A -> M dll_sys A := zoom dll_events_lens.

Definition dll_isdu_lens : lens dll_sys iolink_isdu_ctx_t :=
  Lens (fun s => dll_isdu (sys_dll s))
       (fun c s => s<| sys_dll := (sys_dll s)<| dll_isdu := c |> |>).
Definition on_dll_isdu {A} : M iolink_isdu_ctx_t A -> M dll_sys A := zoom dll_isdu_lens.

(** The clocks, as the C types return them. *)
Definition time_ms : M dll_sys Z :=
  t ← hw (fun w => let '(t, w') := iolink_time_get_ms w in Done (t, w')); mret (u32 t).
Definition time_us : M dll_sys Z :=
  t ← hw (fun w => let '(t, w') := iolink_time_get_us w in Done (t, w')); mret (u64 t).

(** [ctx->phy], dereferenced. *)
Definition phy_deref : M dll_sys (iolink_phy_api_t W) :=
  p ← dget dll_phy;
  match p with Some p => mret p | None => raise NullDeref end.

(** [if (ctx->phy->f != NULL) ctx->phy->f(...);] *)
Definition phy_call {A F} (f : iolink_phy_api_t W -> option F) (k : F -> M W A) : M dll_sys unit :=
  p ← phy_deref;
  match f p with Some m => hw (k m) ;; mret tt | None => mret tt end.

(** [iolink_event_trigger(&ctx->events, code, type)] *)
Definition trigger (code : Z) (type : iolink_event_type_t) : M dll_sys unit :=
  on_dll_events (iolink_event_trigger code type).

(** ** Limits *)

(** dll.c:20-39 dll_get_t_ren_limit_us *)
Definition dll_get_t_ren_limit_us (ctx : iolink_dll_ctx_t) : Z :=
  if decide (dll_t_ren_override ctx = true) then dll_t_ren_limit_us ctx else
  match dll_baudrate ctx with
  | IOLINK_BAUDRATE_COM1 => IOLINK_T_REN_COM1_US
  | IOLINK_BAUDRATE_COM2 => IOLINK_T_REN_COM2_US
  | IOLINK_BAUDRATE_COM3 => IOLINK_T_REN_COM3_US
  end.

(** dll.c:41-62 dll_get_t_byte_limit_us *)
Definition dll_get_t_byte_limit_us (ctx : iolink_dll_ctx_t) : Z :=
  let t_bit_us :=
    match dll_baudrate ctx with
    | IOLINK_BAUDRATE_COM1 => 208
    | IOLINK_BAUDRATE_COM2 => 26
    | IOLINK_BAUDRATE_COM3 => 4
    end in
  u32 (t_bit_us * 16).

(** dll.c:64-70 dll_t_pd_active *)
Definition dll_t_pd_active : M dll_sys bool :=
  deadline ← dget dll_t_pd_deadline_us;
  if decide (deadline = 0) then mret false else
  now ← time_us;
  mret (bool_decide (now < deadline)).

(** [phy->recv_byte(&byte)]: the result and the byte. *)
Definition recv_byte (recv : M W (Z * Z)) : M dll_sys (Z * Z) :=
  r ← hw recv; mret (fst r, u8 (snd r)).

(** The loop, at most [fuel] calls long. dll.c:79-81 recv_byte *)
Fixpoint dll_drain_loop (fuel : nat) (recv : M W (Z * Z)) (saw_byte : bool) : M dll_sys bool :=
  match fuel with
  | O => raise OutOfFuel
  | S fuel' =>
    r ← recv_byte recv;
    if decide (0 < fst r) then dll_drain_loop fuel' recv true else mret saw_byte
  end.

(** dll.c:72-83 dll_drain_rx *)
Definition dll_drain_rx (fuel : nat) : M dll_sys bool :=
  p ← dget dll_phy;
  match p with
  | None => mret false
  | Some p =>
    match phy_recv_byte p with
    | None => mret false
    | Some recv => dll_drain_loop fuel recv false
    end
  end.

(** ** Modes and rates *)

(** dll.c:474-482 iolink_dll_set_baudrate *)
Definition iolink_dll_set_baudrate (baudrate : iolink_baudrate_t) : M dll_sys Z :=
  dset dll_baudrate baudrate ;;
  phy_call phy_set_baudrate (fun f => f baudrate) ;;
  ctx ← dget id;
  dset dll_t_ren_limit_us (dll_get_t_ren_limit_us ctx) ;;
  ctx ← dget id;
  dset dll_t_byte_limit_us (dll_get_t_byte_limit_us ctx) ;;
  mret 0.

(** dll.c:501-507 iolink_dll_set_sio_mode *)
Definition iolink_dll_set_sio_mode : M dll_sys Z :=
  phy_call phy_set_mode (fun f => f IOLINK_PHY_MODE_SIO) ;;
  dset dll_phy_mode IOLINK_PHY_MODE_SIO ;;
  mret 0.

(** dll.c:509-515 iolink_dll_set_sdci_mode *)
Definition iolink_dll_set_sdci_mode : M dll_sys Z :=
  phy_call phy_set_mode (fun f => f IOLINK_PHY_MODE_SDCI) ;;
  dset dll_phy_mode IOLINK_PHY_MODE_SDCI ;;
  mret 0.

(** dll.c:85-107 dll_enter_fallback *)
Definition dll_enter_fallback : M dll_sys unit :=
  count ← dget dll_fallback_count;
  dset dll_fallback_count (u8 (count + 1)) ;;
  dincr dll_total_retries ;;
  count ← dget dll_fallback_count;
  threshold ← dget dll_sio_fallback_threshold;
  if decide (threshold <= count) then
    iolink_dll_set_sio_mode ;;
    iolink_dll_set_baudrate IOLINK_BAUDRATE_COM1 ;;
    dset dll_state IOLINK_DLL_STATE_STARTUP ;;
    dset dll_fallback_count 0 ;;
    dset dll_frame_index 0 ;;
    trigger IOLINK_EVENT_CODE_COMM_ERR_FRAMING IOLINK_EVENT_TYPE_WARNING
  else
    state ← dget dll_state;
    when (state <> IOLINK_DLL_STATE_OPERATE /\ state <> IOLINK_DLL_STATE_ESTAB_COM)
      (iolink_dll_set_baudrate IOLINK_BAUDRATE_COM1 ;;
       dset dll_state IOLINK_DLL_STATE_STARTUP).

(** ** Frames *)

(** dll.c:109-117 dll_handle_preoperate *)
Definition dll_handle_preoperate (mc ck : Z) : M dll_sys unit :=
  when (mc = IOLINK_MC_TRANSITION_COMMAND)
    (dset dll_state IOLINK_DLL_STATE_ESTAB_COM ;;
     dset dll_fallback_count 0).

(** One on-request data byte given to the ISDU engine, and the byte it has to
    send, 0 when it has none. dll.c:123-126 iolink_isdu_collect_byte *)
Definition isdu_exchange_byte (byte : Z) : M iolink_isdu_ctx_t Z :=
  iolink_isdu_collect_byte byte ;;
  r ← iolink_isdu_get_response_byte;
  mret (default 0 r).

(** dll.c:119-134 dll_handle_operate_type0 *)
Definition dll_handle_operate_type0 (mc cks : Z) : M dll_sys unit :=
  od_resp ← on_dll_isdu (isdu_exchange_byte mc);
  ck ← iolink_checksum_ck od_resp 0;
  phy_call phy_send (fun send => send [od_resp; ck]).

(** The on-request data bytes of a frame, one after the other.
    dll.c:146-155 dll_handle_operate_type1_2 *)
Definition dll_exchange_od (od_len : Z) (od_in : list Z) : M dll_sys (list Z) :=
  for_acc (Z.to_nat od_len) 0 [0; 0] (fun i od_out =>
    byte ← rd od_in i;
    r ← on_dll_isdu (isdu_exchange_byte byte);
    wr od_out i r).

(** The status byte. dll.c:158-161 dll_handle_operate_type1_2 *)
Definition dll_status (events toggle valid : bool) : Z :=
  let status := 0x00 in
  let status := if events then Z.lor status IOLINK_OD_STATUS_EVENT else status in
  let status := if toggle then Z.lor status IOLINK_OD_STATUS_PD_TOGGLE else status in
  if valid then Z.lor status IOLINK_OD_STATUS_PD_VALID else status.

(** The on-request bytes behind the process data, the check, and the length of
    the frame. dll.c:169-173 iolink_crc6 *)
Definition dll_finish_response {S} (resp : list Z) (pos od_len : Z) (od_out : list Z) : M S (list Z) :=
  src ← slice od_out 0 od_len;
  resp ← blit resp pos src;
  let pos := u16 (pos + od_len) in
  crc ← iolink_crc6 (Some resp) (u8 pos);
  resp ← wr resp pos crc;
  slice resp 0 (u16 (pos + 1)).

(** The response frame and its length. dll.c:157-173 dll_handle_operate_type1_2 *)
Definition dll_build_response (od_len : Z) (od_out : list Z) : M dll_sys (list Z) :=
  ctx ← dget id;
  resp ← wr (replicate 37 0) 0
           (dll_status (iolink_events_pending (dll_events ctx)) (dll_pd_in_toggle ctx) (dll_pd_valid ctx));
  let pos := 1 in
  let pd_len := dll_pd_in_len_current ctx in
  resp ← (if decide (0 < pd_len) then
            src ← slice (dll_pd_in ctx) 0 pd_len; blit resp pos src
          else mret resp);
  let pos := if decide (0 < pd_len) then u16 (pos + pd_len) else pos in
  dll_finish_response resp pos od_len od_out.

(** The time the response took. dll.c:177-189 dll_handle_operate_type1_2 *)
Definition dll_check_response_time : M dll_sys unit :=
  dset dll_fallback_count 0 ;;
  end_tx_us ← time_us;
  start ← dget dll_last_cycle_start_us;
  dset dll_response_time_us (u32 (u32 end_tx_us - u32 start)) ;;
  enforce ← dget dll_enforce_timing;
  when (enforce = true)
    (ctx ← dget id;
     let limit := dll_get_t_ren_limit_us ctx in
     when (0 < limit /\ limit < dll_response_time_us ctx)
       (dincr dll_timing_errors ;;
        dincr dll_t_ren_violations ;;
        trigger IOLINK_EVENT_COMM_TIMING IOLINK_EVENT_TYPE_WARNING)).

(** The output process data of the frame. dll.c:142-144 dll_handle_operate_type1_2 *)
Definition dll_store_output (frame : list Z) (pd_out_len : Z) : M dll_sys unit :=
  when (0 < pd_out_len)
    (src ← slice frame IOLINK_M_SEQ_HEADER_LEN pd_out_len;
     dst ← dget dll_pd_out;
     dst ← blit dst 0 src;
     dset dll_pd_out dst).

(** dll.c:136-192 dll_handle_operate_type1_2 *)
Definition dll_handle_operate_type1_2 : M dll_sys unit :=
  let pd_offset := IOLINK_M_SEQ_HEADER_LEN in
  pd_out_len ← dget dll_pd_out_len_current;
  let od_offset := u16 (pd_offset + pd_out_len) in
  frame ← dget dll_frame_buf;
  dll_store_output frame pd_out_len ;;
  od_len ← dget dll_od_len;
  src ← slice frame od_offset od_len;
  od_in ← blit [0; 0] 0 src;
  od_out ← dll_exchange_od od_len od_in;
  resp ← dll_build_response od_len od_out;
  p ← phy_deref;
  match phy_send p with
  | Some send => hw (send resp) ;; dll_check_response_time
  | None => mret tt
  end ;;
  now ← time_us;
  dset dll_last_response_us now.

(** dll.c:194-216 dll_poll_diagnostics *)
Definition dll_poll_diagnostics : M dll_sys unit :=
  p ← dget dll_phy;
  match p with
  | None => mret tt
  | Some p =>
    match phy_get_voltage_mv p with
    | Some get =>
      voltage ← hw get;
      when (voltage < 18000 \/ 30000 < voltage)
        (dincr dll_voltage_faults ;;
         trigger IOLINK_EVENT_PHY_VOLTAGE_FAULT IOLINK_EVENT_TYPE_WARNING)
    | None => mret tt
    end ;;
    match phy_is_short_circuit p with
    | Some get =>
      short ← hw get;
      when (short = true)
        (dincr dll_short_circuits ;;
         trigger IOLINK_EVENT_PHY_SHORT_CIRCUIT IOLINK_EVENT_TYPE_ERROR)
    | None => mret tt
    end
  end.

(** ** Start-up *)

(** The context after [memset]. dll.c:220-220 iolink_ctx_zero *)
Definition dll_zero : iolink_dll_ctx_t :=
  mk_dll_ctx IOLINK_DLL_STATE_STARTUP None 0 false 0 0 0 0 false false 0 false 0 false 0 0 0 0 0
    IOLINK_PHY_MODE_INACTIVE IOLINK_BAUDRATE_COM1 (replicate 48 0) 0 0 0 0 0 0 0 0
    (replicate 32 0) (replicate 32 0) 0 0 0 0 0 0 0 0 0 0 0 0 0 0 0 0 0
    iolink_events_init isdu_cleared (iolink_ds_init None).

(** [m_seq_type] is one of the three types 2.
    dll.c:228-229 m_seq_type *)
Definition m_seq_is_type2 (m_seq_type : Z) : Prop :=
  m_seq_type = m_seq_type_val IOLINK_M_SEQ_TYPE_2_1 \/
  m_seq_type = m_seq_type_val IOLINK_M_SEQ_TYPE_2_2 \/
  m_seq_type = m_seq_type_val IOLINK_M_SEQ_TYPE_2_V.
#[export] Instance m_seq_is_type2_dec z : Decision (m_seq_is_type2 z).
Proof. unfold m_seq_is_type2. apply _. Defined.

(** dll.c:218-257 iolink_dll_init *)
Definition iolink_dll_init (phy : option (iolink_phy_api_t W)) : M dll_sys unit :=
  match phy with
  | None => mret tt
  | Some phy =>
    modify (fun s => s<| sys_dll := dll_zero |>) ;;
    dset dll_state IOLINK_DLL_STATE_STARTUP ;;
    dset dll_phy (Some phy) ;;
    dset dll_enforce_timing (bool_decide (IOLINK_TIMING_ENFORCE_DEFAULT <> 0)) ;;
    dset dll_sio_fallback_threshold 3 ;;
    type ← dget dll_m_seq_type;
    dset dll_od_len (if decide (m_seq_is_type2 type) then 2 else 1) ;;
    ctx ← dget id;
    dset dll_pd_in_len_current (dll_pd_in_len ctx) ;;
    dset dll_pd_out_len_current (dll_pd_out_len ctx) ;;
    dset dll_pd_in_len_max (dll_pd_in_len ctx) ;;
    dset dll_pd_out_len_max (dll_pd_out_len ctx) ;;
    dset dll_pd_valid true ;;
    dset dll_baudrate IOLINK_BAUDRATE_COM2 ;;
    phy_call phy_set_baudrate (fun f => f IOLINK_BAUDRATE_COM2) ;;
    on_dll_events (modify (fun _ => iolink_events_init)) ;;
    on_dll_isdu iolink_isdu_init ;;
    dset dll_ds (iolink_ds_init None) ;;
    on_dll_isdu (assign isdu_event_ctx true) ;;
    on_dll_isdu (assign isdu_dll_ctx true) ;;
    ctx ← dget id;
    dset dll_t_ren_limit_us (dll_get_t_ren_limit_us ctx) ;;
    ctx ← dget id;
    dset dll_t_byte_limit_us (dll_get_t_byte_limit_us ctx) ;;
    iolink_dll_set_sio_mode ;;
    mret tt
  end.

(** ** Interface *)

(** dll.c:459-462 iolink_dll_get_state *)
Definition iolink_dll_get_state (ctx : option iolink_dll_ctx_t) : iolink_dll_state_t :=
  match ctx with Some c => dll_state c | None => IOLINK_DLL_STATE_STARTUP end.

(** dll.c:464-467 iolink_dll_get_phy_mode *)
Definition iolink_dll_get_phy_mode (ctx : option iolink_dll_ctx_t) : iolink_phy_mode_t :=
  match ctx with Some c => dll_phy_mode c | None => IOLINK_PHY_MODE_SIO end.

(** dll.c:469-472 iolink_dll_get_baudrate *)
Definition iolink_dll_get_baudrate (ctx : option iolink_dll_ctx_t) : iolink_baudrate_t :=
  match ctx with Some c => dll_baudrate c | None => IOLINK_BAUDRATE_COM2 end.

(** dll.c:484-492 iolink_dll_set_pd_length *)
Definition iolink_dll_set_pd_length (pd_in_len pd_out_len : Z) : M dll_sys Z :=
  if decide (IOLINK_PD_IN_MAX_SIZE < pd_in_len \/ IOLINK_PD_OUT_MAX_SIZE < pd_out_len) then mret (-1)
  else
    dset dll_pd_in_len_current pd_in_len ;;
    dset dll_pd_out_len_current pd_out_len ;;
    mret 0.

(** dll.c:494-499 iolink_dll_get_pd_length *)
Definition iolink_dll_get_pd_length (ctx : iolink_dll_ctx_t) : Z * Z :=
  (dll_pd_in_len_current ctx, dll_pd_out_len_current ctx).

(** dll.c:517-531 iolink_dll_get_stats *)
Definition iolink_dll_get_stats (ctx : iolink_dll_ctx_t) : iolink_dll_stats_t :=
  mk_dll_stats (dll_crc_errors ctx) (dll_timeout_errors ctx) (dll_framing_errors ctx)
    (dll_timing_errors ctx) (dll_t_ren_violations ctx) (dll_t_cycle_violations ctx)
    (dll_t_byte_violations ctx) (dll_t_pd_violations ctx) (dll_total_retries ctx)
    (dll_voltage_faults ctx) (dll_short_circuits ctx).

(** dll.c:533-536 iolink_dll_set_timing_enforcement *)
Definition iolink_dll_set_timing_enforcement (enable : bool) : M dll_sys unit :=
  dset dll_enforce_timing enable.

(** dll.c:538-543 iolink_dll_set_t_ren_limit_us *)
Definition iolink_dll_set_t_ren_limit_us (limit_us : Z) : M dll_sys unit :=
  dset dll_t_ren_limit_us limit_us ;;
  dset dll_t_ren_override (bool_decide (limit_us <> 0)).
End dll.
#[global] Arguments dll_sys W : clear implicits.
#[global] Arguments iolink_dll_ctx_t W : clear implicits.
