(* ===== verification/DllProcess.v ===== *)
(** * [iolink_dll_process] (dll.c:259-457)

    The body of the function in the order of the source: the services, the
    diagnostics, the inactivity timeout, the power-on delay, the wake-up, the
    gap check, and the receive loop, one byte of which is [dll_on_byte].  The
    two loops take the fuel of [iolink_dll_process]; [DllStep] shows that any
    fuel above the number of bytes to receive is enough. *)
From S2P Require Export Dll.
#[local] Open Scope Z_scope.

Section process.
Context {W : Type} `{!Platform W}.

(** What the services reach from the context: the ISDU engine, the events and
    the Data Storage it holds, and its counters through
    [iolink_dll_get_stats]. *)
Definition dll_world (s : dll_sys W) : isdu_world W :=
  let c := sys_dll s in
  mk_isdu_world (dll_isdu c) (dll_events c) (dll_ds c) (iolink_dll_get_stats c) (sys_env s).

Definition put_dll_world (w : isdu_world W) (s : dll_sys W) : dll_sys W :=
  s<| sys_dll := (sys_dll s)<| dll_isdu := iw_isdu w |><| dll_events := iw_events w |>
                            <| dll_ds := iw_ds w |> |>
   <| sys_env := iw_env w |>.

Definition dll_world_lens : lens (dll_sys W) (isdu_world W) := Lens dll_world put_dll_world.

(** The inactivity timeout of one second. dll.c:270-279 last_activity_ms *)
Definition dll_check_activity : M (dll_sys W) unit :=
  now_ms ← time_ms;
  last ← dget dll_last_activity_ms;
  when (last <> 0 /\ 1000 < u32 (now_ms - last))
    (dset dll_last_activity_ms 0 ;;
     mode ← dget dll_phy_mode;
     when (mode <> IOLINK_PHY_MODE_SIO)
       (iolink_dll_set_baudrate IOLINK_BAUDRATE_COM1 ;;
        iolink_dll_set_sio_mode ;; mret tt) ;;
     dset dll_state IOLINK_DLL_STATE_STARTUP ;;
     dset dll_frame_index 0).

(** A violation of the timing rules. dll.c:283-285 timing_errors *)
Definition timing_violation (counter : iolink_dll_ctx_t W -> Z) `{!Update counter} : M (dll_sys W) unit :=
  dincr dll_timing_errors ;;
  dincr counter.

(** Bytes received during the power-on delay are dropped.
    dll.c:282-286 dll_drain_rx *)
Definition dll_power_on_drain (fuel : nat) : M (dll_sys W) unit :=
  saw ← dll_drain_rx fuel;
  when (saw = true)
    (timing_violation dll_t_pd_violations ;;
     trigger IOLINK_EVENT_COMM_TIMING IOLINK_EVENT_TYPE_WARNING).

(** The wake-up in SIO mode. dll.c:291-298 detect_wakeup *)
Definition dll_check_wakeup : M (dll_sys W) unit :=
  p ← phy_deref;
  index ← dget dll_frame_index;
  match phy_detect_wakeup p with
  | Some detect =>
    when (index = 0)
      (found ← hw detect;
       when (0 < found)
         (dset dll_wakeup_seen true ;;
          dset dll_state IOLINK_DLL_STATE_AWAITING_COMM ;;
          now ← time_us;
          dset dll_wakeup_deadline_us (u64 (now + IOLINK_T_DWU_US)) ;;
          iolink_dll_set_sdci_mode ;; mret tt))
  | None => mret tt
  end.

(** Whether a started frame has waited too long for its next byte, [now_us]
    being read when it is needed. dll.c:302-305 t_byte_limit_us *)
Definition dll_gap_exceeded (ctx : iolink_dll_ctx_t W) (now_us : Z) : Prop :=
  (0 < dll_frame_index ctx /\ dll_enforce_timing ctx = true /\ 0 < dll_t_byte_limit_us ctx) /\
  dll_last_byte_us ctx <> 0 /\ dll_t_byte_limit_us ctx < u64 (now_us - dll_last_byte_us ctx).
#[export] Instance dll_gap_exceeded_dec ctx now_us : Decision (dll_gap_exceeded ctx now_us).
Proof. unfold dll_gap_exceeded. apply _. Defined.

(** dll.c:306-311 t_byte_violations *)
Definition dll_gap_violation : M (dll_sys W) unit :=
  timing_violation dll_t_byte_violations ;;
  dincr dll_framing_errors ;;
  trigger IOLINK_EVENT_COMM_TIMING IOLINK_EVENT_TYPE_WARNING ;;
  dset dll_frame_index 0.

(** The gap check before the receive loop. dll.c:302-315 dll_enter_fallback *)
Definition dll_check_gap : M (dll_sys W) unit :=
  ctx ← dget id;
  when ((0 < dll_frame_index ctx /\ dll_enforce_timing ctx = true /\ 0 < dll_t_byte_limit_us ctx) /\
        dll_last_byte_us ctx <> 0)
    (now_us ← time_us;
     when (dll_gap_exceeded ctx now_us)
       (dll_gap_violation ;; dll_enter_fallback)).

(** Whether frames are still to be ignored after a wake-up.
    dll.c:317-321 wakeup_deadline_us *)
Definition dll_awaiting_window : M (dll_sys W) bool :=
  ctx ← dget id;
  if decide ((dll_state ctx = IOLINK_DLL_STATE_AWAITING_COMM /\ dll_enforce_timing ctx = true) /\
             dll_wakeup_deadline_us ctx <> 0)
  then now ← time_us; mret (bool_decide (now < dll_wakeup_deadline_us ctx))
  else mret false.

(** The length of the frame the first byte starts. dll.c:346-365 req_len *)
Definition dll_frame_length (ctx : iolink_dll_ctx_t W) (byte : Z) : Z :=
  let full := u8 (IOLINK_M_SEQ_HEADER_LEN + dll_pd_out_len_current ctx + dll_od_len ctx + 1) in
  let can_be_multi := dll_m_seq_type ctx <> m_seq_type_val IOLINK_M_SEQ_TYPE_0 in
  if decide (dll_baudrate ctx = IOLINK_BAUDRATE_COM1) then 2
  else if decide (can_be_multi /\ dll_state ctx = IOLINK_DLL_STATE_OPERATE) then full
  else if decide (can_be_multi /\ dll_state ctx = IOLINK_DLL_STATE_ESTAB_COM /\
                  byte <> IOLINK_MC_TRANSITION_COMMAND) then full
  else 2.

(** One byte added to the frame. dll.c:341-375 frame_buf *)
Definition dll_assemble (byte now_us : Z) : M (dll_sys W) unit :=
  index ← dget dll_frame_index;
  buf ← dget dll_frame_buf;
  if decide (index = 0) then
    buf ← wr buf 0 byte;
    dset dll_frame_buf buf ;;
    dset dll_frame_index 1 ;;
    dset dll_last_frame_us now_us ;;
    ctx ← dget id;
    dset dll_req_len (dll_frame_length ctx byte)
  else if decide (index < 48) then
    buf ← wr buf index byte;
    dset dll_frame_buf buf ;;
    dset dll_frame_index (u8 (index + 1))
  else
    dset dll_frame_index 0 ;;
    dincr dll_framing_errors.

(** The minimum cycle time. dll.c:378-388 min_cycle_time_us *)
Definition dll_check_cycle : M (dll_sys W) unit :=
  now ← time_us;
  ctx ← dget id;
  when ((dll_enforce_timing ctx = true /\ 0 < dll_min_cycle_time_us ctx /\ dll_last_cycle_start_us ctx <> 0) /\
        u64 (now - dll_last_cycle_start_us ctx) < dll_min_cycle_time_us ctx)
    (timing_violation dll_t_cycle_violations ;;
     trigger IOLINK_EVENT_COMM_TIMING IOLINK_EVENT_TYPE_WARNING) ;;
  dset dll_last_cycle_start_us now.

(** The check of the complete frame. dll.c:390-397 crc_ok *)
Definition dll_crc_ok : M (dll_sys W) bool :=
  req_len ← dget dll_req_len;
  buf ← dget dll_frame_buf;
  if decide (req_len = 2) then
    mc ← rd buf 0;
    crc ← iolink_checksum_ck mc 0;
    sent ← rd buf 1;
    mret (bool_decide (crc = sent))
  else
    crc ← iolink_crc6 (Some buf) (u8 (req_len - 1));
    sent ← rd buf (req_len - 1);
    mret (bool_decide (crc = sent)).

(** The channel bits of the first byte: page (0x20) and reserved (0x60).
    dll.c:415-416 channel *)
Definition dll_bad_channel (mc : Z) : Prop :=
  let channel := Z.land mc 0x60 in channel = 0x20 \/ channel = 0x60.
#[export] Instance dll_bad_channel_dec mc : Decision (dll_bad_channel mc).
Proof. unfold dll_bad_channel. apply _. Defined.

(** dll.c:417-418 framing_errors *)
Definition dll_reject : M (dll_sys W) unit := dincr dll_framing_errors ;; dll_enter_fallback.

(** A complete frame whose check is right. dll.c:400-447 state *)
Definition dll_dispatch : M (dll_sys W) unit :=
  state ← dget dll_state;
  when (state = IOLINK_DLL_STATE_AWAITING_COMM \/ state = IOLINK_DLL_STATE_STARTUP)
    (dset dll_state IOLINK_DLL_STATE_PREOPERATE) ;;
  state ← dget dll_state;
  req_len ← dget dll_req_len;
  buf ← dget dll_frame_buf;
  mc ← rd buf 0;
  ck ← rd buf 1;
  match state with
  | IOLINK_DLL_STATE_PREOPERATE =>
    when (req_len = 2)
      (if decide (mc = IOLINK_MC_TRANSITION_COMMAND) then dll_handle_preoperate mc ck
       else dll_handle_operate_type0 mc ck)
  | IOLINK_DLL_STATE_ESTAB_COM =>
    if decide (2 < req_len) then
      if decide (dll_bad_channel mc) then dll_reject
      else
        dset dll_state IOLINK_DLL_STATE_OPERATE ;;
        dll_handle_operate_type1_2
    else if decide (mc = IOLINK_MC_TRANSITION_COMMAND) then dll_handle_preoperate mc ck
    else dll_handle_operate_type0 mc ck
  | IOLINK_DLL_STATE_OPERATE =>
    if decide (mc = IOLINK_MC_TRANSITION_COMMAND \/ dll_bad_channel mc) then dll_reject
    else if decide (req_len = 2) then dll_handle_operate_type0 mc ck
    else dll_handle_operate_type1_2
  | _ => mret tt
  end.

(** A complete frame. dll.c:378-454 frame_index *)
Definition dll_frame : M (dll_sys W) unit :=
  dll_check_cycle ;;
  crc_ok ← dll_crc_ok;
  (if decide (crc_ok = true) then dll_dispatch
   else dincr dll_crc_errors ;; dll_reject) ;;
  dset dll_frame_index 0.

(** The body of the receive loop. dll.c:325-455 iolink_time_get_us *)
Definition dll_on_byte (byte : Z) : M (dll_sys W) unit :=
  now_us ← time_us;
  now_ms ← time_ms;
  dset dll_last_activity_ms now_ms ;;
  ctx ← dget id;
  when (dll_gap_exceeded ctx now_us) dll_gap_violation ;;
  dset dll_last_byte_us now_us ;;
  dll_assemble byte now_us ;;
  ctx ← dget id;
  when (0 < dll_frame_index ctx /\ dll_req_len ctx <= dll_frame_index ctx) dll_frame.

(** dll.c:324-456 recv_byte *)
Fixpoint dll_receive (fuel : nat) : M (dll_sys W) unit :=
  match fuel with
  | O => raise OutOfFuel
  | S fuel' =>
    p ← phy_deref;
    match phy_recv_byte p with
    | None => mret tt
    | Some recv =>
      r ← recv_byte recv;
      when (0 < fst r) (dll_on_byte (snd r) ;; dll_receive fuel')
    end
  end.

(** dll.c:259-457 iolink_dll_process *)
Definition iolink_dll_process (fuel : nat) : M (dll_sys W) unit :=
  p ← dget dll_phy;
  match p with
  | None => mret tt
  | Some _ =>
    zoom dll_world_lens iolink_isdu_process ;;
    dll_poll_diagnostics ;;
    dll_check_activity ;;
    active ← dll_t_pd_active;
    if decide (active = true) then dll_power_on_drain fuel else
    mode ← dget dll_phy_mode;
    if decide (mode = IOLINK_PHY_MODE_SIO) then dll_check_wakeup else
    dll_check_gap ;;
    waiting ← dll_awaiting_window;
    if decide (waiting = true) then mret tt else dll_receive fuel
  end.
End process.
