(* ===== verification/DllSteps.v ===== *)
(** * Symbolic execution of the data link layer

    What each operation of [Dll] and [DllProcess] does to the context, as a
    function on contexts or a relation, for any PHY that keeps its laws and any
    platform; the hardware state is only followed through [hw_le], which says
    that no input arrived.  The invariant [ctx_wf] and its preservation. *)
From S2P Require Export DllProcess IsduTheorems.
#[local] Open Scope Z_scope.

(** The laws of the platform next to a PHY with finite input. *)
Record PlatformKeeps {W} `{!Platform W} (rx : W -> nat) (tx : W -> list (list Z)) : Prop := {
  keeps_time_ms w :
    (rx (snd (iolink_time_get_ms w)) <= rx w)%nat /\ tx (snd (iolink_time_get_ms w)) = tx w;
  keeps_time_us w :
    (rx (snd (iolink_time_get_us w)) <= rx w)%nat /\ tx (snd (iolink_time_get_us w)) = tx w;
  keeps_nvm_write off data w :
    (rx (snd (iolink_nvm_write off data w)) <= rx w)%nat /\ tx (snd (iolink_nvm_write off data w)) = tx w
}.

Section steps.
Context {W : Type} `{!Platform W} (phy : iolink_phy_api_t W) (rx : W -> nat)
  (tx : W -> list (list Z)).
Context (Hphy : PhyKeeps phy rx tx) (Hplat : PlatformKeeps rx tx).
Implicit Types (c : iolink_dll_ctx_t W) (e : params_env W) (s : dll_sys W).

(** ** The environment of the hardware *)

Definition hw_le e e' : Prop :=
  pe_info e' = pe_info e /\ pe_shadow e' = pe_shadow e /\ (rx (pe_hw e') <= rx (pe_hw e))%nat /\
  tx (pe_hw e') = tx (pe_hw e).

(** The same with the frames [l] sent; those the PHY refuses do not reach the
    line. *)
Definition hw_sends (l : list (list Z)) e e' : Prop :=
  pe_info e' = pe_info e /\ pe_shadow e' = pe_shadow e /\ (rx (pe_hw e') <= rx (pe_hw e))%nat /\
  exists sent, tx (pe_hw e') = tx (pe_hw e) ++ sent /\ sent `sublist_of` l /\ (phy_reliable phy -> sent = l).

#[export] Instance hw_le_preorder : PreOrder hw_le.
Proof.
  split; [done|]. intros e1 e2 e3 (H1 & H2 & H3 & H4) (H5 & H6 & H7 & H8).
  split_and!; first [congruence | lia].
Qed.

Lemma hw_sends_trans l l' e1 e2 e3 : hw_sends l e1 e2 -> hw_sends l' e2 e3 -> hw_sends (l ++ l') e1 e3.
Proof.
  intros (H1 & H2 & H3 & l1 & H4 & Hl1 & Hr1) (H5 & H6 & H7 & l2 & H8 & Hl2 & Hr2).
  split_and!; [congruence..|lia|]. exists (l1 ++ l2). split; [by rewrite H8, H4, app_assoc|].
  split; [by apply sublist_app|]. intros Hr. by rewrite Hr1, Hr2.
Qed.

Lemma hw_le_sends e e' : hw_le e e' -> hw_sends [] e e'.
Proof. intros (H1 & H2 & H3 & H4). split_and!; try done. exists []. by rewrite H4, app_nil_r. Qed.

(** A frame given to the PHY. *)
Lemma sent_sends send data r w' e :
  phy_send phy = Some send -> send data (pe_hw e) = Done (r, w') -> (rx w' <= rx (pe_hw e))%nat ->
  tx w' = tx (pe_hw e) ++ (if decide (0 <= r) then [data] else []) ->
  hw_sends [data] e (e<| pe_hw := w' |>).
Proof.
  intros Hs Hrun Hrx Htx. split_and!; try done. eexists. split; [exact Htx|]. split.
  - case_decide; [done | apply sublist_nil_l].
  - intros (m & Hm & Hr). rewrite Hs in Hm. injection Hm as <-.
    pose proof (wp_elim _ _ _ _ _ (Hr data (pe_hw e)) Hrun) as H. by rewrite decide_True.
Qed.

(** One the PHY has no function for. *)
Lemma unsent_sends l e : phy_send phy = None -> hw_sends l e e.
Proof.
  intros Hs. split_and!; try done. exists []. rewrite app_nil_r. split; [done|].
  split; [apply sublist_nil_l|]. intros (m & Hm & _). congruence.
Qed.

Lemma hw_sends_reliable l e e' : hw_sends l e e' -> phy_reliable phy -> tx (pe_hw e') = tx (pe_hw e) ++ l.
Proof. intros (_ & _ & _ & sent & Htx & _ & Hr) Hrel. by rewrite Htx, Hr. Qed.

Lemma hw_sends_le_r l e1 e2 e3 : hw_sends l e1 e2 -> hw_le e2 e3 -> hw_sends l e1 e3.
Proof. intros H1 H2. rewrite <- (app_nil_r l). eapply hw_sends_trans; [done | by apply hw_le_sends]. Qed.

Lemma hw_sends_le_l l e1 e2 e3 : hw_le e1 e2 -> hw_sends l e2 e3 -> hw_sends l e1 e3.
Proof. intros H1 H2. eapply (hw_sends_trans []); [by apply hw_le_sends | done]. Qed.

Lemma hw_sends_wf l e e' : hw_sends l e e' -> params_wf e -> params_wf e'.
Proof. intros (H1 & H2 & _) [Hi Hs]. split; congruence. Qed.

Lemma hw_le_wf e e' : hw_le e e' -> params_wf e -> params_wf e'.
Proof. intros (H1 & H2 & _) [Hi Hs]. split; congruence. Qed.

(** ** The invariant *)

Definition ctx_wf c : Prop :=
  dll_phy c = Some phy /\ isdu_wf (dll_isdu c) /\ evq_wf (dll_events c) /\
  (zlen (dll_frame_buf c) = 48 /\ bytes_ok (dll_frame_buf c)) /\
  (zlen (dll_pd_in c) = 32 /\ bytes_ok (dll_pd_in c)) /\
  (zlen (dll_pd_out c) = 32 /\ bytes_ok (dll_pd_out c)) /\
  0 <= dll_pd_in_len_current c <= 32 /\ 0 <= dll_pd_out_len_current c <= 32 /\
  1 <= dll_od_len c <= 2 /\ 0 <= dll_frame_index c <= 48 /\
  (0 < dll_frame_index c -> 2 <= dll_req_len c <= 37).

Lemma ctx_wf_phy c : ctx_wf c -> dll_phy c = Some phy.
Proof. by intros [? _]. Qed.

(** ** Primitive steps *)

Lemma wp_dget {T} (f : iolink_dll_ctx_t W -> T) (Q : T -> dll_sys W -> Prop) c e :
  Q (f c) (mk_dll_sys c e) -> wp (dget f) Q (mk_dll_sys c e).
Proof. done. Qed.

Lemma wp_dset {T} (f : iolink_dll_ctx_t W -> T) `{!Update f} v (Q : unit -> dll_sys W -> Prop) c e :
  Q tt (mk_dll_sys (c<| f := v |>) e) -> wp (dset f v) Q (mk_dll_sys c e).
Proof. done. Qed.

Lemma wp_dincr (f : iolink_dll_ctx_t W -> Z) `{!Update f} (Q : unit -> dll_sys W -> Prop) c e :
  Q tt (mk_dll_sys (c<| f := u32 (f c + 1) |>) e) -> wp (dincr f) Q (mk_dll_sys c e).
Proof. done. Qed.

Lemma wp_hw {A} (m : M W A) (P : A -> Prop) (Q : A -> dll_sys W -> Prop) c e :
  wp m (fun a w' => P a /\ (rx w' <= rx (pe_hw e))%nat /\ tx w' = tx (pe_hw e)) (pe_hw e) ->
  (forall a e', P a -> hw_le e e' -> Q a (mk_dll_sys c e')) -> wp (hw m) Q (mk_dll_sys c e).
Proof.
  intros Hm HQ. apply wp_zoom. cbn. eapply wp_mono; [exact Hm|]. intros a w' (Ha & Hw & Ht).
  by apply HQ.
Qed.

Lemma wp_hw_quiet {A} (m : M W A) (Q : A -> dll_sys W -> Prop) c e :
  quiet rx tx m ->
  (forall a e', hw_le e e' -> Q a (mk_dll_sys c e')) -> wp (hw m) Q (mk_dll_sys c e).
Proof.
  intros Hm HQ. apply (wp_hw m (fun _ => True)); [|by auto].
  eapply wp_mono; [apply Hm|]. by split.
Qed.

Lemma wp_time_us (Q : Z -> dll_sys W -> Prop) c e :
  (forall t e', is_u64 t -> hw_le e e' -> Q t (mk_dll_sys c e')) -> wp time_us Q (mk_dll_sys c e).
Proof.
  intros HQ. unfold time_us. wp_step. apply wp_hw_quiet.
  - intros w. pose proof (keeps_time_us rx tx Hplat w). unfold wp. by destruct (iolink_time_get_us w).
  - intros a e' He. wp_step. apply HQ; [by apply Z.mod_pos_bound | done].
Qed.

Lemma wp_time_ms (Q : Z -> dll_sys W -> Prop) c e :
  (forall t e', is_u32 t -> hw_le e e' -> Q t (mk_dll_sys c e')) -> wp time_ms Q (mk_dll_sys c e).
Proof.
  intros HQ. unfold time_ms. wp_step. apply wp_hw_quiet.
  - intros w. pose proof (keeps_time_ms rx tx Hplat w). unfold wp. by destruct (iolink_time_get_ms w).
  - intros a e' He. wp_step. apply HQ; [by apply u32_range | done].
Qed.

Lemma wp_phy_deref (Q : iolink_phy_api_t W -> dll_sys W -> Prop) c e :
  dll_phy c = Some phy -> Q phy (mk_dll_sys c e) -> wp phy_deref Q (mk_dll_sys c e).
Proof. intros Hp HQ. unfold phy_deref. wp_step. apply wp_dget. by rewrite Hp. Qed.

Lemma wp_phy_call {A F} (f : iolink_phy_api_t W -> option F) (k : F -> M W A)
  (Q : unit -> dll_sys W -> Prop) c e :
  dll_phy c = Some phy -> (forall m, f phy = Some m -> quiet rx tx (k m)) ->
  (forall e', hw_le e e' -> Q tt (mk_dll_sys c e')) -> wp (phy_call f k) Q (mk_dll_sys c e).
Proof.
  intros Hp Hk HQ. unfold phy_call. wp_step. apply wp_phy_deref; [done|].
  destruct (f phy) as [m|] eqn:Hf; [|wp_step; by apply HQ].
  wp_step. apply wp_hw_quiet; [by apply Hk|]. intros a e' He. wp_step. by apply HQ.
Qed.

Lemma wp_on_dll_isdu {A} (m : M iolink_isdu_ctx_t A) (Q : A -> dll_sys W -> Prop) c e :
  wp m (fun a i => Q a (mk_dll_sys (c<| dll_isdu := i |>) e)) (dll_isdu c) ->
  wp (on_dll_isdu m) Q (mk_dll_sys c e).
Proof. intros H. exact (wp_zoom dll_isdu_lens m Q (mk_dll_sys c e) H). Qed.

Lemma wp_on_dll_events {A} (m : M iolink_events_ctx_t A) (Q : A -> dll_sys W -> Prop) c e :
  wp m (fun a i => Q a (mk_dll_sys (c<| dll_events := i |>) e)) (dll_events c) ->
  wp (on_dll_events m) Q (mk_dll_sys c e).
Proof. intros H. exact (wp_zoom dll_events_lens m Q (mk_dll_sys c e) H). Qed.

(** The context after an event was triggered. *)
Definition triggered (code : Z) (type : iolink_event_type_t) c : iolink_dll_ctx_t W :=
  c<| dll_events := exec (iolink_event_trigger code type) (dll_events c) |>.

Lemma event_trigger_exec code type ev :
  evq_wf ev ->
  iolink_event_trigger code type ev = Done (tt, exec (iolink_event_trigger code type) ev) /\
  evq_wf (exec (iolink_event_trigger code type) ev) /\
  evq_abs (exec (iolink_event_trigger code type) ev) = fifo_push (evq_abs ev) (mk_event code type).
Proof.
  intros Hwf. pose proof (iolink_event_trigger_spec ev code type Hwf) as H.
  apply wp_done in H as ([] & ev' & Hrun & Hwf' & Habs). unfold exec. rewrite Hrun. done.
Qed.

Lemma wp_trigger code type (Q : unit -> dll_sys W -> Prop) c e :
  evq_wf (dll_events c) ->
  Q tt (mk_dll_sys (triggered code type c) e) -> wp (trigger code type) Q (mk_dll_sys c e).
Proof.
  intros Hwf HQ. unfold trigger. apply wp_on_dll_events.
  eapply wp_intro; [by apply event_trigger_exec|]. exact HQ.
Qed.
End steps.

(** The steps of the data link layer; what is left of a call to the hardware is
    a new environment below the last one. *)
Ltac dll_step :=
  lazymatch goal with
  | |- wp (dget _) _ _ => apply wp_dget; cbv beta delta [id]; rec_simpl
  | |- wp (dset _ _) _ _ => apply wp_dset
  | |- wp (dincr _) _ _ => apply wp_dincr; rec_simpl
  | |- wp (phy_deref) _ _ => apply (wp_phy_deref _); [rec_simpl; first [assumption | done]|]
  | |- wp (trigger _ _) _ _ => apply wp_trigger; [rec_simpl; try assumption|]
  | |- _ => wp_step
  end; cbv beta.

(** ** Modes, rates and the fallback *)

Section operations.
Context {W : Type} `{!Platform W} (phy : iolink_phy_api_t W) (rx : W -> nat)
  (tx : W -> list (list Z)).
Context (Hphy : PhyKeeps phy rx tx) (Hplat : PlatformKeeps rx tx).
Implicit Types (c : iolink_dll_ctx_t W) (e : params_env W) (s : dll_sys W).

(** The context at a rate. *)
Definition at_rate (b : iolink_baudrate_t) c : iolink_dll_ctx_t W :=
  let c := c<| dll_baudrate := b |> in
  let c := c<| dll_t_ren_limit_us := dll_get_t_ren_limit_us c |> in
  c<| dll_t_byte_limit_us := dll_get_t_byte_limit_us c |>.

(** Reading the fields of an updated context. *)
Ltac ctx_simpl := unfold at_rate, triggered; cbv zeta; rec_simpl.

Lemma wp_set_baudrate b (Q : Z -> dll_sys W -> Prop) c e :
  dll_phy c = Some phy -> (forall e', hw_le rx tx e e' -> Q 0 (mk_dll_sys (at_rate b c) e')) ->
  wp (iolink_dll_set_baudrate b) Q (mk_dll_sys c e).
Proof.
  intros Hp HQ. unfold iolink_dll_set_baudrate. repeat dll_step.
  apply (wp_phy_call phy rx tx); [rec_simpl; done | intros; by eapply law_set_baudrate|].
  intros e' He. repeat dll_step. by apply HQ.
Qed.

Lemma wp_set_sio_mode (Q : Z -> dll_sys W -> Prop) c e :
  dll_phy c = Some phy ->
  (forall e', hw_le rx tx e e' -> Q 0 (mk_dll_sys (c<| dll_phy_mode := IOLINK_PHY_MODE_SIO |>) e')) ->
  wp iolink_dll_set_sio_mode Q (mk_dll_sys c e).
Proof.
  intros Hp HQ. unfold iolink_dll_set_sio_mode. wp_step.
  apply (wp_phy_call phy rx tx); [done | intros; by eapply law_set_mode|].
  intros e' He. repeat dll_step. by apply HQ.
Qed.

Lemma wp_set_sdci_mode (Q : Z -> dll_sys W -> Prop) c e :
  dll_phy c = Some phy ->
  (forall e', hw_le rx tx e e' -> Q 0 (mk_dll_sys (c<| dll_phy_mode := IOLINK_PHY_MODE_SDCI |>) e')) ->
  wp iolink_dll_set_sdci_mode Q (mk_dll_sys c e).
Proof.
  intros Hp HQ. unfold iolink_dll_set_sdci_mode. wp_step.
  apply (wp_phy_call phy rx tx); [done | intros; by eapply law_set_mode|].
  intros e' He. repeat dll_step. by apply HQ.
Qed.

(** The context after [dll_enter_fallback]. *)
Definition after_fallback c : iolink_dll_ctx_t W :=
  let n := u8 (dll_fallback_count c + 1) in
  let c := c<| dll_fallback_count := n |><| dll_total_retries := u32 (dll_total_retries c + 1) |> in
  if decide (dll_sio_fallback_threshold c <= n) then
    triggered IOLINK_EVENT_CODE_COMM_ERR_FRAMING IOLINK_EVENT_TYPE_WARNING
      ((at_rate IOLINK_BAUDRATE_COM1 (c<| dll_phy_mode := IOLINK_PHY_MODE_SIO |>))
       <| dll_state := IOLINK_DLL_STATE_STARTUP |><| dll_fallback_count := 0 |><| dll_frame_index := 0 |>)
  else if decide (dll_state c <> IOLINK_DLL_STATE_OPERATE /\ dll_state c <> IOLINK_DLL_STATE_ESTAB_COM)
  then (at_rate IOLINK_BAUDRATE_COM1 c)<| dll_state := IOLINK_DLL_STATE_STARTUP |>
  else c.

Lemma wp_enter_fallback (Q : unit -> dll_sys W -> Prop) c e :
  dll_phy c = Some phy -> evq_wf (dll_events c) ->
  (forall e', hw_le rx tx e e' -> Q tt (mk_dll_sys (after_fallback c) e')) ->
  wp dll_enter_fallback Q (mk_dll_sys c e).
Proof.
  intros Hp Hev HQ. unfold dll_enter_fallback, after_fallback in *. repeat dll_step. cbv zeta in HQ.
  rec_simpl in HQ. case_decide as Hn.
  - wp_step. apply wp_set_sio_mode; [by rec_simpl|]. intros e1 H1. wp_step.
    apply wp_set_baudrate; [by rec_simpl|]. intros e2 H2. wp_step. repeat dll_step.
    apply HQ. by transitivity e1.
  - repeat dll_step. apply wp_when; intros Hst.
    + wp_step. apply wp_set_baudrate; [by rec_simpl|]. intros e1 H1. repeat dll_step.
      rewrite decide_True in HQ by done. by apply HQ.
    + rewrite decide_False in HQ by done. by apply HQ.
Qed.

(** The context after a rejected frame. *)
Definition after_reject c : iolink_dll_ctx_t W :=
  after_fallback (c<| dll_framing_errors := u32 (dll_framing_errors c + 1) |>).

Lemma wp_reject (Q : unit -> dll_sys W -> Prop) c e :
  dll_phy c = Some phy -> evq_wf (dll_events c) ->
  (forall e', hw_le rx tx e e' -> Q tt (mk_dll_sys (after_reject c) e')) ->
  wp dll_reject Q (mk_dll_sys c e).
Proof.
  intros Hp Hev HQ. unfold dll_reject. repeat dll_step. by apply wp_enter_fallback; rec_simpl.
Qed.

(** ** The invariant under updates *)

(** Fields the invariant does not read. *)
Lemma ctx_wf_at_rate b c : ctx_wf phy c -> ctx_wf phy (at_rate b c).
Proof. unfold ctx_wf. by ctx_simpl. Qed.

Lemma ctx_wf_triggered code type c : ctx_wf phy c -> ctx_wf phy (triggered code type c).
Proof.
  intros H. pose proof H as (_ & _ & Hev & _). destruct (event_trigger_exec code type _ Hev) as (_ & Hev' & _).
  unfold ctx_wf, triggered in *. rec_simpl. tauto.
Qed.

Lemma ctx_wf_index0 c : ctx_wf phy c -> ctx_wf phy (c<| dll_frame_index := 0 |>).
Proof. unfold ctx_wf. rec_simpl. intros H. split_and!; try tauto; lia. Qed.

Lemma ctx_wf_fallback c : ctx_wf phy c -> ctx_wf phy (after_fallback c).
Proof.
  intros H. unfold after_fallback. cbv zeta. repeat case_decide.
  - apply ctx_wf_triggered, ctx_wf_index0. revert H. unfold ctx_wf. by ctx_simpl.
  - revert H. unfold ctx_wf. by ctx_simpl.
  - revert H. unfold ctx_wf. by rec_simpl.
Qed.

Lemma ctx_wf_reject c : ctx_wf phy c -> ctx_wf phy (after_reject c).
Proof. intros H. apply ctx_wf_fallback. revert H. unfold ctx_wf. by rec_simpl. Qed.
End operations.

(** Reading the fields of an updated context. *)
Ltac ctx_simpl := unfold at_rate, triggered; cbv zeta; rec_simpl.

(** ** Frames *)

(** On-request data bytes given to the ISDU engine one after the other, with
    the byte it sends for each. *)
Fixpoint isdu_exchange_all (bytes : list Z) : M iolink_isdu_ctx_t (list Z) :=
  match bytes with
  | [] => mret []
  | b :: bytes' => r ← isdu_exchange_byte b; rs ← isdu_exchange_all bytes'; mret (r :: rs)
  end.

Lemma isdu_exchange_byte_wf b i :
  isdu_wf i -> is_u8 b -> wp (isdu_exchange_byte b) (fun r i' => isdu_wf i' /\ is_u8 r) i.
Proof.
  intros Hwf Hb. unfold isdu_exchange_byte. wp_step.
  eapply wp_mono; [by apply iolink_isdu_collect_byte_wf|]. intros ? i1 H1. cbv beta in H1. wp_step.
  eapply wp_mono; [by apply iolink_isdu_get_response_byte_wf|]. intros [r|] i2 [H2 Hr]; wp_step; by split.
Qed.

Lemma isdu_exchange_all_wf bytes i :
  isdu_wf i -> bytes_ok bytes ->
  wp (isdu_exchange_all bytes) (fun rs i' => isdu_wf i' /\ bytes_ok rs /\ length rs = length bytes) i.
Proof.
  intros Hwf Hb. revert i Hwf. induction Hb as [|b bytes Hb _ IH]; intros i Hwf; cbn [isdu_exchange_all].
  - wp_step. split_and!; [done | constructor | done].
  - wp_step. eapply wp_mono; [by apply isdu_exchange_byte_wf|]. intros r i1 [H1 Hr]. wp_step.
    eapply wp_mono; [by apply IH|]. intros rs i2 (H2 & Hrs & Hl). wp_step.
    split_and!; [done | by constructor | cbn; by rewrite Hl].
Qed.

(** The response frame of a cyclic exchange, from the context after the
    on-request data were exchanged. *)
Definition response_body {W} (c : iolink_dll_ctx_t W) (od : list Z) : list Z :=
  dll_status (iolink_events_pending (dll_events c)) (dll_pd_in_toggle c) (dll_pd_valid c) ::
  take (Z.to_nat (dll_pd_in_len_current c)) (dll_pd_in c) ++ od.

Definition response_frame {W} (c : iolink_dll_ctx_t W) (od : list Z) : list Z :=
  response_body c od ++ [crc6 (response_body c od)].

Section frames.
Context {W : Type} `{!Platform W} (phy : iolink_phy_api_t W) (rx : W -> nat)
  (tx : W -> list (list Z)).
Context (Hphy : PhyKeeps phy rx tx) (Hplat : PlatformKeeps rx tx).
Implicit Types (c : iolink_dll_ctx_t W) (e : params_env W) (s : dll_sys W).

Lemma wp_phy_send data (Q : unit -> dll_sys W -> Prop) c e :
  dll_phy c = Some phy -> data <> [] -> (forall e', hw_sends phy rx tx [data] e e' -> Q tt (mk_dll_sys c e')) ->
  wp (phy_call phy_send (fun send => send data)) Q (mk_dll_sys c e).
Proof.
  intros Hp Hd HQ. unfold phy_call. wp_step. apply (wp_phy_deref phy); [done|].
  destruct (phy_send phy) as [m|] eqn:Hs.
  - wp_step. apply wp_zoom. cbn. pose proof (law_send phy rx tx Hphy m data Hs Hd (pe_hw e)) as H.
    apply wp_done in H as (r & w' & Hrun & Hrx & Htx). eapply wp_intro; [exact Hrun|]. wp_step.
    by eapply HQ, sent_sends.
  - wp_step. apply HQ. by apply unsent_sends.
Qed.

Lemma wp_handle_preoperate mc ck (Q : unit -> dll_sys W -> Prop) c e :
  Q tt (mk_dll_sys (if decide (mc = IOLINK_MC_TRANSITION_COMMAND)
                    then c<| dll_state := IOLINK_DLL_STATE_ESTAB_COM |><| dll_fallback_count := 0 |>
                    else c) e) ->
  wp (dll_handle_preoperate mc ck) Q (mk_dll_sys c e).
Proof.
  intros HQ. unfold dll_handle_preoperate, when. destruct (decide (mc = IOLINK_MC_TRANSITION_COMMAND)).
  - by repeat dll_step.
  - by wp_step.
Qed.

(** Type 0: one on-request data byte each way. *)
Lemma wp_handle_operate_type0 mc ck (Q : unit -> dll_sys W -> Prop) c e :
  ctx_wf phy c -> is_u8 mc ->
  (forall od i e', isdu_exchange_byte mc (dll_isdu c) = Done (od, i) -> isdu_wf i -> is_u8 od ->
     hw_sends phy rx tx [[od; crc6 [od; 0]]] e e' -> Q tt (mk_dll_sys (c<| dll_isdu := i |>) e')) ->
  wp (dll_handle_operate_type0 mc ck) Q (mk_dll_sys c e).
Proof.
  intros Hc Hmc HQ. pose proof Hc as (Hp & Hi & _). unfold dll_handle_operate_type0. wp_step.
  apply wp_on_dll_isdu. pose proof (isdu_exchange_byte_wf mc _ Hi Hmc) as H.
  apply wp_done in H as (od & i & Hrun & Hi' & Hod). eapply wp_intro; [exact Hrun|]. wp_step.
  eapply wp_intro; [apply iolink_checksum_ck_eq|].
  apply wp_phy_send; [by rec_simpl | done|]. intros e' He. by apply (HQ od).
Qed.

Lemma wp_exchange_od od_in (Q : list Z -> dll_sys W -> Prop) c e :
  1 <= zlen od_in <= 2 -> bytes_ok od_in -> isdu_wf (dll_isdu c) ->
  (forall rs i, isdu_exchange_all od_in (dll_isdu c) = Done (rs, i) ->
     isdu_wf i -> bytes_ok rs -> length rs = length od_in ->
     Q (rs ++ replicate (2 - length od_in) 0) (mk_dll_sys (c<| dll_isdu := i |>) e)) ->
  wp (dll_exchange_od (zlen od_in) (od_in ++ replicate (2 - length od_in) 0)) Q (mk_dll_sys c e).
Proof.
  intros Hl Hok Hi HQ. unfold dll_exchange_od.
  pose proof (isdu_exchange_all_wf od_in _ Hi Hok) as H.
  apply wp_done in H as (rs & i & Hrun & Hi' & Hrs & Hlen).
  specialize (HQ rs i Hrun Hi' Hrs Hlen).
  assert (forall b i r i1 (Q1 : Z -> dll_sys W -> Prop), isdu_exchange_byte b i = Done (r, i1) ->
    forall c1, dll_isdu c1 = i -> Q1 r (mk_dll_sys (c1<| dll_isdu := i1 |>) e) ->
    wp (on_dll_isdu (isdu_exchange_byte b)) Q1 (mk_dll_sys c1 e)) as Hbyte.
  { intros b j r i1 Q1 Hr c1 <- HQ1. apply wp_on_dll_isdu. by eapply wp_intro. }
  destruct od_in as [|b0 [|b1 [|]]]; [unfold zlen in Hl; cbn in Hl; lia| | |unfold zlen in Hl; cbn in Hl; lia].
  - cbn [isdu_exchange_all] in Hrun. unfold mbind, M_bind in Hrun.
    destruct (isdu_exchange_byte b0 (dll_isdu c)) as [[r0 i0]|] eqn:E0; [|done].
    cbn in Hrun. injection Hrun as <- <-.
    change (Z.to_nat (zlen [b0])) with 1%nat. cbn [for_acc].
    wp_step. wp_step. apply wp_rd; [done|]. cbn. intros x [= <-]. wp_step.
    eapply Hbyte; [exact E0 | done|]. apply wp_wr; [done|]. by wp_step.
  - cbn [isdu_exchange_all] in Hrun. unfold mbind, M_bind in Hrun.
    destruct (isdu_exchange_byte b0 (dll_isdu c)) as [[r0 i0]|] eqn:E0; [|done].
    destruct (isdu_exchange_byte b1 i0) as [[r1 i1]|] eqn:E1; [|done].
    cbn in Hrun. injection Hrun as <- <-.
    change (Z.to_nat (zlen [b0; b1])) with 2%nat. cbn [for_acc].
    wp_step. wp_step. apply wp_rd; [done|]. cbn. intros x [= <-]. wp_step.
    eapply Hbyte; [exact E0 | done|]. apply wp_wr; [done|].
    wp_step. wp_step. apply wp_rd; [done|]. cbn. intros x [= <-]. wp_step.
    eapply Hbyte; [exact E1 | by rec_simpl|]. apply wp_wr; [done|]. wp_step.
    revert HQ. cbn. by destruct c.
Qed.
End frames.
