(* ===== verification/DllFrames.v ===== *)
(** * Frames of the data link layer

    The response of a cyclic exchange, the dispatch of a complete frame and one
    pass of the receive loop, as functions of the context, with the frames they
    send. *)
From S2P Require Export DllSteps.
#[local] Open Scope Z_scope.

(** Filling a buffer from its front. *)
Lemma wp_blit_app {S} (l rest src : list Z) off (Q : list Z -> S -> Prop) s :
  off = zlen l -> zlen src <= zlen rest ->
  Q ((l ++ src) ++ drop (length src) rest) s -> wp (blit (l ++ rest) off src) Q s.
Proof.
  intros -> Hl HQ. pose proof (zlen_nonneg l). apply wp_blit; [lia | rewrite zlen_app; lia|].
  rewrite zlen_to_nat, take_app_length, drop_app_add'; [|done]. by rewrite app_assoc.
Qed.

Lemma wp_wr_app {S} (l rest : list Z) i v (Q : list Z -> S -> Prop) s :
  i = zlen l -> 0 < zlen rest ->
  Q ((l ++ [v]) ++ tail rest) s -> wp (wr (l ++ rest) i v) Q s.
Proof.
  intros -> Hl HQ. pose proof (zlen_nonneg l). apply wp_wr; [rewrite zlen_app; lia|].
  rewrite zlen_to_nat, insert_app_r_alt, Nat.sub_diag by lia.
  destruct rest as [|x rest]; [done|]. cbn. by rewrite <- app_assoc in HQ.
Qed.

(** The end of a response, behind the status byte and the process data. *)
Lemma wp_finish_response {S} front pad od rest (Q : list Z -> S -> Prop) s :
  1 <= zlen front <= 33 -> zlen pad = 37 - zlen front -> 1 <= zlen od <= 2 ->
  Q ((front ++ od) ++ [crc6 (front ++ od)]) s ->
  wp (dll_finish_response (front ++ pad) (zlen front) (zlen od) (od ++ rest)) Q s.
Proof.
  intros Hf Hpad Hod HQ. unfold dll_finish_response. wp_step.
  apply wp_slice; [lia | lia | rewrite zlen_app; pose proof (zlen_nonneg rest); lia|].
  change (Z.to_nat 0) with 0%nat. rewrite drop_0, zlen_to_nat, take_app_length. wp_step.
  apply wp_blit_app; [done | lia|]. wp_step.
  set (body := front ++ od) in *. assert (zlen body = zlen front + zlen od) as Hb by apply zlen_app.
  rewrite u16_small, u8_small by lia.
  assert (zlen (drop (length od) pad) = zlen pad - zlen od) as Hpad2.
  { rewrite <- zlen_to_nat. apply zlen_drop. lia. }
  eapply wp_intro; [apply iolink_crc6_eq; rewrite zlen_app; lia|]. wp_step.
  rewrite <- Hb, zlen_to_nat, take_app_length.
  apply wp_wr_app; [done | lia|].
  rewrite u16_small by lia.
  assert (zlen (body ++ [crc6 body]) = zlen body + 1) as Hfl by (rewrite zlen_app; done).
  pose proof (zlen_nonneg (tail (drop (length od) pad))).
  apply wp_slice; [lia | lia | rewrite zlen_app; lia|].
  change (Z.to_nat 0) with 0%nat. rewrite drop_0, <- Hfl, zlen_to_nat, take_app_length. exact HQ.
Qed.

Section frames.
Context {W : Type} `{!Platform W} (phy : iolink_phy_api_t W) (rx : W -> nat)
  (tx : W -> list (list Z)).
Context (Hphy : PhyKeeps phy rx tx) (Hplat : PlatformKeeps rx tx).
Implicit Types (c : iolink_dll_ctx_t W) (e : params_env W) (s : dll_sys W).

(** ** The cyclic exchange *)

Lemma response_body_length c od :
  ctx_wf phy c -> zlen (response_body c od) = 1 + dll_pd_in_len_current c + zlen od.
Proof.
  intros (_ & _ & _ & _ & (Hz & _) & _ & Hl & _). unfold response_body.
  rewrite zlen_cons, zlen_app, zlen_take by lia. lia.
Qed.

(** The process data, behind the status byte [st]. *)
Lemma wp_pd_copied st (Q : list Z -> dll_sys W -> Prop) c e :
  ctx_wf phy c ->
  Q ((st :: take (Z.to_nat (dll_pd_in_len_current c)) (dll_pd_in c)) ++
     drop (Z.to_nat (dll_pd_in_len_current c)) (replicate 36 0)) (mk_dll_sys c e) ->
  wp (if decide (0 < dll_pd_in_len_current c) then
        src ← slice (dll_pd_in c) 0 (dll_pd_in_len_current c); blit ([st] ++ replicate 36 0) 1 src
      else mret ([st] ++ replicate 36 0)) Q (mk_dll_sys c e).
Proof.
  intros (_ & _ & _ & _ & (Hz & _) & _ & Hl & _) HQ. case_decide.
  - wp_step. apply wp_slice; [lia..|]. change (Z.to_nat 0) with 0%nat. rewrite drop_0.
    apply wp_blit_app; [done| |].
    { rewrite zlen_take by lia. change (zlen (replicate 36 0)) with 36. lia. }
    replace (length (take (Z.to_nat (dll_pd_in_len_current c)) (dll_pd_in c)))
      with (Z.to_nat (dll_pd_in_len_current c)) by (rewrite length_take; unfold zlen in *; lia).
    done.
  - wp_step. replace (dll_pd_in_len_current c) with 0 in HQ by lia. done.
Qed.

Lemma wp_build_response od rest (Q : list Z -> dll_sys W -> Prop) c e :
  ctx_wf phy c -> 1 <= zlen od <= 2 ->
  Q (response_frame c od) (mk_dll_sys c e) ->
  wp (dll_build_response (zlen od) (od ++ rest)) Q (mk_dll_sys c e).
Proof.
  intros Hc Hod HQ. pose proof (response_body_length c od Hc) as Hlen.
  pose proof Hc as (_ & _ & _ & _ & (Hz & _) & _ & Hl & _).
  unfold dll_build_response. wp_step. dll_step. wp_step.
  apply (wp_wr_app []); [done..|]. cbn [app]. wp_step.
  set (st := dll_status _ _ _).
  change (tail (replicate 37 0)) with (replicate 36 0).
  pose proof (zlen_nonneg od).
  assert (exists pos, pos = 1 + dll_pd_in_len_current c /\
    pos = (if decide (0 < dll_pd_in_len_current c) then u16 (1 + dll_pd_in_len_current c) else 1)) as (pos & Hpos & Hpos').
  { eexists. split; [reflexivity|]. case_decide; [by rewrite u16_small by lia | lia]. }
  rewrite <- Hpos'. clear Hpos'.
  apply wp_pd_copied; [done|]. cbv beta.
  set (pd := take _ (dll_pd_in c)).
  assert (zlen pd = dll_pd_in_len_current c) as Hpdl by (apply zlen_take; lia).
  replace pos with (zlen (st :: pd)) by (rewrite zlen_cons; lia).
  apply wp_finish_response; [rewrite zlen_cons; lia| |done | exact HQ].
  rewrite zlen_drop, zlen_cons; change (zlen (replicate 36 0)) with 36; lia.
Qed.

(** The process data and the on-request data of the frame in the buffer. *)
Definition frame_pd c : list Z :=
  take (Z.to_nat (dll_pd_out_len_current c)) (drop 2 (dll_frame_buf c)).
Definition frame_od c : list Z :=
  take (Z.to_nat (dll_od_len c)) (drop (Z.to_nat (2 + dll_pd_out_len_current c)) (dll_frame_buf c)).

Definition pd_written c : iolink_dll_ctx_t W :=
  c<| dll_pd_out := frame_pd c ++ drop (length (frame_pd c)) (dll_pd_out c) |>.

(** The context after the response was timed, [t] being the clock. *)
Definition after_response (t : Z) c : iolink_dll_ctx_t W :=
  let c := c<| dll_fallback_count := 0 |>
            <| dll_response_time_us := u32 (u32 t - u32 (dll_last_cycle_start_us c)) |> in
  if decide (dll_enforce_timing c = true /\
             0 < dll_get_t_ren_limit_us c < dll_response_time_us c) then
    triggered IOLINK_EVENT_COMM_TIMING IOLINK_EVENT_TYPE_WARNING
      (c<| dll_timing_errors := u32 (dll_timing_errors c + 1) |>
        <| dll_t_ren_violations := u32 (dll_t_ren_violations c + 1) |>)
  else c.

Lemma wp_check_response_time (Q : unit -> dll_sys W -> Prop) c e :
  evq_wf (dll_events c) ->
  (forall t e', hw_le rx tx e e' -> Q tt (mk_dll_sys (after_response t c) e')) ->
  wp dll_check_response_time Q (mk_dll_sys c e).
Proof.
  intros Hev HQ. unfold dll_check_response_time, after_response in *. dll_step. dll_step. dll_step.
  apply (wp_time_us rx tx Hplat). intros t e1 _ He1. specialize (HQ t e1 He1). revert HQ. cbv zeta. rec_simpl. intros HQ.
  repeat dll_step. apply wp_when; intros He.
  - repeat dll_step. apply wp_when; intros Hl.
    + rewrite decide_True in HQ by (split; [done | exact Hl]). repeat dll_step. exact HQ.
    + rewrite decide_False in HQ by (intros [_ H]; exact (Hl H)). exact HQ.
  - rewrite decide_False in HQ by tauto. exact HQ.
Qed.

Lemma frame_pd_length c : ctx_wf phy c -> zlen (frame_pd c) = dll_pd_out_len_current c.
Proof.
  intros (_ & _ & _ & (Hz & _) & _ & _ & _ & Hl & _). unfold frame_pd.
  apply zlen_take. change 2%nat with (Z.to_nat 2). rewrite zlen_drop by lia. lia.
Qed.

Lemma frame_od_length c : ctx_wf phy c -> zlen (frame_od c) = dll_od_len c.
Proof.
  intros (_ & _ & _ & (Hz & _) & _ & _ & _ & Hl & Hod & _). unfold frame_od.
  apply zlen_take. rewrite zlen_drop by lia. lia.
Qed.

Lemma frame_od_ok c : ctx_wf phy c -> bytes_ok (frame_od c).
Proof. intros (_ & _ & _ & (_ & Hb) & _). unfold frame_od. auto with bytes. Qed.

Lemma ctx_wf_pd_written c : ctx_wf phy c -> ctx_wf phy (pd_written c).
Proof.
  intros H. pose proof (frame_pd_length c H) as Hl. pose proof H as (_ & _ & _ & (_ & Hb) & _ & (Hz & Ho) & _ & Hlen & _).
  revert H. unfold ctx_wf, pd_written. rec_simpl.
  assert (zlen (frame_pd c ++ drop (length (frame_pd c)) (dll_pd_out c)) = 32) as ->.
  { rewrite zlen_app, <- zlen_to_nat, zlen_drop; lia. }
  assert (bytes_ok (frame_pd c ++ drop (length (frame_pd c)) (dll_pd_out c))) by (unfold frame_pd; auto with bytes).
  tauto.
Qed.

Lemma ctx_wf_isdu c i : ctx_wf phy c -> isdu_wf i -> ctx_wf phy (c<| dll_isdu := i |>).
Proof. unfold ctx_wf. rec_simpl. tauto. Qed.

Lemma ctx_wf_after_response t c : ctx_wf phy c -> ctx_wf phy (after_response t c).
Proof.
  intros H. unfold after_response. cbv zeta. case_decide.
  - apply ctx_wf_triggered. revert H. unfold ctx_wf. by rec_simpl.
  - revert H. unfold ctx_wf. by rec_simpl.
Qed.

(** What a cyclic exchange leaves: the process data written, the ISDU engine
    moved on, and the response timed when there is a line to send it on. *)
Definition exchanged_ctx (i : iolink_isdu_ctx_t) (t1 t2 : Z) c : iolink_dll_ctx_t W :=
  let c1 := (pd_written c)<| dll_isdu := i |> in
  (match phy_send phy with Some _ => after_response t1 c1 | None => c1 end)<| dll_last_response_us := t2 |>.

Lemma ctx_wf_exchanged i t1 t2 c : ctx_wf phy c -> isdu_wf i -> ctx_wf phy (exchanged_ctx i t1 t2 c).
Proof.
  intros H Hi. unfold exchanged_ctx. cbv zeta.
  pose proof (ctx_wf_isdu _ i (ctx_wf_pd_written c H) Hi) as H1.
  destruct (phy_send phy); [apply (ctx_wf_after_response t1) in H1|];
    revert H1; unfold ctx_wf; by rec_simpl.
Qed.

(** The process data of the frame, stored. *)
Lemma wp_pd_store (Q : unit -> dll_sys W -> Prop) c e :
  ctx_wf phy c -> Q tt (mk_dll_sys (pd_written c) e) ->
  wp (dll_store_output (dll_frame_buf c) (dll_pd_out_len_current c)) Q (mk_dll_sys c e).
Proof.
  intros Hc HQ. pose proof (frame_pd_length c Hc) as Hpd.
  pose proof Hc as (_ & _ & _ & (Hz & _) & _ & (Hoz & _) & _ & Hl & _).
  unfold dll_store_output, IOLINK_M_SEQ_HEADER_LEN. apply wp_when; intros H0.
  - wp_step. apply wp_slice; [lia..|]. change (Z.to_nat 2) with 2%nat. fold (frame_pd c).
    repeat dll_step. apply (wp_blit_app [] (dll_pd_out c)); [done | lia|]. by repeat dll_step.
  - unfold pd_written in HQ. assert (frame_pd c = []) as Hnil.
    { destruct (frame_pd c); [done|]. rewrite zlen_cons in Hpd. pose proof (zlen_nonneg l). lia. }
    rewrite Hnil in HQ. cbn [app length] in HQ. rewrite drop_0 in HQ. by destruct c.
Qed.

(** The response, sent when there is a line, and timed. *)
Lemma wp_send_response resp (Q : unit -> dll_sys W -> Prop) c e :
  evq_wf (dll_events c) -> resp <> [] ->
  (forall t e', hw_sends phy rx tx [resp] e e' ->
     Q tt (mk_dll_sys (match phy_send phy with Some _ => after_response t c | None => c end) e')) ->
  wp (match phy_send phy with
      | Some send => hw (send resp) ;; dll_check_response_time
      | None => mret tt
      end) Q (mk_dll_sys c e).
Proof.
  intros Hev Hne HQ. destruct (phy_send phy) as [send|] eqn:Hs.
  - wp_step. apply wp_zoom. pose proof (law_send phy rx tx Hphy send resp Hs Hne (pe_hw e)) as H.
    apply wp_done in H as (r & w' & Hsrun & Hrx & Htx). cbn. eapply wp_intro; [exact Hsrun|].
    apply wp_check_response_time; [done|]. intros t e' He'. apply HQ.
    eapply hw_sends_le_r; [by eapply sent_sends | exact He'].
  - wp_step. apply (HQ 0). by apply unsent_sends.
Qed.

Lemma wp_handle_operate_type1_2 (Q : unit -> dll_sys W -> Prop) c e :
  ctx_wf phy c ->
  (forall od i t1 t2 e',
     isdu_exchange_all (frame_od c) (dll_isdu c) = Done (od, i) -> isdu_wf i -> bytes_ok od ->
     length od = length (frame_od c) -> is_u64 t2 ->
     hw_sends phy rx tx [response_frame c od] e e' ->
     Q tt (mk_dll_sys (exchanged_ctx i t1 t2 c) e')) ->
  wp dll_handle_operate_type1_2 Q (mk_dll_sys c e).
Proof.
  intros Hc HQ. pose proof (frame_pd_length c Hc) as Hpd. pose proof (frame_od_length c Hc) as Hod.
  pose proof (frame_od_ok c Hc) as Hok.
  pose proof Hc as (Hp & Hi & Hev & (Hz & Hb) & _ & (Hoz & Ho) & _ & Hl & Hol & _).
  unfold dll_handle_operate_type1_2. cbv zeta. dll_step. dll_step. dll_step. dll_step. dll_step.
  apply wp_pd_store; [done|]. repeat dll_step.
  rewrite u16_small by (unfold IOLINK_M_SEQ_HEADER_LEN; lia). unfold IOLINK_M_SEQ_HEADER_LEN.
  assert (dll_frame_buf (pd_written c) = dll_frame_buf c) as Hfb by (unfold pd_written; by rec_simpl).
  assert (dll_od_len (pd_written c) = dll_od_len c) as Hol' by (unfold pd_written; by rec_simpl).
  rewrite Hol'. apply wp_slice; [lia..|]. fold (frame_od c). wp_step.
  apply (wp_blit_app [] [0; 0] (frame_od c)); [done | change (zlen [0; 0]) with 2; lia|]. cbn [app].
  assert (drop (length (frame_od c)) [0; 0] = replicate (2 - length (frame_od c)) 0) as ->.
  { assert (length (frame_od c) = 1 \/ length (frame_od c) = 2)%nat as [-> | ->] by (unfold zlen in Hod; lia); done. }
  wp_step. rewrite <- Hod.
  apply wp_exchange_od; [lia | done | unfold pd_written; by rec_simpl|].
  intros od i Hrun Hi' Hrs Hlen. assert (zlen od = zlen (frame_od c)) as Hzl by (unfold zlen; lia).
  wp_step. rewrite <- Hzl.
  apply wp_build_response; [by apply ctx_wf_isdu, Hi'; apply ctx_wf_pd_written | lia|].
  assert (response_frame ((pd_written c)<| dll_isdu := i |>) od = response_frame c od) as ->.
  { unfold response_frame, response_body, pd_written. by rec_simpl. }
  assert (isdu_exchange_all (frame_od c) (dll_isdu c) = Done (od, i)) as Hrun'
    by (revert Hrun; unfold pd_written; by rec_simpl).
  wp_step. apply (wp_phy_deref phy); [unfold pd_written; by rec_simpl|].
  wp_step. apply wp_send_response; [unfold pd_written; by rec_simpl|done|]. intros t1 e1 He1. cbv beta. wp_step.
  apply (wp_time_us rx tx Hplat).
  intros t2 e2 Ht2 He2. repeat dll_step. eapply (HQ od i t1 t2); try done. by eapply hw_sends_le_r.
Qed.
End frames.
