(* ===== verification/DllLoop.v ===== *)
(** * The frame state machine of the data link layer

    The step relations [frame_step] (a complete frame), [byte_step] (a byte
    received) and [bytes_step] (a sequence of them) say what the device does and
    sends; the receive loop of the code refines them, for any PHY that keeps
    its laws, and the invariant is kept along them. *)
From S2P Require Export DllFrames.
#[local] Open Scope Z_scope.

Section machine.
Context {W : Type} `{!Platform W} (phy : iolink_phy_api_t W).
Implicit Types (c : iolink_dll_ctx_t W).

(** ** Frames *)

Definition frame_byte c (i : Z) : Z := default 0 (dll_frame_buf c !! Z.to_nat i).

(** The first byte of the frame, and whether its check is right. *)
Definition frame_mc c : Z := frame_byte c 0.
Definition frame_crc_ok c : Prop :=
  if decide (dll_req_len c = 2) then crc6 [frame_mc c; 0] = frame_byte c 1
  else crc6 (take (Z.to_nat (dll_req_len c - 1)) (dll_frame_buf c)) = frame_byte c (dll_req_len c - 1).

(** The first valid frame ends the start-up. *)
Definition promoted c : iolink_dll_ctx_t W :=
  if decide (dll_state c = IOLINK_DLL_STATE_AWAITING_COMM \/ dll_state c = IOLINK_DLL_STATE_STARTUP)
  then c<| dll_state := IOLINK_DLL_STATE_PREOPERATE |> else c.

Definition forbidden c : Prop :=
  (dll_state c = IOLINK_DLL_STATE_ESTAB_COM /\ 2 < dll_req_len c /\ dll_bad_channel (frame_mc c)) \/
  (dll_state c = IOLINK_DLL_STATE_OPERATE /\
   (frame_mc c = IOLINK_MC_TRANSITION_COMMAND \/ dll_bad_channel (frame_mc c))).

(** A complete frame: the context after it and the frames sent. *)
Inductive frame_step c : iolink_dll_ctx_t W -> list (list Z) -> Prop :=
| frame_bad_crc :
    ~ frame_crc_ok c ->
    frame_step c (after_reject (c<| dll_crc_errors := u32 (dll_crc_errors c + 1) |>)) []
| frame_forbidden :
    frame_crc_ok c -> forbidden c -> frame_step c (after_reject c) []
| frame_transition :
    frame_crc_ok c -> dll_req_len c = 2 -> frame_mc c = IOLINK_MC_TRANSITION_COMMAND ->
    dll_state (promoted c) = IOLINK_DLL_STATE_PREOPERATE \/ dll_state c = IOLINK_DLL_STATE_ESTAB_COM ->
    frame_step c ((promoted c)<| dll_state := IOLINK_DLL_STATE_ESTAB_COM |><| dll_fallback_count := 0 |>) []
| frame_type0 od i :
    frame_crc_ok c -> dll_req_len c = 2 -> frame_mc c <> IOLINK_MC_TRANSITION_COMMAND -> ~ forbidden c ->
    dll_state c <> IOLINK_DLL_STATE_FALLBACK ->
    isdu_exchange_byte (frame_mc c) (dll_isdu c) = Done (od, i) -> isdu_wf i ->
    frame_step c ((promoted c)<| dll_isdu := i |>) [[od; crc6 [od; 0]]]
| frame_cyclic od i t1 t2 :
    frame_crc_ok c -> 2 < dll_req_len c -> ~ forbidden c ->
    dll_state c = IOLINK_DLL_STATE_ESTAB_COM \/ dll_state c = IOLINK_DLL_STATE_OPERATE ->
    isdu_exchange_all (frame_od c) (dll_isdu c) = Done (od, i) -> isdu_wf i ->
    length od = length (frame_od c) -> bytes_ok od -> is_u64 t2 ->
    frame_step c (exchanged_ctx phy i t1 t2 (c<| dll_state := IOLINK_DLL_STATE_OPERATE |>))
      [response_frame c od]
| frame_ignored :
    frame_crc_ok c ->
    (dll_state (promoted c) = IOLINK_DLL_STATE_PREOPERATE /\ dll_req_len c <> 2) \/
    dll_state c = IOLINK_DLL_STATE_FALLBACK ->
    frame_step c (promoted c) [].

(** ** Bytes *)

(** The minimum cycle time checked at [t]. *)
Definition cycle_checked (t : Z) c : iolink_dll_ctx_t W :=
  (if decide ((dll_enforce_timing c = true /\ 0 < dll_min_cycle_time_us c /\ dll_last_cycle_start_us c <> 0) /\
              u64 (t - dll_last_cycle_start_us c) < dll_min_cycle_time_us c) then
     triggered IOLINK_EVENT_COMM_TIMING IOLINK_EVENT_TYPE_WARNING
       (c<| dll_timing_errors := u32 (dll_timing_errors c + 1) |>
         <| dll_t_cycle_violations := u32 (dll_t_cycle_violations c + 1) |>)
   else c)<| dll_last_cycle_start_us := t |>.

Definition gap_violated c : iolink_dll_ctx_t W :=
  (triggered IOLINK_EVENT_COMM_TIMING IOLINK_EVENT_TYPE_WARNING
    (c<| dll_timing_errors := u32 (dll_timing_errors c + 1) |>
      <| dll_t_byte_violations := u32 (dll_t_byte_violations c + 1) |>
      <| dll_framing_errors := u32 (dll_framing_errors c + 1) |>))<| dll_frame_index := 0 |>.

(** A byte received at [t] (in milliseconds [ms]), before it is stored. *)
Definition byte_timed (t ms : Z) c : iolink_dll_ctx_t W :=
  let c := c<| dll_last_activity_ms := ms |> in
  (if decide (dll_gap_exceeded c t) then gap_violated c else c)<| dll_last_byte_us := t |>.

(** The byte stored in the frame. *)
Definition assembled (byte t : Z) c : iolink_dll_ctx_t W :=
  if decide (dll_frame_index c = 0) then
    c<| dll_frame_buf := <[0%nat := byte]> (dll_frame_buf c) |>
     <| dll_frame_index := 1 |><| dll_last_frame_us := t |>
     <| dll_req_len := dll_frame_length c byte |>
  else if decide (dll_frame_index c < 48) then
    c<| dll_frame_buf := <[Z.to_nat (dll_frame_index c) := byte]> (dll_frame_buf c) |>
     <| dll_frame_index := u8 (dll_frame_index c + 1) |>
  else
    c<| dll_frame_index := 0 |><| dll_framing_errors := u32 (dll_framing_errors c + 1) |>.

Definition frame_complete c : Prop := 0 < dll_frame_index c /\ dll_req_len c <= dll_frame_index c.
#[export] Instance frame_complete_dec c : Decision (frame_complete c).
Proof. unfold frame_complete. apply _. Defined.

Inductive byte_step (byte : Z) c : iolink_dll_ctx_t W -> list (list Z) -> Prop :=
| byte_stored t ms c1 :
    c1 = assembled byte t (byte_timed t ms c) -> ~ frame_complete c1 -> is_u64 t -> is_u32 ms ->
    byte_step byte c c1 []
| byte_completes t ms t2 c1 c2 frames :
    c1 = assembled byte t (byte_timed t ms c) -> frame_complete c1 ->
    frame_step (cycle_checked t2 c1) c2 frames -> is_u64 t -> is_u32 ms -> is_u64 t2 ->
    byte_step byte c (c2<| dll_frame_index := 0 |>) frames.

Inductive bytes_step : list Z -> iolink_dll_ctx_t W -> iolink_dll_ctx_t W -> list (list Z) -> Prop :=
| bytes_none c : bytes_step [] c c []
| bytes_cons b bytes c c1 c2 l l' :
    is_u8 b -> byte_step b c c1 l -> bytes_step bytes c1 c2 l' ->
    bytes_step (b :: bytes) c c2 (l ++ l').

(** ** The invariant along the steps *)

Lemma ctx_wf_promoted c : ctx_wf phy c -> ctx_wf phy (promoted c).
Proof. intros H. unfold promoted. case_decide; [|done]. revert H. unfold ctx_wf. by rec_simpl. Qed.

Lemma ctx_wf_frame_step c c' frames :
  ctx_wf phy c -> frame_step c c' frames -> ctx_wf phy c'.
Proof.
  intros H Hs. pose proof (ctx_wf_promoted c H) as Hp. destruct Hs.
  - apply ctx_wf_reject. revert H. unfold ctx_wf. by rec_simpl.
  - by apply ctx_wf_reject.
  - revert Hp. unfold ctx_wf. by rec_simpl.
  - by apply ctx_wf_isdu.
  - apply ctx_wf_exchanged; [|done]. revert H. unfold ctx_wf. by rec_simpl.
  - done.
Qed.

Lemma ctx_wf_byte_timed t ms c : ctx_wf phy c -> ctx_wf phy (byte_timed t ms c).
Proof.
  intros H. assert (ctx_wf phy (c<| dll_last_activity_ms := ms |>)) as H1
    by (revert H; unfold ctx_wf; by rec_simpl).
  unfold byte_timed. cbv zeta.
  enough (ctx_wf phy (if decide (dll_gap_exceeded (c<| dll_last_activity_ms := ms |>) t)
    then gap_violated (c<| dll_last_activity_ms := ms |>) else c<| dll_last_activity_ms := ms |>)) as H2
    by (revert H2; unfold ctx_wf; by rec_simpl).
  case_decide; [|done]. unfold gap_violated. apply ctx_wf_index0, ctx_wf_triggered.
  revert H1. unfold ctx_wf. by rec_simpl.
Qed.

Lemma ctx_wf_cycle_checked t c : ctx_wf phy c -> ctx_wf phy (cycle_checked t c).
Proof.
  intros H. unfold cycle_checked.
  match goal with |- ctx_wf _ (update _ _ ?c1) => enough (ctx_wf phy c1) as H2 end.
  { revert H2. unfold ctx_wf. by rec_simpl. }
  case_decide; [|done]. apply ctx_wf_triggered. revert H. unfold ctx_wf. by rec_simpl.
Qed.

Lemma frame_length_bounds c b : ctx_wf phy c -> 2 <= dll_frame_length c b <= 37.
Proof.
  intros (_ & _ & _ & _ & _ & _ & _ & Hl & Ho & _). unfold dll_frame_length, IOLINK_M_SEQ_HEADER_LEN.
  rewrite u8_small by lia. repeat case_decide; lia.
Qed.

Lemma ctx_wf_assembled b t c : ctx_wf phy c -> is_u8 b -> ctx_wf phy (assembled b t c).
Proof.
  intros H Hb. pose proof (frame_length_bounds c b H) as Hfl.
  unfold assembled. repeat case_decide; [| |by apply ctx_wf_index0 in H; revert H; unfold ctx_wf; rec_simpl].
  - revert H. unfold ctx_wf. rec_simpl. rewrite zlen_insert.
    intros (? & ? & ? & (? & ?) & ? & ? & ? & ? & ? & ? & ?). split_and!; try tauto; try lia. auto with bytes.
  - revert H. unfold ctx_wf. rec_simpl. rewrite zlen_insert.
    intros (? & ? & ? & (? & ?) & ? & ? & ? & ? & ? & ? & Hr).
    rewrite u8_small by lia. split_and!; try tauto; try lia; auto with bytes.
    all: intros _; apply Hr; lia.
Qed.

Lemma ctx_wf_byte_step b c c' frames :
  ctx_wf phy c -> is_u8 b -> byte_step b c c' frames -> ctx_wf phy c'.
Proof.
  intros H Hb [t ms c1 -> _ _ _|t ms t2 c1 c2 l -> _ Hs _ _ _];
    pose proof (ctx_wf_assembled b t _ (ctx_wf_byte_timed t ms c H) Hb) as H1; [done|].
  eapply ctx_wf_index0, ctx_wf_frame_step, Hs. by apply ctx_wf_cycle_checked.
Qed.

Lemma ctx_wf_bytes_step bytes c c' frames :
  ctx_wf phy c -> bytes_step bytes c c' frames -> ctx_wf phy c'.
Proof. intros H Hs. induction Hs; eauto using ctx_wf_byte_step. Qed.
End machine.
