(* ===== verification/DllRefine.v ===== *)
(** * The receive loop refines the frame state machine

    [dll_receive] with fuel above the bytes to receive makes a [bytes_step]: for
    any PHY with the laws [PhyLaws], on some bytes; for a PHY that is a queue
    ([PhyQueue]), on exactly the bytes pending. *)
From S2P Require Export DllLoop.
#[local] Open Scope Z_scope.

Section refine.
Context {W : Type} `{!Platform W} (phy : iolink_phy_api_t W) (rx : W -> nat)
  (tx : W -> list (list Z)).
Context (Hphy : PhyKeeps phy rx tx) (Hplat : PlatformKeeps rx tx).
Implicit Types (c : iolink_dll_ctx_t W) (e : params_env W) (s : dll_sys W).

(** A byte of the frame buffer. *)
Lemma wp_rd_frame i c s (Q : Z -> dll_sys W -> Prop) :
  ctx_wf phy c -> 0 <= i < 48 ->
  (is_u8 (frame_byte c i) -> Q (frame_byte c i) s) -> wp (rd (dll_frame_buf c) i) Q s.
Proof.
  intros (_ & _ & _ & (Hz & Hb) & _) Hi HQ. apply wp_rd; [lia|]. intros x Hx.
  assert (frame_byte c i = x) as <- by (unfold frame_byte; by rewrite Hx).
  apply HQ. unfold frame_byte. rewrite Hx. by eapply bytes_ok_lookup.
Qed.

Lemma wp_crc_ok (Q : bool -> dll_sys W -> Prop) c e :
  ctx_wf phy c -> 2 <= dll_req_len c <= 37 ->
  (forall b, (b = true <-> frame_crc_ok c) -> Q b (mk_dll_sys c e)) ->
  wp dll_crc_ok Q (mk_dll_sys c e).
Proof.
  intros Hc Hr HQ. pose proof Hc as (_ & _ & _ & (Hz & Hb) & _).
  unfold dll_crc_ok. repeat dll_step. unfold frame_crc_ok in HQ.
  destruct (decide (dll_req_len c = 2)) as [H2|H2].
  - wp_step. apply wp_rd_frame; [done | lia|]. intros _. wp_step.
    eapply wp_intro; [apply iolink_checksum_ck_eq|]. wp_step. apply wp_rd_frame; [done | lia|]. intros _.
    wp_step. apply HQ. apply bool_decide_eq_true.
  - wp_step. eapply wp_intro; [apply iolink_crc6_eq; rewrite u8_small; lia|]. rewrite u8_small by lia.
    wp_step. apply wp_rd_frame; [done | lia|]. intros _. wp_step. apply HQ. apply bool_decide_eq_true.
Qed.

Lemma frame_byte_promoted c i : frame_byte (promoted c) i = frame_byte c i.
Proof. unfold promoted, frame_byte. case_decide; by rec_simpl. Qed.
Lemma req_len_promoted c : dll_req_len (promoted c) = dll_req_len c.
Proof. unfold promoted. case_decide; by rec_simpl. Qed.
Lemma isdu_promoted c : dll_isdu (promoted c) = dll_isdu c.
Proof. unfold promoted. case_decide; by rec_simpl. Qed.
Lemma state_promoted c :
  dll_state (promoted c) =
  match dll_state c with
  | IOLINK_DLL_STATE_AWAITING_COMM | IOLINK_DLL_STATE_STARTUP => IOLINK_DLL_STATE_PREOPERATE
  | st => st
  end.
Proof. unfold promoted. case_decide as H; rec_simpl; destruct (dll_state c); intuition congruence. Qed.
Lemma promoted_running c :
  dll_state c = IOLINK_DLL_STATE_ESTAB_COM \/ dll_state c = IOLINK_DLL_STATE_OPERATE \/
  dll_state c = IOLINK_DLL_STATE_FALLBACK -> promoted c = c.
Proof. intros H. unfold promoted. rewrite decide_False; [done|]. intuition congruence. Qed.

Lemma wp_promote (Q : unit -> dll_sys W -> Prop) c e :
  Q tt (mk_dll_sys (promoted c) e) ->
  wp (when (dll_state c = IOLINK_DLL_STATE_AWAITING_COMM \/ dll_state c = IOLINK_DLL_STATE_STARTUP)
        (dset dll_state IOLINK_DLL_STATE_PREOPERATE)) Q (mk_dll_sys c e).
Proof.
  unfold promoted, when. intros HQ. case_decide.
  - by dll_step.
  - by wp_step.
Qed.

(** A type 0 exchange as a step. *)
Lemma wp_type0_step (Q : unit -> dll_sys W -> Prop) c e :
  ctx_wf phy c -> frame_crc_ok c -> dll_req_len c = 2 ->
  frame_mc c <> IOLINK_MC_TRANSITION_COMMAND -> ~ forbidden c ->
  dll_state c <> IOLINK_DLL_STATE_FALLBACK ->
  (forall c' frames e', frame_step phy c c' frames -> hw_sends phy rx tx frames e e' ->
     Q tt (mk_dll_sys c' e')) ->
  wp (dll_handle_operate_type0 (frame_mc c) (frame_byte c 1)) Q (mk_dll_sys (promoted c) e).
Proof.
  intros Hc Hcrc H2 Hmc Hf Hst HQ.
  apply (wp_handle_operate_type0 phy rx tx Hphy); [by apply ctx_wf_promoted| |].
  { pose proof Hc as (_ & _ & _ & (Hz & Hb) & _). unfold frame_mc, frame_byte.
    destruct (lookup_lt_is_Some_2 (dll_frame_buf c) (Z.to_nat 0)) as [x Hx]; [unfold zlen in *; lia|].
    rewrite Hx. by eapply bytes_ok_lookup. }
  rewrite isdu_promoted. intros od i e' Hrun Hi Hod He. by eapply HQ; [eapply frame_type0|].
Qed.

(** A cyclic exchange as a step. *)
Lemma wp_cyclic_step (Q : unit -> dll_sys W -> Prop) c e :
  ctx_wf phy c -> frame_crc_ok c -> 2 < dll_req_len c -> ~ forbidden c ->
  dll_state c = IOLINK_DLL_STATE_ESTAB_COM \/ dll_state c = IOLINK_DLL_STATE_OPERATE ->
  (forall c' frames e', frame_step phy c c' frames -> hw_sends phy rx tx frames e e' ->
     Q tt (mk_dll_sys c' e')) ->
  wp dll_handle_operate_type1_2 Q (mk_dll_sys (c<| dll_state := IOLINK_DLL_STATE_OPERATE |>) e).
Proof.
  intros Hc Hcrc H2 Hf Hst HQ. apply (wp_handle_operate_type1_2 phy rx tx Hphy Hplat).
  { revert Hc. unfold ctx_wf. by rec_simpl. }
  intros od i t1 t2 e'.
  assert (frame_od (c<| dll_state := IOLINK_DLL_STATE_OPERATE |>) = frame_od c) as ->
    by (unfold frame_od; by rec_simpl).
  assert (forall od, response_frame (c<| dll_state := IOLINK_DLL_STATE_OPERATE |>) od = response_frame c od)
    as Hresp by (intros; unfold response_frame, response_body; by rec_simpl).
  rewrite Hresp. rec_simpl. intros Hrun Hi Hod Hlen Ht He. by eapply HQ; [eapply frame_cyclic|].
Qed.

Lemma wp_forbidden_step (Q : unit -> dll_sys W -> Prop) c e :
  ctx_wf phy c -> frame_crc_ok c -> forbidden c ->
  (forall c' frames e', frame_step phy c c' frames -> hw_sends phy rx tx frames e e' ->
     Q tt (mk_dll_sys c' e')) ->
  wp dll_reject Q (mk_dll_sys c e).
Proof.
  intros Hc Hcrc Hf HQ. pose proof Hc as (Hp & _ & Hev & _).
  apply (wp_reject phy rx tx Hphy); [done..|]. intros e' He.
  eapply HQ; [by apply frame_forbidden | by apply hw_le_sends].
Qed.

(** Before communication is established only frames of two bytes count. *)
Lemma wp_dispatch_starting (Q : unit -> dll_sys W -> Prop) c e :
  ctx_wf phy c -> frame_crc_ok c ->
  dll_state c = IOLINK_DLL_STATE_AWAITING_COMM \/ dll_state c = IOLINK_DLL_STATE_STARTUP \/
    dll_state c = IOLINK_DLL_STATE_PREOPERATE ->
  (forall c' frames e', frame_step phy c c' frames -> hw_sends phy rx tx frames e e' ->
     Q tt (mk_dll_sys c' e')) ->
  wp (when (dll_req_len c = 2)
        (if decide (frame_mc c = IOLINK_MC_TRANSITION_COMMAND)
         then dll_handle_preoperate (frame_mc c) (frame_byte c 1)
         else dll_handle_operate_type0 (frame_mc c) (frame_byte c 1))) Q (mk_dll_sys (promoted c) e).
Proof.
  intros Hc Hcrc Hst HQ. pose proof (ctx_wf_promoted phy c Hc) as Hpw.
  assert (forall c', frame_step phy c c' [] -> Q tt (mk_dll_sys c' e)) as HQ0.
  { intros c' Hs. eapply HQ; [exact Hs|]. by apply hw_le_sends. }
  assert (dll_state (promoted c) = IOLINK_DLL_STATE_PREOPERATE) as Hps
    by (rewrite state_promoted; destruct Hst as [-> | [-> | ->]]; done).
  assert (~ forbidden c) as Hnf by (unfold forbidden; intuition congruence).
  apply wp_when; intros Hr; [|by apply HQ0, frame_ignored; auto].
  case_decide as Htr.
  - apply wp_handle_preoperate. rewrite decide_True by done. by apply HQ0, frame_transition; auto.
  - apply wp_type0_step; try done. intuition congruence.
Qed.

Lemma wp_dispatch (Q : unit -> dll_sys W -> Prop) c e :
  ctx_wf phy c -> 2 <= dll_req_len c -> frame_crc_ok c ->
  (forall c' frames e', frame_step phy c c' frames -> hw_sends phy rx tx frames e e' ->
     Q tt (mk_dll_sys c' e')) ->
  wp dll_dispatch Q (mk_dll_sys c e).
Proof.
  intros Hc H2 Hcrc HQ. pose proof (ctx_wf_promoted phy c Hc) as Hpw.
  assert (forall c', frame_step phy c c' [] -> Q tt (mk_dll_sys c' e)) as HQ0.
  { intros c' Hs. eapply HQ; [exact Hs|]. by apply hw_le_sends. }
  unfold dll_dispatch. dll_step. dll_step. dll_step. apply wp_promote.
  repeat dll_step. apply wp_rd_frame; [done | lia|]. rewrite frame_byte_promoted.
  change (frame_byte c 0) with (frame_mc c). intros Hmc. wp_step. apply wp_rd_frame; [done | lia|].
  rewrite frame_byte_promoted. intros _. rewrite state_promoted, req_len_promoted.
  destruct (dll_state c) eqn:Hst; try (apply wp_dispatch_starting; (done || tauto)).
  - rewrite promoted_running by tauto. destruct (decide (2 < dll_req_len c)) as [Hl|Hl].
    + case_decide as Hch; [by apply wp_forbidden_step; try done; left|]. dll_step. dll_step.
      apply wp_cyclic_step; try done; [|by left]. unfold forbidden. intuition congruence.
    + assert (dll_req_len c = 2) as H2' by lia.
      case_decide as Htr.
      * apply wp_handle_preoperate. rewrite decide_True by done. apply HQ0.
        rewrite <- (promoted_running c) at 2 by tauto. apply frame_transition; auto.
      * rewrite <- (promoted_running c) at 3 by tauto. apply wp_type0_step; try done; [|congruence].
        unfold forbidden. intuition (congruence || lia).
  - rewrite promoted_running by tauto.
    case_decide as Hch; [by apply wp_forbidden_step; try done; right|].
    assert (~ forbidden c) as Hnf by (unfold forbidden; intuition congruence).
    case_decide as Hl.
    + rewrite <- (promoted_running c) at 3 by tauto. apply wp_type0_step; try done; [|congruence]. tauto.
    + pose proof (wp_cyclic_step Q c e Hc Hcrc ltac:(lia) Hnf ltac:(by right) HQ) as H.
      assert (c<| dll_state := IOLINK_DLL_STATE_OPERATE |> = c) as Heq
        by (destruct c; cbn in Hst; by subst).
      by rewrite Heq in H.
  - rewrite promoted_running by tauto. wp_step. apply HQ0.
    rewrite <- (promoted_running c) at 2 by tauto. apply frame_ignored; auto.
Qed.

(** ** Bytes *)

Lemma wp_check_cycle (Q : unit -> dll_sys W -> Prop) c e :
  evq_wf (dll_events c) ->
  (forall t e', is_u64 t -> hw_le rx tx e e' -> Q tt (mk_dll_sys (cycle_checked t c) e')) ->
  wp dll_check_cycle Q (mk_dll_sys c e).
Proof.
  intros Hev HQ. unfold dll_check_cycle. wp_step. apply (wp_time_us rx tx Hplat). intros t e' Ht He.
  specialize (HQ t e' Ht He). unfold cycle_checked in HQ. repeat dll_step.
  apply wp_when; intros Hv.
  - rewrite decide_True in HQ by done. unfold timing_violation. repeat dll_step. exact HQ.
  - rewrite decide_False in HQ by done. by repeat dll_step.
Qed.

Lemma wp_frame (Q : unit -> dll_sys W -> Prop) c e :
  ctx_wf phy c -> 2 <= dll_req_len c <= 37 ->
  (forall t c' frames e', is_u64 t -> frame_step phy (cycle_checked t c) c' frames -> hw_sends phy rx tx frames e e' ->
     Q tt (mk_dll_sys (c'<| dll_frame_index := 0 |>) e')) ->
  wp dll_frame Q (mk_dll_sys c e).
Proof.
  intros Hc Hr HQ. unfold dll_frame. wp_step. apply wp_check_cycle; [apply Hc|]. intros t e1 Ht He1.
  pose proof (ctx_wf_cycle_checked phy t c Hc) as Hc1.
  assert (dll_req_len (cycle_checked t c) = dll_req_len c) as Hr1
    by (unfold cycle_checked; case_decide; ctx_simpl; done).
  wp_step. apply wp_crc_ok; [done | lia|]. intros b Hb. wp_step.
  assert (forall c' frames e', frame_step phy (cycle_checked t c) c' frames ->
     hw_sends phy rx tx frames e1 e' -> wp (dset dll_frame_index 0) Q (mk_dll_sys c' e')) as Hdone.
  { intros c' frames e' Hs He'. dll_step. eapply HQ; [exact Ht | exact Hs|]. by eapply hw_sends_le_l. }
  case_decide as Hcrc.
  - apply wp_dispatch; [done | lia | by apply Hb | exact Hdone].
  - wp_step. dll_step. pose proof Hc1 as (Hp & _ & Hev & _).
    apply (wp_reject phy rx tx Hphy); [by rec_simpl..|]. intros e' He'.
    eapply Hdone; [apply frame_bad_crc | by apply hw_le_sends]. intros Hok. by apply Hcrc, Hb.
Qed.

Lemma wp_assemble b t (Q : unit -> dll_sys W -> Prop) c e :
  ctx_wf phy c -> Q tt (mk_dll_sys (assembled b t c) e) -> wp (dll_assemble b t) Q (mk_dll_sys c e).
Proof.
  intros (_ & _ & _ & (Hz & _) & _ & _ & _ & _ & _ & Hi & _) HQ. unfold dll_assemble, assembled in *.
  repeat dll_step. repeat case_decide.
  - wp_step. apply wp_wr; [lia|]. repeat dll_step. exact HQ.
  - wp_step. apply wp_wr; [lia|]. repeat dll_step. exact HQ.
  - repeat dll_step. exact HQ.
Qed.

Lemma wp_on_byte b (Q : unit -> dll_sys W -> Prop) c e :
  ctx_wf phy c -> is_u8 b ->
  (forall c' frames e', byte_step phy b c c' frames -> hw_sends phy rx tx frames e e' ->
     Q tt (mk_dll_sys c' e')) ->
  wp (dll_on_byte b) Q (mk_dll_sys c e).
Proof.
  intros Hc Hb HQ. unfold dll_on_byte. wp_step. apply (wp_time_us rx tx Hplat). intros t e1 Ht He1.
  wp_step. apply (wp_time_ms rx tx Hplat). intros ms e2 Hms He2.
  pose proof (ctx_wf_byte_timed phy t ms c Hc) as Hc1.
  pose proof (ctx_wf_assembled phy b t _ Hc1 Hb) as Hc2.
  assert (forall Q1 : unit -> dll_sys W -> Prop,
    Q1 tt (mk_dll_sys (let c := c<| dll_last_activity_ms := ms |> in
      if decide (dll_gap_exceeded c t) then gap_violated c else c) e2) ->
    wp (when (dll_gap_exceeded (c<| dll_last_activity_ms := ms |>) t) dll_gap_violation)
      Q1 (mk_dll_sys (c<| dll_last_activity_ms := ms |>) e2)) as Hgap.
  { intros Q1 HQ1. cbv zeta in HQ1. apply wp_when; intros Hg.
    - rewrite decide_True in HQ1 by done. unfold dll_gap_violation, timing_violation. repeat dll_step.
      { apply Hc. }
      exact HQ1.
    - by rewrite decide_False in HQ1 by done. }
  repeat dll_step. apply Hgap. cbv beta. dll_step. dll_step. fold (byte_timed t ms c).
  dll_step. apply wp_assemble; [done|]. dll_step. dll_step.
  apply wp_when; intros Hcomp.
  - pose proof Hc2 as (_ & _ & _ & _ & _ & _ & _ & _ & _ & _ & Hr).
    apply wp_frame; [done | apply Hr, Hcomp|]. intros t2 c' frames e' Ht2 Hs He'.
    eapply HQ; [by eapply byte_completes|]. do 2 (eapply hw_sends_le_l; [eassumption|]). done.
  - eapply HQ; [by eapply byte_stored|]. apply hw_le_sends. by transitivity e1.
Qed.

End refine.

(** ** The receive loop *)

Section receive.
Context {W : Type} `{!Platform W} (phy : iolink_phy_api_t W).
Implicit Types (c : iolink_dll_ctx_t W) (e : params_env W) (s : dll_sys W).
Context (rx : W -> nat) (tx : W -> list (list Z)) (Hphy : PhyLaws phy rx tx) (Hplat : PlatformKeeps rx tx).

(** With more fuel than there are bytes to receive, the loop ends, and it has
    made the steps of the bytes received and sent their frames. *)
Lemma wp_receive fuel (Q : unit -> dll_sys W -> Prop) c e :
  ctx_wf phy c -> (rx (pe_hw e) < fuel)%nat ->
  (forall bytes c' frames e', bytes_step phy bytes c c' frames -> hw_sends phy rx tx frames e e' ->
     Q tt (mk_dll_sys c' e')) ->
  wp (dll_receive fuel) Q (mk_dll_sys c e).
Proof.
  revert Q c e. induction fuel as [|fuel IH]; intros Q c e Hc Hf HQ; [lia|].
  cbn [dll_receive]. pose proof Hc as (Hp & _). wp_step. apply (wp_phy_deref phy); [done|].
  assert (forall e', hw_le rx tx e e' -> Q tt (mk_dll_sys c e')) as Hnone.
  { intros e' He. eapply HQ; [apply bytes_none | by apply hw_le_sends]. }
  destruct (phy_recv_byte phy) as [recv|] eqn:Hrecv; [|wp_step; by apply Hnone].
  wp_step. unfold recv_byte. wp_step.
  apply (wp_zoom sys_hw_lens). cbn.
  pose proof (law_recv_byte phy rx tx Hphy recv Hrecv (pe_hw e)) as H.
  apply wp_done in H as (r & w' & Hrun & Hrx & Htx & Hlt). eapply wp_intro; [exact Hrun|].
  wp_step. rec_simpl.
  set (e1 := e<| pe_hw := w' |>).
  assert (hw_le rx tx e e1) as He1 by done.
  apply wp_when; intros Hr; [|by apply Hnone]. cbn [fst snd] in *.
  change (update sys_env _ _) with (mk_dll_sys c e1).
  wp_step. apply (wp_on_byte phy rx tx Hphy Hplat); [done | apply u8_range|]. intros c1 l e2 Hs He2.
  apply IH.
  - eapply ctx_wf_byte_step; [exact Hc | apply u8_range | exact Hs].
  - specialize (Hlt Hr). destruct He2 as (_ & _ & He2 & _). unfold e1 in He2. rec_simpl in He2. lia.
  - intros bytes c2 l' e3 Hbs He3. eapply HQ; [eapply bytes_cons; [apply u8_range | exact Hs | exact Hbs]|].
    eapply hw_sends_le_l; [exact He1|]. by eapply hw_sends_trans.
Qed.
End receive.

(** ** Reception from a queue *)

Section queue.
Context {W : Type} `{!Platform W} (phy : iolink_phy_api_t W).
Implicit Types (c : iolink_dll_ctx_t W) (e : params_env W) (s : dll_sys W).
Context (pending : W -> list Z) (tx : W -> list (list Z)).

(** Clocks and memory that leave the line alone. *)
Definition PlatformKeepsLine : Prop :=
  PlatformKeeps (fun w => length (pending w)) (fun w => pending w :: tx w).

Context (Hphy : PhyQueue phy pending tx) (Hplat : PlatformKeepsLine).

(** The frames of the bytes pending are all that is sent. *)
Definition queue_sends (frames : list (list Z)) e e' : Prop :=
  pe_info e' = pe_info e /\ pe_shadow e' = pe_shadow e /\ pending (pe_hw e') = [] /\
  exists sent, tx (pe_hw e') = tx (pe_hw e) ++ sent /\ sent `sublist_of` frames /\
    (phy_reliable phy -> sent = frames).

Lemma queue_sends_reliable frames e e' :
  queue_sends frames e e' -> phy_reliable phy -> tx (pe_hw e') = tx (pe_hw e) ++ frames.
Proof. intros (_ & _ & _ & sent & Htx & _ & Hr) Hrel. by rewrite Htx, Hr. Qed.

(** The loop takes exactly the bytes pending. *)
Lemma wp_receive_queue fuel (Q : unit -> dll_sys W -> Prop) c e :
  ctx_wf phy c -> (length (pending (pe_hw e)) < fuel)%nat -> bytes_ok (pending (pe_hw e)) ->
  (forall c' frames e', bytes_step phy (pending (pe_hw e)) c c' frames -> queue_sends frames e e' ->
     Q tt (mk_dll_sys c' e')) ->
  wp (dll_receive fuel) Q (mk_dll_sys c e).
Proof.
  revert Q c e. induction fuel as [|fuel IH]; intros Q c e Hc Hf Hb HQ; [lia|].
  cbn [dll_receive]. pose proof Hc as (Hp & _). wp_step. apply (wp_phy_deref phy); [done|].
  destruct (queue_recv_byte _ _ _ Hphy) as (recv & Hrecv & Hr). rewrite Hrecv.
  wp_step. unfold recv_byte. wp_step. apply (wp_zoom sys_hw_lens). cbn.
  specialize (Hr (pe_hw e)). apply wp_done in Hr as (r & w' & Hrun & Htx & Hpend).
  eapply wp_intro; [exact Hrun|]. wp_step. rec_simpl. cbn [fst snd].
  change (update sys_env _ _) with (mk_dll_sys c (e<| pe_hw := w' |>)).
  destruct (pending (pe_hw e)) as [|b bs] eqn:Hq.
  - apply wp_when; intros Hr0; [lia|]. apply (HQ c []); [apply bytes_none|].
    destruct Hpend as [_ Hpend]. split_and!; try done. exists []. by rewrite app_nil_r.
  - destruct Hpend as (Hr0 & Hrb & Hbs). apply Forall_cons in Hb as [Hb Hb'].
    apply wp_when; intros Hpos; [|done]. clear Hpos. wp_step. rewrite Hrb, u8_small by done.
    apply (wp_on_byte phy _ _ (queue_keep _ _ _ Hphy) Hplat); [done | done|].
    intros c1 l e2 Hs (Hi & Hsh & _ & l1 & Hkeep & Hl1 & Hr1). rec_simpl in *.
    injection Hkeep as Hpend2 Htx2. rewrite Hbs in Hpend2.
    apply IH; rewrite ?Hpend2.
    + by eapply ctx_wf_byte_step.
    + cbn in Hf. lia.
    + done.
    + intros c2 l' e3 Hbs' (Hi3 & Hsh3 & Hp3 & l2 & Htx3 & Hl2 & Hr2). apply (HQ c2 (l ++ l')).
      * by eapply bytes_cons.
      * split_and!; try congruence. exists (l1 ++ l2). rewrite Htx3, Htx2, Htx.
        split; [by rewrite app_assoc|]. split; [by apply sublist_app|]. intros Hr'. by rewrite Hr1, Hr2.
Qed.
End queue.
