(* ===== verification/DllStep.v ===== *)
(** * One call of [iolink_dll_process] as a step

    [process_step] composes what a call does: the services, the diagnostics, the
    inactivity timeout, and then one of the power-on delay, the wake-up in SIO
    mode, or the gap check and the bytes received.  [iolink_dll_process]
    refines it with any fuel above the number of bytes to receive. *)
From S2P Require Export DllRefine.
#[local] Open Scope Z_scope.

Section process.
Context {W : Type} `{!Platform W} (phy : iolink_phy_api_t W) (rx : W -> nat)
  (tx : W -> list (list Z)).
Implicit Types (c : iolink_dll_ctx_t W) (e : params_env W) (s : dll_sys W).

(** ** The parts of a step *)

Definition services_step s s' : Prop :=
  exists w, iolink_isdu_process (dll_world s) = Done (tt, w) /\ s' = put_dll_world w s.

Definition voltage_faulted c : iolink_dll_ctx_t W :=
  triggered IOLINK_EVENT_PHY_VOLTAGE_FAULT IOLINK_EVENT_TYPE_WARNING
    (c<| dll_voltage_faults := u32 (dll_voltage_faults c + 1) |>).
Definition short_circuited c : iolink_dll_ctx_t W :=
  triggered IOLINK_EVENT_PHY_SHORT_CIRCUIT IOLINK_EVENT_TYPE_ERROR
    (c<| dll_short_circuits := u32 (dll_short_circuits c + 1) |>).

Definition diagnosed c c' : Prop :=
  exists (v s : bool), c' = let c := if v then voltage_faulted c else c in
                            if s then short_circuited c else c.

(** After a second without a byte. *)
Definition timed_out c : iolink_dll_ctx_t W :=
  let c := c<| dll_last_activity_ms := 0 |> in
  let c := if decide (dll_phy_mode c <> IOLINK_PHY_MODE_SIO)
           then (at_rate IOLINK_BAUDRATE_COM1 c)<| dll_phy_mode := IOLINK_PHY_MODE_SIO |> else c in
  c<| dll_state := IOLINK_DLL_STATE_STARTUP |><| dll_frame_index := 0 |>.

Definition activity_checked c c' : Prop :=
  c' = c \/ dll_last_activity_ms c <> 0 /\ c' = timed_out c.

Definition power_on_violated c : iolink_dll_ctx_t W :=
  triggered IOLINK_EVENT_COMM_TIMING IOLINK_EVENT_TYPE_WARNING
    (c<| dll_timing_errors := u32 (dll_timing_errors c + 1) |>
      <| dll_t_pd_violations := u32 (dll_t_pd_violations c + 1) |>).

Definition woken_up (deadline : Z) c : iolink_dll_ctx_t W :=
  c<| dll_wakeup_seen := true |><| dll_state := IOLINK_DLL_STATE_AWAITING_COMM |>
   <| dll_wakeup_deadline_us := deadline |><| dll_phy_mode := IOLINK_PHY_MODE_SDCI |>.

Definition gap_checked c c' : Prop :=
  c' = c \/ 0 < dll_frame_index c /\ dll_enforce_timing c = true /\ c' = after_fallback (gap_violated c).

(** The end of the call: the power-on delay, SIO mode, or communication. *)
Inductive communication_step c : iolink_dll_ctx_t W -> list (list Z) -> Prop :=
| comm_power_on c' :
    dll_t_pd_deadline_us c <> 0 -> c' = c \/ c' = power_on_violated c -> communication_step c c' []
| comm_sio c' :
    dll_phy_mode c = IOLINK_PHY_MODE_SIO ->
    c' = c \/ dll_frame_index c = 0 /\ (exists t, c' = woken_up (u64 (t + IOLINK_T_DWU_US)) c) ->
    communication_step c c' []
| comm_waiting c' :
    dll_phy_mode c <> IOLINK_PHY_MODE_SIO -> gap_checked c c' ->
    dll_state c' = IOLINK_DLL_STATE_AWAITING_COMM -> communication_step c c' []
| comm_bytes c1 c' bytes frames :
    dll_phy_mode c <> IOLINK_PHY_MODE_SIO -> gap_checked c c1 ->
    bytes_step phy bytes c1 c' frames -> communication_step c c' frames.

(** Services bring no input and send nothing on the line. *)
Definition hw_quiet e e' : Prop :=
  (rx (pe_hw e') <= rx (pe_hw e))%nat /\ tx (pe_hw e') = tx (pe_hw e).

Definition process_step s s' (frames : list (list Z)) : Prop :=
  exists s1 c2 c3,
    services_step s s1 /\ hw_quiet (sys_env s) (sys_env s1) /\
    diagnosed (sys_dll s1) c2 /\ activity_checked c2 c3 /\
    communication_step c3 (sys_dll s') frames /\
    hw_sends phy rx tx frames (sys_env s1) (sys_env s').

(** What a call puts on the line. *)
Lemma process_step_sends s s' frames :
  process_step s s' frames ->
  exists sent, tx (pe_hw (sys_env s')) = tx (pe_hw (sys_env s)) ++ sent /\ sent `sublist_of` frames.
Proof.
  intros (s1 & c2 & c3 & _ & [_ Htx] & _ & _ & _ & (_ & _ & _ & sent & Hsent & Hsub & _)).
  exists sent. by rewrite Hsent, Htx.
Qed.

(** The invariant of the system. *)
Definition sys_wf s : Prop := ctx_wf phy (sys_dll s) /\ params_wf (sys_env s).

(** ** The services in the data link layer *)

Lemma dll_world_wf s : sys_wf s -> iw_wf (dll_world s).
Proof. intros [(_ & Hi & He & _) Hp]. by split_and!. Qed.

Lemma put_world_wf s w : sys_wf s -> iw_wf w -> sys_wf (put_dll_world w s).
Proof.
  intros [Hc Hp] (Hi & He & Hp'). split; [|by unfold put_dll_world; rec_simpl].
  revert Hc. unfold ctx_wf, put_dll_world. rec_simpl. tauto.
Qed.

Context (Hphy : PhyKeeps phy rx tx) (Hplat : PlatformKeeps rx tx).

Lemma params_written_quiet index data len persist e :
  hw_quiet e (params_written index data len persist e).
Proof.
  unfold params_written, hw_quiet. cbv zeta.
  set (b := nvm_encode _). pose proof (keeps_nvm_write rx tx Hplat 0 b (pe_hw e)) as H.
  clearbody b. destruct persist; repeat case_decide; rec_simpl; (exact H || by split).
Qed.

Lemma command_env_quiet cmd (w : isdu_world W) :
  params_wf (iw_env w) -> hw_quiet (iw_env w) (command_env cmd w).
Proof.
  intros Hp. unfold command_env. repeat case_decide; [|by split..].
  pose proof (iolink_params_factory_reset_spec (iw_env w) Hp) as Hr.
  apply wp_done in Hr as ([] & e' & Hrun & _ & _ & _ & _ & _ & _ & Hhw).
  unfold exec. rewrite Hrun. unfold hw_quiet. rewrite Hhw. apply (keeps_nvm_write rx tx Hplat).
Qed.

Lemma service_env_quiet r (w : isdu_world W) :
  params_wf (iw_env w) -> hw_quiet (iw_env w) (service_env r w).
Proof.
  intros Hp. assert (hw_quiet (iw_env w) (iw_env w)) as Hid by (by split).
  assert (hw_quiet (iw_env w) (selected_env (iw_env w))) as Hsel by (by split).
  destruct r as [i sub|i sub data]; unfold service_env; [by case_decide|].
  apply (switch_prop (hw_quiet (iw_env w))); [|done].
  assert (hw_quiet (iw_env w) (if decide (params_accepts i 0 (zlen data) (selected_env (iw_env w)))
    then params_written i data (zlen data) true (selected_env (iw_env w)) else selected_env (iw_env w))) as Hw.
  { case_decide; [|done]. exact (params_written_quiet i data (zlen data) true (selected_env (iw_env w))). }
  repeat apply Forall_cons_2; cbn [snd]; try done.
  - destruct data; [done|]. by apply command_env_quiet.
  - destruct data as [|? [|? ?]]; done.
Qed.

Lemma wp_services (Q : unit -> dll_sys W -> Prop) s :
  sys_wf s ->
  (forall s', services_step s s' -> sys_wf s' -> hw_quiet (sys_env s) (sys_env s') -> Q tt s') ->
  wp (zoom dll_world_lens iolink_isdu_process) Q s.
Proof.
  intros Hs HQ. apply wp_zoom. pose proof (dll_world_wf s Hs) as Hw. cbn [view put dll_world_lens].
  destruct (decide (isdu_state (iw_isdu (dll_world s)) = ISDU_STATE_SERVICE_EXECUTE)) as [Hex|Hex].
  - pose proof (wp_isdu_process (fun _ w => iw_wf w /\ hw_quiet (sys_env s) (iw_env w)) (dll_world s) Hw Hex) as H.
    cbv zeta in H.
    assert (wp iolink_isdu_process (fun _ w => iw_wf w /\ hw_quiet (sys_env s) (iw_env w)) (dll_world s)) as H'.
    { apply H. intros w Hw' (_ & _ & _ & _ & _ & Hv & _) _. split; [done|]. rewrite Hv.
      apply service_env_quiet, Hs. }
    apply wp_done in H' as ([] & w & Hrun & Hw' & Hq). eapply wp_intro; [exact Hrun|].
    apply HQ; [by exists w | by apply put_world_wf | done].
  - assert (iolink_isdu_process (dll_world s) = Done (tt, dll_world s)) as Hrun.
    { apply wp_exact. unfold iolink_isdu_process. wp_step. apply wp_isdu_gets.
      wp_branch; [by wp_steps|]. by apply wp_when. }
    eapply wp_intro; [exact Hrun|].
    apply HQ; [by exists (dll_world s) | by apply put_world_wf | by split].
Qed.

Lemma services_step_wf s s' : sys_wf s -> services_step s s' -> sys_wf s'.
Proof.
  intros Hs (w & Hrun & ->).
  assert (wp (zoom dll_world_lens iolink_isdu_process) (fun _ s' => sys_wf s') s) as H by (by apply wp_services).
  refine (wp_elim _ _ _ tt _ H _).
  unfold zoom. cbn [view put dll_world_lens]. by rewrite Hrun.
Qed.

(** ** The other parts of the call *)

Lemma wp_diagnostic {A} (P : A -> Prop) `{!forall a, Decision (P a)} (get : option (M W A)) counter `{!Update counter} code type
  (Q : unit -> dll_sys W -> Prop) c e :
  (forall m, get = Some m -> quiet rx tx m) -> evq_wf (dll_events c) ->
  (forall (b : bool) e', hw_le rx tx e e' ->
     Q tt (mk_dll_sys (if b then triggered code type (c<| counter := u32 (counter c + 1) |>) else c) e')) ->
  evq_wf (dll_events (c<| counter := u32 (counter c + 1) |>)) ->
  wp (match get with
      | Some get => a ← hw get; when (P a) (dincr counter ;; trigger code type)
      | None => mret tt
      end) Q (mk_dll_sys c e).
Proof.
  intros Hget Hev HQ Hev1. destruct get as [m|]; [|wp_step; by apply (HQ false)].
  wp_step. apply (wp_hw_quiet rx tx); [by apply Hget|]. intros a e' He. apply wp_when; intros Ha.
  - wp_step. apply wp_dincr. apply wp_trigger; [done|]. by apply (HQ true).
  - by apply (HQ false).
Qed.

Lemma ctx_wf_diagnosed c c' : ctx_wf phy c -> diagnosed c c' -> ctx_wf phy c'.
Proof.
  intros H (v & b & ->).
  assert (forall c, ctx_wf phy c -> ctx_wf phy (voltage_faulted c) /\ ctx_wf phy (short_circuited c)) as Hw.
  { intros c1 H1. split; apply ctx_wf_triggered; revert H1; unfold ctx_wf; by rec_simpl. }
  cbv zeta. destruct v, b; try apply Hw; try done. by apply Hw.
Qed.

Lemma wp_poll_diagnostics (Q : unit -> dll_sys W -> Prop) c e :
  ctx_wf phy c ->
  (forall c' e', diagnosed c c' -> hw_le rx tx e e' -> Q tt (mk_dll_sys c' e')) ->
  wp dll_poll_diagnostics Q (mk_dll_sys c e).
Proof.
  intros Hc HQ. pose proof Hc as (Hp & _ & Hev & _). unfold dll_poll_diagnostics.
  dll_step. dll_step. rewrite Hp. wp_step.
  apply (wp_diagnostic (fun v => v < 18000 \/ 30000 < v)); [intros; by eapply (law_get_voltage_mv phy rx tx Hphy)|done| |by rec_simpl].
  intros v e1 He1. fold (voltage_faulted c).
  assert (ctx_wf phy (if v then voltage_faulted c else c)) as (_ & _ & Hev1 & _).
  { eapply ctx_wf_diagnosed; [exact Hc|]. by exists v, false. }
  apply (wp_diagnostic (fun b => b = true)); [intros; by eapply (law_is_short_circuit phy rx tx Hphy)|done| |by rec_simpl].
  intros b e2 He2. apply HQ; [by exists v, b | by transitivity e1].
Qed.

Lemma ctx_wf_timed_out c : ctx_wf phy c -> ctx_wf phy (timed_out c).
Proof.
  intros H. unfold timed_out. cbv zeta. apply ctx_wf_index0.
  match goal with |- ctx_wf _ (update _ _ ?c1) => enough (ctx_wf phy c1) as H2 end.
  { revert H2. unfold ctx_wf. by rec_simpl. }
  revert H. unfold ctx_wf. case_decide; ctx_simpl; done.
Qed.

Lemma ctx_wf_activity c c' : ctx_wf phy c -> activity_checked c c' -> ctx_wf phy c'.
Proof. intros H [->|[_ ->]]; [done | by apply ctx_wf_timed_out]. Qed.

(** The timeout's own steps. *)
Lemma wp_give_up (Q : unit -> dll_sys W -> Prop) c e :
  ctx_wf phy c -> (forall e', hw_le rx tx e e' -> Q tt (mk_dll_sys (timed_out c) e')) ->
  wp (dset dll_last_activity_ms 0 ;;
      mode ← dget dll_phy_mode;
      when (mode <> IOLINK_PHY_MODE_SIO)
        (iolink_dll_set_baudrate IOLINK_BAUDRATE_COM1 ;; iolink_dll_set_sio_mode ;; mret tt) ;;
      dset dll_state IOLINK_DLL_STATE_STARTUP ;;
      dset dll_frame_index 0) Q (mk_dll_sys c e).
Proof.
  intros Hc HQ. pose proof Hc as (Hp & _). repeat dll_step.
  unfold timed_out in HQ. cbv zeta in HQ. rec_simpl in HQ.
  apply wp_when; intros Hm.
  - rewrite decide_True in HQ by done. wp_step. apply (wp_set_baudrate phy rx tx Hphy); [by rec_simpl|].
    intros e2 He2. cbv beta. wp_step. apply (wp_set_sio_mode phy rx tx Hphy); [by ctx_simpl|].
    intros e3 He3. repeat dll_step. apply HQ. by transitivity e2.
  - rewrite decide_False in HQ by done. repeat dll_step. by apply HQ.
Qed.

Lemma wp_check_activity (Q : unit -> dll_sys W -> Prop) c e :
  ctx_wf phy c ->
  (forall c' e', activity_checked c c' -> hw_le rx tx e e' -> Q tt (mk_dll_sys c' e')) ->
  wp dll_check_activity Q (mk_dll_sys c e).
Proof.
  intros Hc HQ. unfold dll_check_activity. wp_step.
  apply (wp_time_ms rx tx Hplat). intros ms e1 _ He1. dll_step. dll_step.
  apply wp_when; intros Hout; [|by apply HQ; [left|]].
  apply wp_give_up; [done|]. intros e2 He2. apply HQ; [right; tauto | by transitivity e1].
Qed.

Lemma ctx_wf_power_on_violated c : ctx_wf phy c -> ctx_wf phy (power_on_violated c).
Proof. intros H. apply ctx_wf_triggered. revert H. unfold ctx_wf. by rec_simpl. Qed.

Lemma ctx_wf_woken_up d c : ctx_wf phy c -> ctx_wf phy (woken_up d c).
Proof. unfold ctx_wf, woken_up. by rec_simpl. Qed.

Lemma wp_check_wakeup (Q : unit -> dll_sys W -> Prop) c e :
  ctx_wf phy c ->
  (forall c' e', c' = c \/ dll_frame_index c = 0 /\ (exists t, c' = woken_up (u64 (t + IOLINK_T_DWU_US)) c) ->
     hw_le rx tx e e' -> Q tt (mk_dll_sys c' e')) ->
  wp dll_check_wakeup Q (mk_dll_sys c e).
Proof.
  intros Hc HQ. pose proof Hc as (Hp & _). unfold dll_check_wakeup. wp_step.
  apply (wp_phy_deref phy); [done|]. dll_step. dll_step.
  assert (Q tt (mk_dll_sys c e)) as HQ0 by (apply HQ; [by left | done]).
  destruct (phy_detect_wakeup phy) as [detect|] eqn:Hd; [|by wp_step].
  apply wp_when; intros Hi; [|done]. wp_step. apply (wp_hw_quiet rx tx); [by eapply (law_detect_wakeup phy rx tx Hphy)|].
  intros r e1 He1. apply wp_when; intros Hr; [|by apply HQ; [left|]].
  repeat dll_step. apply (wp_time_us rx tx Hplat). intros t e2 _ He2. cbv beta. repeat dll_step.
  apply (wp_set_sdci_mode phy rx tx Hphy); [by rec_simpl|]. intros e3 He3. repeat dll_step.
  apply HQ; [right; split; [done | by exists t]|]. etransitivity; [exact He1|]. by transitivity e2.
Qed.

Lemma ctx_wf_gap_violated c : ctx_wf phy c -> ctx_wf phy (gap_violated c).
Proof.
  intros H. unfold gap_violated. apply ctx_wf_index0, ctx_wf_triggered.
  revert H. unfold ctx_wf. by rec_simpl.
Qed.

Lemma ctx_wf_gap_checked c c' : ctx_wf phy c -> gap_checked c c' -> ctx_wf phy c'.
Proof. intros H [->|(_ & _ & ->)]; [done|]. by apply ctx_wf_fallback, ctx_wf_gap_violated. Qed.

Lemma wp_check_gap (Q : unit -> dll_sys W -> Prop) c e :
  ctx_wf phy c ->
  (forall c' e', gap_checked c c' -> hw_le rx tx e e' -> Q tt (mk_dll_sys c' e')) ->
  wp dll_check_gap Q (mk_dll_sys c e).
Proof.
  intros Hc HQ. pose proof (ctx_wf_gap_violated c Hc) as (Hp & _ & Hev & _).
  unfold dll_check_gap. dll_step. dll_step.
  apply wp_when; intros Hg; [|by apply HQ; [left|]].
  wp_step. apply (wp_time_us rx tx Hplat). intros t e1 _ He1.
  apply wp_when; intros Hx; [|by apply HQ; [left|]].
  unfold dll_gap_violation, timing_violation. repeat dll_step; [apply Hc|].
  apply (wp_enter_fallback phy rx tx Hphy); [exact Hp | exact Hev|]. intros e2 He2.
  apply HQ; [right; tauto | by transitivity e1].
Qed.

Lemma wp_awaiting_window (Q : bool -> dll_sys W -> Prop) c e :
  (forall b e', (b = true -> dll_state c = IOLINK_DLL_STATE_AWAITING_COMM /\ dll_enforce_timing c = true) ->
     hw_le rx tx e e' ->
     Q b (mk_dll_sys c e')) ->
  wp dll_awaiting_window Q (mk_dll_sys c e).
Proof.
  intros HQ. unfold dll_awaiting_window. dll_step. dll_step. case_decide as Ha.
  - wp_step. apply (wp_time_us rx tx Hplat). intros t e1 _ He1. wp_step. apply HQ; [tauto | done].
  - wp_step. by apply HQ.
Qed.

Lemma ctx_wf_communication c c' frames :
  ctx_wf phy c -> communication_step c c' frames -> ctx_wf phy c'.
Proof.
  intros H [c1 _ [->| ->]|c1 _ [->|(_ & t & ->)]|c1 _ Hg _|c1 c2 bytes l _ Hg Hb]; try done.
  - by apply ctx_wf_power_on_violated.
  - by eapply ctx_wf_gap_checked.
  - eapply ctx_wf_bytes_step, Hb. by eapply ctx_wf_gap_checked.
Qed.

(** ** The call *)

Lemma wp_t_pd_active (Q : bool -> dll_sys W -> Prop) c e :
  (forall b e', (b = true -> dll_t_pd_deadline_us c <> 0) -> hw_le rx tx e e' -> Q b (mk_dll_sys c e')) ->
  wp dll_t_pd_active Q (mk_dll_sys c e).
Proof.
  intros HQ. unfold dll_t_pd_active. dll_step. dll_step. case_decide as Hd; [wp_step; by apply HQ|].
  wp_step. apply (wp_time_us rx tx Hplat). intros t e1 _ He1. wp_step. by apply HQ.
Qed.

End process.

Section call.
Context {W : Type} `{!Platform W} (phy : iolink_phy_api_t W) (rx : W -> nat)
  (tx : W -> list (list Z)).
Context (Hphy : PhyLaws phy rx tx) (Hplat : PlatformKeeps rx tx).
Implicit Types (c : iolink_dll_ctx_t W) (e : params_env W) (s : dll_sys W).

Lemma wp_drain fuel recv saw (Q : bool -> dll_sys W -> Prop) c e :
  phy_recv_byte phy = Some recv -> (rx (pe_hw e) < fuel)%nat ->
  (forall b e', hw_le rx tx e e' -> Q b (mk_dll_sys c e')) ->
  wp (dll_drain_loop fuel recv saw) Q (mk_dll_sys c e).
Proof.
  intros Hrecv. revert saw e. induction fuel as [|fuel IH]; intros saw e Hf HQ; [lia|].
  cbn [dll_drain_loop]. wp_step. unfold recv_byte. wp_step. apply (wp_zoom sys_hw_lens). cbn.
  pose proof (law_recv_byte phy rx tx Hphy recv Hrecv (pe_hw e)) as H.
  apply wp_done in H as (r & w' & Hrun & Hrx & Htx & Hlt). eapply wp_intro; [exact Hrun|].
  wp_step. rec_simpl. set (e1 := e<| pe_hw := w' |>).
  assert (hw_le rx tx e e1) as He1 by done.
  change (update sys_env _ _) with (mk_dll_sys c e1).
  cbn [fst]. case_decide as Hr; [|wp_step; by apply HQ].
  apply IH; [unfold e1; rec_simpl; specialize (Hlt Hr); lia|].
  intros b e2 He2. apply HQ. by transitivity e1.
Qed.

Lemma wp_power_on_drain fuel (Q : unit -> dll_sys W -> Prop) c e :
  ctx_wf phy c -> (rx (pe_hw e) < fuel)%nat ->
  (forall c' e', c' = c \/ c' = power_on_violated c -> hw_le rx tx e e' -> Q tt (mk_dll_sys c' e')) ->
  wp (dll_power_on_drain fuel) Q (mk_dll_sys c e).
Proof.
  intros Hc Hf HQ. pose proof Hc as (Hp & _ & Hev & _). unfold dll_power_on_drain. wp_step.
  assert (forall (b : bool) e', hw_le rx tx e e' ->
    wp (when (b = true) (timing_violation dll_t_pd_violations ;;
          trigger IOLINK_EVENT_COMM_TIMING IOLINK_EVENT_TYPE_WARNING)) Q (mk_dll_sys c e')) as Hrest.
  { intros b e' He'. apply wp_when; intros Hb; [|by apply HQ; [left|]].
    unfold timing_violation. repeat dll_step. by apply HQ; [right|]. }
  unfold dll_drain_rx. dll_step. dll_step. rewrite Hp.
  destruct (phy_recv_byte phy) as [recv|] eqn:Hrecv; [|wp_step; by apply Hrest].
  apply wp_drain; [done..|]. exact Hrest.
Qed.

Lemma wp_communication fuel (Q : unit -> dll_sys W -> Prop) c e :
  ctx_wf phy c -> (rx (pe_hw e) < fuel)%nat ->
  (forall c' frames e', communication_step phy c c' frames -> hw_sends phy rx tx frames e e' ->
     Q tt (mk_dll_sys c' e')) ->
  wp (active ← dll_t_pd_active;
      if decide (active = true) then dll_power_on_drain fuel else
      mode ← dget dll_phy_mode;
      if decide (mode = IOLINK_PHY_MODE_SIO) then dll_check_wakeup else
      dll_check_gap ;;
      waiting ← dll_awaiting_window;
      if decide (waiting = true) then mret tt else dll_receive fuel) Q (mk_dll_sys c e).
Proof.
  intros Hc Hf HQ. wp_step. apply (wp_t_pd_active rx tx Hplat). intros active e1 Hact He1.
  assert (rx (pe_hw e1) < fuel)%nat as Hf1 by (destruct He1 as (_ & _ & ? & _); lia).
  case_decide as Ha.
  { apply wp_power_on_drain; [done..|]. intros c' e2 Hc' He2.
    eapply HQ; [by apply comm_power_on; auto|]. apply hw_le_sends. by transitivity e1. }
  dll_step. dll_step. case_decide as Hm.
  { apply (wp_check_wakeup phy rx tx Hphy Hplat); [done|]. intros c' e2 Hc' He2.
    eapply HQ; [by apply comm_sio|]. apply hw_le_sends. by transitivity e1. }
  wp_step. apply (wp_check_gap phy rx tx Hphy Hplat); [done|]. intros c1 e2 Hg He2. wp_step.
  apply (wp_awaiting_window rx tx Hplat). intros b e3 Hb He3.
  assert (hw_le rx tx e e3) as He by (etransitivity; [exact He1|]; by transitivity e2).
  case_decide as Hw.
  - wp_step. eapply HQ; [by apply comm_waiting; [done..|apply Hb] | by apply hw_le_sends].
  - apply (wp_receive phy rx tx Hphy Hplat).
    + by eapply ctx_wf_gap_checked.
    + destruct He as (_ & _ & ? & _). lia.
    + intros bytes c' l e4 Hbs He4. eapply HQ; [by eapply comm_bytes|]. by eapply hw_sends_le_l.
Qed.

Lemma wp_dll_process fuel (Q : unit -> dll_sys W -> Prop) s :
  sys_wf phy s -> (rx (pe_hw (sys_env s)) < fuel)%nat ->
  (forall s' frames, process_step phy rx tx s s' frames -> sys_wf phy s' -> Q tt s') ->
  wp (iolink_dll_process fuel) Q s.
Proof.
  intros Hs Hf HQ. pose proof Hs as [Hc Hp]. unfold iolink_dll_process.
  wp_step. apply (wp_gets (fun s => dll_phy (sys_dll s))). rewrite (ctx_wf_phy phy _ Hc).
  wp_step. apply (wp_services phy rx tx Hplat); [done|]. intros [c1 e1] Hserv [Hc1 Hp1] Hq. pose proof Hq as [Hrx1 Htx1]. cbn [sys_dll sys_env] in *.
  wp_step. apply (wp_poll_diagnostics phy rx tx Hphy); [done|]. intros c2 e2 Hd He2.
  pose proof (ctx_wf_diagnosed phy _ _ Hc1 Hd) as Hc2. wp_step.
  apply (wp_check_activity phy rx tx Hphy Hplat); [done|]. intros c3 e3 Ha He3.
  assert (ctx_wf phy c3) as Hc3 by (by eapply ctx_wf_activity).
  assert (hw_le rx tx e1 e3) as He by (by transitivity e2).
  apply wp_communication; [done | destruct He as (_ & _ & ? & _); lia|].
  intros c' frames e' Hcomm He'. eapply HQ.
  - exists (mk_dll_sys c1 e1), c2, c3. cbn [sys_dll sys_env]. split_and!; try done. by eapply hw_sends_le_l.
  - split; [by eapply ctx_wf_communication|]. eapply hw_sends_wf; [exact He'|]. by eapply hw_le_wf.
Qed.
End call.
