(* ===== verification/DllSettings.v ===== *)
(** * What [iolink_dll_process] leaves alone

    The configuration of the device and the process data of the application:
    no byte received and no service changes them. *)
From S2P Require Export DllStep.
#[local] Open Scope Z_scope.

Section settings.
Context {W : Type} `{!Platform W} (phy : iolink_phy_api_t W).
Implicit Types (c : iolink_dll_ctx_t W) (e : params_env W) (s : dll_sys W).

Definition settings_of c :=
  (dll_phy c, dll_m_seq_type c, dll_od_len c, dll_min_cycle_time_us c,
   (dll_pd_in_len c, dll_pd_out_len c, dll_pd_in_len_current c, dll_pd_out_len_current c,
    dll_pd_in_len_max c, dll_pd_out_len_max c),
   (dll_pd_in c, dll_pd_valid c, dll_pd_in_toggle c),
   (dll_enforce_timing c, dll_t_ren_override c, dll_t_pd_delay_us c, dll_t_pd_deadline_us c,
    dll_sio_fallback_threshold c)).

Lemma settings_fallback c : settings_of (after_fallback c) = settings_of c.
Proof. unfold after_fallback. cbv zeta. by repeat case_decide. Qed.

Lemma settings_reject c : settings_of (after_reject c) = settings_of c.
Proof. exact (settings_fallback (c<| dll_framing_errors := u32 (dll_framing_errors c + 1) |>)). Qed.

Lemma settings_promoted c : settings_of (promoted c) = settings_of c.
Proof. unfold promoted. by case_decide. Qed.

Lemma settings_response t c : settings_of (after_response t c) = settings_of c.
Proof. unfold after_response. cbv zeta. by case_decide. Qed.

Lemma settings_exchanged i t1 t2 c : settings_of (exchanged_ctx phy i t1 t2 c) = settings_of c.
Proof.
  unfold exchanged_ctx. cbv zeta.
  assert (forall x, settings_of (x<| dll_last_response_us := t2 |>) = settings_of x) as -> by done.
  assert (settings_of ((pd_written c)<| dll_isdu := i |>) = settings_of c) as H by done.
  destruct (phy_send phy); [by rewrite settings_response | done].
Qed.

Lemma settings_frame c c' frames : frame_step phy c c' frames -> settings_of c' = settings_of c.
Proof.
  intros [| | |od i|od i t1 t2|].
  - exact (settings_reject _).
  - apply settings_reject.
  - exact (settings_promoted c).
  - exact (settings_promoted c).
  - exact (settings_exchanged i t1 t2 _).
  - apply settings_promoted.
Qed.

Lemma settings_gap c : settings_of (gap_violated c) = settings_of c.
Proof. done. Qed.

Lemma settings_byte_timed t ms c : settings_of (byte_timed t ms c) = settings_of c.
Proof.
  unfold byte_timed. cbv zeta.
  assert (forall x, settings_of (x<| dll_last_byte_us := t |>) = settings_of x) as -> by done.
  case_decide; [by rewrite settings_gap | done].
Qed.

Lemma settings_assembled b t c : settings_of (assembled b t c) = settings_of c.
Proof. unfold assembled. by repeat case_decide. Qed.

Lemma settings_cycle_checked t c : settings_of (cycle_checked t c) = settings_of c.
Proof.
  unfold cycle_checked.
  assert (forall x, settings_of (x<| dll_last_cycle_start_us := t |>) = settings_of x) as -> by done.
  by case_decide.
Qed.

Lemma settings_byte b c c' frames : byte_step phy b c c' frames -> settings_of c' = settings_of c.
Proof.
  assert (forall x, settings_of (x<| dll_frame_index := 0 |>) = settings_of x) as Hi by done.
  intros [t ms c1 -> _ _ _|t ms t2 c1 c2 l -> _ Hf _ _ _].
  - by rewrite settings_assembled, settings_byte_timed.
  - rewrite Hi, (settings_frame _ _ _ Hf), settings_cycle_checked.
    by rewrite settings_assembled, settings_byte_timed.
Qed.

Lemma settings_bytes bytes c c' frames : bytes_step phy bytes c c' frames -> settings_of c' = settings_of c.
Proof.
  induction 1 as [|b bytes c c1 c2 l l' _ Hs _ IH]; [done|]. rewrite IH. by eapply settings_byte.
Qed.

Lemma settings_communication c c' frames :
  communication_step phy c c' frames -> settings_of c' = settings_of c.
Proof.
  assert (forall c c', gap_checked c c' -> settings_of c' = settings_of c) as Hgap.
  { intros c1 c2 [->|(_ & _ & ->)]; [done|]. by rewrite settings_fallback. }
  intros [c1 _ [->| ->]|c1 _ [->|(_ & t & ->)]|c1 _ Hg _|c1 c2 bytes l _ Hg Hb]; try done.
  - by apply Hgap.
  - rewrite (settings_bytes _ _ _ _ Hb). by apply Hgap.
Qed.

Lemma settings_process rx tx s s' frames :
  process_step phy rx tx s s' frames -> settings_of (sys_dll s') = settings_of (sys_dll s).
Proof.
  intros (s1 & c2 & c3 & (w & _ & ->) & _ & (v & b & ->) & Ha & Hc & _).
  rewrite (settings_communication _ _ _ Hc).
  destruct Ha as [->|[_ ->]]; [by destruct v, b|]. unfold timed_out. cbv zeta. case_decide; by destruct v, b.
Qed.
End settings.
