(* ===== verification/DllRate.v ===== *)
(** * The data rate after a fallback

    A device at COM1 takes every frame for a type 0 frame of two bytes, so it
    cannot reach the OPERATE state; nothing in [iolink_dll_process] raises the
    rate again.  The states [com1_stuck] are kept by every step, and entered by
    every fallback to SIO mode and by the inactivity timeout. *)
From S2P Require Export DllStep.
#[local] Open Scope Z_scope.

Section rate.
Context {W : Type} `{!Platform W} (phy : iolink_phy_api_t W).
Implicit Types (c : iolink_dll_ctx_t W) (e : params_env W) (s : dll_sys W).

Definition com1_stuck c : Prop :=
  dll_baudrate c = IOLINK_BAUDRATE_COM1 /\ dll_state c <> IOLINK_DLL_STATE_OPERATE /\
  (dll_frame_index c <> 0 -> dll_req_len c = 2).

Ltac stuck := unfold com1_stuck in *; ctx_simpl; try tauto; try (intuition (congruence || lia)).

(** ** Into the trap *)

Lemma fallback_stuck c :
  dll_sio_fallback_threshold c <= u8 (dll_fallback_count c + 1) -> com1_stuck (after_fallback c).
Proof. intros H. unfold after_fallback. cbv zeta. rec_simpl. rewrite decide_True by done. stuck. Qed.

Lemma timed_out_stuck c : dll_phy_mode c <> IOLINK_PHY_MODE_SIO -> com1_stuck (timed_out c).
Proof. intros H. unfold timed_out. cbv zeta. rec_simpl. rewrite decide_True by done. stuck. Qed.

(** ** The trap is closed *)

Lemma stuck_fallback c : com1_stuck c -> com1_stuck (after_fallback c).
Proof. intros H. unfold after_fallback. cbv zeta. repeat case_decide; stuck. Qed.

Lemma stuck_promoted c : com1_stuck c -> com1_stuck (promoted c).
Proof. intros H. unfold promoted. case_decide; stuck. Qed.

Lemma stuck_frame c c' frames :
  com1_stuck c -> dll_req_len c = 2 -> frame_step phy c c' frames -> com1_stuck c'.
Proof.
  intros H H2 Hs. pose proof (stuck_promoted c H) as Hp.
  destruct Hs; try lia; try (apply stuck_fallback); stuck.
Qed.

Lemma stuck_gap_violated c : com1_stuck c -> com1_stuck (gap_violated c).
Proof. intros H. unfold gap_violated. stuck. Qed.

Lemma stuck_byte_timed t ms c : com1_stuck c -> com1_stuck (byte_timed t ms c).
Proof.
  intros H. unfold byte_timed. cbv zeta. case_decide; [|stuck].
  assert (com1_stuck (gap_violated (c<| dll_last_activity_ms := ms |>))) as H1
    by (apply stuck_gap_violated; stuck).
  revert H1. unfold com1_stuck. by rec_simpl.
Qed.

Lemma stuck_assembled b t c : com1_stuck c -> com1_stuck (assembled b t c).
Proof.
  intros H. unfold assembled. repeat case_decide; [| |stuck].
  - destruct H as (Hb & Hst & _). unfold com1_stuck, dll_frame_length. rec_simpl. split_and!; try done.
    intros _. destruct (decide (dll_baudrate c = IOLINK_BAUDRATE_COM1)); [done|congruence].
  - destruct H as (Hb & Hst & Hr). unfold com1_stuck. rec_simpl. split_and!; try done. intros _. by apply Hr.
Qed.

Lemma stuck_cycle_checked t c : com1_stuck c -> com1_stuck (cycle_checked t c).
Proof.
  intros H. unfold cycle_checked. case_decide; stuck.
Qed.

Lemma stuck_byte b c c' frames : com1_stuck c -> byte_step phy b c c' frames -> com1_stuck c'.
Proof.
  intros H [t ms c1 -> _ _ _|t ms t2 c1 c2 l -> Hcomp Hs _ _ _];
    pose proof (stuck_assembled b t _ (stuck_byte_timed t ms c H)) as H1; [done|].
  set (c1 := assembled b t (byte_timed t ms c)) in *.
  assert (dll_req_len (cycle_checked t2 c1) = 2) as H2.
  { destruct Hcomp as [Hi _]. destruct H1 as (_ & _ & Hr). unfold cycle_checked.
    case_decide; ctx_simpl; apply Hr; lia. }
  pose proof (stuck_frame _ _ _ (stuck_cycle_checked t2 c1 H1) H2 Hs). stuck.
Qed.

Lemma stuck_bytes bytes c c' frames : com1_stuck c -> bytes_step phy bytes c c' frames -> com1_stuck c'.
Proof. intros H Hs. induction Hs; eauto using stuck_byte. Qed.

Lemma stuck_gap_checked c c' : com1_stuck c -> gap_checked c c' -> com1_stuck c'.
Proof. intros H [->|(_ & _ & ->)]; [done|]. by apply stuck_fallback, stuck_gap_violated. Qed.

Lemma stuck_communication c c' frames :
  com1_stuck c -> communication_step phy c c' frames -> com1_stuck c'.
Proof.
  intros H [c1 _ [->| ->]|c1 _ [->|(Hi & t & ->)]|c1 _ Hg _|c1 c2 bytes l _ Hg Hb]; try done.
  - unfold woken_up. stuck.
  - by eapply stuck_gap_checked.
  - eapply stuck_bytes, Hb. by eapply stuck_gap_checked.
Qed.

Lemma stuck_diagnosed c c' : com1_stuck c -> diagnosed c c' -> com1_stuck c'.
Proof. intros H (v & b & ->). unfold voltage_faulted, short_circuited. destruct v, b; stuck. Qed.

Lemma stuck_activity c c' : com1_stuck c -> activity_checked c c' -> com1_stuck c'.
Proof.
  intros H [->|[_ ->]]; [done|]. destruct (decide (dll_phy_mode c = IOLINK_PHY_MODE_SIO)) as [Hm|Hm].
  - unfold timed_out. cbv zeta. rec_simpl. rewrite decide_False by tauto. stuck.
  - by apply timed_out_stuck.
Qed.

Lemma stuck_process rx tx s s' frames :
  com1_stuck (sys_dll s) -> process_step phy rx tx s s' frames -> com1_stuck (sys_dll s').
Proof.
  intros H (s1 & c2 & c3 & (w & _ & ->) & _ & Hd & Ha & Hc & _).
  eapply stuck_communication, Hc. eapply stuck_activity, Ha. eapply stuck_diagnosed, Hd.
  unfold put_dll_world. stuck.
Qed.
End rate.
