(* ===== verification/Line.v ===== *)
(** * A device on a line

    A concrete hardware: a RAM platform with a PHY whose receiver is a queue and
    whose transmitter keeps every frame.  It satisfies the laws the data link
    layer relies on; the witnesses of the development run on it. *)
From S2P Require Export DllStep.
#[local] Open Scope Z_scope.

Record line := mk_line {
  line_in : list Z;
  line_out : list (list Z);
  line_wake : bool;
  line_ram : ram
}.

#[export] Instance eta_line : Eta line := fun r =>
  mk_line (line_in r) (line_out r) (line_wake r) (line_ram r).
#[export] Instance update_line_in : Update line_in := ltac:(derive_update).
#[export] Instance update_line_out : Update line_out := ltac:(derive_update).
#[export] Instance update_line_wake : Update line_wake := ltac:(derive_update).
#[export] Instance update_line_ram : Update line_ram := ltac:(derive_update).

#[export] Instance line_platform : Platform line := {|
  iolink_nvm_read off len w :=
    let '(ret, data, r) := iolink_nvm_read off len (line_ram w) in (ret, data, w<| line_ram := r |>);
  iolink_nvm_write off data w :=
    let '(ret, r) := iolink_nvm_write off data (line_ram w) in (ret, w<| line_ram := r |>);
  iolink_time_get_ms w :=
    let '(t, r) := iolink_time_get_ms (line_ram w) in (t, w<| line_ram := r |>);
  iolink_time_get_us w :=
    let '(t, r) := iolink_time_get_us (line_ram w) in (t, w<| line_ram := r |>)
|}.

#[export] Instance line_read_bounded : NvmReadBounded line.
Proof. constructor. intros off len w. exact (nvm_read_bounded off len (line_ram w)). Qed.

Definition line_recv : M line (Z * Z) := fun w =>
  match line_in w with
  | [] => Done ((0, 0), w)
  | b :: bs => Done ((1, b), w<| line_in := bs |>)
  end.

Definition line_send (data : list Z) : M line Z := fun w =>
  Done (0, w<| line_out := line_out w ++ [data] |>).

Definition line_detect : M line Z := fun w =>
  Done (if line_wake w then 1 else 0, w<| line_wake := false |>).

Definition line_phy : iolink_phy_api_t line :=
  mk_phy_api (Some (mret 0)) (Some (fun _ => mret tt)) (Some (fun _ => mret tt))
    (Some line_send) (Some line_recv) (Some line_detect) None
    (Some (mret 24000)) (Some (mret false)).

Lemma line_reliable : phy_reliable line_phy.
Proof. exists line_send. split; [done|]. by intros. Qed.

Lemma line_queue : PhyQueue line_phy line_in line_out.
Proof.
  split; [split|]; cbn.
  1-6: intros; simplify_eq; intros w; by split.
  - intros m data [= <-] w. by split.
  - exists line_recv. split; [done|]. intros w. unfold wp, line_recv.
    destruct (line_in w) as [|b bs] eqn:Hin; cbn; by split_and!.
Qed.

Lemma line_laws : PhyLaws line_phy (fun w => length (line_in w)) line_out.
Proof. apply queue_laws, line_queue. Qed.

Lemma line_keeps (tx : line -> list (list Z)) :
  (forall w r, tx (w<| line_ram := r |>) = tx w) -> PlatformKeeps (fun w => length (line_in w)) tx.
Proof.
  intros Htx. split; cbn; intros; rewrite ?Htx; try (split; (done || cbn; lia)).
  case_decide; cbn; rewrite ?Htx; split; (done || cbn; lia).
Qed.

Lemma line_keeps_out : PlatformKeeps (fun w => length (line_in w)) line_out.
Proof. by apply line_keeps. Qed.
Lemma line_keeps_line : PlatformKeepsLine line_in line_out.
Proof. by apply line_keeps. Qed.
