(* ===== verification/Core.v ===== *)
(** * The stack facade (iolink_core.c, iolink.h, application.h)

    The globals of the facade and its functions.  The state of a computation is
    the context of the data link layer with what its calls reach, and the
    configuration. *)
From S2P Require Export DllStep.
#[local] Open Scope Z_scope.

(** iolink.h:45-52 m_seq_type *)
Record iolink_config_t := mk_config {
  cfg_m_seq_type : iolink_m_seq_type_t;
  cfg_min_cycle_time : Z;
  cfg_pd_in_len : Z;
  cfg_pd_out_len : Z;
  cfg_t_pd_us : Z
}.

(** iolink_core.c:34-36 g_config *)
Definition config_default : iolink_config_t := mk_config IOLINK_M_SEQ_TYPE_0 0 0 0 0.

Section core.
Context {W : Type} `{!Platform W}.

(** iolink_core.c:18-19 g_dll_ctx *)
Record core := mk_core {
  g_sys : dll_sys W;
  g_config : iolink_config_t
}.

#[export] Instance eta_core : Eta core := fun r => mk_core (g_sys r) (g_config r).
#[export] Instance update_g_sys : Update g_sys := ltac:(derive_update).
#[export] Instance update_g_config : Update g_config := ltac:(derive_update).

Definition g_dll_ctx (g : core) : iolink_dll_ctx_t W := sys_dll (g_sys g).

Definition g_sys_lens : lens core (dll_sys W) := Lens g_sys (fun s g => g<| g_sys := s |>).
Definition on_dll {A} : M (dll_sys W) A -> M core A := zoom g_sys_lens.

Definition sys_env_lens : lens (dll_sys W) (params_env W) :=
  Lens sys_env (fun e s => s<| sys_env := e |>).

(** ** Start-up *)

(** iolink_core.c:70-73 pd_in_len_current *)
Definition apply_pd_lengths : M (dll_sys W) unit :=
  ctx ← dget id;
  dset dll_pd_in_len_current (dll_pd_in_len ctx) ;;
  dset dll_pd_out_len_current (dll_pd_out_len ctx) ;;
  dset dll_pd_in_len_max (dll_pd_in_len ctx) ;;
  dset dll_pd_out_len_max (dll_pd_out_len ctx).

(** The configuration applied to the context; the two branches of the last
    condition are the same in the source. iolink_core.c:46-80 g_config *)
Definition apply_config (config : iolink_config_t) : M (dll_sys W) unit :=
  dset dll_m_seq_type (u8 (m_seq_type_val (cfg_m_seq_type config))) ;;
  dset dll_pd_in_len (cfg_pd_in_len config) ;;
  dset dll_pd_out_len (cfg_pd_out_len config) ;;
  dset dll_min_cycle_time_us (u32 (cfg_min_cycle_time config * 100)) ;;
  dset dll_t_pd_delay_us (cfg_t_pd_us config) ;;
  delay ← dget dll_t_pd_delay_us;
  (if decide (0 < delay) then
     now ← time_us;
     dset dll_t_pd_deadline_us (u64 (now + delay))
   else dset dll_t_pd_deadline_us 0) ;;
  type ← dget dll_m_seq_type;
  (if decide (m_seq_is_type2 type) then dset dll_od_len 2 else dset dll_od_len 1) ;;
  if decide (type = m_seq_type_val IOLINK_M_SEQ_TYPE_1_V \/ type = m_seq_type_val IOLINK_M_SEQ_TYPE_2_V)
  then apply_pd_lengths
  else apply_pd_lengths.

(** iolink_core.c:21-83 iolink_init *)
Definition iolink_init (phy : option (iolink_phy_api_t W)) (config : option iolink_config_t) : M core Z :=
  match phy with
  | None => mret (-1)
  | Some p =>
    assign g_config (default config_default config) ;;
    err ← (match phy_init p with
           | Some init => on_dll (hw init)
           | None => mret 0
           end);
    if decide (err <> 0) then mret err else
    on_dll (iolink_dll_init phy) ;;
    on_dll (zoom sys_env_lens iolink_params_init) ;;
    config ← gets g_config;
    on_dll (apply_config config) ;;
    mret 0
  end.

(** iolink_core.c:85-88 iolink_process *)
Definition iolink_process (fuel : nat) : M core unit := on_dll (iolink_dll_process fuel).

(** ** Process data *)

(** iolink_core.c:90-107 iolink_pd_input_update *)
Definition iolink_pd_input_update (data : option (list Z)) (len : Z) (valid : bool) : M core Z :=
  match data with
  | None => mret (-1)
  | Some data =>
    pd_in ← on_dll (dget dll_pd_in);
    if decide (zlen pd_in < len) then mret (-1) else
    iolink_critical_enter ;;
    src ← slice data 0 len;
    dst ← blit pd_in 0 src;
    on_dll (dset dll_pd_in dst) ;;
    on_dll (dset dll_pd_in_len (u8 len)) ;;
    on_dll (dset dll_pd_valid valid) ;;
    toggle ← on_dll (dget dll_pd_in_toggle);
    on_dll (dset dll_pd_in_toggle (negb toggle)) ;;
    iolink_critical_exit ;;
    mret 0
  end.

(** The result and the caller's buffer.
    iolink_core.c:109-121 iolink_pd_output_read *)
Definition iolink_pd_output_read (data : option (list Z)) (len : Z) : M core (Z * option (list Z)) :=
  match data with
  | None => mret (-1, None)
  | Some data =>
    iolink_critical_enter ;;
    out_len ← on_dll (dget dll_pd_out_len);
    let read_len := if decide (len < out_len) then u8 len else out_len in
    pd_out ← on_dll (dget dll_pd_out);
    src ← slice pd_out 0 read_len;
    data ← blit data 0 src;
    iolink_critical_exit ;;
    mret (read_len, Some data)
  end.

(** ** Accessors *)

(** The contexts the application reaches: a pointer into the globals is an
    access path to them. iolink_core.c:123-126 iolink_get_events_ctx *)
Definition iolink_get_events_ctx : lens core iolink_events_ctx_t :=
  Lens (fun g => dll_events (g_dll_ctx g))
    (fun e g => g<| g_sys := (g_sys g)<| sys_dll := (g_dll_ctx g)<| dll_events := e |> |> |>).

(** iolink_core.c:128-131 iolink_get_ds_ctx *)
Definition iolink_get_ds_ctx : lens core iolink_ds_ctx_t :=
  Lens (fun g => dll_ds (g_dll_ctx g))
    (fun d g => g<| g_sys := (g_sys g)<| sys_dll := (g_dll_ctx g)<| dll_ds := d |> |> |>).

(** iolink_core.c:133-136 iolink_get_state *)
Definition iolink_get_state (g : core) : iolink_dll_state_t := dll_state (g_dll_ctx g).

(** iolink_core.c:138-141 iolink_get_phy_mode *)
Definition iolink_get_phy_mode (g : core) : iolink_phy_mode_t := dll_phy_mode (g_dll_ctx g).

(** iolink_core.c:143-146 iolink_get_baudrate *)
Definition iolink_get_baudrate (g : core) : iolink_baudrate_t := dll_baudrate (g_dll_ctx g).

(** iolink_core.c:148-151 iolink_get_dll_stats *)
Definition iolink_get_dll_stats (g : core) : iolink_dll_stats_t := iolink_dll_get_stats (g_dll_ctx g).

(** iolink_core.c:153-156 iolink_set_timing_enforcement *)
Definition iolink_set_timing_enforcement (enable : bool) : M core unit :=
  on_dll (iolink_dll_set_timing_enforcement enable).

(** iolink_core.c:158-161 iolink_set_t_ren_limit_us *)
Definition iolink_set_t_ren_limit_us (limit_us : Z) : M core unit :=
  on_dll (iolink_dll_set_t_ren_limit_us limit_us).

(** The stored byte, cast back to the enumeration by the source.
    iolink_core.c:163-166 iolink_get_m_seq_type *)
Definition iolink_get_m_seq_type (g : core) : Z := dll_m_seq_type (g_dll_ctx g).

(** iolink_core.c:168-171 iolink_get_pd_in_len *)
Definition iolink_get_pd_in_len (g : core) : Z := dll_pd_in_len (g_dll_ctx g).

(** iolink_core.c:173-176 iolink_get_pd_out_len *)
Definition iolink_get_pd_out_len (g : core) : Z := dll_pd_out_len (g_dll_ctx g).
End core.
#[global] Arguments core W : clear implicits.
