(* ===== verification/CoreInit.v ===== *)
(** * Start-up of the stack

    What [iolink_init] leaves, for every PHY that keeps its laws and every
    configuration whose process data fit their buffers. *)
From S2P Require Export Core Line.
#[local] Open Scope Z_scope.

Section init.
Context {W : Type} `{!Platform W} (phy : iolink_phy_api_t W).
Implicit Types (c : iolink_dll_ctx_t W) (e : params_env W) (s : dll_sys W) (g : core W).

(** The image in the memory, as a read would return it. *)
Definition memory (w : W) : list (list Z) :=
  let '(ret, data, _) := iolink_nvm_read 0 nvm_size w in [[ret]; data].

(** The start-up functions of the PHY return and leave the memory alone. *)
Record PhyStarts : Prop := {
  starts_init m : phy_init phy = Some m -> quiet (fun _ => 0%nat) memory m;
  starts_set_mode m mode : phy_set_mode phy = Some m -> quiet (fun _ => 0%nat) memory (m mode);
  starts_set_baudrate m b : phy_set_baudrate phy = Some m -> quiet (fun _ => 0%nat) memory (m b)
}.

Context (Hstarts : PhyStarts).

Definition env_kept e e' : Prop := hw_le (fun _ => 0%nat) memory e e'.

Lemma env_kept_params e e' : env_kept e e' -> params_wf e -> params_wf e'.
Proof. apply hw_le_wf. Qed.

Lemma env_kept_image e e' : env_kept e e' -> nvm_image_ok (pe_hw e) -> nvm_image_ok (pe_hw e').
Proof.
  intros (_ & _ & _ & Hm). unfold nvm_image_ok, memory in *.
  destruct (iolink_nvm_read 0 nvm_size (pe_hw e)) as [[r d] w].
  destruct (iolink_nvm_read 0 nvm_size (pe_hw e')) as [[r' d'] w'].
  by injection Hm as -> ->.
Qed.

(** The context [iolink_dll_init] leaves. *)
Definition dll_started : iolink_dll_ctx_t W :=
  let c := dll_zero<| dll_state := IOLINK_DLL_STATE_STARTUP |><| dll_phy := Some phy |>
             <| dll_sio_fallback_threshold := 3 |><| dll_od_len := 1 |>
             <| dll_pd_valid := true |><| dll_baudrate := IOLINK_BAUDRATE_COM2 |>
             <| dll_isdu := isdu_cleared<| isdu_event_ctx := true |><| isdu_dll_ctx := true |> |>
             <| dll_t_ren_limit_us := IOLINK_T_REN_COM2_US |> in
  c<| dll_t_byte_limit_us := dll_get_t_byte_limit_us c |><| dll_phy_mode := IOLINK_PHY_MODE_SIO |>.

Lemma wp_dll_init (Q : unit -> dll_sys W -> Prop) c e :
  (forall e', env_kept e e' -> Q tt (mk_dll_sys dll_started e')) ->
  wp (iolink_dll_init (Some phy)) Q (mk_dll_sys c e).
Proof.
  intros HQ. unfold iolink_dll_init. wp_step. apply wp_modify. rec_simpl.
  change (update sys_dll _ _) with (mk_dll_sys (@dll_zero W) e).
  repeat dll_step.
  apply (wp_phy_call phy (fun _ => 0%nat) memory); [by rec_simpl|intros; by apply starts_set_baudrate|].
  intros e1 He1. wp_step. apply wp_on_dll_events, wp_modify.
  wp_step. apply wp_on_dll_isdu. eapply wp_intro; [apply iolink_isdu_init_eq|].
  dll_step. dll_step. wp_step. apply wp_on_dll_isdu, wp_assign.
  wp_step. apply wp_on_dll_isdu, wp_assign. repeat dll_step.
  unfold iolink_dll_set_sio_mode. wp_step.
  apply (wp_phy_call phy (fun _ => 0%nat) memory); [by rec_simpl|intros; by apply starts_set_mode|].
  intros e2 He2. repeat dll_step.
  assert (env_kept e e2) as He by (by etransitivity).
  match goal with |- Q tt (mk_dll_sys ?c1 _) => assert (c1 = dll_started) as -> by (vm_compute; reflexivity) end.
  exact (HQ e2 He).
Qed.

(** ** The configuration *)

(** The context with the configuration applied, [deadline] ending the power-on
    delay. *)
Definition configured (config : iolink_config_t) (deadline : Z) c : iolink_dll_ctx_t W :=
  let type := u8 (m_seq_type_val (cfg_m_seq_type config)) in
  c<| dll_m_seq_type := type |><| dll_pd_in_len := cfg_pd_in_len config |>
   <| dll_pd_out_len := cfg_pd_out_len config |>
   <| dll_min_cycle_time_us := u32 (cfg_min_cycle_time config * 100) |>
   <| dll_t_pd_delay_us := cfg_t_pd_us config |><| dll_t_pd_deadline_us := deadline |>
   <| dll_od_len := if decide (m_seq_is_type2 type) then 2 else 1 |>
   <| dll_pd_in_len_current := cfg_pd_in_len config |>
   <| dll_pd_out_len_current := cfg_pd_out_len config |>
   <| dll_pd_in_len_max := cfg_pd_in_len config |>
   <| dll_pd_out_len_max := cfg_pd_out_len config |>.

Lemma platform_runs : PlatformKeeps (W := W) (fun _ => 0%nat) (fun _ => []).
Proof. by split. Qed.

Lemma wp_apply_config config (Q : unit -> dll_sys W -> Prop) c e :
  (forall deadline e', (cfg_t_pd_us config <= 0 -> deadline = 0) -> is_u64 deadline ->
     pe_info e' = pe_info e -> pe_shadow e' = pe_shadow e ->
     Q tt (mk_dll_sys (configured config deadline c) e')) ->
  wp (apply_config config) Q (mk_dll_sys c e).
Proof.
  intros HQ. unfold apply_config. repeat dll_step.
  unfold configured in HQ. cbv zeta in HQ.
  match goal with |- wp _ _ (mk_dll_sys ?c1 _) => set (c0 := c1) end.
  apply (wp_mono _ (fun (_ : unit) s => exists deadline e', (cfg_t_pd_us config <= 0 -> deadline = 0) /\ is_u64 deadline /\
    pe_info e' = pe_info e /\ pe_shadow e' = pe_shadow e /\
    s = mk_dll_sys (c0<| dll_t_pd_deadline_us := deadline |>) e')).
  - wp_branch.
    + wp_step. apply (wp_time_us _ _ platform_runs). intros t e' _ (Hi & Hs & _). cbv beta. dll_step.
      exists (u64 (t + cfg_t_pd_us config)), e'. split_and!; try done; unfold u64; lia.
    + dll_step. by exists 0, e.
  - intros [] s (deadline & e' & Hd & Hdr & Hi & Hs & ->). cbv beta. unfold c0.
    dll_step. dll_step. wp_step. apply (wp_mono _ (fun (_ : unit) s => s = mk_dll_sys
      (c0<| dll_t_pd_deadline_us := deadline |>
         <| dll_od_len := if decide (m_seq_is_type2 (u8 (m_seq_type_val (cfg_m_seq_type config)))) then 2 else 1 |>) e')).
    { wp_branch; by dll_step. }
    intros [] s ->. unfold apply_pd_lengths, c0.
    assert (wp apply_pd_lengths Q (mk_dll_sys
      (c0<| dll_t_pd_deadline_us := deadline |>
         <| dll_od_len := if decide (m_seq_is_type2 (u8 (m_seq_type_val (cfg_m_seq_type config)))) then 2 else 1 |>) e'))
      as H; [|by wp_branch].
    unfold apply_pd_lengths, c0. repeat dll_step. by apply HQ.
Qed.

(** ** The whole start-up *)

(** A configuration whose process data fit the buffers. *)
Definition config_ok (config : iolink_config_t) : Prop :=
  0 <= cfg_pd_in_len config <= 32 /\ 0 <= cfg_pd_out_len config <= 32.

(** The invariant of the facade: that of the data link layer, and an output
    length the buffer holds. *)
Definition core_wf g : Prop := sys_wf phy (g_sys g) /\ 0 <= dll_pd_out_len (g_dll_ctx g) <= 32.

Lemma dll_started_wf : ctx_wf phy dll_started.
Proof.
  assert (dll_isdu dll_started = isdu_cleared<| isdu_event_ctx := true |><| isdu_dll_ctx := true |> /\
    dll_events dll_started = iolink_events_init /\ dll_frame_buf dll_started = replicate 48 0 /\
    dll_pd_in dll_started = replicate 32 0 /\ dll_pd_out dll_started = replicate 32 0)
    as (Hi & He & Hf & Hpi & Hpo) by (vm_compute; done).
  unfold ctx_wf. rewrite Hi, He, Hf, Hpi, Hpo.
  split_and!; try (vm_compute; done); first [exact isdu_cleared_wf | apply evq_init_wf | apply bytes_ok_replicate].
Qed.

Lemma configured_wf config deadline c : ctx_wf phy c -> config_ok config -> ctx_wf phy (configured config deadline c).
Proof.
  unfold ctx_wf, configured. cbv zeta. rec_simpl. intros H [? ?].
  split_and!; try tauto; try lia; by case_decide.
Qed.

(** The globals after [iolink_init]. *)
Definition core_started config deadline e g : core W :=
  mk_core (mk_dll_sys (configured config deadline dll_started) e) config.

(** The parameters after the start-up: those of [iolink_params_init], run on the
    memory as it was. *)
Definition started_env (e0 e : params_env W) : Prop :=
  exists e1 e2, env_kept e0 e1 /\ iolink_params_init e1 = Done (tt, e2) /\
    pe_info e = pe_info e2 /\ pe_shadow e = pe_shadow e2.

Lemma wp_init `{!NvmReadBounded W} config (Q : Z -> core W -> Prop) g :
  params_wf (sys_env (g_sys g)) -> nvm_image_ok (pe_hw (sys_env (g_sys g))) ->
  (forall deadline e, (cfg_t_pd_us (default config_default config) <= 0 -> deadline = 0) -> is_u64 deadline ->
     params_wf e -> started_env (sys_env (g_sys g)) e ->
     Q 0 (core_started (default config_default config) deadline e g)) ->
  (forall err e, err <> 0 -> params_wf e ->
     (exists init w, phy_init phy = Some init /\ init (pe_hw (sys_env (g_sys g))) = Done (err, w)) ->
     Q err (mk_core (mk_dll_sys (g_dll_ctx g) e) (default config_default config))) ->
  wp (iolink_init (Some phy) config) Q g.
Proof.
  destruct g as [[c e] cfg]. cbn [g_sys sys_env]. intros He Him HQ0 HQe. set (cfg' := default _ _) in *. unfold iolink_init.
  wp_step. apply wp_assign. wp_step.
  apply (wp_mono _ (fun err g => exists e1, g = mk_core (mk_dll_sys c e1) cfg' /\ env_kept e e1 /\
    (err = 0 \/ exists init w, phy_init phy = Some init /\ init (pe_hw e) = Done (err, w)))).
  { destruct (phy_init phy) as [init|] eqn:Hinit.
    - apply wp_zoom. cbn [view put g_sys_lens g_sys sys_env_lens sys_env sys_hw_lens pe_hw]. apply wp_zoom. cbn [view put g_sys_lens g_sys sys_env_lens sys_env sys_hw_lens pe_hw].
      pose proof (starts_init Hstarts init Hinit (pe_hw e)) as H.
      apply wp_done in H as (err & w & Hrun & H). eapply wp_intro; [exact Hrun|].
      eexists. split; [done|]. split; [|right; by exists init, w]. by destruct H.
    - wp_step. eexists. split; [done|]. split; [done|by left]. }
  intros err g (e1 & -> & He1 & Herr). cbv beta. case_decide as H0.
  - wp_step. apply HQe; [done | by eapply env_kept_params | by destruct Herr].
  - assert (err = 0) as -> by lia. wp_step. apply wp_zoom. cbn [view put g_sys_lens g_sys sys_env_lens sys_env sys_hw_lens pe_hw]. apply wp_dll_init. intros e2 He2.
    assert (env_kept e e2) as He02 by (by etransitivity). cbv beta.
    wp_step. apply wp_zoom. cbn [view put g_sys_lens g_sys sys_env_lens sys_env sys_hw_lens pe_hw]. apply wp_zoom. cbn [view put g_sys_lens g_sys sys_env_lens sys_env sys_hw_lens pe_hw].
    assert (wp iolink_params_init (fun _ => params_wf) e2) as H3
      by (apply wp_params_init; [by eapply env_kept_params | by eapply env_kept_image | done]).
    apply wp_done in H3 as ([] & e3 & Hrun3 & He3). eapply wp_intro; [exact Hrun3|]. cbv beta.
    wp_step. apply wp_gets. wp_step. apply wp_zoom. cbn [view put g_sys_lens g_sys sys_env_lens sys_env sys_hw_lens pe_hw]. apply wp_apply_config.
    intros deadline e4 Hd Hdr Hi Hs. cbv beta. wp_step. apply HQ0; [done|done| |by exists e2, e3].
    destruct He3. split; congruence.
Qed.
End init.

(** ** A device on a line *)

Lemma line_starts : PhyStarts line_phy.
Proof. by split; cbn; intros; simplify_eq. Qed.

(** The context after start-up with the given sequence type and lengths. *)
Definition demo_ctx (type : iolink_m_seq_type_t) (pd_in pd_out : Z) : iolink_dll_ctx_t line :=
  configured (mk_config type 20 pd_in pd_out 0) 0 (dll_started line_phy).

Definition demo_env (bytes : list Z) : params_env line :=
  mk_params_env (pe_info params_demo) (pe_shadow params_demo) (mk_line bytes [] false (mk_ram [] 0)).

Lemma demo_env_wf bytes : params_wf (demo_env bytes).
Proof. apply params_demo_wf. Qed.

Lemma demo_ctx_wf type pd_in pd_out :
  0 <= pd_in <= 32 -> 0 <= pd_out <= 32 -> ctx_wf line_phy (demo_ctx type pd_in pd_out).
Proof. intros H1 H2. exact (configured_wf line_phy (mk_config type 20 pd_in pd_out 0) 0 _ (dll_started_wf line_phy) (conj H1 H2)). Qed.

(** The same device once the master has started the communication. *)
Definition demo_running (type : iolink_m_seq_type_t) (pd_in pd_out : Z) (st : iolink_dll_state_t) :=
  (demo_ctx type pd_in pd_out)<| dll_phy_mode := IOLINK_PHY_MODE_SDCI |><| dll_state := st |>.

Lemma ctx_wf_mode_state {W} (phy : iolink_phy_api_t W) c m st :
  ctx_wf phy c -> ctx_wf phy (c<| dll_phy_mode := m |><| dll_state := st |>).
Proof. unfold ctx_wf. by rec_simpl. Qed.

Lemma demo_running_wf type pd_in pd_out st :
  0 <= pd_in <= 32 -> 0 <= pd_out <= 32 -> ctx_wf line_phy (demo_running type pd_in pd_out st).
Proof. intros H1 H2. apply ctx_wf_mode_state. by apply demo_ctx_wf. Qed.
