(* ===== verification/DllReady.v ===== *)
(** * The frames of a master

    A type 0 frame and a cyclic frame as a master builds them, and what the
    bytes of such a frame, received one after the other, do to a context that
    enforces no timing: a complete frame in the buffer, handled by
    [frame_step]. *)
From S2P Require Export CoreInit DllRate.
#[local] Open Scope Z_scope.

(** A type 0 frame, and a cyclic one with its process data and on-request data. *)
Definition type0_frame (mc : Z) : list Z := [mc; crc6 [mc; 0]].
Definition cyclic_frame (mc ckt : Z) (pd od : list Z) : list Z :=
  let body := mc :: ckt :: pd ++ od in body ++ [crc6 body].

Section frames.
Context {W : Type} `{!Platform W} (phy : iolink_phy_api_t W) (rx : W -> nat)
  (tx : W -> list (list Z)).
Implicit Types (c : iolink_dll_ctx_t W) (e : params_env W) (s : dll_sys W).

(** ** Assembly *)

(** The context [c0] while a frame is collected. *)
Definition assembling c0 (ms tf tb : Z) (buf : list Z) (index len : Z) : iolink_dll_ctx_t W :=
  c0<| dll_last_activity_ms := ms |><| dll_last_byte_us := tb |>
    <| dll_frame_buf := buf |><| dll_frame_index := index |>
    <| dll_last_frame_us := tf |><| dll_req_len := len |>.

(** The context [c0] with a complete frame in its buffer. *)
Definition frame_ready c0 (bytes : list Z) c1 : Prop :=
  exists ms tf tb tc buf,
    zlen buf = 48 /\ take (length bytes) buf = bytes /\
    c1 = (assembling c0 ms tf tb buf (zlen bytes) (zlen bytes))<| dll_last_cycle_start_us := tc |>.

Lemma byte_timed_unenforced t ms c :
  dll_enforce_timing c = false ->
  byte_timed t ms c = c<| dll_last_activity_ms := ms |><| dll_last_byte_us := t |>.
Proof.
  intros He. unfold byte_timed. cbv zeta. rewrite decide_False; [done|].
  unfold dll_gap_exceeded. rec_simpl. rewrite He. by intros [(_ & ? & _) _].
Qed.

Lemma cycle_checked_unenforced t c :
  dll_enforce_timing c = false -> cycle_checked t c = c<| dll_last_cycle_start_us := t |>.
Proof. intros He. unfold cycle_checked. rewrite decide_False; [done|]. rewrite He. by intros [[? _] _]. Qed.

(** The rest of a frame. *)
Lemma collect_frame rest pre c0 ms tf tb buf n c' frames :
  dll_enforce_timing c0 = false -> rest <> [] -> pre <> [] -> zlen buf = 48 ->
  take (length pre) buf = pre -> n = zlen (pre ++ rest) -> n <= 48 ->
  bytes_step phy rest (assembling c0 ms tf tb buf (zlen pre) n) c' frames ->
  exists c1 c2, frame_ready c0 (pre ++ rest) c1 /\ frame_step phy c1 c2 frames /\
    c' = c2<| dll_frame_index := 0 |>.
Proof.
  intros He Hne. revert pre ms tf tb buf frames. induction rest as [|b rest IH]; [done|].
  intros pre ms tf tb buf frames Hpre Hz Htk Hn H48 Hs. inversion Hs as [|b' bytes c1 c2 c3 l l' Hb Hstep Hrest]; subst.
  rewrite zlen_app, zlen_cons in *. pose proof (zlen_nonneg rest).
  assert (1 <= zlen pre) by (destruct pre; [done|]; rewrite zlen_cons; pose proof (zlen_nonneg pre); lia).
  assert (forall t ms', assembled b t (byte_timed t ms' (assembling c0 ms tf tb buf (zlen pre) (zlen pre + (1 + zlen rest)))) =
    assembling c0 ms' tf t (<[length pre := b]> buf) (zlen (pre ++ [b])) (zlen pre + (1 + zlen rest))) as Hasm.
  { intros t ms'. rewrite byte_timed_unenforced by (unfold assembling; by rec_simpl).
    unfold assembled, assembling. rec_simpl. rewrite decide_False, decide_True by lia.
    rewrite u8_small, zlen_to_nat, zlen_app by lia. by destruct c0. }
  assert (take (length (pre ++ [b])) (<[length pre := b]> buf) = pre ++ [b]) as Htk'.
  { rewrite length_app, Nat.add_1_r. rewrite (take_S_r _ _ b).
    - by rewrite take_insert_ge, Htk by lia.
    - apply list_lookup_insert_eq. unfold zlen in *. lia. }
  assert (zlen (<[length pre := b]> buf) = 48) as Hz' by (by rewrite zlen_insert).
  destruct Hstep as [t ms' c1 -> Hinc _ _|t ms' t2 c1 c2' l -> Hcomp Hfr _ _ _].
  - rewrite Hasm in Hrest, Hinc. destruct rest as [|b2 rest].
    { exfalso. apply Hinc. unfold frame_complete, assembling. rec_simpl. rewrite zlen_app. cbn. unfold zlen in *. cbn in *. lia. }
    rewrite app_nil_l.
    destruct (IH ltac:(done) (pre ++ [b]) ms' tf t (<[length pre := b]> buf) l') as (c1 & c2'' & Hr & Hf & ->); try done.
    + by destruct pre.
    + rewrite !zlen_app, !zlen_cons. cbn. change (zlen (@nil Z)) with 0. lia.
    + rewrite <- app_assoc in Hr. by exists c1, c2''.
  - rewrite Hasm in Hcomp, Hfr. destruct Hcomp as [_ Hcomp]. unfold assembling in Hcomp. rec_simpl in Hcomp.
    rewrite zlen_app in Hcomp. change (zlen [b]) with 1 in Hcomp.
    assert (rest = []) as ->.
    { destruct rest; [done|]. rewrite zlen_cons in *. pose proof (zlen_nonneg rest). lia. }
    inversion Hrest; subst. rewrite app_nil_r.
    rewrite cycle_checked_unenforced in Hfr by (unfold assembling; by rec_simpl).
    eexists _, c2'. split; [|split; [exact Hfr | done]].
    exists ms', tf, t, t2, (<[length pre := b]> buf). split_and!; try done.
    do 2 f_equal. rewrite zlen_app. change (zlen [b]) with 1. change (zlen (@nil Z)) with 0. lia.
Qed.

Lemma frame_received c0 b rest c' frames :
  ctx_wf phy c0 -> dll_enforce_timing c0 = false -> dll_frame_index c0 = 0 ->
  zlen (b :: rest) = dll_frame_length c0 b ->
  bytes_step phy (b :: rest) c0 c' frames ->
  exists c1 c2, frame_ready c0 (b :: rest) c1 /\ frame_step phy c1 c2 frames /\
    c' = c2<| dll_frame_index := 0 |>.
Proof.
  intros Hc He Hi Hlen Hs. pose proof (frame_length_bounds phy c0 b Hc) as Hb.
  pose proof Hc as (_ & _ & _ & (Hz & _) & _).
  inversion Hs as [|b' bytes c1 c2 c3 l l' Hb8 Hstep Hrest]; subst. rewrite zlen_cons in Hlen.
  assert (forall t ms, assembled b t (byte_timed t ms c0) =
    assembling c0 ms t t (<[0%nat := b]> (dll_frame_buf c0)) (zlen [b]) (zlen ([b] ++ rest))) as Hasm.
  { intros t ms. rewrite byte_timed_unenforced by done. unfold assembled, assembling. rec_simpl.
    rewrite decide_True by done. f_equal. rewrite zlen_app. change (zlen [b]) with 1. rewrite Hlen.
    unfold dll_frame_length. by rec_simpl. }
  assert (rest <> []) as Hne by (intros ->; change (zlen (@nil Z)) with 0 in *; lia).
  destruct Hstep as [t ms c1 -> Hinc _ _|t ms t2 c1 c2' l -> Hcomp Hfr _ _ _]; rewrite Hasm in *.
  - apply (collect_frame rest [b]) in Hrest; try done.
    + by rewrite zlen_insert.
    + destruct (dll_frame_buf c0); [done|]. by cbn; rewrite take_0.
    + rewrite zlen_app. change (zlen [b]) with 1. lia.
  - destruct Hcomp as [_ Hcomp]. unfold assembling in Hcomp. rec_simpl in Hcomp.
    rewrite zlen_app in Hcomp. change (zlen [b]) with 1 in Hcomp. pose proof (zlen_nonneg rest). lia.
Qed.

(** ** A complete frame *)

(** What the frames leave alone. *)
Definition link_of c :=
  (dll_phy c, dll_m_seq_type c, dll_baudrate c, dll_phy_mode c, dll_enforce_timing c,
   (dll_pd_in_len_current c, dll_pd_out_len_current c, dll_od_len c, dll_pd_in c),
   (dll_pd_in_toggle c, dll_pd_valid c, dll_events c, dll_ds c, dll_sio_fallback_threshold c)).

Lemma frame_ready_link c0 bytes c1 :
  frame_ready c0 bytes c1 ->
  link_of c1 = link_of c0 /\ dll_state c1 = dll_state c0 /\ dll_isdu c1 = dll_isdu c0 /\
  dll_pd_out c1 = dll_pd_out c0 /\ dll_fallback_count c1 = dll_fallback_count c0 /\
  dll_req_len c1 = zlen bytes.
Proof.
  intros (ms & tf & tb & tc & buf & _ & _ & ->). unfold link_of, assembling. rec_simpl. by split_and!.
Qed.

Lemma frame_ready_slice c0 bytes c1 i n :
  frame_ready c0 bytes c1 -> (i + n <= length bytes)%nat ->
  take n (drop i (dll_frame_buf c1)) = take n (drop i bytes).
Proof.
  intros (ms & tf & tb & tc & buf & Hz & Htk & ->) Hn. unfold assembling. rec_simpl.
  revert Hn Htk. generalize (length bytes) as L. intros L Hn <-.
  rewrite skipn_firstn_comm, firstn_firstn. f_equal. lia.
Qed.

Lemma frame_ready_byte c0 bytes c1 i x :
  frame_ready c0 bytes c1 -> bytes !! Z.to_nat i = Some x -> frame_byte c1 i = x.
Proof.
  intros (ms & tf & tb & tc & buf & Hz & Htk & ->) Hx. unfold frame_byte, assembling. rec_simpl.
  rewrite <- Htk in Hx. apply lookup_take_Some in Hx as [Hx _]. by rewrite Hx.
Qed.

Lemma type0_ready c0 mc c1 :
  frame_ready c0 (type0_frame mc) c1 ->
  dll_req_len c1 = 2 /\ frame_mc c1 = mc /\ frame_crc_ok c1.
Proof.
  intros H. destruct (frame_ready_link _ _ _ H) as (_ & _ & _ & _ & _ & Hr). change (zlen (type0_frame mc)) with 2 in Hr.
  assert (frame_mc c1 = mc) as Hmc by (by eapply frame_ready_byte).
  split_and!; try done. unfold frame_crc_ok. rewrite decide_True, Hmc by done.
  symmetry. by eapply frame_ready_byte.
Qed.

Lemma cyclic_length mc ckt pd od : zlen (cyclic_frame mc ckt pd od) = 3 + zlen pd + zlen od.
Proof. unfold cyclic_frame, zlen. rewrite length_app. cbn [length]. rewrite length_app. lia. Qed.

(** A frame of at least two bytes and its check. *)
Lemma ready_crc c0 body ck c1 :
  frame_ready c0 (body ++ [ck]) c1 -> 2 <= zlen body -> (frame_crc_ok c1 <-> crc6 body = ck).
Proof.
  intros H Hb. destruct (frame_ready_link _ _ _ H) as (_ & _ & _ & _ & _ & Hr).
  rewrite zlen_app in Hr. change (zlen [ck]) with 1 in Hr.
  unfold frame_crc_ok. rewrite decide_False by lia. rewrite Hr.
  replace (zlen body + 1 - 1) with (zlen body) by lia. rewrite zlen_to_nat.
  pose proof (frame_ready_slice _ _ _ 0 (length body) H) as Hs. rewrite !drop_0 in Hs.
  rewrite Hs by (rewrite length_app; cbn; lia). rewrite take_app_length.
  assert (frame_byte c1 (zlen body) = ck) as ->; [|done].
  eapply frame_ready_byte; [exact H|]. rewrite zlen_to_nat. by apply list_lookup_middle.
Qed.

Lemma cyclic_ready c0 mc ckt pd od c1 :
  frame_ready c0 (cyclic_frame mc ckt pd od) c1 ->
  zlen pd = dll_pd_out_len_current c0 -> zlen od = dll_od_len c0 -> 1 <= zlen od ->
  dll_req_len c1 = 3 + zlen pd + zlen od /\ frame_mc c1 = mc /\ frame_crc_ok c1 /\
  frame_pd c1 = pd /\ frame_od c1 = od.
Proof.
  intros H Hpd Hod H1. pose proof (zlen_nonneg pd).
  destruct (frame_ready_link _ _ _ H) as (Hlink & _ & _ & _ & _ & Hr). rewrite cyclic_length in Hr.
  unfold link_of in Hlink. injection Hlink as _ _ _ _ _ _ Hpl Hol _ _ _ _ _ _.
  assert (frame_mc c1 = mc) as Hmc by (by eapply frame_ready_byte).
  set (body := mc :: ckt :: pd ++ od).
  assert (zlen body = 2 + zlen pd + zlen od) as Hbl by (unfold body; rewrite !zlen_cons, zlen_app; lia).
  split; [done|]. split; [done|]. split; [|split].
  - eapply (ready_crc c0 body); [exact H | lia | done].
  - unfold frame_pd. rewrite Hpl, <- Hpd, zlen_to_nat.
    rewrite (frame_ready_slice _ _ _ 2 (length pd) H); [|unfold cyclic_frame; cbn; rewrite !length_app; lia].
    unfold cyclic_frame. cbn [app drop]. rewrite <- app_assoc, drop_0. by rewrite take_app_length.
  - unfold frame_od. rewrite Hpl, Hol, <- Hpd, <- Hod, zlen_to_nat.
    replace (Z.to_nat (2 + zlen pd)) with (2 + length pd)%nat by (unfold zlen; lia).
    rewrite (frame_ready_slice _ _ _ (2 + length pd) (length od) H);
      [|unfold cyclic_frame; cbn; rewrite !length_app; lia].
    unfold cyclic_frame. cbn [app drop Nat.add]. by rewrite <- app_assoc, drop_app_length, take_app_length.
Qed.

Lemma bytes_step_app l1 l2 c c' frames :
  bytes_step phy (l1 ++ l2) c c' frames ->
  exists c1 f1 f2, bytes_step phy l1 c c1 f1 /\ bytes_step phy l2 c1 c' f2 /\ frames = f1 ++ f2.
Proof.
  revert c frames. induction l1 as [|b l1 IH]; intros c frames H.
  - exists c, [], frames. split_and!; [constructor | done | done].
  - cbn in H. inversion H as [|b' l c1 c2 c3 f f' Hb Hs Hrest]; subst.
    apply IH in Hrest as (c4 & f1 & f2 & H1 & H2 & ->).
    exists c4, (f ++ f1), f2. split_and!; [by econstructor | done | by rewrite app_assoc].
Qed.
(** ** One frame of a master *)

Lemma length_short c b :
  dll_state c <> IOLINK_DLL_STATE_OPERATE ->
  dll_state c <> IOLINK_DLL_STATE_ESTAB_COM \/ b = IOLINK_MC_TRANSITION_COMMAND ->
  dll_frame_length c b = 2.
Proof.
  intros H1 H2. unfold dll_frame_length. cbv zeta. repeat case_decide; (done || tauto).
Qed.

Lemma length_full c b :
  ctx_wf phy c -> dll_baudrate c <> IOLINK_BAUDRATE_COM1 ->
  dll_m_seq_type c <> m_seq_type_val IOLINK_M_SEQ_TYPE_0 ->
  dll_state c = IOLINK_DLL_STATE_ESTAB_COM /\ b <> IOLINK_MC_TRANSITION_COMMAND \/
    dll_state c = IOLINK_DLL_STATE_OPERATE ->
  dll_frame_length c b = 3 + dll_pd_out_len_current c + dll_od_len c.
Proof.
  intros Hc Hb Ht Hs. pose proof Hc as (_ & _ & _ & _ & _ & _ & _ & Hl & Ho & _).
  unfold dll_frame_length, IOLINK_M_SEQ_HEADER_LEN. cbv zeta. rewrite u8_small by lia.
  rewrite decide_False by done. repeat case_decide; (lia || tauto).
Qed.

(** A context between two frames. *)
Definition between_frames c : Prop :=
  ctx_wf phy c /\ dll_enforce_timing c = false /\ dll_frame_index c = 0.

(** What a frame that is not a cyclic one leaves. *)
Definition moved_to (st : iolink_dll_state_t) c c' : Prop :=
  between_frames c' /\ dll_state c' = st /\ link_of c' = link_of c /\ dll_pd_out c' = dll_pd_out c.

Lemma ready_between c c1 c2 bytes frames :
  between_frames c -> bytes_step phy bytes c (c2<| dll_frame_index := 0 |>) frames ->
  frame_ready c bytes c1 -> link_of c2 = link_of c1 ->
  between_frames (c2<| dll_frame_index := 0 |>) /\ link_of (c2<| dll_frame_index := 0 |>) = link_of c.
Proof.
  intros (Hc & He & Hi) Hs Hr Hl. destruct (frame_ready_link _ _ _ Hr) as (Hl1 & _).
  assert (link_of (c2<| dll_frame_index := 0 |>) = link_of c) as Hlc by (rewrite <- Hl1; exact Hl).
  split; [|done]. split; [by eapply ctx_wf_bytes_step|].
  split; [unfold link_of in Hlc; congruence | by rec_simpl].
Qed.

Lemma moved_ready st c c1 c2 bytes frames :
  between_frames c -> bytes_step phy bytes c (c2<| dll_frame_index := 0 |>) frames ->
  frame_ready c bytes c1 -> link_of c2 = link_of c1 -> dll_state c2 = st -> dll_pd_out c2 = dll_pd_out c1 ->
  moved_to st c (c2<| dll_frame_index := 0 |>).
Proof.
  intros Hb Hs Hr Hl Hst Hp. destruct (frame_ready_link _ _ _ Hr) as (_ & _ & _ & Hp1 & _).
  destruct (ready_between _ _ _ _ _ Hb Hs Hr Hl) as [H1 H2]. split_and!; [done | rec_simpl; exact Hst | done|].
  rec_simpl. congruence.
Qed.

Definition starting c : Prop :=
  dll_state c = IOLINK_DLL_STATE_STARTUP \/ dll_state c = IOLINK_DLL_STATE_AWAITING_COMM \/
  dll_state c = IOLINK_DLL_STATE_PREOPERATE.

Lemma promoted_starting c : starting c -> dll_state (promoted c) = IOLINK_DLL_STATE_PREOPERATE.
Proof. intros H. rewrite state_promoted. unfold starting in H. destruct (dll_state c); intuition congruence. Qed.

Lemma link_of_promoted c : link_of (promoted c) = link_of c.
Proof. unfold promoted. case_decide; done. Qed.

Lemma forbidden_starting c : starting c -> ~ forbidden c.
Proof. intros H [[H1 _]|[H1 _]]; unfold starting in H; intuition congruence. Qed.

(** A type 0 frame before the ESTAB_COM state. *)
Lemma type0_step c mc c' frames :
  between_frames c -> starting c -> mc <> IOLINK_MC_TRANSITION_COMMAND ->
  bytes_step phy (type0_frame mc) c c' frames ->
  exists od i, isdu_exchange_byte mc (dll_isdu c) = Done (od, i) /\
    frames = [[od; crc6 [od; 0]]] /\ moved_to IOLINK_DLL_STATE_PREOPERATE c c' /\ dll_isdu c' = i.
Proof.
  intros Hb Hst Hmc Hs. pose proof Hb as (Hc & He & Hi).
  pose proof Hs as (c1 & c2 & Hr & Hf & ->)%frame_received; try done;
    [|rewrite length_short; [done | unfold starting in Hst; intuition congruence..]].
  destruct (type0_ready _ _ _ Hr) as (H2 & Hm & Hcrc).
  destruct (frame_ready_link _ _ _ Hr) as (Hl & Hs1 & Hi1 & Hp1 & _).
  assert (starting c1) as Hst1 by (unfold starting in *; by rewrite Hs1).
  pose proof (promoted_starting c1 Hst1) as Hprom.
  assert (dll_enforce_timing c1 = false) as He1 by (unfold link_of in Hl; congruence).
  destruct Hf as [|Hcrc' Hf'|Hcrc' Hr' Hm' _|od i _ _ _ _ _ Hrun Hi'|od i t1 t2 _ Hlt|_ [[_ Hne]|Hne]];
    try done; try lia.
  - by apply forbidden_starting in Hf'.
  - exists od, i. split; [by rewrite <- Hm, <- Hi1|]. split; [done|]. split; [|by rec_simpl].
    eapply moved_ready; [exact Hb | exact Hs | exact Hr | | rec_simpl; exact Hprom |].
    + exact (link_of_promoted c1).
    + unfold promoted. case_decide; by rec_simpl.
  - unfold starting in Hst1. intuition congruence.
Qed.
(** The transition command, a type 0 frame. *)
Lemma transition_step c c' frames :
  between_frames c -> starting c \/ dll_state c = IOLINK_DLL_STATE_ESTAB_COM ->
  bytes_step phy (type0_frame IOLINK_MC_TRANSITION_COMMAND) c c' frames ->
  frames = [] /\ moved_to IOLINK_DLL_STATE_ESTAB_COM c c' /\ dll_isdu c' = dll_isdu c /\
  dll_fallback_count c' = 0.
Proof.
  intros Hb Hst Hs. pose proof Hb as (Hc & He & Hi).
  pose proof Hs as (c1 & c2 & Hr & Hf & ->)%frame_received; try done;
    [|rewrite length_short; [done | unfold starting in Hst; intuition congruence | by right]].
  destruct (type0_ready _ _ _ Hr) as (H2 & Hm & Hcrc).
  destruct (frame_ready_link _ _ _ Hr) as (Hl & Hs1 & Hi1 & Hp1 & _).
  assert (starting c1 \/ dll_state c1 = IOLINK_DLL_STATE_ESTAB_COM) as Hst1
    by (unfold starting in *; by rewrite Hs1).
  inversion Hf as [|Hcrc' [[_ [Hlt _]]|[Hop _]]|Hcrc' Hr' Hm' Hpre| | |_ [[_ Hne]|Hne]]; subst;
    try done; try lia; try (exfalso; unfold starting in Hst1; intuition congruence).
  assert (forall x : iolink_dll_ctx_t W, link_of (x<| dll_state := IOLINK_DLL_STATE_ESTAB_COM |>
    <| dll_fallback_count := 0 |>) = link_of x) as Hlx by done.
  split; [done|]. split; [|split; [rec_simpl; by rewrite isdu_promoted | by rec_simpl]].
  eapply moved_ready; [exact Hb | exact Hs | exact Hr | | by rec_simpl |].
  - by rewrite Hlx, link_of_promoted.
  - unfold promoted. case_decide; by rec_simpl.
Qed.

Lemma response_frame_link c c' od : link_of c = link_of c' -> response_frame c od = response_frame c' od.
Proof. intros H. unfold link_of in H. unfold response_frame, response_body. congruence. Qed.

Lemma exchanged_unenforced i t1 t2 c :
  dll_enforce_timing c = false ->
  link_of (exchanged_ctx phy i t1 t2 c) = link_of c /\
  dll_state (exchanged_ctx phy i t1 t2 c) = dll_state c /\
  dll_isdu (exchanged_ctx phy i t1 t2 c) = i /\
  dll_pd_out (exchanged_ctx phy i t1 t2 c) = frame_pd c ++ drop (length (frame_pd c)) (dll_pd_out c).
Proof.
  intros He. unfold exchanged_ctx. cbv zeta. destruct (phy_send phy).
  - unfold after_response. cbv zeta. rec_simpl.
    rewrite decide_False by (unfold pd_written; rec_simpl; rewrite He; intros [? _]; done).
    unfold pd_written. by rec_simpl.
  - unfold pd_written. by rec_simpl.
Qed.

(** A cyclic frame. *)
Lemma cyclic_step c mc ckt pd od c' frames :
  between_frames c -> dll_baudrate c <> IOLINK_BAUDRATE_COM1 ->
  dll_m_seq_type c <> m_seq_type_val IOLINK_M_SEQ_TYPE_0 ->
  dll_state c = IOLINK_DLL_STATE_ESTAB_COM \/ dll_state c = IOLINK_DLL_STATE_OPERATE ->
  mc <> IOLINK_MC_TRANSITION_COMMAND -> ~ dll_bad_channel mc ->
  zlen pd = dll_pd_out_len_current c -> zlen od = dll_od_len c ->
  bytes_step phy (cyclic_frame mc ckt pd od) c c' frames ->
  exists ods i, isdu_exchange_all od (dll_isdu c) = Done (ods, i) /\ length ods = length od /\
    frames = [response_frame c ods] /\ between_frames c' /\
    dll_state c' = IOLINK_DLL_STATE_OPERATE /\ link_of c' = link_of c /\ dll_isdu c' = i /\
    dll_pd_out c' = pd ++ drop (length pd) (dll_pd_out c).
Proof.
  intros Hb Hbaud Htype Hst Hmc Hch Hpd Hod Hs. pose proof Hb as (Hc & He & Hi).
  pose proof Hc as (_ & _ & _ & _ & _ & _ & _ & Hlen & Hol & _).
  pose proof (zlen_nonneg pd) as Hpd0. pose proof (zlen_nonneg od) as Hod0.
  pose proof Hs as (c1 & c2 & Hr & Hf & ->)%frame_received; try done.
  2:{ change (mc :: _) with (cyclic_frame mc ckt pd od).
      rewrite cyclic_length, length_full by (done || (destruct Hst; auto)). lia. }
  destruct (cyclic_ready _ _ _ _ _ _ Hr Hpd Hod ltac:(lia)) as (Hrl & Hm & Hcrc & Hfpd & Hfod).
  destruct (frame_ready_link _ _ _ Hr) as (Hl & Hs1 & Hi1 & Hp1 & _).
  assert (dll_enforce_timing c1 = false) as He1 by (unfold link_of in Hl; congruence).
  destruct Hf as [|Hcrc' Hf'|Hcrc' Hr'| |ods i t1 t2 _ Hlt _ _ Hrun Hi' Hlo Hok _|_ [[Hpre _]|Hne]];
    try done; try lia.
  - exfalso. unfold forbidden in Hf'. rewrite Hm in Hf'. tauto.
  - exists ods, i. rewrite Hfod, Hi1 in Hrun. rewrite Hfod in Hlo.
    destruct (exchanged_unenforced i t1 t2 (c1<| dll_state := IOLINK_DLL_STATE_OPERATE |>)) as (Hl2 & Hs2 & Hi2 & Hp2);
      [by rec_simpl|].
    destruct (ready_between _ _ (exchanged_ctx phy i t1 t2 (c1<| dll_state := IOLINK_DLL_STATE_OPERATE |>)) _ _ Hb Hs Hr Hl2)
      as [Hb' Hl'].
    assert (frame_pd (c1<| dll_state := IOLINK_DLL_STATE_OPERATE |>) = pd) as Hfp by done.
    rewrite Hfp in Hp2. rec_simpl in Hp2. rewrite Hp1 in Hp2.
    split_and!; [exact Hrun | exact Hlo | by rewrite (response_frame_link c1 c ods Hl) | exact Hb'
      | rec_simpl; exact Hs2 | exact Hl' | rec_simpl; exact Hi2 | rec_simpl; exact Hp2].
  - rewrite state_promoted in Hpre. destruct Hst as [Hst|Hst]; rewrite <- Hs1 in Hst; by rewrite Hst in Hpre.
  - destruct Hst; congruence.
Qed.
(** A frame whose check is wrong, while communicating. *)
Definition errors_of c : Z * Z * Z := (dll_crc_errors c, dll_framing_errors c, dll_total_retries c).
Definition counted (n : Z * Z * Z) : Z * Z * Z :=
  let '(a, b, r) := n in (u32 (a + 1), u32 (b + 1), u32 (r + 1)).

Lemma after_reject_kept c :
  u8 (dll_fallback_count c + 1) < dll_sio_fallback_threshold c -> dll_state c = IOLINK_DLL_STATE_OPERATE ->
  link_of (after_reject c) = link_of c /\ dll_state (after_reject c) = IOLINK_DLL_STATE_OPERATE /\
  dll_fallback_count (after_reject c) = u8 (dll_fallback_count c + 1) /\
  dll_pd_out (after_reject c) = dll_pd_out c.
Proof.
  intros Hn Hst. unfold after_reject, after_fallback. cbv zeta. rec_simpl.
  destruct (decide (dll_sio_fallback_threshold c <= u8 (dll_fallback_count c + 1))) as [?|_]; [lia|].
  rewrite decide_False by (rewrite Hst; intros [? _]; done). by rec_simpl.
Qed.

Lemma after_reject_errors c :
  errors_of (after_reject c) =
  (dll_crc_errors c, u32 (dll_framing_errors c + 1), u32 (dll_total_retries c + 1)).
Proof. unfold errors_of, after_reject, after_fallback. cbv zeta. repeat case_decide; ctx_simpl; done. Qed.

Lemma bad_frame_received c b body ck c' frames :
  between_frames c -> zlen ((b :: body) ++ [ck]) = dll_frame_length c b -> 1 <= zlen body ->
  crc6 (b :: body) <> ck -> bytes_step phy ((b :: body) ++ [ck]) c c' frames ->
  frames = [] /\ exists c1, frame_ready c ((b :: body) ++ [ck]) c1 /\
    c' = (after_reject (c1<| dll_crc_errors := u32 (dll_crc_errors c1 + 1) |>))<| dll_frame_index := 0 |>.
Proof.
  intros (Hc & He & Hi) Hlen Hb Hcrc Hs.
  pose proof Hs as (c1 & c2 & Hr & Hf & ->)%frame_received; try done.
  pose proof (ready_crc c (b :: body) ck c1 Hr ltac:(rewrite zlen_cons; lia)) as Hck.
  destruct Hf; try tauto. split; [done|]. by exists c1.
Qed.

Lemma ready_errors c bytes c1 :
  frame_ready c bytes c1 -> errors_of c1 = errors_of c /\ dll_fallback_count c1 = dll_fallback_count c /\
  dll_events c1 = dll_events c.
Proof. intros (ms & tf & tb & tc & buf & _ & _ & ->). unfold assembling, errors_of. by rec_simpl. Qed.

(** While the threshold is not reached the device stays in OPERATE. *)
Lemma bad_frame_kept c b body ck c' frames :
  between_frames c -> dll_state c = IOLINK_DLL_STATE_OPERATE ->
  zlen ((b :: body) ++ [ck]) = dll_frame_length c b -> 1 <= zlen body -> crc6 (b :: body) <> ck ->
  u8 (dll_fallback_count c + 1) < dll_sio_fallback_threshold c ->
  bytes_step phy ((b :: body) ++ [ck]) c c' frames ->
  frames = [] /\ moved_to IOLINK_DLL_STATE_OPERATE c c' /\
  dll_fallback_count c' = u8 (dll_fallback_count c + 1) /\ errors_of c' = counted (errors_of c).
Proof.
  intros Hb Hst Hlen Hbody Hcrc Hn Hs.
  pose proof (bad_frame_received c b body ck c' frames Hb Hlen Hbody Hcrc Hs) as (-> & c1 & Hr & ->).
  destruct (frame_ready_link _ _ _ Hr) as (Hl & Hs1 & _ & Hp1 & _).
  destruct (ready_errors _ _ _ Hr) as (Herr & Hcnt & _).
  set (c2 := c1<| dll_crc_errors := u32 (dll_crc_errors c1 + 1) |>) in *.
  destruct (after_reject_kept c2) as (Hl2 & Hs2 & Hn2 & Hp2).
  { unfold c2. rec_simpl. unfold link_of in Hl. rewrite Hcnt. congruence. }
  { unfold c2. rec_simpl. congruence. }
  split; [done|]. split; [|split].
  - eapply moved_ready; [exact Hb | exact Hs | exact Hr | exact Hl2 | exact Hs2 | exact Hp2].
  - rec_simpl. rewrite Hn2. unfold c2. rec_simpl. by rewrite Hcnt.
  - pose proof (after_reject_errors c2) as H. unfold errors_of in *. rec_simpl. rewrite H. unfold c2. rec_simpl.
    injection Herr as -> -> ->. done.
Qed.

(** The frame that reaches the threshold ends the communication. *)
Lemma bad_frame_fallback c b body ck c' frames :
  between_frames c -> zlen ((b :: body) ++ [ck]) = dll_frame_length c b -> 1 <= zlen body ->
  crc6 (b :: body) <> ck -> dll_sio_fallback_threshold c <= u8 (dll_fallback_count c + 1) ->
  bytes_step phy ((b :: body) ++ [ck]) c c' frames ->
  frames = [] /\ between_frames c' /\ dll_state c' = IOLINK_DLL_STATE_STARTUP /\
  dll_phy_mode c' = IOLINK_PHY_MODE_SIO /\ com1_stuck c' /\ dll_fallback_count c' = 0 /\
  errors_of c' = counted (errors_of c) /\
  evq_abs (dll_events c') =
    fifo_push (evq_abs (dll_events c)) (mk_event IOLINK_EVENT_CODE_COMM_ERR_FRAMING IOLINK_EVENT_TYPE_WARNING).
Proof.
  intros Hb Hlen Hbody Hcrc Hn Hs.
  pose proof (bad_frame_received c b body ck c' frames Hb Hlen Hbody Hcrc Hs) as (-> & c1 & Hr & ->).
  destruct (frame_ready_link _ _ _ Hr) as (Hl & _). destruct (ready_errors _ _ _ Hr) as (Herr & Hcnt & Hev).
  set (c2 := c1<| dll_crc_errors := u32 (dll_crc_errors c1 + 1) |>) in *.
  assert (dll_enforce_timing c2 = false /\ dll_sio_fallback_threshold c2 <= u8 (dll_fallback_count c2 + 1)) as [He2 Hn2].
  { unfold c2. rec_simpl. unfold link_of in Hl. destruct Hb as (_ & He & _). split; [congruence|].
    rewrite Hcnt. congruence. }
  pose proof (after_reject_errors c2) as Herr2.
  destruct Hb as (Hc & _).
  destruct (event_trigger_exec IOLINK_EVENT_CODE_COMM_ERR_FRAMING IOLINK_EVENT_TYPE_WARNING (dll_events c)
    ltac:(apply Hc)) as (_ & _ & Habs).
  pose proof (ctx_wf_bytes_step _ _ _ _ _ Hc Hs) as Hc'.
  assert (errors_of ((after_reject c2)<| dll_frame_index := 0 |>) = counted (errors_of c)) as Herr3.
  { unfold errors_of in *. rec_simpl. rewrite Herr2. unfold c2. rec_simpl.
    by injection Herr as -> -> ->. }
  assert (dll_events c2 = dll_events c) as Hev2 by (unfold c2; by rec_simpl). rewrite <- Hev2 in Habs.
  revert Hc' Herr3. clear Herr2. generalize c2 He2 Hn2 Habs Hev2. clear.
  intros c2 He Hn Habs Hev Hc' Herr. unfold after_reject, after_fallback in *. cbv zeta in *. rec_simpl in *.
  destruct (decide (dll_sio_fallback_threshold c2 <= u8 (dll_fallback_count c2 + 1))) as [_|?]; [|done].
  split; [done|]. split; [split; [exact Hc'|by ctx_simpl]|]. ctx_simpl.
  split_and!; try done. by rewrite <- Hev.
Qed.
End frames.
