(* ===== verification/DllTheorems.v ===== *)
(** * Theorems on the data link layer

    Safety and termination of [iolink_dll_process], and what it does with the
    frames of a master. *)
From S2P Require Export DllReady.
#[local] Open Scope Z_scope.

(** ** Fuel *)

(** [m'] returns what [m] returns. *)
Definition run_le {S A} (m m' : M S A) : Prop := forall s x, m s = Done x -> m' s = Done x.

Lemma run_le_refl {S A} (m : M S A) : run_le m m.
Proof. by intros s x. Qed.

Lemma run_le_bind {S A B} (m m' : M S A) (f f' : A -> M S B) :
  run_le m m' -> (forall a, run_le (f a) (f' a)) -> run_le (m ≫= f) (m' ≫= f').
Proof.
  intros Hm Hf s x. unfold mbind, M_bind. destruct (m s) as [[a s']|] eqn:E; [|done].
  rewrite (Hm _ _ E). apply Hf.
Qed.

Lemma run_le_if {S A} (P : Prop) `{!Decision P} (m m' n n' : M S A) :
  run_le m m' -> run_le n n' -> run_le (if decide P then m else n) (if decide P then m' else n').
Proof. intros. by destruct (decide P). Qed.

Lemma run_le_when {S} (P : Prop) `{!Decision P} (m m' : M S unit) :
  run_le m m' -> run_le (when P m) (when P m').
Proof. intros. apply run_le_if; [done | apply run_le_refl]. Qed.

Section fuel.
Context {W : Type} `{!Platform W}.

Lemma drain_loop_le fuel fuel' recv saw :
  (fuel <= fuel')%nat ->
  run_le (dll_drain_loop (W := W) fuel recv saw) (dll_drain_loop fuel' recv saw).
Proof.
  revert fuel' saw. induction fuel as [|fuel IH]; intros [|fuel'] saw Hf; try lia; [by intros s x..|].
  cbn [dll_drain_loop]. apply run_le_bind; [apply run_le_refl|]. intros r.
  apply run_le_if; [apply IH; lia | apply run_le_refl].
Qed.

Lemma receive_le fuel fuel' :
  (fuel <= fuel')%nat -> run_le (dll_receive (W := W) fuel) (dll_receive fuel').
Proof.
  revert fuel'. induction fuel as [|fuel IH]; intros [|fuel'] Hf; try lia; [by intros s x..|].
  cbn [dll_receive]. apply run_le_bind; [apply run_le_refl|]. intros p.
  destruct (phy_recv_byte p); [|apply run_le_refl].
  apply run_le_bind; [apply run_le_refl|]. intros r. apply run_le_when, run_le_bind; [apply run_le_refl|].
  intros []. apply IH. lia.
Qed.

Lemma process_le fuel fuel' :
  (fuel <= fuel')%nat -> run_le (iolink_dll_process (W := W) fuel) (iolink_dll_process fuel').
Proof.
  intros Hf. unfold iolink_dll_process, dll_power_on_drain, dll_drain_rx.
  apply run_le_bind; [apply run_le_refl|]. intros [p|]; [|apply run_le_refl].
  repeat (apply run_le_bind; [apply run_le_refl | intros ?]).
  apply run_le_if.
  - apply run_le_bind; [|intros; apply run_le_refl].
    apply run_le_bind; [apply run_le_refl|]. intros [q|]; [|apply run_le_refl].
    destruct (phy_recv_byte q); [by apply drain_loop_le | apply run_le_refl].
  - repeat first [apply run_le_bind; [apply run_le_refl | intros ?] | apply run_le_if
      | apply run_le_refl | by apply receive_le].
Qed.
End fuel.

(** ** Frames sent *)

(** The frames a device may send: a body of at most 35 bytes and its check; the
    check of a single byte is taken as if a zero followed it. *)
Definition valid_frame (f : list Z) : Prop :=
  exists body, f = body ++ [crc6 (if decide (zlen body = 1) then body ++ [0] else body)] /\
    1 <= zlen body <= 35 /\ bytes_ok f.

Section frames.
Context {W : Type} `{!Platform W} (phy : iolink_phy_api_t W).
Implicit Types (c : iolink_dll_ctx_t W) (e : params_env W) (s : dll_sys W).

Lemma crc6_byte_ok l : is_u8 (crc6 l).
Proof. pose proof (crc6_range l). lia. Qed.

Lemma dll_status_ok b1 b2 b3 : is_u8 (dll_status b1 b2 b3).
Proof. by destruct b1, b2, b3. Qed.

Lemma response_frame_valid c od :
  ctx_wf phy c -> bytes_ok od -> 1 <= zlen od <= 2 -> valid_frame (response_frame c od).
Proof.
  intros Hc Hod Hl. pose proof (response_body_length phy c od Hc) as Hb.
  pose proof Hc as (_ & _ & _ & _ & (Hz & Hin) & _ & Hlen & _).
  exists (response_body c od). rewrite decide_False by lia. split_and!; [done | lia | lia|].
  apply Forall_app. split; [|constructor; [apply crc6_byte_ok | constructor]].
  constructor; [apply dll_status_ok|]. apply bytes_ok_app; [by apply bytes_ok_take | done].
Qed.

Lemma frame_step_valid c c' frames : ctx_wf phy c -> frame_step phy c c' frames -> Forall valid_frame frames.
Proof.
  intros Hc Hs. destruct Hs as [| | |od i Hcrc H2 Hmc Hf Hst Hrun Hi|od i t1 t2 Hcrc H2 Hf Hst Hrun Hi Hlen Hod _|];
    try constructor; try constructor.
  - pose proof Hc as (_ & Hic & _ & (Hz & Hb) & _).
    assert (is_u8 (frame_mc c)) as Hm.
    { unfold frame_mc, frame_byte. destruct (dll_frame_buf c !! _) eqn:Hx; [|done]. by eapply bytes_ok_lookup. }
    pose proof (isdu_exchange_byte_wf _ _ Hic Hm) as H. apply (wp_elim _ _ _ _ _ H) in Hrun as [_ Ho].
    exists [od]. split_and!; [done..|]. constructor; [done|]. constructor; [apply crc6_byte_ok | constructor].
  - pose proof (frame_od_length phy c Hc) as Hol. apply response_frame_valid; try done.
    pose proof Hc as (_ & _ & _ & _ & _ & _ & _ & _ & Ho & _). unfold zlen in *. rewrite Hlen. lia.
Qed.

Lemma bytes_step_valid bytes c c' frames :
  ctx_wf phy c -> bytes_step phy bytes c c' frames -> Forall valid_frame frames.
Proof.
  intros Hc Hs. induction Hs as [|b bytes c c1 c2 l l' Hb Hs Hrest IH]; [constructor|].
  apply Forall_app. split; [|apply IH; by eapply ctx_wf_byte_step].
  destruct Hs as [|t ms t2 c1 c2' l -> Hcomp Hf _ _ _]; [constructor|].
  eapply frame_step_valid, Hf. by apply ctx_wf_cycle_checked, ctx_wf_assembled, Hb; apply ctx_wf_byte_timed.
Qed.

Lemma communication_step_valid c c' frames :
  ctx_wf phy c -> communication_step phy c c' frames -> Forall valid_frame frames.
Proof.
  intros Hc [| | |c1 c2 bytes l Hm Hg Hs]; try constructor.
  eapply bytes_step_valid, Hs. by eapply ctx_wf_gap_checked.
Qed.
End frames.

(** ** Several cycles *)

(** A cyclic frame of the master. *)
Record cycle := mk_cycle { cyc_mc : Z; cyc_ckt : Z; cyc_pd : list Z; cyc_od : list Z }.
Definition cycle_frame (cy : cycle) : list Z :=
  cyclic_frame (cyc_mc cy) (cyc_ckt cy) (cyc_pd cy) (cyc_od cy).

(** A front of the output process data replaced. *)
Definition front_set (pd out : list Z) : list Z := pd ++ drop (length pd) out.

Section cycles.
Context {W : Type} `{!Platform W} (phy : iolink_phy_api_t W).
Implicit Types (c : iolink_dll_ctx_t W) (e : params_env W).

Definition cycle_ok c (cy : cycle) : Prop :=
  cyc_mc cy <> IOLINK_MC_TRANSITION_COMMAND /\ ~ dll_bad_channel (cyc_mc cy) /\
  zlen (cyc_pd cy) = dll_pd_out_len_current c /\ zlen (cyc_od cy) = dll_od_len c.

(** A device that exchanges cyclic frames: it is between two of them and its
    rate and sequence type allow them. *)
Definition cyclic_device c : Prop :=
  between_frames phy c /\ dll_baudrate c <> IOLINK_BAUDRATE_COM1 /\
  dll_m_seq_type c <> m_seq_type_val IOLINK_M_SEQ_TYPE_0.

Lemma cyclic_device_link c c' : cyclic_device c -> between_frames phy c' -> link_of c' = link_of c -> cyclic_device c'.
Proof. intros (_ & H1 & H2) Hb Hl. unfold link_of in Hl. split; [done|]. split; congruence. Qed.

Lemma isdu_exchange_app l1 l2 i rs1 i1 rs2 i2 :
  isdu_exchange_all l1 i = Done (rs1, i1) -> isdu_exchange_all l2 i1 = Done (rs2, i2) ->
  isdu_exchange_all (l1 ++ l2) i = Done (rs1 ++ rs2, i2).
Proof.
  revert i rs1. induction l1 as [|b l1 IH]; intros i rs1 H1 H2.
  - by injection H1 as <- <-.
  - cbn in *. unfold mbind, M_bind in *. destruct (isdu_exchange_byte b i) as [[r i']|]; [|done].
    destruct (isdu_exchange_all l1 i') as [[rs j]|] eqn:E; [|done]. injection H1 as <- <-.
    by rewrite (IH _ _ E H2).
Qed.

(** Any number of cyclic frames: each is answered with the process data of the
    device and the bytes the ISDU engine has to send, and the last output
    process data stay. *)
Lemma cycles_step cycles c c' frames :
  cyclic_device c -> Forall (cycle_ok c) cycles ->
  dll_state c = IOLINK_DLL_STATE_ESTAB_COM \/ dll_state c = IOLINK_DLL_STATE_OPERATE ->
  bytes_step phy (concat (cycle_frame <$> cycles)) c c' frames ->
  exists rs i, isdu_exchange_all (concat (cyc_od <$> cycles)) (dll_isdu c) = Done (concat rs, i) /\
    Forall2 (fun cy r => length r = length (cyc_od cy)) cycles rs /\
    frames = response_frame c <$> rs /\ cyclic_device c' /\ link_of c' = link_of c /\ dll_isdu c' = i /\
    dll_state c' = (if decide (cycles = []) then dll_state c else IOLINK_DLL_STATE_OPERATE) /\
    dll_pd_out c' = fold_left (fun out cy => front_set (cyc_pd cy) out) cycles (dll_pd_out c).
Proof.
  revert c frames. induction cycles as [|cy cycles IH]; intros c frames Hdev Hok Hst Hs.
  - inversion Hs; subst. exists [], (dll_isdu c'). cbn. by split_and!.
  - rewrite fmap_cons in Hs. cbn [concat] in Hs. apply bytes_step_app in Hs as (c1 & f1 & f2 & Hs1 & Hs2 & ->).
    apply Forall_cons in Hok as [(Hmc & Hch & Hpd & Hod) Hok]. pose proof Hdev as (Hb & Hbaud & Htype).
    pose proof (cyclic_step phy c _ _ _ _ c1 f1 Hb Hbaud Htype Hst Hmc Hch Hpd Hod Hs1)
      as (od & i & Hrun & Hlen & -> & Hb1 & Hst1 & Hl1 & Hi1 & Hp1).
    destruct (IH c1 f2) as (rs & i2 & Hrun2 & Hlens & -> & Hdev' & Hl2 & Hi2 & Hst2 & Hp2).
    + by eapply cyclic_device_link.
    + eapply Forall_impl; [exact Hok|]. intros cy' (? & ? & ? & ?). unfold link_of in Hl1.
      split_and!; try done; congruence.
    + by right.
    + exact Hs2.
    + exists (od :: rs), i2. rewrite Hi1 in Hrun2. split_and!; try done.
      * cbn. by eapply isdu_exchange_app.
      * by constructor.
      * cbn. f_equal. apply list_fmap_ext. intros _ r _. by apply response_frame_link.
      * congruence.
      * rewrite Hst2. by case_decide.
      * rewrite Hp2, Hp1. done.
Qed.
End cycles.

(** ** The start-up *)

(** A type 0 frame, the transition command, a cyclic frame. *)
Definition start_frames (mc : Z) (cy : cycle) : list Z :=
  type0_frame mc ++ type0_frame IOLINK_MC_TRANSITION_COMMAND ++ cycle_frame cy.

Lemma startup_step {W} `{!Platform W} (phy : iolink_phy_api_t W) c mc cy c' frames :
  cyclic_device phy c -> starting c -> cycle_ok c cy -> mc <> IOLINK_MC_TRANSITION_COMMAND ->
  bytes_step phy (start_frames mc cy) c c' frames ->
  exists od0 i0 od i,
    isdu_exchange_byte mc (dll_isdu c) = Done (od0, i0) /\
    isdu_exchange_all (cyc_od cy) i0 = Done (od, i) /\ dll_isdu c' = i /\ length od = length (cyc_od cy) /\
    frames = [[od0; crc6 [od0; 0]]; response_frame c od] /\
    dll_state c' = IOLINK_DLL_STATE_OPERATE /\ cyclic_device phy c' /\ link_of c' = link_of c /\
    dll_pd_out c' = front_set (cyc_pd cy) (dll_pd_out c).
Proof.
  intros Hdev Hst Hok Hmc Hs. pose proof Hdev as (Hb & Hbaud & Htype).
  apply bytes_step_app in Hs as (c1 & f1 & f2 & Hs1 & Hs2 & ->).
  apply bytes_step_app in Hs2 as (c2 & f2' & f3 & Hs2 & Hs3 & ->).
  apply (type0_step phy) in Hs1 as (od0 & i0 & Hi0 & -> & (Hb1 & Hst1 & Hl1 & Hp1) & Hi1); try done.
  apply (transition_step phy) in Hs2 as (-> & (Hb2 & Hst2 & Hl2 & Hp2) & Hi2 & _); [|done|by left; right; right].
  assert (cyclic_device phy c2) as (_ & Hbaud2 & Htype2) by (eapply cyclic_device_link; [exact Hdev | done | congruence]).
  destruct Hok as (Hm & Hch & Hpd & Hod). rewrite Hl1 in Hl2. pose proof Hl2 as Hl2'. unfold link_of in Hl2'.
  apply (cyclic_step phy) in Hs3 as (od & i & Hi & Hlen & -> & Hb3 & Hst3 & Hl3 & Hi3 & Hp3);
    try done; [|by left|congruence..].
  exists od0, i0, od, i. split_and!; try done.
  - congruence.
  - by rewrite (response_frame_link c2 c od Hl2).
  - eapply cyclic_device_link; [exact Hdev | done | congruence].
  - congruence.
  - rewrite Hp3, Hp2, Hp1. done.
Qed.

(** ** Properties *)

Section properties.
Context {W : Type} `{!Platform W} (phy : iolink_phy_api_t W).
Implicit Types (c : iolink_dll_ctx_t W) (e : params_env W) (s : dll_sys W).

(** Reception from a queue, as one run. *)
Lemma receive_queue (pending : W -> list Z) (tx : W -> list (list Z)) c e fuel :
  PhyQueue phy pending tx -> phy_reliable phy -> PlatformKeepsLine pending tx -> ctx_wf phy c ->
  bytes_ok (pending (pe_hw e)) -> (length (pending (pe_hw e)) < fuel)%nat ->
  exists c' e' frames, dll_receive fuel (mk_dll_sys c e) = Done (tt, mk_dll_sys c' e') /\
    bytes_step phy (pending (pe_hw e)) c c' frames /\ tx (pe_hw e') = tx (pe_hw e) ++ frames /\
    pe_info e' = pe_info e /\ pe_shadow e' = pe_shadow e.
Proof.
  intros Hphy Hrel Hplat Hc Hb Hf.
  assert (wp (dll_receive fuel) (fun _ s' => exists frames,
    bytes_step phy (pending (pe_hw e)) c (sys_dll s') frames /\
    tx (pe_hw (sys_env s')) = tx (pe_hw e) ++ frames /\
    pe_info (sys_env s') = pe_info e /\ pe_shadow (sys_env s') = pe_shadow e) (mk_dll_sys c e)) as H.
  { eapply (wp_receive_queue phy pending tx Hphy Hplat); [done..|].
    intros c' l e' Hs Hse. pose proof Hse as (Hi & Hsh & _). exists l.
    split_and!; try done. by eapply queue_sends_reliable. }
  apply wp_done in H as ([] & [c' e'] & Hrun & frames & H). by exists c', e', frames.
Qed.

(** C2. Safety, termination and refinement of [iolink_dll_process].  For every
    PHY that keeps its laws, on a platform that leaves the line alone, and from
    every well-formed state: the call returns whatever bytes arrive and
    whatever the clocks show, with the same result for every fuel above the
    number of bytes to receive; it makes one step of the state machine
    [process_step] (services, diagnostics, timeout, power-on delay, wake-up,
    frames); and the state stays well formed, so that no buffer is ever
    overrun. *)
Theorem dll_process_refines (rx : W -> nat) (tx : W -> list (list Z)) s :
  PhyLaws phy rx tx -> PlatformKeeps rx tx -> sys_wf phy s ->
  exists s' frames,
    (forall fuel, (rx (pe_hw (sys_env s)) < fuel)%nat -> iolink_dll_process fuel s = Done (tt, s')) /\
    process_step phy rx tx s s' frames /\ sys_wf phy s'.
Proof.
  intros Hphy Hplat Hs.
  assert (wp (iolink_dll_process (Datatypes.S (rx (pe_hw (sys_env s)))))
    (fun _ s' => exists frames, process_step phy rx tx s s' frames /\ sys_wf phy s') s) as H.
  { apply (wp_dll_process phy rx tx Hphy Hplat); [done | lia|]. eauto. }
  apply wp_done in H as ([] & s' & Hrun & frames & Hstep & Hwf).
  exists s', frames. split; [|done]. intros fuel Hf. by eapply process_le, Hrun.
Qed.

(** C16. Only valid frames leave the device.  All that a call of
    [iolink_dll_process] puts on the line, whatever was received and whatever
    frames the PHY refuses to send, is a list of frames of a body of 1 to 35
    bytes followed by its 6-bit check. *)
Theorem dll_sends_valid_frames (rx : W -> nat) (tx : W -> list (list Z)) s fuel :
  PhyLaws phy rx tx -> PlatformKeeps rx tx -> sys_wf phy s ->
  (rx (pe_hw (sys_env s)) < fuel)%nat ->
  exists s' frames,
    iolink_dll_process fuel s = Done (tt, s') /\
    tx (pe_hw (sys_env s')) = tx (pe_hw (sys_env s)) ++ frames /\ Forall valid_frame frames.
Proof.
  intros Hphy Hplat Hs Hf.
  assert (wp (iolink_dll_process fuel) (fun _ s' => exists frames,
    tx (pe_hw (sys_env s')) = tx (pe_hw (sys_env s)) ++ frames /\ Forall valid_frame frames) s) as H.
  { apply (wp_dll_process phy rx tx Hphy Hplat); [done..|].
    intros s' frames Hstep _. destruct (process_step_sends _ _ _ _ _ _ Hstep) as (sent & Hsent & Hsub).
    exists sent. split; [done|]. rewrite Hsub. destruct Hstep as (s1 & c2 & c3 & Hserv & _ & Hd & Ha & Hc & _). eapply communication_step_valid, Hc.
    destruct (services_step_wf phy rx tx Hplat s s1 Hs Hserv) as [Hc1 _].
    eapply ctx_wf_activity, Ha. by eapply ctx_wf_diagnosed. }
  apply wp_done in H as ([] & s' & Hrun & frames & H). by exists s', frames.
Qed.
(** C11. The start-up sequence.  A device that waits for communication (in
    STARTUP, AWAITING_COMM or PREOPERATE, at a rate above COM1, with a sequence
    type other than 0) receives a type 0 frame, then the transition command,
    then a cyclic frame: it answers the first with the next byte of the ISDU
    engine, says nothing to the second, answers the third with a full response,
    and is in OPERATE, with the process data of the master stored and the ISDU
    engine moved by the on-request bytes only. *)
Theorem dll_startup (pending : W -> list Z) (tx : W -> list (list Z)) c e cy mc fuel :
  PhyQueue phy pending tx -> phy_reliable phy -> PlatformKeepsLine pending tx ->
  cyclic_device phy c -> starting c -> cycle_ok c cy -> mc <> IOLINK_MC_TRANSITION_COMMAND ->
  pending (pe_hw e) = start_frames mc cy ->
  bytes_ok (pending (pe_hw e)) -> (length (pending (pe_hw e)) < fuel)%nat ->
  exists c' e' od0 i0 od i,
    dll_receive fuel (mk_dll_sys c e) = Done (tt, mk_dll_sys c' e') /\
    isdu_exchange_byte mc (dll_isdu c) = Done (od0, i0) /\
    isdu_exchange_all (cyc_od cy) i0 = Done (od, i) /\ dll_isdu c' = i /\
    tx (pe_hw e') = tx (pe_hw e) ++ [[od0; crc6 [od0; 0]]; response_frame c od] /\
    dll_state c' = IOLINK_DLL_STATE_OPERATE /\ cyclic_device phy c' /\ link_of c' = link_of c /\
    dll_pd_out c' = front_set (cyc_pd cy) (dll_pd_out c).
Proof.
  intros Hphy Hrel Hplat Hdev Hst Hok Hmc Hpend Hbytes Hf. pose proof Hdev as (Hb & Hbaud & Htype).
  destruct (receive_queue pending tx c e fuel) as (c' & e' & frames & Hrun & Hs & Htx & _); [done..| |done|done|];
    [apply Hdev|].
  rewrite Hpend in Hs. apply startup_step in Hs as (od0 & i0 & od & i & H0 & H1 & H2 & _ & -> & H3); try done.
  by exists c', e', od0, i0, od, i.
Qed.

(** C7. Cyclic exchange.  A device in ESTAB_COM or OPERATE receives any number of
    cyclic frames at its rate: it answers every one of them, in order, with its
    status byte, its input process data, the bytes of the ISDU engine (one for
    each on-request byte received) and the check; the ISDU engine has taken
    exactly the on-request bytes of the master in order; and the output process
    data are those of the last frame. *)
Theorem dll_cyclic_exchange (pending : W -> list Z) (tx : W -> list (list Z)) c e cycles fuel :
  PhyQueue phy pending tx -> phy_reliable phy -> PlatformKeepsLine pending tx ->
  cyclic_device phy c -> Forall (cycle_ok c) cycles ->
  dll_state c = IOLINK_DLL_STATE_ESTAB_COM \/ dll_state c = IOLINK_DLL_STATE_OPERATE ->
  pending (pe_hw e) = concat (cycle_frame <$> cycles) ->
  bytes_ok (pending (pe_hw e)) -> (length (pending (pe_hw e)) < fuel)%nat ->
  exists c' e' rs i,
    dll_receive fuel (mk_dll_sys c e) = Done (tt, mk_dll_sys c' e') /\
    isdu_exchange_all (concat (cyc_od <$> cycles)) (dll_isdu c) = Done (concat rs, i) /\
    dll_isdu c' = i /\ Forall2 (fun cy r => length r = length (cyc_od cy)) cycles rs /\
    tx (pe_hw e') = tx (pe_hw e) ++ (response_frame c <$> rs) /\
    dll_pd_out c' = fold_left (fun out cy => front_set (cyc_pd cy) out) cycles (dll_pd_out c) /\
    (cycles <> [] -> dll_state c' = IOLINK_DLL_STATE_OPERATE) /\ cyclic_device phy c'.
Proof.
  intros Hphy Hrel Hplat Hdev Hok Hst Hpend Hbytes Hf.
  destruct (receive_queue pending tx c e fuel) as (c' & e' & frames & Hrun & Hs & Htx & _); [done..| |done|done|];
    [apply Hdev|].
  rewrite Hpend in Hs.
  apply (cycles_step phy) in Hs as (rs & i & Hi & Hlen & -> & Hdev' & Hl & Hi' & Hst' & Hp); try done.
  exists c', e', rs, i. split_and!; try done. intros Hne. by rewrite Hst', decide_False.
Qed.
(** A frame of the length of a cyclic one whose check is wrong. *)
Definition bad_frame c (f : list Z) : Prop :=
  exists b body ck, f = (b :: body) ++ [ck] /\
    zlen f = 3 + dll_pd_out_len_current c + dll_od_len c /\ crc6 (b :: body) <> ck.

Lemma bad_frame_full c f :
  cyclic_device phy c -> dll_state c = IOLINK_DLL_STATE_OPERATE -> bad_frame c f ->
  exists b body ck, f = (b :: body) ++ [ck] /\ zlen ((b :: body) ++ [ck]) = dll_frame_length c b /\
    1 <= zlen body /\ crc6 (b :: body) <> ck.
Proof.
  intros ((Hc & _) & Hbaud & Htype) Hst (b & body & ck & -> & Hlen & Hck).
  pose proof Hc as (_ & _ & _ & _ & _ & _ & _ & Hl & Ho & _).
  exists b, body, ck. split_and!; [done| | |done].
  - rewrite Hlen, (length_full phy) by (done || by right). done.
  - rewrite zlen_app, zlen_cons in Hlen. change (zlen [ck]) with 1 in Hlen. lia.
Qed.

Lemma bad_frame_cycle c c' f l n :
  cyclic_device phy c -> dll_state c = IOLINK_DLL_STATE_OPERATE ->
  dll_sio_fallback_threshold c = 3 -> dll_fallback_count c = n -> 0 <= n < 2 -> bad_frame c f ->
  bytes_step phy f c c' l ->
  l = [] /\ cyclic_device phy c' /\ dll_state c' = IOLINK_DLL_STATE_OPERATE /\ link_of c' = link_of c /\
  dll_fallback_count c' = n + 1 /\ errors_of c' = counted (errors_of c).
Proof.
  intros Hdev Hst Hth Hn Hlt Hbad Hs.
  destruct (bad_frame_full c f Hdev Hst Hbad) as (b & body & ck & -> & Hlen & Hbody & Hck).
  pose proof Hdev as (Hb & _).
  pose proof (bad_frame_kept phy c b body ck c' l Hb Hst Hlen Hbody Hck) as Hk.
  rewrite Hth, Hn, u8_small in Hk by lia. destruct (Hk ltac:(lia) Hs) as (-> & (Hb' & Hst' & Hl & _) & Hn' & He).
  split_and!; try done. by eapply cyclic_device_link.
Qed.

Lemma bad_frame_link c c' f : link_of c' = link_of c -> bad_frame c f -> bad_frame c' f.
Proof.
  intros Hl (b & body & ck & Hfr & Hlen & Hck). unfold link_of in Hl.
  exists b, body, ck. split_and!; congruence.
Qed.

(** C12. Three frames with a wrong check in a row end the communication.  In
    OPERATE, with the threshold of three, none of the frames is answered, the
    first two leave the device in OPERATE, and after the third it is back in
    STARTUP, in SIO mode, at COM1, with the error counters advanced by three and
    one event 0x1801 in the queue.  That context is [com1_stuck]. *)
Theorem dll_three_bad_frames (pending : W -> list Z) (tx : W -> list (list Z)) c e f1 f2 f3 fuel :
  PhyQueue phy pending tx -> phy_reliable phy -> PlatformKeepsLine pending tx ->
  cyclic_device phy c -> dll_state c = IOLINK_DLL_STATE_OPERATE ->
  dll_sio_fallback_threshold c = 3 -> dll_fallback_count c = 0 ->
  bad_frame c f1 -> bad_frame c f2 -> bad_frame c f3 ->
  pending (pe_hw e) = f1 ++ f2 ++ f3 -> bytes_ok (pending (pe_hw e)) ->
  (length (pending (pe_hw e)) < fuel)%nat ->
  exists c' e',
    dll_receive fuel (mk_dll_sys c e) = Done (tt, mk_dll_sys c' e') /\
    tx (pe_hw e') = tx (pe_hw e) /\
    dll_state c' = IOLINK_DLL_STATE_STARTUP /\ dll_phy_mode c' = IOLINK_PHY_MODE_SIO /\
    dll_baudrate c' = IOLINK_BAUDRATE_COM1 /\ com1_stuck c' /\
    errors_of c' = counted (counted (counted (errors_of c))) /\
    evq_abs (dll_events c') =
      fifo_push (evq_abs (dll_events c))
        (mk_event IOLINK_EVENT_CODE_COMM_ERR_FRAMING IOLINK_EVENT_TYPE_WARNING).
Proof.
  intros Hphy Hrel Hplat Hdev Hst Hth Hcnt H1 H2 H3 Hpend Hbytes Hf.
  destruct (receive_queue pending tx c e fuel) as (c' & e' & frames & Hrun & Hs & Htx & _); [done..| |done|done|];
    [apply Hdev|].
  rewrite Hpend in Hs. apply bytes_step_app in Hs as (c1 & l1 & l2 & Hs1 & Hs2 & ->).
  apply bytes_step_app in Hs2 as (c2 & l2' & l3 & Hs2 & Hs3 & ->).
  destruct (bad_frame_cycle _ _ _ _ 0 Hdev Hst Hth Hcnt ltac:(lia) H1 Hs1) as (-> & Hdev1 & Hst1 & Hl1 & Hn1 & He1).
  assert (dll_sio_fallback_threshold c1 = 3) as Hth1 by (unfold link_of in Hl1; congruence).
  destruct (bad_frame_cycle _ _ _ _ 1 Hdev1 Hst1 Hth1 ltac:(lia) ltac:(lia) (bad_frame_link _ _ _ Hl1 H2) Hs2)
    as (-> & Hdev2 & Hst2 & Hl2 & Hn2 & He2).
  rewrite Hl1 in Hl2. pose proof (bad_frame_link _ _ _ Hl2 H3) as H3'.
  assert (dll_sio_fallback_threshold c2 = 3 /\ dll_events c2 = dll_events c) as [Hth2 Hev2]
    by (unfold link_of in Hl2; split; congruence).
  destruct (bad_frame_full c2 f3 Hdev2 Hst2 H3') as (b & body & ck & -> & Hlen & Hbody & Hck).
  destruct (bad_frame_fallback phy c2 b body ck c' l3) as (-> & _ & Hst3 & Hm3 & Hstuck & _ & He3 & Hev);
    try done; [apply Hdev2 | rewrite Hn2, Hth2, u8_small by lia; lia|].
  exists c', e'. split_and!; try done; [by rewrite Htx, app_nil_r | apply Hstuck | congruence | by rewrite <- Hev2].
Qed.
End properties.

(** ** Witnesses: a device on a line, type 1_1 with two bytes of process data *)

Definition demo_c (st : iolink_dll_state_t) : iolink_dll_ctx_t line :=
  demo_running IOLINK_M_SEQ_TYPE_1_1 2 2 st.
Definition demo_cycle : cycle := mk_cycle 0x00 0x00 [0xaa; 0xbb] [0x10].
Definition demo_bad : list Z := [0x00; 0x00; 0xaa; 0xbb; 0x10; 0x3f].
Definition demo_start : list Z :=
  start_frames 0x10 demo_cycle.

Lemma demo_c_wf st : ctx_wf line_phy (demo_c st).
Proof. by apply demo_running_wf. Qed.

Lemma demo_device st : cyclic_device line_phy (demo_c st).
Proof. split; [split; [apply demo_c_wf|]|]; vm_compute; split; done. Qed.

Lemma demo_cycle_ok st : cycle_ok (demo_c st) demo_cycle.
Proof. split_and!; [done | intros [?|?]; done | vm_compute; done..]. Qed.

Lemma demo_bad_ok st : bad_frame (demo_c st) demo_bad.
Proof. exists 0, [0x00; 0xaa; 0xbb; 0x10], 0x3f. split_and!; [done | vm_compute; done..]. Qed.

Lemma demo_sys_wf st bytes : sys_wf line_phy (mk_dll_sys (demo_c st) (demo_env bytes)).
Proof. split; [apply demo_c_wf | apply demo_env_wf]. Qed.

Lemma dll_process_refines_witness :
  exists s', iolink_dll_process 12 (mk_dll_sys (demo_c IOLINK_DLL_STATE_STARTUP) (demo_env demo_start)) = Done (tt, s') /\
    sys_wf line_phy s'.
Proof.
  destruct (dll_process_refines line_phy (fun w => length (line_in w)) line_out
    (mk_dll_sys (demo_c IOLINK_DLL_STATE_STARTUP) (demo_env demo_start)) line_laws line_keeps_out (demo_sys_wf _ _))
    as (s' & frames & Hrun & _ & Hwf).
  exists s'. split; [apply Hrun; vm_compute; lia | exact Hwf].
Defined.

Lemma dll_sends_valid_frames_witness :
  exists s' frames,
    iolink_dll_process 12 (mk_dll_sys (demo_c IOLINK_DLL_STATE_STARTUP) (demo_env demo_start)) = Done (tt, s') /\
    line_out (pe_hw (sys_env s')) = frames /\ Forall valid_frame frames.
Proof.
  destruct (dll_sends_valid_frames line_phy (fun w => length (line_in w)) line_out
    (mk_dll_sys (demo_c IOLINK_DLL_STATE_STARTUP) (demo_env demo_start)) 12 line_laws line_keeps_out
    (demo_sys_wf _ _) ltac:(vm_compute; lia)) as (s' & frames & Hrun & Htx & Hv).
  exists s', frames. split; [exact Hrun|]. split; [exact Htx | exact Hv].
Defined.

Lemma dll_startup_witness :
  exists c' e', dll_receive 12 (mk_dll_sys (demo_c IOLINK_DLL_STATE_STARTUP) (demo_env demo_start)) =
      Done (tt, mk_dll_sys c' e') /\
    dll_state c' = IOLINK_DLL_STATE_OPERATE /\ dll_pd_out c' = [0xaa; 0xbb] ++ replicate 30 0.
Proof.
  destruct (dll_startup line_phy line_in line_out (demo_c IOLINK_DLL_STATE_STARTUP) (demo_env demo_start)
    demo_cycle 0x10 12 line_queue line_reliable line_keeps_line (demo_device _) (or_introl eq_refl)
    (demo_cycle_ok _) ltac:(done) eq_refl ltac:(by_decide) ltac:(vm_compute; lia))
    as (c' & e' & od0 & i0 & od & i & Hrun & _ & _ & _ & _ & Hst & _ & _ & Hpd).
  exists c', e'. split; [exact Hrun|]. split; [exact Hst|]. rewrite Hpd. vm_compute. reflexivity.
Defined.

Definition demo_bytes : list Z := Eval vm_compute in concat (cycle_frame <$> [demo_cycle; demo_cycle]).

Lemma demo_pending : line_in (pe_hw (demo_env demo_bytes)) = concat (cycle_frame <$> [demo_cycle; demo_cycle]).
Proof. vm_compute. reflexivity. Qed.

Lemma demo_bytes_ok : bytes_ok (line_in (pe_hw (demo_env demo_bytes))).
Proof. by_decide. Qed.

Lemma demo_cycles_ok st : Forall (cycle_ok (demo_c st)) [demo_cycle; demo_cycle].
Proof. apply Forall_cons_2, Forall_cons_2; [apply demo_cycle_ok..|constructor]. Qed.

Lemma dll_cyclic_exchange_witness :
  exists c' e' rs, dll_receive 13 (mk_dll_sys (demo_c IOLINK_DLL_STATE_OPERATE) (demo_env demo_bytes)) =
      Done (tt, mk_dll_sys c' e') /\
    line_out (pe_hw e') = line_out (pe_hw (demo_env demo_bytes)) ++
      (response_frame (demo_c IOLINK_DLL_STATE_OPERATE) <$> rs).
Proof.
  assert (length (line_in (pe_hw (demo_env demo_bytes))) < 13)%nat as Hf by (vm_compute; lia).
  destruct (dll_cyclic_exchange line_phy line_in line_out (demo_c IOLINK_DLL_STATE_OPERATE)
    (demo_env demo_bytes) [demo_cycle; demo_cycle] 13
    line_queue line_reliable line_keeps_line (demo_device _) (demo_cycles_ok _)
    (or_intror eq_refl) demo_pending demo_bytes_ok Hf)
    as (c' & e' & rs & i & Hrun & _ & _ & _ & Htx & _).
  exists c', e', rs. split; [exact Hrun | exact Htx].
Defined.

Lemma dll_three_bad_frames_witness :
  exists c' e', dll_receive 19 (mk_dll_sys (demo_c IOLINK_DLL_STATE_OPERATE)
      (demo_env (demo_bad ++ demo_bad ++ demo_bad))) = Done (tt, mk_dll_sys c' e') /\
    dll_state c' = IOLINK_DLL_STATE_STARTUP /\ com1_stuck c'.
Proof.
  destruct (dll_three_bad_frames line_phy line_in line_out (demo_c IOLINK_DLL_STATE_OPERATE)
    (demo_env (demo_bad ++ demo_bad ++ demo_bad)) demo_bad demo_bad demo_bad 19
    line_queue line_reliable line_keeps_line (demo_device _) eq_refl eq_refl eq_refl
    (demo_bad_ok _) (demo_bad_ok _) (demo_bad_ok _) eq_refl ltac:(by_decide) ltac:(vm_compute; lia))
    as (c' & e' & Hrun & _ & Hst & _ & _ & Hstuck & _).
  exists c', e'. split; [exact Hrun|]. split; [exact Hst | exact Hstuck].
Defined.
