(* ===== verification/IsduLine.v ===== *)
(** * ISDU requests over the data link layer

    A frame gives the ISDU engine an on-request byte and takes one from it.  The
    bytes of a request, sent this way, are those of [collect_all], and filler
    bytes fetch what [drain] fetches; so a whole request is served over cyclic
    frames. *)
From S2P Require Export DllTheorems.
#[local] Open Scope Z_scope.

(** ** The engine behind one-byte exchanges *)

(** Away from a response, a byte that is accepted does not start one. *)
Lemma collect_quiet b c :
  isdu_wf c -> is_u8 b -> isdu_state c <> ISDU_STATE_RESPONSE_READY ->
  wp (iolink_isdu_collect_byte b)
    (fun r c' => r = 0 -> isdu_state c' <> ISDU_STATE_RESPONSE_READY) c.
Proof.
  intros Hwf Hb Hst. pose proof Hwf as ((Hz & _) & (Hzr & _) & Hbi & _ & _ & _ & _ & Hcol).
  assert (isdu_state c = ISDU_STATE_SEGMENT_COLLECT -> isdu_next_state c <> ISDU_STATE_RESPONSE_READY) as Hnext.
  { intros E E2. unfold isdu_collecting, isdu_phase in Hcol. rewrite decide_True, E2 in Hcol by done. done. }
  clear Hcol.
  unfold iolink_isdu_collect_byte. wp_step. wp_step. case_bool_decide as Hctl.
  - wp_branch; [repeat isdu_step; done|]. wp_step. wp_branch; [tauto|]. wp_step. wp_step.
    wp_branch.
    { unfold isdu_handle_idle. wp_branch; [by wp_step|]. repeat isdu_step. done. }
    wp_branch; [|tauto]. wp_step. wp_step. wp_branch; [repeat isdu_step; done|]. repeat isdu_step.
    intros _. tauto.
  - unfold isdu_collect_data. wp_step. wp_step.
    destruct (isdu_state c) eqn:E; try tauto; repeat (isdu_step || wp_branch); rec_simpl; intros Hr; congruence.
Qed.

(** Without a response the engine has nothing to send. *)
Lemma get_response_none c :
  isdu_state c <> ISDU_STATE_RESPONSE_READY -> iolink_isdu_get_response_byte c = Done (None, c).
Proof.
  intros Hst. apply wp_exact. unfold iolink_isdu_get_response_byte. wp_step. wp_step.
  rewrite decide_True by done. by wp_step.
Qed.

(** The results of the calls are 0 up to the last. *)
Fixpoint quiet_results (rs : list Z) : Prop :=
  match rs with
  | [] | [_] => True
  | r :: rs' => r = 0 /\ quiet_results rs'
  end.

Lemma quiet_results_zeros n x : quiet_results (replicate n 0 ++ [x]).
Proof. induction n as [|n IH]; [done|]. cbn. destruct n; cbn in *; auto. Qed.

Lemma collect_all_length bytes c rs c' : collect_all bytes c = Done (rs, c') -> length rs = length bytes.
Proof.
  revert c rs. induction bytes as [|b bytes IH]; intros c rs H; cbn in H; [by injection H as <- _|].
  unfold mbind, M_bind in H. destruct (iolink_isdu_collect_byte b c) as [[r c1]|]; [|done].
  destruct (collect_all bytes c1) as [[rs1 c2]|] eqn:E; [|done]. injection H as <- <-.
  cbn. f_equal. by eapply IH.
Qed.

(** A request sent by one-byte exchanges reads zeros. *)
Lemma exchange_collected bytes c rs c' :
  isdu_wf c -> bytes_ok bytes -> isdu_state c <> ISDU_STATE_RESPONSE_READY ->
  collect_all bytes c = Done (rs, c') -> quiet_results rs ->
  isdu_state c' <> ISDU_STATE_RESPONSE_READY ->
  isdu_exchange_all bytes c = Done (replicate (length bytes) 0, c').
Proof.
  intros Hwf Hb. revert c rs Hwf. induction Hb as [|b bytes Hb _ IH]; intros c rs Hwf Hst H Hq Hst'.
  - by injection H as <- <-.
  - cbn [collect_all] in H. unfold mbind, M_bind in H.
    destruct (iolink_isdu_collect_byte b c) as [[r c1]|] eqn:Hc; [|done].
    destruct (collect_all bytes c1) as [[rs1 c2]|] eqn:Hcs; [|done]. injection H as <- <-.
    pose proof (wp_elim _ _ _ _ _ (collect_quiet b c Hwf Hb Hst) Hc) as Hq1. cbv beta in Hq1.
    pose proof (wp_elim _ _ _ _ _ (iolink_isdu_collect_byte_wf b c Hwf Hb) Hc) as Hwf1. cbv beta in Hwf1.
    pose proof (collect_all_length _ _ _ _ Hcs) as Hlen.
    assert (isdu_state c1 <> ISDU_STATE_RESPONSE_READY) as Hst1.
    { destruct bytes as [|b' bytes]; [by injection Hcs as _ ->|].
      destruct rs1 as [|r1 rs1]; [done|]. by apply Hq1; destruct Hq. }
    assert (quiet_results rs1) as Hq' by (destruct rs1; [done | by destruct Hq]).
    cbn [isdu_exchange_all length replicate]. unfold mbind at 1, M_bind at 1, isdu_exchange_byte.
    unfold mbind, M_bind. rewrite Hc, (get_response_none c1 Hst1). cbn [mret M_ret default].
    by rewrite (IH c1 rs1 Hwf1 Hst1 Hcs Hq' Hst').
Qed.

(** ** Fetching with filler bytes *)

(** A zero byte changes nothing in an engine that is idle or has a response. *)
Lemma collect_filler c :
  isdu_state c = ISDU_STATE_IDLE \/ isdu_state c = ISDU_STATE_RESPONSE_READY ->
  exists r, iolink_isdu_collect_byte 0 c = Done (r, c).
Proof.
  intros Hst. destruct c. cbn in Hst. destruct Hst as [-> | ->]; eexists; vm_compute; reflexivity.
Qed.

(** Idle, or with a response to send. *)
Definition isdu_at_rest (c : iolink_isdu_ctx_t) : Prop :=
  isdu_state c = ISDU_STATE_IDLE \/ isdu_state c = ISDU_STATE_RESPONSE_READY.

Lemma get_response_rest c :
  isdu_wf c -> isdu_at_rest c ->
  wp iolink_isdu_get_response_byte
    (fun r c' => isdu_at_rest c' /\ (r = None -> isdu_state c' = ISDU_STATE_IDLE)) c.
Proof.
  intros (_ & (Hz & _) & _ & Hi & Hl & _) Hst. unfold isdu_at_rest in *.
  unfold iolink_isdu_get_response_byte. wp_step. wp_step.
  wp_branch; [repeat isdu_step; tauto|]. repeat wp_step. wp_branch; [repeat isdu_step; rec_simpl; split; [tauto|done]|].
  wp_branch; [|repeat isdu_step; by split; [left|]].
  wp_step. wp_step. wp_step. apply wp_rd; [lia|]. intros x _. wp_step. wp_step. wp_step.
  wp_branch; repeat isdu_step; rec_simpl; (split; [tauto | done]).
Qed.

Lemma exchange_filler c r c' :
  isdu_at_rest c -> iolink_isdu_get_response_byte c = Done (r, c') ->
  isdu_exchange_byte 0 c = Done (default 0 r, c').
Proof.
  intros Hst Hg. destruct (collect_filler c Hst) as [x Hx].
  unfold isdu_exchange_byte, mbind, M_bind. by rewrite Hx, Hg.
Qed.

Lemma exchange_idle n c :
  isdu_state c = ISDU_STATE_IDLE -> isdu_exchange_all (replicate n 0) c = Done (replicate n 0, c).
Proof.
  intros Hst. induction n as [|n IH]; [done|]. cbn [replicate isdu_exchange_all]. unfold mbind, M_bind.
  rewrite (exchange_filler c None c) by (by left || (apply get_response_none; by rewrite Hst)).
  by rewrite IH.
Qed.

(** Fillers fetch what [drain] fetches, and zeros once the engine is idle. *)
Lemma exchange_drain n c out c' :
  isdu_wf c -> isdu_at_rest c -> drain n c = Done (out, c') ->
  isdu_exchange_all (replicate n 0) c = Done (out ++ replicate (n - length out) 0, c').
Proof.
  revert c out. induction n as [|n IH]; intros c out Hwf Hst Hd; [by injection Hd as <- <-|].
  cbn [drain] in Hd. unfold mbind, M_bind in Hd.
  pose proof (get_response_rest c Hwf Hst) as Hr. pose proof (iolink_isdu_get_response_byte_wf c Hwf) as Hw.
  destruct (iolink_isdu_get_response_byte c) as [[r c1]|] eqn:Hg; [|done].
  unfold wp in Hr, Hw. rewrite Hg in Hr, Hw. destruct Hr as [Hst1 Hidle]. destruct Hw as [Hwf1 _].
  cbn [replicate isdu_exchange_all]. unfold mbind, M_bind. rewrite (exchange_filler c r c1 Hst Hg).
  destruct r as [b|].
  - destruct (drain n c1) as [[bs c2]|] eqn:Hd1; [|done]. injection Hd as <- <-.
    rewrite (IH c1 bs Hwf1 Hst1 Hd1). done.
  - injection Hd as <- <-. by rewrite (exchange_idle n c1 (Hidle eq_refl)).
Qed.

(** ** A request over cyclic frames *)

Section over_frames.
Context {W : Type} `{!Platform W} (phy : iolink_phy_api_t W).
Implicit Types (c : iolink_dll_ctx_t W) (e : params_env W) (s : dll_sys W).

(** What a request leaves in the engine when its bytes come one per exchange. *)
Lemma request_exchanged i r seq :
  isdu_wf i -> isdu_state i = ISDU_STATE_IDLE -> request_ok r -> 0 <= seq < 64 ->
  exists i', isdu_exchange_all (segments true seq (request_bytes r)) i =
      Done (replicate (length (segments true seq (request_bytes r))) 0, i') /\
    isdu_state i' = ISDU_STATE_SERVICE_EXECUTE /\ isdu_received i' = r.
Proof.
  intros Hwf Hst Hr Hseq.
  destruct (isdu_collected i r seq Hwf (or_introl Hst) Hr Hseq) as (i' & Hrun & Hex & Hrec & _).
  exists i'. split; [|done]. eapply exchange_collected; [done| |by rewrite Hst|exact Hrun| |by rewrite Hex].
  - apply segments_ok; [by apply request_bytes_ok | done].
  - apply quiet_results_zeros.
Qed.

(** What the fillers fetch after the service. *)
Lemma answer_exchanged i (answer : option (list Z)) n :
  isdu_wf i -> n = Nat.max 2 (2 * length (default [] answer)) ->
  match answer with
  | Some bytes => isdu_pending bytes i /\ isdu_segment_seq i = 0 /\ isdu_is_response_control_sent i = false
  | None => isdu_state i = ISDU_STATE_IDLE
  end ->
  let wire := from_option answer_wire [] answer in
  exists i', isdu_exchange_all (replicate n 0) i = Done (wire ++ replicate (n - length wire) 0, i') /\
    isdu_state i' = ISDU_STATE_IDLE.
Proof.
  intros Hwf -> H. destruct answer as [bytes|]; cbn [default from_option].
  - destruct H as (Hp & Hseq & Hsent). pose proof (drain_answer bytes i Hwf Hp Hseq Hsent) as Hd.
    apply wp_done in Hd as (out & i' & Hrun & -> & Hst & _). exists i'. split; [|done].
    apply exchange_drain; [done | right; apply Hp | done].
  - exists i. split; [by apply exchange_idle | done].
Qed.

(** The outcome of a pass of the services over the request [r]. *)
Definition served (r : isdu_request) (d w : isdu_world W) : Prop :=
  iw_wf w /\
  serviced (service_response r d) (service_links r (iw_isdu d)) (service_events r d) (service_ds r d)
    (service_env r d) d w /\
  match service_response r d with
  | Some _ => isdu_segment_seq (iw_isdu w) = 0 /\ isdu_is_response_control_sent (iw_isdu w) = false
  | None => isdu_state (iw_isdu w) = ISDU_STATE_IDLE
  end.

Lemma wp_served r d :
  iw_wf d -> isdu_state (iw_isdu d) = ISDU_STATE_SERVICE_EXECUTE -> isdu_received (iw_isdu d) = r ->
  wp iolink_isdu_process (fun _ => served r d) d.
Proof. intros Hd Hex <-. apply wp_isdu_process; [done..|]. intros w H1 H2 H3. by split. Qed.

Lemma put_world_device s w :
  cyclic_device phy (sys_dll s) -> sys_wf phy (put_dll_world w s) -> cyclic_device phy (sys_dll (put_dll_world w s)).
Proof. intros ((_ & He & Hi) & Hb & Ht) [Hc _]. by split_and!. Qed.

(** The frames that carry some on-request bytes, waiting in the receiver. *)
Definition frames_pending (pending : W -> list Z) c w (cycles : list cycle) (od : list Z) fuel : Prop :=
  Forall (cycle_ok c) cycles /\ concat (cyc_od <$> cycles) = od /\
  pending w = concat (cycle_frame <$> cycles) /\ bytes_ok (pending w) /\ (length (pending w) < fuel)%nat.

(** The answer fetched from a device that has served the request. *)
Lemma answer_fetched (pending : W -> list Z) (tx : W -> list (list Z)) s answer n cycles fuel :
  PhyQueue phy pending tx -> phy_reliable phy -> PlatformKeepsLine pending tx ->
  cyclic_device phy (sys_dll s) ->
  dll_state (sys_dll s) = IOLINK_DLL_STATE_ESTAB_COM \/ dll_state (sys_dll s) = IOLINK_DLL_STATE_OPERATE ->
  n = Nat.max 2 (2 * length (default [] answer)) ->
  match answer with
  | Some bytes => isdu_pending bytes (dll_isdu (sys_dll s)) /\ isdu_segment_seq (dll_isdu (sys_dll s)) = 0 /\
                  isdu_is_response_control_sent (dll_isdu (sys_dll s)) = false
  | None => isdu_state (dll_isdu (sys_dll s)) = ISDU_STATE_IDLE
  end ->
  frames_pending pending (sys_dll s) (pe_hw (sys_env s)) cycles (replicate n 0) fuel ->
  let wire := from_option answer_wire [] answer in
  exists s' rs,
    dll_receive fuel s = Done (tt, s') /\
    tx (pe_hw (sys_env s')) = tx (pe_hw (sys_env s)) ++ (response_frame (sys_dll s) <$> rs) /\
    concat rs = wire ++ replicate (n - length wire) 0 /\
    isdu_state (dll_isdu (sys_dll s')) = ISDU_STATE_IDLE.
Proof.
  destruct s as [c e]. cbn [sys_dll sys_env].
  intros Hphy Hrel Hplat Hdev Hst Hn Hans (Hok & Hod & Hpend & Hb & Hf).
  pose proof Hdev as ((Hc & _) & _). pose proof Hc as (_ & Hi & _).
  destruct (receive_queue phy pending tx c e fuel) as (c1 & e1 & frames & Hrun & Hs & Htx & _); [done..|].
  rewrite Hpend in Hs.
  apply (cycles_step phy) in Hs as (rs & i1 & Hi1 & _ & -> & _ & _ & Hci1 & _); try done.
  destruct (answer_exchanged (dll_isdu c) answer n Hi Hn Hans) as (i' & Hx & Hidle).
  rewrite Hod, Hx in Hi1. injection Hi1 as Hz <-.
  exists (mk_dll_sys c1 e1), rs. split_and!; [done..|]. cbn. congruence.
Qed.

Lemma cycle_ok_lengths c c' cycles :
  dll_pd_out_len_current c' = dll_pd_out_len_current c -> dll_od_len c' = dll_od_len c ->
  Forall (cycle_ok c) cycles -> Forall (cycle_ok c') cycles.
Proof.
  intros H1 H2 H. eapply Forall_impl; [exact H|]. intros cy (? & ? & ? & ?). split_and!; (done || congruence).
Qed.

(** C4. An ISDU request over cyclic frames, end to end.  In cyclic exchange, with
    an idle ISDU engine, a master sends the segments of any request in the
    on-request bytes of its frames; the device answers these frames with zeros
    in its own, and then holds the request.  Its next pass of the services
    changes the events, the Data Storage, the parameters and the device
    information as the contract announces; and the frames in which the master
    sends zeros then bring, in order, exactly the segments of the answer of the
    contract, after which the engine is idle again. *)
Theorem isdu_request_over_frames (pending : W -> list Z) (tx : W -> list (list Z)) c e r seq cycles fuel :
  PhyQueue phy pending tx -> phy_reliable phy -> PlatformKeepsLine pending tx -> params_wf e ->
  cyclic_device phy c -> dll_state c = IOLINK_DLL_STATE_ESTAB_COM \/ dll_state c = IOLINK_DLL_STATE_OPERATE ->
  isdu_state (dll_isdu c) = ISDU_STATE_IDLE -> request_ok r -> 0 <= seq < 64 ->
  frames_pending pending c (pe_hw e) cycles (segments true seq (request_bytes r)) fuel ->
  exists s1 s2 zeros,
    dll_receive fuel (mk_dll_sys c e) = Done (tt, s1) /\
    tx (pe_hw (sys_env s1)) = tx (pe_hw e) ++ (response_frame c <$> zeros) /\
    Forall (fun b => b = 0) (concat zeros) /\
    zoom dll_world_lens iolink_isdu_process s1 = Done (tt, s2) /\
    let answer := service_response r (dll_world s1) in
    let wire := from_option answer_wire [] answer in
    evq_abs (dll_events (sys_dll s2)) = service_events r (dll_world s1) /\
    dll_ds (sys_dll s2) = service_ds r (dll_world s1) /\
    sys_env s2 = service_env r (dll_world s1) /\
    forall w cycles' fuel' n, n = Nat.max 2 (2 * length (default [] answer)) ->
      frames_pending pending c w cycles' (replicate n 0) fuel' ->
      exists s3 rs,
        dll_receive fuel' (s2<| sys_env := (sys_env s2)<| pe_hw := w |> |>) = Done (tt, s3) /\
        tx (pe_hw (sys_env s3)) = tx w ++ (response_frame (sys_dll s2) <$> rs) /\
        concat rs = wire ++ replicate (n - length wire) 0 /\
        isdu_state (dll_isdu (sys_dll s3)) = ISDU_STATE_IDLE.
Proof.
  intros Hphy Hrel Hplat He Hdev Hst Hidle Hr Hseq (Hok & Hod & Hpend & Hb & Hf).
  pose proof Hdev as ((Hc & _) & _). pose proof Hc as (_ & Hi & _).
  destruct (receive_queue phy pending tx c e fuel) as (c1 & e1 & frames & Hrun & Hs & Htx & Hinfo & Hsh); [done..|].
  rewrite Hpend in Hs.
  apply (cycles_step phy) in Hs as (zs & i1 & Hi1 & _ & -> & Hdev1 & Hl1 & Hci1 & Hst1 & _); try done.
  destruct (request_exchanged (dll_isdu c) r seq Hi Hidle Hr Hseq) as (i' & Hx & Hex & Hrec).
  rewrite Hod, Hx in Hi1. injection Hi1 as Hz <-.
  set (s1 := mk_dll_sys c1 e1).
  assert (sys_wf phy s1) as Hwf1 by (split; [apply Hdev1 | destruct He; split; cbn; congruence]).
  pose proof (dll_world_wf phy s1 Hwf1) as Hiw.
  assert (isdu_state (iw_isdu (dll_world s1)) = ISDU_STATE_SERVICE_EXECUTE) as Hex1 by (cbn; congruence).
  assert (isdu_received (iw_isdu (dll_world s1)) = r) as Hrec1 by (cbn; congruence).
  pose proof (wp_served r (dll_world s1) Hiw Hex1 Hrec1) as H.
  apply wp_done in H as ([] & w1 & Hproc & Hw1 & (_ & _ & _ & Hev & Hds & Henv & _ & Hpd) & Hans).
  set (s2 := put_dll_world w1 s1).
  exists s1, s2, zs. split; [exact Hrun|]. split; [exact Htx|].
  split; [rewrite <- Hz; by apply Forall_replicate|].
  split; [unfold zoom; cbn [view put dll_world_lens]; by rewrite Hproc|]. cbv zeta.
  split; [exact Hev|]. split; [exact Hds|]. split; [exact Henv|].
  assert (cyclic_device phy (sys_dll s2)) as Hdev2 by (apply put_world_device; [done | by apply put_world_wf]).
  intros w cycles' fuel' n Hn (Hok' & Hod' & Hpend' & Hb' & Hf').
  unfold link_of in Hl1.
  destruct (answer_fetched pending tx (s2<| sys_env := (sys_env s2)<| pe_hw := w |> |>)
    (service_response r (dll_world s1)) n cycles' fuel') as (s3 & rs & H3); try done.
  - change (dll_state (sys_dll _)) with (dll_state c1). rewrite Hst1. case_decide; [done | by right].
  - destruct (service_response r (dll_world s1)); [by split | done].
  - split; [|done]. eapply cycle_ok_lengths; [| |exact Hok'].
    + change (dll_pd_out_len_current c1 = dll_pd_out_len_current c). congruence.
    + change (dll_od_len c1 = dll_od_len c). congruence.
  - by exists s3, rs.
Qed.
End over_frames.

(** ** Witness: the vendor name read over cyclic frames *)

Definition demo_request : isdu_request := ReadRequest IOLINK_IDX_VENDOR_NAME 0.
Definition demo_carry (b : Z) : cycle := mk_cycle 0 0 [0; 0] [b].
Definition demo_segments : list Z := Eval vm_compute in segments true 0 (request_bytes demo_request).
Definition demo_request_line : list Z :=
  Eval vm_compute in concat (cycle_frame <$> (demo_carry <$> demo_segments)).

Lemma demo_carry_ok st bs : Forall (cycle_ok (demo_c st)) (demo_carry <$> bs).
Proof.
  apply Forall_fmap, Forall_true. intros b. split_and!; [done | intros [?|?]; done | vm_compute; done..].
Qed.

Lemma demo_request_pending st :
  frames_pending line_in (demo_c st) (pe_hw (demo_env demo_request_line)) (demo_carry <$> demo_segments)
    (segments true 0 (request_bytes demo_request)) 50.
Proof.
  split; [apply demo_carry_ok|]. split; [vm_compute; reflexivity|]. split; [vm_compute; reflexivity|].
  split; [by_decide | vm_compute; lia].
Qed.

Lemma demo_request_ok : request_ok demo_request.
Proof. vm_compute. repeat split; discriminate. Qed.

Lemma isdu_request_over_frames_witness :
  exists s1 s2, dll_receive 50 (mk_dll_sys (demo_c IOLINK_DLL_STATE_OPERATE) (demo_env demo_request_line)) = Done (tt, s1) /\
    zoom dll_world_lens iolink_isdu_process s1 = Done (tt, s2) /\
    sys_env s2 = service_env demo_request (dll_world s1).
Proof.
  destruct (isdu_request_over_frames line_phy line_in line_out (demo_c IOLINK_DLL_STATE_OPERATE)
    (demo_env demo_request_line) demo_request 0 (demo_carry <$> demo_segments) 50
    line_queue line_reliable line_keeps_line (demo_env_wf _) (demo_device _) (or_intror eq_refl) eq_refl
    demo_request_ok ltac:(lia) (demo_request_pending _)) as (s1 & s2 & zeros & Hrun & _ & _ & Hproc & _ & _ & Henv & _).
  exists s1, s2. split; [exact Hrun|]. split; [exact Hproc | exact Henv].
Defined.
