(* ===== verification/CoreTheorems.v ===== *)
(** * Theorems on the stack facade

    Start-up, safety of every sequence of calls, the process data of the
    application, and two consequences of missing checks. *)
From S2P Require Export DllTheorems DllSettings.
#[local] Open Scope Z_scope.

(** ** Sequences of calls *)

(** A call of the application. *)
Inductive core_call :=
| CallProcess
| CallInputUpdate (data : option (list Z)) (len : Z) (valid : bool)
| CallOutputRead (data : option (list Z)) (len : Z)
| CallTrigger (code : Z) (type : iolink_event_type_t)
| CallPopEvent
| CallSetTiming (enable : bool)
| CallSetTRen (limit_us : Z).

(** The contract of the caller: [len] is no more than the buffer holds. *)
Definition call_ok (call : core_call) : Prop :=
  match call with
  | CallInputUpdate data len _ => 0 <= len /\ forall d, data = Some d -> len <= zlen d /\ bytes_ok d
  | CallOutputRead data len => 0 <= len /\ forall d, data = Some d -> len <= zlen d
  | _ => True
  end.

Section calls.
Context {W : Type} `{!Platform W} (phy : iolink_phy_api_t W) (rx : W -> nat) (tx : W -> list (list Z)).
Implicit Types (c : iolink_dll_ctx_t W) (e : params_env W) (s : dll_sys W) (g : core W).

Definition g_hw g : W := pe_hw (sys_env (g_sys g)).

(** A call; an argument is converted to the type of its parameter. *)
Definition run_call (call : core_call) : M (core W) unit :=
  match call with
  | CallProcess => fun g => iolink_process (Datatypes.S (rx (g_hw g))) g
  | CallInputUpdate data len valid => iolink_pd_input_update data len valid ;; mret tt
  | CallOutputRead data len => iolink_pd_output_read data len ;; mret tt
  | CallTrigger code type => zoom iolink_get_events_ctx (iolink_event_trigger (u16 code) type)
  | CallPopEvent => zoom iolink_get_events_ctx iolink_events_pop ;; mret tt
  | CallSetTiming enable => iolink_set_timing_enforcement enable
  | CallSetTRen limit => iolink_set_t_ren_limit_us (u32 limit)
  end.

(** Between two calls the hardware may be in any state. *)
Definition with_hw (w : W) g : core W :=
  g<| g_sys := (g_sys g)<| sys_env := (sys_env (g_sys g))<| pe_hw := w |> |> |>.

Inductive runs g : core W -> Prop :=
| runs_start : runs g g
| runs_hardware g1 w : runs g g1 -> runs g (with_hw w g1)
| runs_call call g1 g2 : runs g g1 -> call_ok call -> run_call call g1 = Done (tt, g2) -> runs g g2.

(** ** The calls *)

Lemma wp_on_dll {A} (m : M (dll_sys W) A) (Q : A -> core W -> Prop) s cfg :
  wp m (fun a s => Q a (mk_core s cfg)) s -> wp (on_dll m) Q (mk_core s cfg).
Proof. intros H. apply wp_zoom. exact H. Qed.

Lemma wp_input_update data len valid (Q : Z -> core W -> Prop) g :
  zlen (dll_pd_in (g_dll_ctx g)) = 32 -> 0 <= len <= 32 -> len <= zlen data ->
  Q 0 (g<| g_sys := (g_sys g)<| sys_dll := (g_dll_ctx g)
          <| dll_pd_in := front_set (take (Z.to_nat len) data) (dll_pd_in (g_dll_ctx g)) |>
          <| dll_pd_in_len := len |><| dll_pd_valid := valid |>
          <| dll_pd_in_toggle := negb (dll_pd_in_toggle (g_dll_ctx g)) |> |> |>) ->
  wp (iolink_pd_input_update (Some data) len valid) Q g.
Proof.
  destruct g as [[c e] cfg]. unfold g_dll_ctx. cbn [g_sys sys_dll]. intros Hz Hl Hd HQ.
  unfold iolink_pd_input_update, iolink_critical_enter, iolink_critical_exit.
  wp_step. apply wp_on_dll, wp_dget. rewrite decide_False by lia. wp_step. wp_step.
  wp_step. apply wp_slice; [lia..|].
  change (Z.to_nat 0) with 0%nat. rewrite drop_0. wp_step.
  assert (zlen (take (Z.to_nat len) data) = len) as Htl by (apply zlen_take; lia).
  apply wp_blit; [lia..|]. change (Z.to_nat 0) with 0%nat. cbn [take app Nat.add].
  fold (front_set (take (Z.to_nat len) data) (dll_pd_in c)).
  do 5 (wp_step; apply wp_on_dll; first [apply wp_dset | apply wp_dget]). rec_simpl.
  wp_step. wp_step. wp_step.
  rewrite u8_small by lia. exact HQ.
Qed.

Lemma wp_output_read data len (Q : Z * option (list Z) -> core W -> Prop) g :
  zlen (dll_pd_out (g_dll_ctx g)) = 32 -> 0 <= dll_pd_out_len (g_dll_ctx g) <= 32 ->
  0 <= len <= zlen data ->
  (let n := Z.min len (dll_pd_out_len (g_dll_ctx g)) in
   Q (n, Some (front_set (take (Z.to_nat n) (dll_pd_out (g_dll_ctx g))) data)) g) ->
  wp (iolink_pd_output_read (Some data) len) Q g.
Proof.
  destruct g as [[c e] cfg]. unfold g_dll_ctx. cbn [g_sys sys_dll]. cbv zeta. intros Hz Hl Hd HQ.
  unfold iolink_pd_output_read, iolink_critical_enter, iolink_critical_exit. wp_step. wp_step.
  wp_step. apply wp_on_dll, wp_dget. wp_step. apply wp_on_dll, wp_dget.
  set (n := if decide _ then _ else _).
  assert (n = Z.min len (dll_pd_out_len c)) as Hn by (unfold n; case_decide; rewrite ?u8_small; lia).
  rewrite <- Hn in HQ. clearbody n. wp_step. apply wp_slice; [lia..|].
  change (Z.to_nat 0) with 0%nat. rewrite drop_0. wp_step.
  assert (zlen (take (Z.to_nat n) (dll_pd_out c)) = n) as Htl by (apply zlen_take; lia).
  apply wp_blit; [lia..|]. change (Z.to_nat 0) with 0%nat. cbn [take app Nat.add].
  wp_step. wp_step. wp_step. exact HQ.
Qed.
Lemma wp_input_update_cases data len valid (Q : Z -> core W -> Prop) g :
  zlen (dll_pd_in (g_dll_ctx g)) = 32 -> 0 <= len -> (forall d, data = Some d -> len <= zlen d) ->
  (data = None \/ 32 < len -> Q (-1) g) ->
  (forall d, data = Some d -> len <= 32 -> wp (iolink_pd_input_update (Some d) len valid) Q g) ->
  wp (iolink_pd_input_update data len valid) Q g.
Proof.
  intros Hz H0 Hlen Herr Hok. destruct data as [d|]; [|apply wp_ret, Herr; by left].
  destruct (decide (len <= 32)) as [Hl|Hl]; [by apply Hok|].
  destruct g as [[c e] cfg]. unfold g_dll_ctx in *. cbn [g_sys sys_dll] in *.
  unfold iolink_pd_input_update. wp_step. apply wp_on_dll, wp_dget. rewrite decide_True by lia.
  wp_step. apply Herr. right. lia.
Qed.

(** ** Safety *)

Context (Hphy : PhyLaws phy rx tx) (Hplat : PlatformKeeps rx tx).

Abbreviation kept_stuck c c' := (com1_stuck c -> com1_stuck c').

Lemma ctx_wf_input c pd n v b :
  ctx_wf phy c -> zlen pd = 32 -> bytes_ok pd ->
  ctx_wf phy (c<| dll_pd_in := pd |><| dll_pd_in_len := n |><| dll_pd_valid := v |><| dll_pd_in_toggle := b |>).
Proof. unfold ctx_wf. rec_simpl. tauto. Qed.

Lemma zlen_front_set pd out : zlen pd <= zlen out -> zlen (front_set pd out) = zlen out.
Proof. unfold front_set, zlen. rewrite length_app, length_drop. lia. Qed.

Lemma front_set_ok pd out : bytes_ok pd -> bytes_ok out -> bytes_ok (front_set pd out).
Proof. intros. apply bytes_ok_app; [done | by apply bytes_ok_drop]. Qed.

Lemma wp_process (Q : unit -> core W -> Prop) g :
  core_wf phy g ->
  (forall s', core_wf phy (mk_core s' (g_config g)) -> kept_stuck (g_dll_ctx g) (sys_dll s') ->
     (exists sent, tx (pe_hw (sys_env s')) = tx (g_hw g) ++ sent) -> Q tt (mk_core s' (g_config g))) ->
  wp (run_call CallProcess) Q g.
Proof.
  destruct g as [s cfg]. intros [Hs Ho] HQ. apply wp_on_dll.
  apply (wp_dll_process phy rx tx Hphy Hplat); [done | unfold g_hw; cbn; lia|].
  intros s' frames Hstep Hs'. apply HQ.
  - split; [done|]. apply (settings_process phy) in Hstep. unfold settings_of in Hstep.
    unfold g_dll_ctx in *. cbn [g_sys] in *. by injection Hstep as _ _ _ _ _ -> _.
  - intros H. by eapply stuck_process.
  - destruct (process_step_sends _ _ _ _ _ _ Hstep) as (sent & Hsent & _). by exists sent.
Qed.

Lemma wp_events {A} (m : M iolink_events_ctx_t A) (Q : A -> core W -> Prop) g :
  core_wf phy g -> wp m (fun _ ev => evq_wf ev) (dll_events (g_dll_ctx g)) ->
  (forall a ev, evq_wf ev -> Q a (put iolink_get_events_ctx ev g)) ->
  wp (zoom iolink_get_events_ctx m) Q g.
Proof.
  intros Hg Hm HQ. apply wp_zoom. eapply wp_mono; [exact Hm|]. intros a ev Hev. by apply HQ.
Qed.

Lemma core_wf_events g ev : core_wf phy g -> evq_wf ev -> core_wf phy (put iolink_get_events_ctx ev g).
Proof.
  destruct g as [[c e] cfg]. intros [[Hc He] Ho] Hev. split; [split; [|done]|done].
  revert Hc. unfold ctx_wf. cbn [put iolink_get_events_ctx g_sys sys_dll]. rec_simpl. unfold g_dll_ctx.
  cbn [g_sys sys_dll]. tauto.
Qed.
(** Every call returns and keeps the invariant. *)
Lemma wp_call call (Q : unit -> core W -> Prop) g :
  core_wf phy g -> call_ok call ->
  (forall g', core_wf phy g' -> kept_stuck (g_dll_ctx g) (g_dll_ctx g') -> Q tt g') ->
  wp (run_call call) Q g.
Proof.
  intros Hg Hok HQ. pose proof Hg as [[Hc He] Ho]. fold (g_dll_ctx g) in Hc.
  pose proof Hc as (_ & _ & Hev & _ & (Hz & Hin) & (Hzo & _) & _).
  destruct call as [|data len valid|data len|code type| |enable|limit]; cbn [run_call call_ok] in *.
  - apply wp_process; [done|]. intros s' Hs' Hk _. by apply HQ.
  - destruct Hok as [H0 Hd]. wp_step. apply wp_input_update_cases; [done | done | by intros d ?; apply Hd| |].
    { intros _. wp_step. by apply HQ. }
    intros d -> Hl. destruct (Hd d eq_refl) as [Hld Hdb]. apply wp_input_update; [done | lia | done|].
    wp_step. apply HQ; [|done]. split; [split; [|done]|done]. apply ctx_wf_input; [done| |].
    + rewrite zlen_front_set; [done|]. rewrite zlen_take; lia.
    + apply front_set_ok; [by apply bytes_ok_take | done].
  - destruct Hok as [H0 Hd]. wp_step. destruct data as [d|].
    + apply wp_output_read; [done | done | specialize (Hd d eq_refl); lia|]. cbv zeta. wp_step. by apply HQ.
    + apply wp_ret. wp_step. by apply HQ.
  - apply wp_events; [done| |].
    + eapply wp_mono; [by apply iolink_event_trigger_spec|]. by intros a ev [H _].
    + intros [] ev Hev'. apply HQ; [by apply core_wf_events | done].
  - wp_step. apply wp_events; [done| |].
    + eapply wp_mono; [by apply iolink_events_pop_spec|]. by intros a ev [H _].
    + intros r ev Hev'. wp_step. apply HQ; [by apply core_wf_events | done].
  - destruct g as [[c e] cfg]. apply wp_on_dll. unfold iolink_dll_set_timing_enforcement. apply wp_dset.
    apply HQ; [|done]. split; [split; [|done]|done]. revert Hc. unfold ctx_wf, g_dll_ctx. cbn. by rec_simpl.
  - destruct g as [[c e] cfg]. apply wp_on_dll. unfold iolink_dll_set_t_ren_limit_us.
    wp_step. apply wp_dset. apply wp_dset.
    apply HQ; [|done]. split; [split; [|done]|done]. revert Hc. unfold ctx_wf, g_dll_ctx. cbn. by rec_simpl.
Qed.

Lemma runs_wf g g' : core_wf phy g -> runs g g' -> core_wf phy g' /\ kept_stuck (g_dll_ctx g) (g_dll_ctx g').
Proof.
  intros Hg. induction 1 as [|g1 w _ [IH Hk]|call g1 g2 _ [IH Hk] Hok Hrun]; [done| |].
  - split; [|done]. destruct IH as [[Hc [He1 He2]] Ho]. by split.
  - pose proof (wp_call call (fun _ g' => core_wf phy g' /\ kept_stuck (g_dll_ctx g1) (g_dll_ctx g')) g1 IH Hok
      (fun g' H1 H2 => conj H1 H2)) as H.
    apply (wp_elim _ _ _ _ _ H) in Hrun as [Hwf Hk2]. split; [done|]. intros Hs. by apply Hk2, Hk.
Qed.
End calls.

(** ** Properties *)

Section properties.
Context {W : Type} `{!Platform W} (phy : iolink_phy_api_t W).
Implicit Types (c : iolink_dll_ctx_t W) (e : params_env W) (s : dll_sys W) (g : core W).


(** C14. The device never leaves COM1.  A device at COM1 outside OPERATE
    ([com1_stuck]), whatever function of the facade other than [iolink_init] is
    called and whatever is received or read from the clocks, stays
    at COM1 and never reaches OPERATE: it takes every frame for a two-byte one
    and nothing but [iolink_init] raises the rate.  A fallback to SIO mode and
    an inactivity timeout in SDCI mode lead there from any state. *)
Theorem com1_never_operates (rx : W -> nat) (tx : W -> list (list Z)) g g' :
  PhyLaws phy rx tx -> PlatformKeeps rx tx -> core_wf phy g ->
  (com1_stuck (g_dll_ctx g) -> runs rx g g' ->
   iolink_get_baudrate g' = IOLINK_BAUDRATE_COM1 /\ iolink_get_state g' <> IOLINK_DLL_STATE_OPERATE) /\
  forall c,
    (dll_sio_fallback_threshold c <= u8 (dll_fallback_count c + 1) -> com1_stuck (after_fallback c)) /\
    (dll_phy_mode c <> IOLINK_PHY_MODE_SIO -> com1_stuck (timed_out c)).
Proof.
  intros Hphy Hplat Hg. split.
  - intros Hstuck Hruns. destruct (runs_wf phy rx tx Hphy Hplat g g' Hg Hruns) as [_ Hk].
    destruct (Hk Hstuck) as (? & ? & _). by split.
  - intros c. split; [apply fallback_stuck | apply timed_out_stuck].
Qed.

(** The process data of the application reach the line. *)
Definition data_frame c (data od : list Z) (valid : bool) : list Z :=
  let body := dll_status (iolink_events_pending (dll_events c)) (negb (dll_pd_in_toggle c)) valid ::
              data ++ od in
  body ++ [crc6 body].

(** The context after an update of the input process data. *)
Definition updated_ctx c (data : list Z) (valid : bool) : iolink_dll_ctx_t W :=
  c<| dll_pd_in := front_set data (dll_pd_in c) |><| dll_pd_in_len := zlen data |>
   <| dll_pd_valid := valid |><| dll_pd_in_toggle := negb (dll_pd_in_toggle c) |>.

Lemma updated_device c data valid :
  cyclic_device phy c -> bytes_ok data -> zlen data <= 32 -> cyclic_device phy (updated_ctx c data valid).
Proof.
  intros ((Hc & He & Hi) & Hbaud & Htype) Hd Hl. pose proof Hc as (_ & _ & _ & _ & (Hz & Hin) & _).
  split; [split; [|done]|done]. apply ctx_wf_input; [done| |by apply front_set_ok].
  rewrite zlen_front_set; lia.
Qed.

Lemma updated_response c data valid od :
  zlen data = dll_pd_in_len_current c ->
  response_frame (updated_ctx c data valid) od = data_frame c data od valid.
Proof.
  intros Hl. unfold response_frame, response_body, data_frame, updated_ctx. rec_simpl.
  rewrite <- Hl, zlen_to_nat. unfold front_set. by rewrite take_app_length.
Qed.

(** C6. Process data, end to end.  The application of a device in cyclic exchange
    updates its input process data, of the configured length; the next cyclic
    frame of the master is answered with exactly these data between the status
    byte (event flag, new toggle, validity as given) and the ISDU bytes, with
    the right check; and the application then reads exactly the output process
    data the master sent, in the front of its own buffer. *)
Theorem process_data_exchange (pending : W -> list Z) (tx : W -> list (list Z)) g cy data valid buf fuel :
  PhyQueue phy pending tx -> phy_reliable phy -> PlatformKeepsLine pending tx ->
  let c := g_dll_ctx g in
  cyclic_device phy c -> cycle_ok c cy ->
  dll_state c = IOLINK_DLL_STATE_ESTAB_COM \/ dll_state c = IOLINK_DLL_STATE_OPERATE ->
  dll_pd_out_len c = dll_pd_out_len_current c -> dll_pd_out_len c <= zlen buf ->
  zlen data = dll_pd_in_len_current c -> bytes_ok data ->
  pending (g_hw g) = cycle_frame cy -> bytes_ok (pending (g_hw g)) ->
  (length (pending (g_hw g)) < fuel)%nat ->
  exists g1 g2 od,
    iolink_pd_input_update (Some data) (zlen data) valid g = Done (0, g1) /\
    on_dll (dll_receive fuel) g1 = Done (tt, g2) /\
    tx (g_hw g2) = tx (g_hw g) ++ [data_frame c data od valid] /\ length od = length (cyc_od cy) /\
    iolink_pd_output_read (Some buf) (zlen buf) g2 =
      Done ((zlen (cyc_pd cy), Some (front_set (cyc_pd cy) buf)), g2).
Proof.
  destruct g as [[c e] cfg]. intros Hphy Hrel Hplat. unfold g_dll_ctx, g_hw. cbn [g_sys sys_dll sys_env]. cbv zeta.
  intros Hdev Hok Hst Hlen Hbuf Hdl Hdata Hpend Hbytes Hf.
  pose proof Hdev as ((Hc & _) & _).
  pose proof Hc as (_ & _ & _ & _ & (Hz & _) & (Hzo & _) & Hil & Hol & _). pose proof (zlen_nonneg data).
  assert (cyclic_device phy (updated_ctx c data valid)) as Hdev1 by (apply updated_device; (done || lia)).
  exists (mk_core (mk_dll_sys (updated_ctx c data valid) e) cfg).
  destruct (receive_queue phy pending tx (updated_ctx c data valid) e fuel) as (c' & e' & frames & Hrun & Hs & Htx & _);
    [done..|apply Hdev1|done|done|].
  rewrite Hpend in Hs. pose proof (settings_bytes phy _ _ _ _ Hs) as Hset.
  destruct Hok as (Hmc & Hch & Hpd & Hod).
  apply (cyclic_step phy) in Hs as (od & i & _ & Hol' & -> & Hb' & _ & _ & _ & Hpo); try done; try apply Hdev1.
  exists (mk_core (mk_dll_sys c' e') cfg), od.
  assert (dll_pd_out_len c' = zlen (cyc_pd cy)) as Hpl.
  { unfold settings_of in Hset. transitivity (dll_pd_out_len c); [|lia].
    change (dll_pd_out_len c) with (dll_pd_out_len (updated_ctx c data valid)). congruence. }
  destruct Hb' as (Hc' & _). pose proof Hc' as (_ & _ & _ & _ & _ & (Hzo' & _) & _). pose proof (zlen_nonneg (cyc_pd cy)).
  split_and!.
  - apply wp_exact, wp_input_update; unfold g_dll_ctx; cbn [g_sys sys_dll]; [done | lia | lia|].
    rewrite zlen_to_nat, firstn_all. by split.
  - unfold on_dll, zoom. cbn [view put g_sys_lens g_sys]. by rewrite Hrun.
  - cbn [g_sys sys_env]. by rewrite Htx, updated_response.
  - done.
  - apply wp_exact, wp_output_read; unfold g_dll_ctx; cbn [g_sys sys_dll]; [done | lia | lia|].
    cbv zeta. rewrite Hpl, Z.min_r, Hpo, zlen_to_nat by lia. by rewrite take_app_length.
Qed.

End properties.

(** ** Witnesses *)

Definition core_demo (bytes : list Z) : core line :=
  mk_core (mk_dll_sys dll_zero (demo_env bytes)) config_default.
Definition config_demo (pd_out : Z) : iolink_config_t := mk_config IOLINK_M_SEQ_TYPE_1_1 20 2 pd_out 0.
Definition core_running (bytes : list Z) : core line :=
  mk_core (mk_dll_sys (demo_c IOLINK_DLL_STATE_OPERATE) (demo_env bytes)) (config_demo 2).

Lemma core_demo_image bytes : nvm_image_ok (g_hw (core_demo bytes)).
Proof. unfold nvm_image_ok. vm_compute. discriminate. Qed.

Lemma core_running_wf bytes : core_wf line_phy (core_running bytes).
Proof. split; [apply demo_sys_wf | vm_compute; split; discriminate]. Qed.

Lemma demo_started bytes n :
  n = 2 \/ n = 33 -> exists g1, iolink_init (Some line_phy) (Some (config_demo n)) (core_demo bytes) = Done (0, g1).
Proof. intros [->| ->]; eexists; vm_compute; reflexivity. Qed.



(** A running device that has just fallen back. *)
Definition core_fallen : core line :=
  mk_core (mk_dll_sys (after_fallback ((demo_c IOLINK_DLL_STATE_OPERATE)<| dll_fallback_count := 2 |>))
    (demo_env demo_start)) (config_demo 2).

Lemma core_fallen_wf : core_wf line_phy core_fallen.
Proof.
  split; [split; [|apply demo_env_wf] | vm_compute; split; discriminate].
  cbn [g_sys sys_dll core_fallen]. apply ctx_wf_fallback.
  pose proof (demo_c_wf IOLINK_DLL_STATE_OPERATE) as H. revert H.
  generalize (demo_c IOLINK_DLL_STATE_OPERATE). intros c. unfold ctx_wf. by rec_simpl.
Qed.

Lemma core_fallen_runs :
  exists g', run_call (fun w => length (line_in w)) CallProcess core_fallen = Done (tt, g').
Proof. eexists. vm_compute. reflexivity. Qed.

Lemma com1_never_operates_witness :
  exists g', run_call (fun w => length (line_in w)) CallProcess core_fallen = Done (tt, g') /\
    iolink_get_baudrate g' = IOLINK_BAUDRATE_COM1 /\ iolink_get_state g' <> IOLINK_DLL_STATE_OPERATE.
Proof.
  destruct core_fallen_runs as [g' Hrun]. exists g'. split; [exact Hrun|].
  destruct (com1_never_operates line_phy (fun w => length (line_in w)) line_out core_fallen g'
    line_laws line_keeps_out core_fallen_wf) as [H _].
  apply H.
  - vm_compute. split; [reflexivity|]. split; [discriminate|]. intros Hne. by destruct Hne.
  - exact (runs_call _ _ CallProcess core_fallen g' (runs_start _ _) I Hrun).
Defined.

Definition demo_one : list Z := Eval vm_compute in cycle_frame demo_cycle.

Lemma demo_one_pending : line_in (g_hw (core_running demo_one)) = cycle_frame demo_cycle.
Proof. vm_compute. reflexivity. Qed.

Lemma demo_one_ok : bytes_ok (line_in (g_hw (core_running demo_one))).
Proof. by_decide. Qed.

Lemma process_data_exchange_witness :
  exists g1 g2, iolink_pd_input_update (Some [0x12; 0x34]) 2 true (core_running demo_one) = Done (0, g1) /\
    on_dll (dll_receive 7) g1 = Done (tt, g2) /\
    iolink_pd_output_read (Some [0; 0; 0]) 3 g2 = Done ((2, Some [0xaa; 0xbb; 0]), g2).
Proof.
  assert (length (line_in (g_hw (core_running demo_one))) < 7)%nat as Hf by (vm_compute; lia).
  destruct (process_data_exchange line_phy line_in line_out (core_running demo_one) demo_cycle
    [0x12; 0x34] true [0; 0; 0] 7 line_queue line_reliable line_keeps_line (demo_device _) (demo_cycle_ok _)
    (or_intror eq_refl) eq_refl ltac:(vm_compute; discriminate) eq_refl ltac:(by_decide)
    demo_one_pending demo_one_ok Hf) as (g1 & g2 & od & H1 & H2 & _ & _ & H3).
  exists g1, g2. split; [exact H1|]. split; [exact H2 | exact H3].
Defined.

