(* ===== verification/ProcessDataRace.v ===== *)
(** * Process data between threads (dll.c, iolink_core.c)

    [iolink_pd_input_update] changes the input process data in a critical
    section; the handler of a cyclic frame reads them without one.  Both as
    programs of single accesses: run alone they are the definitions of [Core] and
    [Dll]; run together, the response can carry the data before the update in its
    front and those after it behind. *)
From S2P Require Export RelyGuarantee CoreTheorems.
#[local] Open Scope Z_scope.

Section race.
Context {W : Type} `{!Platform W}.

(** ** The programs *)

(** [g_dll_ctx.f] and [g_dll_ctx.f = v], single accesses. *)
Definition ctx_get {T} (f : iolink_dll_ctx_t W -> T) : prog (core W) T := acc (on_dll (dget f)).
Definition ctx_put {T} (f : iolink_dll_ctx_t W -> T) `{!Update f} (v : T) : prog (core W) unit :=
  acc (on_dll (dset f v)).

(** iolink_core.c:100-103 pd_in *)
Definition update_body (data : list Z) (len : Z) (valid : bool) : prog (core W) unit :=
  src ← acc (slice data 0 len);
  pd_in ← ctx_get dll_pd_in;
  dst ← acc (blit pd_in 0 src);
  ctx_put dll_pd_in dst ;;
  ctx_put dll_pd_in_len (u8 len) ;;
  ctx_put dll_pd_valid valid ;;
  toggle ← ctx_get dll_pd_in_toggle;
  ctx_put dll_pd_in_toggle (negb toggle).

(** iolink_core.c:90-107 iolink_pd_input_update *)
Definition update_prog (data : option (list Z)) (len : Z) (valid : bool) : prog (core W) Z :=
  match data with
  | None => mret (-1)
  | Some data =>
    if decide (32 < len) then mret (-1) else
    locked (update_body data len valid) ;; mret 0
  end.

(** A [memcpy] of [n] bytes from [ctx->pd_in + i] that takes one after the other.
    dll.c:166-166 memcpy *)
Fixpoint pd_copy (n : nat) (i : Z) (resp : list Z) : prog (core W) (list Z) :=
  match n with
  | O => mret resp
  | S n =>
    resp ← acc (pd_in ← on_dll (dget dll_pd_in); byte ← rd pd_in i; wr resp (1 + i) byte);
    pd_copy n (i + 1) resp
  end.

(** The response and the position behind its process data.
    dll.c:164-168 pd_in_len_current *)
Definition copy_data (resp : list Z) : prog (core W) (list Z * Z) :=
  pd_in_len_current ← ctx_get dll_pd_in_len_current;
  if decide (0 < pd_in_len_current) then
    n ← ctx_get dll_pd_in_len_current;
    resp ← pd_copy (Z.to_nat n) 0 resp;
    n ← ctx_get dll_pd_in_len_current;
    mret (resp, u16 (1 + n))
  else mret (resp, 1).

(** dll.c:157-173 dll_handle_operate_type1_2 *)
Definition respond_prog (od_len : Z) (od_out : list Z) : prog (core W) (list Z) :=
  pending ← ctx_get (fun c => iolink_events_pending (dll_events c));
  toggle ← ctx_get dll_pd_in_toggle;
  valid ← ctx_get dll_pd_valid;
  resp ← acc (wr (replicate 37 0) 0 (dll_status pending toggle valid));
  r ← copy_data resp;
  acc (dll_finish_response (fst r) (snd r) od_len od_out).

(** ** Run alone *)

Lemma update_alone data len valid (g : core W) :
  zlen (dll_pd_in (g_dll_ctx g)) = 32 ->
  alone (update_prog data len valid) g = iolink_pd_input_update data len valid g.
Proof.
  destruct g as [[c e] cfg]. unfold g_dll_ctx. cbn [g_sys sys_dll]. intros Hz.
  destruct data as [data|]; [|done]. unfold update_prog, iolink_pd_input_update.
  cbn -[blit slice decide locked u8]. unfold mbind, M_bind. cbn -[blit slice decide locked u8].
  rewrite Hz. destruct (decide (32 < len)); [done|].
  pose proof (alone_bind (locked (update_body data len valid)) (fun _ => mret 0) (mk_core (mk_dll_sys c e) cfg)) as H.
  unfold mbind, M_bind in H. etransitivity; [exact H|]. rewrite alone_locked. clear H.
  unfold update_body. cbn -[blit slice decide u8]. unfold mbind, M_bind, slice, blit, on_dll, zoom, dget, gets.
  repeat (destruct (decide _); cbn -[decide u8]); try done.
Qed.

(** ** While the data change once *)

Lemma ctx_get_run {T} (f : iolink_dll_ctx_t W -> T) (g : core W) : on_dll (dget f) g = Done (f (g_dll_ctx g), g).
Proof. by destruct g as [[c e] cfg]. Qed.

(** The first [i] bytes, read before the change up to [j] and after it from there. *)
Definition torn (old new : list Z) (i j : Z) : list Z :=
  take (Z.to_nat j) old ++ drop (Z.to_nat j) (take (Z.to_nat i) new).

Lemma torn_length old new i j : 0 <= j <= i -> i <= zlen old -> i <= zlen new -> zlen (torn old new i j) = i.
Proof.
  intros. unfold torn. rewrite zlen_app, zlen_take, zlen_drop, zlen_take by (rewrite ?zlen_take; lia). lia.
Qed.

Lemma torn_before old new i x :
  0 <= i -> old !! Z.to_nat i = Some x -> torn old new i i ++ [x] = torn old new (i + 1) (i + 1).
Proof.
  intros Hi Hx. unfold torn. replace (Z.to_nat (i + 1)) with (S (Z.to_nat i)) by lia.
  rewrite !(drop_ge (take _ new)), !app_nil_r by (rewrite length_take; lia). symmetry. by apply take_S_r.
Qed.

Lemma torn_after old new i j x :
  0 <= j <= i -> new !! Z.to_nat i = Some x -> torn old new i j ++ [x] = torn old new (i + 1) j.
Proof.
  intros Hi Hx. unfold torn. replace (Z.to_nat (i + 1)) with (S (Z.to_nat i)) by lia.
  rewrite (take_S_r new _ x), drop_app_le, app_assoc by (done || rewrite length_take; apply lookup_lt_Some in Hx; lia). done.
Qed.

(** The response buffer with [l] behind the status byte. *)
Abbreviation filled st l := ((st :: l) ++ replicate (36 - length l) 0).

Lemma filled_snoc st l x :
  (length l < 36)%nat -> ((st :: l) ++ [x]) ++ tail (replicate (36 - length l) 0) = filled st (l ++ [x]).
Proof.
  intros Hl. cbn [app]. do 2 f_equal. rewrite length_app. cbn [length].
  replace (36 - length l)%nat with (S (36 - (length l + 1)))%nat by lia. done.
Qed.

Section change.
(** The states before and after the change. *)
Context (g0 g1 : core W).
Let ctx (b : bool) : iolink_dll_ctx_t W := g_dll_ctx (if b then g1 else g0).
Let n := dll_pd_in_len_current (g_dll_ctx g0).
Context (Hz0 : zlen (dll_pd_in (g_dll_ctx g0)) = 32) (Hz1 : zlen (dll_pd_in (g_dll_ctx g1)) = 32)
  (Hn : 0 <= n <= 32) (Hn1 : dll_pd_in_len_current (g_dll_ctx g1) = n)
  (Hev : dll_events (g_dll_ctx g1) = dll_events (g_dll_ctx g0)).

Definition changed_once (s s' : core W) : Prop := s = s' \/ s = g0 /\ s' = g1.

#[export] Instance changed_once_preorder : PreOrder changed_once.
Proof.
  split; [by left|]. intros s s1 s2 [->|[-> ->]] H; [done|]. destruct H as [<-|[_ ->]]; by right.
Qed.

Abbreviation reads := (under changed_once eq).

Lemma changed_from (b : bool) s :
  changed_once (if b then g1 else g0) s -> exists b', implb b b' = true /\ s = if b' then g1 else g0.
Proof. intros [<-|[Hs ->]]; [exists b; by destruct b | exists true; by destruct b]. Qed.

Lemma reads_act {X A} (m : M (core W) X) (k : X -> prog (core W) A) post b :
  (forall b', implb b b' = true -> wp m (fun x s => s = (if b' then g1 else g0) /\ reads post (k x) s) (if b' then g1 else g0)) ->
  reads post (acc m ≫= k) (if b then g1 else g0).
Proof.
  intros H. apply under_act. intros s Hs. apply changed_from in Hs as (b' & Hb & ->).
  eapply wp_mono; [by apply H|]. by intros x s [-> Hk].
Qed.

Lemma reads_get {T A} (f : iolink_dll_ctx_t W -> T) (k : T -> prog (core W) A) post b :
  (forall b', implb b b' = true -> reads post (k (f (ctx b'))) (if b' then g1 else g0)) ->
  reads post (ctx_get f ≫= k) (if b then g1 else g0).
Proof. intros H. apply reads_act. intros b' Hb. eapply wp_intro; [apply ctx_get_run|]. split; [done | by apply H]. Qed.

(** What the copy has read at byte [i] of it: the split is 0 when the change was
    there at the start, and [i] as long as it is not. *)
Definition read_so_far (b0 b : bool) (i : Z) (l : list Z) : Prop :=
  exists j, 0 <= j <= i /\ (b0 = true -> j = 0) /\ (b = false -> j = i) /\
    l = torn (dll_pd_in (g_dll_ctx g0)) (dll_pd_in (g_dll_ctx g1)) i j.

Lemma read_next b0 b b' i l x :
  implb b0 b = true -> implb b b' = true -> 0 <= i ->
  read_so_far b0 b i l -> dll_pd_in (ctx b') !! Z.to_nat i = Some x -> read_so_far b0 b' (i + 1) (l ++ [x]).
Proof.
  intros Hb0 Hb Hi (j & Hj & H0 & Hold & ->) Hx. destruct b'.
  - exists j. split; [lia|]. split; [done|]. split; [done|]. by apply torn_after.
  - destruct b; [done|]. destruct b0; [done|]. rewrite (Hold eq_refl) in *.
    exists (i + 1). split; [lia|]. split; [done|]. split; [done|]. by apply torn_before.
Qed.

Lemma read_mono b0 b b' i l : implb b b' = true -> read_so_far b0 b i l -> read_so_far b0 b' i l.
Proof. intros Hb (j & Hj & H0 & Hold & Hl). exists j. repeat (split; [done|]). split; [|done]. intros ->. apply Hold. by destruct b. Qed.

Lemma read_length b0 b i l : i <= 32 -> read_so_far b0 b i l -> zlen l = i.
Proof. intros Hi (j & Hj & _ & _ & ->). apply torn_length; lia. Qed.

Lemma reads_copy m st b0 b i l (post : list Z -> core W -> Prop) :
  implb b0 b = true -> 0 <= i -> i + Z.of_nat m <= 32 -> read_so_far b0 b i l ->
  (forall b' l', read_so_far b0 b' (i + Z.of_nat m) l' -> implb b0 b' = true ->
     reads post (mret (filled st l')) (if b' then g1 else g0)) ->
  reads post (pd_copy m i (filled st l)) (if b then g1 else g0).
Proof.
  revert b i l. induction m as [|m IH]; intros b i l Hb0 Hi Hm Hl Hpost; cbn [pd_copy].
  - apply Hpost; [|done]. by replace (i + Z.of_nat 0) with i by lia.
  - apply reads_act. intros b' Hb. wp_step. eapply wp_intro; [apply ctx_get_run|]. wp_step.
    apply wp_rd; [destruct b'; lia|]. intros x Hx.
    pose proof (read_length b0 b i l ltac:(lia) Hl) as Hlen.
    apply wp_wr_app; [rewrite zlen_cons; lia | rewrite zlen_replicate; unfold zlen in Hlen; lia|].
    split; [done|]. assert (implb b0 b' = true) as Hb0' by by destruct b0, b, b'.
    rewrite filled_snoc by (unfold zlen in Hlen; lia).
    apply IH; [done | lia | lia | by apply (read_next b0 b b')|].
    replace (i + 1 + Z.of_nat m) with (i + Z.of_nat (S m)) by lia. exact Hpost.
Qed.

Lemma reads_ret {A} (x : A) (post : A -> core W -> Prop) b :
  (forall b', implb b b' = true -> post x (if b' then g1 else g0)) -> reads post (Ret x) (if b then g1 else g0).
Proof. intros H. apply under_ret. intros s Hs. apply changed_from in Hs as (b' & Hb & ->). by apply H. Qed.

Lemma length_current b : dll_pd_in_len_current (ctx b) = n.
Proof. by destruct b. Qed.

Lemma reads_copy_data st b0 (post : list Z * Z -> core W -> Prop) :
  (forall b l, read_so_far b0 b n l -> post (filled st l, zlen (st :: l)) (if b then g1 else g0)) ->
  reads post (copy_data (filled st (@nil Z))) (if b0 then g1 else g0).
Proof.
  intros Hpost. apply reads_get. intros b Hb. rewrite length_current. destruct (decide (0 < n)) as [Hpos|Hpos].
  - apply reads_get. intros b1 Hb1. rewrite length_current. apply (under_bind _ _).
    apply (reads_copy _ st b0 b1 0 []); [by destruct b0, b, b1 | done | lia | |].
    { exists 0. split; [lia|]. by repeat split. }
    intros b2 l Hl Hb2. rewrite Z.add_0_l, Z2Nat.id in Hl by lia.
    pose proof (read_length b0 b2 n l ltac:(lia) Hl) as Hlen.
    apply reads_ret. intros b3 Hb3. apply reads_get. intros b4 Hb4. rewrite length_current.
    rewrite u16_small by lia. replace (1 + n) with (zlen (st :: l)) by (rewrite zlen_cons; lia).
    apply reads_ret. intros b5 Hb5. apply Hpost. apply (read_mono b0 b2); [by destruct b2, b3, b4, b5 | done].
  - apply reads_ret. intros b1 Hb1. apply (Hpost b1 []). replace n with 0 by lia.
    exists 0. split; [lia|]. by repeat split.
Qed.

(** A front of the response as the change allows it: toggle and validity are read
    before the data, in this order. *)
Definition mixed_front (front : list Z) : Prop :=
  exists b1 b2 j, implb b1 b2 = true /\ 0 <= j <= n /\ (b2 = true -> j = 0) /\
    front = dll_status (iolink_events_pending (dll_events (g_dll_ctx g0))) (dll_pd_in_toggle (ctx b1)) (dll_pd_valid (ctx b2)) ::
      torn (dll_pd_in (g_dll_ctx g0)) (dll_pd_in (g_dll_ctx g1)) n j.

Lemma reads_respond od rest (post : list Z -> core W -> Prop) (b : bool) :
  1 <= zlen od <= 2 ->
  (forall (b' : bool) front, mixed_front front -> post ((front ++ od) ++ [crc6 (front ++ od)]) (if b' then g1 else g0)) ->
  reads post (respond_prog (zlen od) (od ++ rest)) (if b then g1 else g0).
Proof.
  intros Hod Hpost. apply reads_get. intros b0 Hb0. apply reads_get. intros b1 Hb1. apply reads_get. intros b2 Hb2.
  replace (dll_events (ctx b0)) with (dll_events (g_dll_ctx g0)) by by destruct b0.
  apply reads_act. intros b3 Hb3. apply (wp_wr_app []); [done..|]. split; [done|]. cbn [app].
  set (st := dll_status _ _ _). apply (under_bind _ _).
  apply (reads_copy_data st b3). intros b4 l Hl. pose proof (read_length b3 b4 n l ltac:(lia) Hl) as Hlen.
  apply (reads_act _ Ret). intros b5 Hb5. cbn [fst snd].
  apply (wp_finish_response (st :: _)); [rewrite zlen_cons; lia| |done|].
  { rewrite zlen_cons, zlen_replicate. unfold zlen in *. lia. }
  split; [done|]. apply reads_ret. intros b6 Hb6. apply Hpost.
  destruct Hl as (j & Hj & H0 & _ & ->). exists b1, b2, j. repeat (split; [done|]). split; [|done].
  intros ->. apply H0. by destruct b3.
Qed.
End change.

(** ** Run alone, the response is that of [dll_build_response] *)

Lemma plain_pd_copy m i resp : plain (pd_copy m i resp).
Proof. revert i resp. induction m as [|m IH]; intros; cbn [pd_copy]; [constructor|]. apply plain_bind; [auto with plain | intros; apply IH]. Qed.

Lemma plain_respond od_len od_out : plain (respond_prog od_len od_out).
Proof.
  unfold respond_prog, copy_data, ctx_get.
  repeat first [apply plain_bind; [|intros] | case_decide | apply plain_acc | apply plain_ret | apply plain_pd_copy].
Qed.

Lemma torn_same l i j : 0 <= j <= i -> torn l l i j = take (Z.to_nat i) l.
Proof.
  intros Hj. unfold torn. rewrite <- (take_drop (Z.to_nat j) (take (Z.to_nat i) l)) at 2.
  by rewrite take_take, Nat.min_l by lia.
Qed.

Lemma respond_alone phy (g : core W) od rest :
  ctx_wf phy (g_dll_ctx g) -> 1 <= zlen od <= 2 ->
  alone (respond_prog (zlen od) (od ++ rest)) g = on_dll (dll_build_response (zlen od) (od ++ rest)) g.
Proof.
  intros Hc Hod. pose proof Hc as (_ & _ & _ & _ & (Hz & _) & _ & Hl & _).
  transitivity (Done (response_frame (g_dll_ctx g) od, g)).
  - apply wp_exact, (under_alone (changed_once g g) eq); [apply plain_respond|].
    apply (reads_respond g g Hz Hz Hl eq_refl eq_refl od rest _ true); [done|].
    intros b front (b1 & b2 & j & _ & Hj & _ & ->). rewrite torn_same by done. by destruct b, b1, b2.
  - symmetry. apply wp_exact. destruct g as [[c e] cfg]. apply wp_on_dll, (wp_build_response phy); done.
Qed.

(** ** Stopped in the middle of the data *)

Lemma run_copy a m i st l (g : core W) :
  zlen l = i -> i + Z.of_nat a <= zlen (dll_pd_in (g_dll_ctx g)) -> i + Z.of_nat a <= 32 ->
  rtc tstep (pd_copy (a + m) i (filled st l), g)
    (pd_copy m (i + Z.of_nat a) (filled st (l ++ take a (drop (Z.to_nat i) (dll_pd_in (g_dll_ctx g))))), g).
Proof.
  revert i l. induction a as [|a IH]; intros i l Hi Hz H32.
  - rewrite take_0, app_nil_r. replace (i + Z.of_nat 0) with i by lia. reflexivity.
  - destruct (lookup_lt_is_Some_2 (dll_pd_in (g_dll_ctx g)) (Z.to_nat i)) as [x Hx]; [unfold zlen in *; lia|].
    cbn [pd_copy Nat.add]. eapply tstep_act.
    { apply (wp_exact _ _ (filled st (l ++ [x]))). wp_step. eapply wp_intro; [apply ctx_get_run|]. wp_step.
      unfold rd. rewrite decide_True, Hx by (unfold zlen in *; lia). wp_step.
      apply wp_wr_app; [rewrite zlen_cons; lia | rewrite zlen_replicate; unfold zlen in *; lia|].
      split; [|done]. apply filled_snoc. unfold zlen in *. lia. }
    pose proof (zlen_nonneg l). rewrite (drop_S _ x) by done. cbn [take].
    match goal with |- context [l ++ x :: take a ?t] => replace (l ++ x :: take a t) with ((l ++ [x]) ++ take a t) by by rewrite <- app_assoc end.
    replace (S (Z.to_nat i)) with (Z.to_nat (i + 1)) by lia.
    replace (i + Z.of_nat (S a)) with (i + 1 + Z.of_nat a) by lia.
    apply IH; [rewrite zlen_app; change (zlen [x]) with 1; lia | lia..].
Qed.

(** The copy stopped after [j] bytes and finished in the state [g1]. *)
Lemma copy_data_stops st (g g1 : core W) n j :
  dll_pd_in_len_current (g_dll_ctx g) = n -> dll_pd_in_len_current (g_dll_ctx g1) = n ->
  zlen (dll_pd_in (g_dll_ctx g)) = 32 -> zlen (dll_pd_in (g_dll_ctx g1)) = 32 -> 0 <= j <= n -> n <= 32 ->
  let l := torn (dll_pd_in (g_dll_ctx g)) (dll_pd_in (g_dll_ctx g1)) n j in
  exists p, rtc tstep (copy_data (filled st (@nil Z)), g) (p, g) /\
    rtc tstep (p, g1) (Ret (filled st l, zlen (st :: l)), g1).
Proof.
  intros Hn Hn1 Hz Hz1 Hj H32 l. assert (zlen l = n) as Hl by (apply torn_length; lia).
  destruct (decide (0 < n)) as [Hpos|Hpos].
  - eexists. split.
    + unfold copy_data. eapply tstep_act; [apply ctx_get_run|]. rewrite Hn, decide_True by done.
      eapply tstep_act; [apply ctx_get_run|]. apply tstep_bind. rewrite Hn.
      replace (Z.to_nat n) with (Z.to_nat j + (Z.to_nat n - Z.to_nat j))%nat by lia.
      apply (run_copy _ _ 0 st []); lia || done.
    + etransitivity.
      { apply tstep_bind. rewrite <- (Nat.add_0_r (Z.to_nat n - Z.to_nat j)).
        apply run_copy; cbn [app]; rewrite ?drop_0, ?zlen_take; lia. }
      cbn [pd_copy]. eapply tstep_act; [apply ctx_get_run|]. rewrite Hn1, u16_small by lia.
      replace (1 + n) with (zlen (st :: l)) by (rewrite zlen_cons; lia).
      rewrite drop_0, take_drop_commute. cbn [app].
      replace (Z.to_nat (0 + Z.of_nat (Z.to_nat j)) + (Z.to_nat n - Z.to_nat j))%nat with (Z.to_nat n) by lia.
      replace (0 + Z.of_nat (Z.to_nat j)) with j by lia. reflexivity.
  - exists (Ret (filled st (@nil Z), 1)). assert (n = 0) as -> by lia. split.
    + unfold copy_data. eapply tstep_act; [apply ctx_get_run|]. rewrite Hn. reflexivity.
    + subst l. replace j with 0 by lia. reflexivity.
Qed.

(** ** The two threads *)

(** The handler of a cyclic frame, and the application that changes the data. *)
Definition device (od_len : Z) (od_out : list Z) : prog (core W) (list Z + Z) :=
  resp ← respond_prog od_len od_out; mret (inl resp).
Definition application (data : list Z) (valid : bool) : prog (core W) (list Z + Z) :=
  r ← update_prog (Some data) (zlen data) valid; mret (inr r).

Definition after_update (g : core W) (data : list Z) (valid : bool) : core W :=
  g<| g_sys := (g_sys g)<| sys_dll := updated_ctx (g_dll_ctx g) data valid |> |>.

(** A response whose toggle is of after the update when [b1], its validity when
    [b2], and its data from byte [j] on. *)
Definition mixed_response (c : iolink_dll_ctx_t W) (data : list Z) (valid : bool) (od : list Z)
    (b1 b2 : bool) (j : Z) : list Z :=
  let body :=
    dll_status (iolink_events_pending (dll_events c)) (xorb b1 (dll_pd_in_toggle c)) (if b2 then valid else dll_pd_valid c) ::
    (take (Z.to_nat j) (dll_pd_in c) ++ drop (Z.to_nat j) data) ++ od in
  body ++ [crc6 body].

Lemma plain_update data len valid : plain (update_body data len valid).
Proof. unfold update_body, ctx_get, ctx_put. repeat first [apply plain_bind; [|intros] | apply plain_acc]. Qed.

Lemma update_body_run g data valid :
  zlen (dll_pd_in (g_dll_ctx g)) = 32 -> zlen data <= 32 ->
  alone (update_body data (zlen data) valid) g = Done (tt, after_update g data valid).
Proof.
  intros Hz Hl. pose proof (zlen_nonneg data).
  pose proof (update_alone (Some data) (zlen data) valid g Hz) as Hu. unfold update_prog in Hu.
  rewrite decide_False, alone_bind in Hu by lia. unfold mbind, M_bind in Hu. rewrite alone_locked in Hu.
  assert (iolink_pd_input_update (Some data) (zlen data) valid g = Done (0, after_update g data valid)) as H1.
  { apply wp_exact, wp_input_update; [done | lia..|]. by rewrite zlen_to_nat, firstn_all. }
  rewrite H1 in Hu. destruct (alone (update_body data (zlen data) valid) g) as [[[] g']|]; [|done].
  by injection Hu as ->.
Qed.

Lemma torn_update (old data : list Z) j :
  0 <= j <= zlen data -> torn old (front_set data old) (zlen data) j = take (Z.to_nat j) old ++ drop (Z.to_nat j) data.
Proof. intros Hj. unfold torn, front_set. by rewrite zlen_to_nat, take_app_length. Qed.

Section theorem.
Context (phy : iolink_phy_api_t W) (g : core W) (data : list Z) (valid : bool).
Let c := g_dll_ctx g.
Let g1 := after_update g data valid.
Context (Hc : ctx_wf phy c) (Hl : zlen data = dll_pd_in_len_current c).

Lemma update_ctx : g_dll_ctx g1 = updated_ctx c data valid.
Proof. done. Qed.

Lemma mixed_front_response od front :
  mixed_front g g1 front ->
  exists b1 b2 j, implb b1 b2 = true /\ 0 <= j <= zlen data /\ (b2 = true -> j = 0) /\
    (front ++ od) ++ [crc6 (front ++ od)] = mixed_response c data valid od b1 b2 j.
Proof.
  intros (b1 & b2 & j & Hb & Hj & H0 & ->). exists b1, b2, j. fold c in Hj |- *. rewrite <- Hl in *. repeat (split; [done|]).
  rewrite update_ctx. unfold updated_ctx at 1 2. rec_simpl. rewrite torn_update by done. 
  unfold mixed_response. cbv zeta. destruct b1, b2; done.
Qed.

(** What each of the two threads leaves the other. *)
Definition is_mixed (od : list Z) (r : list Z + Z) : Prop :=
  exists b1 b2 j, implb b1 b2 = true /\ 0 <= j <= zlen data /\ (b2 = true -> j = 0) /\
    r = inl (mixed_response c data valid od b1 b2 j).

Definition race_contracts (od : list Z) (i : nat) : contract (core W) (list Z + Z) :=
  match i with
  | O => mk_contract (changed_once g g1) eq (fun r _ => is_mixed od r)
  | 1%nat => mk_contract eq (changed_once g g1) (fun _ _ => True)
  | _ => mk_contract (fun _ _ => True) (fun _ _ => False) (fun _ _ => True)
  end.

Lemma buffer_sizes : zlen (dll_pd_in c) = 32 /\ zlen (dll_pd_in (g_dll_ctx g1)) = 32 /\ 0 <= zlen data <= 32.
Proof.
  destruct Hc as (_ & _ & _ & _ & (Hz & _) & _ & Hn & _). split; [done|]. split; [|lia].
  rewrite update_ctx. unfold updated_ctx. rec_simpl. rewrite zlen_front_set; lia.
Qed.

Lemma update_runs : alone (update_body data (zlen data) valid) g = Done (tt, g1).
Proof. apply update_body_run; apply buffer_sizes. Qed.

Lemma device_keeps od rest :
  1 <= zlen od <= 2 -> keeps (race_contracts od 0) (device (zlen od) (od ++ rest)) g.
Proof.
  intros Hod. destruct buffer_sizes as (Hz & Hz1 & Hn). unfold keeps. cbn [race_contracts c_rely c_guar c_post]. apply (under_bind _ _).
  apply (reads_respond g g1 Hz Hz1 ltac:(fold c; lia) eq_refl eq_refl od rest _ false); [done|].
  intros b front Hfront. apply under_ret. intros s _.
  destruct (mixed_front_response od front Hfront) as (b1 & b2 & j & ? & ? & ? & ->). by exists b1, b2, j.
Qed.

Lemma application_keeps od : keeps (race_contracts od 1) (application data valid) g.
Proof.
  destruct buffer_sizes as (Hz & Hz1 & Hn). unfold keeps, application, update_prog. cbn [race_contracts c_rely c_guar c_post].
  rewrite decide_False by lia. apply (under_bind _ _), (under_locked _ _); [apply plain_update|].
  intros s <-. eapply wp_intro; [apply update_runs|]. split; [by right|]. by do 2 (apply under_ret; intros).
Qed.

Lemma race_fits od i j s s' :
  i <> j -> c_guar (race_contracts od i) s s' -> c_rely (race_contracts od j) s s'.
Proof. destruct i as [|[|i]], j as [|[|j]]; cbn; try done. Qed.

Lemma race_preorder od i : PreOrder (c_rely (race_contracts od i)).
Proof. destruct i as [|[|i]]; cbn; apply _ || by split. Qed.

(** The device stopped after [j] bytes of the data while the application makes
    its update. *)
Lemma device_stops od rest j :
  1 <= zlen od <= 2 -> 0 <= j <= zlen data ->
  exists p, rtc tstep (device (zlen od) (od ++ rest), g) (p, g) /\
    rtc tstep (p, g1) (Ret (inl (mixed_response c data valid od false false j)), g1).
Proof.
  intros Hod Hj. destruct buffer_sizes as (Hz & Hz1 & Hn).
  set (st := dll_status (iolink_events_pending (dll_events c)) (dll_pd_in_toggle c) (dll_pd_valid c)).
  destruct (copy_data_stops st g g1 (zlen data) j) as (p & Hp & Hp'); try done; [lia|].
  eexists. split.
  - unfold device, respond_prog. do 3 (eapply tstep_act; [apply ctx_get_run|]).
    eapply tstep_act; [by apply (wp_exact _ _ (filled st (@nil Z)))|]. apply tstep_bind, tstep_bind. exact Hp.
  - etransitivity; [apply tstep_bind, tstep_bind; exact Hp'|].
    apply (tstep_act _ _ _ g1 (mixed_response c data valid od false false j)); [|reflexivity]. cbn [fst snd].
    assert (zlen (torn (dll_pd_in (g_dll_ctx g)) (dll_pd_in (g_dll_ctx g1)) (zlen data) j) = zlen data) as Htl
      by (apply torn_length; fold c; lia).
    apply wp_exact, (wp_finish_response (st :: _)); [rewrite zlen_cons; lia| |done|].
    { rewrite zlen_cons, zlen_replicate. unfold zlen in *. lia. }
    split; [|done]. change (g_dll_ctx g1) with (updated_ctx c data valid). unfold updated_ctx. rec_simpl.
    by rewrite torn_update.
Qed.

(** C9. An update of the input process data can tear a response, also with
    critical sections that keep every other thread out.  While one thread runs
    the response part of a cyclic exchange and another one
    [iolink_pd_input_update] with data of the configured length, whatever the
    interleaving: no access faults, some thread can always go on until both have
    ended, no run goes on for ever, and the response has the right check over a toggle, a validity and data of which a front is of
    before the update and the rest of after it.  And for every place [j] of the
    data there is an interleaving in which the response is sent with the old
    status byte, the first [j] bytes of the old data and the others of the new. *)
Theorem response_tears od rest :
  1 <= zlen od <= 2 ->
  let start := mk_config_of g None [device (zlen od) (od ++ rest); application data valid] in
  (forall c', rtc cstep start c' ->
     ~ can_fault c' /\ (finished c' \/ exists c'', cstep c' c'') /\ terminates c' /\
     (c_holder c' = None -> forall frame, c_threads c' !! 0%nat = Some (Ret (inl frame)) ->
        exists b1 b2 j, implb b1 b2 = true /\ 0 <= j <= zlen data /\ (b2 = true -> j = 0) /\
          frame = mixed_response c data valid od b1 b2 j)) /\
  (forall j, 0 <= j <= zlen data ->
     rtc cstep start
       (mk_config_of g1 None [Ret (inl (mixed_response c data valid od false false j)); Ret (inr 0)])).
Proof.
  intros Hod start. split.
  - intros c' Hrun.
    apply (contracts_sound (race_contracts od) (race_preorder od) (race_fits od)) in Hrun as (? & ? & Hpost).
    + split; [done|]. split; [done|]. split; [apply runs_end|]. intros Hh frame Hf.
      apply (Hpost Hh 0%nat) in Hf as (b1 & b2 & j & ? & ? & ? & [= ->]). by exists b1, b2, j.
    + intros [|[|]] p Hp; [| |done]; injection Hp as <-; [by apply device_keeps | apply application_keeps].
  - intros j Hj. destruct (device_stops od rest j Hod Hj) as (p & Hp & Hp'). unfold start.
    etransitivity; [eapply (run_local 0); [reflexivity | exact Hp]|]. cbn [insert list_insert].
    destruct buffer_sizes as (_ & _ & Hn). transitivity (mk_config_of g1 None (<[1%nat := Ret (inr 0)]> [p; application data valid])).
    + eapply (run_locked 1 (update_body data (zlen data) valid) (fun _ => Ret (inr 0)));
        [apply plain_update | | apply update_runs].
      cbn [lookup list_lookup]. unfold application, update_prog. by rewrite decide_False by lia.
    + apply (run_local 0 p (Ret (inl _)) g1 g1 [p; Ret (inr 0)]); [reflexivity | exact Hp'].
Qed.
End theorem.
End race.

(** ** Witness *)

(** The two bytes 0 of a running device change to 17 and 34 after the first one was
    copied: 0 and 34 are sent, with the right check. *)
Lemma response_tears_witness :
  let g := core_running [] in
  rtc cstep (mk_config_of g None [device 1 [0; 0]; application [17; 34] true])
    (mk_config_of (after_update g [17; 34] true) None [Ret (inl [0x20; 0; 34; 0; 0x24]); Ret (inr 0)]).
Proof.
  destruct (response_tears line_phy (core_running []) [17; 34] true ltac:(apply core_running_wf) ltac:(vm_compute; reflexivity)
    [0] [0] ltac:(vm_compute; split; discriminate)) as [_ H].
  apply (H 1). vm_compute. split; discriminate.
Defined.
