(* ===== verification/OutputRace.v ===== *)
(** * Output process data between threads (dll.c, iolink_core.c)

    The other direction of [ProcessDataRace]: the handler of a cyclic frame stores
    the output process data without a critical section, byte after byte, and
    [iolink_pd_output_read] copies them in one. *)
From S2P Require Export ProcessDataRace.
#[local] Open Scope Z_scope.

Section race.
Context {W : Type} `{!Platform W}.

(** ** The programs *)

(** A [memcpy] of [n] bytes from [&ctx->frame_buf[pd_offset + i]] to
    [ctx->pd_out + i]. dll.c:143-143 memcpy *)
Fixpoint pd_store (n : nat) (i : Z) : prog (core W) unit :=
  match n with
  | O => mret tt
  | S n =>
    acc (frame ← on_dll (dget dll_frame_buf);
         byte ← rd frame (IOLINK_M_SEQ_HEADER_LEN + i);
         pd_out ← on_dll (dget dll_pd_out);
         pd_out ← wr pd_out i byte;
         on_dll (dset dll_pd_out pd_out)) ;;
    pd_store n (i + 1)
  end.

(** dll.c:142-144 dll_handle_operate_type1_2 *)
Definition store_prog : prog (core W) unit :=
  pd_out_len_current ← ctx_get dll_pd_out_len_current;
  if decide (0 < pd_out_len_current) then
    n ← ctx_get dll_pd_out_len_current; pd_store (Z.to_nat n) 0
  else mret tt.

(** iolink_core.c:116-117 iolink_pd_output_read *)
Definition read_body (data : list Z) (len : Z) : prog (core W) (Z * option (list Z)) :=
  out_len ← ctx_get dll_pd_out_len;
  let read_len := if decide (len < out_len) then u8 len else out_len in
  pd_out ← ctx_get dll_pd_out;
  src ← acc (slice pd_out 0 read_len);
  data ← acc (blit data 0 src);
  mret (read_len, Some data).

(** iolink_core.c:109-121 iolink_pd_output_read *)
Definition read_prog (data : option (list Z)) (len : Z) : prog (core W) (Z * option (list Z)) :=
  match data with
  | None => mret (-1, None)
  | Some data => locked (read_body data len)
  end.

Lemma read_alone data len (g : core W) :
  alone (read_prog data len) g = iolink_pd_output_read data len g.
Proof.
  destruct g as [[c e] cfg]. destruct data as [data|]; [|done]. unfold read_prog. rewrite alone_locked.
  unfold read_body, iolink_pd_output_read. cbn -[blit slice decide u8].
  unfold mbind, M_bind, slice, blit, on_dll, zoom, dget, gets. cbn -[decide u8].
  repeat (destruct (decide _); cbn -[decide u8]); done.
Qed.

Lemma store_output_run phy (g : core W) :
  ctx_wf phy (g_dll_ctx g) ->
  on_dll (dll_store_output (dll_frame_buf (g_dll_ctx g)) (dll_pd_out_len_current (g_dll_ctx g))) g =
    Done (tt, g<| g_sys := (g_sys g)<| sys_dll := pd_written (g_dll_ctx g) |> |>).
Proof. intros Hc. destruct g as [[c e] cfg]. by apply wp_exact, wp_on_dll, (wp_pd_store phy). Qed.

(** ** The states of the store *)

Section store.
Context (phy : iolink_phy_api_t W) (g : core W).
Let c := g_dll_ctx g.
Let n := dll_pd_out_len_current c.
Context (Hc : ctx_wf phy c).

(** The first [i] bytes are those of the frame. *)
Definition half_written (i : Z) : list Z :=
  take (Z.to_nat i) (frame_pd c) ++ drop (Z.to_nat i) (dll_pd_out c).

Definition stored (i : Z) : core W :=
  g<| g_sys := (g_sys g)<| sys_dll := c<| dll_pd_out := half_written i |> |> |>.

Lemma store_sizes : zlen (dll_frame_buf c) = 48 /\ zlen (dll_pd_out c) = 32 /\ 0 <= n <= 32 /\ zlen (frame_pd c) = n.
Proof.
  pose proof (frame_pd_length phy c Hc) as Hl. destruct Hc as (_ & _ & _ & (Hf & _) & _ & (Ho & _) & _ & Hn & _).
  split_and!; try done; lia.
Qed.

Lemma stored_0 : stored 0 = g.
Proof.
  unfold stored, half_written. change (Z.to_nat 0) with 0%nat. rewrite take_0, drop_0. cbn [app].
  subst c. destruct g as [[c e] cfg]. unfold g_dll_ctx. cbn [g_sys sys_dll]. by destruct c.
Qed.

Lemma stored_end : g_dll_ctx (stored n) = pd_written c.
Proof.
  destruct store_sizes as (_ & _ & _ & Hl). unfold stored, half_written, pd_written.
  replace (Z.to_nat n) with (length (frame_pd c)) by (rewrite <- Hl; by rewrite zlen_to_nat).
  by rewrite firstn_all.
Qed.

(** One byte stored. *)
Lemma half_written_next i x :
  0 <= i < n -> frame_pd c !! Z.to_nat i = Some x -> <[Z.to_nat i := x]> (half_written i) = half_written (i + 1).
Proof.
  intros Hi Hx. destruct store_sizes as (_ & Ho & Hn & Hl). unfold half_written.
  assert (length (take (Z.to_nat i) (frame_pd c)) = Z.to_nat i) as Ht by (rewrite length_take; unfold zlen in *; lia).
  replace (Z.to_nat (i + 1)) with (S (Z.to_nat i)) by lia. rewrite (take_S_r _ _ x) by done.
  destruct (lookup_lt_is_Some_2 (dll_pd_out c) (Z.to_nat i)) as [y Hy]; [unfold zlen in *; lia|].
  rewrite (drop_S _ y) by done. rewrite <- app_assoc. cbn [app].
  rewrite insert_app_r_alt by lia. by rewrite Ht, Nat.sub_diag.
Qed.

Lemma store_access i :
  0 <= i < n ->
  (frame ← on_dll (dget dll_frame_buf);
   byte ← rd frame (IOLINK_M_SEQ_HEADER_LEN + i);
   pd_out ← on_dll (dget dll_pd_out);
   pd_out ← wr pd_out i byte;
   on_dll (dset dll_pd_out pd_out)) (stored i) = Done (tt, stored (i + 1)).
Proof.
  intros Hi. destruct store_sizes as (Hf & Ho & Hn & Hl). apply wp_exact. wp_step.
  eapply wp_intro; [apply ctx_get_run|]. wp_step.
  assert (dll_frame_buf (g_dll_ctx (stored i)) = dll_frame_buf c) as -> by done.
  unfold IOLINK_M_SEQ_HEADER_LEN. apply wp_rd; [lia|]. intros x Hx. wp_step.
  eapply wp_intro; [apply ctx_get_run|]. wp_step.
  assert (dll_pd_out (g_dll_ctx (stored i)) = half_written i) as -> by done.
  assert (zlen (half_written i) = 32) as Hh.
  { unfold half_written. rewrite zlen_app, zlen_take, zlen_drop; lia. }
  apply wp_wr; [lia|]. rewrite half_written_next; [|done|].
  - by split.
  - unfold frame_pd. rewrite lookup_take_lt by lia. rewrite lookup_drop. rewrite <- Hx. f_equal. lia.
Qed.

(** ** The two threads *)

(** What another thread can find the state to be. *)
Definition is_stored (s : core W) : Prop := exists i, 0 <= i <= n /\ s = stored i.
Definition store_moves (s s' : core W) : Prop := s = s' \/ is_stored s /\ is_stored s'.

Lemma store_moves_preorder : PreOrder store_moves.
Proof. split; [by left|]. intros s s1 s2 [->|[H1 H2]] [->|[H3 H4]]; by (left + right). Qed.

Lemma stored_length i : dll_pd_out_len_current (g_dll_ctx (stored i)) = n.
Proof. done. Qed.

Lemma store_loop m i (post : unit -> core W -> Prop) :
  0 <= i -> i + Z.of_nat m = n -> post tt (stored n) ->
  under eq store_moves post (pd_store m i) (stored i).
Proof.
  revert i. induction m as [|m IH]; intros i Hi Hm Hpost; cbn [pd_store].
  - apply under_ret. intros s <-. by replace i with n by lia.
  - apply (under_act _ _). intros s <-. eapply wp_intro; [apply store_access; lia|].
    split; [right; split; eexists; split; try done; lia|]. apply IH; [lia..|done].
Qed.

Lemma store_keeps (post : unit -> core W -> Prop) : post tt (stored n) -> under eq store_moves post store_prog g.
Proof.
  intros Hpost. destruct store_sizes as (_ & _ & Hn & _). rewrite <- stored_0 at 1. unfold store_prog, ctx_get.
  apply (under_act _ _). intros s <-. eapply wp_intro; [apply ctx_get_run|]. rewrite stored_length.
  split; [by left|]. case_decide.
  - apply (under_act _ _). intros s <-. eapply wp_intro; [apply ctx_get_run|]. rewrite stored_length.
    split; [by left|]. apply store_loop; [done | lia | done].
  - apply under_ret. intros s <-. by replace n with 0 in Hpost by lia.
Qed.

Lemma plain_pd_store m i : plain (pd_store m i).
Proof. revert i. induction m as [|m IH]; intros; cbn [pd_store]; [constructor|]. apply plain_bind; [auto with plain | intros; apply IH]. Qed.

(** Run alone, the store is that of the handler. *)
Lemma store_alone :
  alone store_prog g = on_dll (dll_store_output (dll_frame_buf c) (dll_pd_out_len_current c)) g.
Proof.
  transitivity (Done (tt, stored n)).
  - apply wp_exact, (under_alone eq store_moves); [|by apply store_keeps].
    unfold store_prog, ctx_get. apply plain_bind; [auto with plain|]. intros. case_decide; [|constructor].
    apply plain_bind; [auto with plain | intros; apply plain_pd_store].
  - symmetry. etransitivity; [apply (store_output_run phy g Hc)|]. fold c. by rewrite <- stored_end.
Qed.

(** Output data of which the first [j] bytes are those of the frame, and the
    others those of before. *)
Definition half_output (j : Z) : list Z :=
  take (Z.to_nat j) (frame_pd c) ++ drop (Z.to_nat j) (take (Z.to_nat n) (dll_pd_out c)).

Lemma half_output_read j : 0 <= j <= n -> take (Z.to_nat n) (half_written j) = half_output j.
Proof.
  intros Hj. destruct store_sizes as (_ & _ & _ & Hl). unfold half_written, half_output.
  assert (length (take (Z.to_nat j) (frame_pd c)) = Z.to_nat j) as Ht by (rewrite length_take; unfold zlen in *; lia).
  rewrite take_app, Ht, (take_ge (take _ (frame_pd c))), take_drop_commute by lia.
  by replace (Z.to_nat j + (Z.to_nat n - Z.to_nat j))%nat with (Z.to_nat n) by lia.
Qed.

Context (buf : list Z) (Hlen : dll_pd_out_len c = n) (Hbuf : n <= zlen buf).

Definition result (j : Z) : Z * option (list Z) := (n, Some (front_set (half_output j) buf)).

Lemma read_run j : 0 <= j <= n -> alone (read_body buf (zlen buf)) (stored j) = Done (result j, stored j).
Proof.
  intros Hj. destruct store_sizes as (_ & Ho & Hn & Hl).
  pose proof (read_alone (Some buf) (zlen buf) (stored j)) as Ha. unfold read_prog in Ha. rewrite alone_locked in Ha.
  rewrite Ha. apply wp_exact.
  assert (dll_pd_out_len (g_dll_ctx (stored j)) = n) as Hlj by done.
  assert (dll_pd_out (g_dll_ctx (stored j)) = half_written j) as Hoj by done.
  apply wp_output_read; [rewrite Hoj|lia|lia|].
  - unfold half_written. rewrite zlen_app, zlen_take, zlen_drop; lia.
  - cbv zeta. rewrite Hlj, Hoj, Z.min_r, half_output_read by lia. done.
Qed.

(** The handler of a cyclic frame, and the application that reads the data. *)
Definition storing : prog (core W) (unit + Z * option (list Z)) := r ← store_prog; mret (inl r).
Definition reading : prog (core W) (unit + Z * option (list Z)) :=
  r ← read_prog (Some buf) (zlen buf); mret (inr r).

Definition output_contracts (i : nat) : contract (core W) (unit + Z * option (list Z)) :=
  match i with
  | O => mk_contract eq store_moves (fun _ s => s = stored n)
  | 1%nat => mk_contract store_moves eq (fun r _ => exists j, 0 <= j <= n /\ r = inr (result j))
  | _ => mk_contract (fun _ _ => True) (fun _ _ => False) (fun _ _ => True)
  end.

Lemma output_fits i j s s' : i <> j -> c_guar (output_contracts i) s s' -> c_rely (output_contracts j) s s'.
Proof. destruct i as [|[|i]], j as [|[|j]]; by cbn. Qed.

Lemma output_preorder i : PreOrder (c_rely (output_contracts i)).
Proof. destruct i as [|[|i]]; cbn; [apply _ | apply store_moves_preorder | by split]. Qed.

Lemma storing_keeps : keeps (output_contracts 0) storing g.
Proof.
  unfold keeps. cbn [output_contracts c_rely c_guar c_post]. apply (under_bind _ _), store_keeps.
  by apply under_ret; intros s <-.
Qed.

Lemma plain_read : plain (read_body buf (zlen buf)).
Proof. unfold read_body, ctx_get. repeat first [apply plain_bind; [|intros] | apply plain_acc | apply plain_ret]. Qed.

Lemma stored_moves s : store_moves g s -> is_stored s.
Proof.
  destruct store_sizes as (_ & _ & Hn & _). intros [<-|[_ Hs]]; [|done]. exists 0. split; [lia|]. by rewrite stored_0.
Qed.

Lemma reading_keeps : keeps (output_contracts 1) reading g.
Proof.
  unfold keeps, reading, read_prog. cbn [output_contracts c_rely c_guar c_post].
  pose proof store_moves_preorder. apply (under_locked _ _); [apply plain_read|].
  intros s (j & Hj & ->)%stored_moves. eapply wp_intro; [by apply read_run|]. split; [done|].
  apply under_ret. intros s _. by exists j.
Qed.

(** Stopped after [j] bytes. *)
Lemma store_loop_stops a m i k :
  0 <= i -> k = i + Z.of_nat a -> k <= n -> rtc tstep (pd_store (a + m) i, stored i) (pd_store m k, stored k).
Proof.
  revert i. induction a as [|a IH]; intros i Hi -> Hn.
  - replace (i + Z.of_nat 0) with i by lia. reflexivity.
  - cbn [pd_store Nat.add]. eapply tstep_act; [apply store_access; lia|]. apply IH; lia.
Qed.

Lemma storing_stops j :
  0 <= j <= n ->
  exists p, rtc tstep (storing, g) (p, stored j) /\ rtc tstep (p, stored j) (Ret (inl tt), stored n).
Proof.
  intros Hj. destruct store_sizes as (_ & _ & Hn & _). unfold storing, store_prog.
  pose proof (ctx_get_run dll_pd_out_len_current g) as Hget.
  destruct (decide (0 < n)) as [Hp|Hp].
  - eexists. split.
    + eapply tstep_act; [exact Hget|]. rewrite decide_True by exact Hp. eapply tstep_act; [exact Hget|].
      apply tstep_bind. rewrite <- stored_0 at 2.
      replace (Z.to_nat (dll_pd_out_len_current (g_dll_ctx g))) with (Z.to_nat j + (Z.to_nat n - Z.to_nat j))%nat by (subst n c; lia).
      apply store_loop_stops; lia.
    + etransitivity; [apply tstep_bind|].
      { rewrite <- (Nat.add_0_r (Z.to_nat n - Z.to_nat j)). apply (store_loop_stops _ 0 j n); lia. }
      reflexivity.
  - exists (Ret (inl tt)). replace j with 0 by lia. rewrite stored_0. replace n with 0 by lia. rewrite stored_0. split; [|done].
    eapply tstep_act; [exact Hget|]. by rewrite decide_False by exact Hp.
Qed.

(** C10. The output process data can be torn as well: while one thread stores those
    of a cyclic frame and another one runs [iolink_pd_output_read], whatever the
    interleaving no access faults, some thread can always go on until both have
    ended, no run goes on for ever, and what is read is a front of the new data followed by the rest of the old; and for every place
    [j] of the data there is an interleaving in which the application is handed the
    first [j] bytes of the new data before the others of the old, and in the end
    the buffer holds all of the new. *)
Theorem output_tears :
  let start := mk_config_of g None [storing; reading] in
  (forall c', rtc cstep start c' ->
     ~ can_fault c' /\ (finished c' \/ exists c'', cstep c' c'') /\ terminates c' /\
     (c_holder c' = None -> forall r, c_threads c' !! 1%nat = Some (Ret (inr r)) ->
        exists j, 0 <= j <= n /\ r = result j)) /\
  (forall j, 0 <= j <= n ->
     rtc cstep start (mk_config_of (stored n) None [Ret (inl tt); Ret (inr (result j))])).
Proof.
  intros start. split.
  - intros c' Hrun.
    apply (contracts_sound output_contracts output_preorder output_fits) in Hrun as (? & ? & Hpost).
    + split; [done|]. split; [done|]. split; [apply runs_end|]. intros Hh r Hr. apply (Hpost Hh 1%nat) in Hr as (j & ? & [= ->]). by exists j.
    + intros [|[|]] p Hp; [| |done]; injection Hp as <-; [apply storing_keeps | apply reading_keeps].
  - intros j Hj. destruct (storing_stops j Hj) as (p & Hp & Hp'). unfold start.
    etransitivity; [eapply (run_local 0); [reflexivity | exact Hp]|]. cbn [insert list_insert].
    transitivity (mk_config_of (stored j) None (<[1%nat := Ret (inr (result j))]> [p; reading])).
    + eapply (run_locked 1 (read_body buf (zlen buf)) (fun r => Ret (inr r)));
        [apply plain_read | reflexivity | by apply read_run].
    + apply (run_local 0 p (Ret (inl tt)) (stored j) (stored n) [p; Ret (inr (result j))]); [reflexivity | exact Hp'].
Qed.
End store.
End race.

(** ** Witness *)

(** A running device whose frame brings 170 and 187: the application reads 170 and
    the old second byte. *)
Definition core_framed : core line :=
  mk_core (mk_dll_sys ((demo_c IOLINK_DLL_STATE_OPERATE)<| dll_frame_buf := [0; 0; 0xaa; 0xbb] ++ replicate 44 0 |>) (demo_env []))
    (config_demo 2).

Lemma core_framed_wf : ctx_wf line_phy (g_dll_ctx core_framed).
Proof.
  pose proof (demo_c_wf IOLINK_DLL_STATE_OPERATE) as H. revert H. unfold core_framed, g_dll_ctx. cbn [g_sys sys_dll].
  generalize (demo_c IOLINK_DLL_STATE_OPERATE). intros c. unfold ctx_wf. rec_simpl.
  intros (? & ? & ? & _ & H). do 3 (split; [done|]). split; [|exact H]. split; [done | repeat constructor; done].
Qed.

Lemma output_tears_witness :
  rtc cstep (mk_config_of core_framed None [storing; reading [0; 0; 7]])
    (mk_config_of (stored core_framed 2) None [Ret (inl tt); Ret (inr (2, Some [0xaa; 0; 7]))]).
Proof.
  destruct (output_tears line_phy core_framed core_framed_wf [0; 0; 7] ltac:(vm_compute; reflexivity) ltac:(vm_compute; discriminate))
    as [_ H].
  apply (H 1). vm_compute. split; discriminate.
Defined.
