(* ===== verification/Words.v ===== *)
(** * The context holds machine words

    The fields of [iolink_dll_ctx_t] are integers of the model; the C structure
    has unsigned integers of 8, 32 and 64 bits.  Every step of the stack keeps
    every field in the range of its C type, and every event pending has a 16-bit
    code, so that the wrap-around of the model is the one of the code. *)
From S2P Require Export CoreTheorems.
#[local] Open Scope Z_scope.

Section words.
Context {W : Type} `{!Platform W} (phy : iolink_phy_api_t W).
Implicit Types (c : iolink_dll_ctx_t W) (e : params_env W) (s : dll_sys W) (g : core W).

(** The fields by their type in dll.h. *)
Definition fields8 c : list Z :=
  [dll_m_seq_type c; dll_pd_in_len c; dll_pd_out_len c; dll_od_len c; dll_pd_in_len_current c;
   dll_pd_out_len_current c; dll_pd_in_len_max c; dll_pd_out_len_max c; dll_frame_index c; dll_req_len c;
   dll_retry_count c; dll_max_retries c; dll_fallback_count c; dll_sio_fallback_threshold c].
Definition fields32 c : list Z :=
  [dll_last_activity_ms c; dll_min_cycle_time_us c; dll_t_ren_limit_us c; dll_t_pd_delay_us c;
   dll_t_byte_limit_us c; dll_crc_errors c; dll_timeout_errors c; dll_framing_errors c; dll_timing_errors c;
   dll_t_ren_violations c; dll_t_cycle_violations c; dll_t_byte_violations c; dll_t_pd_violations c;
   dll_total_retries c; dll_voltage_faults c; dll_short_circuits c; dll_response_time_us c].
Definition fields64 c : list Z :=
  [dll_last_frame_us c; dll_last_byte_us c; dll_last_cycle_start_us c; dll_wakeup_deadline_us c;
   dll_t_pd_deadline_us c; dll_last_response_us c].

Definition codes_ok (q : list iolink_event_t) : Prop := Forall (fun ev => is_u16 (ev_code ev)) q.

Definition dll_words c : Prop :=
  Forall (fun z => is_u8 z) (fields8 c) /\ Forall (fun z => is_u32 z) (fields32 c) /\
  Forall (fun z => is_u64 z) (fields64 c) /\ codes_ok (evq_abs (dll_events c)).

(** A context whose fields are those of one that holds words, but for fields
    given an expression of their own width. *)
Lemma u64_range a : is_u64 (u64 a).
Proof. apply Z.mod_pos_bound. lia. Qed.

Create HintDb words.
#[local] Hint Resolve u8_range u16_range u32_range u64_range : words.

Ltac words_case H8 H32 H64 :=
  unfold fields8, fields32, fields64 in *;
  repeat (apply Forall_cons in H8 as [? H8]); repeat (apply Forall_cons in H32 as [? H32]);
  repeat (apply Forall_cons in H64 as [? H64]);
  ctx_simpl; repeat apply Forall_cons_2; auto with words; try lia.

Ltac words_split H :=
  let H8 := fresh "H8" in let H32 := fresh "H32" in let H64 := fresh "H64" in let He := fresh "He" in
  destruct H as (H8 & H32 & H64 & He);
  split; [|split; [|split; [|revert He; by ctx_simpl]]]; words_case H8 H32 H64.

Lemma codes_push q ev : codes_ok q -> is_u16 (ev_code ev) -> codes_ok (fifo_push q ev).
Proof.
  intros Hq He. unfold fifo_push. apply Forall_app_2; [|by apply Forall_singleton].
  case_decide; [|done]. destruct q; [done|]. by apply Forall_cons in Hq as [_ Hq].
Qed.

Lemma words_triggered code type c :
  evq_wf (dll_events c) -> is_u16 code -> dll_words c -> dll_words (triggered code type c).
Proof.
  intros Hev Hcode (H1 & H2 & H3 & H4). destruct (event_trigger_exec code type _ Hev) as (_ & _ & Habs).
  split_and!; [done..|]. unfold triggered. rec_simpl. rewrite Habs. by apply codes_push.
Qed.

Lemma t_ren_range c : is_u32 (dll_t_ren_limit_us c) -> is_u32 (dll_get_t_ren_limit_us c).
Proof. intros H. unfold dll_get_t_ren_limit_us. repeat case_match; done. Qed.
Lemma t_byte_range c : is_u32 (dll_get_t_byte_limit_us c).
Proof. unfold dll_get_t_byte_limit_us. repeat case_match; done. Qed.
#[local] Hint Resolve t_ren_range t_byte_range : words.

Lemma words_at_rate b c : dll_words c -> dll_words (at_rate b c).
Proof. intros H. words_split H. Qed.

(** ** The steps *)

Lemma words_fallback c : ctx_wf phy c -> dll_words c -> dll_words (after_fallback c).
Proof.
  intros (_ & _ & Hev & _) H. unfold after_fallback. cbv zeta.
  assert (dll_words (c<| dll_fallback_count := u8 (dll_fallback_count c + 1) |>
    <| dll_total_retries := u32 (dll_total_retries c + 1) |>)) as H1 by words_split H.
  repeat case_decide; [| |done].
  - apply words_triggered; [by ctx_simpl | done|].
    apply (words_at_rate IOLINK_BAUDRATE_COM1) in H1. words_split H1.
  - apply (words_at_rate IOLINK_BAUDRATE_COM1) in H1. words_split H1.
Qed.

Lemma words_reject c : ctx_wf phy c -> dll_words c -> dll_words (after_reject c).
Proof.
  intros Hc H. apply words_fallback; [|words_split H]. revert Hc. unfold ctx_wf. by rec_simpl.
Qed.

Lemma words_promoted c : dll_words c -> dll_words (promoted c).
Proof. intros H. unfold promoted. case_decide; [words_split H | done]. Qed.

Lemma words_isdu c i : dll_words c -> dll_words (c<| dll_isdu := i |>).
Proof. intros H. words_split H. Qed.

Lemma words_response t c : ctx_wf phy c -> dll_words c -> dll_words (after_response t c).
Proof.
  intros (_ & _ & Hev & _) H. unfold after_response. cbv zeta.
  set (c1 := c<| dll_fallback_count := 0 |><| dll_response_time_us := _ |>).
  assert (dll_words c1) as H1 by (unfold c1; words_split H).
  assert (evq_wf (dll_events c1)) as Hev1 by (unfold c1; by rec_simpl).
  clearbody c1. case_decide; [|done]. apply words_triggered; [by rec_simpl | done|]. words_split H1.
Qed.

Lemma words_exchanged i t1 t2 c :
  ctx_wf phy c -> isdu_wf i -> is_u64 t2 -> dll_words c -> dll_words (exchanged_ctx phy i t1 t2 c).
Proof.
  intros Hc Hi Ht H. unfold exchanged_ctx. cbv zeta.
  assert (dll_words ((pd_written c)<| dll_isdu := i |>)) as H1 by (unfold pd_written; words_split H).
  pose proof (ctx_wf_isdu phy _ i (ctx_wf_pd_written phy c Hc) Hi) as Hc1.
  set (c1 := (pd_written c)<| dll_isdu := i |>) in *. clearbody c1.
  destruct (phy_send phy); [apply (words_response t1) in H1; [|done]|]; words_split H1.
Qed.

Lemma words_frame c c' frames : ctx_wf phy c -> frame_step phy c c' frames -> dll_words c -> dll_words c'.
Proof.
  intros Hc Hs H. pose proof (words_promoted c H) as Hp.
  destruct Hs as [| | |od i|od i t1 t2 ? ? ? ? ? Hi ? ? Ht|].
  - apply words_reject; [|words_split H]. revert Hc. unfold ctx_wf. by rec_simpl.
  - by apply words_reject.
  - words_split Hp.
  - by apply words_isdu.
  - apply words_exchanged; [|done|done|words_split H]. revert Hc. unfold ctx_wf. by rec_simpl.
  - done.
Qed.

Lemma words_gap c : ctx_wf phy c -> dll_words c -> dll_words (gap_violated c).
Proof.
  intros (_ & _ & Hev & _) H. unfold gap_violated.
  match goal with |- dll_words (update _ _ ?c1) => assert (dll_words c1) as H1 end.
  { apply words_triggered; [by rec_simpl | done|]. words_split H. }
  match type of H1 with dll_words ?c1 => set (c2 := c1) in * end. clearbody c2. words_split H1.
Qed.

Lemma words_byte_timed t ms c :
  ctx_wf phy c -> is_u64 t -> is_u32 ms -> dll_words c -> dll_words (byte_timed t ms c).
Proof.
  intros Hc Ht Hms H. unfold byte_timed. cbv zeta.
  assert (dll_words (c<| dll_last_activity_ms := ms |>)) as H1 by words_split H.
  assert (ctx_wf phy (c<| dll_last_activity_ms := ms |>)) as Hc1 by (revert Hc; unfold ctx_wf; by rec_simpl).
  set (c1 := c<| dll_last_activity_ms := ms |>) in *. clearbody c1. pose proof (words_gap c1 Hc1 H1) as H2.
  case_decide; [words_split H2 | words_split H1].
Qed.

Lemma frame_length_range b c : is_u8 (dll_frame_length c b).
Proof. unfold dll_frame_length. cbv zeta. repeat case_decide; auto using u8_range; lia. Qed.
#[local] Hint Resolve frame_length_range : words.

Lemma words_assembled b t c : is_u64 t -> dll_words c -> dll_words (assembled b t c).
Proof. intros Ht H. unfold assembled. repeat case_decide; words_split H. Qed.

Lemma words_cycle t c : ctx_wf phy c -> is_u64 t -> dll_words c -> dll_words (cycle_checked t c).
Proof.
  intros (_ & _ & Hev & _) Ht H. unfold cycle_checked. case_decide; [|words_split H].
  match goal with |- dll_words (update _ _ ?c1) => assert (dll_words c1) as H1 end.
  { apply words_triggered; [by rec_simpl | done|]. words_split H. }
  match type of H1 with dll_words ?c1 => set (c2 := c1) in * end. clearbody c2. words_split H1.
Qed.

Lemma words_byte b c c' frames :
  ctx_wf phy c -> is_u8 b -> byte_step phy b c c' frames -> dll_words c -> dll_words c'.
Proof.
  intros Hc Hb Hs H.
  destruct Hs as [t ms c1 -> _ Ht Hms|t ms t2 c1 c2 l -> _ Hs Ht Hms Ht2];
    pose proof (ctx_wf_assembled phy b t _ (ctx_wf_byte_timed phy t ms c Hc) Hb) as Hc1;
    pose proof (words_assembled b t _ Ht (words_byte_timed t ms c Hc Ht Hms H)) as H1; [done|].
  pose proof (words_frame _ _ _ (ctx_wf_cycle_checked phy t2 _ Hc1) Hs (words_cycle t2 _ Hc1 Ht2 H1)) as H2.
  words_split H2.
Qed.

Lemma words_bytes bytes c c' frames :
  ctx_wf phy c -> bytes_step phy bytes c c' frames -> dll_words c -> dll_words c'.
Proof. intros Hc Hs H. induction Hs; eauto using words_byte, ctx_wf_byte_step. Qed.

Lemma words_gap_checked c c' : ctx_wf phy c -> gap_checked c c' -> dll_words c -> dll_words c'.
Proof.
  intros Hc [->|(_ & _ & ->)] H; [done|].
  apply words_fallback; [by apply ctx_wf_gap_violated | by apply words_gap].
Qed.

Lemma words_communication c c' frames :
  ctx_wf phy c -> communication_step phy c c' frames -> dll_words c -> dll_words c'.
Proof.
  intros Hc Hs H.
  destruct Hs as [c1 _ [->| ->]|c1 _ [->|(_ & t & ->)]|c1 _ Hg _|c1 c2 bytes l _ Hg Hb]; try done.
  - pose proof Hc as (_ & _ & Hev & _). apply words_triggered; [by rec_simpl | done | words_split H].
  - unfold woken_up. words_split H.
  - by eapply words_gap_checked.
  - eapply words_bytes, words_gap_checked; [|exact Hb|exact Hc|exact Hg|exact H]. by eapply ctx_wf_gap_checked.
Qed.

Lemma words_diagnosed c c' : ctx_wf phy c -> diagnosed c c' -> dll_words c -> dll_words c'.
Proof.
  intros Hc (v & b & ->) H. cbv zeta.
  assert (forall c, ctx_wf phy c -> dll_words c -> dll_words (voltage_faulted c) /\ dll_words (short_circuited c)) as Hw.
  { intros c1 (_ & _ & Hev & _) H1. split; (apply words_triggered; [by rec_simpl | done | words_split H1]). }
  pose proof (Hw c Hc H) as [H1 H2].
  assert (ctx_wf phy (voltage_faulted c)) as Hc1 by (eapply ctx_wf_diagnosed; [exact Hc|]; by exists true, false).
  destruct v, b; try done. by apply Hw.
Qed.

Lemma words_activity c c' : activity_checked c c' -> dll_words c -> dll_words c'.
Proof.
  intros [->|[_ ->]] H; [done|]. unfold timed_out. cbv zeta.
  assert (dll_words (c<| dll_last_activity_ms := 0 |>)) as H1 by words_split H.
  set (c1 := c<| dll_last_activity_ms := 0 |>) in *. clearbody c1.
  case_decide; [apply (words_at_rate IOLINK_BAUDRATE_COM1) in H1|]; words_split H1.
Qed.

Lemma words_services s s' : sys_wf phy s -> services_step s s' -> dll_words (sys_dll s) -> dll_words (sys_dll s').
Proof.
  intros Hs (w & Hrun & ->) H. pose proof (dll_world_wf phy s Hs) as Hw.
  assert (codes_ok (evq_abs (iw_events w))) as Hev.
  { assert (wp iolink_isdu_process (fun _ w => codes_ok (evq_abs (iw_events w))) (dll_world s)) as Hp.
    { destruct H as (_ & _ & _ & Hq).
      destruct (decide (isdu_state (iw_isdu (dll_world s)) = ISDU_STATE_SERVICE_EXECUTE)) as [Hex|Hex].
      - apply wp_isdu_process; [done..|]. intros w1 _ (_ & _ & _ & Hev & _) _. rewrite Hev.
        unfold service_events. case_match; [|done]. case_decide; [|done].
        change (iw_events (dll_world s)) with (dll_events (sys_dll s)).
        destruct (evq_abs (dll_events (sys_dll s))); [done|]. by apply Forall_cons in Hq as [_ Hq].
      - unfold iolink_isdu_process. wp_step. apply wp_isdu_gets. wp_branch; [by wp_steps|]. by apply wp_when. }
    exact (wp_elim _ _ _ _ _ Hp Hrun). }
  destruct H as (H8 & H32 & H64 & _). by split_and!.
Qed.

Lemma words_process rx tx s s' frames :
  PlatformKeeps rx tx -> sys_wf phy s -> process_step phy rx tx s s' frames ->
  dll_words (sys_dll s) -> dll_words (sys_dll s').
Proof.
  intros Hplat Hs (s1 & c2 & c3 & Hserv & _ & Hd & Ha & Hc & _) H.
  destruct (services_step_wf phy rx tx Hplat s s1 Hs Hserv) as [Hc1 _].
  pose proof (ctx_wf_diagnosed phy _ _ Hc1 Hd) as Hc2. pose proof (ctx_wf_activity phy _ _ Hc2 Ha) as Hc3.
  eapply words_communication; [exact Hc3 | exact Hc|]. eapply words_activity; [exact Ha|].
  eapply words_diagnosed; [exact Hc1 | exact Hd|]. by eapply words_services.
Qed.

(** ** The facade *)

Lemma words_started config deadline :
  config_ok config -> is_u32 (cfg_t_pd_us config) -> is_u64 deadline ->
  dll_words (configured config deadline (dll_started phy)).
Proof.
  intros [Hi Ho] Ht Hd. assert (dll_words (dll_started phy)) as H.
  { split; [|split; [|split]]; by_decide. }
  generalize dependent (dll_started phy). intros c H. unfold configured. cbv zeta.
  assert (is_u8 (u8 (m_seq_type_val (cfg_m_seq_type config)))) as Htype by apply u8_range.
  assert (is_u8 (if decide (m_seq_is_type2 (u8 (m_seq_type_val (cfg_m_seq_type config)))) then 2 else 1)) as Hod
    by (by case_decide).
  words_split H.
Qed.

Context (rx : W -> nat) (tx : W -> list (list Z)) (Hphy : PhyLaws phy rx tx) (Hplat : PlatformKeeps rx tx).

Lemma codes_tail q : codes_ok q -> codes_ok (tail q).
Proof. intros H. destruct q; [done|]. by apply Forall_cons in H as [_ H]. Qed.

Lemma wp_words_events {A} (m : M iolink_events_ctx_t A) g :
  core_wf phy g -> dll_words (g_dll_ctx g) ->
  wp m (fun _ ev => evq_wf ev /\ codes_ok (evq_abs ev)) (dll_events (g_dll_ctx g)) ->
  wp (zoom iolink_get_events_ctx m) (fun _ g' => dll_words (g_dll_ctx g')) g.
Proof.
  intros Hg (H8 & H32 & H64 & _) Hm. apply wp_zoom. eapply wp_mono; [exact Hm|].
  intros a ev [_ Hev]. destruct g as [[c e] cfg]. by split_and!.
Qed.

Lemma wp_words_call call g :
  core_wf phy g -> call_ok call -> dll_words (g_dll_ctx g) ->
  wp (run_call rx call) (fun _ g' => dll_words (g_dll_ctx g')) g.
Proof.
  intros Hg Hok H. pose proof Hg as [[Hc _] _]. fold (g_dll_ctx g) in Hc.
  pose proof Hc as (_ & _ & Hev & _ & (Hz & _) & (Hzo & _) & _). pose proof H as (_ & _ & _ & Hq).
  destruct call as [|data len valid|data len|code type| |enable|limit]; cbn [run_call call_ok] in *.
  - destruct g as [s cfg]. apply wp_on_dll. destruct Hg as [Hs _].
    apply (wp_dll_process phy rx tx Hphy Hplat); [done | unfold g_hw; cbn; lia|].
    intros s' frames Hstep _. by eapply words_process.
  - destruct Hok as [H0 Hd]. wp_step. apply wp_input_update_cases; [done | done | by intros d ?; apply Hd| |].
    { intros _. by wp_step. }
    intros d -> Hl. apply wp_input_update; [done | lia | by apply Hd|]. wp_step. destruct g as [[c e] cfg].
    unfold g_dll_ctx in *. cbn [g_sys sys_dll] in *. rec_simpl. words_split H.
  - destruct Hok as [H0 Hd]. wp_step. destruct data as [d|]; [|by apply wp_ret; wp_step].
    apply wp_output_read; [done | apply Hg | specialize (Hd d eq_refl); lia|]. cbv zeta. by wp_step.
  - apply wp_words_events; [done..|]. eapply wp_mono; [by apply iolink_event_trigger_spec|].
    intros [] ev [Hw Habs]. split; [done|]. rewrite Habs. apply codes_push; [done | apply u16_range].
  - wp_step. eapply wp_mono; [apply wp_words_events; [done..|]|intros; by wp_step].
    eapply wp_mono; [by apply iolink_events_pop_spec|]. intros r ev [Hw Habs]. split; [done|].
    destruct Habs as [_ ->]. by apply codes_tail.
  - destruct g as [[c e] cfg]. apply wp_on_dll. unfold iolink_dll_set_timing_enforcement. apply wp_dset.
    unfold g_dll_ctx in *. cbn [g_sys sys_dll] in *. words_split H.
  - destruct g as [[c e] cfg]. apply wp_on_dll. unfold iolink_dll_set_t_ren_limit_us. wp_step. apply wp_dset, wp_dset.
    unfold g_dll_ctx in *. cbn [g_sys sys_dll] in *. words_split H.
Qed.

Lemma words_runs g g' : core_wf phy g -> dll_words (g_dll_ctx g) -> runs rx g g' -> dll_words (g_dll_ctx g').
Proof.
  intros Hg H Hruns. induction Hruns as [|g1 w _ IH|call g1 g2 Hr IH Hok Hrun]; [done|done|].
  destruct (runs_wf phy rx tx Hphy Hplat g g1 Hg Hr) as [Hg1 _].
  exact (wp_elim _ _ _ _ _ (wp_words_call call g1 Hg1 Hok IH) Hrun).
Qed.
End words.


Lemma demo_start_runs :
  exists g1 g2, iolink_init (Some line_phy) (Some (config_demo 2)) (core_demo demo_start) = Done (0, g1) /\
    run_call (fun w => length (line_in w)) CallProcess g1 = Done (tt, g2).
Proof. eexists _, _. split; [vm_compute; reflexivity|]. vm_compute. reflexivity. Qed.

