(* ===== verification/Persist.v ===== *)
(** * The tags across a power cycle

    The composition of the ISDU services, the parameter manager, the memory of
    the platform and the start-up of the stack: what a master wrote to a tag,
    and what it reads after the device lost its power and [iolink_init] ran
    again. *)
From stdpp Require Import strings.
From S2P Require Export CoreTheorems.
#[local] Open Scope Z_scope.

Section persist.
Context {W : Type} `{!Platform W} (phy : iolink_phy_api_t W).
Context `{!NvmReadBounded W} (Hstarts : PhyStarts phy).
Implicit Types (s : isdu_world W) (g : core W) (w : W) (c : iolink_dll_ctx_t W) (e : params_env W).

(** The program with its memory cleared: every global has its initial value,
    only the state [w] of the platform stays. *)
Definition powered_up w : core W :=
  mk_core (mk_dll_sys dll_zero (mk_params_env info_globals_start g_nvm_shadow_start w)) config_default.

(** The driver starts, when it has a start-up function. *)
Definition driver_starts w : Prop :=
  forall init, phy_init phy = Some init -> exists w', init w = Done (0, w').

(** The memory holds the image of the shadow [sh]. *)
Definition memory_holds (sh : iolink_params_nvm_t) w : Prop :=
  exists w', iolink_nvm_read 0 nvm_size w = (0, nvm_encode sh, w').

(** The device once [iolink_init] has returned. *)
Definition restarted (sh : iolink_params_nvm_t) g : Prop :=
  iw_wf (dll_world (g_sys g)) /\ isdu_state (iw_isdu (dll_world (g_sys g))) = ISDU_STATE_IDLE /\
  pe_shadow (iw_env (dll_world (g_sys g))) = sh /\
  pe_info (iw_env (dll_world (g_sys g))) = info_globals_start.

Lemma powered_up_params w : params_wf (sys_env (g_sys (powered_up w))).
Proof. split; [apply info_globals_start_wf | apply g_nvm_shadow_start_wf]. Qed.

Lemma memory_holds_image sh w : shadow_wf sh -> memory_holds sh w -> nvm_image_ok w.
Proof.
  intros Hsh [w' Hr]. unfold nvm_image_ok. rewrite Hr, nvm_decode_encode by done. intros _ _.
  destruct Hsh as (_ & (_ & Ha & _) & (_ & Hf & _) & (_ & Hl & _) & _). done.
Qed.

Lemma memory_holds_kept sh w w' : memory w' = memory w -> memory_holds sh w -> memory_holds sh w'.
Proof.
  unfold memory, memory_holds. intros H [w1 Hr]. rewrite Hr in H.
  destruct (iolink_nvm_read 0 nvm_size w') as [[r d] w2]. injection H as -> ->. eauto.
Qed.

(** The globals the start-up leaves.  No code of the stack selects the device
    information before [iolink_params_init], so the Application Tag of the image
    is not restored. *)
Lemma started_env_powered sh w e :
  shadow_wf sh -> nvm_magic sh = PARAMS_NVM_MAGIC -> memory_holds sh w ->
  started_env (sys_env (g_sys (powered_up w))) e ->
  pe_shadow e = sh /\ pe_info e = info_globals_start.
Proof.
  intros Hsh Hmag Hmem (e1 & e2 & He1 & Hrun & -> & ->).
  pose proof (env_kept_params _ _ He1 (powered_up_params w)) as Hwf.
  destruct He1 as (Hi & Hs & _ & Hm). apply (memory_holds_kept sh) in Hm; [|done]. destruct Hm as [w' Hr].
  rewrite (params_init_image e1 sh w' Hwf Hsh Hmag Hr) in Hrun. injection Hrun as <-.
  unfold params_restored. rec_simpl. rewrite Hi. by rewrite decide_False.
Qed.

(** The configuration does not touch what the services work on. *)
Lemma configured_world config deadline c e :
  iw_isdu (dll_world (mk_dll_sys (configured config deadline c) e)) = dll_isdu c /\
  iw_events (dll_world (mk_dll_sys (configured config deadline c) e)) = dll_events c /\
  iw_env (dll_world (mk_dll_sys (configured config deadline c) e)) = e.
Proof. done. Qed.

Lemma dll_started_isdu : isdu_state (dll_isdu (dll_started phy)) = ISDU_STATE_IDLE.
Proof. by vm_compute. Qed.

Lemma power_cycle config sh w :
  shadow_wf sh -> nvm_magic sh = PARAMS_NVM_MAGIC -> memory_holds sh w -> driver_starts w ->
  exists g, iolink_init (Some phy) config (powered_up w) = Done (0, g) /\ restarted sh g.
Proof.
  intros Hsh Hmag Hmem Hdrv.
  assert (wp (iolink_init (Some phy) config) (fun err g => err = 0 /\ restarted sh g) (powered_up w)) as H.
  - apply (wp_init phy Hstarts); [apply powered_up_params | by apply memory_holds_image with sh| |].
    + intros deadline e _ _ He Hst. split; [done|].
      destruct (started_env_powered sh w e Hsh Hmag Hmem Hst) as [Hs Hi].
      pose proof (dll_started_wf phy) as (Hq & Hisdu & Hev & _).
      unfold restarted, core_started. cbn [g_sys].
      destruct (configured_world (default config_default config) deadline (dll_started phy) e) as (E1 & _ & E3).
      rewrite E1, E3. split; [|split; [apply dll_started_isdu | done]].
      unfold iw_wf. destruct (configured_world (default config_default config) deadline (dll_started phy) e)
        as (-> & -> & ->). done.
    + intros err e Hne _ (init & w1 & Hi & Hrun). destruct (Hdrv init Hi) as [w2 Hrun2]. cbn in Hrun. congruence.
  - apply wp_done in H as (err & g & Hrun & -> & Hg). by exists g.
Qed.

(** ** Reads of a restarted device *)

(** The tag the parameters give on a device restarted with the shadow [sh]: the
    Application Tag is that of the program's own information. *)
Definition restarted_tag (index : Z) (sh : iolink_params_nvm_t) : option (list Z) :=
  if decide (index = IOLINK_IDX_APPLICATION_TAG) then Some (c_string (c_str "DefaultTag"))
  else if decide (index = IOLINK_IDX_FUNCTION_TAG) then Some (c_string (nvm_function_tag sh))
  else if decide (index = IOLINK_IDX_LOCATION_TAG) then Some (c_string (nvm_location_tag sh))
  else None.

Lemma app_tag_string_start : app_tag_string info_globals_start = Some (c_string (c_str "DefaultTag")).
Proof. by vm_compute. Qed.

Lemma restarted_read sh g index sub str seq :
  shadow_wf sh -> restarted sh g -> restarted_tag index sh = Some str -> is_u8 sub -> 0 <= seq < 64 ->
  exists s', isdu_exchange (ReadRequest index sub) seq (Nat.max 2 (2 * length str)) (dll_world (g_sys g)) =
    Done (answer_wire str, s') /\ iw_wf s'.
Proof.
  intros (_ & _ & (Hfz & Hft & _) & (Hlz & Hlt & _) & _) (Hwf & Hidle & Hs & Hi) Htag Hsub Hseq.
  apply read_tag_exchanged; [done | by left | | |done..].
  - unfold params_tag. rewrite Hs, Hi, app_tag_string_start. exact Htag.
  - revert Htag. unfold restarted_tag. pose proof (c_string_length _ Hft). pose proof (c_string_length _ Hlt).
    repeat case_decide; intros [= <-]; first [lia | done].
Qed.

(** A write that the memory accepted is the image there. *)
Lemma written_in_memory `{!NvmPersistent W} index data e :
  let e' := params_written index data (zlen data) true e in
  params_wf e -> params_accepts index 0 (zlen data) e -> bytes_ok data ->
  fst (iolink_nvm_write 0 (nvm_encode (pe_shadow e')) (pe_hw e)) = 0 ->
  shadow_wf (pe_shadow e') /\ memory_holds (pe_shadow e') (pe_hw e').
Proof.
  intros e' [_ Hs] Hok Hd Hw. subst e'.
  destruct (params_written_shadow index data (zlen data) e) as [Hsh Hhw]. rewrite Hsh, Hhw in *.
  assert (shadow_wf (shadow_written index data (zlen data) (pe_shadow e))) as Hswf
    by (apply shadow_written_wf; pose proof (zlen_nonneg data); (done || lia)).
  split; [done|]. unfold memory_holds. rewrite <- (nvm_encode_length _ Hswf). apply (nvm_read_write 0 _ (pe_hw e)).
  destruct (iolink_nvm_write _ _ _). cbn in *. by subst.
Qed.

Lemma shadow_written_magic index data len sh : nvm_magic (shadow_written index data len sh) = nvm_magic sh.
Proof. unfold shadow_written. by repeat case_decide. Qed.

(** A tag written over the wire, as the memory and the device after the power
    cycle hold it. *)
Lemma tag_write_restarted `{!NvmPersistent W} config s index sub data seq :
  iw_wf s -> isdu_receptive s -> params_accepts index 0 (zlen data) (selected_env (iw_env s)) ->
  nvm_magic (pe_shadow (iw_env s)) = PARAMS_NVM_MAGIC ->
  bytes_ok data -> 1 <= zlen data <= 255 -> is_u8 sub -> 0 <= seq < 64 ->
  exists s1, isdu_exchange (WriteRequest index sub data) seq 2 s = Done ([0xc0], s1) /\
    iw_wf s1 /\ isdu_state (iw_isdu s1) = ISDU_STATE_IDLE /\
    pe_shadow (iw_env s1) = shadow_written index data (zlen data) (pe_shadow (iw_env s)) /\
    params_tag index (iw_env s1) = Some (c_string (take 32 data)) /\
    shadow_wf (pe_shadow (iw_env s1)) /\
    (fst (iolink_nvm_write 0 (nvm_encode (pe_shadow (iw_env s1))) (pe_hw (iw_env s))) = 0 ->
     forall w, memory w = memory (pe_hw (iw_env s1)) -> driver_starts w ->
     exists g, iolink_init (Some phy) config (powered_up w) = Done (0, g) /\
       restarted (pe_shadow (iw_env s1)) g).
Proof.
  intros Hs Hst Hok Hmag Hd Hl Hsub Hseq. pose proof Hs as (_ & _ & [Hinfo Hsh]).
  assert (params_wf (selected_env (iw_env s))) as Hsel by (split; [by apply info_selected_wf | done]).
  destruct (write_tag_exchanged s index sub data seq Hs Hst Hok Hd Hl Hsub Hseq) as (s1 & Hrun & Hwf & Hidle & Henv).
  destruct (params_written_shadow index data (zlen data) (selected_env (iw_env s))) as [Hshadow _].
  exists s1. rewrite Henv, Hshadow in *. split_and!; try done.
  - by apply params_written_tag_read.
  - apply shadow_written_wf; (done || lia).
  - intros Hw w Hmem Hdrv.
    destruct (written_in_memory index data (selected_env (iw_env s)) Hsel Hok Hd) as [Hswf Hheld].
    { by rewrite Hshadow. }
    rewrite Hshadow in Hswf, Hheld. apply power_cycle; try done.
    + by rewrite shadow_written_magic.
    + by eapply memory_holds_kept.
Qed.

(** C21. A tag written over the wire survives a power cycle.  A master that writes
    up to 255 bytes to the function or the location tag is answered with
    success; when the memory accepted the image, the device may lose its power:
    with the same memory, every global back at its initial value and the driver
    starting, [iolink_init] succeeds, and a read of either tag then brings over
    the wire the written bytes (cut at 32 and at their first NUL) for the
    written tag and the former value for the other. *)
Theorem tag_survives_power_cycle `{!NvmPersistent W} config s index data sub seq :
  iw_wf s -> isdu_receptive s -> plain_tag index ->
  nvm_magic (pe_shadow (iw_env s)) = PARAMS_NVM_MAGIC ->
  bytes_ok data -> 1 <= zlen data <= 255 -> is_u8 sub -> 0 <= seq < 64 ->
  exists s1, isdu_exchange (WriteRequest index sub data) seq 2 s = Done ([0xc0], s1) /\
    (fst (iolink_nvm_write 0 (nvm_encode (pe_shadow (iw_env s1))) (pe_hw (iw_env s))) = 0 ->
     forall w, memory w = memory (pe_hw (iw_env s1)) -> driver_starts w ->
     exists g, iolink_init (Some phy) config (powered_up w) = Done (0, g) /\
       forall index' sub' seq', plain_tag index' -> is_u8 sub' -> 0 <= seq' < 64 ->
         let str := if decide (index' = index) then c_string (take 32 data)
                    else default [] (params_tag index' (iw_env s)) in
         exists s2, isdu_exchange (ReadRequest index' sub') seq' (Nat.max 2 (2 * length str))
                      (dll_world (g_sys g)) = Done (answer_wire str, s2)).
Proof.
  intros Hs Hst Hix Hmag Hd Hl Hsub Hseq.
  destruct (tag_write_restarted config s index sub data seq) as (s1 & Hrun & _ & _ & Hsh & Htag & Hswf & Hpower);
    try done; [by apply plain_tag_accepted|].
  exists s1. split; [done|]. intros Hw w Hmem Hdrv.
  destruct (Hpower Hw w Hmem Hdrv) as (g & Hinit & Hg). exists g. split; [done|].
  intros index' sub' seq' Hix' Hsub' Hseq' str.
  destruct (restarted_read (pe_shadow (iw_env s1)) g index' sub' str seq' Hswf Hg) as (s2 & Hread & _);
    [|done..|by exists s2].
  unfold str. case_decide as E.
  - subst index'. rewrite <- Htag. by destruct Hix as [-> | ->].
  - rewrite Hsh. destruct Hix as [-> | ->], Hix' as [-> | ->]; done.
Qed.

(** C22. The Application Tag does not survive a power cycle.  A master writes 1 to
    32 bytes to the Application Tag of a device that runs on the default
    information; it is answered with success, the tag reads as written and its
    bytes are in the image.  After a power cycle with this very image in the
    memory [iolink_init] succeeds and loads the image, but every read of the
    Application Tag brings "DefaultTag", the text built into the program: the
    device information is selected only by its first reader, so the start-up of
    the parameters, which runs before, cannot restore the tag. *)
Theorem application_tag_lost `{!NvmPersistent W} config s data sub seq :
  iw_wf s -> isdu_receptive s -> (forall i, g_device_info (pe_info (iw_env s)) <> InfoUser i) ->
  nvm_magic (pe_shadow (iw_env s)) = PARAMS_NVM_MAGIC ->
  bytes_ok data -> 1 <= zlen data <= 32 -> is_u8 sub -> 0 <= seq < 64 ->
  exists s1, isdu_exchange (WriteRequest IOLINK_IDX_APPLICATION_TAG sub data) seq 2 s = Done ([0xc0], s1) /\
    params_tag IOLINK_IDX_APPLICATION_TAG (iw_env s1) = Some (c_string (take 32 data)) /\
    c_string (nvm_application_tag (pe_shadow (iw_env s1))) = c_string (take 32 data) /\
    (fst (iolink_nvm_write 0 (nvm_encode (pe_shadow (iw_env s1))) (pe_hw (iw_env s))) = 0 ->
     forall w, memory w = memory (pe_hw (iw_env s1)) -> driver_starts w ->
     exists g, iolink_init (Some phy) config (powered_up w) = Done (0, g) /\
       pe_shadow (iw_env (dll_world (g_sys g))) = pe_shadow (iw_env s1) /\
       forall sub' seq', is_u8 sub' -> 0 <= seq' < 64 ->
         exists s2, isdu_exchange (ReadRequest IOLINK_IDX_APPLICATION_TAG sub') seq' 20
                      (dll_world (g_sys g)) = Done (answer_wire (c_string (c_str "DefaultTag")), s2)).
Proof.
  intros Hs Hst Hinfo Hmag Hd Hl Hsub Hseq.
  assert (params_accepts IOLINK_IDX_APPLICATION_TAG 0 (zlen data) (selected_env (iw_env s))) as Hok.
  { split; [done|]. right; right. split; [done|]. unfold app_tag_size. split; [lia|].
    unfold selected_env, info_selected. rec_simpl. destruct (g_device_info (pe_info (iw_env s))) eqn:E; naive_solver. }
  destruct (tag_write_restarted config s IOLINK_IDX_APPLICATION_TAG sub data seq)
    as (s1 & Hrun & _ & _ & Hsh & Htag & Hswf & Hpower); try done; [lia|].
  exists s1. split_and!; [done..| |].
  - rewrite Hsh. unfold shadow_written. rewrite decide_True by done. rec_simpl. by rewrite stored_tag_string, take_tag.
  - intros Hw w Hmem Hdrv. destruct (Hpower Hw w Hmem Hdrv) as (g & Hinit & Hg). exists g.
    split; [done|]. split; [by destruct Hg as (_ & _ & ? & _)|]. intros sub' seq' Hsub' Hseq'.
    destruct (restarted_read (pe_shadow (iw_env s1)) g IOLINK_IDX_APPLICATION_TAG sub' (c_string (c_str "DefaultTag")) seq')
      as (s2 & Hread & _); try done. by exists s2.
Qed.
End persist.

(** ** Witnesses: the device on a line, a tag written before the power cut *)

#[export] Instance line_persistent : NvmPersistent line.
Proof.
  constructor. intros off data w w' H.
  change ((let '(ret, r) := iolink_nvm_write off data (line_ram w) in (ret, w<| line_ram := r |>)) = (0, w')) in H.
  destruct (iolink_nvm_write off data (line_ram w)) as [r w1] eqn:Hw. injection H as -> <-.
  destruct (nvm_read_write off data _ _ Hw) as [w2 Hr]. exists (w<| line_ram := w2 |>).
  change ((let '(ret, data, r) := iolink_nvm_read off (zlen data) w1 in
           (ret, data, (w<| line_ram := w1 |>)<| line_ram := r |>)) = (0, data, w<| line_ram := w2 |>)).
  by rewrite Hr.
Qed.

Definition persist_demo : isdu_world line :=
  mk_isdu_world isdu_cleared iolink_events_init (iolink_ds_init None) (mk_dll_stats 0 0 0 0 0 0 0 0 0 0 0) (demo_env []).

Lemma persist_demo_wf : iw_wf persist_demo.
Proof. split; [exact isdu_cleared_wf|]. split; [apply evq_init_wf | apply demo_env_wf]. Qed.

Lemma line_driver_starts w : driver_starts line_phy w.
Proof. intros init [= <-]. by exists w. Qed.

(** The write is accepted by the memory. *)
Lemma persist_demo_stored index data :
  index = IOLINK_IDX_LOCATION_TAG \/ index = IOLINK_IDX_APPLICATION_TAG -> data = [72; 97; 108; 108] ->
  exists s1, isdu_exchange (WriteRequest index 0 data) 5 2 persist_demo = Done ([0xc0], s1) /\
    fst (iolink_nvm_write 0 (nvm_encode (pe_shadow (iw_env s1))) (pe_hw (iw_env persist_demo))) = 0.
Proof.
  intros [-> | ->] ->; eexists; (split; [vm_compute; reflexivity|]); vm_compute; reflexivity.
Qed.

Lemma tag_survives_power_cycle_witness :
  exists s1 g s2,
    isdu_exchange (WriteRequest IOLINK_IDX_LOCATION_TAG 0 [72; 97; 108; 108]) 5 2 persist_demo = Done ([0xc0], s1) /\
    iolink_init (Some line_phy) (Some (config_demo 2)) (powered_up (pe_hw (iw_env s1))) = Done (0, g) /\
    isdu_exchange (ReadRequest IOLINK_IDX_LOCATION_TAG 0) 0 8 (dll_world (g_sys g)) =
      Done (answer_wire [72; 97; 108; 108], s2).
Proof.
  destruct (tag_survives_power_cycle line_phy line_starts (Some (config_demo 2)) persist_demo
    IOLINK_IDX_LOCATION_TAG [72; 97; 108; 108] 0 5 persist_demo_wf (or_introl eq_refl) (or_intror eq_refl)
    ltac:(vm_compute; reflexivity) ltac:(by_decide) ltac:(vm_compute; split; discriminate) ltac:(lia) ltac:(lia))
    as (s1 & Hrun & Hpower).
  destruct (persist_demo_stored IOLINK_IDX_LOCATION_TAG _ (or_introl eq_refl) eq_refl) as (s1' & Hrun' & Hw).
  assert (s1' = s1) as -> by congruence.
  destruct (Hpower Hw (pe_hw (iw_env s1)) eq_refl (line_driver_starts _)) as (g & Hinit & Hread).
  destruct (Hread IOLINK_IDX_LOCATION_TAG 0 0 (or_intror eq_refl) ltac:(lia) ltac:(lia)) as (s2 & H2).
  exists s1, g, s2. split; [exact Hrun|]. split; [exact Hinit | exact H2].
Defined.

Lemma application_tag_lost_witness :
  exists s1 g s2,
    isdu_exchange (WriteRequest IOLINK_IDX_APPLICATION_TAG 0 [72; 97; 108; 108]) 5 2 persist_demo =
      Done ([0xc0], s1) /\
    iolink_init (Some line_phy) (Some (config_demo 2)) (powered_up (pe_hw (iw_env s1))) = Done (0, g) /\
    isdu_exchange (ReadRequest IOLINK_IDX_APPLICATION_TAG 0) 0 20 (dll_world (g_sys g)) =
      Done (answer_wire (c_string (c_str "DefaultTag")), s2).
Proof.
  destruct (application_tag_lost line_phy line_starts (Some (config_demo 2)) persist_demo
    [72; 97; 108; 108] 0 5 persist_demo_wf (or_introl eq_refl) ltac:(discriminate)
    ltac:(vm_compute; reflexivity) ltac:(by_decide) ltac:(vm_compute; split; discriminate) ltac:(lia) ltac:(lia))
    as (s1 & Hrun & _ & _ & Hpower).
  destruct (persist_demo_stored IOLINK_IDX_APPLICATION_TAG _ (or_intror eq_refl) eq_refl) as (s1' & Hrun' & Hw).
  assert (s1' = s1) as -> by congruence.
  destruct (Hpower Hw (pe_hw (iw_env s1)) eq_refl (line_driver_starts _)) as (g & Hinit & _ & Hread).
  destruct (Hread 0 0 ltac:(lia) ltac:(lia)) as (s2 & H2).
  exists s1, g, s2. split; [exact Hrun|]. split; [exact Hinit | exact H2].
Defined.
