(* ===== verification/Boot.v ===== *)
(** * From power-on to OPERATE

    The calls of an application that has just started the stack: while the line
    is in SIO mode [iolink_process] looks for a wake-up; after it, the start-up
    frames of a master bring the device to OPERATE.  With a power-on delay
    configured, what is received before its end is dropped. *)
From S2P Require Export CoreTheorems.
#[local] Open Scope Z_scope.

Section boot.
Context {W : Type} `{!Platform W} (phy : iolink_phy_api_t W).
Implicit Types (c : iolink_dll_ctx_t W) (e : params_env W) (s : dll_sys W) (g : core W).
Context (pending : W -> list Z) (tx : W -> list (list Z)).
Context (Hphy : PhyQueue phy pending tx) (Hrel : phy_reliable phy) (Hplat : PlatformKeepsLine pending tx).

(** The line as the laws of the PHY see it. *)
Definition line_le e e' : Prop := hw_le (fun w => length (pending w)) (fun w => pending w :: tx w) e e'.

Lemma line_le_eq e e' : line_le e e' -> pending (pe_hw e') = pending (pe_hw e) /\ tx (pe_hw e') = tx (pe_hw e).
Proof. intros (_ & _ & _ & H). by injection H. Qed.

Lemma services_idle s :
  isdu_state (dll_isdu (sys_dll s)) <> ISDU_STATE_SERVICE_EXECUTE ->
  zoom dll_world_lens iolink_isdu_process s = Done (tt, s).
Proof.
  intros Hst. assert (iolink_isdu_process (dll_world s) = Done (tt, dll_world s)) as Hrun.
  { apply wp_exact. unfold iolink_isdu_process. wp_step. apply wp_isdu_gets.
    wp_branch; [by wp_steps|]. by apply wp_when. }
  unfold zoom. cbn [view put dll_world_lens]. rewrite Hrun. by destruct s as [[] []].
Qed.

(** A device with no request to serve, no timeout running, no power-on delay and
    no timing to enforce. *)
Definition at_ease c : Prop :=
  isdu_state (dll_isdu c) <> ISDU_STATE_SERVICE_EXECUTE /\ dll_last_activity_ms c = 0 /\
  dll_t_pd_deadline_us c = 0 /\ dll_enforce_timing c = false.

(** What the diagnostics leave alone. *)
Lemma diagnosed_kept c c' :
  diagnosed c c' ->
  settings_of c' = settings_of c /\ dll_state c' = dll_state c /\ dll_phy_mode c' = dll_phy_mode c /\
  dll_baudrate c' = dll_baudrate c /\ dll_frame_index c' = dll_frame_index c /\ dll_isdu c' = dll_isdu c /\
  dll_pd_out c' = dll_pd_out c /\ dll_last_activity_ms c' = dll_last_activity_ms c.
Proof. intros (v & b & ->). by destruct v, b. Qed.

(** Such a device's call is its last part, after the diagnostics. *)
Lemma wp_process_rest fuel (Q : unit -> dll_sys W -> Prop) c e :
  ctx_wf phy c -> at_ease c ->
  (forall c' e', diagnosed c c' -> ctx_wf phy c' -> line_le e e' ->
     wp (if decide (dll_phy_mode c' = IOLINK_PHY_MODE_SIO) then dll_check_wakeup else
         dll_check_gap ;;
         waiting ← dll_awaiting_window;
         if decide (waiting = true) then mret tt else dll_receive fuel) Q (mk_dll_sys c' e')) ->
  wp (iolink_dll_process fuel) Q (mk_dll_sys c e).
Proof.
  intros Hc (Hi & Ha & Hd & Ht) HQ. pose proof (queue_keep _ _ _ Hphy) as Hk. unfold iolink_dll_process.
  wp_step. apply (wp_gets (fun s => dll_phy (sys_dll s))). cbn [sys_dll]. rewrite (ctx_wf_phy phy _ Hc).
  wp_step. eapply wp_intro; [by apply services_idle|]. wp_step.
  apply (wp_poll_diagnostics phy _ _ Hk); [done|]. intros c2 e2 Hdiag He2. cbv beta.
  pose proof (ctx_wf_diagnosed phy _ _ Hc Hdiag) as Hc2.
  pose proof (diagnosed_kept _ _ Hdiag) as (Hset & _ & _ & _ & _ & _ & _ & Ha2).
  unfold settings_of in Hset.
  wp_step. apply (wp_check_activity phy _ _ Hk Hplat); [done|]. intros c3 e3 [->|[Hne _]] He3; [|congruence].
  cbv beta. wp_step. apply (wp_t_pd_active _ _ Hplat). intros b e4 Hb He4. cbv beta.
  assert (b = false) as -> by (destruct b; [|done]; exfalso; apply Hb; [done|]; congruence).
  rewrite decide_False by done. dll_step. dll_step. apply HQ; [done..|].
  etransitivity; [exact He2|]. by etransitivity.
Qed.

(** In SIO mode the call looks for a wake-up. *)
Lemma wp_process_sio fuel (Q : unit -> dll_sys W -> Prop) c e :
  ctx_wf phy c -> at_ease c -> dll_phy_mode c = IOLINK_PHY_MODE_SIO ->
  (forall c1 c' e', diagnosed c c1 -> ctx_wf phy c1 ->
     c' = c1 \/ (exists t, c' = woken_up (u64 (t + IOLINK_T_DWU_US)) c1) -> line_le e e' ->
     Q tt (mk_dll_sys c' e')) ->
  wp (iolink_dll_process fuel) Q (mk_dll_sys c e).
Proof.
  intros Hc Hease Hm HQ. apply wp_process_rest; [done..|]. intros c1 e1 Hd Hc1 He1.
  pose proof (diagnosed_kept _ _ Hd) as (_ & _ & Hm1 & _).
  rewrite decide_True by congruence. apply (wp_check_wakeup phy _ _ (queue_keep _ _ _ Hphy) Hplat); [done|].
  intros c' e' Hc' He'. eapply (HQ c1); [done | done | | by etransitivity].
  destruct Hc' as [->|[_ Ht]]; [by left | by right].
Qed.

(** In SDCI mode the call takes the bytes pending. *)
Lemma wp_process_sdci fuel (Q : unit -> dll_sys W -> Prop) c e :
  ctx_wf phy c -> at_ease c -> dll_phy_mode c <> IOLINK_PHY_MODE_SIO ->
  (length (pending (pe_hw e)) < fuel)%nat -> bytes_ok (pending (pe_hw e)) ->
  (forall c1 c' frames e', diagnosed c c1 -> ctx_wf phy c1 ->
     bytes_step phy (pending (pe_hw e)) c1 c' frames -> tx (pe_hw e') = tx (pe_hw e) ++ frames ->
     Q tt (mk_dll_sys c' e')) ->
  wp (iolink_dll_process fuel) Q (mk_dll_sys c e).
Proof.
  intros Hc Hease Hm Hf Hb HQ. apply wp_process_rest; [done..|]. intros c1 e1 Hd Hc1 He1.
  pose proof (diagnosed_kept _ _ Hd) as (Hset & _ & Hm1 & _). unfold settings_of in Hset.
  assert (dll_enforce_timing c1 = false) as Ht by (destruct Hease as (_ & _ & _ & ?); congruence).
  pose proof (line_le_eq _ _ He1) as [Hp1 Htx1].
  rewrite decide_False by congruence. wp_step.
  apply (wp_check_gap phy _ _ (queue_keep _ _ _ Hphy) Hplat); [done|].
  intros c2 e2 [->|(_ & Ht' & _)] He2; [|congruence]. pose proof (line_le_eq _ _ He2) as [Hp2 Htx2].
  cbv beta. wp_step. apply (wp_awaiting_window _ _ Hplat). intros b e3 Hw He3. cbv beta.
  pose proof (line_le_eq _ _ He3) as [Hp3 Htx3].
  assert (b = false) as -> by (destruct b; [|done]; destruct Hw as [_ ?]; [done | congruence]).
  rewrite decide_False by done. rewrite <- Hp1, <- Hp2, <- Hp3 in Hf, Hb.
  apply (wp_receive_queue phy pending tx Hphy Hplat); [done..|].
  intros c' l e' Hs Htx. apply queue_sends_reliable in Htx; [|done]. rewrite Hp3, Hp2, Hp1 in Hs.
  eapply HQ; [done | done | exact Hs|]. rewrite Htx by done. congruence.
Qed.
(** ** The power-on delay *)

(** The clock has not reached [deadline] yet, and will not during the call. *)
Definition clock_before (deadline : Z) : Prop :=
  forall w, u64 (fst (iolink_time_get_us w)) < deadline.

Lemma wp_t_pd_active_before (Q : bool -> dll_sys W -> Prop) c e :
  dll_t_pd_deadline_us c <> 0 -> clock_before (dll_t_pd_deadline_us c) ->
  (forall e', line_le e e' -> Q true (mk_dll_sys c e')) -> wp dll_t_pd_active Q (mk_dll_sys c e).
Proof.
  intros Hd Hclock HQ. unfold dll_t_pd_active. dll_step. dll_step. rewrite decide_False by done.
  wp_step. unfold time_us. wp_step.
  apply (wp_hw (fun w => length (pending w)) (fun w => pending w :: tx w) _ (fun t => u64 t < dll_t_pd_deadline_us c)).
  - pose proof (keeps_time_us _ _ Hplat (pe_hw e)) as [H1 H2]. pose proof (Hclock (pe_hw e)) as H3.
    unfold wp. destruct (iolink_time_get_us (pe_hw e)) as [t w]. by split.
  - intros t e' Ht He. wp_step. wp_step. rewrite bool_decide_true by done. by apply HQ.
Qed.

(** Draining the receiver takes every byte pending. *)
Lemma wp_drain_queue recv fuel saw (Q : bool -> dll_sys W -> Prop) c e :
  phy_recv_byte phy = Some recv -> (length (pending (pe_hw e)) < fuel)%nat ->
  (forall e', pending (pe_hw e') = [] -> tx (pe_hw e') = tx (pe_hw e) ->
     Q (saw || bool_decide (pending (pe_hw e) <> [])) (mk_dll_sys c e')) ->
  wp (dll_drain_loop fuel recv saw) Q (mk_dll_sys c e).
Proof.
  intros Hrecv. destruct (queue_recv_byte _ _ _ Hphy) as (m & Hm & Hr). rewrite Hrecv in Hm. injection Hm as <-.
  revert saw e. induction fuel as [|fuel IH]; intros saw e Hf HQ; [lia|].
  cbn [dll_drain_loop]. wp_step. unfold recv_byte. wp_step. apply (wp_zoom sys_hw_lens). cbn.
  pose proof (Hr (pe_hw e)) as H. apply wp_done in H as (r & w' & Hrun & Htx & Hpend). eapply wp_intro; [exact Hrun|].
  wp_step. rec_simpl. cbn [fst]. change (update sys_env _ _) with (mk_dll_sys c (e<| pe_hw := w' |>)).
  destruct (pending (pe_hw e)) as [|b bs].
  - destruct Hpend as [Hr0 Hp]. destruct (decide (0 < fst r)) as [?|_]; [lia|]. wp_step.
    rewrite <- (orb_false_r saw). by apply (HQ (e<| pe_hw := w' |>)).
  - destruct Hpend as (Hr0 & _ & Hp). destruct (decide (0 < fst r)) as [_|?]; [|lia].
    apply IH; rec_simpl; [rewrite Hp; cbn in Hf; lia|]. intros e' Hp' Htx'.
    cbn [orb]. rewrite bool_decide_true, orb_true_r in HQ by done. apply HQ; [done | congruence].
Qed.

Lemma wp_power_on_drain_queue fuel (Q : unit -> dll_sys W -> Prop) c e :
  ctx_wf phy c -> (length (pending (pe_hw e)) < fuel)%nat ->
  (forall e', pending (pe_hw e') = [] -> tx (pe_hw e') = tx (pe_hw e) ->
     Q tt (mk_dll_sys (if decide (pending (pe_hw e) = []) then c else power_on_violated c) e')) ->
  wp (dll_power_on_drain fuel) Q (mk_dll_sys c e).
Proof.
  intros Hc Hf HQ. pose proof Hc as (Hp & _ & Hev & _). unfold dll_power_on_drain, dll_drain_rx.
  wp_step. dll_step. dll_step. rewrite Hp.
  destruct (queue_recv_byte _ _ _ Hphy) as (recv & Hrecv & _). rewrite Hrecv.
  apply (wp_drain_queue recv); [done..|]. intros e' Hpend Htx. cbn [orb].
  specialize (HQ e' Hpend Htx). apply wp_when; intros Hb.
  - apply bool_decide_eq_true_1 in Hb. rewrite decide_False in HQ by done.
    unfold timing_violation. repeat dll_step. exact HQ.
  - destruct (decide (pending (pe_hw e) = [])) as [?|Hne]; [exact HQ|].
    by rewrite bool_decide_true in Hb.
Qed.

Lemma power_on_violated_kept c :
  dll_state (power_on_violated c) = dll_state c /\ dll_phy_mode (power_on_violated c) = dll_phy_mode c /\
  dll_frame_index (power_on_violated c) = dll_frame_index c.
Proof. done. Qed.

(** C13. The power-on delay.  While it runs (the clock is before the deadline
    whenever it is read), and with no request to serve and no timeout running, a
    call of [iolink_process]'s data link layer takes every byte received and
    drops it, sends nothing and leaves the state machine where it is; bytes that
    were dropped are counted as one timing violation and announced by one event. *)
Theorem power_on_drops c e fuel :
  ctx_wf phy c -> isdu_state (dll_isdu c) <> ISDU_STATE_SERVICE_EXECUTE -> dll_last_activity_ms c = 0 ->
  dll_t_pd_deadline_us c <> 0 -> clock_before (dll_t_pd_deadline_us c) ->
  (length (pending (pe_hw e)) < fuel)%nat ->
  exists c1 c' e',
    iolink_dll_process fuel (mk_dll_sys c e) = Done (tt, mk_dll_sys c' e') /\
    diagnosed c c1 /\ c' = (if decide (pending (pe_hw e) = []) then c1 else power_on_violated c1) /\
    pending (pe_hw e') = [] /\ tx (pe_hw e') = tx (pe_hw e) /\
    dll_state c' = dll_state c /\ dll_phy_mode c' = dll_phy_mode c /\ dll_frame_index c' = dll_frame_index c.
Proof.
  intros Hc Hi Ha Hd Hclock Hf. pose proof (queue_keep _ _ _ Hphy) as Hk.
  assert (wp (iolink_dll_process fuel) (fun _ s => exists c1, diagnosed c c1 /\
    sys_dll s = (if decide (pending (pe_hw e) = []) then c1 else power_on_violated c1) /\
    pending (pe_hw (sys_env s)) = [] /\ tx (pe_hw (sys_env s)) = tx (pe_hw e)) (mk_dll_sys c e)) as H.
  { unfold iolink_dll_process.
    wp_step. apply (wp_gets (fun s => dll_phy (sys_dll s))). cbn [sys_dll]. rewrite (ctx_wf_phy phy _ Hc).
    wp_step. eapply wp_intro; [by apply services_idle|]. wp_step.
    apply (wp_poll_diagnostics phy _ _ Hk); [done|]. intros c2 e2 Hdiag He2. cbv beta.
    pose proof (ctx_wf_diagnosed phy _ _ Hc Hdiag) as Hc2.
    pose proof (diagnosed_kept _ _ Hdiag) as (Hset & _ & _ & _ & _ & _ & _ & Ha2).
    unfold settings_of in Hset. assert (dll_t_pd_deadline_us c2 = dll_t_pd_deadline_us c) as Hd2 by congruence.
    wp_step. apply (wp_check_activity phy _ _ Hk Hplat); [done|]. intros c3 e3 [->|[Hne _]] He3; [|congruence].
    cbv beta. wp_step. apply wp_t_pd_active_before; [by rewrite Hd2..|]. intros e4 He4.
    cbv beta. rewrite decide_True by done.
    assert (line_le e e4) as He by (etransitivity; [exact He2|]; etransitivity; [exact He3|exact He4]).
    apply line_le_eq in He as [Hp Htx]. rewrite <- Hp in Hf.
    apply wp_power_on_drain_queue; [done..|]. intros e' Hpend' Htx'. exists c2.
    cbn [sys_dll sys_env]. rewrite Hp. split_and!; [done..|congruence]. }
  apply wp_done in H as ([] & [c' e'] & Hrun & c1 & Hdiag & Hc' & Hp & Htx). cbn [sys_dll sys_env] in *.
  exists c1, c', e'. split_and!; [done..| | |].
  all: pose proof (diagnosed_kept _ _ Hdiag) as (_ & Hst & Hm & _ & Hfi & _); subst c'.
  all: pose proof (power_on_violated_kept c1) as (? & ? & ?).
  all: destruct (decide _); congruence.
Qed.

(** ** The two calls of a start-up *)

(** A device started at COM2, in SIO mode. *)
Definition fresh c : Prop :=
  between_frames phy c /\ at_ease c /\ dll_state c = IOLINK_DLL_STATE_STARTUP /\
  dll_phy_mode c = IOLINK_PHY_MODE_SIO /\ dll_baudrate c = IOLINK_BAUDRATE_COM2.

(** The same after the wake-up. *)
Definition woken c : Prop :=
  between_frames phy c /\ at_ease c /\ dll_state c = IOLINK_DLL_STATE_AWAITING_COMM /\
  dll_phy_mode c = IOLINK_PHY_MODE_SDCI /\ dll_baudrate c = IOLINK_BAUDRATE_COM2.

Lemma configured_fresh config :
  config_ok config -> fresh (configured config 0 (dll_started phy)).
Proof.
  intros Hcfg. pose proof (configured_wf phy config 0 _ (dll_started_wf phy) Hcfg) as Hc.
  unfold fresh, between_frames, at_ease. unfold configured in *. cbv zeta in *. rec_simpl.
  split_and!; first [exact Hc | done].
Qed.

Lemma diagnosed_at_ease c c' : diagnosed c c' -> at_ease c -> at_ease c'.
Proof.
  intros Hd (H1 & H2 & H3 & H4). destruct (diagnosed_kept _ _ Hd) as (Hset & _ & _ & _ & _ & Hi & _ & Ha).
  unfold settings_of in Hset. split_and!; congruence.
Qed.

Lemma diagnosed_between c c' : diagnosed c c' -> ctx_wf phy c' -> between_frames phy c -> between_frames phy c'.
Proof.
  intros Hd Hc (_ & H1 & H2). destruct (diagnosed_kept _ _ Hd) as (Hset & _ & _ & _ & Hi & _).
  unfold settings_of in Hset. split_and!; congruence || done.
Qed.

Lemma fresh_process c e fuel :
  fresh c ->
  wp (iolink_dll_process fuel) (fun _ s => settings_of (sys_dll s) = settings_of c /\
    (fresh (sys_dll s) \/ woken (sys_dll s))) (mk_dll_sys c e).
Proof.
  intros (Hb & Hease & Hst & Hm & Hbaud). pose proof Hb as (Hc & _).
  apply wp_process_sio; [done..|]. intros c1 c' e' Hd Hc1 Hc' _. cbn [sys_dll].
  destruct (diagnosed_kept _ _ Hd) as (Hset & Hst1 & Hm1 & Hb1 & _).
  pose proof (diagnosed_between _ _ Hd Hc1 Hb) as Hbt. pose proof (diagnosed_at_ease _ _ Hd Hease) as Hea.
  destruct Hc' as [->|[t ->]]; (split; [exact Hset|]).
  - left. split_and!; congruence || done.
  - right. unfold woken, at_ease, between_frames in *. destruct Hbt as (_ & He & Hi).
    pose proof (ctx_wf_woken_up phy (u64 (t + IOLINK_T_DWU_US)) c1 Hc1) as Hc2.
    unfold woken_up in *. rec_simpl. split_and!; first [exact Hc2 | apply Hea | congruence | done].
Qed.

Lemma woken_process c e mc cy fuel :
  woken c -> dll_m_seq_type c <> m_seq_type_val IOLINK_M_SEQ_TYPE_0 -> cycle_ok c cy ->
  mc <> IOLINK_MC_TRANSITION_COMMAND ->
  pending (pe_hw e) = start_frames mc cy -> bytes_ok (pending (pe_hw e)) ->
  (length (pending (pe_hw e)) < fuel)%nat ->
  wp (iolink_dll_process fuel) (fun _ s =>
    dll_state (sys_dll s) = IOLINK_DLL_STATE_OPERATE /\
    dll_pd_out (sys_dll s) = front_set (cyc_pd cy) (dll_pd_out c) /\
    settings_of (sys_dll s) = settings_of c /\
    exists c1 od0 od, settings_of c1 = settings_of c /\ length od = length (cyc_od cy) /\
      tx (pe_hw (sys_env s)) = tx (pe_hw e) ++ [[od0; crc6 [od0; 0]]; response_frame c1 od]) (mk_dll_sys c e).
Proof.
  intros (Hb & Hease & Hst & Hm & Hbaud) Htype Hok Hmc Hpend Hbytes Hf. pose proof Hb as (Hc & _).
  apply wp_process_sdci; [done | done | by rewrite Hm | done..|].
  intros c1 c' frames e' Hd Hc1 Hs Htx. cbn [sys_dll sys_env].
  destruct (diagnosed_kept _ _ Hd) as (Hset & Hst1 & _ & Hb1 & _ & _ & Hpo & _).
  pose proof (diagnosed_between _ _ Hd Hc1 Hb) as Hbt.
  pose proof (settings_bytes phy _ _ _ _ Hs) as Hset'. pose proof Hset as Hs2. unfold settings_of in Hs2.
  rewrite Hpend in Hs. apply startup_step in Hs as (od0 & i0 & od & i & _ & _ & _ & Hlen & -> & Hst' & _ & _ & Hpo').
  - split; [done|]. split; [congruence|]. split; [congruence|]. by exists c1, od0, od.
  - split; [done|]. split; [rewrite Hb1, Hbaud; done | congruence].
  - right; left. congruence.
  - destruct Hok as (H1 & H2 & H3 & H4). split_and!; congruence || done.
  - done.
Qed.
(** Calls of [iolink_process] while the line is in SIO mode. *)
Inductive waits g : core W -> Prop :=
| waits_start : waits g g
| waits_call g1 w fuel g2 :
    waits g g1 -> iolink_get_phy_mode g1 = IOLINK_PHY_MODE_SIO ->
    iolink_process fuel (with_hw w g1) = Done (tt, g2) -> waits g g2.

Lemma waits_kept g g' :
  waits g g' -> fresh (g_dll_ctx g) ->
  settings_of (g_dll_ctx g') = settings_of (g_dll_ctx g) /\ (fresh (g_dll_ctx g') \/ woken (g_dll_ctx g')).
Proof.
  intros Hw Hf. induction Hw as [|[[c e] cfg] w fuel g2 Hw [Hset IH] Hm Hrun]; [by split; [|left]|].
  unfold iolink_get_phy_mode, g_dll_ctx in *. cbn [g_sys sys_dll] in *.
  destruct IH as [IH|(_ & _ & _ & Hm' & _)]; [|congruence].
  assert (wp (iolink_process fuel) (fun _ g2 => settings_of (sys_dll (g_sys g2)) = settings_of c /\
    (fresh (sys_dll (g_sys g2)) \/ woken (sys_dll (g_sys g2))))
    (mk_core (mk_dll_sys c (e<| pe_hw := w |>)) cfg)) as H by (apply wp_on_dll; by apply fresh_process).
  apply (wp_elim _ _ _ _ _ H) in Hrun as [H1 H2]. split; [congruence | done].
Qed.

(** A cyclic frame for a configuration. *)
Definition cycle_of (config : iolink_config_t) (cy : cycle) : Prop :=
  cyc_mc cy <> IOLINK_MC_TRANSITION_COMMAND /\ ~ dll_bad_channel (cyc_mc cy) /\
  zlen (cyc_pd cy) = cfg_pd_out_len config /\
  zlen (cyc_od cy) = if decide (m_seq_is_type2 (u8 (m_seq_type_val (cfg_m_seq_type config)))) then 2 else 1.

(** What the settings say of a configured device. *)
Lemma settings_configured config d c0 c :
  settings_of c = settings_of (configured config d c0) ->
  dll_m_seq_type c = u8 (m_seq_type_val (cfg_m_seq_type config)) /\ dll_pd_out_len c = cfg_pd_out_len config /\
  dll_pd_out_len_current c = cfg_pd_out_len config /\
  dll_od_len c = if decide (m_seq_is_type2 (u8 (m_seq_type_val (cfg_m_seq_type config)))) then 2 else 1.
Proof.
  unfold settings_of, configured. cbv zeta. rec_simpl.
  intros H. injection H as H1 H2 H3 H4 H5 H6 H7 H8 H9 H10 H11 H12 H13 H14 H15 H16 H17 H18. by split_and!.
Qed.

(** The call that brings a woken device to OPERATE. *)
Lemma woken_core config mc cy fuel c e cfg :
  config_ok config -> u8 (m_seq_type_val (cfg_m_seq_type config)) <> m_seq_type_val IOLINK_M_SEQ_TYPE_0 -> woken c ->
  settings_of c = settings_of (configured config 0 (dll_started phy)) ->
  cycle_of config cy -> mc <> IOLINK_MC_TRANSITION_COMMAND ->
  pending (pe_hw e) = start_frames mc cy -> bytes_ok (pending (pe_hw e)) ->
  (length (pending (pe_hw e)) < fuel)%nat ->
  exists g3 c1 od0 od,
    iolink_process fuel (mk_core (mk_dll_sys c e) cfg) = Done (tt, g3) /\
    iolink_get_state g3 = IOLINK_DLL_STATE_OPERATE /\
    tx (g_hw g3) = tx (pe_hw e) ++ [[od0; crc6 [od0; 0]]; response_frame c1 od] /\
    settings_of c1 = settings_of c /\ length od = length (cyc_od cy) /\
    forall buf, cfg_pd_out_len config <= zlen buf ->
      iolink_pd_output_read (Some buf) (zlen buf) g3 =
        Done ((zlen (cyc_pd cy), Some (front_set (cyc_pd cy) buf)), g3).
Proof.
  intros Hcfg Htype Hwk Hset (Hm & Hch & Hlp & Hlo) Hmc Hpend Hb Hfuel.
  destruct (settings_configured _ _ _ _ Hset) as (Ht & Ho & Hoc & Hod).
  assert (dll_m_seq_type c <> m_seq_type_val IOLINK_M_SEQ_TYPE_0) as Htype'
    by (by rewrite Ht).
  assert (cycle_ok c cy) as Hok by (split_and!; congruence || done).
  pose proof (woken_process c e mc cy fuel Hwk Htype' Hok Hmc Hpend Hb Hfuel) as H.
  apply wp_done in H as ([] & [c' e'] & Hrun & Hst & Hpo & Hset' & c1 & od0 & od & Hset1 & Hlen & Htx).
  cbn [sys_dll sys_env] in *. exists (mk_core (mk_dll_sys c' e') cfg), c1, od0, od.
  split; [unfold iolink_process, on_dll, zoom; cbn [view put g_sys_lens g_sys]; by rewrite Hrun|].
  split; [exact Hst|]. split; [exact Htx|]. split; [done|]. split; [done|]. intros buf Hbuf.
  pose proof Hwk as ((Hc & _) & _). pose proof Hc as (_ & _ & _ & _ & _ & (Hz & _) & _).
  rewrite Hset in Hset'. destruct (settings_configured _ _ _ _ Hset') as (_ & Ho' & _ & _).
  destruct Hcfg as [_ Hco]. pose proof (zlen_nonneg (cyc_pd cy)).
  apply wp_exact, wp_output_read; unfold g_dll_ctx; cbn [g_sys sys_dll]; [|lia|lia|].
  - rewrite Hpo, zlen_front_set; [done | lia].
  - cbv zeta. rewrite Ho', Z.min_r, Hpo, <- Hlp, zlen_to_nat by lia. unfold front_set at 2. by rewrite take_app_length.
Qed.

End boot.

(** ** Witness: the demonstration device, woken and started *)

Definition demo_wake : line := mk_line [] [] true (mk_ram [] 0).
Definition demo_start_line : line := mk_line demo_start [] false (mk_ram [] 0).

Lemma demo_boot :
  exists g1 g2, iolink_init (Some line_phy) (Some (config_demo 2)) (core_demo []) = Done (0, g1) /\
    iolink_get_phy_mode g1 = IOLINK_PHY_MODE_SIO /\
    iolink_process 1 (with_hw demo_wake g1) = Done (tt, g2) /\ iolink_get_phy_mode g2 = IOLINK_PHY_MODE_SDCI.
Proof. eexists _, _. split; [vm_compute; reflexivity|]. split; [vm_compute; reflexivity|]. split; vm_compute; reflexivity. Qed.

Lemma demo_cycle_of : cycle_of (config_demo 2) demo_cycle.
Proof. split_and!; [done | intros [?|?]; done | vm_compute; done..]. Qed.


(** ** Witness: the demonstration device during its power-on delay

    The clock of a platform that has just been switched on: it has not ticked. *)
Definition unticked : Platform line := {|
  iolink_nvm_read off len w := @iolink_nvm_read line line_platform off len w;
  iolink_nvm_write off data w := @iolink_nvm_write line line_platform off data w;
  iolink_time_get_ms w := (0, w);
  iolink_time_get_us w := (0, w)
|}.

Lemma unticked_keeps : @PlatformKeepsLine line unticked line_in line_out.
Proof.
  split; [done..|]. intros off data w. exact (keeps_nvm_write _ _ line_keeps_line off data w).
Qed.

Definition delayed : iolink_dll_ctx_t line :=
  (demo_c IOLINK_DLL_STATE_STARTUP)<| dll_t_pd_deadline_us := 500000 |>.

Lemma ctx_wf_deadline (c : iolink_dll_ctx_t line) d : ctx_wf line_phy c -> ctx_wf line_phy (c<| dll_t_pd_deadline_us := d |>).
Proof. done. Qed.
Lemma delayed_wf : ctx_wf line_phy delayed.
Proof. apply ctx_wf_deadline, demo_c_wf. Qed.

Lemma power_on_drops_witness :
  exists c' e', @iolink_dll_process line unticked 12 (mk_dll_sys delayed (demo_env demo_start)) =
      Done (tt, mk_dll_sys c' e') /\
    line_in (pe_hw e') = [] /\ line_out (pe_hw e') = [] /\ dll_t_pd_violations c' = 1.
Proof.
  destruct (@power_on_drops line unticked line_phy line_in line_out line_queue unticked_keeps delayed
    (demo_env demo_start) 12 delayed_wf ltac:(discriminate) eq_refl ltac:(discriminate)
    ltac:(intros w; reflexivity) ltac:(vm_compute; lia)) as (c1 & c' & e' & Hrun & (v & b & ->) & -> & Hp & Htx & _).
  rewrite decide_False in Hrun by discriminate.
  eexists _, e'. split; [exact Hrun|]. split; [exact Hp|]. split; [exact Htx|].
  destruct v, b; reflexivity.
Defined.
