(* ===== verification/Inactivity.v ===== *)
(** * The inactivity timeout

    Every byte received notes the millisecond clock; a call that finds it more
    than 1000 ms later gives the link up.  The theorem follows the timeout
    through a whole call of [iolink_dll_process]. *)
From S2P Require Export Boot.
#[local] Open Scope Z_scope.

Section inactivity.
Context {W : Type} `{!Platform W} (phy : iolink_phy_api_t W).
Implicit Types (c : iolink_dll_ctx_t W) (e : params_env W) (s : dll_sys W).
Context (pending : W -> list Z) (tx : W -> list (list Z)).
Context (Hphy : PhyQueue phy pending tx) (Hplat : PlatformKeepsLine pending tx).

(** The milliseconds since [last], as the code computes them, satisfy [P]
    whenever the clock is read during the call. *)
Definition since (last : Z) (P : Z -> Prop) : Prop :=
  forall w, P (u32 (u32 (fst (iolink_time_get_ms w)) - last)).

Lemma wp_time_ms_since last P (Q : Z -> dll_sys W -> Prop) c e :
  since last P -> (forall t e', P (u32 (t - last)) -> line_le pending tx e e' -> Q t (mk_dll_sys c e')) ->
  wp time_ms Q (mk_dll_sys c e).
Proof.
  intros HP HQ. unfold time_ms. wp_step.
  apply (wp_hw (fun w => length (pending w)) (fun w => pending w :: tx w) _ (fun t => P (u32 (u32 t - last)))).
  - pose proof (keeps_time_ms _ _ Hplat (pe_hw e)) as [H1 H2]. pose proof (HP (pe_hw e)) as H3.
    unfold wp. destruct (iolink_time_get_ms (pe_hw e)) as [t w]. by split.
  - intros t e' Ht He. wp_step. by apply HQ.
Qed.

(** Within the second, or with no byte noted, the check does nothing. *)
Lemma wp_check_activity_within (Q : unit -> dll_sys W -> Prop) c e :
  dll_last_activity_ms c = 0 \/ since (dll_last_activity_ms c) (fun d => d <= 1000) ->
  (forall e', line_le pending tx e e' -> Q tt (mk_dll_sys c e')) -> wp dll_check_activity Q (mk_dll_sys c e).
Proof.
  intros Hin HQ. unfold dll_check_activity. wp_step.
  apply (wp_time_ms_since (dll_last_activity_ms c)
    (fun d => dll_last_activity_ms c = 0 \/ d <= 1000)).
  - intros w. destruct Hin as [?|Hin]; [by left | right; apply Hin].
  - intros t e' Ht He. dll_step. dll_step. apply wp_when; intros Hout; [lia | by apply HQ].
Qed.

(** After it, the link is given up. *)
Lemma wp_check_activity_past (Q : unit -> dll_sys W -> Prop) c e :
  ctx_wf phy c -> dll_last_activity_ms c <> 0 -> since (dll_last_activity_ms c) (fun d => 1000 < d) ->
  (forall e', line_le pending tx e e' -> Q tt (mk_dll_sys (timed_out c) e')) ->
  wp dll_check_activity Q (mk_dll_sys c e).
Proof.
  intros Hc Hne Hpast HQ. pose proof (queue_keep _ _ _ Hphy) as Hk. unfold dll_check_activity. wp_step.
  apply (wp_time_ms_since _ _ _ _ _ Hpast). intros t e1 Ht He1. dll_step. dll_step.
  apply wp_when; intros Hout; [|lia].
  apply (wp_give_up phy _ _ Hk); [done|]. intros e2 He2. apply HQ. by transitivity e1.
Qed.

Lemma timed_out_kept c :
  dll_state (timed_out c) = IOLINK_DLL_STATE_STARTUP /\ dll_frame_index (timed_out c) = 0 /\
  dll_last_activity_ms (timed_out c) = 0 /\
  dll_t_pd_deadline_us (timed_out c) = dll_t_pd_deadline_us c /\
  dll_phy_mode (timed_out c) = IOLINK_PHY_MODE_SIO.
Proof.
  unfold timed_out. cbv zeta. rec_simpl. split_and!; try done; case_decide as Hm; ctx_simpl; try done.
Qed.

(** The state of a device whose link was given up: quiet in SIO mode, or woken
    up again by this very call; at COM1 in both cases. *)
Definition given_up c : Prop :=
  dll_baudrate c = IOLINK_BAUDRATE_COM1 /\ dll_frame_index c = 0 /\ dll_last_activity_ms c = 0 /\
  (dll_phy_mode c = IOLINK_PHY_MODE_SIO /\ dll_state c = IOLINK_DLL_STATE_STARTUP \/
   dll_phy_mode c = IOLINK_PHY_MODE_SDCI /\ dll_state c = IOLINK_DLL_STATE_AWAITING_COMM).

Lemma given_up_timed_out c c' :
  dll_phy_mode c <> IOLINK_PHY_MODE_SIO ->
  c' = timed_out c \/ (exists t, c' = woken_up (u64 (t + IOLINK_T_DWU_US)) (timed_out c)) -> given_up c'.
Proof.
  intros Hm H. pose proof (timed_out_kept c) as (Hst & Hi & Ha & _ & Hmode).
  destruct (timed_out_stuck c Hm) as [Hb _]. set (c1 := timed_out c) in *. clearbody c1.
  destruct H as [->|[t ->]]; unfold given_up, woken_up; rec_simpl; split_and!; try done; [by left | by right].
Qed.

(** The rest of the call after the timeout: it looks for a wake-up. *)
Lemma wp_process_timeout fuel (Q : unit -> dll_sys W -> Prop) c e :
  ctx_wf phy c -> isdu_state (dll_isdu c) <> ISDU_STATE_SERVICE_EXECUTE ->
  dll_phy_mode c <> IOLINK_PHY_MODE_SIO -> dll_t_pd_deadline_us c = 0 ->
  dll_last_activity_ms c <> 0 -> since (dll_last_activity_ms c) (fun d => 1000 < d) ->
  (forall c1 c' e', diagnosed c c1 -> given_up c' -> line_le pending tx e e' -> Q tt (mk_dll_sys c' e')) ->
  wp (iolink_dll_process fuel) Q (mk_dll_sys c e).
Proof.
  intros Hc Hi Hm Hd Hne Hpast HQ. pose proof (queue_keep _ _ _ Hphy) as Hk. unfold iolink_dll_process.
  wp_step. apply (wp_gets (fun s => dll_phy (sys_dll s))). cbn [sys_dll]. rewrite (ctx_wf_phy phy _ Hc).
  wp_step. eapply wp_intro; [by apply services_idle|]. wp_step.
  apply (wp_poll_diagnostics phy _ _ Hk); [done|]. intros c2 e2 Hdiag He2. cbv beta.
  pose proof (ctx_wf_diagnosed phy _ _ Hc Hdiag) as Hc2.
  pose proof (diagnosed_kept _ _ Hdiag) as (Hset & _ & Hm2 & _ & _ & _ & _ & Ha2). unfold settings_of in Hset.
  assert (dll_t_pd_deadline_us c2 = 0) as Hd2 by congruence.
  wp_step. apply wp_check_activity_past; [done | congruence | by rewrite Ha2|]. intros e3 He3. cbv beta.
  pose proof (timed_out_kept c2) as (_ & _ & _ & Hd3 & Hm3).
  wp_step. apply (wp_t_pd_active _ _ Hplat). intros b e4 Hb He4. cbv beta.
  assert (b = false) as -> by (destruct b; [|done]; exfalso; apply Hb; [done|]; congruence).
  rewrite decide_False by done. dll_step. dll_step. rewrite decide_True by done.
  apply (wp_check_wakeup phy _ _ Hk Hplat); [by apply ctx_wf_timed_out|]. intros c' e' Hc' He'.
  apply (HQ c2); [done| |].
  - apply (given_up_timed_out c2); [congruence|]. destruct Hc' as [->|[_ Ht]]; [by left | by right].
  - etransitivity; [exact He2|]. etransitivity; [exact He3|]. by etransitivity.
Qed.

(** C15. The inactivity timeout.  In communication, with no request to serve and
    no power-on delay, a call of [iolink_dll_process] that finds the millisecond
    clock more than 1000 ms after the last byte takes no byte, sends nothing and
    gives the link up: the device is at COM1, between frames, in SIO mode and
    STARTUP (or AWAITING_COMM in SDCI mode when this same call detects a
    wake-up), which is one of the states that never lead to OPERATE again.  Up
    to 1000 ms, or when the last byte came at millisecond 0 of the clock, the
    check changes nothing. *)
Theorem inactivity_timeout c e fuel :
  ctx_wf phy c ->
  (isdu_state (dll_isdu c) <> ISDU_STATE_SERVICE_EXECUTE -> dll_phy_mode c <> IOLINK_PHY_MODE_SIO ->
   dll_t_pd_deadline_us c = 0 -> dll_last_activity_ms c <> 0 ->
   since (dll_last_activity_ms c) (fun d => 1000 < d) ->
   exists c' e', iolink_dll_process fuel (mk_dll_sys c e) = Done (tt, mk_dll_sys c' e') /\
     given_up c' /\ com1_stuck c' /\
     pending (pe_hw e') = pending (pe_hw e) /\ tx (pe_hw e') = tx (pe_hw e)) /\
  (dll_last_activity_ms c = 0 \/ since (dll_last_activity_ms c) (fun d => d <= 1000) ->
   exists e', dll_check_activity (mk_dll_sys c e) = Done (tt, mk_dll_sys c e') /\
     pending (pe_hw e') = pending (pe_hw e) /\ tx (pe_hw e') = tx (pe_hw e)).
Proof.
  intros Hc. split.
  - intros Hi Hm Hd Hne Hpast.
    assert (wp (iolink_dll_process fuel) (fun _ s => given_up (sys_dll s) /\ line_le pending tx e (sys_env s))
      (mk_dll_sys c e)) as H by by apply wp_process_timeout.
    apply wp_done in H as ([] & [c' e'] & Hrun & Hg & He). exists c', e'.
    pose proof (line_le_eq _ _ _ _ He) as [Hp Htx]. split_and!; try done.
    destruct Hg as (Hb & Hfi & _ & [[_ Hst]|[_ Hst]]); unfold com1_stuck; cbn [sys_dll] in *; rewrite Hst, Hfi; done.
  - intros Hin.
    assert (wp dll_check_activity (fun _ s => sys_dll s = c /\ line_le pending tx e (sys_env s)) (mk_dll_sys c e)) as H
      by by apply wp_check_activity_within.
    apply wp_done in H as ([] & [c1 e1] & Hrun & Hc1 & He). cbn [sys_dll sys_env] in *. subst c1.
    exists e1. split; [done|]. by apply line_le_eq.
Qed.
End inactivity.

(** ** Witness: the demonstration device, a second and a half after its last byte *)

(** A clock that reads 1600 ms. *)
Definition late : Platform line := {|
  iolink_nvm_read off len w := @iolink_nvm_read line line_platform off len w;
  iolink_nvm_write off data w := @iolink_nvm_write line line_platform off data w;
  iolink_time_get_ms w := (1600, w);
  iolink_time_get_us w := (1600000, w)
|}.

Lemma late_keeps : @PlatformKeepsLine line late line_in line_out.
Proof. split; [done..|]. intros off data w. exact (keeps_nvm_write _ _ line_keeps_line off data w). Qed.

Definition silent : iolink_dll_ctx_t line := (demo_c IOLINK_DLL_STATE_OPERATE)<| dll_last_activity_ms := 100 |>.

Lemma ctx_wf_last (c : iolink_dll_ctx_t line) t : ctx_wf line_phy c -> ctx_wf line_phy (c<| dll_last_activity_ms := t |>).
Proof. done. Qed.
Lemma silent_wf : ctx_wf line_phy silent.
Proof. apply ctx_wf_last, demo_c_wf. Qed.

Lemma inactivity_timeout_witness :
  exists c' e', @iolink_dll_process line late 1 (mk_dll_sys silent (demo_env [])) = Done (tt, mk_dll_sys c' e') /\
    dll_baudrate c' = IOLINK_BAUDRATE_COM1.
Proof.
  destruct (@inactivity_timeout line late line_phy line_in line_out line_queue late_keeps silent
    (demo_env []) 1 silent_wf) as [H _].
  destruct (H ltac:(discriminate) ltac:(discriminate) eq_refl ltac:(discriminate) ltac:(intros w; vm_compute; reflexivity))
    as (c' & e' & Hrun & (Hb & _) & _).
  exists c', e'. split; [exact Hrun | exact Hb].
Defined.
