(* ===== verification/Demo.v ===== *)
(** * The sample applications (examples/host_demo, examples/simple_device)

    The host demonstration starts the stack over the virtual driver with the
    configuration of its command line, and then echoes the process data of the
    master, each byte plus one.  The virtual driver keeps the laws of a PHY, for
    any system with the documented behaviour of the POSIX calls it makes. *)
From S2P Require Export CoreTheorems.
Import PhyVirtual.
#[local] Open Scope Z_scope.

(** ** The virtual driver as a PHY *)

Section virtual_laws.
Context {OS : Type} `{!Platform OS} (p : posix OS) (rx : OS -> nat) (tx : OS -> list (list Z)).
Implicit Types (os : OS) (v : @virtual OS).

(** The platform's memory and clocks below the driver. *)
#[export] Instance virtual_platform : Platform (@virtual OS) := {|
  iolink_nvm_read off len v :=
    let '(ret, data, os) := iolink_nvm_read off len (g_os v) in (ret, data, v<| g_os := os |>);
  iolink_nvm_write off data v :=
    let '(ret, os) := iolink_nvm_write off data (g_os v) in (ret, v<| g_os := os |>);
  iolink_time_get_ms v := let '(t, os) := iolink_time_get_ms (g_os v) in (t, v<| g_os := os |>);
  iolink_time_get_us v := let '(t, os) := iolink_time_get_us (g_os v) in (t, v<| g_os := os |>)
|}.

#[export] Instance virtual_read_bounded `{!NvmReadBounded OS} : NvmReadBounded (@virtual OS).
Proof.
  constructor. intros off len v Hl. cbn. pose proof (nvm_read_bounded off len (g_os v) Hl) as H.
  by destruct (iolink_nvm_read off len (g_os v)) as [[ret data] os].
Qed.

(** A call that brings no bytes, sends nothing and leaves the memory alone. *)
Definition os_kept os os' : Prop := (rx os' <= rx os)%nat /\ tx os' = tx os /\ memory os' = memory os.

(** What the calls of the driver do to the bytes to be received ([rx]) and the
    frames written ([tx]): [read] of one byte returns a positive count only when
    it has taken one; a [write] of a frame that does not fail writes all of
    it, and one that fails nothing; the others do neither. *)
Record PosixLaws : Prop := {
  posix_open path os : os_kept os (snd (os_open p path os));
  posix_isatty fd os : os_kept os (snd (os_isatty p fd os));
  posix_tcgetattr fd os : os_kept os (snd (os_tcgetattr p fd os));
  posix_tcsetattr fd os : os_kept os (snd (os_tcsetattr p fd os));
  posix_read fd os :
    let '(ret, _, os') := os_read p fd os in
    (rx os' <= rx os)%nat /\ tx os' = tx os /\ (0 < ret -> (rx os' < rx os)%nat);
  posix_write fd data os : data <> [] ->
    let '(ret, os') := os_write p fd data os in
    (rx os' <= rx os)%nat /\ tx os' = tx os ++ (if decide (0 <= ret) then [data] else [])
}.

(** The driver, its wake-up scan bounded by the bytes to be received. *)
Definition virtual_phy : iolink_phy_api_t (@virtual OS) :=
  iolink_phy_virtual_get p (fun os => S (rx os)).

Context (Hp : PosixLaws).

Abbreviation vrx := (fun v : @virtual OS => rx (g_os v)).
Abbreviation vtx := (fun v : @virtual OS => tx (g_os v)).

Lemma wp_sys {A} (call : OS -> A * OS) (Q : A -> @virtual OS -> Prop) v :
  (let '(a, os) := call (g_os v) in Q a (v<| g_os := os |>)) -> wp (sys call) Q v.
Proof. unfold wp, sys. by destruct (call (g_os v)) as [a os]. Qed.

Lemma wp_sys_kept {A} (call : OS -> A * OS) (Q : A -> @virtual OS -> Prop) v :
  (forall os, os_kept os (snd (call os))) ->
  (forall a os, os_kept (g_os v) os -> Q a (v<| g_os := os |>)) -> wp (sys call) Q v.
Proof.
  intros Hk HQ. apply wp_sys. specialize (Hk (g_os v)). destruct (call (g_os v)) as [a os]. by apply HQ.
Qed.

Lemma os_kept_trans os1 os2 os3 : os_kept os1 os2 -> os_kept os2 os3 -> os_kept os1 os3.
Proof. intros (H1 & H2 & H3) (H4 & H5 & H6). split_and!; (lia || congruence). Qed.

Lemma virtual_init_kept v : wp (virtual_init p) (fun _ v' => os_kept (g_os v) (g_os v')) v.
Proof.
  unfold virtual_init. wp_step. wp_step. destruct (g_port_path v) as [path|]; [|by wp_step].
  wp_step. apply wp_sys_kept; [apply (posix_open Hp)|]. intros fd os1 Hk1. cbv beta.
  wp_step. wp_step. wp_branch; [by wp_step|].
  wp_step. apply wp_sys_kept; [apply (posix_isatty Hp)|]. intros tty os2 Hk2. cbv beta.
  assert (os_kept (g_os v) os2) as Hk02 by (by eapply os_kept_trans).
  wp_branch; [|by wp_step].
  wp_step. apply wp_sys_kept; [apply (posix_tcgetattr Hp)|]. intros got os3 Hk3. cbv beta.
  assert (os_kept (g_os v) os3) as Hk03 by (by eapply os_kept_trans).
  wp_branch; [by wp_step|].
  wp_step. apply wp_sys_kept; [apply (posix_tcsetattr Hp)|]. intros set os4 Hk4. cbv beta.
  assert (os_kept (g_os v) os4) as Hk04 by (by eapply os_kept_trans).
  wp_branch; by wp_step.
Qed.

Lemma wakeup_scan_quiet fuel fd v :
  (rx (g_os v) < fuel)%nat ->
  wp (wakeup_scan p fuel fd) (fun _ v' => (vrx v' <= vrx v)%nat /\ vtx v' = vtx v) v.
Proof.
  revert v. induction fuel as [|fuel IH]; intros v Hf; [lia|]. cbn [wakeup_scan].
  wp_step. apply wp_sys. pose proof (posix_read Hp fd (g_os v)) as Hr.
  destruct (os_read p fd (g_os v)) as [[ret b] os]. destruct Hr as (Hrx & Htx & Hlt). cbn [fst snd].
  wp_branch; [|by wp_step]. wp_branch; [by wp_step|].
  eapply wp_mono; [apply IH; rec_simpl; lia|]. intros r v'. rec_simpl. intros [H1 H2].
  split; [lia | congruence].
Qed.

(** The driver keeps the laws of a PHY. *)
Lemma virtual_laws : PhyLaws virtual_phy vrx vtx.
Proof.
  split; [split|]; unfold virtual_phy, iolink_phy_virtual_get;
    cbn [phy_init phy_set_mode phy_set_baudrate phy_detect_wakeup phy_get_voltage_mv
      phy_is_short_circuit phy_send phy_recv_byte]; try discriminate.
  - intros m [= <-] v. eapply wp_mono; [apply virtual_init_kept|]. by intros a v' (H1 & H2 & _).
  - intros m mode [= <-] v. by apply wp_ret.
  - intros m b [= <-] v. by apply wp_ret.
  - intros m [= <-] v. change (wp (virtual_detect_wakeup p (S (vrx v)))
      (fun _ v' => (vrx v' <= vrx v)%nat /\ vtx v' = vtx v) v).
    unfold virtual_detect_wakeup. wp_step. wp_step. wp_branch; [by wp_step|]. apply wakeup_scan_quiet. lia.
  - intros m data [= <-] Hd v. unfold virtual_send. wp_step. wp_step. wp_branch; [wp_step; cbn; rewrite app_nil_r; split; (lia || done)|].
    wp_branch; [wp_step; destruct data; [done|unfold zlen in *; cbn in *; lia]|].
    apply wp_sys. pose proof (posix_write Hp (g_fd v) data (g_os v) Hd) as Hw.
    by destruct (os_write p (g_fd v) data (g_os v)) as [ret os].
  - intros m [= <-] v. unfold virtual_recv_byte. wp_step. wp_step. wp_branch; [wp_step; cbn; split_and!; (done || lia)|].
    wp_step. apply wp_sys. pose proof (posix_read Hp (g_fd v) (g_os v)) as Hr.
    destruct (os_read p (g_fd v) (g_os v)) as [[ret b] os]. destruct Hr as (Hrx & Htx & Hlt). wp_step.
    rec_simpl. cbn [fst snd]. split_and!; [done..|]. intros Hpos. apply Hlt. case_decide; lia.
Qed.

Lemma virtual_starts : PhyStarts virtual_phy.
Proof.
  split; unfold virtual_phy, iolink_phy_virtual_get; cbn [phy_init phy_set_mode phy_set_baudrate].
  - intros m [= <-] v. eapply wp_mono; [apply virtual_init_kept|]. intros a v' (_ & _ & H). split; [done|].
    revert H. unfold memory. cbn.
    destruct (iolink_nvm_read 0 nvm_size (g_os v)) as [[? ?] ?], (iolink_nvm_read 0 nvm_size (g_os v')) as [[? ?] ?].
    done.
  - intros m mode [= <-] v. by apply wp_ret.
  - intros m b [= <-] v. by apply wp_ret.
Qed.

(** The platform below it leaves the line alone when the system's does. *)
Lemma virtual_keeps : PlatformKeeps rx tx -> PlatformKeeps vrx vtx.
Proof.
  intros Hk. split; cbn.
  - intros v. pose proof (keeps_time_ms _ _ Hk (g_os v)) as H. by destruct (iolink_time_get_ms (g_os v)).
  - intros v. pose proof (keeps_time_us _ _ Hk (g_os v)) as H. by destruct (iolink_time_get_us (g_os v)).
  - intros off data v. pose proof (keeps_nvm_write _ _ Hk off data (g_os v)) as H.
    by destruct (iolink_nvm_write off data (g_os v)).
Qed.
End virtual_laws.

(** ** The command line *)

(** [atoi]: blanks, a sign, and the digits up to the first other character. *)
Fixpoint atoi_digits (s : list Z) (n : Z) : Z :=
  match s with
  | ch :: s' => if decide (48 <= ch <= 57) then atoi_digits s' (10 * n + (ch - 48)) else n
  | [] => n
  end.

Fixpoint atoi (s : list Z) : Z :=
  match s with
  | ch :: s' =>
    if decide (ch = 32 \/ 9 <= ch <= 13) then atoi s'
    else if decide (ch = 45) then - atoi_digits s' 0
    else if decide (ch = 43) then atoi_digits s' 0
    else atoi_digits s 0
  | [] => 0
  end.

(** The sequence type of the second argument.
    host_demo/src/main.c:28-49 m_seq_type *)
Definition host_demo_type (argv : list (list Z)) : iolink_m_seq_type_t :=
  match argv !! 2%nat with
  | None => IOLINK_M_SEQ_TYPE_0
  | Some arg =>
    let type := atoi arg in
    if decide (type = 1) then IOLINK_M_SEQ_TYPE_1_2
    else if decide (type = 2) then IOLINK_M_SEQ_TYPE_2_2
    else if decide (type = 3) then IOLINK_M_SEQ_TYPE_1_V
    else if decide (type = 4) then IOLINK_M_SEQ_TYPE_2_V
    else IOLINK_M_SEQ_TYPE_0
  end.

(** The configuration; the length is cast to [uint8_t].
    host_demo/src/main.c:51-62 config *)
Definition host_demo_config (argv : list (list Z)) : iolink_config_t :=
  let type := host_demo_type argv in
  let len := match argv !! 3%nat with
             | Some arg => u8 (atoi arg)
             | None => if decide (type <> IOLINK_M_SEQ_TYPE_0) then 2 else 0
             end in
  mk_config type 0 len len 0.

(** ** The main loop *)

Section loop.
Context {W : Type} `{!Platform W} (phy : iolink_phy_api_t W) (rx : W -> nat) (tx : W -> list (list Z)).
Implicit Types (c : iolink_dll_ctx_t W) (g : core W).

(** [for (int i = 0; i < len; i++) pd_buffer[i]++;]
    host_demo/src/main.c:95-97 pd_buffer *)
Definition increments (len : Z) (pd_buffer : list Z) : M (core W) (list Z) :=
  for_acc (Z.to_nat len) 0 pd_buffer (fun i buf => b ← rd buf i; wr buf i (u8 (b + 1))).

(** The echo of the output process data; [pd_buffer] is the local array, not
    initialised. host_demo/src/main.c:90-99 iolink_pd_output_read *)
Definition host_demo_echo (pd_buffer : list Z) : M (core W) unit :=
  r ← iolink_pd_output_read (Some pd_buffer) (zlen pd_buffer);
  let '(len, buf) := r in
  match buf with
  | None => mret tt
  | Some buf =>
    when (0 < len)
      (buf ← increments len buf;
       iolink_pd_input_update (Some buf) len true ;; mret tt)
  end.

(** One turn of the loop; what passes during [usleep] is in the hardware state.
    host_demo/src/main.c:82-104 iolink_process *)
Definition host_demo_turn (pd_buffer : list Z) : M (core W) unit :=
  run_call rx CallProcess ;;
  run_call rx CallProcess ;;
  host_demo_echo pd_buffer.

(** The states at the head of the loop. *)
Inductive turns g : core W -> Prop :=
| turns_start : turns g g
| turns_sleep g1 w : turns g g1 -> turns g (with_hw w g1)
| turns_turn pd_buffer g1 g2 :
    turns g g1 -> zlen pd_buffer = 32 -> host_demo_turn pd_buffer g1 = Done (tt, g2) -> turns g g2.

Lemma wp_increments n buf (Q : list Z -> core W -> Prop) g :
  0 <= n <= zlen buf ->
  Q (((fun b => u8 (b + 1)) <$> take (Z.to_nat n) buf) ++ drop (Z.to_nat n) buf) g ->
  wp (increments n buf) Q g.
Proof.
  intros Hn HQ. unfold increments.
  apply (wp_for_acc (fun i buf' g' => g' = g /\
    buf' = ((fun b => u8 (b + 1)) <$> take (Z.to_nat i) buf) ++ drop (Z.to_nat i) buf)).
  - done.
  - intros j buf' g' Hj [-> ->].
    assert (Z.to_nat j < length buf)%nat as Hl by (unfold zlen in *; lia).
    destruct (lookup_lt_is_Some_2 buf (Z.to_nat j) Hl) as [b Hb].
    assert (length ((fun b => u8 (b + 1)) <$> take (Z.to_nat j) buf) = Z.to_nat j) as Hlen
      by (rewrite length_fmap, length_take; lia).
    rewrite (drop_S buf b (Z.to_nat j) Hb).
    assert (0 <= j < zlen (((fun b => u8 (b + 1)) <$> take (Z.to_nat j) buf) ++ b :: drop (S (Z.to_nat j)) buf)) as Hz
      by (unfold zlen; rewrite length_app, Hlen; cbn [length]; lia).
    wp_step. apply wp_rd; [exact Hz|]. intros x Hx.
    rewrite lookup_app_r, Hlen, Nat.sub_diag in Hx by lia. injection Hx as <-.
    apply wp_wr; [exact Hz|]. split; [done|].
    rewrite insert_app_r_alt, Hlen, Nat.sub_diag by lia.
    replace (Z.to_nat (j + 1)) with (S (Z.to_nat j)) by lia.
    rewrite (take_S_r _ _ _ Hb), fmap_app, <- app_assoc. done.
  - intros a' g' [-> ->]. replace (Z.to_nat (0 + Z.of_nat (Z.to_nat n))) with (Z.to_nat n) by lia. exact HQ.
Qed.

(** The echo of the output process data: each byte plus one. *)
Definition echoed c : list Z := (fun b => u8 (b + 1)) <$> take (Z.to_nat (dll_pd_out_len c)) (dll_pd_out c).

Lemma wp_host_demo_echo pd_buffer (Q : unit -> core W -> Prop) g :
  core_wf phy g -> zlen pd_buffer = 32 ->
  Q tt (if decide (0 < dll_pd_out_len (g_dll_ctx g))
        then g<| g_sys := (g_sys g)<| sys_dll := updated_ctx (g_dll_ctx g) (echoed (g_dll_ctx g)) true |> |>
        else g) ->
  wp (host_demo_echo pd_buffer) Q g.
Proof.
  intros [[Hc _] Hn] Hb HQ. fold (g_dll_ctx g) in Hc. pose proof Hc as (_ & _ & _ & _ & (Hz & _) & (Hzo & _) & _).
  unfold host_demo_echo. wp_step. apply wp_output_read; [done | done | lia|]. cbv zeta.
  rewrite Hb, Z.min_r by lia. set (n := dll_pd_out_len (g_dll_ctx g)) in *.
  set (out := take (Z.to_nat n) (dll_pd_out (g_dll_ctx g))).
  assert (length out = Z.to_nat n) as Hlo by (unfold out, zlen in *; rewrite length_take; lia).
  assert (zlen out = n) as Hzn by (unfold zlen; lia).
  apply wp_when; intros Hpos; [rewrite decide_True in HQ by done | rewrite decide_False in HQ by done; done].
  wp_step. apply wp_increments; [rewrite zlen_front_set; lia|].
  unfold front_set. rewrite take_app_length', drop_app_length' by done.
  change ((fun b => u8 (b + 1)) <$> out) with (echoed (g_dll_ctx g)). cbv beta.
  assert (zlen (echoed (g_dll_ctx g)) = n) as He by (unfold echoed, zlen; rewrite length_fmap; fold n out; rewrite Hlo; lia).
  assert (length (echoed (g_dll_ctx g)) = Z.to_nat n) as Hle by (unfold zlen in He; lia).
  pose proof (zlen_nonneg (drop (length out) pd_buffer)).
  wp_step. apply wp_input_update; [done | lia | rewrite zlen_app; lia|].
  wp_step. revert HQ. unfold updated_ctx. rewrite He, take_app_length' by done. done.
Qed.

Context (Hphy : PhyLaws phy rx tx) (Hplat : PlatformKeeps rx tx).

Lemma echoed_ok c : bytes_ok (echoed c).
Proof. apply Forall_fmap, Forall_true. intros b. apply u8_range. Qed.

(** A turn returns and keeps the invariant. *)
Lemma wp_host_demo_turn pd_buffer (Q : unit -> core W -> Prop) g :
  core_wf phy g -> zlen pd_buffer = 32 -> (forall g', core_wf phy g' -> Q tt g') ->
  wp (host_demo_turn pd_buffer) Q g.
Proof.
  intros Hg Hb HQ. unfold host_demo_turn.
  wp_step. apply (wp_call phy rx tx Hphy Hplat CallProcess); [done..|]. intros g1 Hg1 _. cbv beta.
  wp_step. apply (wp_call phy rx tx Hphy Hplat CallProcess); [done..|]. intros g2 Hg2 _. cbv beta.
  apply wp_host_demo_echo; [done..|]. apply HQ. case_decide as Hn; [|done].
  pose proof Hg2 as [[Hc He] Ho]. split; [split|]; [|done..]. destruct g2 as [[c e] cfg].
  unfold g_dll_ctx in *. cbn [g_sys sys_dll] in *. rec_simpl.
  pose proof Hc as (_ & _ & _ & _ & (Hz & Hin) & (Hzo & _) & _).
  apply ctx_wf_input; [done| |by apply front_set_ok, Hin; apply echoed_ok].
  rewrite zlen_front_set; [done|]. unfold echoed, zlen in *. rewrite length_fmap, length_take. lia.
Qed.

Lemma turns_wf g g' : core_wf phy g -> turns g g' -> core_wf phy g'.
Proof.
  intros Hg. induction 1 as [|g1 w _ IH|b g1 g2 _ IH Hb Hrun]; [done| |].
  - destruct IH as [[Hc [He1 He2]] Ho]. by split.
  - pose proof (wp_host_demo_turn b (fun _ g' => core_wf phy g') g1 IH Hb (fun g' H => H)) as H.
    by apply (wp_elim _ _ _ _ _ H) in Hrun.
Qed.
End loop.

(** ** The program *)

Section program.
Context {OS : Type} `{!Platform OS} (p : posix OS) (rx : OS -> nat) (tx : OS -> list (list Z)).
Implicit Types (g : core (@virtual OS)).

(** [main] up to its loop: -1 when it returns before it, else 0.  The messages
    are left out. host_demo/src/main.c:15-75 main *)
Definition host_demo_start (argv : list (list Z)) : M (core (@virtual OS)) Z :=
  match argv !! 1%nat with
  | None => mret (-1)
  | Some tty =>
    on_dll (hw (iolink_phy_virtual_set_port (Some tty))) ;;
    err ← iolink_init (Some (virtual_phy p rx)) (Some (host_demo_config argv));
    mret (if decide (err <> 0) then -1 else 0)
  end.

(** The stack started over the virtual driver. *)
Lemma wp_virtual_start `{!NvmReadBounded OS} config (Q : Z -> core (@virtual OS) -> Prop) g :
  PosixLaws p rx tx -> config_ok config -> params_wf (sys_env (g_sys g)) -> nvm_image_ok (g_os (g_hw g)) ->
  (forall err g', err <> 0 -> Q err g') ->
  (forall d g', core_wf (virtual_phy p rx) g' -> g_dll_ctx g' = configured config d (dll_started (virtual_phy p rx)) -> Q 0 g') ->
  wp (iolink_init (Some (virtual_phy p rx)) (Some config)) Q g.
Proof.
  intros Hp Hcfg He Him HQe HQ. apply (wp_init (virtual_phy p rx) (virtual_starts p rx tx Hp)).
  - exact He.
  - revert Him. unfold nvm_image_ok, g_hw. cbn. by destruct (iolink_nvm_read 0 nvm_size (g_os (pe_hw (sys_env (g_sys g))))) as [[? ?] ?].
  - intros deadline e _ _ He' _. apply (HQ deadline); [|done]. split; [split|]; [|done | apply Hcfg].
    by apply configured_wf, Hcfg; apply dll_started_wf.
  - intros err e Herr _ _. by apply HQe.
Qed.

Lemma wp_set_port port (Q : unit -> core (@virtual OS) -> Prop) g :
  (forall g', sys_env (g_sys g') = (sys_env (g_sys g))<| pe_hw := (g_hw g)<| g_port_path := port |> |> -> Q tt g') ->
  wp (on_dll (hw (iolink_phy_virtual_set_port port))) Q g.
Proof.
  intros HQ. apply wp_zoom, wp_zoom. unfold iolink_phy_virtual_set_port. apply wp_assign. apply HQ.
  by destruct g as [[c [i sh v]] cfg].
Qed.

Lemma wp_host_demo_start `{!NvmReadBounded OS} argv (Q : Z -> core (@virtual OS) -> Prop) g :
  PosixLaws p rx tx -> config_ok (host_demo_config argv) ->
  params_wf (sys_env (g_sys g)) -> nvm_image_ok (g_os (g_hw g)) ->
  (forall g', Q (-1) g') -> (forall g', core_wf (virtual_phy p rx) g' -> Q 0 g') ->
  wp (host_demo_start argv) Q g.
Proof.
  intros Hp Hcfg He Him HQe HQ. unfold host_demo_start. destruct (argv !! 1%nat) as [tty|]; [|wp_step; apply HQe].
  wp_step. apply wp_set_port. intros g1 Hg1. wp_step. apply wp_virtual_start; try done.
  - by rewrite Hg1.
  - unfold g_hw. by rewrite Hg1.
  - intros err g' Herr. wp_step. rewrite decide_True by done. apply HQe.
  - intros d g' Hg' _. wp_step. rewrite decide_False by (intros H; by apply H). by apply HQ.
Qed.

(** C17. The host demonstration never faults.  Over any system whose POSIX calls
    keep their laws, any memory with a regular image and any clock, and for any
    command line whose process data fit the buffers: the start-up returns, and
    when it succeeds the main loop turns for ever: whatever arrives on the
    line and passes during the sleep, however often it has turned, the next turn
    returns, without a NULL pointer followed or a buffer overrun. *)
Theorem host_demo_never_faults `{!NvmReadBounded OS} argv g :
  PosixLaws p rx tx -> PlatformKeeps rx tx -> config_ok (host_demo_config argv) ->
  params_wf (sys_env (g_sys g)) -> nvm_image_ok (g_os (g_hw g)) ->
  exists r g1, host_demo_start argv g = Done (r, g1) /\ (r = 0 \/ r = -1) /\
    (r = 0 -> forall g2, turns (fun v => rx (g_os v)) g1 g2 ->
       forall pd_buffer, zlen pd_buffer = 32 ->
         exists g3, host_demo_turn (fun v => rx (g_os v)) pd_buffer g2 = Done (tt, g3)).
Proof.
  intros Hp Hplat Hcfg He Him.
  assert (wp (host_demo_start argv) (fun r g1 => (r = 0 \/ r = -1) /\ (r = 0 -> core_wf (virtual_phy p rx) g1)) g) as H.
  { apply wp_host_demo_start; [done..| |].
    - intros g'. split; [by right | done].
    - intros g' Hg'. split; [by left | done]. }
  apply wp_done in H as (r & g1 & Hrun & Hr & Hwf). exists r, g1. split; [done|]. split; [done|].
  intros Hr0 g2 Hturns pd_buffer Hb. pose proof (virtual_laws p rx tx Hp) as Hl.
  pose proof (virtual_keeps rx tx Hplat) as Hk.
  pose proof (turns_wf _ _ _ Hl Hk g1 g2 (Hwf Hr0) Hturns) as Hg2.
  pose proof (wp_host_demo_turn _ _ _ Hl Hk pd_buffer (fun _ _ => True) g2 Hg2 Hb (fun _ _ => I)) as H.
  apply wp_done in H as ([] & g3 & Hrun3 & _). by exists g3.
Qed.
End program.

(** ** The simple device *)

Section simple_device.
Context {W : Type} `{!Platform W}.

(** Every function is NULL. simple_device/src/main.c:12-19 g_hw_phy *)
Definition g_hw_phy : iolink_phy_api_t W := mk_phy_api None None None None None None None None None.

(** simple_device/src/main.c:21-34 main *)
Definition simple_device_main : M (core W) Z :=
  err ← iolink_init (Some g_hw_phy) None;
  mret (if decide (err <> 0) then -1 else 0).

(** The stack starts without any hardware. *)
Lemma simple_device_returns `{!NvmReadBounded W} (g : core W) :
  params_wf (sys_env (g_sys g)) -> nvm_image_ok (g_hw g) ->
  wp simple_device_main (fun r g' => r = 0 /\ core_wf g_hw_phy g') g.
Proof.
  intros He Him. unfold simple_device_main. wp_step.
  apply (wp_init g_hw_phy ltac:(by split) _ _ g He Him); [|by intros err e _ _ (? & ? & [=] & _)].
  intros deadline e _ _ He' _. wp_step. split; [done|]. split; [split|]; [|done|done].
  apply configured_wf; [apply dll_started_wf | done].
Qed.
End simple_device.

Lemma g_dll_ctx_set {W} `{!Platform W} (g : core W) c :
  g_dll_ctx (g<| g_sys := (g_sys g)<| sys_dll := c |> |>) = c.
Proof. done. Qed.

(** C18. The host demonstration echoes.  One turn of its loop, from any state the
    stack can be in: after the two calls of [iolink_process] it leaves a device
    without output process data alone; otherwise the new input process data,
    valid and with the toggle flipped, are the output process data with one added
    to every byte (modulo 256), and so, with lengths that agree, is what
    answers the next cyclic frame. *)
Theorem host_demo_echoes {W} `{!Platform W} (phy : iolink_phy_api_t W) rx tx pd_buffer g :
  PhyLaws phy rx tx -> PlatformKeeps rx tx -> core_wf phy g -> zlen pd_buffer = 32 ->
  exists g1 g2 g3,
    run_call rx CallProcess g = Done (tt, g1) /\ run_call rx CallProcess g1 = Done (tt, g2) /\
    host_demo_turn rx pd_buffer g = Done (tt, g3) /\
    (dll_pd_out_len (g_dll_ctx g2) = 0 -> g3 = g2) /\
    (0 < dll_pd_out_len (g_dll_ctx g2) -> dll_pd_out_len (g_dll_ctx g2) = dll_pd_in_len_current (g_dll_ctx g2) ->
       (forall i, (i < Z.to_nat (dll_pd_out_len (g_dll_ctx g2)))%nat ->
          dll_pd_in (g_dll_ctx g3) !! i = (fun b => u8 (b + 1)) <$> dll_pd_out (g_dll_ctx g2) !! i) /\
       forall od, response_frame (g_dll_ctx g3) od =
         data_frame (g_dll_ctx g2) (echoed (g_dll_ctx g2)) od true).
Proof.
  intros Hphy Hplat Hg Hb.
  pose proof (wp_call phy rx tx Hphy Hplat CallProcess (fun _ g1 => core_wf phy g1) g Hg I (fun g' H _ => H)) as H.
  apply wp_done in H as ([] & g1 & Hrun1 & Hg1).
  pose proof (wp_call phy rx tx Hphy Hplat CallProcess (fun _ g2 => core_wf phy g2) g1 Hg1 I (fun g' H _ => H)) as H.
  apply wp_done in H as ([] & g2 & Hrun2 & Hg2). exists g1, g2.
  eexists. split; [exact Hrun1|]. split; [exact Hrun2|].
  assert (forall g3, wp (host_demo_echo pd_buffer) (fun _ g' => g' = g3) g2 ->
    host_demo_turn rx pd_buffer g = Done (tt, g3)) as Hturn.
  { intros g3 H3. unfold host_demo_turn, mbind, M_bind. rewrite Hrun1, Hrun2.
    apply wp_done in H3 as ([] & g' & Hrun3 & ->). exact Hrun3. }
  split; [apply Hturn; by eapply wp_host_demo_echo|].
  pose proof Hg2 as [[Hc _] Ho]. pose proof Hc as (_ & _ & _ & _ & (Hz & _) & (Hzo & _) & _).
  fold (g_dll_ctx g2) in *. set (n := dll_pd_out_len (g_dll_ctx g2)) in *.
  assert (length (echoed (g_dll_ctx g2)) = Z.to_nat n) as Hle
    by (unfold echoed, zlen in *; rewrite length_fmap, length_take; fold n; lia).
  split; [intros Hn; rewrite decide_False by lia; done|]. intros Hpos Heq. rewrite decide_True by done.
  rewrite g_dll_ctx_set. split.
  - intros i Hi. unfold updated_ctx. rec_simpl. unfold front_set.
    rewrite lookup_app_l by lia. unfold echoed. rewrite list_lookup_fmap. fold n. by rewrite lookup_take_lt by lia.
  - intros od. apply updated_response. unfold zlen. lia.
Qed.

(** ** Witnesses: the demonstration on a line *)

Definition line_posix : posix line :=
  mk_posix _ (fun _ os => (3, os)) (fun _ os => (true, os)) (fun _ os => (0, os)) (fun _ os => (0, os))
    (fun _ os => match line_in os with [] => (0, 0, os) | b :: bs => (1, b, os<| line_in := bs |>) end)
    (fun _ data os => (zlen data, os<| line_out := line_out os ++ [data] |>)).

Lemma line_posix_laws : PosixLaws line_posix (fun os => length (line_in os)) line_out.
Proof.
  split; cbn; try done.
  - intros _ os. destruct (line_in os) as [|b bs] eqn:Hin; rewrite ?Hin; cbn; split_and!; (done || lia).
  - intros _ data os _. pose proof (zlen_nonneg data). rewrite decide_True by done. by split.
Qed.

(** host_demo /dev/pts/1 1 2 *)
Definition demo_argv : list (list Z) := [[104]; [47; 100; 101; 118]; [49]; [50]].

Definition host_core : core (@virtual line) :=
  mk_core (mk_dll_sys dll_zero (mk_params_env (pe_info params_demo) (pe_shadow params_demo)
    (mk_virtual (-1) None (mk_line [] [] true (mk_ram [] 0))))) config_default.

Lemma host_core_starts :
  exists g1, host_demo_start line_posix (fun os => length (line_in os)) demo_argv host_core = Done (0, g1).
Proof. eexists. vm_compute. reflexivity. Qed.

Lemma host_core_image : nvm_image_ok (g_os (g_hw host_core)).
Proof. unfold nvm_image_ok. vm_compute. discriminate. Qed.

Lemma host_core_wf : params_wf (sys_env (g_sys host_core)).
Proof. exact params_demo_wf. Qed.

Lemma host_demo_never_faults_witness :
  exists g1 g3, host_demo_start line_posix (fun os => length (line_in os)) demo_argv host_core = Done (0, g1) /\
    host_demo_turn (fun v => length (line_in (g_os v))) (replicate 32 0xee) g1 = Done (tt, g3).
Proof.
  destruct (host_demo_never_faults line_posix (fun os => length (line_in os)) line_out demo_argv host_core
    line_posix_laws line_keeps_out ltac:(split; vm_compute; split; discriminate) host_core_wf host_core_image)
    as (r & g1 & Hrun & _ & Hgo).
  destruct host_core_starts as [g1' Hrun'].
  assert (r = 0) as -> by (rewrite Hrun in Hrun'; congruence).
  destruct (Hgo eq_refl g1 (turns_start _ _) (replicate 32 0xee) eq_refl) as [g3 H3].
  exists g1, g3. split; [exact Hrun | exact H3].
Defined.

Lemma host_demo_echoes_witness :
  exists g3, host_demo_turn (fun w => length (line_in w)) (replicate 32 0xee) (core_running demo_one) = Done (tt, g3) /\
    take 2 (dll_pd_in (g_dll_ctx g3)) = [0xab; 0xbc].
Proof.
  destruct (host_demo_echoes line_phy (fun w => length (line_in w)) line_out (replicate 32 0xee)
    (core_running demo_one) line_laws line_keeps_out (core_running_wf _) eq_refl)
    as (g1 & g2 & g3 & Hrun1 & Hrun2 & Hturn & _).
  exists g3. split; [exact Hturn|]. revert Hturn. vm_compute. intros [= <-]. reflexivity.
Defined.
