(* ===== verification/ZephyrApp.v ===== *)
(** * The Zephyr application (examples/zephyr_app)

    The program takes its configuration from the environment and runs the stack
    over the virtual driver for ever. *)
From S2P Require Export Demo.
Import PhyVirtual.
#[local] Open Scope Z_scope.

(** The results of [getenv]. zephyr_app/src/main.c:29-29 getenv *)
Record zephyr_env := mk_zephyr_env {
  env_port : option (list Z);
  env_m_seq_type : option (list Z);
  env_pd_len : option (list Z)
}.

(** The type is an [int] cast to the enumeration, an [unsigned int]; the length
    is cast to [uint8_t]. zephyr_app/src/main.c:40-60 config *)
Definition zephyr_config (env : zephyr_env) : iolink_config_t :=
  let type := match env_m_seq_type env with
              | Some s => m_seq_type_of (u32 (atoi s))
              | None => IOLINK_M_SEQ_TYPE_0
              end in
  let len := match env_pd_len env with Some s => u8 (atoi s) | None => 2 end in
  mk_config type 0 len len 0.

Section program.
Context {OS : Type} `{!Platform OS} (p : posix OS) (rx : OS -> nat) (tx : OS -> list (list Z)).
Implicit Types (g : core (@virtual OS)).

(** [main] up to its loop; the messages are left out.
    zephyr_app/src/main.c:25-66 main *)
Definition zephyr_start (env : zephyr_env) : M (core (@virtual OS)) Z :=
  match env_port env with
  | Some port => on_dll (hw (iolink_phy_virtual_set_port (Some port)))
  | None => mret tt
  end ;;
  err ← iolink_init (Some (virtual_phy p rx)) (Some (zephyr_config env));
  mret (if decide (err <> 0) then -1 else 0).

(** The states at the head of the loop; what passes during [k_msleep] is in the
    hardware state. zephyr_app/src/main.c:68-71 iolink_process *)
Inductive zephyr_turns g : core (@virtual OS) -> Prop :=
| zephyr_head : zephyr_turns g g
| zephyr_sleep g1 w : zephyr_turns g g1 -> zephyr_turns g (with_hw w g1)
| zephyr_process g1 g2 :
    zephyr_turns g g1 -> run_call (fun v => rx (g_os v)) CallProcess g1 = Done (tt, g2) -> zephyr_turns g g2.

Lemma wp_zephyr_start `{!NvmReadBounded OS} env (Q : Z -> core (@virtual OS) -> Prop) g :
  PosixLaws p rx tx -> config_ok (zephyr_config env) -> params_wf (sys_env (g_sys g)) -> nvm_image_ok (g_os (g_hw g)) ->
  (forall g', Q (-1) g') ->
  (forall d g', core_wf (virtual_phy p rx) g' ->
     g_dll_ctx g' = configured (zephyr_config env) d (dll_started (virtual_phy p rx)) -> Q 0 g') ->
  wp (zephyr_start env) Q g.
Proof.
  intros Hp Hcfg He Him HQe HQ. unfold zephyr_start. wp_step.
  apply (wp_mono _ (fun _ g1 => params_wf (sys_env (g_sys g1)) /\ nvm_image_ok (g_os (g_hw g1)))).
  - destruct (env_port env) as [port|]; [|by wp_step]. apply wp_set_port. intros g1 Hg1. unfold g_hw. by rewrite Hg1.
  - intros [] g1 [He1 Him1]. wp_step. apply (wp_virtual_start p rx tx); try done.
    intros err g' Herr. wp_step. rewrite decide_True by done. apply HQe.
Qed.

Lemma zephyr_turns_wf g g' :
  PosixLaws p rx tx -> PlatformKeeps rx tx ->
  core_wf (virtual_phy p rx) g -> zephyr_turns g g' -> core_wf (virtual_phy p rx) g'.
Proof.
  intros Hp Hplat Hg. pose proof (virtual_laws p rx tx Hp) as Hl. pose proof (virtual_keeps rx tx Hplat) as Hk.
  induction 1 as [|g1 w _ IH|g1 g2 _ IH Hrun]; [done| |].
  - destruct IH as [[Hc [He1 He2]] Ho]. by split.
  - pose proof (wp_call _ _ _ Hl Hk CallProcess (fun _ g' => core_wf (virtual_phy p rx) g') g1 IH I (fun g' H _ => H)) as H.
    by apply (wp_elim _ _ _ _ _ H) in Hrun.
Qed.

(** The Zephyr application never faults.  Over any system whose POSIX calls keep
    their laws, any memory with a regular image and any clock, and for any
    environment whose length (2 without one) fits the buffers: the start-up
    returns; when it succeeds, the stack runs with the low byte of the number in
    the environment as its sequence type, one on-request byte a frame when that is
    none of the types 2, and the length in both directions; and whatever arrives
    on the line and passes during the sleep, however often the loop has turned,
    the next call of [iolink_process] returns. *)
Theorem zephyr_never_faults `{!NvmReadBounded OS} env g :
  PosixLaws p rx tx -> PlatformKeeps rx tx -> config_ok (zephyr_config env) ->
  params_wf (sys_env (g_sys g)) -> nvm_image_ok (g_os (g_hw g)) ->
  exists r g1, zephyr_start env g = Done (r, g1) /\ (r = 0 \/ r = -1) /\
    (r = 0 ->
       iolink_get_m_seq_type g1 = from_option (fun s => u8 (atoi s)) 0 (env_m_seq_type env) /\
       dll_od_len (g_dll_ctx g1) = (if decide (m_seq_is_type2 (iolink_get_m_seq_type g1)) then 2 else 1) /\
       iolink_get_pd_in_len g1 = iolink_get_pd_out_len g1 /\
       forall g2, zephyr_turns g1 g2 ->
         exists g3, run_call (fun v => rx (g_os v)) CallProcess g2 = Done (tt, g3)).
Proof.
  intros Hp Hplat Hcfg He Him. set (phy := virtual_phy p rx).
  assert (wp (zephyr_start env) (fun r g1 => (r = 0 \/ r = -1) /\ (r = 0 -> core_wf phy g1 /\
    exists d, g_dll_ctx g1 = configured (zephyr_config env) d (dll_started phy))) g) as H.
  { apply wp_zephyr_start; [done..| |].
    - intros g'. split; [by right | done].
    - intros d g' Hg' Hd. split; [by left | by eauto]. }
  apply wp_done in H as (r & g1 & Hrun & Hr & Hwf). exists r, g1. split; [done|]. split; [done|].
  intros [Hg1 (d & Hd)]%Hwf. unfold iolink_get_m_seq_type, iolink_get_pd_in_len, iolink_get_pd_out_len.
  rewrite Hd. unfold configured. cbv zeta. rec_simpl. unfold zephyr_config. cbn [cfg_m_seq_type cfg_pd_in_len cfg_pd_out_len].
  split; [|split; [done|split; [done|]]].
  - destruct (env_m_seq_type env) as [s|]; [|done]. cbn. rewrite m_seq_type_val_of. unfold u8, u32. lia.
  - intros g2 Hturns. pose proof (zephyr_turns_wf g1 g2 Hp Hplat Hg1 Hturns) as Hg2.
    pose proof (wp_call _ _ _ (virtual_laws p rx tx Hp) (virtual_keeps rx tx Hplat) CallProcess (fun _ _ => True) g2 Hg2 I (fun _ _ _ => I)) as H.
    apply wp_done in H as ([] & g3 & Hrun3 & _). by exists g3.
Qed.

(** There is no default port: without one in the environment the start-up fails. *)
Lemma zephyr_needs_port env g :
  env_port env = None -> g_port_path (g_hw g) = None -> exists g1, zephyr_start env g = Done (-1, g1).
Proof.
  destruct g as [[c [i sh v]] cfg], v as [fd port os], env as [ep et el]. cbn. intros -> ->. by eexists.
Qed.
End program.

(** A type without an enumerator is stored and treated as a type 1. *)
Example zephyr_type_9 :
  exists g1, zephyr_start line_posix (fun os => length (line_in os)) (mk_zephyr_env (Some [47; 100]) (Some [57]) None) host_core = Done (0, g1) /\
    iolink_get_m_seq_type g1 = 9 /\ dll_od_len (g_dll_ctx g1) = 1 /\ iolink_get_pd_out_len g1 = 2.
Proof. eexists. split; [vm_compute; reflexivity|]. by vm_compute. Qed.
