(* ===== verification/BareMetal.v ===== *)
(** * The bare-metal sample application (examples/bare_metal_app)

    A super-loop around [iolink_process]: the tick counter of the platform is
    advanced once a turn, and the program ends when it passes 100.  It is linked
    with the clocks of platform/baremetal and the weak memory hooks, over the
    virtual driver.  The theorem is that the program ends. *)
From stdpp Require Import strings.
From S2P Require Export Demo.
Import PhyVirtual.
#[local] Open Scope Z_scope.

Section bare_metal.
Context {OS : Type} (p : posix OS).

(** ** The platform *)

(** The tick counter and the system the virtual driver calls.
    platform/baremetal/time_utils.c:20-20 g_iolink_ticks_ms *)
Record bare := mk_bare { g_iolink_ticks_ms : Z; bare_os : OS }.

#[export] Instance eta_bare : Eta bare := fun r => mk_bare (g_iolink_ticks_ms r) (bare_os r).
#[export] Instance update_g_iolink_ticks_ms : Update g_iolink_ticks_ms := ltac:(derive_update).
#[export] Instance update_bare_os : Update bare_os := ltac:(derive_update).

#[export] Instance bare_platform : Platform bare := {|
  iolink_nvm_read off len w := Weak.nvm_read off len w;
  iolink_nvm_write off data w := Weak.nvm_write off data w;
  iolink_time_get_ms w := (BareMetalTime.time_get_ms (g_iolink_ticks_ms w), w);
  iolink_time_get_us w := (BareMetalTime.time_get_us (g_iolink_ticks_ms w), w)
|}.

#[export] Instance bare_read_bounded : NvmReadBounded bare.
Proof. constructor. intros off len w Hl. cbn. split; [unfold zlen; cbn; lia|]. split; [done | constructor]. Qed.

(** A call of the system leaves the counter alone. *)
Definition bare_call {A} (call : OS -> A * OS) (w : bare) : A * bare :=
  let '(a, os) := call (bare_os w) in (a, w<| bare_os := os |>).

Definition bare_posix : posix bare :=
  mk_posix bare (fun path => bare_call (os_open p path)) (fun fd => bare_call (os_isatty p fd))
    (fun fd => bare_call (os_tcgetattr p fd)) (fun fd => bare_call (os_tcsetattr p fd))
    (fun fd => bare_call (os_read p fd)) (fun fd data => bare_call (os_write p fd data)).

(** ** The program *)

Implicit Types (g : core (@virtual bare)).
Context (rx : OS -> nat) (tx : OS -> list (list Z)).

Abbreviation brx := (fun w : bare => rx (bare_os w)).

Definition ticks g : Z := g_iolink_ticks_ms (g_os (g_hw g)).

Definition set_ticks (t : Z) g : core (@virtual bare) :=
  with_hw ((g_hw g)<| g_os := (g_os (g_hw g))<| g_iolink_ticks_ms := t |> |>) g.

(** bare_metal_app/src/main.c:15-18 sys_tick_handler *)
Definition sys_tick_handler : M (core (@virtual bare)) unit :=
  modify (fun g => set_ticks (u32 (ticks g + 1)) g).

(** bare_metal_app/src/main.c:20-45 main *)
Fixpoint super_loop (fuel : nat) : M (core (@virtual bare)) unit :=
  match fuel with
  | O => raise OutOfFuel
  | Datatypes.S fuel =>
    run_call (fun v => brx (g_os v)) CallProcess ;;
    sys_tick_handler ;;
    t ← gets ticks;
    if decide (100 < t) then mret tt else super_loop fuel
  end.

(** bare_metal_app/src/main.c:20-48 main *)
Definition bare_metal_main (fuel : nat) : M (core (@virtual bare)) Z :=
  on_dll (hw (iolink_phy_virtual_set_port (Some (c_string (c_str "/dev/null"))))) ;;
  err ← iolink_init (Some (virtual_phy bare_posix brx)) None;
  if decide (err <> 0) then mret (-1) else
  super_loop fuel ;;
  mret 0.

(** ** The program ends *)

(** The laws of the system, with the counter seen in front of the frames: no
    call of the driver changes it. *)
Definition ticking (w : bare) : list (list Z) := [g_iolink_ticks_ms w] :: tx (bare_os w).

Lemma bare_call_ticks {A} (call : OS -> A * OS) w :
  g_iolink_ticks_ms (snd (bare_call call w)) = g_iolink_ticks_ms w.
Proof. unfold bare_call. by destruct (call (bare_os w)). Qed.

Context (Hp : PosixLaws bare_posix brx (fun w => tx (bare_os w))).

Lemma ticking_kept (w w' : bare) :
  g_iolink_ticks_ms w' = g_iolink_ticks_ms w ->
  os_kept brx (fun w => tx (bare_os w)) w w' -> os_kept brx ticking w w'.
Proof. intros Ht (H1 & H2 & H3). unfold os_kept, ticking. by rewrite Ht, H2. Qed.

Lemma bare_laws : PosixLaws bare_posix brx ticking.
Proof.
  destruct Hp as [H1 H2 H3 H4 H5 H6]. split; intros.
  - apply ticking_kept; [apply bare_call_ticks | apply H1].
  - apply ticking_kept; [apply bare_call_ticks | apply H2].
  - apply ticking_kept; [apply bare_call_ticks | apply H3].
  - apply ticking_kept; [apply bare_call_ticks | apply H4].
  - specialize (H5 fd os). pose proof (bare_call_ticks (os_read p fd) os) as Ht. cbn [os_read bare_posix] in *.
    destruct (bare_call (os_read p fd) os) as [[ret b] os']. cbn [snd] in Ht. unfold ticking.
    destruct H5 as (? & -> & ?). by rewrite Ht.
  - specialize (H6 fd data os ltac:(done)). pose proof (bare_call_ticks (os_write p fd data) os) as Ht.
    cbn [os_write bare_posix] in *.
    destruct (bare_call (os_write p fd data) os) as [ret os']. cbn [snd] in Ht. unfold ticking.
    destruct H6 as (? & ->). by rewrite Ht.
Qed.

Abbreviation vphy := (virtual_phy bare_posix brx).
Abbreviation vticking := (fun v : @virtual bare => ticking (g_os v)).

Lemma bare_phy_laws : PhyLaws vphy (fun v => brx (g_os v)) vticking.
Proof. exact (virtual_laws bare_posix brx ticking bare_laws). Qed.

Lemma bare_keeps : PlatformKeeps (fun v => brx (g_os v)) vticking.
Proof. apply virtual_keeps. by split. Qed.

(** One turn: the stack's call leaves the counter alone, then it advances. *)
Lemma wp_super_turn fuel (Q : unit -> core (@virtual bare) -> Prop) g :
  core_wf vphy g ->
  (forall g', core_wf vphy g' -> ticks g' = u32 (ticks g + 1) ->
     wp (if decide (100 < ticks g') then mret tt else super_loop fuel) Q g') ->
  wp (super_loop (Datatypes.S fuel)) Q g.
Proof.
  intros Hg HQ. cbn [super_loop]. wp_step.
  apply (wp_process vphy _ _ bare_phy_laws bare_keeps); [done|]. intros s' Hs' _ (sent & Hsent).
  assert (ticks (mk_core s' (g_config g)) = ticks g) as Ht by (by injection Hsent).
  set (g1 := mk_core s' (g_config g)) in *. clearbody g1. wp_step. apply wp_modify. wp_step. apply wp_gets.
  rewrite Ht. apply HQ; [|done]. destruct Hs' as [[Hc [He1 He2]] Ho]. by split.
Qed.

(** From a count up to 100. *)
Lemma wp_super_loop fuel g :
  core_wf vphy g -> 0 <= ticks g <= 100 -> (Z.to_nat (101 - ticks g) <= fuel)%nat ->
  wp (super_loop fuel) (fun _ g' => 100 < ticks g') g.
Proof.
  revert g. induction fuel as [|fuel IH]; intros g Hg Ht Hf; [lia|].
  apply wp_super_turn; [done|]. intros g' Hg' Ht'. rewrite u32_small in Ht' by lia.
  case_decide; [by wp_step|]. apply IH; [done|lia..].
Qed.

(** From any count: the first turn wraps it at most once. *)
Lemma wp_super_loop_any fuel g :
  core_wf vphy g -> (102 <= fuel)%nat -> wp (super_loop fuel) (fun _ g' => 100 < ticks g') g.
Proof.
  intros Hg Hf. destruct fuel as [|fuel]; [lia|].
  apply wp_super_turn; [done|]. intros g' Hg' Ht'. case_decide; [by wp_step|].
  pose proof (u32_range (ticks g + 1)). apply wp_super_loop; [done|lia..].
Qed.

(** C19. The bare-metal application ends.  Over any system whose POSIX calls keep
    their laws, from any well-formed parameters and whatever the tick counter
    holds, [main] returns 0 or -1 without a fault, after at most 102 turns of
    its super-loop whatever is received; when it returns 0 the counter has
    passed 100. *)
Theorem bare_metal_main_ends fuel g :
  params_wf (sys_env (g_sys g)) -> (102 <= fuel)%nat ->
  exists r g', bare_metal_main fuel g = Done (r, g') /\ (r = 0 /\ 100 < ticks g' \/ r = -1).
Proof.
  intros He Hf.
  assert (wp (bare_metal_main fuel) (fun r g' => r = 0 /\ 100 < ticks g' \/ r = -1) g) as H;
    [|by apply wp_done in H].
  unfold bare_metal_main. wp_step. apply wp_zoom, wp_zoom, wp_assign. wp_step.
  apply (wp_init vphy (virtual_starts bare_posix brx ticking bare_laws)); try done.
  - intros deadline e _ _ He' _. rewrite decide_False by (intros H; by apply H). wp_step.
    eapply wp_mono; [apply wp_super_loop_any; [|done]|intros [] g' Ht; wp_step; by left].
    split; [split|]; [apply configured_wf; [apply dll_started_wf | done] | done | done].
  - intros err e Herr _ _. rewrite decide_True by done. wp_step. by right.
Qed.
End bare_metal.

(** ** Witness: a system whose /dev/null opens and brings nothing *)

Definition null_posix : posix unit :=
  mk_posix _ (fun _ os => (3, os)) (fun _ os => (false, os)) (fun _ os => (0, os)) (fun _ os => (0, os))
    (fun _ os => (0, 0, os)) (fun _ data os => (-1, os)).

Lemma null_posix_laws : PosixLaws (bare_posix null_posix) (fun _ => 0%nat) (fun _ => []).
Proof. by split. Qed.

Definition bare_core : core (@virtual bare) :=
  mk_core (mk_dll_sys dll_zero (mk_params_env (pe_info params_demo) (pe_shadow params_demo)
    (mk_virtual (-1) None (mk_bare 0 tt)))) config_default.

Lemma bare_core_runs : exists g', bare_metal_main null_posix (fun _ => 0%nat) 102 bare_core = Done (0, g').
Proof. eexists. vm_compute. reflexivity. Qed.

Lemma bare_metal_main_ends_witness :
  exists g', bare_metal_main null_posix (fun _ => 0%nat) 102 bare_core = Done (0, g') /\ 100 < ticks g'.
Proof.
  destruct (bare_metal_main_ends null_posix (fun _ => 0%nat) (fun _ => []) null_posix_laws 102 bare_core
    params_demo_wf (le_n _)) as (r & g' & Hrun & Hr).
  destruct bare_core_runs as [g1 Hrun1]. assert (r = 0 /\ g1 = g') as [-> ->] by (split; congruence).
  exists g'. split; [exact Hrun|]. destruct Hr as [[_ H]|H]; [exact H | discriminate H].
Defined.
